(* ===== verification/_CoqProject ===== *)
-Q . S2P
Prelude.v
GoStrings.v
Base64.v
World.v
GoJson.v
GoUrl.v
GoRegexp.v
IBTypes.v
IBFiles.v
IBConfig.v
IBValidate.v
IBUtils.v
IBManifests.v
IBArtifacts.v
IBBuild.v
BRUtils.v
BRWaiters.v
BREtcdadm.v
BRKubeadm.v
BRSnow.v
BRBootstrap.v
VTTypes.v
VTUtil.v
VTGithub.v
VTForge.v
VTGit.v
VTEksd.v
VTProject.v
VTBottlerocket.v
VTUpgrade.v
VTRun.v
VTCommands.v
