(* ===== verification/Prelude.v ===== *)
(** * EKS Anywhere build tooling: a verification development

    The repository builds the upstream components of EKS Anywhere. Most of it is make
    files, shell, patches and attribution data; the Go code that belongs to it is three
    programs, and these are what is modelled here, each from its own sources.

    ** The programs and their files

    - _image-builder_ ([src/projects/aws/image-builder]) checks the options and the
      configuration of a machine image, prepares the build-tooling repository and runs the
      build. [IBTypes] has the data of [builder/types.go], [constants.go] and [files.go];
      [IBFiles] the additional files of an AMI, with the slices they share; [IBConfig] the
      JSON of the five configurations; [IBValidate] [ValidateInputs] of [cmd/build.go];
      [IBUtils], [IBManifests], [IBArtifacts] and [IBBuild] are [builder/utils.go],
      [manifests.go], [artifacts.go] and [builder.go].
    - _bottlerocket-bootstrap_ ([src/projects/aws/bottlerocket-bootstrap]) runs in a container
      of a Bottlerocket node and makes the node a member of a cluster. [BRUtils] is
      [pkg/utils] without the waiters, [pkg/files], [pkg/executables] and [pkg/service];
      [BRWaiters] is [pkg/utils/waiters.go]; [BREtcdadm], [BRKubeadm] and [BRSnow] are the
      packages [etcdadm], [kubeadm] and [providers/snow]; [BRBootstrap] is [pkg/bootstrap.go]
      and [main.go], where the three come together behind the record [bootstrapper].
    - _version-tracker_ ([src/tools/version-tracker]) compares the version of each upstream
      project with the newest one and opens a pull request that upgrades it. [VTTypes] is
      [pkg/types], [pkg/constants] and [pkg/util/slices]; [VTUtil] the other packages of
      [pkg/util] and [pkg/ecrpublic]; [VTGithub] and [VTGit] are [pkg/github] and [pkg/git];
      [VTEksd], [VTProject] and [VTBottlerocket] are the helpers of
      [pkg/commands/upgrade/upgrade.go] for the three kinds of files it updates, [VTUpgrade]
      its [Run]; [VTForge] and [VTRun] hold the specification of pull requests and the
      properties of whole runs; [VTCommands] is [display], [list-projects] and [cmd].

    Below the programs: this file (the monad of Go functions, its lemmas and tactics),
    [GoStrings], [Base64], [GoJson], [GoUrl] and [GoRegexp] (the parts of Go's standard
    library that the programs use) and [World] (the machine).

    ** How Go is modelled

    A Go function that can fail or act is a computation [go W A] over a store [W]: it
    returns, returns an error, panics or exits, and the store is threaded in all four cases.
    [prog] is [go World]; a [World] has the files, the environment and the trace of all that
    was done so far. What the machine does (a command's result, a failing system call, the
    answer of a URL, the clock) is the class [Host], whose functions see the whole world and
    so may answer differently each time; the theorems hold for every [Host]. A call that
    fails changes nothing, except that a failing [os.WriteFile] may have truncated or created
    its file and may leave the first bytes of the contents in it ([torn]); [http.Get] refuses
    an address that is not of http or https. Files of the world are known by cleaned absolute
    paths. A panic is a nil pointer, an index out of range or a failed type assertion of the
    source; pointers are options read with [deref]. Two loops that wait have fuel, and
    running out of it is a panic of its own, which no theorem absorbs: that it cannot happen
    is part of [wait_for_200], [kill_cmd] and [bootstrap_ends].
    The texts of errors are the prefixes the code gives them; the text of a library's error
    stands for that library's own.

    What belongs to other repositories is a class: [Yaml] and [Tar] (image-builder), [BRLib]
    and [SnowLib] (YAML, gzip, AWS, systemd's bus, the user database, netlink), [Semver],
    [VTLib], [GitHub], [Git]. Where a theorem needs what such a library documents, this is a
    class of laws ([ClockLaws], [SemverLaws], [RangeOrderLaws], [ForgeLaws], [TrackerYaml])
    with an instance for which they are proved, or a named hypothesis of the theorem.
    [ForgeLaws] leaves out answers that are lost: a call that GitHub answers with an error
    has changed nothing. [TrackerYaml] speaks of texts of printable ASCII only: there a
    comment and an empty line do not count, and what is printed reads back. The order in which Go
    ranges over a map is a parameter ([MapOrder], [RangeOrder]).

    The compositional logics are [preserves R m] (every run of [m], however it ends, relates
    the worlds before and after by [R]) with its instance [quiet f] (an observer [f] of
    events sees nothing), [emits f m l] (what [f] sees of a run is a prefix of [l], and all
    of it if the run returns), [stops_on_failure m] (a run that leaves a failed command in the
    trace does not return), [same_fs] (which files may change), and [traces] in [VTRun].
    Their rules are the hint databases used by [quiet_solve] and the like. Where a command
    depends on what was found before, the theorem quotes the run that finds it, from the
    world in which it starts ([write_keys], [start_join], [find_bundles], [work]).

    ** What the theorems show

    - _What a run does, in order_: [build_commands] (the commands of an image build),
      [prepared_manifests], [eksa_artifacts_fetched]; [control_plane_init], [joins],
      [etcdadm_sequence], [static_pods_enabled], [user_files_written], [secrets_chunks];
      [publication_order] and [changed_projects] (commit, push and pull
      request of an upgrade, and what a dry run leaves out).
    - _Contracts_: [pull_request_published] (creating a pull request refines an abstract step
      on the list of pull requests), [validate_options_exact] and [validated_inputs] (exactly
      the supported images pass, and with which configuration), [latest_revision],
      [ecr_latest_is_newest], [find_release_spec], [setRhsmProxy_spec], [network_mapping],
      [same_files_provided_iff_permutation].
    - _Invariants and interleavings_: [snow_boots] (over any number of boots, the
      node is rebooted at most once, and its disk formatted at most once unless a mark
      cannot be made), [kill_cmd_interleavings]
      (all schedules of the two goroutines).
    - _Ends and waits_: [bootstrap_ends], [wait_for_200], [kill_cmd], [systemd_wait],
      [releases_listed].
    - _Files read and written back_: [config_roundtrip], [parse_command], [tracker_updated],
      [eksd_releases_updated], [bottlerocket_releases_updated].
    - _Where the code does less than it means to_: [ami_defaults_overwritten],
      [user_files_rewritten], [airgapped_raw_panics], [airgap_manifest_urls],
      [replaceStringInFile_outcomes], [unknown_go_version_panics], [configuration_values],
      [kubeconfig_without_cluster].

    ** Bounds and fuel

    [WaitFor200] tries once more than its timeout has pauses of ten seconds ([tries]);
    [wait_for_200] shows that this is enough when the clock obeys [ClockLaws].
    [KillCmdAfterFilesGeneration] polls every two seconds for forty: 21 rounds, enough by
    [kill_cmd]. Pagination follows at most [gh_page_fuel] pages of the GitHub API, enough
    when the service has no more ([releases_listed]). The scanner of JSON and the reader and
    matcher of patterns are given the length of their input. Go's [int] of a version or
    release number is a [Z] that [Atoi] and [unmarshal_eksd] confine to 64 bits
    ([eksd_releases_updated]).

    ** Modelling notes

    Character classes are ASCII's and JSON text is taken to be valid UTF-8. Waiting on a
    channel lets time pass like a sleep. The status changes of systemd are a finite list; one
    that comes at the very moment of the timeout is taken before it.
    The failure of reading a response is one with the failure of the request, except in
    [WaitFor200], where it matters. A pattern that [GoRegexp] does not read counts as
    invalid. Log messages and terminal output are left out, except the rows of
    version-tracker's tables and the versions it prints.

    ** Not modelled

    The declarations of cobra commands and flags and the set-up of the loggers, which only
    call these libraries; generated mocks; the text/template wrapper, whose one template is
    modelled as the function it denotes ([GenerateNetworkTemplate]); [GzipBytes], which
    only tests use; make files, shell and Python scripts, patches, and the upstream projects
    they build, which are not Go code of this repository. *)
From stdpp Require Import base tactics strings list gmap sorting.

Declare Scope go_scope.
Delimit Scope go_scope with go.
Global Open Scope go_scope.

(** ** How a Go function ends

    A Go function of the programs ends in one of four ways: it returns
    ([Ret], the error result is nil), it returns a non-nil error ([Err], the
    error's text), it panics ([Panic], a nil dereference, an index out of range,
    a failed type assertion), or it ends the process ([Exit], [os.Exit] and
    [log.Fatal]). *)
Inductive outcome (A : Type) : Type :=
| Ret (a : A)
| Err (e : string)
| Panic (p : string)
| Exit (code : Z).
Arguments Ret {A} a.
Arguments Err {A} e.
Arguments Panic {A} p.
Arguments Exit {A} code.

(** A Go computation over a store [W]: the store is threaded even when the
    computation ends badly, because what was written stays written. *)
Definition go (W A : Type) : Type := W → outcome A * W.

Definition go_ret {W A} (a : A) : go W A := λ w, (Ret a, w).

Definition go_bind {W A B} (k : A → go W B) (m : go W A) : go W B := λ w,
  match m w with
  | (Ret a, w') => k a w'
  | (Err e, w') => (Err e, w')
  | (Panic p, w') => (Panic p, w')
  | (Exit c, w') => (Exit c, w')
  end.

#[export] Instance go_mret W : MRet (go W) := λ A, go_ret.
#[export] Instance go_mbind W : MBind (go W) := λ A B, go_bind.

(** [return nil, fmt.Errorf(...)] *)
Definition fail {W A} (e : string) : go W A := λ w, (Err e, w).

(** A run-time panic. *)
Definition panic {W A} (p : string) : go W A := λ w, (Panic p, w).

(** [os.Exit(code)]; [log.Fatal] exits with status 1. *)
Definition exit {W A} (code : Z) : go W A := λ w, (Exit code, w).

(** [if err := m(); err != nil { handler }] : the error is a value of the caller. *)
Definition recover {W A} (m : go W A) (h : string → go W A) : go W A := λ w,
  match m w with
  | (Err e, w') => h e w'
  | r => r
  end.

(** [errors.Wrap(err, msg)] on a non-nil error, and [fmt.Errorf(msg + ": %v", err)]:
    the text of the wrapped error follows the message. *)
Definition wrap {W A} (msg : string) (m : go W A) : go W A :=
  recover m (λ e, fail (msg +:+ ": " +:+ e)).

(** [errors.Wrap(err, msg)] of an error value: of a nil error it is nil. *)
Definition errors_Wrap (err : option string) (msg : string) : option string :=
  match err with None => None | Some e => Some (msg +:+ ": " +:+ e) end.

(** [return v, err] *)
Definition returning {W A} (v : A) (err : option string) : go W A :=
  match err with None => mret v | Some e => fail e end.

(** [log.Fatal(err)] on the error path. *)
Definition fatal_on_err {W A} (m : go W A) : go W A :=
  recover m (λ _, exit 1).

(** [_ = m()]: the error is dropped. *)
Definition ignore_err {W A} (m : go W A) : go W unit :=
  recover (m ≫= λ _, mret tt) (λ _, mret tt).

Definition get {W} : go W W := λ w, (Ret w, w).
Definition put {W} (w : W) : go W unit := λ _, (Ret tt, w).
Definition modify {W} (f : W → W) : go W unit := λ w, (Ret tt, f w).

(** [for _, x := range l { body }] with early return on error. *)
Fixpoint forM {W A} (l : list A) (body : A → go W unit) : go W unit :=
  match l with
  | [] => mret tt
  | x :: l => body x ≫= λ _, forM l body
  end.

(** The same loop with a local variable updated by the body. *)
Fixpoint foldM {W A S} (l : list A) (s : S) (body : S → A → go W S) : go W S :=
  match l with
  | [] => mret s
  | x :: l => body s x ≫= λ s', foldM l s' body
  end.

(** A pointer that may be nil, dereferenced. *)
Definition deref {W A} (p : option A) : go W A :=
  match p with
  | Some a => mret a
  | None => panic "invalid memory address or nil pointer dereference"
  end.

(** [if c { m }] *)
Definition when {W} (c : bool) (m : go W unit) : go W unit :=
  if c then m else mret tt.

(** A slice indexed at [i]. *)
Definition index {W A} (l : list A) (i : nat) : go W A :=
  match l !! i with
  | Some a => mret a
  | None => panic "index out of range"
  end.

(** ** Inversion of a computation that returned *)
Section inversion.
Context {W A B : Type}.
Implicit Types (m : go W A) (k : A → go W B) (w : W).

Lemma bind_ret_inv m k w b w' :
  (m ≫= k) w = (Ret b, w') ↔ ∃ a w1, m w = (Ret a, w1) ∧ k a w1 = (Ret b, w').
Proof.
  unfold mbind, go_mbind, go_bind. split.
  - destruct (m w) as [[] ?]; naive_solver.
  - intros (a & w1 & -> & Hk). done.
Qed.

Lemma bind_step m k w a w1 : m w = (Ret a, w1) → (m ≫= k) w = k a w1.
Proof. unfold mbind, go_mbind, go_bind. by intros ->. Qed.

(** A run and its last state. *)
Lemma run_eq m w (o : outcome A) : (m w).1 = o → m w = (o, (m w).2).
Proof. intros <-. by destruct (m w). Qed.

Lemma bind_err m k w e w1 : m w = (Err e, w1) → (m ≫= k) w = (Err e, w1).
Proof. unfold mbind, go_mbind, go_bind. by intros ->. Qed.

Lemma bind_cases m k w o w' :
  (m ≫= k) w = (o, w') →
  (∃ a w1, m w = (Ret a, w1) ∧ k a w1 = (o, w')) ∨
  (∃ o1, m w = (o1, w') ∧ ∀ a, o1 ≠ Ret a).
Proof.
  unfold mbind, go_mbind, go_bind.
  destruct (m w) as [[a|e|p|c] w1] eqn:Hm; intros H; simplify_eq; [by eauto|right..].
  all: eexists; split; [done|]; naive_solver.
Qed.

(** The same, with what is known of the outcome of the whole. *)
Lemma bind_any m k w o w' : (m ≫= k) w = (o, w') →
  (∃ a w1, m w = (Ret a, w1) ∧ k a w1 = (o, w')) ∨
  (∃ o1, m w = (o1, w') ∧ (∀ a, o1 ≠ Ret a) ∧ ∀ b, o ≠ Ret b).
Proof.
  unfold mbind, go_mbind, go_bind.
  destruct (m w) as [[a|e|p|c] w1] eqn:E; intros H; simplify_eq; [by left; eauto|right..].
  all: by eexists; split; [done|].
Qed.

Lemma mret_ret (a b : A) w w' : mret (M := go W) a w = (Ret b, w') ↔ a = b ∧ w = w'.
Proof. cbv. naive_solver. Qed.

Lemma bind_ret_l (a : A) k w : (mret a ≫= k) w = k a w.
Proof. done. Qed.

Lemma wrap_ret msg m w a w' : wrap msg m w = (Ret a, w') → m w = (Ret a, w').
Proof.
  unfold wrap, recover, fail. destruct (m w) as [[] ?]; naive_solver.
Qed.

Lemma wrap_ok msg m w a w' : m w = (Ret a, w') → wrap msg m w = (Ret a, w').
Proof. unfold wrap, recover. by intros ->. Qed.

Lemma wrap_err msg m w e w' : m w = (Err e, w') → wrap msg m w = (Err (msg +:+ ": " +:+ e), w').
Proof. unfold wrap, recover. by intros ->. Qed.

Lemma wrap_not_ret msg m w o w' : wrap msg m w = (o, w') → (∀ a, o ≠ Ret a) →
  ∃ o', m w = (o', w') ∧ ∀ a, o' ≠ Ret a.
Proof.
  unfold wrap, recover, fail. destruct (m w) as [[a|e|p|c] w1]; intros H Ho; simplify_eq; [|by eexists..].
  by destruct (Ho a).
Qed.

Lemma fatal_on_err_ret m w a w' : fatal_on_err m w = (Ret a, w') → m w = (Ret a, w').
Proof.
  unfold fatal_on_err, recover, exit. destruct (m w) as [[] ?]; naive_solver.
Qed.

Lemma deref_ret (p : option A) w a w' : deref p w = (Ret a, w') ↔ p = Some a ∧ w = w'.
Proof. destruct p; cbv [deref panic mret go_mret go_ret]; split; naive_solver. Qed.

Lemma index_ret (l : list A) i w a w' : index l i w = (Ret a, w') ↔ l !! i = Some a ∧ w = w'.
Proof. cbv [index panic mret go_mret go_ret]. destruct (l !! i); split; naive_solver. Qed.
End inversion.

(** [go_inv H] splits a hypothesis saying that a sequence of statements returned
    into the hypotheses that each statement returned. *)
Ltac go_inv_step H :=
  lazymatch type of H with
  | (_ ≫= _) _ = (Ret _, _) =>
      let a := fresh "a" in let w1 := fresh "w" in
      let H1 := fresh "Hm" in
      apply bind_ret_inv in H as (a & w1 & H1 & H)
  | wrap _ _ _ = (Ret _, _) => apply wrap_ret in H
  | fatal_on_err _ _ = (Ret _, _) => apply fatal_on_err_ret in H
  | deref _ _ = (Ret _, _) =>
      let w1 := fresh "w" in
      apply deref_ret in H as [H <-]
  | index _ _ _ = (Ret _, _) => apply index_ret in H as [H <-]
  | mret _ _ = (Ret _, _) =>
      apply mret_ret in H as [H ?]; simplify_eq
  end.

Ltac go_inv H := repeat (go_inv_step H).

(** ** A unary logic for stores: relations every run respects *)
Section preserves.
Context {W : Type} (R : W → W → Prop) `{!PreOrder R}.

(** Every run of [m], however it ends, moves the store along [R]. *)
Definition preserves {A} (m : go W A) : Prop :=
  ∀ w o w', m w = (o, w') → R w w'.

Lemma preserves_ret {A} (a : A) : preserves (mret a).
Proof. intros w o w' [= <- <-]. done. Qed.

Lemma preserves_fail {A} e : preserves (A := A) (fail e).
Proof. intros w o w' [= <- <-]. done. Qed.

Lemma preserves_panic {A} e : preserves (A := A) (panic e).
Proof. intros w o w' [= <- <-]. done. Qed.

Lemma preserves_exit {A} c : preserves (A := A) (exit c).
Proof. intros w o w' [= <- <-]. done. Qed.

Lemma preserves_get : preserves get.
Proof. intros w o w' [= <- <-]. done. Qed.

Lemma preserves_bind {A B} (m : go W A) (k : A → go W B) :
  preserves m → (∀ a, preserves (k a)) → preserves (m ≫= k).
Proof.
  intros Hm Hk w o w' [(a & w1 & H1 & H2)|(o1 & H1 & _)]%bind_cases; [|by eauto].
  transitivity w1; [by eapply Hm|by eapply Hk].
Qed.

Lemma preserves_recover {A} (m : go W A) h :
  preserves m → (∀ e, preserves (h e)) → preserves (recover m h).
Proof.
  intros Hm Hh w o w'. unfold recover.
  destruct (m w) as [[a|e|p|c] w1] eqn:E; intros H; simplify_eq; try by eapply Hm.
  transitivity w1; [by eapply Hm|by eapply Hh].
Qed.

Lemma preserves_wrap {A} msg (m : go W A) : preserves m → preserves (wrap msg m).
Proof. intros ?. apply preserves_recover; [done|]. intros; apply preserves_fail. Qed.

Lemma preserves_fatal {A} (m : go W A) : preserves m → preserves (fatal_on_err m).
Proof. intros ?. apply preserves_recover; [done|]. intros; apply preserves_exit. Qed.

Lemma preserves_ignore {A} (m : go W A) : preserves m → preserves (ignore_err m).
Proof.
  intros ?. apply preserves_recover; [apply preserves_bind|]; intros; auto;
    apply preserves_ret.
Qed.

Lemma preserves_when c m : preserves m → preserves (when c m).
Proof. destruct c; [done|]. intros _. apply preserves_ret. Qed.

Lemma preserves_if {A} (c : bool) (m1 m2 : go W A) :
  preserves m1 → preserves m2 → preserves (if c then m1 else m2).
Proof. by destruct c. Qed.

Lemma preserves_deref {A} (p : option A) : preserves (deref p).
Proof. destruct p; [apply preserves_ret|apply preserves_panic]. Qed.

Lemma preserves_index {A} (l : list A) i : preserves (index l i).
Proof. unfold index. destruct (l !! i); [apply preserves_ret|apply preserves_panic]. Qed.

Lemma preserves_forM {A} (l : list A) body :
  (∀ x, preserves (body x)) → preserves (forM l body).
Proof.
  intros Hb. induction l as [|x l IH]; simpl; [apply preserves_ret|].
  apply preserves_bind; auto.
Qed.

Lemma preserves_foldM {A S} (l : list A) (s : S) body :
  (∀ s x, preserves (body s x)) → preserves (foldM l s body).
Proof.
  intros Hb. revert s. induction l as [|x l IH]; intros s; simpl; [apply preserves_ret|].
  apply preserves_bind; auto.
Qed.
End preserves.

Create HintDb go.
#[export] Hint Resolve preserves_ret preserves_fail preserves_panic preserves_exit
  preserves_get preserves_bind preserves_recover preserves_wrap preserves_fatal
  preserves_ignore preserves_when preserves_if preserves_deref preserves_index
  preserves_forM preserves_foldM : go.

(** ** Loops that returned *)
Section loops.
Context {W A S : Type}.

Lemma forM_app (l1 l2 : list A) (body : A → go W unit) w :
  forM (l1 ++ l2) body w = (forM l1 body ≫= λ _, forM l2 body) w.
Proof.
  revert w. induction l1 as [|x l1 IH]; intros w; [done|]. simpl.
  unfold mbind, go_mbind, go_bind.
  destruct (body x w) as [[[]|e|p|c] w1]; [|done..].
  rewrite IH. done.
Qed.

(** A store invariant indexed by the elements already processed. *)
Lemma foldM_ind (I : list A → S → W → Prop) (l : list A) (s : S) body w s' w' :
  I [] s w →
  (∀ done x s1 w1 s2 w2, I done s1 w1 → body s1 x w1 = (Ret s2, w2) → I (done ++ [x]) s2 w2) →
  foldM l s body w = (Ret s', w') → I l s' w'.
Proof.
  intros H0 Hstep.
  assert (∀ done l s w, I done s w → foldM l s body w = (Ret s', w') → I (done ++ l) s' w') as Hgen.
  { clear s w H0. intros done l'. revert done.
    induction l' as [|x l' IH]; intros done s w HI H; simpl in H.
    - cbv in H. simplify_eq. by rewrite app_nil_r.
    - go_inv H. rewrite cons_middle, (assoc_L (++)). eapply IH; [|exact H].
      eapply Hstep; done. }
  intros H. by apply (Hgen [] l s w).
Qed.

Lemma forM_ind (I : list A → W → Prop) (l : list A) (body : A → go W unit) w w' :
  I [] w →
  (∀ done x rest w1 w2, l = done ++ x :: rest → I done w1 → body x w1 = (Ret tt, w2) →
     I (done ++ [x]) w2) →
  forM l body w = (Ret tt, w') → I l w'.
Proof.
  intros H0 Hstep.
  assert (∀ k done w, l = done ++ k → I done w → forM k body w = (Ret tt, w') → I l w') as Hgen.
  { clear w H0. induction k as [|x k IH]; intros done w Hl HI H; simpl in H.
    - cbv in H. simplify_eq. by rewrite app_nil_r.
    - go_inv H. destruct a. apply (IH (done ++ [x]) w0); [|by eapply Hstep|done].
      by rewrite <-app_assoc. }
  intros H. by apply (Hgen l [] w).
Qed.
End loops.

(** ** Conditionals of the code *)

(** [s == t] on Go strings. *)
Definition streq (s t : string) : bool := bool_decide (s = t).
Infix "=s" := streq (at level 70) : go_scope.

Lemma streq_true s t : streq s t = true ↔ s = t.
Proof. apply bool_decide_eq_true. Qed.

Lemma streq_false s t : streq s t = false ↔ s ≠ t.
Proof. apply bool_decide_eq_false. Qed.

Lemma streq_refl s : streq s s = true.
Proof. by apply streq_true. Qed.

(** [case_streq] splits on every string comparison of the goal and hypotheses. *)
Ltac case_streq :=
  repeat match goal with
  | |- context [streq ?s ?t] =>
      let E := fresh "E" in destruct (streq s t) eqn:E;
      [apply streq_true in E|apply streq_false in E]; simplify_eq; simpl in *
  | H : context [streq ?s ?t] |- _ =>
      let E := fresh "E" in destruct (streq s t) eqn:E;
      [apply streq_true in E|apply streq_false in E]; simplify_eq; simpl in *
  end.
