(* ===== verification/GoStrings.v ===== *)
(** * The part of Go's standard library the programs use on text

    Packages [strings], [strconv] and [path/filepath], on byte strings: Go's
    [string] and [[]byte] are both Rocq's [string], one [ascii] per byte.
    Character classes ([Fields], [TrimSpace], [ToLower], [ToUpper]) are those of
    ASCII, which is what the option values, file names and versions the programs
    handle are made of. *)
From S2P Require Import Prelude.
From stdpp Require Import base tactics strings list pretty.
From Stdlib Require Import Ascii.

#[local] Arguments String.append : simpl nomatch.
Local Open Scope string_scope.
Local Open Scope list_scope.

(** The Go string "\n". *)
Definition nl : string := String (ascii_of_nat 10) "".

(** ** Prefixes and suffixes *)

(** The rest of [s] after the prefix [p], when [s] has it. *)
Fixpoint cut_prefix (p s : string) : option string :=
  match p, s with
  | EmptyString, _ => Some s
  | String a p', String b s' => if bool_decide (a = b) then cut_prefix p' s' else None
  | String _ _, EmptyString => None
  end.

Definition HasPrefix (s p : string) : bool := bool_decide (is_Some (cut_prefix p s)).

Definition TrimPrefix (s p : string) : string := default s (cut_prefix p s).

Fixpoint rev_onto (s acc : string) : string :=
  match s with
  | EmptyString => acc
  | String c s => rev_onto s (String c acc)
  end.

Definition srev (s : string) : string := rev_onto s "".

Definition HasSuffix (s p : string) : bool := HasPrefix (srev s) (srev p).

Definition TrimSuffix (s p : string) : string :=
  match cut_prefix (srev p) (srev s) with
  | Some r => srev r
  | None => s
  end.

(** ** Searching *)
Fixpoint Contains (s sub : string) : bool :=
  HasPrefix s sub ||
  match s with
  | EmptyString => false
  | String _ s => Contains s sub
  end.

(** [strings.Split] and [strings.ReplaceAll] scan from the left and jump over a
    match; [skip] counts the bytes of the current match still to be passed. Both
    are modelled for a non-empty separator, which is all the programs use. *)
Fixpoint split_from (sep s : string) (skip : nat) : string * list string :=
  match s with
  | EmptyString => ("", [])
  | String c s' =>
      match skip with
      | S k => split_from sep s' k
      | O =>
          match cut_prefix sep s with
          | Some _ => let '(h, t) := split_from sep s' (String.length sep - 1) in ("", h :: t)
          | None => let '(h, t) := split_from sep s' 0 in (String c h, t)
          end
      end
  end.

Definition Split (s sep : string) : list string :=
  let '(h, t) := split_from sep s 0 in h :: t.

Fixpoint replace_from (old new s : string) (skip : nat) : string :=
  match s with
  | EmptyString => ""
  | String c s' =>
      match skip with
      | S k => replace_from old new s' k
      | O =>
          match cut_prefix old s with
          | Some _ => new +:+ replace_from old new s' (String.length old - 1)
          | None => String c (replace_from old new s' 0)
          end
      end
  end.

Definition ReplaceAll (s old new : string) : string := replace_from old new s 0.

(** [strings.Count] for a non-empty substring. *)
Definition Count (s sub : string) : nat := length (Split s sub) - 1.

Fixpoint StrJoin (l : list string) (sep : string) : string :=
  match l with
  | [] => ""
  | [x] => x
  | x :: l => x +:+ sep +:+ StrJoin l sep
  end.

Fixpoint Repeat (s : string) (n : nat) : string :=
  match n with
  | O => ""
  | S n => s +:+ Repeat s n
  end.

(** ** Trimming and case *)
Fixpoint trim_left_by (f : ascii → bool) (s : string) : string :=
  match s with
  | EmptyString => ""
  | String c s' => if f c then trim_left_by f s' else s
  end.

Definition trim_right_by (f : ascii → bool) (s : string) : string :=
  srev (trim_left_by f (srev s)).

Definition in_cutset (cutset : string) (c : ascii) : bool :=
  bool_decide (c ∈ String.list_ascii_of_string cutset).

Definition TrimRight (s cutset : string) : string := trim_right_by (in_cutset cutset) s.

Definition Trim (s cutset : string) : string :=
  trim_right_by (in_cutset cutset) (trim_left_by (in_cutset cutset) s).

Definition is_space (c : ascii) : bool :=
  let n := nat_of_ascii c in
  bool_decide (n = 32) || bool_decide (9 ≤ n ≤ 13)%nat.

Definition TrimSpace (s : string) : string :=
  trim_right_by is_space (trim_left_by is_space s).

(** [strings.Fields]: the maximal runs of non-space bytes. *)
Fixpoint fields_from (s cur : string) : list string :=
  match s with
  | EmptyString => if cur =s "" then [] else [srev cur]
  | String c s =>
      if is_space c
      then (if cur =s "" then fields_from s "" else srev cur :: fields_from s "")
      else fields_from s (String c cur)
  end.

Definition Fields (s : string) : list string := fields_from s "".

Definition to_lower_byte (c : ascii) : ascii :=
  let n := nat_of_ascii c in
  if bool_decide (65 ≤ n ≤ 90)%nat then ascii_of_nat (n + 32) else c.

Definition to_upper_byte (c : ascii) : ascii :=
  let n := nat_of_ascii c in
  if bool_decide (97 ≤ n ≤ 122)%nat then ascii_of_nat (n - 32) else c.

Fixpoint smap (f : ascii → ascii) (s : string) : string :=
  match s with
  | EmptyString => ""
  | String c s => String (f c) (smap f s)
  end.

Definition ToLower (s : string) : string := smap to_lower_byte s.
Definition ToUpper (s : string) : string := smap to_upper_byte s.

(** ** strconv *)
Definition Itoa (z : Z) : string := pretty z.

Definition digit_value (c : ascii) : option Z :=
  let n := Z.of_nat (nat_of_ascii c) in
  if bool_decide (48 ≤ n ≤ 57)%Z then Some (n - 48)%Z else None.

Fixpoint digits_value (base : Z) (s : string) (acc : Z) : option Z :=
  match s with
  | EmptyString => Some acc
  | String c s =>
      match digit_value c with
      | Some d => if bool_decide (d < base)%Z then digits_value base s (acc * base + d)%Z else None
      | None => None
      end
  end.

Definition int64_min : Z := (- 2 ^ 63)%Z.
Definition int64_max : Z := (2 ^ 63 - 1)%Z.

(** [strconv.ParseInt(s, base, 64)] for a base of at most ten: a syntax error or a
    value outside 64 bits is an error. [strconv.Atoi] is base ten ([int] is 64 bits
    wide on the platforms the programs are built for). *)
Definition ParseInt (s : string) (base : Z) : option Z :=
  let '(neg, body) :=
    match s with
    | String "-" b => (true, b)
    | String "+" b => (false, b)
    | _ => (false, s)
    end in
  if body =s "" then None else
  match digits_value base body 0 with
  | Some v =>
      let v' := if (neg : bool) then (- v)%Z else v in
      if bool_decide (int64_min ≤ v' ≤ int64_max)%Z then Some v' else None
  | None => None
  end.

Definition Atoi (s : string) : option Z := ParseInt s 10.

(** ** path/filepath (Unix) *)

(** The component stack of [filepath.Clean], innermost component first. *)
Definition clean_step (rooted : bool) (stack : list string) (c : string) : list string :=
  if (c =s "") || (c =s ".") then stack
  else if c =s ".." then
    match stack with
    | [] => if rooted then [] else [".."]
    | top :: rest => if top =s ".." then ".." :: stack else rest
    end
  else c :: stack.

Definition Clean (path : string) : string :=
  if path =s "" then "." else
  let rooted := HasPrefix path "/" in
  let stack := foldl (clean_step rooted) [] (Split path "/") in
  let body := StrJoin (rev stack) "/" in
  if rooted then "/" +:+ body else if body =s "" then "." else body.

(** [filepath.Join(elem...)] *)
Fixpoint PathJoin (elems : list string) : string :=
  match elems with
  | [] => ""
  | e :: rest => if e =s "" then PathJoin rest else Clean (StrJoin elems "/")
  end.

Definition is_slash (c : ascii) : bool := bool_decide (c = "/"%char).

(** The bytes after the last slash, and those up to and including it. *)
Fixpoint last_element_rev (s acc : string) : string * string :=
  match s with
  | EmptyString => (acc, "")
  | String c s' => if is_slash c then (acc, s) else last_element_rev s' (String c acc)
  end.

Definition split_path (path : string) : string * string :=
  let '(file, dir_rev) := last_element_rev (srev path) "" in (srev dir_rev, file).

Definition Dir (path : string) : string := Clean (split_path path).1.

Definition Base (path : string) : string :=
  if path =s "" then "." else
  let p := trim_right_by is_slash path in
  if p =s "" then "/" else (split_path p).2.

(** [filepath.Ext]: from the last dot of the last element, the dot included. *)
Fixpoint ext_rev (s acc : string) : string :=
  match s with
  | EmptyString => ""
  | String c s =>
      if bool_decide (c = "."%char) then String c acc
      else if is_slash c then "" else ext_rev s (String c acc)
  end.

Definition Ext (path : string) : string := ext_rev (srev path) "".

(** ** Examples *)
Example split_ex : Split "a/b//c" "/" = ["a"; "b"; ""; "c"].
Proof. vm_compute. reflexivity. Qed.
Example replace_ex : ReplaceAll "a.b..c" "." "" = "abc".
Proof. vm_compute. reflexivity. Qed.
Example fields_ex : Fields "  ab c	d " = ["ab"; "c"; "d"].
Proof. vm_compute. reflexivity. Qed.
Example clean_ex : PathJoin ["/a/../b/./"; ""; "../c"; "d"] = "/c/d".
Proof. vm_compute. reflexivity. Qed.
Example ext_ex : (Ext "x/etcd.tar.yaml", Ext "x.d/etcd", Dir "/a/b/c", Base "/a/b/", Dir "c")
  = (".yaml", "", "/a/b", "b", ".").
Proof. vm_compute. reflexivity. Qed.
Example atoi_ex : (ParseInt "0640" 8, ParseInt "089" 8, Atoi "-17", Itoa (-20)) = (Some 416%Z, None, Some (-17)%Z, "-20").
Proof. vm_compute. reflexivity. Qed.
Example trim_ex : (TrimSuffix ("v1.2" +:+ nl) nl, TrimRight "ab''" "'", Trim "'x'" "'", TrimSuffix "abc" "bc")
  = ("v1.2", "ab", "x", "a").
Proof. vm_compute. reflexivity. Qed.

(** ** Append *)
Lemma sapp_nil_r s : s +:+ "" = s.
Proof. induction s as [|c s IH]; simpl; [done|]. by rewrite IH. Qed.

Lemma sapp_assoc s1 s2 s3 : (s1 +:+ s2) +:+ s3 = s1 +:+ s2 +:+ s3.
Proof. induction s1 as [|c s IH]; simpl; [done|]. by rewrite IH. Qed.

Lemma slength_app s1 s2 : String.length (s1 +:+ s2) = String.length s1 + String.length s2.
Proof. induction s1 as [|c s1 IH]; simpl; [done|]. by rewrite IH. Qed.

Lemma sapp_eq_nil s1 s2 : s1 +:+ s2 = "" ↔ s1 = "" ∧ s2 = "".
Proof. destruct s1, s2; simpl; naive_solver. Qed.

Create Rewrite HintDb str.
#[export] Hint Rewrite sapp_nil_r sapp_assoc slength_app : str.

Lemma rev_onto_app s acc : rev_onto s acc = rev_onto s "" +:+ acc.
Proof.
  revert acc. induction s as [|c s IH]; intros acc; simpl; [done|].
  rewrite IH, (IH (String c "")). by rewrite sapp_assoc.
Qed.

Lemma srev_app s1 s2 : srev (s1 +:+ s2) = srev s2 +:+ srev s1.
Proof.
  unfold srev. induction s1 as [|c s1 IH]; simpl; [by rewrite sapp_nil_r|].
  rewrite rev_onto_app, IH, (rev_onto_app s1 (String c "")). by rewrite sapp_assoc.
Qed.

Lemma srev_involutive s : srev (srev s) = s.
Proof.
  induction s as [|c s IH]; [done|]. unfold srev in *. simpl.
  rewrite (rev_onto_app s), <-(sapp_nil_r (rev_onto s "" +:+ _)).
  change (rev_onto ?x "") with (srev x) in *.
  rewrite sapp_nil_r, srev_app, IH. done.
Qed.

Lemma srev_inj s1 s2 : srev s1 = srev s2 → s1 = s2.
Proof. intros H. by rewrite <-(srev_involutive s1), H, srev_involutive. Qed.

(** ** Prefixes *)
Lemma cut_prefix_Some p s r : cut_prefix p s = Some r ↔ s = p +:+ r.
Proof.
  revert s. induction p as [|a p IH]; intros s; simpl; [naive_solver|].
  destruct s as [|b s]; [naive_solver|]. case_bool_decide; rewrite ?IH; naive_solver.
Qed.

Lemma cut_prefix_app p r : cut_prefix p (p +:+ r) = Some r.
Proof. by apply cut_prefix_Some. Qed.

Lemma HasPrefix_spec s p : HasPrefix s p = true ↔ ∃ r, s = p +:+ r.
Proof.
  unfold HasPrefix. rewrite bool_decide_eq_true. unfold is_Some.
  by setoid_rewrite cut_prefix_Some.
Qed.

Lemma HasSuffix_spec s p : HasSuffix s p = true ↔ ∃ r, s = r +:+ p.
Proof.
  unfold HasSuffix. rewrite HasPrefix_spec. split; intros [r Hr].
  - exists (srev r). apply srev_inj. by rewrite srev_app, srev_involutive.
  - exists (srev r). by rewrite Hr, srev_app.
Qed.

Lemma TrimPrefix_app p r : TrimPrefix (p +:+ r) p = r.
Proof. unfold TrimPrefix. by rewrite cut_prefix_app. Qed.

Lemma TrimSuffix_app p r : TrimSuffix (r +:+ p) p = r.
Proof. unfold TrimSuffix. by rewrite srev_app, cut_prefix_app, srev_involutive. Qed.

Lemma TrimSuffix_spec s p :
  TrimSuffix s p = s ∧ HasSuffix s p = false ∨ s = TrimSuffix s p +:+ p.
Proof.
  destruct (HasSuffix s p) eqn:E.
  - right. apply HasSuffix_spec in E as [r ->]. by rewrite TrimSuffix_app.
  - left. split; [|done]. unfold HasSuffix, HasPrefix, TrimSuffix in *.
    apply bool_decide_eq_false, eq_None_not_Some in E. by rewrite E.
Qed.

Lemma Contains_spec s sub : Contains s sub = true ↔ ∃ a b, s = a +:+ sub +:+ b.
Proof.
  induction s as [|c s IH]; simpl; rewrite orb_true_iff, HasPrefix_spec.
  - split; [intros [[r Hr]|]; [by exists "", r|done]|].
    intros (a & b & H). left. destruct a; simpl in H; [by eauto|done].
  - rewrite IH. split.
    + intros [[r Hr]|(a & b & ->)]; [by exists "", r|by exists (String c a), b].
    + intros (a & b & H). destruct a as [|c' a]; simpl in *; [by eauto|].
      simplify_eq. eauto.
Qed.

Lemma Contains_cons_false c s sub : Contains (String c s) sub = false →
  cut_prefix sub (String c s) = None ∧ Contains s sub = false.
Proof.
  cbn [Contains]. rewrite orb_false_iff. unfold HasPrefix.
  rewrite bool_decide_eq_false, <-eq_None_not_Some. done.
Qed.

(** ** Scanning from the left *)
Fixpoint sdrop (n : nat) (s : string) : string :=
  match n, s with
  | S n, String _ s => sdrop n s
  | _, _ => s
  end.

Lemma sdrop_app p s : sdrop (String.length p) (p +:+ s) = s.
Proof. induction p; [by destruct s|done]. Qed.

Lemma split_from_skip sep s k : split_from sep s k = split_from sep (sdrop k s) 0.
Proof. revert k. induction s as [|c s IH]; intros [|k]; simpl; auto. Qed.

Lemma replace_from_skip old new s k : replace_from old new s k = replace_from old new (sdrop k s) 0.
Proof. revert k. induction s as [|c s IH]; intros [|k]; simpl; auto. Qed.

(** Induction that follows the scan: a match of [sep], or a byte that starts none. *)
Lemma scan_ind (sep : string) (Hsep : sep ≠ "") (P : string → Prop) :
  P "" →
  (∀ r, P r → P (sep +:+ r)) →
  (∀ c s, cut_prefix sep (String c s) = None → P s → P (String c s)) →
  ∀ s, P s.
Proof.
  intros H0 Hm Hc s.
  remember (String.length s) as n eqn:Hn. revert s Hn.
  induction (lt_wf n) as [n _ IH]. intros s ->.
  destruct s as [|c s]; [done|].
  destruct (cut_prefix sep (String c s)) as [r|] eqn:E.
  - apply cut_prefix_Some in E. rewrite E. apply Hm.
    apply (IH (String.length r)); [|done]. rewrite E, slength_app.
    destruct sep; simpl; [done|lia].
  - apply Hc; [done|]. apply (IH (String.length s)); simpl; lia.
Qed.

Section scan.
Context (sep : string) (Hsep : sep ≠ "").

Lemma split_from_match r : split_from sep (sep +:+ r) 0 = ("", Split r sep).
Proof using Hsep.
  destruct sep as [|a p] eqn:E; [done|]. rewrite <-E. unfold Split.
  assert (cut_prefix sep (String a (p +:+ r)) = Some r) as Hs
    by (apply cut_prefix_Some; by rewrite E).
  rewrite E at 2. cbn [String.append split_from]. rewrite Hs.
  rewrite split_from_skip.
  replace (String.length sep - 1) with (String.length p) by (rewrite E; simpl; lia).
  rewrite sdrop_app. by destruct (split_from sep r 0).
Qed.

Lemma split_from_char c s : cut_prefix sep (String c s) = None →
  split_from sep (String c s) 0 = (let '(h, t) := split_from sep s 0 in (String c h, t)).
Proof using. intros H. cbn [split_from]. by rewrite H. Qed.

Lemma replace_match new r : ReplaceAll (sep +:+ r) sep new = new +:+ ReplaceAll r sep new.
Proof using Hsep.
  unfold ReplaceAll. destruct sep as [|a p] eqn:E; [done|]. rewrite <-E.
  assert (cut_prefix sep (String a (p +:+ r)) = Some r) as Hs
    by (apply cut_prefix_Some; by rewrite E).
  rewrite E at 2. cbn [String.append replace_from]. rewrite Hs.
  rewrite replace_from_skip.
  replace (String.length sep - 1) with (String.length p) by (rewrite E; simpl; lia).
  by rewrite sdrop_app.
Qed.

Lemma replace_char new c s : cut_prefix sep (String c s) = None →
  ReplaceAll (String c s) sep new = String c (ReplaceAll s sep new).
Proof using. intros H. unfold ReplaceAll. cbn [replace_from]. by rewrite H. Qed.

Lemma Join_cons_ne x (l : list string) by_ : l ≠ [] → StrJoin (x :: l) by_ = x +:+ by_ +:+ StrJoin l by_.
Proof using. by destruct l. Qed.

Lemma Split_ne s : Split s sep ≠ [].
Proof using. unfold Split. by destruct (split_from sep s 0). Qed.

(** Replacing is splitting at the old text and joining with the new one. *)
Lemma ReplaceAll_Join_Split new s : ReplaceAll s sep new = StrJoin (Split s sep) new.
Proof using Hsep.
  induction s as [|r IH|c s Hc IH] using (scan_ind sep Hsep); [done| |].
  - rewrite replace_match, IH. unfold Split at 2. rewrite split_from_match.
    rewrite Join_cons_ne by apply Split_ne. done.
  - rewrite replace_char, IH by done. unfold Split. rewrite split_from_char by done.
    destruct (split_from sep s 0) as [h [|t l]]; simpl; done.
Qed.

Lemma ReplaceAll_same s : ReplaceAll s sep sep = s.
Proof using Hsep.
  induction s as [|r IH|c s Hc IH] using (scan_ind sep Hsep); [done| |].
  - by rewrite replace_match, IH.
  - by rewrite replace_char, IH.
Qed.

Lemma Join_Split s : StrJoin (Split s sep) sep = s.
Proof using Hsep. by rewrite <-ReplaceAll_Join_Split, ReplaceAll_same. Qed.

Lemma ReplaceAll_absent new s : Contains s sep = false → ReplaceAll s sep new = s.
Proof using.
  induction s as [|c s IH]; [done|]. intros [H1 H2]%Contains_cons_false.
  by rewrite replace_char, IH.
Qed.

Lemma Split_absent s : Contains s sep = false → Split s sep = [s].
Proof using.
  induction s as [|c s IH]; [done|]. intros [H1 H2]%Contains_cons_false.
  specialize (IH H2). unfold Split in *. rewrite split_from_char by done.
  destruct (split_from sep s 0). by simplify_eq.
Qed.

End scan.

(** Cutting at the first match. *)
Lemma Split_app sep a b : sep ≠ "" →
  (∀ a1 a2, a = a1 +:+ a2 → a2 ≠ "" → HasPrefix (a2 +:+ sep +:+ b) sep = false) →
  Split (a +:+ sep +:+ b) sep = a :: Split b sep.
Proof.
  intros Hsep. induction a as [|c a IH]; intros Ha.
  - simpl. unfold Split at 1. by rewrite split_from_match.
  - assert (cut_prefix sep (String c (a +:+ sep +:+ b)) = None) as Hc.
    { specialize (Ha "" (String c a) eq_refl). cbn in Ha. unfold HasPrefix in Ha.
      rewrite bool_decide_eq_false, <-eq_None_not_Some in Ha. by apply Ha. }
    assert (Split (a +:+ sep +:+ b) sep = a :: Split b sep) as IH'.
    { apply IH. intros a1 a2 -> Hne. by apply (Ha (String c a1)). }
    unfold Split in *. simpl String.append. rewrite split_from_char by done.
    destruct (split_from sep (a +:+ sep +:+ b) 0). by simplify_eq.
Qed.

(** With a one-byte separator, a piece without that byte is cut off whole. *)
Lemma Split_char_app (c : ascii) a b : Contains a (String c "") = false →
  Split (a +:+ String c b) (String c "") = a :: Split b (String c "").
Proof.
  intros Ha. change (String c b) with (String c "" +:+ b). apply Split_app; [done|].
  intros a1 a2 -> Hne. apply not_true_iff_false. intros [r Hr]%HasPrefix_spec.
  destruct a2 as [|d a2]; [done|]. simpl in Hr. simplify_eq.
  apply not_true_iff_false in Ha. apply Ha, Contains_spec. by exists a1, a2.
Qed.

Lemma Split_char_Join (c : ascii) (l : list string) : l ≠ [] →
  Forall (λ x, Contains x (String c "") = false) l →
  Split (StrJoin l (String c "")) (String c "") = l.
Proof.
  intros Hl HF. induction HF as [|x l Hx HF IH]; [done|].
  destruct l as [|y l]; [by apply Split_absent|].
  rewrite Join_cons_ne by done. change (String c "" +:+ ?r) with (String c r).
  rewrite Split_char_app by done. by rewrite IH.
Qed.

(** ** Absolute paths *)

(** A path element that [filepath.Clean] leaves alone. *)
Definition plain (c : string) : Prop :=
  c ≠ "" ∧ c ≠ "." ∧ c ≠ ".." ∧ Contains c "/" = false.

#[export] Instance plain_dec c : Decision (plain c).
Proof. apply _. Defined.

(** The absolute path with the given elements. *)
Definition rooted (cs : list string) : string := "/" +:+ StrJoin cs "/".

Lemma StrJoin_app l1 l2 sep : l1 ≠ [] → l2 ≠ [] →
  StrJoin (l1 ++ l2) sep = StrJoin l1 sep +:+ sep +:+ StrJoin l2 sep.
Proof.
  intros H1 H2. induction l1 as [|x l1 IH]; [done|].
  destruct l1 as [|y l1]; simpl app; [by destruct l2|].
  rewrite (Join_cons_ne x (y :: l1)) by done. rewrite (Join_cons_ne x (y :: l1 ++ l2)) by done.
  change (y :: l1 ++ l2) with ((y :: l1) ++ l2). rewrite IH by done. by rewrite !sapp_assoc.
Qed.

Lemma Split_pieces (c : ascii) s :
  Forall (λ x, Contains x (String c "") = false) (Split s (String c "")).
Proof.
  induction s as [|r IH|d s Hd IH] using (scan_ind (String c "") ltac:(done)).
  - by repeat constructor.
  - change (String c "" +:+ r) with ("" +:+ String c r). rewrite Split_char_app by done.
    by constructor.
  - unfold Split in *. rewrite split_from_char by done.
    destruct (split_from (String c "") s 0) as [h t]. apply Forall_cons in IH as [Hh Ht].
    constructor; [|done]. cbn [Contains]. rewrite Hh, orb_false_r.
    apply not_true_iff_false. intros [r Hr]%HasPrefix_spec. simpl in Hr. simplify_eq.
    simpl in Hd. by rewrite bool_decide_eq_true_2 in Hd by done.
Qed.

Lemma clean_steps_plain r cs stack : Forall plain cs →
  foldl (clean_step r) stack cs = rev cs ++ stack.
Proof.
  intros HF. revert stack. induction HF as [|c cs (H1 & H2 & H3 & _) HF IH]; intros stack; [done|].
  simpl. rewrite <-app_assoc. simpl. rewrite <-IH. f_equal. unfold clean_step.
  apply streq_false in H1, H2, H3. by rewrite H1, H2, H3.
Qed.

Lemma clean_step_rooted_plain stack c : Forall plain stack → Contains c "/" = false →
  Forall plain (clean_step true stack c).
Proof.
  intros Hs Hc. unfold clean_step.
  destruct (c =s "") eqn:E1; [done|]. destruct (c =s ".") eqn:E2; [done|]. simpl.
  destruct (c =s "..") eqn:E3.
  - destruct stack as [|top rest]; [done|]. apply Forall_cons in Hs as [(_ & _ & Ht & _) Hr].
    apply streq_false in Ht. by rewrite Ht.
  - constructor; [|done]. apply streq_false in E1, E2, E3. done.
Qed.

Lemma clean_steps_rooted_plain pieces stack : Forall plain stack →
  Forall (λ x, Contains x "/" = false) pieces → Forall plain (foldl (clean_step true) stack pieces).
Proof.
  intros Hs HF. revert stack Hs. induction HF as [|c pieces Hc HF IH]; intros stack Hs; [done|].
  simpl. by apply IH, clean_step_rooted_plain.
Qed.

Lemma Clean_rooted_eq p : Clean ("/" +:+ p) = rooted (rev (foldl (clean_step true) [] (Split p "/"))).
Proof.
  unfold Clean. change ("/" +:+ p =s "") with false. cbv iota zeta.
  change (HasPrefix ("/" +:+ p) "/") with true.
  change ("/" +:+ p) with ("" +:+ String "/" p) at 1. rewrite Split_char_app by done. done.
Qed.

(** [filepath.Clean] of an absolute path is an absolute path of plain elements. *)
Lemma Clean_is_rooted p : ∃ cs, Forall plain cs ∧ Clean ("/" +:+ p) = rooted cs.
Proof.
  rewrite Clean_rooted_eq. eexists. split; [|done].
  apply Forall_rev, clean_steps_rooted_plain; [done|apply Split_pieces].
Qed.

Lemma plain_no_slash cs : Forall plain cs → Forall (λ x, Contains x "/" = false) cs.
Proof. intros H. eapply Forall_impl; [exact H|]. by intros x (_ & _ & _ & ?). Qed.

Lemma clean_steps_join r ns stack : Forall plain ns → ns ≠ [] →
  foldl (clean_step r) stack (Split (StrJoin ns "/") "/") = rev ns ++ stack.
Proof.
  intros HF Hne. rewrite Split_char_Join by (done || by apply plain_no_slash).
  by apply clean_steps_plain.
Qed.

Lemma Clean_rooted cs : Forall plain cs → Clean (rooted cs) = rooted cs.
Proof.
  intros HF. unfold rooted at 1. rewrite Clean_rooted_eq.
  destruct (decide (cs = [])) as [->|Hne]; [done|].
  by rewrite clean_steps_join, app_nil_r, rev_involutive.
Qed.

(** Joining a relative path of plain elements to an absolute one. *)
Lemma PathJoin_rooted cs ns : Forall plain cs → Forall plain ns → ns ≠ [] →
  PathJoin [rooted cs; StrJoin ns "/"] = rooted (cs ++ ns).
Proof.
  intros Hc Hn Hne. cbn [PathJoin]. change (rooted cs =s "") with false. cbv iota.
  cbn [StrJoin]. unfold rooted at 1. rewrite sapp_assoc, Clean_rooted_eq.
  destruct (decide (cs = [])) as [->|Hce].
  - change (StrJoin [] "/" +:+ "/" +:+ StrJoin ns "/") with ("" +:+ String "/" (StrJoin ns "/")).
    rewrite Split_char_app by done. simpl foldl. change (clean_step true [] "") with (@nil string).
    by rewrite clean_steps_join, app_nil_r, rev_involutive.
  - rewrite <-StrJoin_app by done.
    rewrite clean_steps_join, app_nil_r, rev_involutive by (by apply Forall_app || by destruct cs). done.
Qed.

Lemma PathJoin_rooted1 cs n : Forall plain cs → plain n → PathJoin [rooted cs; n] = rooted (cs ++ [n]).
Proof. intros Hc Hn. by apply (PathJoin_rooted cs [n]); [|constructor|]. Qed.

Lemma rooted_snoc cs n : cs ≠ [] → rooted (cs ++ [n]) = rooted cs +:+ "/" +:+ n.
Proof. intros Hne. unfold rooted. rewrite StrJoin_app by done. simpl StrJoin. by rewrite !sapp_assoc. Qed.

Lemma StrJoin_inj (l1 l2 : list string) :
  Forall plain l1 → Forall plain l2 → StrJoin l1 "/" = StrJoin l2 "/" → l1 = l2.
Proof.
  intros H1 H2 E.
  assert (∀ l, Forall plain l → l ≠ [] → StrJoin l "/" ≠ "") as Hne.
  { intros l Hl Hn He. pose proof (Split_char_Join "/" l Hn (plain_no_slash _ Hl)) as Hs.
    rewrite He in Hs. subst l. apply Forall_cons in Hl as [(Hz & _) _]. done. }
  destruct (decide (l1 = [])) as [->|N1], (decide (l2 = [])) as [->|N2]; [done|..].
  - by destruct (Hne l2).
  - by destruct (Hne l1).
  - rewrite <-(Split_char_Join "/" l1), <-(Split_char_Join "/" l2), E by (done || by apply plain_no_slash).
    done.
Qed.

Lemma rooted_inj l1 l2 : Forall plain l1 → Forall plain l2 → rooted l1 = rooted l2 → l1 = l2.
Proof. unfold rooted. intros H1 H2 [= E]. by apply StrJoin_inj. Qed.

(** ** Texts all of whose bytes are of a kind *)
Fixpoint all_of (f : ascii → bool) (s : string) : bool :=
  match s with
  | EmptyString => true
  | String c s => f c && all_of f s
  end.

Section all_of.
#[local] Arguments String.append : simpl nomatch.
Context (f : ascii → bool).

Lemma all_of_app a b : all_of f (a +:+ b) = all_of f a && all_of f b.
Proof using. induction a as [|c a IH]; [done|]. cbn. by rewrite IH, andb_assoc. Qed.

Lemma all_of_impl g s : (∀ c, f c = true → g c = true) → all_of f s = true → all_of g s = true.
Proof using.
  intros Hfg. induction s as [|c s IH]; [done|]. cbn. rewrite !andb_true_iff. naive_solver.
Qed.

Lemma all_of_StrJoin l sep : all_of f (StrJoin l sep) = true → Forall (λ x, all_of f x = true) l.
Proof using.
  induction l as [|x l IH]; [done|]. destruct l as [|y l]; [by repeat constructor|].
  change (StrJoin (x :: y :: l) sep) with (x +:+ sep +:+ StrJoin (y :: l) sep).
  rewrite !all_of_app, !andb_true_iff. intros (Hx & _ & Hl). constructor; [done|by apply IH].
Qed.

Lemma all_of_Join l sep : Forall (λ x, all_of f x = true) l → all_of f sep = true → all_of f (StrJoin l sep) = true.
Proof using.
  intros Hl Hs. induction Hl as [|x l Hx Hl IH]; [done|]. destruct l as [|y l]; [done|].
  change (StrJoin (x :: y :: l) sep) with (x +:+ sep +:+ StrJoin (y :: l) sep).
  by rewrite !all_of_app, Hx, Hs, IH.
Qed.

Lemma all_of_Split s sep : sep ≠ "" → all_of f s = true → Forall (λ x, all_of f x = true) (Split s sep).
Proof using. intros Hs H. apply (all_of_StrJoin _ sep). by rewrite Join_Split. Qed.

Lemma all_of_ReplaceAll s old new : old ≠ "" → all_of f s = true → all_of f new = true →
  all_of f (ReplaceAll s old new) = true.
Proof using. intros Ho Hs Hn. rewrite ReplaceAll_Join_Split by done. apply all_of_Join; [by apply all_of_Split|done]. Qed.

Lemma all_of_TrimSuffix s suffix : all_of f s = true → all_of f (TrimSuffix s suffix) = true.
Proof using.
  intros H. destruct (TrimSuffix_spec s suffix) as [[-> _]|E]; [done|].
  rewrite E, all_of_app, andb_true_iff in H. by destruct H.
Qed.

(** Without the byte [c]. *)
Lemma all_of_without c s : Contains s (String c "") = false → all_of (λ x, f x || bool_decide (x = c)) s = true →
  all_of f s = true.
Proof using.
  induction s as [|x s IH]; [done|]. intros [Hc Hs]%Contains_cons_false. cbn. rewrite !andb_true_iff, orb_true_iff.
  intros [[Hx|Hx%bool_decide_eq_true] Hr]; [by split; [|apply IH]|].
  subst x. cbn in Hc. by rewrite bool_decide_eq_true_2 in Hc.
Qed.

Lemma all_of_no c s : f c = false → all_of f s = true → Contains s (String c "") = false.
Proof using.
  intros Hc H. apply not_true_is_false. intros (a & b & ->)%Contains_spec. rewrite !all_of_app in H. cbn in H.
  rewrite Hc in H. cbn in H. by rewrite andb_false_r in H.
Qed.
End all_of.
