(* ===== verification/Base64.v ===== *)
(** * encoding/base64, [base64.StdEncoding]

    The bootstrapper encodes certificates, keys and static pod manifests before it
    hands them to the Bottlerocket API, and decodes the user data it fetched. Bytes
    are Rocq's [ascii], eight booleans, so regrouping three bytes into four
    six-bit digits is a change of constructors and the alphabet is a 64-case table. *)
From S2P Require Import Prelude GoStrings.
From stdpp Require Import base tactics strings list.
From Stdlib Require Import Ascii.

#[local] Arguments String.append : simpl nomatch.
Local Open Scope string_scope.

(** A base64 digit, most significant bit first. *)
Inductive sextet := Sx (b5 b4 b3 b2 b1 b0 : bool).

Definition sextet_nat (x : sextet) : nat :=
  let '(Sx b5 b4 b3 b2 b1 b0) := x in
  let bit (b : bool) (v : nat) := if b then v else 0 in
  bit b5 32 + bit b4 16 + bit b3 8 + bit b2 4 + bit b1 2 + bit b0 1.

Definition nat_sextet (n : nat) : sextet :=
  Sx (Nat.testbit n 5) (Nat.testbit n 4) (Nat.testbit n 3)
     (Nat.testbit n 2) (Nat.testbit n 1) (Nat.testbit n 0).

Definition std_alphabet : string :=
  "ABCDEFGHIJKLMNOPQRSTUVWXYZabcdefghijklmnopqrstuvwxyz0123456789+/".

Definition enc_digit (x : sextet) : ascii :=
  default "A"%char (String.get (sextet_nat x) std_alphabet).

Definition dec_digit (c : ascii) : option sextet :=
  let n := nat_of_ascii c in
  if bool_decide (65 ≤ n ≤ 90)%nat then Some (nat_sextet (n - 65))
  else if bool_decide (97 ≤ n ≤ 122)%nat then Some (nat_sextet (n - 71))
  else if bool_decide (48 ≤ n ≤ 57)%nat then Some (nat_sextet (n + 4))
  else if bool_decide (c = "+"%char) then Some (nat_sextet 62)
  else if bool_decide (c = "/"%char) then Some (nat_sextet 63)
  else None.

(** The four digits of three bytes, and back. *)
Definition split_bytes (a b c : ascii) : sextet * sextet * sextet * sextet :=
  let '(Ascii a0 a1 a2 a3 a4 a5 a6 a7) := a in
  let '(Ascii b0 b1 b2 b3 b4 b5 b6 b7) := b in
  let '(Ascii c0 c1 c2 c3 c4 c5 c6 c7) := c in
  (Sx a7 a6 a5 a4 a3 a2, Sx a1 a0 b7 b6 b5 b4, Sx b3 b2 b1 b0 c7 c6, Sx c5 c4 c3 c2 c1 c0).

Definition join_digits (w x y z : sextet) : ascii * ascii * ascii :=
  let '(Sx w5 w4 w3 w2 w1 w0) := w in
  let '(Sx x5 x4 x3 x2 x1 x0) := x in
  let '(Sx y5 y4 y3 y2 y1 y0) := y in
  let '(Sx z5 z4 z3 z2 z1 z0) := z in
  (Ascii x4 x5 w0 w1 w2 w3 w4 w5, Ascii y2 y3 y4 y5 x0 x1 x2 x3, Ascii z0 z1 z2 z3 z4 z5 y0 y1).

Definition zero_byte : ascii := Ascii false false false false false false false false.
Definition zero_digit : sextet := Sx false false false false false false.

(** [base64.StdEncoding.EncodeToString] *)
Fixpoint EncodeToString (s : string) : string :=
  match s with
  | EmptyString => ""
  | String a EmptyString =>
      let '(w, x, _, _) := split_bytes a zero_byte zero_byte in
      String (enc_digit w) (String (enc_digit x) "==")
  | String a (String b EmptyString) =>
      let '(w, x, y, _) := split_bytes a b zero_byte in
      String (enc_digit w) (String (enc_digit x) (String (enc_digit y) "="))
  | String a (String b (String c r)) =>
      let '(w, x, y, z) := split_bytes a b c in
      String (enc_digit w) (String (enc_digit x)
        (String (enc_digit y) (String (enc_digit z) (EncodeToString r))))
  end.

Definition is_newline (c : ascii) : bool :=
  bool_decide (nat_of_ascii c = 10) || bool_decide (nat_of_ascii c = 13).

(** The decoder passes over carriage returns and newlines wherever they are. *)
Fixpoint strip_newlines (s : string) : string :=
  match s with
  | EmptyString => ""
  | String c s => if is_newline c then strip_newlines s else String c (strip_newlines s)
  end.

(** Padding is accepted in the last group only. *)
Fixpoint decode_groups (s : string) : option string :=
  match s with
  | EmptyString => Some ""
  | String c1 (String c2 (String c3 (String c4 r))) =>
      w ← dec_digit c1; x ← dec_digit c2;
      if bool_decide (c3 = "="%char) then
        if bool_decide (c4 = "="%char ∧ r = "") then
          let '(a, _, _) := join_digits w x zero_digit zero_digit in Some (String a "")
        else None
      else
        y ← dec_digit c3;
        if bool_decide (c4 = "="%char) then
          if bool_decide (r = "") then
            let '(a, b, _) := join_digits w x y zero_digit in Some (String a (String b ""))
          else None
        else
          z ← dec_digit c4; t ← decode_groups r;
          let '(a, b, c) := join_digits w x y z in
          Some (String a (String b (String c t)))
  | _ => None
  end.

(** [base64.StdEncoding.DecodeString] *)
Definition DecodeString (s : string) : option string := decode_groups (strip_newlines s).

Example encode_ex : EncodeToString "Man is" = "TWFuIGlz" ∧ EncodeToString "light w" = "bGlnaHQgdw==".
Proof. split; vm_compute; reflexivity. Qed.

(** ** Properties *)
Ltac sextet_cases x := destruct x as [[] [] [] [] [] []].

Lemma dec_enc_digit x : dec_digit (enc_digit x) = Some x.
Proof. sextet_cases x; vm_compute; reflexivity. Qed.

Lemma enc_digit_not_pad x : enc_digit x ≠ "="%char.
Proof. sextet_cases x; vm_compute; discriminate. Qed.

Lemma enc_digit_not_newline x : is_newline (enc_digit x) = false.
Proof. sextet_cases x; vm_compute; reflexivity. Qed.

Lemma join_split_bytes a b c :
  let '(w, x, y, z) := split_bytes a b c in join_digits w x y z = (a, b, c).
Proof. by destruct a, b, c. Qed.

(** Induction three bytes at a time, as the encoder consumes them. *)
Lemma bytes3_ind (P : string → Prop) :
  P "" → (∀ a, P (String a "")) → (∀ a b, P (String a (String b ""))) →
  (∀ a b c r, P r → P (String a (String b (String c r)))) → ∀ s, P s.
Proof.
  intros H0 H1 H2 H3.
  fix IH 1. intros [|a [|b [|c r]]]; [done|apply H1|apply H2|]. apply H3, IH.
Qed.

Lemma strip_newlines_encoded s : strip_newlines (EncodeToString s) = EncodeToString s.
Proof.
  induction s as [|a|a b|a b c r IH] using bytes3_ind; [done|..]; cbn [EncodeToString].
  all: destruct (split_bytes _ _ _) as [[[w x] y] z]; cbn [strip_newlines];
    rewrite ?enc_digit_not_newline; rewrite ?IH; done.
Qed.

Lemma decode_encode_groups s : decode_groups (EncodeToString s) = Some s.
Proof.
  induction s as [|a|a b|a b c r IH] using bytes3_ind; [done|..]; cbn [EncodeToString].
  - destruct a as [a0 a1 a2 a3 a4 a5 a6 a7]. simpl.
    by rewrite !dec_enc_digit.
  - destruct a as [a0 a1 a2 a3 a4 a5 a6 a7], b as [b0 b1 b2 b3 b4 b5 b6 b7]. simpl.
    rewrite !dec_enc_digit. simpl.
    rewrite bool_decide_eq_false_2 by apply enc_digit_not_pad. by rewrite ?dec_enc_digit.
  - pose proof (join_split_bytes a b c) as Hj.
    destruct (split_bytes a b c) as [[[w x] y] z]. cbn [decode_groups].
    rewrite !dec_enc_digit. simpl.
    rewrite !bool_decide_eq_false_2 by apply enc_digit_not_pad.
    rewrite ?dec_enc_digit. simpl. rewrite IH. simpl. by rewrite Hj.
Qed.

Lemma decode_encode s : DecodeString (EncodeToString s) = Some s.
Proof. unfold DecodeString. by rewrite strip_newlines_encoded, decode_encode_groups. Qed.

Lemma encode_inj s t : EncodeToString s = EncodeToString t → s = t.
Proof. intros H. apply (inj Some). by rewrite <-!decode_encode, H. Qed.

(** The encoded text has four characters for every three bytes begun. *)
Lemma encode_length s :
  String.length (EncodeToString s) = 4 * ((String.length s + 2) / 3).
Proof.
  induction s as [|a|a b|a b c r IH] using bytes3_ind; [done|..]; cbn [EncodeToString].
  1-2: destruct (split_bytes _ _ _) as [[[w x] y] z]; done.
  destruct (split_bytes _ _ _) as [[[w x] y] z]. cbn [String.length]. rewrite IH.
  replace (S (S (S (String.length r))) + 2) with (String.length r + 2 + 1 * 3) by lia.
  rewrite Nat.div_add by done. lia.
Qed.

(** The characters that end or escape out of a double-quoted word of a shell
    command line: the double quote, the dollar sign, the back quote, the backslash,
    and the newline. *)
Definition shell_special : list ascii := map ascii_of_nat [34; 36; 96; 92; 10].

Definition shell_safe (s : string) : Prop :=
  Forall (λ c, c ∉ shell_special) (String.list_ascii_of_string s).

Lemma enc_digit_shell_safe x : enc_digit x ∉ shell_special.
Proof. apply (bool_decide_eq_true_1 _). sextet_cases x; vm_compute; reflexivity. Qed.

Lemma pad_shell_safe : "="%char ∉ shell_special.
Proof. apply (bool_decide_eq_true_1 _). vm_compute. reflexivity. Qed.

Lemma encode_shell_safe s : shell_safe (EncodeToString s).
Proof.
  unfold shell_safe.
  induction s as [|a|a b|a b c r IH] using bytes3_ind; cbn [EncodeToString];
    try destruct (split_bytes _ _ _) as [[[w x] y] z]; cbn [String.list_ascii_of_string];
    repeat constructor; auto using enc_digit_shell_safe, pad_shell_safe.
Qed.
