(* ===== verification/World.v ===== *)
(** * The machine the programs run on

    Every program of the repository acts on a file system, environment variables,
    child processes and HTTP servers through Go's [os], [io/ioutil], [os/exec] and
    [net/http]. [World] holds what the programs can see and the trace of what they
    did; [Host] is the interface to what is outside the repository: which calls fail,
    what a child process prints and leaves in the file system, what a URL answers.
    Its operations see the whole trace, so the same call may behave differently each
    time. A theorem about a program quantifies over every [Host]. *)
From S2P Require Import Prelude GoStrings.
From stdpp Require Import base tactics strings list gmap sorting.
From Stdlib Require Import Ascii.

Local Open Scope string_scope.
Local Open Scope list_scope.

Inductive node :=
| File (content : string) (mode : Z)
| DirNode.

(** What a program does to the outside, in the order it does it. *)
Inductive event :=
| EExec (argv env : list string)       (* [exec.Command(...)] run to its end *)
| EStart (argv : list string)          (* [cmd.Start()] *)
| EKill (argv : list string)           (* [cmd.Process.Kill()] *)
| EStat (path : string)
| ERead (path : string)
| EReadDir (path : string)
| EGlob (pattern : string)
| EWrite (path content : string) (mode : Z)
| ECreate (path : string)
| EMkdirAll (path : string)
| ERemove (path : string)
| ERemoveAll (path : string)
| ERename (from to : string)
| EChown (path : string) (uid gid : Z)
| EChmod (path : string) (mode : Z)
| EGet (url : string)                  (* an HTTP GET *)
| ESleep (nanoseconds : Z)
| ECall (api : string) (args : list string). (* a call into a linked library *)

#[export] Instance node_eq_dec : EqDecision node.
Proof. solve_decision. Defined.
#[export] Instance event_eq_dec : EqDecision event.
Proof. solve_decision. Defined.

Record World := mkWorld {
  w_fs : gmap string node;
  w_env : gmap string string;
  w_trace : list event;
}.

(** How a child process ended: its error if any, its output, the file system after it. *)
Record cmd_result := mkCmdResult {
  cr_err : option string;
  cr_out : string;
  cr_fs : gmap string node;
}.

Class Host := {
  host_exec : World → list string → list string → cmd_result;
  host_fault : World → event → option string;
  host_torn : World → event → option nat;    (* a failing write: the bytes it left, if the file was opened *)
  host_get : World → string → string + Z * string;
  host_cwd : option string;
  host_hostname : option string;
  host_tick : World → Z → gmap string node;  (* the files after a sleep of some nanoseconds *)
  host_clock : World → Z;                    (* nanoseconds *)
}.

(** Time goes on, and at least as long as one sleeps. *)
Class ClockLaws `{!Host} : Prop := {
  clock_grows : ∀ w w', w_trace w `prefix_of` w_trace w' → (host_clock w ≤ host_clock w')%Z;
  clock_sleep : ∀ w fs n, (host_clock w + n ≤
    host_clock (mkWorld fs (w_env w) (w_trace w ++ [ESleep n])))%Z;
}.

Abbreviation prog := (go World).

(** A machine on which every call succeeds and no command does anything. *)
Definition plain_host : Host := {|
  host_exec w _ _ := mkCmdResult None "" (w_fs w);
  host_fault _ _ := None; host_torn _ _ := None;
  host_get _ _ := inr (200%Z, "");
  host_cwd := Some "/work";
  host_hostname := Some "node";
  host_tick w _ := w_fs w;
  host_clock w := foldr (λ e t, (match e with ESleep n => Z.max 0 n | _ => 0 end + t)%Z) 0%Z (w_trace w) |}.

Lemma plain_host_clock : @ClockLaws plain_host.
Proof.
  assert (∀ l1 l2 : list event, let f := foldr (λ e t,
    (match e with ESleep n => Z.max 0 n | _ => 0 end + t)%Z) 0%Z in
    f (l1 ++ l2) = (f l1 + f l2)%Z ∧ (0 ≤ f l2)%Z) as Happ.
  { intros l1 l2 f. split.
    - unfold f. induction l1 as [|e l1 IH]; simpl; [done|]. rewrite IH. lia.
    - unfold f. induction l2 as [|e l2 IH]; simpl; [done|]. destruct e; lia. }
  split; simpl.
  - intros w w' [l ->]. destruct (Happ (w_trace w) l) as [-> ?]. lia.
  - intros w fs n. destruct (Happ (w_trace w) [ESleep n]) as [-> _]. simpl. lia.
Qed.

Definition empty_world : World := mkWorld ∅ ∅ [].

Definition log (e : event) (w : World) : World :=
  mkWorld (w_fs w) (w_env w) (w_trace w ++ [e]).

Definition set_fs (fs : gmap string node) (w : World) : World :=
  mkWorld fs (w_env w) (w_trace w).

(** The lexical order of names. *)
Definition str_le (a b : string) : Prop := String.leb a b = true.
#[export] Instance str_le_dec : RelDecision str_le.
Proof. intros a b. apply bool_eq_dec. Defined.

Definition name_le (a b : string * bool) : Prop := str_le a.1 b.1.
#[export] Instance name_le_dec : RelDecision name_le.
Proof. intros a b. apply str_le_dec. Defined.

Section ops.
Context `{HH : !Host}.

(** The call [e] is made; the host lets it fail, or [k] says what it does. *)
Definition attempt {A} (e : event) (k : prog A) : prog A := λ w,
  match host_fault w e with
  | Some err => (Err err, log e w)
  | None => k (log e w)
  end.

Definition Getenv (name : string) : prog string := λ w,
  (Ret (default "" (w_env w !! name)), w).

Definition LookupEnv (name : string) : prog (option string) := λ w,
  (Ret (w_env w !! name), w).

Definition Getwd : prog string :=
  match host_cwd with Some d => mret d | None => fail "getwd" end.

Definition Hostname : prog string :=
  match host_hostname with Some d => mret d | None => fail "hostname" end.

Definition ReadFile (path : string) : prog string :=
  attempt (ERead path) (λ w,
    match w_fs w !! path with
    | Some (File c _) => (Ret c, w)
    | _ => (Err ("open " +:+ path +:+ ": no such file or directory"), w)
    end).

(** A file opened for writing: an existing one keeps its mode, a directory is an error. *)
Definition store (path content : string) (mode : Z) : prog unit := λ w,
  match w_fs w !! path with
  | Some DirNode => (Err ("open " +:+ path +:+ ": is a directory"), w)
  | Some (File _ m) => (Ret tt, set_fs (<[path := File content m]> (w_fs w)) w)
  | None => (Ret tt, set_fs (<[path := File content mode]> (w_fs w)) w)
  end.

(** [os.WriteFile]. When it fails the file may have been opened, and so truncated or
    created, and may hold the first bytes of the content. *)
Definition WriteFile (path content : string) (mode : Z) : prog unit := λ w,
  let e := EWrite path content mode in
  match host_fault w e with
  | None => store path content mode (log e w)
  | Some err =>
      match host_torn w e with
      | None => (Err err, log e w)
      | Some n => (Err err, (store path (String.substring 0 n content) mode (log e w)).2)
      end
  end.

(** [os.Create]: truncate or create. *)
Definition Create (path : string) : prog unit :=
  attempt (ECreate path) (store path "" 438).

Definition Remove (path : string) : prog unit :=
  attempt (ERemove path) (λ w,
    match w_fs w !! path with
    | Some _ => (Ret tt, set_fs (delete path (w_fs w)) w)
    | None => (Err ("remove " +:+ path +:+ ": no such file or directory"), w)
    end).

(** [p] is [dir] or below it. *)
Definition under (dir p : string) : bool := (p =s dir) || HasPrefix p (dir +:+ "/").

Definition RemoveAll (path : string) : prog unit :=
  attempt (ERemoveAll path) (modify (λ w,
    set_fs (filter (λ kv, under path kv.1 = false) (w_fs w)) w)).

Fixpoint prefixes_of (acc : string) (comps : list string) : list string :=
  match comps with
  | [] => []
  | c :: rest =>
      let p := if acc =s "" then (if c =s "" then "" else c) else acc +:+ "/" +:+ c in
      let p := if (acc =s "") && (c =s "") then "/" else p in
      let p := if acc =s "/" then "/" +:+ c else p in
      p :: prefixes_of p rest
  end.

Definition MkdirAll (path : string) : prog unit :=
  attempt (EMkdirAll path) (modify (λ w,
    set_fs (foldl (λ fs p, match fs !! p with Some _ => fs | None => <[p := DirNode]> fs end)
      (w_fs w) (prefixes_of "" (Split (Clean path) "/"))) w)).

Definition Rename (from to : string) : prog unit :=
  attempt (ERename from to) (λ w,
    match w_fs w !! from with
    | Some n => (Ret tt, set_fs (<[to := n]> (delete from (w_fs w))) w)
    | None => (Err ("rename " +:+ from +:+ " " +:+ to +:+ ": no such file or directory"), w)
    end).

Definition Chown (path : string) (uid gid : Z) : prog unit :=
  attempt (EChown path uid gid) (mret tt).

Definition Chmod (path : string) (mode : Z) : prog unit :=
  attempt (EChmod path mode) (modify (λ w,
    match w_fs w !! path with
    | Some (File c _) => set_fs (<[path := File c mode]> (w_fs w)) w
    | _ => w
    end)).

(** [os.Stat]: the error of a missing file is told apart with [os.IsNotExist]. *)
Inductive stat_result := StatOk (n : node) | StatNotExist | StatError (e : string).

Definition Stat (path : string) : prog stat_result := λ w,
  let w' := log (EStat path) w in
  match host_fault w (EStat path) with
  | Some e => (Ret (StatError e), w')
  | None =>
      match w_fs w' !! path with
      | Some n => (Ret (StatOk n), w')
      | None => (Ret StatNotExist, w')
      end
  end.

(** The entries of a directory, sorted by name, with whether each is a directory. The
    files of the world are named by cleaned paths. *)
Definition dir_entry (dir : string) (kv : string * node) : option (string * bool) :=
  match cut_prefix (dir +:+ "/") kv.1 with
  | Some rest =>
      match Split rest "/" with
      | [name] => if name =s "" then None
                  else Some (name, match kv.2 with DirNode => true | File _ _ => false end)
      | _ => None
      end
  | None => None
  end.

Definition entries (fs : gmap string node) (dir : string) : list (string * bool) :=
  merge_sort name_le (omap (dir_entry dir) (map_to_list fs)).

Definition ReadDir (dir : string) : prog (list (string * bool)) :=
  attempt (EReadDir dir) (λ w, (Ret (entries (w_fs w) (Clean dir)), w)).

(** A child process run to its end: [cmd.Run], [cmd.Output], [cmd.CombinedOutput]. *)
Definition exec_env (env argv : list string) : prog (option string * string) := λ w,
  let w' := log (EExec argv env) w in
  let r := host_exec w argv env in
  (Ret (cr_err r, cr_out r), set_fs (cr_fs r) w').

Definition exec (argv : list string) : prog (option string * string) := exec_env [] argv.

(** The same, when the program only looks at the output if the process succeeded. *)
Definition run (argv : list string) : prog string :=
  r ← exec argv;
  match r.1 with
  | None => mret r.2
  | Some e => fail e
  end.

(** [http.Get] refuses an address without the scheme [http] or [https]. *)
Definition http_url (url : string) : bool :=
  HasPrefix (ToLower url) "http://" || HasPrefix (ToLower url) "https://".

Definition HttpGet (url : string) : prog (Z * string) := λ w,
  let w' := log (EGet url) w in
  if negb (http_url url) then (Err "unsupported protocol scheme", w') else
  match host_get w url with
  | inl e => (Err e, w')
  | inr r => (Ret r, w')
  end.

Definition Sleep (ns : Z) : prog unit :=
  modify (λ w, set_fs (host_tick w ns) (log (ESleep ns) w)).

Definition Now : prog Z := λ w, (Ret (host_clock w), w).

(** [cmd.Start()] and [cmd.Process.Kill()] *)
Definition Start (argv : list string) : prog unit := attempt (EStart argv) (mret tt).
Definition Kill (argv : list string) : prog unit := modify (log (EKill argv)).

(** A call into a linked library, which is only recorded. *)
Definition Call (api : string) (args : list string) : prog unit := modify (log (ECall api args)).
End ops.

(** [filepath.Match] for patterns made of literal bytes and [*], which is what the
    programs use: a star stands for any run of bytes other than the slash. *)
Fixpoint Match (pat : string) : string → bool :=
  match pat with
  | EmptyString => λ s, s =s ""
  | String a p =>
      if bool_decide (a = "*"%char) then
        fix star (s : string) : bool :=
          Match p s ||
          match s with
          | EmptyString => false
          | String c s' => if is_slash c then false else star s'
          end
      else λ s,
        match s with
        | EmptyString => false
        | String b s' => bool_decide (a = b) && Match p s'
        end
  end.

Example match_ex : (Match "eks-d-*.yaml" "eks-d-1-27.yaml", Match "eks-d-*.yaml" "eks-a-manifest.yaml",
  Match "a*/b" "ax/b", Match "a*b" "a/b") = (true, false, true, false).
Proof. vm_compute. reflexivity. Qed.

(** [filepath.Glob] over the files of the world, in lexical order. *)
Definition Glob `{!Host} (pattern : string) : prog (list string) :=
  attempt (EGlob pattern) (λ w,
    (Ret (merge_sort str_le
      (filter (λ p, Match pattern p = true) (map_to_list (w_fs w)).*1)), w)).

(** ** What a run leaves in the trace *)

(** The events of the trace a property is about. *)
Definition obs {X} (f : event → option X) (w : World) : list X := omap f (w_trace w).

Lemma obs_log {X} (f : event → option X) e w :
  obs f (log e w) = obs f w ++ option_list (f e).
Proof. unfold obs, log. simpl. rewrite omap_app. simpl. by destruct (f e). Qed.

Lemma obs_set_fs {X} (f : event → option X) fs w : obs f (set_fs fs w) = obs f w.
Proof. done. Qed.

#[export] Hint Rewrite @obs_log @obs_set_fs : str.

(** The run added nothing [f] observes. *)
Definition quiet {X} (f : event → option X) (w w' : World) : Prop := obs f w' = obs f w.

#[export] Instance quiet_preorder {X} (f : event → option X) : PreOrder (quiet f).
Proof. split; unfold quiet; [done|]. intros x y z -> ->. done. Qed.

(** The run only added to the trace. *)
Definition trace_grows (w w' : World) : Prop := w_trace w `prefix_of` w_trace w'.

#[export] Instance trace_grows_preorder : PreOrder trace_grows.
Proof. split; unfold trace_grows; [intros w; reflexivity|]. intros x y z ??. by etrans. Qed.

(** The relations on worlds that every operation of this file respects, given what
    it says of the logging of its event and of its change to the file system. *)
Section op_preserves.
Context `{HH : !Host} (R : World → World → Prop) `{!PreOrder R}.

Lemma preserves_attempt {A} e (k : prog A) :
  (∀ w, R w (log e w)) → preserves R k → preserves R (attempt e k).
Proof.
  intros He Hk w o w'. unfold attempt.
  destruct (host_fault w e); intros H; simplify_eq; [done|].
  etrans; [apply He|]. by eapply Hk.
Qed.

Lemma preserves_Getenv n : preserves R (Getenv n).
Proof. intros w o w' [= <- <-]. done. Qed.
Lemma preserves_LookupEnv n : preserves R (LookupEnv n).
Proof. intros w o w' [= <- <-]. done. Qed.
Lemma preserves_Getwd : preserves R Getwd.
Proof. unfold Getwd. destruct host_cwd; auto with go. Qed.
Lemma preserves_Hostname : preserves R Hostname.
Proof. unfold Hostname. destruct host_hostname; auto with go. Qed.

Context (Hfs : ∀ fs w, R w (set_fs fs w)).

Lemma preserves_modify (f : World → World) : (∀ w, R w (f w)) → preserves R (modify f).
Proof using. intros Hf w o w' [= <- <-]. done. Qed.

Lemma preserves_ReadFile p :
  (∀ w, R w (log (ERead p) w)) → preserves R (ReadFile p).
Proof using All.
  intros Hlog.
  apply preserves_attempt; [done|].
  intros w o w'. destruct (w_fs w !! p) as [[]|]; intros; by simplify_eq.
Qed.

Lemma preserves_store p c m : preserves R (store p c m).
Proof using All.
  intros w o w'. unfold store. destruct (w_fs w !! p) as [[]|]; intros; by simplify_eq.
Qed.

Lemma preserves_WriteFile p c m :
  (∀ w, R w (log (EWrite p c m) w)) → preserves R (WriteFile p c m).
Proof using All.
  intros Hlog w o w' H. etrans; [apply Hlog|]. unfold WriteFile in H.
  destruct (host_fault w _); [destruct (host_torn w _) as [n|]|].
  - injection H as _ <-. destruct (store _ _ _ _) as [o1 w1] eqn:E. by eapply preserves_store.
  - by injection H as _ <-.
  - by eapply preserves_store.
Qed.

Lemma preserves_Create p :
  (∀ w, R w (log (ECreate p) w)) → preserves R (Create p).
Proof using All.
  intros Hlog. apply preserves_attempt; [done|]. by apply preserves_store. Qed.

Lemma preserves_Remove p :
  (∀ w, R w (log (ERemove p) w)) → preserves R (Remove p).
Proof using All.
  intros Hlog.
  apply preserves_attempt; [done|].
  intros w o w'. destruct (w_fs w !! p) as [|]; intros; by simplify_eq.
Qed.

Lemma preserves_RemoveAll p :
  (∀ w, R w (log (ERemoveAll p) w)) → preserves R (RemoveAll p).
Proof using All.
  intros Hlog. apply preserves_attempt; [done|]. by apply preserves_modify. Qed.

Lemma preserves_MkdirAll p :
  (∀ w, R w (log (EMkdirAll p) w)) → preserves R (MkdirAll p).
Proof using All.
  intros Hlog. apply preserves_attempt; [done|]. by apply preserves_modify. Qed.

Lemma preserves_Rename a b :
  (∀ w, R w (log (ERename a b) w)) → preserves R (Rename a b).
Proof using All.
  intros Hlog.
  apply preserves_attempt; [done|].
  intros w o w'. destruct (w_fs w !! a) as [|]; intros; by simplify_eq.
Qed.

Lemma preserves_Chown p u g :
  (∀ w, R w (log (EChown p u g) w)) → preserves R (Chown p u g).
Proof using All.
  intros Hlog. apply preserves_attempt; [done|]. auto with go. Qed.

Lemma preserves_Chmod p m :
  (∀ w, R w (log (EChmod p m) w)) → preserves R (Chmod p m).
Proof using All.
  intros Hlog.
  apply preserves_attempt; [done|]. apply preserves_modify.
  intros w. destruct (w_fs w !! p) as [[]|]; [apply Hfs|done..].
Qed.

Lemma preserves_Stat p :
  (∀ w, R w (log (EStat p) w)) → preserves R (Stat p).
Proof using All.
  intros Hlog.
  intros w o w'. unfold Stat.
  destruct (host_fault w (EStat p)); [|destruct (w_fs _ !! p)];
    intros; simplify_eq; by apply Hlog.
Qed.

Lemma preserves_ReadDir p :
  (∀ w, R w (log (EReadDir p) w)) → preserves R (ReadDir p).
Proof using All.
  intros Hlog. apply preserves_attempt; [done|]. intros w o w' [= <- <-]. done. Qed.

Lemma preserves_Glob p :
  (∀ w, R w (log (EGlob p) w)) → preserves R (Glob p).
Proof using All.
  intros Hlog. apply preserves_attempt; [done|]. intros w o w' [= <- <-]. done. Qed.

Lemma preserves_HttpGet u :
  (∀ w, R w (log (EGet u) w)) → preserves R (HttpGet u).
Proof using All.
  intros Hlog.
  intros w o w'. unfold HttpGet.
  destruct (http_url u), (host_get w u); intros; simplify_eq/=; by apply Hlog.
Qed.

Lemma preserves_Sleep n :
  (∀ w, R w (log (ESleep n) w)) → preserves R (Sleep n).
Proof using All.
  intros Hlog. apply preserves_modify. intros w. etrans; [apply Hlog|apply Hfs].
Qed.

Lemma preserves_Now : preserves R Now.
Proof using HH PreOrder0. intros w o w' [= <- <-]. done. Qed.

Lemma preserves_Start argv : (∀ w, R w (log (EStart argv) w)) → preserves R (Start argv).
Proof using HH PreOrder0. intros Hlog. apply preserves_attempt; [done|]. auto with go. Qed.

Lemma preserves_Kill argv : (∀ w, R w (log (EKill argv) w)) → preserves R (Kill argv).
Proof using. intros Hlog. apply preserves_modify. done. Qed.

Lemma preserves_Call api args : (∀ w, R w (log (ECall api args) w)) → preserves R (Call api args).
Proof using. intros Hlog. apply preserves_modify. done. Qed.

Lemma preserves_exec_env env argv :
  (∀ w, R w (log (EExec argv env) w)) → preserves R (exec_env env argv).
Proof using All.
  intros He w o w' [= <- <-]. etrans; [apply He|]. apply Hfs.
Qed.

Lemma preserves_exec argv : (∀ w, R w (log (EExec argv []) w)) → preserves R (exec argv).
Proof using All. apply preserves_exec_env. Qed.

Lemma preserves_run argv : (∀ w, R w (log (EExec argv []) w)) → preserves R (run argv).
Proof using All.
  intros He. apply preserves_bind; [done|by apply preserves_exec|].
  intros [[e|] out]; simpl; auto with go.
Qed.
End op_preserves.

#[export] Hint Resolve preserves_Getenv preserves_LookupEnv preserves_Getwd preserves_Hostname
  preserves_ReadFile preserves_WriteFile preserves_Create preserves_Remove preserves_RemoveAll
  preserves_MkdirAll preserves_Rename preserves_Chown preserves_Chmod preserves_Stat preserves_ReadDir
  preserves_Glob preserves_HttpGet preserves_Sleep preserves_Now preserves_Start
  preserves_Kill preserves_Call preserves_exec_env preserves_exec
  preserves_run : go.

Lemma trace_grows_log e w : trace_grows w (log e w).
Proof. unfold trace_grows, log. simpl. by apply prefix_app_r. Qed.
Lemma trace_grows_set_fs fs w : trace_grows w (set_fs fs w).
Proof. unfold trace_grows. by exists []; rewrite app_nil_r. Qed.
#[export] Hint Resolve trace_grows_log trace_grows_set_fs : go.

(** ** The commands a program runs *)
Definition as_exec (e : event) : option (list string) :=
  match e with EExec argv _ => Some argv | _ => None end.

Definition execs (w : World) : list (list string) := obs as_exec w.

Lemma quiet_log {X} (f : event → option X) e w : f e = None → quiet f w (log e w).
Proof. intros He. unfold quiet. rewrite obs_log, He. simpl. by rewrite app_nil_r. Qed.
#[export] Hint Resolve quiet_log : go.
#[export] Hint Extern 1 (_ = None) => reflexivity : go.

Lemma quiet_set_fs {X} (f : event → option X) fs w : quiet f w (set_fs fs w).
Proof. done. Qed.
#[export] Hint Resolve quiet_set_fs : go.

(** [quiet_solve] walks through a program that is built from the operations above. *)
Ltac quiet_step :=
  match goal with
  | |- preserves _ (_ ≫= _) => apply preserves_bind; [apply _| |intros ?]
  | |- preserves _ (if ?b then _ else _) => destruct b
  | |- preserves _ (match ?x with _ => _ end) => destruct x
  | |- preserves _ (recover _ _) => apply preserves_recover; [apply _| |intros ?]
  | |- preserves _ (wrap _ _) => apply preserves_wrap; [apply _|]
  | |- preserves _ (fatal_on_err _) => apply preserves_fatal; [apply _|]
  | |- preserves _ (ignore_err _) => apply preserves_ignore; [apply _|]
  | |- preserves _ (when _ _) => apply preserves_when; [apply _|]
  | |- preserves _ (forM _ _) => apply preserves_forM; [apply _|intros ?]
  | |- preserves _ (foldM _ _ _) => apply preserves_foldM; [apply _|intros ? ?]
  | |- preserves _ (let _ := _ in _) => cbv zeta
  | |- preserves _ _ => solve [eauto 3 with go typeclass_instances]
  end.
Ltac quiet_solve := repeat quiet_step.

Section exec_spec.
Context `{HH : !Host}.

Lemma exec_env_ret env argv w r w' : exec_env env argv w = (Ret r, w') →
  execs w' = execs w ++ [argv] ∧
  r = (cr_err (host_exec w argv env), cr_out (host_exec w argv env)) ∧
  w_fs w' = cr_fs (host_exec w argv env).
Proof. intros [= <- <-]. unfold execs. rewrite obs_set_fs, obs_log. done. Qed.

Lemma run_ret argv w out w' : run argv w = (Ret out, w') →
  execs w' = execs w ++ [argv] ∧ out = cr_out (host_exec w argv []) ∧
  cr_err (host_exec w argv []) = None ∧ w_fs w' = cr_fs (host_exec w argv []).
Proof.
  intros H. apply bind_ret_inv in H as (r & w1 & H & H2).
  apply exec_env_ret in H as (He & -> & Hfs). simpl in H2.
  destruct (cr_err _) eqn:E; [done|]. apply mret_ret in H2 as [<- <-]. done.
Qed.

Lemma ReadFile_ret p w c w' : ReadFile p w = (Ret c, w') →
  (∃ m, w_fs w !! p = Some (File c m)) ∧ w' = log (ERead p) w.
Proof.
  unfold ReadFile, attempt. destruct (host_fault w (ERead p)); [done|]. simpl.
  destruct (w_fs w !! p) as [[c' m|]|]; intros; simplify_eq. eauto.
Qed.

(** What was stored, and with the mode of the file that was there. *)
Lemma store_ret p c m w w' : store p c m w = (Ret tt, w') →
  ∃ m', w' = set_fs (<[p := File c m']> (w_fs w)) w ∧ (∀ c0 m0, w_fs w !! p = Some (File c0 m0) → m' = m0) ∧
    (w_fs w !! p = None → m' = m).
Proof. unfold store. destruct (w_fs w !! p) as [[]|]; intros; simplify_eq; naive_solver. Qed.

Lemma WriteFile_keeps_mode p c m c0 m0 w w' : w_fs w !! p = Some (File c0 m0) →
  WriteFile p c m w = (Ret tt, w') → w_fs w' = <[p := File c m0]> (w_fs w).
Proof.
  unfold WriteFile. destruct (host_fault w _); [by destruct (host_torn w _)|]. intros Hp H.
  apply store_ret in H as (m' & -> & Hm & _). by rewrite (Hm _ _ Hp).
Qed.

Lemma WriteFile_new p c m w w' : w_fs w !! p = None →
  WriteFile p c m w = (Ret tt, w') → w_fs w' = <[p := File c m]> (w_fs w).
Proof.
  unfold WriteFile. destruct (host_fault w _); [by destruct (host_torn w _)|]. intros Hp H.
  apply store_ret in H as (m' & -> & _ & Hm). by rewrite (Hm Hp).
Qed.

(** A write that did not return was an error, and left the file as it was or with a part of
    the content. *)
Definition torn (p c : string) (fs fs' : gmap string node) : Prop :=
  fs' = fs ∨ ∃ n m, fs' = <[p := File (String.substring 0 n c) m]> fs.

Lemma store_torn p c n m w : torn p c (w_fs w) (w_fs (store p (String.substring 0 n c) m w).2).
Proof.
  unfold store. destruct (w_fs w !! p) as [[]|]; [right; by eexists _, _|by left|right; by eexists _, _].
Qed.

Lemma WriteFile_not_ret p c m w o w' : WriteFile p c m w = (o, w') → (∀ b, o ≠ Ret b) →
  (∃ e, o = Err e) ∧ torn p c (w_fs w) (w_fs w').
Proof.
  unfold WriteFile. intros H Ho. destruct (host_fault w _) as [err|].
  - destruct (host_torn w _) as [n|]; injection H as <- <-; (split; [by eexists|]); [|by left].
    apply (store_torn p c n m (log _ w)).
  - unfold store in H. destruct (w_fs (log _ w) !! p) as [[]|]; injection H as <- <-;
      first [by destruct (Ho tt)|split; [by eexists|by left]].
Qed.

Lemma WriteFile_ret p c m w w' : WriteFile p c m w = (Ret tt, w') →
  (∃ m', w_fs w' = <[p := File c m']> (w_fs w)) ∧
  w_trace w' = w_trace w ++ [EWrite p c m] ∧ w_env w' = w_env w.
Proof.
  unfold WriteFile. destruct (host_fault w _); [by destruct (host_torn w _)|].
  intros H. apply store_ret in H as (m' & -> & _). eauto.
Qed.

Lemma quiet_execs {A} (m : prog A) (w w' : World) (o : outcome A) :
  preserves (quiet as_exec) m → m w = (o, w') → execs w' = execs w.
Proof. intros Hp H. by eapply Hp. Qed.
End exec_spec.

(** ** What each operation that returned did to the file system *)
Section fs_spec.
Context `{HH : !Host}.

Lemma Create_ret p w w' : Create p w = (Ret tt, w') →
  ∃ m, w_fs w' = <[p := File "" m]> (w_fs w).
Proof.
  unfold Create, attempt. destruct (host_fault w _); [done|].
  intros H. apply store_ret in H as (m' & -> & _). eauto.
Qed.

Lemma Remove_ret p w w' : Remove p w = (Ret tt, w') →
  is_Some (w_fs w !! p) ∧ w_fs w' = delete p (w_fs w).
Proof.
  unfold Remove, attempt. destruct (host_fault w _); [done|]. simpl.
  destruct (w_fs w !! p) as [n|] eqn:E; intros; simplify_eq/=. eauto.
Qed.

Lemma RemoveAll_ret p w w' : RemoveAll p w = (Ret tt, w') →
  w_fs w' = filter (λ kv, under p kv.1 = false) (w_fs w).
Proof.
  unfold RemoveAll, attempt. destruct (host_fault w _); [done|].
  intros H. cbv [modify] in H. by simplify_eq/=.
Qed.

Lemma MkdirAll_ret p w w' : MkdirAll p w = (Ret tt, w') →
  w_fs w' = foldl (λ fs q, match fs !! q with Some _ => fs | None => <[q := DirNode]> fs end)
              (w_fs w) (prefixes_of "" (Split (Clean p) "/")).
Proof.
  unfold MkdirAll, attempt. destruct (host_fault w _); [done|].
  intros H. cbv [modify] in H. by simplify_eq/=.
Qed.

Lemma ReadDir_ret d w es w' : ReadDir d w = (Ret es, w') → es = entries (w_fs w) (Clean d) ∧ w_fs w' = w_fs w.
Proof. unfold ReadDir, attempt. destruct (host_fault w _); [done|]. intros H. by simplify_eq/=. Qed.

(** Changing the mode keeps the names and the contents. *)
Lemma Chmod_fs p m w o w' : Chmod p m w = (o, w') →
  w_fs w' = w_fs w ∨ ∃ c m', w_fs w !! p = Some (File c m') ∧ w_fs w' = <[p := File c m]> (w_fs w).
Proof.
  unfold Chmod, attempt. destruct (host_fault w _); intros H; simplify_eq/=; [by left|].
  cbv [modify] in H. simplify_eq/=. destruct (w_fs w !! p) as [[c m'|]|] eqn:E; simpl; eauto.
Qed.

Lemma ignore_err_ret {A} (m : prog A) w w' : ignore_err m w = (Ret tt, w') → ∃ o, m w = (o, w').
Proof.
  unfold ignore_err, recover, mbind, go_mbind, go_bind.
  destruct (m w) as [[] ?]; intros H; cbv in H; simplify_eq; eauto.
Qed.

Lemma getwd_ret w d w' : Getwd w = (Ret d, w') → host_cwd = Some d ∧ w' = w.
Proof. unfold Getwd. destruct host_cwd; intros H; cbv in H; by simplify_eq. Qed.
End fs_spec.

(** The directories made for an absolute path are absolute paths. *)
Lemma prefixes_of_rooted ds cs : Forall plain ds → Forall plain cs →
  Forall (λ q, ∃ cs', Forall plain cs' ∧ q = rooted cs') (prefixes_of (rooted ds) cs).
Proof.
  intros Hd Hc. revert ds Hd. induction Hc as [|c cs Hp Hc IH]; intros ds Hd; [constructor|].
  cbn [prefixes_of]. change (rooted ds =s "") with false. cbv iota zeta beta. cbn [andb].
  assert ((if rooted ds =s "/" then "/" +:+ c else rooted ds +:+ "/" +:+ c) = rooted (ds ++ [c])) as ->.
  { destruct (decide (ds = [])) as [->|Hne]; [done|]. rewrite rooted_snoc by done.
    destruct (rooted ds =s "/") eqn:E; [|done]. apply streq_true in E.
    by destruct (rooted_inj ds [] Hd ltac:(constructor) E). }
  assert (Forall plain (ds ++ [c])) by (apply Forall_app; split; [done|by constructor]).
  constructor; [by eexists|]. by apply IH.
Qed.

Lemma MkdirAll_prefixes cs : Forall plain cs →
  Forall (λ q, ∃ cs', Forall plain cs' ∧ q = rooted cs') (prefixes_of "" (Split (rooted cs) "/")).
Proof.
  intros Hc. unfold rooted at 2. change ("/" +:+ ?x) with ("" +:+ String "/"%char x).
  rewrite Split_char_app by done. cbn [prefixes_of].
  change (Forall (λ q, ∃ cs', Forall plain cs' ∧ q = rooted cs')
    (rooted [] :: prefixes_of (rooted []) (Split (StrJoin cs "/") "/"))).
  constructor; [by exists []|].
  destruct (decide (cs = [])) as [->|Hne].
  - simpl. constructor; [by exists []|constructor].
  - rewrite Split_char_Join by (done || by apply plain_no_slash). by apply prefixes_of_rooted.
Qed.

(** ** The entries of a directory *)
Lemma dir_entry_Some dir p n name b : dir_entry dir (p, n) = Some (name, b) →
  p = dir +:+ "/" +:+ name ∧ name ≠ "" ∧ Contains name "/" = false ∧
  b = match n with DirNode => true | File _ _ => false end.
Proof.
  unfold dir_entry. simpl. destruct (cut_prefix (dir +:+ "/") p) as [rest|] eqn:E; [|done].
  apply cut_prefix_Some in E. pose proof (Split_pieces "/" rest) as Hp.
  pose proof (Join_Split "/" ltac:(done) rest) as Hj.
  destruct (Split rest "/") as [|x [|]]; try done. simpl in Hj. subst x.
  apply Forall_cons in Hp as [Hp _].
  destruct (rest =s "") eqn:En; intros [= <- <-]. apply streq_false in En.
  by rewrite E, sapp_assoc.
Qed.

Lemma dir_entry_file dir name c m : name ≠ "" → Contains name "/" = false →
  dir_entry dir (dir +:+ "/" +:+ name, File c m) = Some (name, false).
Proof.
  intros Hn Hs. unfold dir_entry. simpl. rewrite <-sapp_assoc, cut_prefix_app, Split_absent by done.
  apply streq_false in Hn. by rewrite Hn.
Qed.

Lemma sapp_inj_l a b c : a +:+ b = a +:+ c → b = c.
Proof. induction a; simpl; [done|]. intros [= H]. by apply IHa. Qed.

Lemma elem_of_entries fs dir name b : (name, b) ∈ entries fs dir ↔
  ∃ n, fs !! (dir +:+ "/" +:+ name) = Some n ∧ name ≠ "" ∧ Contains name "/" = false ∧
    b = match n with DirNode => true | File _ _ => false end.
Proof.
  unfold entries. rewrite merge_sort_Permutation, list_elem_of_omap. split.
  - intros ([p n] & Hin & He). apply elem_of_map_to_list in Hin.
    apply dir_entry_Some in He as (-> & Hn & Hs & Hb). eauto.
  - intros (n & Hfs & Hn & Hs & ->). exists (dir +:+ "/" +:+ name, n).
    rewrite elem_of_map_to_list. split; [done|]. destruct n as [c m|].
    + by apply dir_entry_file.
    + unfold dir_entry. simpl. rewrite <-sapp_assoc, cut_prefix_app, Split_absent by done.
      apply streq_false in Hn. by rewrite Hn.
Qed.

Lemma entries_NoDup fs dir : NoDup (entries fs dir).*1.
Proof.
  unfold entries. rewrite merge_sort_Permutation.
  pose proof (NoDup_fst_map_to_list fs) as Hnd.
  induction (map_to_list fs) as [|[p n] l IH]; [constructor|].
  simpl in Hnd. apply NoDup_cons in Hnd as [Hp Hnd]. specialize (IH Hnd).
  simpl. destruct (dir_entry dir (p, n)) as [[name b]|] eqn:E; [|done].
  simpl. apply NoDup_cons. split; [|done].
  intros ([name' b'] & Hname & Hin)%list_elem_of_fmap. simpl in Hname. subst name'.
  apply list_elem_of_omap in Hin as ([p' n'] & Hin & E').
  apply dir_entry_Some in E as (-> & _), E' as (-> & _).
  apply Hp. apply list_elem_of_fmap. by exists (dir +:+ "/" +:+ name, n').
Qed.

Lemma quiet_obs {X} (f : event → option X) {A} (m : prog A) w w' (o : outcome A) :
  preserves (quiet f) m → m w = (o, w') → obs f w' = obs f w.
Proof. intros Hp H. by eapply Hp. Qed.

(** [quiet_of f H]: the program of [H] did nothing that [f] observes. *)
Ltac quiet_of f H :=
  lazymatch type of H with
  | ?m ?w = (?o, ?w') =>
      let E := fresh in
      assert (obs f w' = obs f w) as E by (apply (quiet_obs f m w w' o); [quiet_solve|exact H]);
      clear H; rename E into H
  end.

(** The URLs fetched and the files written. *)
Definition as_get (e : event) : option string :=
  match e with EGet u => Some u | _ => None end.
Definition as_write (e : event) : option (string * string) :=
  match e with EWrite p c _ => Some (p, c) | _ => None end.

(** The calls into linked libraries. *)
Definition as_call (e : event) : option (string * list string) :=
  match e with ECall api args => Some (api, args) | _ => None end.

Lemma HttpGet_ret `{!Host} u w r w' : HttpGet u w = (Ret r, w') →
  w' = log (EGet u) w ∧ host_get w u = inr r.
Proof. unfold HttpGet. destruct (http_url u), (host_get w u); intros; by simplify_eq/=. Qed.

Lemma HttpGet_refused `{!Host} u w : http_url u = false → HttpGet u w = (Err "unsupported protocol scheme", log (EGet u) w).
Proof. unfold HttpGet. by intros ->. Qed.

(** [quiet_in H]: the program of [H] ran no command. *)
Ltac quiet_in H :=
  lazymatch type of H with
  | ?m ?w = (?o, ?w') =>
      let E := fresh in
      assert (execs w' = execs w) as E by (apply (quiet_execs m w w' o); [quiet_solve|exact H]);
      clear H; rename E into H
  end.

(** ** Runs that leave the files as they are *)
Definition same_fs (w w' : World) : Prop := w_fs w' = w_fs w.

#[export] Instance same_fs_preorder : PreOrder same_fs.
Proof. split; unfold same_fs; [done|]. intros x y z -> ->. done. Qed.

Lemma same_fs_log e w : same_fs w (log e w).
Proof. done. Qed.
#[export] Hint Resolve same_fs_log : go.

Section same_fs.
Context `{HH : !Host}.

Lemma ReadFile_same_fs p : preserves same_fs (ReadFile p).
Proof.
  apply preserves_attempt; [apply _|auto with go|]. intros w o w'.
  destruct (w_fs w !! p) as [[]|]; intros; by simplify_eq.
Qed.

Lemma HttpGet_same_fs u : preserves same_fs (HttpGet u).
Proof. intros w o w'. unfold HttpGet. destruct (http_url u), (host_get w u); intros; by simplify_eq/=. Qed.

Lemma Stat_same_fs p : preserves same_fs (Stat p).
Proof.
  intros w o w'. unfold Stat. destruct (host_fault w _); [|destruct (w_fs _ !! p)]; intros; by simplify_eq.
Qed.

Lemma ReadDir_same_fs p : preserves same_fs (ReadDir p).
Proof. apply preserves_attempt; [apply _|auto with go|]. intros w o w' [= <- <-]. done. Qed.
End same_fs.
#[export] Hint Resolve ReadFile_same_fs HttpGet_same_fs Stat_same_fs ReadDir_same_fs : go.

Lemma by_preserves {A} (R : World → World → Prop) (m : prog A) w o w' : preserves R m → m w = (o, w') → R w w'.
Proof. intros Hm H. by eapply Hm. Qed.

(** [same_fs_of H]: the program of [H] left the files as they were. *)
Ltac same_fs_of H :=
  lazymatch type of H with
  | ?m ?w = (?o, ?w') => let E := fresh in
      assert (w_fs w' = w_fs w) as E by (apply (by_preserves same_fs m w o w'); [quiet_solve|exact H]);
      clear H; rename E into H
  end.

(** [grows_of H G]: the program of [H] only added to the trace. *)
Ltac grows_of H G :=
  lazymatch type of H with
  | ?m ?w = (?o, ?w') =>
      assert (trace_grows w w') as G by (apply (by_preserves trace_grows m w o w'); [quiet_solve|exact H])
  end.

(** ** What a program emits

    [emits f m l]: whatever happens, what [f] observes of a run of [m] is the beginning
    of [l], and all of [l] when [m] returns. *)
Section emits.
Context {X : Type} (f : event → option X).

Definition emits {A} (m : prog A) (l : list X) : Prop :=
  ∀ w o w', m w = (o, w') → ∃ k, k `prefix_of` l ∧ obs f w' = obs f w ++ k ∧ (∀ a, o = Ret a → k = l).

Lemma emits_quiet {A} (m : prog A) : preserves (quiet f) m → emits m [].
Proof.
  intros Hm w o w' H. exists []. split; [done|]. rewrite app_nil_r. split; [|done]. by eapply Hm.
Qed.

Lemma emits_bind {A B} (m : prog A) (k : A → prog B) l1 l2 :
  emits m l1 → (∀ a, emits (k a) l2) → emits (m ≫= k) (l1 ++ l2).
Proof.
  intros Hm Hk w o w' H. unfold mbind, go_mbind, go_bind in H.
  destruct (m w) as [[a|e|p|c] w1] eqn:E; apply Hm in E as (k1 & P1 & E1 & F1).
  - specialize (F1 a eq_refl) as ->. apply Hk in H as (k2 & P2 & E2 & F2). exists (l1 ++ k2).
    split; [by apply prefix_app|]. split; [by rewrite E2, E1, app_assoc|]. intros b Hb. by rewrite (F2 b Hb).
  - simplify_eq. exists k1. split; [by apply prefix_app_r|]. done.
  - simplify_eq. exists k1. split; [by apply prefix_app_r|]. done.
  - simplify_eq. exists k1. split; [by apply prefix_app_r|]. done.
Qed.

(** The two sides of a sequence, when one of them is not observed. *)
Lemma emits_after {A B} (m : prog A) (k : A → prog B) l :
  preserves (quiet f) m → (∀ a, emits (k a) l) → emits (m ≫= k) l.
Proof. intros Hm Hk. apply (emits_bind m k [] l); [by apply emits_quiet|done]. Qed.

Lemma emits_before {A B} (m : prog A) (k : A → prog B) l :
  emits m l → (∀ a, preserves (quiet f) (k a)) → emits (m ≫= k) l.
Proof.
  intros Hm Hk. rewrite <-(app_nil_r l). apply emits_bind; [done|]. intros a. by apply emits_quiet.
Qed.

Lemma emits_wrap {A} msg (m : prog A) l : emits m l → emits (wrap msg m) l.
Proof.
  intros Hm w o w' H. unfold wrap, recover, fail in H.
  destruct (m w) as [[a|e|p|c] w1] eqn:E; simplify_eq;
    destruct (Hm _ _ _ E) as (k & P & Ek & F); exists k; naive_solver.
Qed.

Lemma emits_forM {A} (l : list A) (body : A → prog unit) (g : A → list X) :
  (∀ x, emits (body x) (g x)) → emits (forM l body) (flat_map g l).
Proof.
  intros Hb. induction l as [|x l IH]; cbn [forM flat_map].
  - apply emits_quiet, preserves_ret. apply _.
  - by apply emits_bind.
Qed.

Lemma emits_if {A} (b : bool) (m1 m2 : prog A) l1 l2 :
  emits m1 l1 → emits m2 l2 → emits (if b then m1 else m2) (if b then l1 else l2).
Proof. by destruct b. Qed.

Lemma emits_exec_env `{HH : !Host} env argv : emits (exec_env env argv) (option_list (f (EExec argv env))).
Proof.
  intros w o w' [= <- <-]. eexists. split; [reflexivity|]. by rewrite obs_set_fs, obs_log.
Qed.

Lemma emits_run `{HH : !Host} argv : emits (run argv) (option_list (f (EExec argv []))).
Proof.
  apply emits_before; [apply emits_exec_env|]. intros [[e|] out]; simpl; auto with go typeclass_instances.
Qed.

Lemma emits_ret {A} (m : prog A) l w a w' : emits m l → m w = (Ret a, w') → obs f w' = obs f w ++ l.
Proof. intros Hm H. apply Hm in H as (k & _ & E & F). by rewrite <-(F a eq_refl). Qed.
End emits.

(** ** The environment of the process never changes *)
Definition same_env (w w' : World) : Prop := w_env w' = w_env w.

#[export] Instance same_env_preorder : PreOrder same_env.
Proof. split; unfold same_env; [done|]. intros x y z -> ->. done. Qed.

Lemma same_env_log e w : same_env w (log e w).
Proof. done. Qed.
Lemma same_env_set_fs fs w : same_env w (set_fs fs w).
Proof. done. Qed.
#[export] Hint Resolve same_env_log same_env_set_fs : go.

(** ** Commands one after another, and what a failing one does to a run *)
Definition commands `{HH : !Host} (argvs : list (list string)) : prog unit :=
  forM argvs (λ argv, _ ← run argv; mret tt).

Lemma commands_execs `{HH : !Host} argvs w w' : commands argvs w = (Ret tt, w') → execs w' = execs w ++ argvs.
Proof.
  unfold commands. apply (forM_ind (λ seen w2, execs w2 = execs w ++ seen)); [by rewrite app_nil_r|].
  intros seen argv rest w1 w2 _ E H. apply bind_ret_inv in H as (u & w3 & H & H2).
  apply mret_ret in H2 as [_ <-]. apply run_ret in H as (H & _). by rewrite H, E, app_assoc.
Qed.

(** Each command of a sequence may be given an error message of its own. *)
Lemma commands_wrap `{HH : !Host} {A} (l : list A) (argv : A → list string) (msg : A → string) w w' :
  forM l (λ x, _ ← wrap (msg x) (run (argv x)); mret tt) w = (Ret tt, w') →
  commands (map argv l) w = (Ret tt, w').
Proof.
  revert w. induction l as [|x l IH]; intros w H; [done|]. cbn [map commands forM] in *.
  apply bind_ret_inv in H as ([] & w1 & H & Hl). apply bind_ret_inv in H as (u & w2 & H & H2).
  apply wrap_ret in H. rewrite (bind_step _ _ _ tt w1); [by apply IH|]. by rewrite (bind_step _ _ _ _ _ H).
Qed.

Lemma wrap_commands `{HH : !Host} {A} (l : list A) (argv : A → list string) (msg : A → string) w w' :
  commands (map argv l) w = (Ret tt, w') →
  forM l (λ x, _ ← wrap (msg x) (run (argv x)); mret tt) w = (Ret tt, w').
Proof.
  revert w. induction l as [|x l IH]; intros w H; [done|]. cbn [map commands forM] in *.
  apply bind_ret_inv in H as ([] & w1 & H & Hl). apply bind_ret_inv in H as (u & w2 & H & H2).
  rewrite (bind_step _ _ _ tt w1); [by apply IH|]. by rewrite (bind_step _ _ _ _ _ (wrap_ok _ _ _ _ _ H)).
Qed.

(** Whatever the machine looks like, [argv] fails when it is run after the commands [before]. *)
Definition fails_after `{HH : !Host} (before : list (list string)) (argv : list string) : Prop :=
  ∀ w, execs w = before → is_Some (cr_err (host_exec w argv [])).

(** A command that fails is the last one of a run, and the run does not return. *)
Definition stops_on_failure `{HH : !Host} {A} (m : prog A) : Prop := ∀ w o w', m w = (o, w') →
  ∃ l, execs w' = execs w ++ l ∧
    ∀ l1 argv l2, l = l1 ++ argv :: l2 → fails_after (execs w ++ l1) argv → l2 = [] ∧ ∀ a, o ≠ Ret a.

Section stops.
Context `{HH : !Host}.

Lemma stops_quiet {A} (m : prog A) : preserves (quiet as_exec) m → stops_on_failure m.
Proof.
  intros Hm w o w' H. exists []. rewrite app_nil_r. split; [by eapply quiet_execs|]. by intros [].
Qed.

Lemma stops_run argv : stops_on_failure (run argv).
Proof.
  intros w o w' H. unfold run in H.
  destruct (exec argv w) as [r1 w1] eqn:E. injection E as <- <-.
  assert (execs w' = execs w ++ [argv] ∧ (is_Some (cr_err (host_exec w argv [])) → ∀ a, o ≠ Ret a)) as [He Ho].
  { rewrite (bind_step _ _ _ _ _ (eq_refl : exec argv w = (Ret _, _))) in H. cbn [fst snd] in H. unfold execs.
    destruct (cr_err (host_exec w argv [])) as [e|]; injection H as <- <-;
      rewrite obs_set_fs, obs_log; (split; [done|]); [done|]. by intros [? ?]. }
  exists [argv]. split; [done|]. intros [|x l1] a l2 El Hf; [|by destruct l1]. injection El as <- <-.
  split; [done|]. apply Ho, Hf. by rewrite app_nil_r.
Qed.

Lemma stops_bind {A B} (m : prog A) (k : A → prog B) :
  stops_on_failure m → (∀ a, stops_on_failure (k a)) → stops_on_failure (m ≫= k).
Proof.
  intros Hm Hk w o w' H. apply bind_any in H as [(a & w1 & Hx & H)|(o1 & Hx & Ho1 & Ho)].
  - apply Hm in Hx as (l & E & Hl). apply Hk in H as (k' & E' & Hk'). exists (l ++ k').
    split; [by rewrite E', E, app_assoc|]. intros l1 argv l2 Hsplit Hf.
    apply app_eq_inv in Hsplit as [(mid & -> & Hmid)|(mid & -> & ->)].
    + destruct mid as [|x mid].
      * rewrite app_nil_r in *. cbn [app] in Hmid. apply (Hk' [] argv l2); [done|]. by rewrite app_nil_r, E.
      * injection Hmid as <- ->. destruct (Hl l1 argv mid eq_refl Hf) as [_ Hr]. by destruct (Hr a).
    + apply (Hk' mid argv l2); [done|]. by rewrite E, <-app_assoc.
  - apply Hm in Hx as (l & E & Hl). exists l. split; [done|]. intros l1 argv l2 Hs Hf.
    destruct (Hl l1 argv l2 Hs Hf) as [-> Hr]. split; [done|]. intros b ->. by destruct (Ho b).
Qed.

Lemma stops_wrap {A} msg (m : prog A) : stops_on_failure m → stops_on_failure (wrap msg m).
Proof.
  intros Hm w o w' H. unfold wrap, recover, fail in H. destruct (m w) as [[a|e|p|c] w1] eqn:E;
    injection H as <- <-; apply Hm in E as (l & E & Hl); exists l; (split; [done|]);
    intros l1 argv l2 Hs Hf; destruct (Hl l1 argv l2 Hs Hf) as [-> Hr]; (split; [done|]); done.
Qed.

Lemma stops_forM {A} (l : list A) (body : A → prog unit) :
  (∀ x, stops_on_failure (body x)) → stops_on_failure (forM l body).
Proof.
  intros Hb. induction l as [|x l IH]; cbn [forM]; [apply stops_quiet, preserves_ret; apply _|by apply stops_bind].
Qed.

Lemma stops_foldM {A B} (l : list A) (acc : B) (body : B → A → prog B) :
  (∀ b x, stops_on_failure (body b x)) → stops_on_failure (foldM l acc body).
Proof.
  intros Hb. revert acc. induction l as [|x l IH]; intros acc; cbn [foldM];
    [apply stops_quiet, preserves_ret; apply _|by apply stops_bind].
Qed.
End stops.

(** [stops_solve] walks through a program like [quiet_solve]. *)
Ltac stops_step :=
  match goal with
  | |- stops_on_failure _ => solve [apply stops_quiet; quiet_solve]
  | |- stops_on_failure (run _) => apply stops_run
  | |- stops_on_failure _ => solve [eauto 2 with go]
  | |- stops_on_failure (_ ≫= _) => apply stops_bind; [|intros ?]
  | |- stops_on_failure (wrap _ _) => apply stops_wrap
  | |- stops_on_failure (forM _ _) => apply stops_forM; intros ?
  | |- stops_on_failure (foldM _ _ _) => apply stops_foldM; intros ? ?
  | |- stops_on_failure (if ?b then _ else _) => destruct b
  | |- stops_on_failure (match ?x with _ => _ end) => destruct x
  | |- stops_on_failure (let _ := _ in _) => cbv zeta
  end.
Ltac stops_solve := repeat stops_step.
