(* ===== verification/GoJson.v ===== *)
(** * encoding/json

    The image builder reads its hypervisor configuration from JSON files and writes
    the checked configuration back for Packer; the Snow bootstrapper prints its
    settings as JSON. This file holds the value tree, the scanner of [json.Unmarshal],
    the printer of [json.Marshal], and the rules by which a value is stored in a Go
    variable of each type the programs use. Text is taken to be valid UTF-8. *)
From S2P Require Import Prelude GoStrings.
From stdpp Require Import base tactics strings list.
From Stdlib Require Import Ascii.

#[local] Arguments String.append : simpl nomatch.
Local Open Scope string_scope.
Local Open Scope list_scope.

(** A number keeps its literal: Go decides on the literal whether it fits an [int]. *)
Inductive json :=
| JNull
| JBool (b : bool)
| JNum (literal : string)
| JStr (s : string)
| JArr (l : list json)
| JObj (members : list (string * json)).

(** ** Scanner *)
Definition is_ws (c : ascii) : bool :=
  let n := nat_of_ascii c in
  bool_decide (n = 32) || bool_decide (n = 9) || bool_decide (n = 10) || bool_decide (n = 13).

Definition skip_ws (s : string) : string := trim_left_by is_ws s.

Definition hex_value (c : ascii) : option N :=
  let n := N_of_ascii c in
  if bool_decide (48 ≤ n ≤ 57)%N then Some (n - 48)%N
  else if bool_decide (97 ≤ n ≤ 102)%N then Some (n - 87)%N
  else if bool_decide (65 ≤ n ≤ 70)%N then Some (n - 55)%N
  else None.

Definition hex4 (a b c d : ascii) : option N :=
  x ← hex_value a; y ← hex_value b; z ← hex_value c; t ← hex_value d;
  Some (x * 4096 + y * 256 + z * 16 + t)%N.

Definition byte (n : N) : ascii := ascii_of_N n.

(** The UTF-8 encoding of a code point. *)
Definition utf8 (n : N) : string :=
  if bool_decide (n < 128)%N then String (byte n) ""
  else if bool_decide (n < 2048)%N then
    String (byte (192 + n / 64)) (String (byte (128 + n mod 64)) "")
  else if bool_decide (n < 65536)%N then
    String (byte (224 + n / 4096)) (String (byte (128 + n / 64 mod 64))
      (String (byte (128 + n mod 64)) ""))
  else
    String (byte (240 + n / 262144)) (String (byte (128 + n / 4096 mod 64))
      (String (byte (128 + n / 64 mod 64)) (String (byte (128 + n mod 64)) ""))).

Definition quote : ascii := ascii_of_nat 34.
Definition backslash : ascii := ascii_of_nat 92.

(** A text between double quotes, as messages and commands have it. *)
Definition q (s : string) : string := String quote (s +:+ String quote "").

Definition simple_escape (c : ascii) : option ascii :=
  let n := nat_of_ascii c in
  if bool_decide (n = 34 ∨ n = 92 ∨ n = 47) then Some c
  else if bool_decide (n = 98) then Some (byte 8)
  else if bool_decide (n = 102) then Some (byte 12)
  else if bool_decide (n = 110) then Some (byte 10)
  else if bool_decide (n = 114) then Some (byte 13)
  else if bool_decide (n = 116) then Some (byte 9)
  else None.

Definition is_high_surrogate (n : N) : bool := bool_decide (55296 ≤ n < 56320)%N.
Definition is_low_surrogate (n : N) : bool := bool_decide (56320 ≤ n < 57344)%N.

(** A lone surrogate is replaced by U+FFFD. *)
Definition rune (n : N) : string :=
  if is_high_surrogate n || is_low_surrogate n then utf8 65533 else utf8 n.

(** The code point of a \u escape followed by [s]: a surrogate pair is one. *)
Definition low_half (n : N) (s : string) : option (N * string) :=
  if is_high_surrogate n then
    match s with
    | String b (String u (String g1 (String g2 (String g3 (String g4 r))))) =>
        if bool_decide (b = backslash ∧ u = "u"%char) then
          m ← hex4 g1 g2 g3 g4;
          if is_low_surrogate m then Some (65536 + (n - 55296) * 1024 + (m - 56320), r)%N else None
        else None
    | _ => None
    end
  else None.

(** The body of a string literal, up to and past its closing quote. [pend] counts the
    bytes of a surrogate's second half still to be passed. *)
Fixpoint scan_string_from (s : string) (pend : nat) : option (string * string) :=
  match s with
  | EmptyString => None
  | String c s1 =>
      match pend with
      | S pend => scan_string_from s1 pend
      | O =>
      if bool_decide (c = quote) then Some ("", s1)
      else if bool_decide (c = backslash) then
        match s1 with
        | String e s2 =>
            if bool_decide (e = "u"%char) then
              match s2 with
              | String h1 (String h2 (String h3 (String h4 s3))) =>
                  n ← hex4 h1 h2 h3 h4;
                  match low_half n s3 with
                  | Some (m, _) => r ← scan_string_from s3 6; Some (utf8 m +:+ r.1, r.2)
                  | None => r ← scan_string_from s3 0; Some (rune n +:+ r.1, r.2)
                  end
              | _ => None
              end
            else
              x ← simple_escape e;
              r ← scan_string_from s2 0;
              Some (String x r.1, r.2)
        | EmptyString => None
        end
      else if bool_decide (nat_of_ascii c < 32)%nat then None
      else r ← scan_string_from s1 0; Some (String c r.1, r.2)
      end
  end.

Definition scan_string (s : string) : option (string * string) := scan_string_from s 0.

Definition is_num_byte (c : ascii) : bool :=
  let n := nat_of_ascii c in
  bool_decide (48 ≤ n ≤ 57)%nat || bool_decide (c ∈ ["-"; "+"; "."; "e"; "E"]%char).

Fixpoint span (f : ascii → bool) (s : string) : string * string :=
  match s with
  | EmptyString => ("", "")
  | String c s' => if f c then let '(a, b) := span f s' in (String c a, b) else ("", s)
  end.

Definition is_digit (c : ascii) : bool :=
  let n := nat_of_ascii c in bool_decide (48 ≤ n ≤ 57)%nat.

(** The number grammar: [-? (0 | [1-9][0-9]* ) (. [0-9]+)? ([eE] [+-]? [0-9]+)?]. *)
Definition valid_number (lit : string) : bool :=
  let s := TrimPrefix lit "-" in
  let '(int, s) := span is_digit s in
  let int_ok := match int with
    | EmptyString => false
    | String "0" EmptyString => true
    | String c _ => negb (bool_decide (c = "0"%char))
    end in
  let '(frac_ok, s) := match s with
    | String "." s' => let '(d, s'') := span is_digit s' in (negb (d =s ""), s'')
    | _ => (true, s)
    end in
  let exp_ok := match s with
    | EmptyString => true
    | String c s' =>
        bool_decide (c = "e"%char ∨ c = "E"%char) &&
        let s'' := match s' with
          | String c' r => if bool_decide (c' = "+"%char ∨ c' = "-"%char) then r else s'
          | _ => s' end in
        let '(d, rest) := span is_digit s'' in negb (d =s "") && (rest =s "")
    end in
  int_ok && frac_ok && exp_ok.

(** The elements of an array and the members of an object, up to and past the closing
    bracket, with the scanner of the values in them. *)
Section containers.
Context (scan : string → option (json * string)).

Fixpoint scan_elements (n : nat) (s : string) : option (list json * string) :=
  match n with
  | O => None
  | S n =>
      v ← scan s;
      match skip_ws v.2 with
      | String "," r => t ← scan_elements n r; Some (v.1 :: t.1, t.2)
      | String "]" r => Some ([v.1], r)
      | _ => None
      end
  end.

Fixpoint scan_members (n : nat) (s : string) : option (list (string * json) * string) :=
  match n with
  | O => None
  | S n =>
      match skip_ws s with
      | String q r =>
          if bool_decide (q = quote) then
            k ← scan_string r;
            match skip_ws k.2 with
            | String ":" r' =>
                v ← scan r';
                match skip_ws v.2 with
                | String "," r'' => t ← scan_members n r''; Some ((k.1, v.1) :: t.1, t.2)
                | String "}" r'' => Some ([(k.1, v.1)], r'')
                | _ => None
                end
            | _ => None
            end
          else None
      | EmptyString => None
      end
  end.
End containers.

(** The value at the head of the text and the text after it. The fuel bounds the
    nesting and the number of elements; the length of the text is always enough. *)
Fixpoint scan_value (fuel : nat) (s : string) : option (json * string) :=
  match fuel with
  | O => None
  | S fuel =>
      let s := skip_ws s in
      match s with
      | String "{" r =>
          match skip_ws r with
          | String "}" r' => Some (JObj [], r')
          | _ => t ← scan_members (scan_value fuel) fuel r; Some (JObj t.1, t.2)
          end
      | String "[" r =>
          match skip_ws r with
          | String "]" r' => Some (JArr [], r')
          | _ => t ← scan_elements (scan_value fuel) fuel r; Some (JArr t.1, t.2)
          end
      | String c r =>
          if bool_decide (c = quote) then t ← scan_string r; Some (JStr t.1, t.2)
          else
          match cut_prefix "true" s, cut_prefix "false" s, cut_prefix "null" s with
          | Some r, _, _ => Some (JBool true, r)
          | _, Some r, _ => Some (JBool false, r)
          | _, _, Some r => Some (JNull, r)
          | None, None, None =>
              let '(lit, rest) := span is_num_byte s in
              if valid_number lit then Some (JNum lit, rest) else None
          end
      | EmptyString => None
      end
  end.

Definition parse (s : string) : option json :=
  r ← scan_value (S (String.length s)) s;
  if skip_ws r.2 =s "" then Some r.1 else None.

(** ** Storing a value in a Go variable *)

(** [null] leaves a string or an integer as it was; a value of another kind is an
    error. *)
Definition dec_string (v : json) (old : string) : option string :=
  match v with JStr s => Some s | JNull => Some old | _ => None end.

Definition dec_int (v : json) (old : Z) : option Z :=
  match v with JNum lit => Atoi lit | JNull => Some old | _ => None end.

(** The members of an object whose key names the field (case does not matter),
    stored one after the other. *)
Definition dec_field {A} (dec : json → A → option A) (name : string)
    (obj : list (string * json)) (old : A) : option A :=
  foldl (λ acc kv, a ← acc; if ToLower kv.1 =s name then dec kv.2 a else Some a) (Some old) obj.

Definition str_field := dec_field dec_string.

(** ** Printer *)
Definition hex_digit (n : N) : ascii := byte (if bool_decide (n < 10)%N then 48 + n else 87 + n).

(** [json.Marshal] escapes quotes, backslashes, control bytes, and the bytes that
    are special in HTML. *)
Definition print_byte (c : ascii) : string :=
  let n := nat_of_ascii c in
  if bool_decide (n = 34 ∨ n = 92) then String backslash (String c "")
  else if bool_decide (n = 10) then String backslash "n"
  else if bool_decide (n = 13) then String backslash "r"
  else if bool_decide (n = 9) then String backslash "t"
  else if bool_decide (n < 32 ∨ n = 60 ∨ n = 62 ∨ n = 38)%nat then
    let m := N_of_ascii c in
    String backslash ("u00" +:+ String (hex_digit (m / 16)) (String (hex_digit (m mod 16)) ""))
  else String c "".

Fixpoint print_body (s : string) : string :=
  match s with
  | EmptyString => ""
  | String c s => print_byte c +:+ print_body s
  end.

Definition print_string (s : string) : string :=
  String quote (print_body s +:+ String quote "").

Fixpoint print (v : json) : string :=
  match v with
  | JNull => "null"
  | JBool b => if b then "true" else "false"
  | JNum lit => lit
  | JStr s => print_string s
  | JArr l => "[" +:+ StrJoin (map print l) "," +:+ "]"
  | JObj m => "{" +:+ StrJoin (map (λ kv, print_string kv.1 +:+ ":" +:+ print kv.2) m) "," +:+ "}"
  end.

(** A struct field with the [omitempty] tag is left out when it is empty. *)
Definition mem (name value : string) : list (string * json) := [(name, JStr value)].
Definition mem_omitempty (name value : string) : list (string * json) :=
  if value =s "" then [] else [(name, JStr value)].

Example parse_ex : parse "{ 'a' : [1, -2.5e3, true], 'b':null }" = None.
Proof. vm_compute. reflexivity. Qed.

Example parse_print_ex :
  let v := JObj [("iso_url", JStr "http://x/<y>"); ("n", JArr [JNum "744"; JBool true; JNull; JObj []])] in
  parse (print v) = Some v.
Proof. vm_compute. reflexivity. Qed.

(** ** Strings survive printing and scanning *)
(** A property of bytes decided by trying all of them. *)
Lemma all_bytes (P : ascii → bool) :
  forallb P (map ascii_of_nat (List.seq 0 256)) = true → ∀ c, P c = true.
Proof.
  intros H c. rewrite forallb_forall in H. apply H.
  rewrite <-(ascii_nat_embedding c). apply in_map, in_seq.
  pose proof (nat_ascii_bounded c). lia.
Qed.

(** A byte is printed as itself, as a two-byte escape, or as a \u escape. *)
Inductive printed (c : ascii) : string → Prop :=
| printed_plain :
    bool_decide (c = quote) = false → bool_decide (c = backslash) = false →
    bool_decide (nat_of_ascii c < 32)%nat = false → printed c (String c "")
| printed_short e :
    bool_decide (e = "u"%char) = false → simple_escape e = Some c →
    printed c (String backslash (String e ""))
| printed_u h1 h2 :
    hex4 "0" "0" h1 h2 = Some (N_of_ascii c) → is_high_surrogate (N_of_ascii c) = false →
    rune (N_of_ascii c) = String c "" →
    printed c (String backslash (String "u" (String "0" (String "0" (String h1 (String h2 "")))))).

Definition printed_b (c : ascii) : bool :=
  match print_byte c with
  | String x EmptyString =>
      bool_decide (x = c) && negb (bool_decide (c = quote)) &&
      negb (bool_decide (c = backslash)) && negb (bool_decide (nat_of_ascii c < 32)%nat)
  | String b (String e EmptyString) =>
      bool_decide (b = backslash) && negb (bool_decide (e = "u"%char)) &&
      bool_decide (simple_escape e = Some c)
  | String b (String u (String z1 (String z2 (String h1 (String h2 EmptyString))))) =>
      bool_decide (b = backslash) && bool_decide (u = "u"%char) && bool_decide (z1 = "0"%char) &&
      bool_decide (z2 = "0"%char) && bool_decide (hex4 "0" "0" h1 h2 = Some (N_of_ascii c)) &&
      negb (is_high_surrogate (N_of_ascii c)) && bool_decide (rune (N_of_ascii c) = String c "")
  | _ => false
  end.

Lemma print_byte_printed c : printed c (print_byte c).
Proof.
  assert (printed_b c = true) as H by (revert c; apply all_bytes; vm_compute; reflexivity).
  unfold printed_b in H.
  destruct (print_byte c) as [|x [|e [|z1 [|z2 [|h1 [|h2 [|]]]]]]]; try done;
    repeat (rewrite andb_true_iff in H || rewrite negb_true_iff in H ||
            rewrite bool_decide_eq_true in H); destruct_and!; subst; by constructor.
Qed.

(** One printed byte is scanned back as that byte. *)
Lemma scan_print_byte c rest : scan_string_from (print_byte c +:+ rest) 0 =
  (r ← scan_string_from rest 0; Some (String c r.1, r.2)).
Proof.
  destruct (print_byte_printed c) as [Hq Hb Hc|e Hu He|h1 h2 Hx Hh Hr];
    cbn [String.append scan_string_from].
  - by rewrite Hq, Hb, Hc.
  - change (bool_decide (backslash = quote)) with false.
    change (bool_decide (backslash = backslash)) with true. cbv iota.
    by rewrite Hu, He.
  - change (bool_decide (backslash = quote)) with false.
    change (bool_decide (backslash = backslash)) with true.
    change (bool_decide ("u"%char = "u"%char)) with true. cbv iota.
    rewrite Hx. cbn [mbind option_bind]. unfold low_half. rewrite Hh, Hr. done.
Qed.

Lemma scan_print_body s rest :
  scan_string (print_body s +:+ String quote rest) = Some (s, rest).
Proof.
  unfold scan_string. induction s as [|c s IH].
  - cbn [print_body String.append scan_string_from].
    by rewrite bool_decide_eq_true_2.
  - cbn [print_body]. rewrite sapp_assoc, scan_print_byte, IH. done.
Qed.

(** ** An object of strings survives printing and scanning *)
Definition print_member (kv : string * string) : string :=
  print_string kv.1 +:+ ":" +:+ print_string kv.2.

Lemma skip_ws_quote s : skip_ws (String quote s) = String quote s.
Proof. done. Qed.

Lemma scan_value_string fuel s rest :
  scan_value (S fuel) (print_string s +:+ rest) = Some (JStr s, rest).
Proof.
  unfold print_string. cbn [String.append]. rewrite sapp_assoc. cbn [String.append].
  cbn [scan_value]. rewrite skip_ws_quote. unfold quote at 1. cbn.
  change (scan_string_from ?x 0) with (scan_string x). by rewrite scan_print_body.
Qed.

Lemma scan_members_strings fuel n l rest : l ≠ [] → (length l ≤ n)%nat →
  scan_members (scan_value (S fuel)) n (StrJoin (map print_member l) "," +:+ String "}" rest)
  = Some (map (λ kv, (kv.1, JStr kv.2)) l, rest).
Proof.
  revert n. induction l as [|[k v] l IH]; intros [|n] Hne Hn; simpl in Hn; try done; [lia|].
  assert (∀ tail, scan_members (scan_value (S fuel)) (S n) (print_member (k, v) +:+ tail) =
    match skip_ws tail with
    | String "," r'' => t ← scan_members (scan_value (S fuel)) n r''; Some ((k, JStr v) :: t.1, t.2)
    | String "}" r'' => Some ([(k, JStr v)], r'')
    | _ => None
    end) as Hone.
  { intros tail. unfold print_member. cbn [fst snd]. unfold print_string at 1.
    rewrite !sapp_assoc. cbn [String.append scan_members]. rewrite skip_ws_quote.
    rewrite bool_decide_eq_true_2 by done. rewrite sapp_assoc. cbn [String.append].
    rewrite scan_print_body. cbn [mbind option_bind fst snd].
    change (skip_ws (String ":" ?x)) with (String ":" x). cbv iota beta.
    by rewrite scan_value_string. }
  destruct l as [|kv l].
  - simpl map. cbn [StrJoin]. by rewrite Hone.
  - change (StrJoin (map print_member ((k, v) :: kv :: l)) ",")
      with (print_member (k, v) +:+ ("," +:+ StrJoin (map print_member (kv :: l)) ",")).
    rewrite sapp_assoc, Hone. cbn [String.append].
    change (skip_ws (String "," ?x)) with (String "," x). cbv iota beta.
    rewrite IH by (simpl in *; lia || done). done.
Qed.

Lemma length_join_members l : (length l ≤ String.length (StrJoin (map print_member l) ","))%nat.
Proof.
  assert (∀ kv, (1 ≤ String.length (print_member kv))%nat) as Hone by (intros; simpl; lia).
  induction l as [|kv [|kv' l] IH]; [simpl; lia|simpl map; cbn [StrJoin length]; apply Hone|].
  change (StrJoin (map print_member (kv :: kv' :: l)) ",")
    with (print_member kv +:+ ("," +:+ StrJoin (map print_member (kv' :: l)) ",")).
  rewrite slength_app. cbn [String.append]. specialize (Hone kv).
  change (String.length (String "," ?x)) with (S (String.length x)).
  change (length (kv :: kv' :: l)) with (S (length (kv' :: l))). lia.
Qed.

Lemma join_members_head l rest : l ≠ [] →
  ∃ r, StrJoin (map print_member l) "," +:+ rest = String quote r.
Proof.
  destruct l as [|kv [|kv' l]]; [done|intros _..].
  - unfold print_member, print_string. simpl. eauto.
  - change (StrJoin (map print_member (kv :: kv' :: l)) ",")
      with (print_member kv +:+ ("," +:+ StrJoin (map print_member (kv' :: l)) ",")).
    unfold print_member at 1, print_string at 1. cbn [String.append]. eauto.
Qed.

Lemma scan_value_object fuel l rest : l ≠ [] → (length l ≤ S fuel)%nat →
  scan_value (S (S fuel)) (String "{" (StrJoin (map print_member l) "," +:+ String "}" rest))
  = Some (JObj (map (λ kv, (kv.1, JStr kv.2)) l), rest).
Proof.
  intros Hne Hl. pose proof (scan_members_strings fuel (S fuel) l rest Hne Hl) as Hs.
  destruct (join_members_head l (String "}" rest) Hne) as [r Hr]. rewrite Hr in *.
  change (scan_value (S (S fuel)) (String "{" (String quote r)))
    with (t ← scan_members (scan_value (S fuel)) (S fuel) (String quote r);
          Some (JObj t.1, t.2)).
  by rewrite Hs.
Qed.

Lemma parse_print_strings l :
  parse (print (JObj (map (λ kv, (kv.1, JStr kv.2)) l))) = Some (JObj (map (λ kv, (kv.1, JStr kv.2)) l)).
Proof.
  destruct (decide (l = [])) as [->|Hne]; [done|]. cbn [print]. rewrite map_map. cbn [print fst snd].
  change (map (λ x, print_string x.1 +:+ ":" +:+ print_string x.2) l) with (map print_member l).
  cbn [String.append]. unfold parse. cbn [String.length].
  rewrite slength_app. cbn [String.length]. rewrite Nat.add_1_r.
  rewrite scan_value_object by (done || (pose proof (length_join_members l); lia)). done.
Qed.
