(* ===== verification/GoUrl.v ===== *)
(** * net/url and net.SplitHostPort

    The image builder takes the host and port out of a proxy URL, the path out of an
    artifact's URL, and joins a path to a base URL. [Parse] follows the steps of
    [url.Parse]; [None] is one of its errors. *)
From S2P Require Import Prelude GoStrings GoJson.
From stdpp Require Import base tactics strings list.
From Stdlib Require Import Ascii.

Local Open Scope string_scope.
Local Open Scope list_scope.

Record URL := mkURL {
  Scheme : string; Opaque : string; UserInfo : string; UrlHost : string;
  UrlPath : string;       (* decoded *)
  RawPath : string;       (* as written *)
  RawQuery : string; Fragment : string }.

(** [strings.Cut] *)
Fixpoint cut_at (sep : ascii) (s : string) : string * option string :=
  match s with
  | EmptyString => ("", None)
  | String c s' =>
      if bool_decide (c = sep) then ("", Some s')
      else let '(a, b) := cut_at sep s' in (String c a, b)
  end.

(** The text before and after the last [sep]. *)
Definition cut_last (sep : ascii) (s : string) : option (string * string) :=
  match cut_at sep (srev s) with
  | (after, Some before) => Some (srev before, srev after)
  | (_, None) => None
  end.

Definition one_of_bytes (l : string) (c : ascii) : bool := in_cutset l c.

Definition is_alpha (c : ascii) : bool :=
  let n := nat_of_ascii c in bool_decide (97 ≤ n ≤ 122)%nat || bool_decide (65 ≤ n ≤ 90)%nat.
Definition is_alnum (c : ascii) : bool := is_alpha c || is_digit c.
Definition is_ctl (c : ascii) : bool :=
  let n := nat_of_ascii c in bool_decide (n < 32)%nat || bool_decide (n = 127).
Definition is_high (c : ascii) : bool := bool_decide (128 ≤ nat_of_ascii c)%nat.

(** [getScheme]: the letters up to a colon. [None] is the error of a leading colon. *)
Fixpoint scheme_from (s : string) (first : bool) : option (option (string * string)) :=
  match s with
  | EmptyString => Some None
  | String c s' =>
      if is_alpha c then
        r ← scheme_from s' false; Some (p ← r; Some (String c p.1, p.2))
      else if is_digit c || one_of_bytes "+-." c then
        if first then Some None
        else r ← scheme_from s' false; Some (p ← r; Some (String c p.1, p.2))
      else if bool_decide (c = ":"%char) then
        if first then None else Some (Some ("", s'))
      else Some None
  end.

Definition getScheme (raw : string) : option (string * string) :=
  r ← scheme_from raw true; Some (default ("", raw) r).

(** Bytes that stay as they are in a path and in a host. *)
Definition unreserved (c : ascii) : bool := is_alnum c || one_of_bytes "-_.~" c.
Definition path_byte (c : ascii) : bool := unreserved c || one_of_bytes "$&+,/:;=@" c.
Definition host_byte (c : ascii) : bool :=
  unreserved c || one_of_bytes "!$&'()*+,;=:[]<>" c || bool_decide (c = quote).
Definition userinfo_byte (c : ascii) : bool := is_alnum c || one_of_bytes "-._:~!$&'()*+,;=%@" c.

(** Percent decoding. *)
Fixpoint unescape (s : string) : option string :=
  match s with
  | EmptyString => Some ""
  | String c s' =>
      if bool_decide (c = "%"%char) then
        match s' with
        | String a (String b r) =>
            x ← hex_value a; y ← hex_value b; t ← unescape r; Some (String (byte (x * 16 + y)) t)
        | _ => None
        end
      else t ← unescape s'; Some (String c t)
  end.

Definition upper_hex (n : N) : ascii := byte (if bool_decide (n < 10)%N then 48 + n else 55 + n).

Fixpoint escape_path (s : string) : string :=
  match s with
  | EmptyString => ""
  | String c s =>
      if path_byte c then String c (escape_path s)
      else let n := N_of_ascii c in
           String "%" (String (upper_hex (n / 16)) (String (upper_hex (n mod 16)) (escape_path s)))
  end.

(** A path that needs no escaping, which [EscapedPath] leaves as it was written. *)
Definition valid_encoded (s : string) : bool :=
  all_of (λ c, path_byte c || one_of_bytes "!'()*[]%" c) s.

Definition EscapedPath (u : URL) : string :=
  if valid_encoded (RawPath u) then RawPath u else escape_path (UrlPath u).

(** A host without percent escapes; [None] where [url.Parse] reports an error. An
    escape in the host, allowed for bytes outside ASCII, is an error here. *)
Definition parseHost (host : string) : option string :=
  let port_ok p := (p =s "") || match p with
    | String ":" d => all_of is_digit d
    | _ => false end in
  if HasPrefix host "[" then
    match cut_last "]" host with
    | Some (_, after) => if port_ok after && all_of (λ c, host_byte c || is_high c) host then Some host else None
    | None => None
    end
  else
    let ok := match cut_last ":" host with
      | Some (_, p) => all_of is_digit p
      | None => true end in
    if ok && all_of (λ c, host_byte c || is_high c) host then Some host else None.

Definition parseAuthority (authority : string) : option (string * string) :=
  match cut_last "@" authority with
  | None => h ← parseHost authority; Some ("", h)
  | Some (user, host) =>
      h ← parseHost host;
      if all_of userinfo_byte user then _ ← unescape user; Some (user, h) else None
  end.

Definition Parse (raw : string) : option URL :=
  if negb (all_of (λ c, negb (is_ctl c)) raw) then None else
  let '(u, frag) := cut_at "#" raw in
  if u =s "*" then Some (mkURL "" "" "" "" "*" "*" "" (default "" frag)) else
  sr ← getScheme u;
  let scheme := ToLower sr.1 in
  let '(rest, query) := cut_at "?" sr.2 in
  if negb (HasPrefix rest "/") && negb (scheme =s "") then
    Some (mkURL scheme rest "" "" "" "" (default "" query) (default "" frag))
  else if negb (HasPrefix rest "/") && Contains (cut_at "/" rest).1 ":" then None
  else
    '(user, host, path) ←
      (if (negb (scheme =s "") || negb (HasPrefix rest "///")) && HasPrefix rest "//" then
         let '(authority, tail) := cut_at "/" (TrimPrefix rest "//") in
         uh ← parseAuthority authority;
         Some (uh.1, uh.2, match tail with Some t => String "/" t | None => "" end)
       else Some ("", "", rest));
    p ← unescape path;
    Some (mkURL scheme "" user host p path (default "" query) (default "" frag)).

(** [u.String()] for a URL that was parsed. *)
Definition url_string (u : URL) : string :=
  (if Scheme u =s "" then "" else Scheme u +:+ ":") +:+
  (if negb (Opaque u =s "") then Opaque u
   else
     (if negb (Scheme u =s "") || negb (UrlHost u =s "") || negb (UserInfo u =s "") then
        if negb (UrlHost u =s "") || negb (UrlPath u =s "") || negb (UserInfo u =s "") then
          "//" +:+ (if UserInfo u =s "" then "" else UserInfo u +:+ "@") +:+ UrlHost u
        else ""
      else "") +:+
     (let p := EscapedPath u in
      (if negb (p =s "") && negb (HasPrefix p "/") && negb (UrlHost u =s "") then "/" else "") +:+ p)) +:+
  (if RawQuery u =s "" then "" else "?" +:+ RawQuery u) +:+
  (if Fragment u =s "" then "" else "#" +:+ Fragment u).

(** [url.JoinPath(base, elem)] *)
Definition JoinPath (base elem : string) : option string :=
  u ← Parse base;
  let first := EscapedPath u in
  let joined :=
    if negb (HasPrefix first "/")
    then match PathJoin ["/" +:+ first; elem] with String _ r => r | EmptyString => "" end
    else PathJoin [first; elem] in
  let joined := if HasSuffix elem "/" && negb (HasSuffix joined "/") then joined +:+ "/" else joined in
  p ← unescape joined;
  Some (url_string (mkURL (Scheme u) (Opaque u) (UserInfo u) (UrlHost u) p joined (RawQuery u) (Fragment u))).

(** [net.SplitHostPort] *)
Definition SplitHostPort (hostport : string) : option (string * string) :=
  match cut_last ":" hostport with
  | None => None
  | Some (before, port) =>
      if HasPrefix hostport "[" then
        match cut_at "]" hostport with
        | (inner, Some after) =>
            (* the bracket must close right before the last colon *)
            if after =s (":" +:+ port) then
              let host := TrimPrefix inner "[" in
              if Contains host "[" || Contains port "[" || Contains port "]" then None
              else Some (host, port)
            else None
        | (_, None) => None
        end
      else if Contains before ":" then None
      else if Contains hostport "[" || Contains hostport "]" then None
      else Some (before, port)
  end.

Example parse_url_ex :
  (u ← Parse "https://user@proxy.corp:3128/a%20b/c?x=1#f"; Some (UrlHost u, UrlPath u, RawQuery u, UserInfo u)) =
  Some ("proxy.corp:3128", "/a b/c", "x=1", "user").
Proof. vm_compute. reflexivity. Qed.
Example parse_url_err : (Parse "proxy.corp:3128", Parse "http://x:y/", Parse ":x", Parse "1.2.3.4:80") =
  (Some (mkURL "proxy.corp" "3128" "" "" "" "" "" ""), None, None, None).
Proof. vm_compute. reflexivity. Qed.
Example split_host_ex : (SplitHostPort "a:80", SplitHostPort "[::1]:80", SplitHostPort "a", SplitHostPort "a:b:c")
  = (Some ("a", "80"), Some ("::1", "80"), None, None).
Proof. vm_compute. reflexivity. Qed.
Example join_path_ex : (JoinPath "https://h/a/b/" "../kubelet", JoinPath "" "kubelet", JoinPath "https://h" "x") =
  (Some "https://h/a/kubelet", Some "kubelet", Some "https://h/x").
Proof. vm_compute. reflexivity. Qed.

(** ** Reading an address put together from its parts *)
#[local] Arguments String.append : simpl nomatch.

Lemma all_of_srev f s : all_of f (srev s) = all_of f s.
Proof.
  induction s as [|c s IH]; [done|]. change (String c s) with (String c "" +:+ s).
  rewrite srev_app, !all_of_app, IH. apply andb_comm.
Qed.

(** The text does not have the byte. *)
Definition lacks (sep : ascii) (s : string) : bool := all_of (λ c, negb (bool_decide (c = sep))) s.

Lemma lacks_of f sep s : f sep = false → all_of f s = true → lacks sep s = true.
Proof.
  intros Hf. apply all_of_impl. intros c Hc. apply negb_true_iff, bool_decide_eq_false. congruence.
Qed.

Lemma cut_at_none sep s : lacks sep s = true → cut_at sep s = (s, None).
Proof.
  induction s as [|c s IH]; [done|]. cbn [lacks all_of cut_at]. rewrite andb_true_iff, negb_true_iff.
  intros [-> Hs]. by rewrite IH.
Qed.

Lemma cut_at_some sep a b : lacks sep a = true → cut_at sep (a +:+ String sep b) = (a, Some b).
Proof.
  induction a as [|c a IH]; cbn; [by rewrite bool_decide_eq_true_2|].
  rewrite andb_true_iff, negb_true_iff. intros [-> Ha]. by rewrite IH.
Qed.

Lemma cut_last_none sep s : lacks sep s = true → cut_last sep s = None.
Proof. intros Hs. unfold cut_last. rewrite cut_at_none; [done|]. unfold lacks. by rewrite all_of_srev. Qed.

Lemma cut_last_some sep a b : lacks sep b = true → cut_last sep (a +:+ String sep "" +:+ b) = Some (a, b).
Proof.
  intros Hb. unfold cut_last.
  rewrite !srev_app, sapp_assoc. change (srev (String sep "") +:+ srev a) with (String sep (srev a)).
  rewrite cut_at_some by (unfold lacks; by rewrite all_of_srev). by rewrite !srev_involutive.
Qed.

Lemma lacks_Contains sep s : lacks sep s = true → Contains s (String sep "") = false.
Proof.
  intros Hs. apply not_true_is_false. intros (a & b & ->)%Contains_spec. revert Hs. unfold lacks.
  rewrite !all_of_app, !andb_true_iff. cbn [all_of]. rewrite bool_decide_eq_true_2 by done. naive_solver.
Qed.

Lemma scheme_from_alpha s rest first : s ≠ "" → all_of is_alpha s = true →
  scheme_from (s +:+ ":" +:+ rest) first = Some (Some (s, rest)).
Proof.
  revert first. induction s as [|c s IH]; intros first Hne Hs; [done|]. cbn in Hs. apply andb_true_iff in Hs as [Hc Hs].
  cbn [String.append scheme_from]. rewrite Hc. destruct s as [|d s]; [done|]. by rewrite IH.
Qed.

Lemma unescape_plain s : lacks "%" s = true → unescape s = Some s.
Proof.
  induction s as [|c s IH]; [done|]. cbn [lacks all_of unescape]. rewrite andb_true_iff, negb_true_iff.
  intros [-> Hs]. by rewrite IH.
Qed.

(** Every byte of one class is of another, by looking at all of them. *)
Definition all_bytes : list ascii := map ascii_of_nat (List.seq 0 256).

Lemma for_all_bytes (f : ascii → bool) : forallb f all_bytes = true → ∀ c, f c = true.
Proof.
  intros Hf c. eapply (proj1 (List.forallb_forall _ _) Hf), List.in_map_iff.
  exists (nat_of_ascii c). split; [apply ascii_nat_embedding|]. apply List.in_seq.
  pose proof (nat_ascii_bounded c). lia.
Qed.

Lemma class_impl (f g : ascii → bool) : forallb (λ c, implb (f c) (g c)) all_bytes = true →
  ∀ c, f c = true → g c = true.
Proof. intros H c Hc. pose proof (for_all_bytes _ H c) as Hi. cbn beta in Hi. by rewrite Hc in Hi. Qed.

(** A proxy's address, with or without a user: [scheme://user@host:port/]. *)
Definition authority (user : option string) (host : string) : string :=
  match user with Some u => u +:+ "@" +:+ host | None => host end.
Definition proxy_address (scheme : string) (user : option string) (hostport tail : string) : string :=
  scheme +:+ "://" +:+ authority user hostport +:+ tail.

Definition user_byte (c : ascii) : bool := is_alnum c || bool_decide (c = ":"%char).
Definition hostport_byte (c : ascii) : bool := unreserved c || bool_decide (c = ":"%char).

(** The parts of such an address are made of plain bytes. *)
Definition plain_address (scheme : string) (user : option string) (tail : string) : Prop :=
  scheme ≠ "" ∧ all_of is_alpha scheme = true ∧ tail ∈ [""; "/"] ∧
  match user with Some u => all_of user_byte u = true | None => True end.

Lemma parseHost_plain hostport : all_of hostport_byte hostport = true →
  match cut_last ":" hostport with Some (_, p) => all_of is_digit p = true | None => True end →
  parseHost hostport = Some hostport.
Proof.
  intros Hh Hp. unfold parseHost.
  assert (HasPrefix hostport "[" = false) as ->.
  { apply not_true_is_false. intros [r ->]%HasPrefix_spec. done. }
  assert (all_of (λ c, host_byte c || is_high c) hostport = true) as ->.
  { revert Hh. apply all_of_impl, class_impl. vm_compute. reflexivity. }
  destruct (cut_last ":" hostport) as [[]|]; [by rewrite Hp|done].
Qed.

Lemma Parse_address scheme user hostport tail :
  plain_address scheme user tail → all_of hostport_byte hostport = true →
  match cut_last ":" hostport with Some (_, p) => all_of is_digit p = true | None => True end →
  UrlHost <$> Parse (proxy_address scheme user hostport tail) = Some hostport.
Proof.
  intros (Hne & Hs & Ht & Hu) Hh Hp. unfold Parse, proxy_address.
  rewrite elem_of_cons, list_elem_of_singleton in Ht.
  set (auth := authority user hostport).
  set (auth_byte := λ c, hostport_byte c || bool_decide (c = "@"%char)).
  assert (all_of auth_byte auth = true) as Ha.
  { unfold auth, authority. destruct user as [u|].
    - rewrite !all_of_app. apply andb_true_iff. split; [|apply andb_true_iff; split; [done|]].
      + revert Hu. apply all_of_impl, class_impl. vm_compute. reflexivity.
      + revert Hh. apply all_of_impl, class_impl. vm_compute. reflexivity.
    - revert Hh. apply all_of_impl, class_impl. vm_compute. reflexivity. }
  set (url_byte := λ c, auth_byte c || bool_decide (c = "/"%char)).
  assert (all_of url_byte (scheme +:+ "://" +:+ auth +:+ tail) = true) as Hall.
  { rewrite !all_of_app, !andb_true_iff. split_and!.
    - revert Hs. apply all_of_impl, class_impl. vm_compute. reflexivity.
    - done.
    - revert Ha. apply all_of_impl, class_impl. vm_compute. reflexivity.
    - by destruct Ht as [->| ->]. }
  assert (all_of (λ c, negb (is_ctl c)) (scheme +:+ "://" +:+ auth +:+ tail) = true) as ->.
  { revert Hall. apply all_of_impl, class_impl. vm_compute. reflexivity. }
  cbn [negb]. rewrite cut_at_none by (by apply (lacks_of url_byte)).
  assert ((scheme +:+ "://" +:+ auth +:+ tail =s "*") = false) as ->.
  { apply streq_false. intros E. rewrite E in Hall. done. }
  unfold getScheme. change ("://" +:+ auth +:+ tail) with (":" +:+ "//" +:+ auth +:+ tail).
  rewrite scheme_from_alpha by done. cbn [mbind option_bind default id fst snd].
  set (rest := "//" +:+ auth +:+ tail).
  assert (all_of url_byte rest = true) as Hrest.
  { revert Hall. change ("://" +:+ auth +:+ tail) with (":" +:+ rest). rewrite !all_of_app, !andb_true_iff. tauto. }
  rewrite cut_at_none by (by apply (lacks_of url_byte)).
  change (HasPrefix rest "/") with true. change (HasPrefix rest "//") with true. cbn [negb andb].
  assert ((ToLower scheme =s "") = false) as ->.
  { apply streq_false. by destruct scheme. }
  cbn [negb orb]. rewrite (TrimPrefix_app "//" (auth +:+ tail) : TrimPrefix rest "//" = _).
  assert (cut_at "/" (auth +:+ tail) = (auth, match tail with "" => None | _ => Some "" end)) as ->.
  { destruct Ht as [->| ->]; [rewrite sapp_nil_r; apply cut_at_none|apply cut_at_some]; by apply (lacks_of auth_byte). }
  assert (parseAuthority auth = Some (default "" user, hostport)) as ->.
  { unfold parseAuthority, auth, authority. destruct user as [u|].
    - rewrite cut_last_some by (by apply (lacks_of hostport_byte)). rewrite parseHost_plain by done.
      cbn [mbind option_bind]. assert (all_of userinfo_byte u = true) as ->.
      { revert Hu. apply all_of_impl, class_impl. vm_compute. reflexivity. }
      rewrite unescape_plain by (by apply (lacks_of user_byte)). done.
    - rewrite cut_last_none by (by apply (lacks_of hostport_byte)). by rewrite parseHost_plain. }
  cbn [mbind option_bind fst snd]. by destruct Ht as [->| ->].
Qed.

Lemma SplitHostPort_plain host port : all_of unreserved host = true → all_of is_digit port = true →
  SplitHostPort (host +:+ ":" +:+ port) = Some (host, port).
Proof.
  intros Hh Hp. unfold SplitHostPort. rewrite cut_last_some by (by apply (lacks_of is_digit)).
  assert (all_of hostport_byte (host +:+ ":" +:+ port) = true) as Hall.
  { rewrite !all_of_app, !andb_true_iff. split_and!; [|done|].
    - revert Hh. apply all_of_impl, class_impl. vm_compute. reflexivity.
    - revert Hp. apply all_of_impl, class_impl. vm_compute. reflexivity. }
  assert (HasPrefix (host +:+ ":" +:+ port) "[" = false) as ->.
  { apply not_true_is_false. intros [r E]%HasPrefix_spec. rewrite E in Hall. done. }
  rewrite !lacks_Contains by first [by apply (lacks_of unreserved)|by apply (lacks_of hostport_byte)]. done.
Qed.
