(* ===== verification/GoRegexp.v ===== *)
(** * Go's regexp package

    The patterns of version-tracker: literal bytes, escapes, [.], classes, groups,
    alternatives, [^], [$], and the greedy [*], [+] and [?]. [compile] reads a pattern,
    [FindStringSubmatch] and its relatives look for the leftmost match, preferring the first
    alternative and the longer repetition, as Go does. A pattern with lazy or counted
    repetitions, flags, or other classes than [\d] behind a backslash is not read; the
    patterns of the source have none. *)
From S2P Require Import Prelude GoStrings.
From stdpp Require Import base tactics strings list gmap.
From Stdlib Require Import Ascii.

#[local] Arguments String.append : simpl nomatch.
Local Open Scope string_scope.
Local Open Scope list_scope.

Inductive re :=
| REmpty
| RSet (f : ascii → bool)
| RBegin                       (* [^] *)
| REnd                         (* [$] *)
| RAlt (r1 r2 : re)
| RSeq (r1 r2 : re)
| RStar (r : re)
| ROpt (r : re)
| RGroup (i : nat) (r : re).

Definition RPlus (r : re) : re := RSeq r (RStar r).

(** ** Matching *)
Fixpoint stake (n : nat) (s : string) : string :=
  match n, s with
  | S n, String c s => String c (stake n s)
  | _, _ => ""
  end.

(** What is between [s] and its end [s']. *)
Definition consumed (s s' : string) : string := stake (String.length s - String.length s') s.

Section matching.
Context {R : Type} (total : nat).

(** [run r k s caps]: [r] at [s], then [k] on what is left. A repetition must consume. *)
Fixpoint run (r : re) (k : string → gmap nat string → option R) (s : string) (caps : gmap nat string)
    : option R :=
  match r with
  | REmpty => k s caps
  | RSet f => match s with String c s' => if f c then k s' caps else None | EmptyString => None end
  | RBegin => if bool_decide (String.length s = total) then k s caps else None
  | REnd => if bool_decide (s = "") then k s caps else None
  | RAlt r1 r2 => match run r1 k s caps with Some x => Some x | None => run r2 k s caps end
  | RSeq r1 r2 => run r1 (run r2 k) s caps
  | RStar r =>
      (fix loop (n : nat) (s : string) (caps : gmap nat string) : option R :=
        match n with
        | 0%nat => k s caps
        | S n =>
            match run r (λ s' caps', if bool_decide (String.length s' < String.length s)%nat
                                     then loop n s' caps' else None) s caps with
            | Some x => Some x
            | None => k s caps
            end
        end) (S (String.length s)) s caps
  | ROpt r => match run r k s caps with Some x => Some x | None => k s caps end
  | RGroup i r => run r (λ s' caps', k s' (<[i := consumed s s']> caps')) s caps
  end.
End matching.

(** The leftmost match: its text, its groups, and what follows it. *)
Fixpoint search (total : nat) (r : re) (s : string) : option (string * gmap nat string * string) :=
  match run total r (λ s' caps, Some (consumed s s', caps, s')) s ∅ with
  | Some x => Some x
  | None => match s with EmptyString => None | String _ s => search total r s end
  end.

Definition submatches (groups : nat) (m : string * gmap nat string * string) : list string :=
  m.1.1 :: map (λ i, default "" (m.1.2 !! i)) (List.seq 1 groups).

(** ** Reading a pattern *)
Definition is_digit_byte (c : ascii) : bool := bool_decide (48 ≤ nat_of_ascii c ≤ 57)%nat.

(** The bytes of a class up to its bracket: single bytes and ranges. *)
Fixpoint read_class (s : string) : option ((ascii → bool) * string) :=
  match s with
  | String "]" rest => Some (λ _, false, rest)
  | String "[" _ | String "\" _ => None
  | String a (String "-" (String b rest)) =>
      match read_class rest with
      | Some (f, rest) => Some (λ c, bool_decide (nat_of_ascii a ≤ nat_of_ascii c ≤ nat_of_ascii b)%nat || f c, rest)
      | None => None
      end
  | String a rest =>
      match read_class rest with
      | Some (f, rest) => Some (λ c, bool_decide (a = c) || f c, rest)
      | None => None
      end
  | EmptyString => None
  end.

Definition read_set (s : string) : option ((ascii → bool) * string) :=
  match s with
  | String "]" _ | String "^" (String "]" _) => None
  | String "^" s =>
      match read_class s with Some (f, rest) => Some (λ c, negb (f c), rest) | None => None end
  | _ => read_class s
  end.

Definition is_word_byte (c : ascii) : bool :=
  let n := nat_of_ascii c in
  bool_decide (48 ≤ n ≤ 57)%nat || bool_decide (65 ≤ n ≤ 90)%nat || bool_decide (97 ≤ n ≤ 122)%nat.

Definition escape_class (c : ascii) : option (ascii → bool) :=
  if bool_decide (c = "d"%char) then Some is_digit_byte
  else if bool_decide (c = "n"%char) then Some (λ b, bool_decide (b = ascii_of_nat 10))
  else if is_word_byte c then None
  else Some (λ b, bool_decide (b = c)).

Definition quantified (r : re) (s : string) : re * string :=
  match s with
  | String "*" s => (RStar r, s)
  | String "+" s => (RPlus r, s)
  | String "?" s => (ROpt r, s)
  | _ => (r, s)
  end.

(** A sequence up to its end, a bracket or a bar; [n] is the number of groups opened so
    far. *)
Fixpoint read_seq (fuel : nat) (s : string) (n : nat) : option (re * string * nat) :=
  match fuel with
  | 0%nat => None
  | S fuel =>
      let continue (atom : re) (rest : string) (n : nat) :=
        let '(r, rest) := quantified atom rest in
        match read_seq fuel rest n with
        | Some (r2, rest, n) => Some (RSeq r r2, rest, n)
        | None => None
        end in
      match s with
      | EmptyString => Some (REmpty, "", n)
      | String ")" _ | String "|" _ => Some (REmpty, s, n)
      | String "*" _ | String "+" _ | String "?" _ | String "{" _ => None
      | String "(" rest =>
          match read_alt fuel rest (S n) with
          | Some (r, String ")" rest, n') => continue (RGroup (S n) r) rest n'
          | _ => None
          end
      | String "[" rest =>
          match read_set rest with Some (f, rest) => continue (RSet f) rest n | None => None end
      | String "\" (String c rest) =>
          match escape_class c with Some f => continue (RSet f) rest n | None => None end
      | String "\" EmptyString => None
      | String "." rest => continue (RSet (λ c, negb (bool_decide (c = ascii_of_nat 10)))) rest n
      | String "^" rest => continue RBegin rest n
      | String "$" rest => continue REnd rest n
      | String c rest => continue (RSet (λ b, bool_decide (b = c))) rest n
      end
  end
with read_alt (fuel : nat) (s : string) (n : nat) : option (re * string * nat) :=
  match fuel with
  | 0%nat => None
  | S fuel =>
      match read_seq fuel s n with
      | Some (r, String "|" rest, n) =>
          match read_alt fuel rest n with
          | Some (r2, rest, n) => Some (RAlt r r2, rest, n)
          | None => None
          end
      | o => o
      end
  end.

Record Regexp := mkRegexp { re_expr : re; re_groups : nat }.

(** Every call reads a byte or goes from a list of alternatives to a sequence. *)
Definition compile (pattern : string) : option Regexp :=
  match read_alt (2 + 2 * String.length pattern) pattern 0 with
  | Some (r, "", n) => Some (mkRegexp r n)
  | _ => None
  end.

(** [regexp.MustCompile] *)
Definition MustCompile {W} (pattern : string) : go W Regexp :=
  match compile pattern with Some r => mret r | None => panic "regexp: Compile" end.

Definition FindStringSubmatch (r : Regexp) (s : string) : list string :=
  match search (String.length s) (re_expr r) s with
  | Some m => submatches (re_groups r) m
  | None => []
  end.

Definition FindString (r : Regexp) (s : string) : string := hd "" (FindStringSubmatch r s).

(** The successive matches; the patterns it is used with match no empty text. *)
Fixpoint find_all (fuel total : nat) (r : Regexp) (s : string) : list (list string) :=
  match fuel with
  | 0%nat => []
  | S fuel =>
      match search total (re_expr r) s with
      | Some m => submatches (re_groups r) m ::
          (if bool_decide (String.length m.2 < String.length s)%nat then find_all fuel total r m.2 else [])
      | None => []
      end
  end.

Definition FindAllStringSubmatch (r : Regexp) (s : string) : list (list string) :=
  find_all (S (String.length s)) (String.length s) r s.

Definition find (pattern s : string) : list string :=
  match compile pattern with Some r => FindStringSubmatch r s | None => ["?"] end.

Example find_go_version :
  (find "go (1\.\d\d)" ("module m" +:+ nl +:+ "go 1.21"),
   find "GO_VERSION \?= (1\.\d\d)\.\d+" "GO_VERSION ?= 1.20.14",
   find "v1.2.3(-([0-9]+)-g.*)?" "v1.2.3-4-gabc", find "v1.2.3(-([0-9]+)-g.*)?" "v1.2.3",
   find "^/b: go(.*)\.\d+\n" ("/b: go1.20.7" +:+ nl +:+ " path"), find "error: (.*): x" "no",
   find "x([^0-9]*|y)$" "x1xab") =
  (["go 1.21"; "1.21"], ["GO_VERSION ?= 1.20.14"; "1.20"], ["v1.2.3-4-gabc"; "-4-gabc"; "4"],
   ["v1.2.3"; ""; ""], ["/b: go1.20.7" +:+ nl; "1.20"], [],
   ["xab"; "ab"]).
Proof. vm_compute. reflexivity. Qed.
