(* ===== verification/IBTypes.v ===== *)
(** * image-builder: data model

    [builder/types.go], [builder/constants.go] and the structs of [builder/files.go].
    A Go pointer to a configuration is an [option]; an embedded struct is a field
    named after its type. [SliceContains] of [builder/utils.go] is here because the
    validation and the build both use it. *)
From S2P Require Import Prelude GoStrings.
From stdpp Require Import base tactics strings list gmap countable.

Local Open Scope string_scope.
Local Open Scope list_scope.

(** ** Enumerations of the command line *)
Definition Ubuntu := "ubuntu".
Definition RedHat := "redhat".
Definition VSphere := "vsphere".
Definition Baremetal := "baremetal".
Definition Nutanix := "nutanix".
Definition CloudStack := "cloudstack".
Definition AMI := "ami".
Definition EFI := "efi".
Definition BIOS := "bios".

Definition SupportedHypervisors : list string := [VSphere; Baremetal; Nutanix; CloudStack; AMI].
Definition SupportedUbuntuVersions : list string := ["20.04"; "22.04"].
Definition SupportedRedHatVersions : list string := ["8"; "9"].
Definition SupportedRedHatEfiVersions : list string := ["9"].
Definition SupportedFirmwares : list string := [BIOS; EFI].

(** ** Embedded configuration groups *)
Record IsoConfig := mkIso {
  IsoUrl : string; IsoChecksum : string; IsoChecksumType : string }.

Record RhsmConfig := mkRhsm {
  ProxyHostname : string; ProxyPort : string; ServerHostname : string;
  ServerReleaseVersion : string; ActivationKey : string; OrgId : string }.

Record RhelConfig := mkRhel {
  RhelUsername : string; RhelPassword : string; rhel_Rhsm : RhsmConfig }.

Record ProxyConfig := mkProxy {
  HttpProxy : string; HttpsProxy : string; NoProxy : string }.

Record ExtraPackagesConfig := mkPackages {
  ExtraDebs : string; ExtraRepos : string; ExtraRpms : string }.

Record ExtraOverridesConfig := mkOverrides {
  FirstbootCustomRolesPre : string; FirstbootCustomRolesPost : string;
  NodeCustomRolesPre : string; NodeCustomRolesPost : string;
  DisablePublicRepos : string; ReenablePublicRepos : string }.

Record AirGappedConfig := mkAirGapped {
  EksABuildToolingRepoUrl : string; ImageBuilderRepoUrl : string;
  PrivateServerEksDDomainUrl : string; PrivateServerEksADomainUrl : string }.

(** ** Hypervisor configurations *)
Record VsphereConfig := mkVsphere {
  Cluster : string; ConvertToTemplate : string; CreateSnapshot : string;
  Datacenter : string; Datastore : string; Folder : string;
  InsecureConnection : string; LinkedClone : string; Network : string;
  ResourcePool : string; Template : string; VcenterServer : string;
  Username : string; Password : string;
  vs_Iso : IsoConfig; vs_Rhel : RhelConfig; vs_Proxy : ProxyConfig;
  vs_Packages : ExtraPackagesConfig; vs_Overrides : ExtraOverridesConfig;
  vs_AirGapped : AirGappedConfig }.

Record BaremetalConfig := mkBaremetal {
  bm_Iso : IsoConfig; bm_Rhel : RhelConfig; bm_Proxy : ProxyConfig;
  bm_Packages : ExtraPackagesConfig; bm_Overrides : ExtraOverridesConfig;
  bm_AirGapped : AirGappedConfig }.

Record CloudstackConfig := mkCloudstack {
  AnsibleUserVars : string;
  cs_Iso : IsoConfig; cs_Rhel : RhelConfig; cs_Proxy : ProxyConfig;
  cs_Packages : ExtraPackagesConfig; cs_Overrides : ExtraOverridesConfig;
  cs_AirGapped : AirGappedConfig }.

Record NutanixConfig := mkNutanix {
  ClusterName : string; ImageName : string; ImageUrl : string; ImageExport : string;
  SourceImageName : string; NutanixEndpoint : string; NutanixInsecure : string;
  NutanixPort : string; NutanixUserName : string; NutanixPassword : string;
  NutanixSubnetName : string;
  nx_Rhel : RhelConfig; nx_Proxy : ProxyConfig; nx_Packages : ExtraPackagesConfig;
  nx_Overrides : ExtraOverridesConfig; nx_AirGapped : AirGappedConfig }.

Record AMIConfig := mkAMI {
  AMIFilterName : string; AMIFilterOwners : string; AMIRegions : string;
  AWSRegion : string; BuilderInstanceType : string; ManifestOutput : string;
  RootDeviceName : string; SubnetID : string; VolumeSize : string; VolumeType : string;
  am_Proxy : ProxyConfig; am_Packages : ExtraPackagesConfig;
  am_Overrides : ExtraOverridesConfig }.

(** ** Additional files *)
Record AdditionalFile := mkFile {
  Source : string; Destination : string; Owner : string; Group : string; Mode : Z }.

#[export] Instance AdditionalFile_eq_dec : EqDecision AdditionalFile.
Proof. solve_decision. Defined.

#[export] Instance AdditionalFile_countable : Countable AdditionalFile.
Proof.
  apply (inj_countable' (λ f, (Source f, Destination f, Owner f, Group f, Mode f))
    (λ '(s, d, o, g, m), mkFile s d o g m)). by intros [].
Defined.

(** A Go slice of files: its backing array, by name, and its length. Every slice of
    the program starts at the beginning of its array, and its capacity is the array's
    length. The arrays are the [gmap nat (list AdditionalFile)] threaded through. *)
Record file_slice := mkSlice { sl_array : nat; sl_len : nat }.

Record FileVars := mkFileVars {
  AdditionalFiles : string; AdditionalFilesList : file_slice }.

Record FilesAnsibleConfig := mkFilesAnsible {
  AnsibleExtraVars : string; CustomRole : string; CustomRoleNames : string }.

Record AdditionalFilesConfig := mkFilesConfig {
  fc_FileVars : FileVars; fc_Ansible : FilesAnsibleConfig }.

(** ** The options of a build *)
Record BuildOptions := mkBuildOptions {
  Os : string; OsVersion : string; Arch : string; Hypervisor : string;
  bo_Vsphere : option VsphereConfig; bo_Baremetal : option BaremetalConfig;
  bo_Nutanix : option NutanixConfig; bo_Cloudstack : option CloudstackConfig;
  bo_AMI : option AMIConfig; bo_Files : option AdditionalFilesConfig;
  ReleaseChannel : string; Force : bool; AirGapped : bool; ManifestTarball : string;
  Firmware : string; AnsibleVerbosity : Z; EKSAReleaseVersion : string }.

(** Assignments to fields of the options. *)
Definition set_os_hypervisor (os hv : string) (b : BuildOptions) : BuildOptions :=
  mkBuildOptions os (OsVersion b) (Arch b) hv (bo_Vsphere b) (bo_Baremetal b) (bo_Nutanix b)
    (bo_Cloudstack b) (bo_AMI b) (bo_Files b) (ReleaseChannel b) (Force b) (AirGapped b)
    (ManifestTarball b) (Firmware b) (AnsibleVerbosity b) (EKSAReleaseVersion b).

Definition set_version (v : string) (b : BuildOptions) : BuildOptions :=
  mkBuildOptions (Os b) v (Arch b) (Hypervisor b) (bo_Vsphere b) (bo_Baremetal b) (bo_Nutanix b)
    (bo_Cloudstack b) (bo_AMI b) (bo_Files b) (ReleaseChannel b) (Force b) (AirGapped b)
    (ManifestTarball b) (Firmware b) (AnsibleVerbosity b) (EKSAReleaseVersion b).

Definition set_arch (a : string) (b : BuildOptions) : BuildOptions :=
  mkBuildOptions (Os b) (OsVersion b) a (Hypervisor b) (bo_Vsphere b) (bo_Baremetal b) (bo_Nutanix b)
    (bo_Cloudstack b) (bo_AMI b) (bo_Files b) (ReleaseChannel b) (Force b) (AirGapped b)
    (ManifestTarball b) (Firmware b) (AnsibleVerbosity b) (EKSAReleaseVersion b).

Definition set_firmware (f : string) (b : BuildOptions) : BuildOptions :=
  mkBuildOptions (Os b) (OsVersion b) (Arch b) (Hypervisor b) (bo_Vsphere b) (bo_Baremetal b) (bo_Nutanix b)
    (bo_Cloudstack b) (bo_AMI b) (bo_Files b) (ReleaseChannel b) (Force b) (AirGapped b)
    (ManifestTarball b) f (AnsibleVerbosity b) (EKSAReleaseVersion b).

Definition set_configs (vs : option VsphereConfig) (bm : option BaremetalConfig)
    (nx : option NutanixConfig) (cs : option CloudstackConfig) (am : option AMIConfig)
    (fc : option AdditionalFilesConfig) (b : BuildOptions) : BuildOptions :=
  mkBuildOptions (Os b) (OsVersion b) (Arch b) (Hypervisor b) vs bm nx cs am fc
    (ReleaseChannel b) (Force b) (AirGapped b)
    (ManifestTarball b) (Firmware b) (AnsibleVerbosity b) (EKSAReleaseVersion b).

(** ** builder/constants.go *)
Definition DefaultUbuntu2004AMIFilterName := "ubuntu/images/*ubuntu-focal-20.04-amd64-server-*".
Definition DefaultUbuntu2204AMIFilterName := "ubuntu/images/*ubuntu-jammy-22.04-amd64-server-*".
Definition DefaultUbuntuAMIFilterOwners := "679593333241".
Definition DefaultAMIBuildRegion := "us-west-2".
Definition DefaultAMIBuilderInstanceType := "t3.small".
Definition DefaultAMIRootDeviceName := "/dev/sda1".
Definition DefaultAMIVolumeSize := "25".
Definition DefaultAMIVolumeType := "gp3".
Definition DefaultAMIManifestOutput := "manifest.json".

Definition buildToolingRepoUrl := "https://github.com/aws/eks-anywhere-build-tooling.git".
Definition imageBuilderProjectDirectory := "projects/kubernetes-sigs/image-builder".
Definition imageBuilderCAPIDirectory := "image-builder/images/capi".
Definition packerAdditionalFilesConfigFile := "packer/config/files.json".
Definition ansibleAdditionalFilesCustomRole := "ansible/roles/load_additional_files".
Definition packerAdditionalFilesList := "packer/config/additional_files.yaml".
Definition packerVSphereConfigFile := "packer/ova/vsphere.json".
Definition packerBaremetalConfigFile := "packer/config/baremetal.json".
Definition packerNutanixConfigFile := "packer/nutanix/nutanix.json".
Definition packerCloudStackConfigFile := "packer/config/cloudstack.json".
Definition packerAMIConfigFile := "packer/ami/ami.json".
Definition prodEksaReleaseManifestURL := "https://anywhere-assets.eks.amazonaws.com/releases/eks-a/manifest.yaml".
Definition devEksaReleaseManifestURL := "https://dev-release-assets.eks-anywhere.model-rocket.aws.dev/eks-a-release.yaml".
Definition devBranchEksaReleaseManifestURL (branch : string) :=
  "https://dev-release-assets.eks-anywhere.model-rocket.aws.dev/" +:+ branch +:+ "/eks-a-release.yaml".
Definition eksDistroProdDomain := "distro.eks.amazonaws.com".
Definition eksAnywhereAssetsProdDomain := "anywhere-assets.eks.amazonaws.com".
Definition eksDistroManifestFileName (branch : string) := "eks-d-" +:+ branch +:+ ".yaml".
Definition eksAnywhereManifestFileName := "eks-a-manifest.yaml".
Definition eksAnywhereBundlesFileName (version : string) := "eks-a-bundles-" +:+ version +:+ ".yaml".
Definition manifestsTarballName := "eks-a-manifests.tar".
Definition manifestsDirName := "eks-a-d-manifests".
Definition eksAnywhereArtifactsDirName := "eks-a-artifacts".
Definition eksDistroArtifactsDirName := "eks-d-artifacts".
Definition supportedReleaseBranchesFileName := "release/SUPPORTED_RELEASE_BRANCHES".
Definition eksDLatestReleasesFileName := "EKSD_LATEST_RELEASES".

Definition branchNameEnvVar := "BRANCH_NAME".
Definition codebuildSourceDirectoryEnvVar := "CODEBUILD_SRC_DIR".
Definition releaseBranchEnvVar := "RELEASE_BRANCH".
Definition eksAReleaseVersionEnvVar := "EKSA_RELEASE_VERSION".
Definition eksAReleaseManifestURLEnvVar := "EKSA_RELEASE_MANIFEST_URL".
Definition eksABundlesURLEnvVar := "EKSA_BUNDLE_MANIFEST_URL".
Definition eksDManifestURLEnvVar := "EKSD_MANIFEST_URL".
Definition packerAdditionalFilesConfigFileEnvVar := "PACKER_ADDITIONAL_FILES_VAR_FILES".
Definition rhelUsernameEnvVar := "RHSM_USERNAME".
Definition rhelPasswordEnvVar := "RHSM_PASSWORD".
Definition rhelImageUrlNutanixEnvVar := "RHEL_IMAGE_URL".
Definition rhsmActivationKeyEnvVar := "RHSM_ACTIVATION_KEY".
Definition rhsmOrgIDEnvVar := "RHSM_ORG_ID".
Definition packerTypeVarFilesEnvVar := "PACKER_TYPE_VAR_FILES".
Definition eksaUseDevReleaseEnvVar := "EKSA_USE_DEV_RELEASE".
Definition cloneUrlEnvVar := "CLONE_URL".
Definition eksaAnsibleVerbosityEnvVar := "EKSA_ANSIBLE_VERBOSITY".
Definition mainBranch := "main".
Definition amd64 := "amd64".

Definition DefaultAMIAdditionalFiles : list AdditionalFile :=
  [ mkFile "packer/ami/additional_files/bootstrap.sh" "/etc/eks/" "root" "root" 744;
    mkFile "packer/ami/additional_files/logging.sh" "/etc/eks/" "root" "root" 744 ].

(** ** SliceContains *)
Fixpoint SliceContains (s : list string) (str : string) : bool :=
  match s with
  | [] => false
  | elem :: s => if elem =s str then true else SliceContains s str
  end.

Lemma SliceContains_spec s str : SliceContains s str = true ↔ str ∈ s.
Proof.
  induction s as [|x s IH]; simpl; [rewrite elem_of_nil; naive_solver|].
  rewrite elem_of_cons. case_streq; naive_solver.
Qed.

Lemma SliceContains_false s str : SliceContains s str = false ↔ str ∉ s.
Proof. rewrite <-SliceContains_spec, not_true_iff_false. done. Qed.
