(* ===== verification/IBFiles.v ===== *)
(** * image-builder: additional files

    [builder/files.go], the additional-files part of [ValidateInputs]
    ([cmd/build.go]) and the source rewriting of [BuildImage]
    ([builder/builder.go]). The default files of an AMI build are a package variable
    whose slice is handed out, so the backing arrays are part of the state here. *)
From S2P Require Import Prelude GoStrings GoJson IBTypes.
From stdpp Require Import base tactics strings list gmap.

Local Open Scope string_scope.
Local Open Scope list_scope.
Local Open Scope nat_scope.

(** ** SameFilesProvided *)
Definition count_files (a : list AdditionalFile) : gmap AdditionalFile Z :=
  foldl (λ m v, <[v := (default 0 (m !! v) + 1)%Z]> m) ∅ a.

Fixpoint discount_files (b : list AdditionalFile) (m : gmap AdditionalFile Z)
    : option (gmap AdditionalFile Z) :=
  match b with
  | [] => Some m
  | v :: b =>
      match m !! v with
      | None => None
      | Some n =>
          discount_files b
            (if bool_decide ((n - 1)%Z = 0%Z) then delete v m else <[v := (n - 1)%Z]> m)
      end
  end.

Definition SameFilesProvided (a b : list AdditionalFile) : bool :=
  if negb (bool_decide (length a = length b)) then false
  else
    match discount_files b (count_files a) with
    | None => false
    | Some m => bool_decide (size m = 0)
    end.

(** ** Slices *)
Abbreviation arrays := (gmap nat (list AdditionalFile)).

(** The backing array of the package variable [DefaultAMIAdditionalFiles]. *)
Definition default_array : nat := 0.
Definition default_slice : file_slice := mkSlice default_array 2.
Definition initial_arrays : arrays := {[ default_array := DefaultAMIAdditionalFiles ]}.

Definition array_of (h : arrays) (s : file_slice) : list AdditionalFile :=
  default [] (h !! sl_array s).

Definition read_slice (h : arrays) (s : file_slice) : list AdditionalFile :=
  take (sl_len s) (array_of h s).

Definition new_array (h : arrays) (l : list AdditionalFile) (n : nat) : arrays * file_slice :=
  let a := fresh (dom h) in (<[a := l]> h, mkSlice a n).

(** [append(s, xs...)]: in place while the capacity lasts, otherwise into a copy. *)
Definition append_files (h : arrays) (s : file_slice) (xs : list AdditionalFile) : arrays * file_slice :=
  let arr := array_of h s in
  if bool_decide (sl_len s + length xs ≤ length arr)
  then (<[sl_array s := take (sl_len s) arr ++ xs ++ drop (sl_len s + length xs) arr]> h,
        mkSlice (sl_array s) (sl_len s + length xs))
  else new_array h (read_slice h s ++ xs) (sl_len s + length xs).

Definition zero_file : AdditionalFile := mkFile "" "" "" "" 0.

(** A JSON object stored in a [File]: a field without a member keeps its value. *)
Definition dec_file (v : json) (old : AdditionalFile) : option AdditionalFile :=
  match v with
  | JNull => Some old
  | JObj m =>
      s ← str_field "src" m (Source old);
      d ← str_field "dest" m (Destination old);
      o ← str_field "owner" m (Owner old);
      g ← str_field "group" m (Group old);
      n ← dec_field dec_int "mode" m (Mode old);
      Some (mkFile s d o g n)
  | _ => None
  end.

(** Element [i] of a JSON array: a full slice is moved to a larger array first, and
    the element is decoded over whatever the array holds at [i]. *)
Definition dec_element (h : arrays) (s : file_slice) (i : nat) (v : json)
    : option (arrays * file_slice) :=
  let arr := array_of h s in
  let '(h, s) :=
    if bool_decide (length arr ≤ i)
    then new_array h (take (sl_len s) arr ++
           replicate (max 4 (length arr + length arr / 2) - sl_len s) zero_file) (sl_len s)
    else (h, s) in
  let s := mkSlice (sl_array s) (max (sl_len s) (S i)) in
  let arr := array_of h s in
  f ← dec_file v (default zero_file (arr !! i));
  Some (<[sl_array s := <[i := f]> arr]> h, s).

Fixpoint dec_elements (h : arrays) (s : file_slice) (i : nat) (l : list json)
    : option (arrays * file_slice) :=
  match l with
  | [] => Some (h, mkSlice (sl_array s) i)
  | v :: l => hs ← dec_element h s i v; dec_elements hs.1 hs.2 (S i) l
  end.

Definition dec_files_list (v : json) (hs : arrays * file_slice) : option (arrays * file_slice) :=
  match v with
  | JNull => Some (new_array hs.1 [] 0)
  | JArr [] => Some (new_array hs.1 [] 0)
  | JArr l => dec_elements hs.1 hs.2 0 l
  | _ => None
  end.

(** [json.Unmarshal(filesConfig, &bo.FilesConfig)] *)
Definition dec_files_config (m : list (string * json)) (h : arrays) (fc : AdditionalFilesConfig)
    : option (arrays * AdditionalFilesConfig) :=
  let fv := fc_FileVars fc in
  let an := fc_Ansible fc in
  a ← str_field "additional_files" m (AdditionalFiles fv);
  hs ← dec_field dec_files_list "additional_files_list" m (h, AdditionalFilesList fv);
  x ← str_field "ansible_extra_vars" m (AnsibleExtraVars an);
  c ← str_field "custom_role" m (CustomRole an);
  n ← str_field "custom_role_names" m (CustomRoleNames an);
  Some (hs.1, mkFilesConfig (mkFileVars a hs.2) (mkFilesAnsible x c n)).

Definition ProcessAdditionalFiles (afc : AdditionalFilesConfig) : AdditionalFilesConfig :=
  if bool_decide (sl_len (AdditionalFilesList (fc_FileVars afc)) ≠ 0) then
    mkFilesConfig (mkFileVars "true" (AdditionalFilesList (fc_FileVars afc)))
      (mkFilesAnsible (AnsibleExtraVars (fc_Ansible afc)) "true" (CustomRoleNames (fc_Ansible afc)))
  else afc.

(** The defaults of an AMI build: the package variable's slice itself. *)
Definition ami_files_config : AdditionalFilesConfig :=
  mkFilesConfig (mkFileVars "true" default_slice) (mkFilesAnsible "" "" "").

Definition empty_files_config (h : arrays) : arrays * AdditionalFilesConfig :=
  let '(h, s) := new_array h [] 0 in
  (h, mkFilesConfig (mkFileVars "" s) (mkFilesAnsible "" "" "")).

(** The [--files-config] step of [ValidateInputs] on the file's contents. [Panic] is
    the method call on a nil configuration after the JSON text [null]. *)
Definition load_files_config (contents : string) (is_ami : bool) (fc : option AdditionalFilesConfig)
    (h : arrays) : outcome (arrays * AdditionalFilesConfig) :=
  match parse contents with
  | None => Err "invalid JSON in additional files config"
  | Some JNull => Panic "invalid memory address or nil pointer dereference"
  | Some (JObj m) =>
      let '(h, fc) := match fc with Some fc => (h, fc) | None => empty_files_config h end in
      match dec_files_config m h fc with
      | None => Err "json: cannot unmarshal additional files config"
      | Some (h, fc) =>
          let fc := ProcessAdditionalFiles fc in
          let fv := fc_FileVars fc in
          if is_ami && negb (SameFilesProvided (read_slice h (AdditionalFilesList fv))
                                               (read_slice h default_slice))
          then
            let '(h, s) := append_files h (AdditionalFilesList fv) (read_slice h default_slice) in
            Ret (h, mkFilesConfig (mkFileVars (AdditionalFiles fv) s) (fc_Ansible fc))
          else Ret (h, fc)
      end
  | Some _ => Err "json: cannot unmarshal additional files config"
  end.

(** ** The source rewriting of [BuildImage] *)
Definition set_source (src : string) (f : AdditionalFile) : AdditionalFile :=
  mkFile src (Destination f) (Owner f) (Group f) (Mode f).

(** [for index, file := range list { for _, defaultFile := range
    DefaultAMIAdditionalFiles { if file == defaultFile { list[index].Source =
    filepath.Join(projectPath, list[index].Source) } } }]: [file] is a copy, every
    other read goes to the arrays as they are. *)
Definition rewrite_one (project : string) (s : file_slice) (index : nat) (file : AdditionalFile)
    (h : arrays) (j : nat) : arrays :=
  match array_of h default_slice !! j with
  | Some defaultFile =>
      if bool_decide (file = defaultFile) then
        let arr := array_of h s in
        match arr !! index with
        | Some f => <[sl_array s := <[index := set_source (PathJoin [project; Source f]) f]> arr]> h
        | None => h
        end
      else h
  | None => h
  end.

Definition rewrite_index (project : string) (s : file_slice) (h : arrays) (index : nat) : arrays :=
  match array_of h s !! index with
  | Some file => foldl (rewrite_one project s index file) h (List.seq 0 (sl_len default_slice))
  | None => h
  end.

Definition rewrite_sources (project : string) (s : file_slice) (h : arrays) : arrays :=
  foldl (rewrite_index project s) h (List.seq 0 (sl_len s)).

(** ** SameFilesProvided compares the lists up to order *)
Section same_files.
Implicit Types (a b l : list AdditionalFile) (m : gmap AdditionalFile Z).

(** [m] holds how often each file occurs in [l], and nothing for the others. *)
Definition counts l m : Prop :=
  ∀ v, m !! v = let n := count_occ (decide_rel (=)) l v in
               if bool_decide (n = 0) then None else Some (Z.of_nat n).

Lemma counts_perm l l' m : l ≡ₚ l' → counts l m → counts l' m.
Proof.
  intros Hp Hc v. rewrite Hc.
  by rewrite (proj1 (Permutation_count_occ (decide_rel (=)) l l') Hp v).
Qed.

Lemma counts_nil m : counts [] m → m = ∅.
Proof. intros Hc. apply map_eq. intros v. rewrite Hc, lookup_empty. done. Qed.

Lemma counts_empty l : counts l ∅ → l = [].
Proof.
  intros Hc. destruct l as [|x l]; [done|]. specialize (Hc x).
  rewrite lookup_empty in Hc. simpl in Hc. destruct (decide_rel (=) x x); [|done].
  by case_bool_decide.
Qed.

Lemma counts_add l m v : counts l m → counts (v :: l) (<[v := (default 0 (m !! v) + 1)%Z]> m).
Proof.
  intros Hc x. simpl. destruct (decide_rel (=) v x) as [<-|Hne].
  - rewrite lookup_insert_eq, Hc. simpl. repeat case_bool_decide; simpl; f_equal; lia.
  - by rewrite lookup_insert_ne, Hc.
Qed.

Lemma counts_remove l m v n : counts (v :: l) m → m !! v = Some n →
  counts l (if bool_decide ((n - 1)%Z = 0%Z) then delete v m else <[v := (n - 1)%Z]> m).
Proof.
  intros Hc Hn x. pose proof (Hc v) as Hv. pose proof (Hc x) as Hx.
  rewrite Hn in Hv. simpl in Hv, Hx |- *.
  destruct (decide_rel (=) v v) as [_|]; [|done].
  rewrite bool_decide_eq_false_2 in Hv by lia. injection Hv as ->.
  destruct (decide_rel (=) v x) as [<-|Hne].
  - repeat case_bool_decide; try lia.
    + by rewrite lookup_delete_eq.
    + rewrite lookup_insert_eq. f_equal. lia.
  - rewrite <-Hx. clear Hx. case_bool_decide; [by rewrite lookup_delete_ne|by rewrite lookup_insert_ne].
Qed.

Lemma counts_elem l m v n : counts l m → m !! v = Some n → ∃ l', l ≡ₚ v :: l'.
Proof.
  intros Hc Hn. rewrite Hc in Hn. simpl in Hn. case_bool_decide as H; [done|].
  destruct (elem_of_Permutation l v) as [Hp _]. apply Hp.
  apply list_elem_of_In. rewrite (count_occ_In (decide_rel (=))). lia.
Qed.

Lemma count_files_counts a : counts a (count_files a).
Proof.
  unfold count_files.
  assert (∀ l m, counts l m → counts (rev a ++ l) (foldl (λ m v, <[v := (default 0 (m !! v) + 1)%Z]> m) m a)) as H.
  { induction a as [|v a IH]; intros l m Hc; simpl; [done|].
    rewrite <-app_assoc. apply IH. by apply counts_add. }
  apply (counts_perm (rev a ++ [])); [by rewrite app_nil_r, <-Permutation_rev|].
  apply H. intros v. by rewrite lookup_empty.
Qed.

Lemma discount_files_spec b l m : counts l m →
  match discount_files b m with
  | Some m' => ∃ l', l ≡ₚ b ++ l' ∧ counts l' m'
  | None => ¬ ∃ l', l ≡ₚ b ++ l'
  end.
Proof.
  revert l m. induction b as [|v b IH]; intros l m Hc; simpl; [by eauto|].
  destruct (m !! v) as [n|] eqn:Hv.
  - destruct (counts_elem _ _ _ _ Hc Hv) as [l' Hl].
    specialize (IH l' _ (counts_remove l' m v n (counts_perm _ _ _ Hl Hc) Hv)).
    destruct (discount_files _ _) as [m'|].
    + destruct IH as (l'' & Hp & Hc'). exists l''. split; [|done]. by rewrite Hl, Hp.
    + intros [l'' Hp]. apply IH. exists l''.
      apply (Permutation_cons_inv (a := v)). by rewrite <-Hl, Hp.
  - intros [l' Hp]. rewrite (counts_perm _ _ _ Hp Hc v) in Hv. simpl in Hv.
    destruct (decide_rel (=) v v); [|done]. by case_bool_decide.
Qed.

Lemma SameFilesProvided_perm a b : SameFilesProvided a b = true ↔ a ≡ₚ b.
Proof.
  unfold SameFilesProvided. case_bool_decide as Hlen; simpl.
  - pose proof (discount_files_spec b a _ (count_files_counts a)) as H.
    destruct (discount_files b (count_files a)) as [m'|].
    + destruct H as (l' & Hp & Hc). rewrite bool_decide_eq_true, map_size_empty_iff.
      split; intros H'.
      * subst m'. apply counts_empty in Hc. subst l'. by rewrite Hp, app_nil_r.
      * apply Permutation_length in Hp. rewrite length_app, Hlen in Hp.
        destruct l'; [by apply counts_nil|simpl in Hp; lia].
    + split; [done|]. intros Hp. destruct H. exists []. by rewrite app_nil_r.
  - split; [done|]. intros Hp%Permutation_length. done.
Qed.
End same_files.

(** C28: [SameFilesProvided] is true exactly when the two lists of files are the same
    up to order, duplicates counted. *)
Theorem same_files_provided_iff_permutation a b :
  SameFilesProvided a b = true ↔ a ≡ₚ b.
Proof. apply SameFilesProvided_perm. Qed.

(** ** A files config of an AMI build is decoded over the defaults *)

(** A field named by exactly one member takes that member's value. *)
Lemma dec_field_absent {A} (dec : json → A → option A) name obj old :
  Forall (λ kv, ToLower kv.1 ≠ name) obj → dec_field dec name obj old = Some old.
Proof.
  unfold dec_field. intros H. induction H as [|kv obj Hk H IH]; [done|]. simpl.
  apply streq_false in Hk. by rewrite Hk.
Qed.

Lemma foldl_None {A} (f : option A → string * json → option A) obj :
  (∀ kv, f None kv = None) → foldl f None obj = None.
Proof. intros Hf. induction obj; simpl; [done|]. by rewrite Hf. Qed.

Lemma dec_field_single {A} (dec : json → A → option A) name obj1 k v obj2 old :
  Forall (λ kv, ToLower kv.1 ≠ name) obj1 → ToLower k = name →
  Forall (λ kv, ToLower kv.1 ≠ name) obj2 →
  dec_field dec name (obj1 ++ (k, v) :: obj2) old = dec v old.
Proof.
  intros H1 Hk H2. pose proof (dec_field_absent dec name obj1 old H1) as E1.
  unfold dec_field in *. rewrite foldl_app, E1. simpl. rewrite Hk, streq_refl.
  destruct (dec v old) as [a|]; [|by apply foldl_None].
  apply (dec_field_absent dec name obj2 a H2).
Qed.

Section overwrite.
Abbreviation defaults := DefaultAMIAdditionalFiles.

(** What element [i] of the array is decoded over. *)
Definition under_element (i : nat) : AdditionalFile := default zero_file (defaults !! i).

(** [us] are the elements [vs], each decoded over the default of its position. *)
Definition decoded (vs : list json) (us : list AdditionalFile) : Prop :=
  length us = length vs ∧
  ∀ i v, vs !! i = Some v → dec_file v (under_element i) = us !! i.

(** The defaults once [us] has been decoded over them. *)
Definition overwritten (us : list AdditionalFile) : list AdditionalFile :=
  take 2 us ++ drop (length us) defaults.

Lemma length_overwritten us : length (overwritten us) = 2.
Proof.
  unfold overwritten. rewrite length_app, length_take, length_drop.
  change (length defaults) with 2. lia.
Qed.

(** While the array [vs] of a files config is decoded: [us] are the files decoded so
    far; the first two are in the defaults' own array, and from the third on the
    slice is in an array of its own. *)
Definition decoding (h : arrays) (s : file_slice) (us : list AdditionalFile) : Prop :=
  h !! default_array = Some (overwritten us) ∧
  take (length us) (array_of h s) = us ∧
  (∀ i f, length us ≤ i → array_of h s !! i = Some f → f = under_element i) ∧
  sl_len s ≤ length (array_of h s) ∧
  (if bool_decide (length us ≤ 2)
   then s = default_slice
   else sl_array s ≠ default_array ∧ sl_len s = length us).

Lemma decoding_start : decoding initial_arrays default_slice [].
Proof.
  split; [done|]. split; [done|]. split; [|split; [|done]].
  - intros i f _ Hf. unfold under_element. change (array_of _ _) with defaults in Hf.
    by rewrite Hf.
  - apply (bool_decide_eq_true_1 _). vm_compute. reflexivity.
Qed.

Lemma array_of_insert h a l n : array_of (<[a := l]> h) (mkSlice a n) = l.
Proof. unfold array_of. simpl. by rewrite lookup_insert_eq. Qed.

Lemma fresh_not_default (h : arrays) l : h !! default_array = Some l → fresh (dom h) ≠ default_array.
Proof. intros Hl Hf. apply (is_fresh (dom h)). rewrite Hf. by apply elem_of_dom_2 in Hl. Qed.

Lemma take_insert_snoc (us : list AdditionalFile) arr u : length us < length arr →
  take (length us) arr = us → take (S (length us)) (<[length us := u]> arr) = us ++ [u].
Proof.
  intros Hl Ht. rewrite (take_S_r _ _ u) by (by apply list_lookup_insert_eq).
  by rewrite take_insert_ge, Ht.
Qed.

Lemma overwritten_snoc us u : overwritten (us ++ [u]) =
  if bool_decide (length us < 2) then <[length us := u]> (overwritten us) else overwritten us.
Proof.
  unfold overwritten. rewrite length_app. simpl. rewrite Nat.add_1_r. case_bool_decide as Hl.
  - rewrite (take_ge us) by lia. rewrite take_ge by (rewrite length_app; simpl; lia).
    rewrite <-(Nat.add_0_r (length us)) at 2. rewrite insert_app_r. simpl.
    rewrite <-app_assoc. f_equal. destruct (length us) as [|[|]]; [done|done|lia].
  - rewrite take_app_le by lia. by rewrite !drop_ge by (simpl; lia).
Qed.

(** The element at [length us] is stored in an array with room for it. *)
Lemma decoding_store h s us v u h1 s1 : sl_len s1 ≤ length (array_of h1 s1) →
  length us < length (array_of h1 s1) → take (length us) (array_of h1 s1) = us →
  (∀ i f, length us ≤ i → array_of h1 s1 !! i = Some f → f = under_element i) →
  s = mkSlice (sl_array s1) (max (sl_len s1) (S (length us))) →
  dec_file v (default zero_file (array_of h1 s !! length us)) = Some u →
  h = <[sl_array s := <[length us := u]> (array_of h1 s)]> h1 →
  h !! default_array = Some (overwritten (us ++ [u])) →
  (if bool_decide (length us < 2) then s1 = default_slice
   else sl_array s1 ≠ default_array ∧ sl_len s1 = length us) →
  dec_file v (under_element (length us)) = Some u ∧ decoding h s (us ++ [u]).
Proof.
  intros Hlen Hroom Ht Hrest -> Hu -> Hd Hs.
  change (array_of h1 (mkSlice (sl_array s1) _)) with (array_of h1 s1) in *.
  split.
  - destruct (lookup_lt_is_Some_2 _ _ Hroom) as [f Hf].
    rewrite Hf in Hu. by rewrite <-(Hrest _ _ (le_n _) Hf).
  - unfold decoding. cbn [sl_array sl_len] in *. rewrite array_of_insert, length_insert, length_app.
    simpl length. rewrite Nat.add_1_r.
    split; [done|]. split; [by apply take_insert_snoc|]. split; [|split; [lia|]].
    + intros i f Hi. rewrite list_lookup_insert_ne by lia. apply Hrest. lia.
    + destruct (decide (length us < 2)) as [H2|H2].
      * rewrite bool_decide_eq_true_2 in Hs by lia. rewrite bool_decide_eq_true_2 by lia.
        subst s1. unfold default_slice. simpl. f_equal. lia.
      * rewrite bool_decide_eq_false_2 in Hs by lia. rewrite bool_decide_eq_false_2 by lia.
        destruct Hs. split; [done|]. lia.
Qed.

Lemma decoding_in_place h us v h' s' : length us < 2 → decoding h default_slice us →
  dec_element h default_slice (length us) v = Some (h', s') →
  ∃ u, dec_file v (under_element (length us)) = Some u ∧ decoding h' s' (us ++ [u]).
Proof.
  intros Hl (Hd & Ht & Hrest & Hlen & _) He.
  assert (array_of h default_slice = overwritten us) as Harr by (unfold array_of; simpl; by rewrite Hd).
  assert (length (array_of h default_slice) = 2) as Hcap by (by rewrite Harr, length_overwritten).
  unfold dec_element in He. rewrite Hcap in He.
  rewrite bool_decide_eq_false_2 in He by lia. cbv zeta in He.
  destruct (dec_file v _) as [u|] eqn:Hu; cbn [mbind option_bind] in He; [|done].
  injection He as <- <-. exists u.
  eapply decoding_store; [apply Hlen|lia|done|done|done|exact Hu|done| |].
  - cbn [sl_array]. rewrite overwritten_snoc, bool_decide_eq_true_2 by lia.
    change (sl_array default_slice) with default_array. rewrite lookup_insert_eq.
    change (array_of h (mkSlice _ _)) with (array_of h default_slice). by rewrite Harr.
  - by rewrite bool_decide_eq_true_2 by lia.
Qed.

(** Before an element past the second is stored, the slice is in an array of its own
    that has room for it. *)
Definition make_room (h : arrays) (s : file_slice) (i : nat) : arrays * file_slice :=
  if bool_decide (length (array_of h s) ≤ i)
  then new_array h (take (sl_len s) (array_of h s) ++
         replicate (max 4 (length (array_of h s) + length (array_of h s) / 2) - sl_len s) zero_file)
         (sl_len s)
  else (h, s).

Lemma decoding_cases h s us : 2 ≤ length us → decoding h s us →
  sl_len s = length us ∧
  (sl_array s = default_array → length (array_of h s) = 2 ∧ length us = 2).
Proof.
  intros Hl (Hd & _ & _ & _ & Hs). case_bool_decide as Hle.
  - subst s. split; [simpl; lia|]. intros _. unfold array_of. simpl. rewrite Hd. simpl.
    rewrite length_overwritten. lia.
  - tauto.
Qed.

Lemma make_room_spec h s us h1 s1 : 2 ≤ length us → decoding h s us →
  make_room h s (length us) = (h1, s1) →
  h1 !! default_array = h !! default_array ∧ sl_array s1 ≠ default_array ∧
  sl_len s1 = length us ∧ take (length us) (array_of h1 s1) = us ∧
  length us < length (array_of h1 s1) ∧
  (∀ i f, length us ≤ i → array_of h1 s1 !! i = Some f → f = under_element i).
Proof.
  intros Hl Hdec. destruct (decoding_cases _ _ _ Hl Hdec) as [Hsl Hdef].
  destruct Hdec as (Hd & Ht & Hrest & Hlen & _).
  unfold make_room, new_array. case_bool_decide as Hg; intros [= <- <-].
  - cbn [sl_array sl_len]. rewrite array_of_insert, Hsl, Ht, length_app, length_replicate.
    pose proof (fresh_not_default h _ Hd) as Hf.
    rewrite lookup_insert_ne by done. split; [done|]. split; [done|]. split; [done|].
    split; [by rewrite take_app_length|]. split.
    + assert (length (array_of h s) = length us) as -> by lia.
      change (Nat.divmod (length us) 1 0 1).1 with (length us / 2).
      pose proof (Nat.div_le_lower_bound (length us) 2 1 ltac:(lia) ltac:(lia)). lia.
    + intros i f Hi. rewrite lookup_app_r by done. intros [-> _]%lookup_replicate_1.
      unfold under_element. by rewrite lookup_ge_None_2 by (simpl; lia).
  - split; [done|]. split; [intros Hz; apply Hdef in Hz; lia|]. repeat (split; [done || lia|]). done.
Qed.

Lemma decoding_private h s us v h' s' : 2 ≤ length us → decoding h s us →
  dec_element h s (length us) v = Some (h', s') →
  ∃ u, dec_file v (under_element (length us)) = Some u ∧ decoding h' s' (us ++ [u]).
Proof.
  intros Hl Hdec He. unfold dec_element in He. fold (make_room h s (length us)) in He.
  destruct (make_room h s (length us)) as [h1 s1] eqn:E.
  destruct (make_room_spec _ _ _ _ _ Hl Hdec E) as (Hd1 & Ha1 & Hl1 & Ht1 & Hc1 & Hr1).
  destruct Hdec as (Hd & _).
  destruct (dec_file v _) as [u|] eqn:Hu; cbn [mbind option_bind] in He; [|done].
  injection He as <- <-. exists u.
  eapply decoding_store; [|exact Hc1|exact Ht1|exact Hr1|done|exact Hu|done| |]; [lia| |].
  - cbn [sl_array]. by rewrite lookup_insert_ne, Hd1, Hd, overwritten_snoc, bool_decide_eq_false_2 by (done || lia).
  - by rewrite bool_decide_eq_false_2 by lia.
Qed.

Lemma decoding_step h s us v h' s' : decoding h s us →
  dec_element h s (length us) v = Some (h', s') →
  ∃ u, dec_file v (under_element (length us)) = Some u ∧ decoding h' s' (us ++ [u]).
Proof.
  intros Hdec He. destruct (decide (length us < 2)) as [Hl|Hl].
  - assert (s = default_slice) as ->.
    { destruct Hdec as (_ & _ & _ & _ & Hs). by rewrite bool_decide_eq_true_2 in Hs by lia. }
    by eapply decoding_in_place.
  - eapply decoding_private; [lia|done|done].
Qed.

Lemma decoded_snoc vs us v u : decoded vs us → dec_file v (under_element (length us)) = Some u →
  decoded (vs ++ [v]) (us ++ [u]).
Proof.
  intros [Hlen Hd] Hu. split; [rewrite !length_app; simpl; lia|]. intros i x.
  destruct (decide (i < length vs)) as [Hi|Hi].
  - rewrite !lookup_app_l by lia. apply Hd.
  - rewrite !lookup_app_r by lia. rewrite Hlen. rewrite list_lookup_singleton_Some.
    intros [Hz <-]. replace i with (length us) at 1 by lia. rewrite Hu, Hz. done.
Qed.

Lemma decoding_all h s vs us l h' s' : decoding h s us → decoded vs us →
  dec_elements h s (length us) l = Some (h', s') →
  ∃ us', decoded (vs ++ l) us' ∧ decoding h' (mkSlice (sl_array s') (max (if bool_decide (length us' ≤ 2) then 2 else 0) (length us'))) us' ∧
    sl_len s' = length us'.
Proof.
  revert h s vs us. induction l as [|v l IH]; intros h s vs us Hdec Hvs He; simpl in He.
  - simplify_eq. exists us. rewrite app_nil_r. split; [done|]. split; [|done].
    destruct s as [a n]. cbn [sl_array sl_len] in *.
    destruct Hdec as (Hd & Ht & Hrest & Hlen & Hs). cbn [sl_array sl_len] in *.
    unfold decoding. change (array_of h' (mkSlice a _)) with (array_of h' (mkSlice a n)).
    split; [done|]. split; [done|]. split; [done|]. cbn [sl_array sl_len].
    case_bool_decide; [unfold default_slice in Hs; simplify_eq|destruct Hs; simplify_eq].
    + rewrite Nat.max_l by lia. done.
    + simpl. done.
  - destruct (dec_element h s (length us) v) as [[h1 s1]|] eqn:E; [|done]. simpl in He.
    destruct (decoding_step _ _ _ _ _ _ Hdec E) as (u & Hdu & Hu).
    replace (S (length us)) with (length (us ++ [u])) in He by (rewrite length_app; simpl; lia).
    rewrite cons_middle, app_assoc. eapply IH; [done| |done]. by apply decoded_snoc.
Qed.
End overwrite.

(** ** What an AMI build makes of its files config *)
Lemma dec_files_list_arr l hs : l ≠ [] → dec_files_list (JArr l) hs = dec_elements hs.1 hs.2 0 l.
Proof. by destruct l. Qed.

Section ami_files.
Context (contents : string) (m1 m2 : list (string * json)) (k : string) (vs : list json).
Context (Hparse : parse contents = Some (JObj (m1 ++ (k, JArr vs) :: m2))).
Context (Hm1 : Forall (λ kv, ToLower kv.1 ≠ "additional_files_list") m1).
Context (Hk : ToLower k = "additional_files_list").
Context (Hm2 : Forall (λ kv, ToLower kv.1 ≠ "additional_files_list") m2).
Context (Hvs : vs ≠ []).

(** The final list, and where its slice is. *)
Lemma load_ami_files h fc :
  load_files_config contents true (Some ami_files_config) initial_arrays = Ret (h, fc) →
  ∃ us, decoded vs us ∧ h !! default_array = Some (overwritten us) ∧
    read_slice h (AdditionalFilesList (fc_FileVars fc)) =
      (if SameFilesProvided us (overwritten us) then us else us ++ overwritten us) ∧
    (sl_array (AdditionalFilesList (fc_FileVars fc)) = default_array → length us = 2) ∧
    sl_len (AdditionalFilesList (fc_FileVars fc)) ≤
      length (array_of h (AdditionalFilesList (fc_FileVars fc))).
Proof using All.
  unfold load_files_config. rewrite Hparse. intros Hload.
  destruct (dec_files_config _ _ _) as [[h1 fc1]|] eqn:Hfc; [|done].
  unfold dec_files_config in Hfc.
  rewrite (dec_field_single dec_files_list _ m1 k (JArr vs) m2), (dec_files_list_arr vs _ Hvs) in Hfc by done.
  apply bind_Some in Hfc as (fa & _ & Hfc). apply bind_Some in Hfc as ([h2 s1] & Hdec & Hfc).
  apply bind_Some in Hfc as (fx & _ & Hfc). apply bind_Some in Hfc as (fr & _ & Hfc).
  apply bind_Some in Hfc as (fn & _ & Hfc). injection Hfc as <- <-.
  cbn [fst snd] in Hload, Hdec. rename h2 into h1.
  destruct (decoding_all _ _ [] [] _ _ _ decoding_start ltac:(done) Hdec) as (us & Hus & Hinv & Hlen).
  simpl app in Hus. destruct Hinv as (Hd & Ht & _ & Hcap & Hs). cbn [sl_array sl_len] in Hcap, Hs.
  change (array_of h1 (mkSlice (sl_array s1) _)) with (array_of h1 s1) in *.
  assert (length us ≠ 0) as Hne by (rewrite (proj1 Hus), length_zero_iff_nil; done).
  unfold ProcessAdditionalFiles in Hload. cbn [fst snd fc_FileVars AdditionalFilesList] in Hload.
  rewrite bool_decide_eq_true_2 in Hload by lia.
  cbn [fc_FileVars AdditionalFilesList fc_Ansible andb] in Hload.
  assert (read_slice h1 s1 = us) as Hrd by (unfold read_slice; by rewrite Hlen).
  assert (read_slice h1 default_slice = overwritten us) as Hov.
  { unfold read_slice, array_of. simpl sl_array. simpl sl_len. rewrite Hd. simpl.
    by rewrite take_ge by (by rewrite length_overwritten). }
  rewrite Hrd, Hov in Hload. exists us. split; [done|].
  assert (length us ≤ length (array_of h1 s1)) as Hle.
  { rewrite <-Ht at 1. rewrite length_take. lia. }
  destruct (SameFilesProvided us (overwritten us)) eqn:Hsame; cbn [negb] in Hload.
  - injection Hload as <- <-. split; [done|]. split; [done|]. simpl. split; [intros _|lia].
    apply SameFilesProvided_perm, Permutation_length in Hsame. by rewrite Hsame, length_overwritten.
  - unfold append_files in Hload. rewrite Hlen, Hrd, length_overwritten in Hload.
    clear Hs Hcap. case_bool_decide as Hroom; cbv beta iota zeta delta [new_array] in Hload; injection Hload as <- <-;
      cbn [fc_FileVars AdditionalFilesList sl_array].
    + assert (sl_array s1 ≠ default_array) as Hpriv.
      { intros Hz. unfold array_of in Hroom. rewrite Hz, Hd in Hroom. simpl in Hroom.
        rewrite length_overwritten in Hroom. lia. }
      rewrite lookup_insert_ne by done. split; [done|].
      unfold read_slice. rewrite array_of_insert. cbn [sl_len]. rewrite Ht, app_assoc.
      split; [|split; [done|rewrite !length_app, length_overwritten; lia]].
      by rewrite take_app_length' by (rewrite length_app, length_overwritten; lia).
    + pose proof (fresh_not_default h1 _ Hd).
      rewrite lookup_insert_ne by done. split; [done|].
      unfold read_slice. rewrite array_of_insert. cbn [sl_len].
      split; [|split; [done|rewrite length_app, length_overwritten; lia]].
      by rewrite take_ge by (rewrite length_app, length_overwritten; lia).
Qed.
End ami_files.

(** C35: with [--files-config] an AMI build loses its default files. The configured
    files are decoded into the array that [DefaultAMIAdditionalFiles] itself lives in,
    so what is then appended as the defaults is [overwritten us]: the first two
    configured files, followed by the second default when only one was configured. *)
Theorem ami_defaults_overwritten contents m1 k vs m2 h fc :
  parse contents = Some (JObj (m1 ++ (k, JArr vs) :: m2)) →
  Forall (λ kv, ToLower kv.1 ≠ "additional_files_list") m1 →
  ToLower k = "additional_files_list" →
  Forall (λ kv, ToLower kv.1 ≠ "additional_files_list") m2 →
  vs ≠ [] →
  load_files_config contents true (Some ami_files_config) initial_arrays = Ret (h, fc) →
  ∃ us, decoded vs us ∧ read_slice h default_slice = overwritten us ∧
    read_slice h (AdditionalFilesList (fc_FileVars fc)) =
      if SameFilesProvided us (overwritten us) then us else us ++ overwritten us.
Proof.
  intros Hp H1 Hk H2 Hvs Hl.
  destruct (load_ami_files _ _ _ _ _ Hp H1 Hk H2 Hvs _ _ Hl) as (us & Hus & Hd & Hr & _ & _).
  exists us. split; [done|]. split; [|done]. unfold read_slice, array_of. simpl sl_array.
  rewrite Hd. simpl. by rewrite take_ge by (by rewrite length_overwritten).
Qed.

Definition one_file_config : string :=
  "{" +:+ q "additional_files_list" +:+ ":[{" +:+ q "src" +:+ ":" +:+ q "/home/me/a.txt" +:+ "}]}".

Lemma ami_defaults_overwritten_witness :
  ∃ h fc, load_files_config one_file_config true (Some ami_files_config) initial_arrays = Ret (h, fc) ∧
    ∃ us, decoded [JObj [("src", JStr "/home/me/a.txt")]] us ∧
      read_slice h default_slice = overwritten us ∧
      read_slice h (AdditionalFilesList (fc_FileVars fc)) =
        if SameFilesProvided us (overwritten us) then us else us ++ overwritten us.
Proof.
  eexists _, _. split; [vm_compute; reflexivity|].
  eapply (ami_defaults_overwritten one_file_config [] "additional_files_list" _ []);
    [vm_compute; reflexivity|constructor|reflexivity|constructor|discriminate|vm_compute; reflexivity].
Defined.

(** ** The rewriting of sources, on a slice that does not share the defaults' array *)
Definition prefixed (project : string) (f : AdditionalFile) : AdditionalFile :=
  set_source (PathJoin [project; Source f]) f.

(** A file is prefixed once for every default it equals. *)
Definition rewritten (project : string) (ds : list AdditionalFile) (f : AdditionalFile) : AdditionalFile :=
  Nat.iter (count_occ (decide_rel (=)) ds f) (prefixed project) f.

Section rewrite.
Context (project : string) (s : file_slice) (ds : list AdditionalFile).
Context (Hpriv : sl_array s ≠ default_array) (Hds : length ds = 2).

(** The inner loop has prefixed [cur]. *)
Lemma rewrite_one_step h arr i file d cur j : h !! default_array = Some ds → h !! sl_array s = Some arr →
  ds !! j = Some d → arr !! i = Some cur →
  ∃ h' , rewrite_one project s i file h j = h' ∧ h' !! default_array = Some ds ∧
    h' !! sl_array s = Some (<[i := if decide (file = d) then prefixed project cur else cur]> arr).
Proof using Hpriv.
  intros Hd Ha Hj Hi. eexists. split; [done|]. unfold rewrite_one, array_of. simpl.
  rewrite Hd, Ha. simpl. rewrite Hj. case_bool_decide as Hf.
  - rewrite Hi, decide_True by done. rewrite lookup_insert_ne, lookup_insert_eq by done. done.
  - rewrite decide_False, list_insert_id by done. done.
Qed.

Lemma rewrite_index_step h arr i file : h !! default_array = Some ds → h !! sl_array s = Some arr →
  arr !! i = Some file →
  ∃ h', rewrite_index project s h i = h' ∧ h' !! default_array = Some ds ∧
    h' !! sl_array s = Some (<[i := rewritten project ds file]> arr).
Proof using All.
  intros Hd Ha Hi. unfold rewrite_index. unfold array_of at 1. rewrite Ha. simpl. rewrite Hi.
  assert (∃ d0 d1, ds = [d0; d1]) as (d0 & d1 & Eds).
  { clear Hd. revert Hds. destruct ds as [|d0 [|d1 [|]]]; try done. eauto. }
  simpl. destruct (rewrite_one_step h arr i file d0 file 0) as (h1 & -> & Hd1 & Ha1);
    [done..|by rewrite Eds|done|].
  assert (i < length arr) as Hlt by (by apply lookup_lt_Some in Hi).
  destruct (rewrite_one_step h1 _ i file d1 (if decide (file = d0) then prefixed project file else file) 1 Hd1 Ha1)
    as (h2 & -> & Hd2 & Ha2); [by rewrite Eds|by apply list_lookup_insert_eq|].
  exists h2. split; [done|]. split; [done|]. rewrite Ha2, list_insert_insert_eq. do 2 f_equal.
  unfold rewritten. rewrite Eds. simpl.
  destruct (decide_rel (=) d0 file) as [E0|E0], (decide_rel (=) d1 file) as [E1|E1]; simpl;
    repeat case_decide; congruence.
Qed.

Lemma rewrite_sources_private h arr : h !! default_array = Some ds → h !! sl_array s = Some arr →
  sl_len s ≤ length arr →
  read_slice (rewrite_sources project s h) s = rewritten project ds <$> read_slice h s.
Proof using All.
  intros Hd Ha Hlen.
  assert (∀ n, n ≤ sl_len s → ∃ h', foldl (rewrite_index project s) h (List.seq 0 n) = h' ∧
    h' !! default_array = Some ds ∧
    h' !! sl_array s = Some ((rewritten project ds <$> take n arr) ++ drop n arr)) as Hloop.
  { induction n as [|n IH]; intros Hn; [by eauto|].
    destruct IH as (h1 & E & Hd1 & Ha1); [lia|]. rewrite seq_S, foldl_app, E. simpl.
    destruct (lookup_lt_is_Some_2 arr n) as [f Hf]; [lia|].
    assert (length (rewritten project ds <$> take n arr) = n) as Hln
      by (rewrite length_fmap, length_take; lia).
    destruct (rewrite_index_step h1 _ n f Hd1 Ha1) as (h2 & E2 & Hd2 & Ha2).
    { by rewrite lookup_app_r, Hln, Nat.sub_diag, lookup_drop, Nat.add_0_r by lia. }
    exists h2. split; [done|]. split; [done|]. rewrite Ha2. f_equal.
    rewrite (take_S_r _ _ _ Hf), fmap_app, <-app_assoc. simpl.
    rewrite insert_app_r_alt, Hln, Nat.sub_diag by lia. f_equal.
    by rewrite (drop_S _ _ _ Hf). }
  destruct (Hloop (sl_len s) (le_n _)) as (h' & E & _ & Ha').
  unfold read_slice, rewrite_sources. rewrite E. unfold array_of. rewrite Ha', Ha. simpl.
  by rewrite take_app_length' by (rewrite length_fmap, length_take; lia).
Qed.
End rewrite.

(** C36: the rewriting of sources in [BuildImage], which is meant for the default files,
    takes the files the user configured for them: after a files config with other than
    two files, each file of the final list has the project directory put before its
    source once for every entry of [overwritten us] it equals, and these entries are
    the user's first files. *)
Theorem user_files_rewritten project contents m1 k vs m2 h fc :
  parse contents = Some (JObj (m1 ++ (k, JArr vs) :: m2)) →
  Forall (λ kv, ToLower kv.1 ≠ "additional_files_list") m1 →
  ToLower k = "additional_files_list" →
  Forall (λ kv, ToLower kv.1 ≠ "additional_files_list") m2 →
  vs ≠ [] → length vs ≠ 2 →
  load_files_config contents true (Some ami_files_config) initial_arrays = Ret (h, fc) →
  let L := AdditionalFilesList (fc_FileVars fc) in
  ∃ us, decoded vs us ∧
    read_slice (rewrite_sources project L h) L =
      rewritten project (overwritten us) <$> (us ++ overwritten us).
Proof.
  intros Hp H1 Hk H2 Hvs Hne Hl.
  destruct (load_ami_files _ _ _ _ _ Hp H1 Hk H2 Hvs _ _ Hl) as (us & Hus & Hd & Hr & Ha & Hc).
  exists us. split; [done|]. destruct Hus as [Hlen _].
  assert (SameFilesProvided us (overwritten us) = false) as Hs.
  { apply not_true_iff_false. rewrite SameFilesProvided_perm. intros Hz%Permutation_length.
    rewrite length_overwritten in Hz. lia. }
  rewrite Hs in Hr. unfold array_of in Hc.
  destruct (h !! sl_array (AdditionalFilesList (fc_FileVars fc))) as [arr|] eqn:Earr; simpl in Hc.
  - rewrite (rewrite_sources_private project _ (overwritten us)) with (arr := arr) by
      (done || apply length_overwritten || (intros Hz%Ha; lia)). by rewrite Hr.
  - exfalso. apply (f_equal length) in Hr. unfold read_slice, array_of in Hr.
    rewrite Earr, length_app, length_overwritten, length_take in Hr. simpl in Hr. lia.
Qed.

Lemma user_files_rewritten_witness :
  ∃ h fc, load_files_config one_file_config true (Some ami_files_config) initial_arrays = Ret (h, fc) ∧
    let L := AdditionalFilesList (fc_FileVars fc) in
    ∃ us, decoded [JObj [("src", JStr "/home/me/a.txt")]] us ∧
      read_slice (rewrite_sources "/src/projects/image-builder" L h) L =
        rewritten "/src/projects/image-builder" (overwritten us) <$> (us ++ overwritten us).
Proof.
  eexists _, _. split; [vm_compute; reflexivity|].
  eapply (user_files_rewritten _ one_file_config [] "additional_files_list" _ []);
    [vm_compute; reflexivity|constructor|reflexivity|constructor|discriminate|simpl; discriminate|vm_compute; reflexivity].
Defined.

(** Without a files config the defaults are rewritten in place, each once. *)
Example default_sources_rewritten :
  Source <$> read_slice (rewrite_sources "/src/ib" default_slice initial_arrays) default_slice =
  ["/src/ib/packer/ami/additional_files/bootstrap.sh"; "/src/ib/packer/ami/additional_files/logging.sh"].
Proof. vm_compute. reflexivity. Qed.
