(* ===== verification/IBConfig.v ===== *)
(** * image-builder: configurations as JSON

    Every hypervisor configuration of [builder/types.go] is a struct of strings, some of
    them with the [omitempty] tag. [Struct] states what [encoding/json] needs to know of
    such a type, its instances are the tags of the source, and the round trip of
    [json.Marshal] and [json.Unmarshal] is proved once against the class. *)
From S2P Require Import Prelude GoStrings GoJson IBTypes.
From stdpp Require Import base tactics strings list.
From Stdlib Require Import Ascii.

#[local] Arguments String.append : simpl nomatch.
Local Open Scope string_scope.
Local Open Scope list_scope.

(** The fields in the order they are printed: their JSON names and whether an empty
    one is left out; the values of a struct; the struct with given values. *)
Class Struct (A : Type) := {
  st_fields : list (string * bool);
  st_get : A → list string;
  st_make : list string → A;
}.

Class StructLaws (A : Type) `{!Struct A} := {
  st_make_get : ∀ a : A, st_make (st_get a) = a;
  st_length : ∀ a : A, length (st_get a) = length st_fields;
  st_zero : st_get (st_make []) = replicate (length st_fields) "";
  st_nodup : NoDup st_fields.*1;
  st_lower : Forall (λ n, ToLower n = n) st_fields.*1;
}.

(** Field [i] of a value list. *)
Definition fld (l : list string) (i : nat) : string := nth i l "".

(** ** The embedded groups *)
#[export] Instance IsoConfig_struct : Struct IsoConfig := {
  st_fields := [("iso_url", true); ("iso_checksum", true); ("iso_checksum_type", true)];
  st_get c := [IsoUrl c; IsoChecksum c; IsoChecksumType c];
  st_make l := mkIso (fld l 0) (fld l 1) (fld l 2) }.

#[export] Instance RhsmConfig_struct : Struct RhsmConfig := {
  st_fields := [("rhsm_server_proxy_hostname", true); ("rhsm_server_proxy_port", true);
    ("rhsm_server_hostname", true); ("rhsm_server_release_version", true);
    ("rhsm_activation_key", true); ("rhsm_org_id", true)];
  st_get c := [ProxyHostname c; ProxyPort c; ServerHostname c; ServerReleaseVersion c;
    ActivationKey c; OrgId c];
  st_make l := mkRhsm (fld l 0) (fld l 1) (fld l 2) (fld l 3) (fld l 4) (fld l 5) }.

#[export] Instance RhelConfig_struct : Struct RhelConfig := {
  st_fields := [("rhel_username", false); ("rhel_password", false)] ++ st_fields (A := RhsmConfig);
  st_get c := [RhelUsername c; RhelPassword c] ++ st_get (rhel_Rhsm c);
  st_make l := mkRhel (fld l 0) (fld l 1) (st_make (drop 2 l)) }.

#[export] Instance ProxyConfig_struct : Struct ProxyConfig := {
  st_fields := [("http_proxy", true); ("https_proxy", true); ("no_proxy", true)];
  st_get c := [HttpProxy c; HttpsProxy c; NoProxy c];
  st_make l := mkProxy (fld l 0) (fld l 1) (fld l 2) }.

#[export] Instance ExtraPackagesConfig_struct : Struct ExtraPackagesConfig := {
  st_fields := [("extra_debs", true); ("extra_repos", true); ("extra_rpms", true)];
  st_get c := [ExtraDebs c; ExtraRepos c; ExtraRpms c];
  st_make l := mkPackages (fld l 0) (fld l 1) (fld l 2) }.

#[export] Instance ExtraOverridesConfig_struct : Struct ExtraOverridesConfig := {
  st_fields := [("firstboot_custom_roles_pre", true); ("firstboot_custom_roles_post", true);
    ("node_custom_roles_pre", true); ("node_custom_roles_post", true);
    ("disable_public_repos", true); ("reenable_public_repos", true)];
  st_get c := [FirstbootCustomRolesPre c; FirstbootCustomRolesPost c; NodeCustomRolesPre c;
    NodeCustomRolesPost c; DisablePublicRepos c; ReenablePublicRepos c];
  st_make l := mkOverrides (fld l 0) (fld l 1) (fld l 2) (fld l 3) (fld l 4) (fld l 5) }.

#[export] Instance AirGappedConfig_struct : Struct AirGappedConfig := {
  st_fields := [("eksa_build_tooling_repo_url", true); ("image_builder_repo_url", true);
    ("private_artifacts_eksd_fqdn", true); ("private_artifacts_eksa_fqdn", true)];
  st_get c := [EksABuildToolingRepoUrl c; ImageBuilderRepoUrl c; PrivateServerEksDDomainUrl c;
    PrivateServerEksADomainUrl c];
  st_make l := mkAirGapped (fld l 0) (fld l 1) (fld l 2) (fld l 3) }.

(** ** The hypervisor configurations *)
#[export] Instance VsphereConfig_struct : Struct VsphereConfig := {
  st_fields := [("cluster", false); ("convert_to_template", false); ("create_snapshot", false);
    ("datacenter", false); ("datastore", false); ("folder", false);
    ("insecure_connection", false); ("linked_clone", false); ("network", false);
    ("resource_pool", false); ("template", false); ("vcenter_server", false);
    ("username", false); ("password", false)]
    ++ st_fields (A := IsoConfig) ++ st_fields (A := RhelConfig) ++ st_fields (A := ProxyConfig)
    ++ st_fields (A := ExtraPackagesConfig) ++ st_fields (A := ExtraOverridesConfig)
    ++ st_fields (A := AirGappedConfig);
  st_get c := [Cluster c; ConvertToTemplate c; CreateSnapshot c; Datacenter c; Datastore c;
    Folder c; InsecureConnection c; LinkedClone c; Network c; ResourcePool c; Template c;
    VcenterServer c; Username c; Password c]
    ++ st_get (vs_Iso c) ++ st_get (vs_Rhel c) ++ st_get (vs_Proxy c)
    ++ st_get (vs_Packages c) ++ st_get (vs_Overrides c) ++ st_get (vs_AirGapped c);
  st_make l := mkVsphere (fld l 0) (fld l 1) (fld l 2) (fld l 3) (fld l 4) (fld l 5) (fld l 6)
    (fld l 7) (fld l 8) (fld l 9) (fld l 10) (fld l 11) (fld l 12) (fld l 13)
    (st_make (drop 14 l)) (st_make (drop 17 l)) (st_make (drop 25 l)) (st_make (drop 28 l))
    (st_make (drop 31 l)) (st_make (drop 37 l)) }.

#[export] Instance BaremetalConfig_struct : Struct BaremetalConfig := {
  st_fields := st_fields (A := IsoConfig) ++ st_fields (A := RhelConfig)
    ++ st_fields (A := ProxyConfig) ++ st_fields (A := ExtraPackagesConfig)
    ++ st_fields (A := ExtraOverridesConfig) ++ st_fields (A := AirGappedConfig);
  st_get c := st_get (bm_Iso c) ++ st_get (bm_Rhel c) ++ st_get (bm_Proxy c)
    ++ st_get (bm_Packages c) ++ st_get (bm_Overrides c) ++ st_get (bm_AirGapped c);
  st_make l := mkBaremetal (st_make l) (st_make (drop 3 l)) (st_make (drop 11 l))
    (st_make (drop 14 l)) (st_make (drop 17 l)) (st_make (drop 23 l)) }.

#[export] Instance CloudstackConfig_struct : Struct CloudstackConfig := {
  st_fields := [("ansible_user_vars", false)] ++ st_fields (A := IsoConfig)
    ++ st_fields (A := RhelConfig) ++ st_fields (A := ProxyConfig)
    ++ st_fields (A := ExtraPackagesConfig) ++ st_fields (A := ExtraOverridesConfig)
    ++ st_fields (A := AirGappedConfig);
  st_get c := [AnsibleUserVars c] ++ st_get (cs_Iso c) ++ st_get (cs_Rhel c)
    ++ st_get (cs_Proxy c) ++ st_get (cs_Packages c) ++ st_get (cs_Overrides c)
    ++ st_get (cs_AirGapped c);
  st_make l := mkCloudstack (fld l 0) (st_make (drop 1 l)) (st_make (drop 4 l))
    (st_make (drop 12 l)) (st_make (drop 15 l)) (st_make (drop 18 l)) (st_make (drop 24 l)) }.

#[export] Instance NutanixConfig_struct : Struct NutanixConfig := {
  st_fields := [("nutanix_cluster_name", false); ("image_name", false); ("image_url", true);
    ("image_export", true); ("source_image_name", true); ("nutanix_endpoint", false);
    ("nutanix_insecure", false); ("nutanix_port", false); ("nutanix_username", false);
    ("nutanix_password", false); ("nutanix_subnet_name", false)]
    ++ st_fields (A := RhelConfig) ++ st_fields (A := ProxyConfig)
    ++ st_fields (A := ExtraPackagesConfig) ++ st_fields (A := ExtraOverridesConfig)
    ++ st_fields (A := AirGappedConfig);
  st_get c := [ClusterName c; ImageName c; ImageUrl c; ImageExport c; SourceImageName c;
    NutanixEndpoint c; NutanixInsecure c; NutanixPort c; NutanixUserName c; NutanixPassword c;
    NutanixSubnetName c]
    ++ st_get (nx_Rhel c) ++ st_get (nx_Proxy c) ++ st_get (nx_Packages c)
    ++ st_get (nx_Overrides c) ++ st_get (nx_AirGapped c);
  st_make l := mkNutanix (fld l 0) (fld l 1) (fld l 2) (fld l 3) (fld l 4) (fld l 5) (fld l 6)
    (fld l 7) (fld l 8) (fld l 9) (fld l 10) (st_make (drop 11 l)) (st_make (drop 19 l))
    (st_make (drop 22 l)) (st_make (drop 25 l)) (st_make (drop 31 l)) }.

#[export] Instance AMIConfig_struct : Struct AMIConfig := {
  st_fields := [("ami_filter_name", false); ("ami_filter_owners", false); ("ami_regions", false);
    ("aws_region", false); ("builder_instance_type", false); ("manifest_output", false);
    ("root_device_name", false); ("subnet_id", false); ("volume_size", false);
    ("volume_type", false)]
    ++ st_fields (A := ProxyConfig) ++ st_fields (A := ExtraPackagesConfig)
    ++ st_fields (A := ExtraOverridesConfig);
  st_get c := [AMIFilterName c; AMIFilterOwners c; AMIRegions c; AWSRegion c;
    BuilderInstanceType c; ManifestOutput c; RootDeviceName c; SubnetID c; VolumeSize c;
    VolumeType c] ++ st_get (am_Proxy c) ++ st_get (am_Packages c) ++ st_get (am_Overrides c);
  st_make l := mkAMI (fld l 0) (fld l 1) (fld l 2) (fld l 3) (fld l 4) (fld l 5) (fld l 6)
    (fld l 7) (fld l 8) (fld l 9) (st_make (drop 10 l)) (st_make (drop 13 l))
    (st_make (drop 16 l)) }.

(** ** Decoding and encoding *)
Fixpoint dec_fields (fs : list (string * bool)) (obj : list (string * json)) (old : list string)
    : option (list string) :=
  match fs, old with
  | f :: fs, o :: old =>
      x ← str_field f.1 obj o; xs ← dec_fields fs obj old; Some (x :: xs)
  | _, _ => Some []
  end.

(** A nil struct. *)
Definition zero_struct {A} `{!Struct A} : A := st_make [].

(** An object stored in a struct. *)
Definition dec_struct {A} `{!Struct A} (m : list (string * json)) (old : A) : option A :=
  st_make <$> dec_fields st_fields m (st_get old).

(** [json.Unmarshal(contents, &p)] on a pointer [p] to a struct: [null] makes it nil,
    an object fills the struct, which is allocated when [p] is nil. [None] is an
    error. *)
Definition Unmarshal_ptr {A} `{!Struct A} (contents : string) (p : option A) : option (option A) :=
  match parse contents with
  | Some JNull => Some None
  | Some (JObj m) => Some <$> dec_struct m (default zero_struct p)
  | _ => None
  end.

(** [json.Unmarshal(contents, p)] with [p] itself: [null] changes nothing. *)
Definition Unmarshal_into {A} `{!Struct A} (contents : string) (a : A) : option A :=
  match parse contents with
  | Some JNull => Some a
  | Some (JObj m) => dec_struct m a
  | _ => None
  end.

Fixpoint enc_fields (fs : list (string * bool)) (vals : list string) : list (string * string) :=
  match fs, vals with
  | (name, omit) :: fs, v :: vals =>
      (if omit && (v =s "") then [] else [(name, v)]) ++ enc_fields fs vals
  | _, _ => []
  end.

Definition members (l : list (string * string)) : list (string * json) :=
  map (λ kv, (kv.1, JStr kv.2)) l.

(** [json.Marshal] *)
Definition Marshal {A} `{!Struct A} (a : A) : string :=
  print (JObj (members (enc_fields st_fields (st_get a)))).

(** ** The instances are lawful *)
Ltac struct_laws :=
  split;
  [ intros [];
    repeat match goal with
    | c : IsoConfig |- _ => destruct c | c : RhelConfig |- _ => destruct c
    | c : RhsmConfig |- _ => destruct c | c : ProxyConfig |- _ => destruct c
    | c : ExtraPackagesConfig |- _ => destruct c | c : ExtraOverridesConfig |- _ => destruct c
    | c : AirGappedConfig |- _ => destruct c
    end; reflexivity
  | intros a; reflexivity
  | reflexivity
  | apply (bool_decide_eq_true_1 _); vm_compute; reflexivity
  | apply (bool_decide_eq_true_1 _); vm_compute; reflexivity ].

#[export] Instance VsphereConfig_laws : StructLaws VsphereConfig.
Proof. struct_laws. Qed.
#[export] Instance BaremetalConfig_laws : StructLaws BaremetalConfig.
Proof. struct_laws. Qed.
#[export] Instance CloudstackConfig_laws : StructLaws CloudstackConfig.
Proof. struct_laws. Qed.
#[export] Instance NutanixConfig_laws : StructLaws NutanixConfig.
Proof. struct_laws. Qed.
#[export] Instance AMIConfig_laws : StructLaws AMIConfig.
Proof. struct_laws. Qed.

(** ** A configuration survives being written and read back *)
Lemma dec_field_app {A} (dec : json → A → option A) name o1 o2 old :
  dec_field dec name (o1 ++ o2) old = dec_field dec name o1 old ≫= dec_field dec name o2.
Proof.
  unfold dec_field. rewrite foldl_app. destruct (foldl _ (Some old) o1); [done|].
  simpl. induction o2; simpl; done.
Qed.

Lemma str_field_absent name obj old :
  Forall (λ kv, ToLower kv.1 ≠ name) obj → str_field name obj old = Some old.
Proof.
  unfold str_field, dec_field. intros H. induction H as [|kv obj Hk H IH]; [done|]. simpl.
  apply streq_false in Hk. by rewrite Hk.
Qed.

Lemma enc_fields_names fs vals name : name ∉ fs.*1 → Forall (λ n, ToLower n = n) fs.*1 →
  Forall (λ kv : string * json, ToLower kv.1 ≠ name) (members (enc_fields fs vals)).
Proof.
  revert vals. induction fs as [|[n b] fs IH]; intros [|v vals] Hn Hl; simpl; try constructor.
  unfold members. rewrite map_app. apply Forall_app. simpl in Hn, Hl.
  apply not_elem_of_cons in Hn as [Hn Hr]. apply Forall_cons in Hl as [Hl Hls].
  split; [|by apply IH]. destruct (b && (v =s "")); simpl; [constructor|].
  repeat constructor. simpl. rewrite Hl. done.
Qed.

(** The fields [fs] are decoded from the members of [fs] among members that name none
    of them, over the empty values. *)
Lemma dec_enc_fields fs vals pre : length vals = length fs → NoDup fs.*1 →
  Forall (λ n, ToLower n = n) fs.*1 →
  Forall (λ n, Forall (λ kv : string * json, ToLower kv.1 ≠ n) pre) fs.*1 →
  dec_fields fs (pre ++ members (enc_fields fs vals)) (replicate (length fs) "") = Some vals.
Proof.
  revert vals pre. induction fs as [|[n b] fs IH]; intros [|v vals] pre Hlen Hnd Hlow Hpre;
    try done. simpl in *.
  apply NoDup_cons in Hnd as [Hn Hnd]. apply Forall_cons in Hlow as [Hl Hlow].
  apply Forall_cons in Hpre as [Hp Hpre].
  set (this := if b && (v =s "") then [] else [(n, v)]).
  assert (str_field n (pre ++ members (this ++ enc_fields fs vals)) "" = Some v) as ->.
  { unfold str_field. unfold members. rewrite map_app. fold (members (enc_fields fs vals)).
    rewrite !dec_field_app. fold (str_field n pre ""). rewrite str_field_absent by done. simpl.
    subst this. destruct (b && (v =s "")) eqn:E; simpl.
    - apply andb_true_iff in E as [_ ->%streq_true]. apply str_field_absent.
      by apply enc_fields_names.
    - unfold dec_field at 1. simpl. rewrite Hl, streq_refl. simpl.
      apply str_field_absent. by apply enc_fields_names. }
  simpl. unfold members. rewrite map_app, app_assoc. fold (members (enc_fields fs vals)).
  rewrite IH; try done; [by injection Hlen|].
  apply Forall_forall. intros x Hx. apply Forall_app.
  split; [by apply (proj1 (Forall_forall _ _) Hpre)|].
  subst this. destruct (b && (v =s "")); simpl; repeat constructor. simpl. rewrite Hl.
  by intros <-.
Qed.

(** C20: a configuration written with [json.Marshal], as [BuildImage] writes it for
    Packer, and read with [json.Unmarshal], as [ValidateInputs] reads the user's, is the
    same configuration: the omitted empty fields, the escaping and the case-insensitive
    names lose nothing. The strings are valid UTF-8, as [encoding/json] would replace other
    bytes: the model writes the bytes as they are. It holds for every configuration type of [types.go], through
    the laws of [Struct]. *)
Theorem config_roundtrip {A} `{StructLaws A} (a : A) : Unmarshal_ptr (Marshal a) None = Some (Some a).
Proof.
  unfold Unmarshal_ptr, Marshal, members. rewrite parse_print_strings. cbn [default].
  unfold dec_struct, zero_struct. simpl from_option. rewrite st_zero.
  fold (members (enc_fields st_fields (st_get a))).
  rewrite <-(app_nil_l (members _)).
  rewrite dec_enc_fields; [|apply st_length|apply st_nodup|apply st_lower|].
  - simpl. by rewrite st_make_get.
  - apply Forall_forall. intros x _. constructor.
Qed.

Definition sample_baremetal : BaremetalConfig :=
  mkBaremetal (mkIso "http://x/<rhel>.iso" "abc" "sha256") (mkRhel "u" "p" (mkRhsm "" "" "" "" "" ""))
    (mkProxy "" "" "") (mkPackages "" "a&b" "") (mkOverrides "" "" "" "" "" "") (mkAirGapped "" "" "" "").

Lemma config_roundtrip_witness :
  Unmarshal_ptr (Marshal sample_baremetal) None = Some (Some sample_baremetal).
Proof. apply config_roundtrip. Defined.
