(* ===== verification/IBValidate.v ===== *)
(** * image-builder: the build command's input validation

    [cmd/build.go]: the checks of the command-line options, the loading and the checks
    of the hypervisor configuration, and the additional files. A validation function
    returns the text of its error, if any; [log.Fatal] ends the process. The flags that
    are package variables of [cmd] are [Flags]. The text of an error that comes from a
    library stands for that library's own. *)
From S2P Require Import Prelude GoStrings World GoJson IBTypes IBFiles IBConfig.
From stdpp Require Import base tactics strings list gmap.

Local Open Scope string_scope.
Local Open Scope list_scope.

Record Flags := mkFlags {
  vSphereConfigFile : string; baremetalConfigFile : string; nutanixConfigFile : string;
  cloudstackConfigFile : string; amiConfigFile : string; additionalFilesConfigFile : string }.

(** [if err := ...; err != nil { return err }] and its fatal form. *)
Definition check {W} (err : option string) : go W unit :=
  match err with None => mret tt | Some e => fail e end.
Definition check_fatal {W} (err : option string) : go W unit :=
  match err with None => mret tt | Some _ => exit 1 end.

(** ** Checks of single options *)
Definition validateOSHypervisorCombinations (os hypervisor : string) : option string :=
  if (hypervisor =s CloudStack) && negb (os =s RedHat) then
    Some "Invalid OS type. Only redhat OS is supported for CloudStack"
  else if (hypervisor =s AMI) && negb (os =s Ubuntu) then
    Some "Invalid OS type. Only ubuntu OS is supported for AMI"
  else None.

Definition validateSupportedHypervisors (hypervisor : string) : option string :=
  if SliceContains SupportedHypervisors hypervisor then None
  else Some (hypervisor +:+ " is not supported yet. Please select one of "
             +:+ StrJoin SupportedHypervisors ",").

Definition validateOSVersion (os osVersion : string) : option string :=
  if negb (os =s RedHat) && negb (os =s Ubuntu) then Some (os +:+ " is not a supported OS.")
  else if (os =s Ubuntu) && negb (SliceContains SupportedUbuntuVersions osVersion) then
    Some (osVersion +:+ " is not a supported version of Ubuntu. Please select one of "
          +:+ StrJoin SupportedUbuntuVersions ",")
  else if (os =s RedHat) && negb (SliceContains SupportedRedHatVersions osVersion) then
    Some (osVersion +:+ " is not a supported version of Redhat. Please select one of "
          +:+ StrJoin SupportedRedHatVersions ",")
  else None.

Definition validateFirmware (firmware os osVersion hypervisor : string) : option string :=
  if firmware =s "" then None
  else if negb (SliceContains SupportedFirmwares firmware) then
    Some (firmware +:+ " is not a firmware. Please select one of " +:+ StrJoin SupportedFirmwares ",")
  else
    let efi_error :=
      if firmware =s EFI then
        if (os =s Ubuntu) && negb (SliceContains [VSphere; Baremetal] hypervisor) then
          Some "For Ubuntu, EFI firmware is only supported for OVA and Raw builds"
        else if (os =s RedHat) && negb (hypervisor =s Baremetal) then
          Some "For RedHat, EFI firmware is only supported for Raw builds"
        else if (os =s RedHat) && negb (SliceContains SupportedRedHatEfiVersions osVersion) then
          Some "Only RedHat version 9 supports EFI firmware"
        else if negb (SliceContains [RedHat; Ubuntu] os) then
          Some "EFI firmware is only support for Ubuntu and Redhat OS"
        else None
      else None in
    match efi_error with
    | Some e => Some e
    | None =>
        if (firmware =s BIOS) && (os =s Ubuntu) && (hypervisor =s Baremetal) then
          Some "Ubuntu Raw builds only support EFI firmware."
        else None
    end.

(** ** Checks of a configuration *)
Definition validateRHSM (os : string) (rhsmConfig : RhsmConfig) : option string :=
  if negb (ServerHostname rhsmConfig =s "") then
    if negb (os =s RedHat) then
      Some "RedHat Subscription Manager Config (RHSM) cannot be provided when OS is not RedHat"
    else if ServerReleaseVersion rhsmConfig =s "" then
      Some "RHSM version required when satelite server hostname is set for RHSM"
    else if (ActivationKey rhsmConfig =s "") || (OrgId rhsmConfig =s "") then
      Some "Activation key and Org ID are required to use RHSM with satellite"
    else None
  else None.

Definition validateRedhat (rhelConfig : RhelConfig) (isoUrl : string) : option string :=
  if (ServerHostname (rhel_Rhsm rhelConfig) =s "") &&
     ((RhelUsername rhelConfig =s "") || (RhelPassword rhelConfig =s "")) then
    Some (q "rhel_username" +:+ " and " +:+ q "rhel_password"
          +:+ " are required fields in config when os is redhat")
  else if isoUrl =s "" then
    Some (q "iso_url" +:+ " is a required field in config when os is redhat")
  else None.

Definition validateCustomIso (isoChecksum isoChecksumType : string) : option string :=
  if isoChecksum =s "" then
    Some ("Please provide a valid checksum for " +:+ q "iso_checksum" +:+ " when providing "
          +:+ q "iso_url")
  else if negb (isoChecksumType =s "sha256") && negb (isoChecksumType =s "sha512") then
    Some (q "iso_checksum_type"
          +:+ " is a required field when providing iso_checksum. Checksum type can be sha256 or sha512")
  else None.

Definition validateAirGapped (airgappedConfig : AirGappedConfig) (extraRepos isoUrl : string)
    : option string :=
  if EksABuildToolingRepoUrl airgappedConfig =s "" then
    Some "eksa_build_tooling_repo_url must be set when using air-gapped mode"
  else if ImageBuilderRepoUrl airgappedConfig =s "" then
    Some "image_builder_repo_url must be set when using air-gapped mode"
  else if extraRepos =s "" then
    Some "Please set extra_repos to internal os package repo when using air-gapped mode"
  else if PrivateServerEksDDomainUrl airgappedConfig =s "" then
    Some "Please set private_artifacts_eksd_fqdn to internal artifacts server's eks-d endpoint"
  else if PrivateServerEksADomainUrl airgappedConfig =s "" then
    Some "Please set private_artifacts_eksa_fqdn to internal artifacts server's eks-a endpoint"
  else if isoUrl =s "" then Some "Please provide iso_url when building in air-gapped mode"
  else None.

(** ** The options: checks, then defaults *)
Definition default_version (bo : BuildOptions) : BuildOptions :=
  let bo := if (Os bo =s Ubuntu) && (OsVersion bo =s "") then set_version "20.04" bo else bo in
  if (Os bo =s RedHat) && (OsVersion bo =s "") then set_version "8" bo else bo.

Definition default_firmware (bo : BuildOptions) : BuildOptions :=
  if Firmware bo =s "" then
    if (Os bo =s Ubuntu) && (Hypervisor bo =s Baremetal) then set_firmware EFI bo
    else set_firmware BIOS bo
  else bo.

Definition validate_options {W} (bo : BuildOptions) : go W BuildOptions :=
  _ ← when (negb (Os bo =s Ubuntu) && negb (Os bo =s RedHat)) (exit 1);
  _ ← check_fatal (validateSupportedHypervisors (Hypervisor bo));
  _ ← check_fatal (validateOSHypervisorCombinations (Os bo) (Hypervisor bo));
  _ ← when (bool_decide (AnsibleVerbosity bo < 0)%Z || bool_decide (6 < AnsibleVerbosity bo)%Z) (exit 1);
  let bo := default_version bo in
  _ ← when (negb (Hypervisor bo =s Nutanix) && negb (Hypervisor bo =s CloudStack) &&
            negb (Hypervisor bo =s Baremetal) && (Os bo =s RedHat) && negb (OsVersion bo =s "8"))
        (exit 1);
  _ ← check_fatal (validateOSVersion (Os bo) (OsVersion bo));
  _ ← check_fatal (validateFirmware (Firmware bo) (Os bo) (OsVersion bo) (Hypervisor bo));
  let bo := default_firmware bo in
  _ ← when (AirGapped bo) (
        _ ← when (ManifestTarball bo =s "") (exit 1);
        _ ← when (negb (Os bo =s Ubuntu)) (exit 1);
        when (Hypervisor bo =s AMI) (exit 1));
  mret bo.

Definition config_path (fl : Flags) (bo : BuildOptions) : string :=
  if Hypervisor bo =s VSphere then vSphereConfigFile fl
  else if Hypervisor bo =s Baremetal then baremetalConfigFile fl
  else if Hypervisor bo =s Nutanix then nutanixConfigFile fl
  else if Hypervisor bo =s CloudStack then cloudstackConfigFile fl
  else if Hypervisor bo =s AMI then amiConfigFile fl
  else "".

Definition normalize_names (bo : BuildOptions) : BuildOptions :=
  let bo := set_os_hypervisor (ToLower (Os bo)) (ToLower (Hypervisor bo)) bo in
  if negb (OsVersion bo =s "") then set_version (ReplaceAll (OsVersion bo) "." "") bo else bo.

(** ** The configuration of each hypervisor *)
Definition unmarshal {W A} (r : option A) : go W A :=
  match r with Some a => mret a | None => fail "json: cannot unmarshal" end.

(** The checks the vSphere, Baremetal and CloudStack cases share, on the groups of the
    configuration they look at. [BuildOptions] is only read. *)
Definition check_groups {W} (bo : BuildOptions) (rhel : RhelConfig) (iso : IsoConfig)
    (extraRepos : string) (ag : AirGappedConfig) : go W unit :=
  _ ← when (Os bo =s RedHat) (check (validateRedhat rhel (IsoUrl iso)));
  _ ← when (negb (IsoUrl iso =s "")) (check (validateCustomIso (IsoChecksum iso) (IsoChecksumType iso)));
  _ ← check (validateRHSM (Os bo) (rhel_Rhsm rhel));
  when (AirGapped bo) (check (validateAirGapped ag extraRepos (IsoUrl iso))).

Definition load_vsphere {W} (config : string) (bo : BuildOptions) : go W BuildOptions :=
  p ← unmarshal (Unmarshal_ptr config (bo_Vsphere bo));
  c ← deref p;
  _ ← check_groups bo (vs_Rhel c) (vs_Iso c) (ExtraRepos (vs_Packages c)) (vs_AirGapped c);
  mret (set_configs p (bo_Baremetal bo) (bo_Nutanix bo) (bo_Cloudstack bo) (bo_AMI bo) (bo_Files bo) bo).

Definition load_baremetal {W} (config : string) (bo : BuildOptions) : go W BuildOptions :=
  p ← unmarshal (Unmarshal_ptr config (bo_Baremetal bo));
  c ← deref p;
  _ ← check_groups bo (bm_Rhel c) (bm_Iso c) (ExtraRepos (bm_Packages c)) (bm_AirGapped c);
  mret (set_configs (bo_Vsphere bo) p (bo_Nutanix bo) (bo_Cloudstack bo) (bo_AMI bo) (bo_Files bo) bo).

Definition load_cloudstack {W} (config : string) (bo : BuildOptions) : go W BuildOptions :=
  p ← unmarshal (Unmarshal_ptr config (bo_Cloudstack bo));
  c ← deref p;
  _ ← check_groups bo (cs_Rhel c) (cs_Iso c) (ExtraRepos (cs_Packages c)) (cs_AirGapped c);
  mret (set_configs (bo_Vsphere bo) (bo_Baremetal bo) (bo_Nutanix bo) p (bo_AMI bo) (bo_Files bo) bo).

Definition load_nutanix {W} (config : string) (bo : BuildOptions) : go W BuildOptions :=
  p ← unmarshal (Unmarshal_ptr config (bo_Nutanix bo));
  c ← deref p;
  _ ← when (Os bo =s RedHat) (check (validateRedhat (nx_Rhel c) "Don't check IsoUrl Param"));
  _ ← when ((NutanixUserName c =s "") || (NutanixPassword c =s "")) (exit 1);
  _ ← when (AirGapped bo)
        (check (validateAirGapped (nx_AirGapped c) (ExtraRepos (nx_Packages c)) (ImageName c)));
  mret (set_configs (bo_Vsphere bo) (bo_Baremetal bo) p (bo_Cloudstack bo) (bo_AMI bo) (bo_Files bo) bo).

Definition default_ami (bo : BuildOptions) : AMIConfig :=
  mkAMI
    (if OsVersion bo =s "2204" then DefaultUbuntu2204AMIFilterName else DefaultUbuntu2004AMIFilterName)
    DefaultUbuntuAMIFilterOwners DefaultAMIBuildRegion DefaultAMIBuildRegion
    DefaultAMIBuilderInstanceType DefaultAMIManifestOutput DefaultAMIRootDeviceName ""
    DefaultAMIVolumeSize DefaultAMIVolumeType
    (mkProxy "" "" "") (mkPackages "" "" "") (mkOverrides "" "" "" "" "" "").

Definition load_ami {W} (config : string) (bo : BuildOptions) : go W BuildOptions :=
  c ← unmarshal (Unmarshal_into config (default_ami bo));
  mret (set_configs (bo_Vsphere bo) (bo_Baremetal bo) (bo_Nutanix bo) (bo_Cloudstack bo)
          (Some c) (Some ami_files_config) bo).

Definition load_hypervisor {W} (config : string) (bo : BuildOptions) : go W BuildOptions :=
  if Hypervisor bo =s VSphere then load_vsphere config bo
  else if Hypervisor bo =s Baremetal then load_baremetal config bo
  else if Hypervisor bo =s Nutanix then load_nutanix config bo
  else if Hypervisor bo =s CloudStack then load_cloudstack config bo
  else if Hypervisor bo =s AMI then load_ami config bo
  else mret bo.

(** ** ValidateInputs *)
Section validate.
Context `{HH : !Host}.

Definition Abs (path : string) : prog string :=
  if HasPrefix path "/" then mret (Clean path)
  else d ← Getwd; mret (PathJoin [d; path]).

Definition load_config (configPath : string) (bo : BuildOptions) : prog BuildOptions :=
  if configPath =s "" then
    if (Hypervisor bo =s VSphere) || ((Hypervisor bo =s Baremetal) && (Os bo =s RedHat)) ||
       (Hypervisor bo =s Nutanix) || (Hypervisor bo =s CloudStack) then
      fail (Hypervisor bo +:+ "-config is a required flag for " +:+ Hypervisor bo
            +:+ " hypervisor or when os is redhat")
    else mret bo
  else
    configPath ← wrap ("Error converting " +:+ Hypervisor bo +:+ " config file path to absolute path")
                   (Abs configPath);
    config ← wrap ("Error reading " +:+ Hypervisor bo +:+ " config file") (ReadFile configPath);
    load_hypervisor config bo.

Definition lift_outcome {A} (o : outcome A) : prog A := λ w, (o, w).

Definition load_files (fl : Flags) (h : arrays) (bo : BuildOptions) : prog (arrays * BuildOptions) :=
  if negb (additionalFilesConfigFile fl =s "") then
    filesConfig ← wrap "Error reading additional files config path"
                    (ReadFile (additionalFilesConfigFile fl));
    r ← lift_outcome (load_files_config filesConfig (bool_decide (is_Some (bo_AMI bo))) (bo_Files bo) h);
    mret (r.1, set_configs (bo_Vsphere bo) (bo_Baremetal bo) (bo_Nutanix bo) (bo_Cloudstack bo)
                 (bo_AMI bo) (Some r.2) bo)
  else mret (h, bo).

(** The options are a package variable changed in place; the arrays are the slices'
    backing store. *)
Definition ValidateInputs (fl : Flags) (h : arrays) (bo : BuildOptions)
    : prog (arrays * BuildOptions) :=
  bo ← validate_options bo;
  let configPath := config_path fl bo in
  let bo := normalize_names bo in
  bo ← load_config configPath bo;
  load_files fl h bo.
End validate.

(** ** Which options are accepted *)

(** The images that can be built: operating system, version, hypervisor, firmware. *)
Definition supported_images : list (string * string * string * string) :=
  (v ← SupportedUbuntuVersions;
   hf ← [(VSphere, BIOS); (VSphere, EFI); (Baremetal, EFI); (Nutanix, BIOS); (AMI, BIOS)];
   [(Ubuntu, v, hf.1, hf.2)]) ++
  (h ← [VSphere; Baremetal; Nutanix; CloudStack]; [(RedHat, "8", h, BIOS)]) ++
  (hf ← [(Baremetal, BIOS); (Baremetal, EFI); (Nutanix, BIOS); (CloudStack, BIOS)];
   [(RedHat, "9", hf.1, hf.2)]).

(** The options with the version and the firmware filled in. *)
Definition completed (bo : BuildOptions) : BuildOptions := default_firmware (default_version bo).

Definition image_of (bo : BuildOptions) : string * string * string * string :=
  (Os bo, OsVersion bo, Hypervisor bo, Firmware bo).

Definition accepted (bo : BuildOptions) : bool :=
  bool_decide (image_of (completed bo) ∈ supported_images) &&
  bool_decide (0 ≤ AnsibleVerbosity bo ≤ 6)%Z &&
  (negb (AirGapped bo) ||
   negb (ManifestTarball bo =s "") && (Os bo =s Ubuntu) && negb (Hypervisor bo =s AMI)).

(** The checks of the four options that name the image. *)
Definition image_checks (os version hypervisor firmware : string) : bool :=
  let version := if (os =s Ubuntu) && (version =s "") then "20.04" else version in
  let version := if (os =s RedHat) && (version =s "") then "8" else version in
  negb (negb (os =s Ubuntu) && negb (os =s RedHat)) &&
  SliceContains SupportedHypervisors hypervisor &&
  bool_decide (validateOSHypervisorCombinations os hypervisor = None) &&
  negb (negb (hypervisor =s Nutanix) && negb (hypervisor =s CloudStack) &&
        negb (hypervisor =s Baremetal) && (os =s RedHat) && negb (version =s "8")) &&
  bool_decide (validateOSVersion os version = None) &&
  bool_decide (validateFirmware firmware os version hypervisor = None).

(** The same four options looked up in the table. *)
Definition image_in_table (os version hypervisor firmware : string) : bool :=
  let version := if (os =s Ubuntu) && (version =s "") then "20.04" else version in
  let version := if (os =s RedHat) && (version =s "") then "8" else version in
  let firmware := if firmware =s "" then
      if (os =s Ubuntu) && (hypervisor =s Baremetal) then EFI else BIOS
    else firmware in
  bool_decide ((os, version, hypervisor, firmware) ∈ supported_images).

Abbreviation all_versions := ("" :: SupportedUbuntuVersions ++ SupportedRedHatVersions).
Abbreviation all_firmwares := ("" :: SupportedFirmwares).

Lemma image_checks_false os version hypervisor firmware :
  image_checks os version hypervisor firmware = true →
  os ∈ [Ubuntu; RedHat] ∧ version ∈ all_versions ∧ hypervisor ∈ SupportedHypervisors ∧
  firmware ∈ all_firmwares.
Proof.
  unfold image_checks. cbv zeta. rewrite !andb_true_iff, !bool_decide_eq_true, negb_true_iff.
  intros (((((Hos & Hhv) & _) & _) & Hv) & Hf). apply SliceContains_spec in Hhv.
  assert (os ∈ [Ubuntu; RedHat]) as Hin.
  { rewrite !elem_of_cons. destruct (os =s Ubuntu) eqn:E; [apply streq_true in E; by left|].
    destruct (os =s RedHat) eqn:E2; [apply streq_true in E2; by right; left|done]. }
  split; [done|]. split; [|split; [done|]].
  - destruct (version =s "") eqn:Ev; [apply streq_true in Ev; subst; by left|].
    rewrite !andb_false_r in Hv. cbv iota in Hv. rewrite Ev, !andb_false_r in Hv. cbv iota in Hv.
    unfold validateOSVersion in Hv. apply elem_of_cons. right. apply elem_of_app.
    apply elem_of_cons in Hin as [->|Hin]; [|apply list_elem_of_singleton in Hin; subst os].
    + change (Ubuntu =s Ubuntu) with true in Hv. change (Ubuntu =s RedHat) with false in Hv.
      cbn [andb negb] in Hv. left. rewrite <-SliceContains_spec.
      by destruct (SliceContains SupportedUbuntuVersions version).
    + change (RedHat =s Ubuntu) with false in Hv. change (RedHat =s RedHat) with true in Hv.
      cbn [andb negb] in Hv. right. rewrite <-SliceContains_spec.
      by destruct (SliceContains SupportedRedHatVersions version).
  - unfold validateFirmware in Hf. destruct (firmware =s "") eqn:Ef.
    { apply streq_true in Ef. subst. by left. }
    apply elem_of_cons. right. rewrite <-SliceContains_spec.
    by destruct (SliceContains SupportedFirmwares firmware).
Qed.

Lemma table_columns : Forall (λ r, r.1.1.1 ∈ [Ubuntu; RedHat] ∧ r.1.1.2 ∈ all_versions ∧
  r.1.2 ∈ SupportedHypervisors ∧ r.2 ∈ all_firmwares) supported_images.
Proof. apply (bool_decide_eq_true_1 _). vm_compute. reflexivity. Qed.

Lemma image_in_table_true os version hypervisor firmware :
  image_in_table os version hypervisor firmware = true →
  os ∈ [Ubuntu; RedHat] ∧ version ∈ all_versions ∧ hypervisor ∈ SupportedHypervisors ∧
  firmware ∈ all_firmwares.
Proof.
  unfold image_in_table. rewrite bool_decide_eq_true. intros Hin.
  apply (proj1 (Forall_forall _ _) table_columns) in Hin as (Hos & Hv & Hhv & Hf).
  cbn [fst snd] in *. split; [done|]. split; [|split; [done|]].
  - destruct (version =s "") eqn:E; [apply streq_true in E; subst; by left|].
    rewrite !andb_false_r in Hv. cbv iota in Hv. by rewrite E, andb_false_r in Hv.
  - destruct (firmware =s "") eqn:E; [apply streq_true in E; subst; by left|done].
Qed.

Lemma image_checks_table os version hypervisor firmware :
  image_checks os version hypervisor firmware = image_in_table os version hypervisor firmware.
Proof.
  assert (Forall (λ o, Forall (λ v, Forall (λ h, Forall (λ f,
    image_checks o v h f = image_in_table o v h f) all_firmwares) SupportedHypervisors)
    all_versions) [Ubuntu; RedHat]) as Hall
    by (apply (bool_decide_eq_true_1 _); vm_compute; reflexivity).
  assert ((os ∈ [Ubuntu; RedHat] ∧ version ∈ all_versions ∧ hypervisor ∈ SupportedHypervisors ∧
    firmware ∈ all_firmwares) → image_checks os version hypervisor firmware =
    image_in_table os version hypervisor firmware) as Hin.
  { intros (Ho & Hv & Hh & Hf). setoid_rewrite Forall_forall in Hall.
    specialize (Hall _ Ho). setoid_rewrite Forall_forall in Hall. specialize (Hall _ Hv).
    setoid_rewrite Forall_forall in Hall. specialize (Hall _ Hh).
    setoid_rewrite Forall_forall in Hall. apply (Hall _ Hf). }
  destruct (image_checks os version hypervisor firmware) eqn:E1;
    [by apply Hin, (image_checks_false os version hypervisor firmware)|].
  destruct (image_in_table os version hypervisor firmware) eqn:E2; [|done].
  by apply Hin, (image_in_table_true os version hypervisor firmware).
Qed.

Lemma when_exit_bind {W B} b (k : unit → go W B) w :
  (when b (exit 1) ≫= k) w = if negb b then k tt w else (Exit 1, w).
Proof. by destruct b. Qed.

Lemma check_fatal_bind {W B} e (k : unit → go W B) w :
  (check_fatal e ≫= k) w = if bool_decide (e = None) then k tt w else (Exit 1, w).
Proof. by destruct e. Qed.

Lemma default_version_fields bo :
  Os (default_version bo) = Os bo ∧ Hypervisor (default_version bo) = Hypervisor bo ∧
  Firmware (default_version bo) = Firmware bo ∧
  OsVersion (default_version bo) =
    (let v := if (Os bo =s Ubuntu) && (OsVersion bo =s "") then "20.04" else OsVersion bo in
     if (Os bo =s RedHat) && (v =s "") then "8" else v) ∧
  AirGapped (default_version bo) = AirGapped bo ∧
  ManifestTarball (default_version bo) = ManifestTarball bo.
Proof.
  unfold default_version. destruct ((Os bo =s Ubuntu) && (OsVersion bo =s "")); simpl;
    case_match; simpl; auto 10.
Qed.

Lemma default_firmware_fields bo :
  Os (default_firmware bo) = Os bo ∧ Hypervisor (default_firmware bo) = Hypervisor bo ∧
  OsVersion (default_firmware bo) = OsVersion bo ∧
  Firmware (default_firmware bo) =
    (if Firmware bo =s "" then
       if (Os bo =s Ubuntu) && (Hypervisor bo =s Baremetal) then EFI else BIOS
     else Firmware bo) ∧
  AirGapped (default_firmware bo) = AirGapped bo ∧
  ManifestTarball (default_firmware bo) = ManifestTarball bo.
Proof. unfold default_firmware. repeat case_match; simpl; auto 10. Qed.

Lemma image_of_completed bo : bool_decide (image_of (completed bo) ∈ supported_images) =
  image_checks (Os bo) (OsVersion bo) (Hypervisor bo) (Firmware bo).
Proof.
  rewrite image_checks_table. unfold completed, image_of, image_in_table. cbv zeta.
  destruct (default_version_fields bo) as (Eo & Eh & Ef & Ev & _).
  destruct (default_firmware_fields (default_version bo)) as (Eo' & Eh' & Ev' & Ef' & _).
  rewrite Eo', Eh', Ev', Ef', Ef, Eo, Eh, Ev. done.
Qed.

Lemma validate_options_eq {W} (bo : BuildOptions) (w : W) :
  validate_options bo w = if accepted bo then (Ret (completed bo), w) else (Exit 1, w).
Proof.
  unfold validate_options, accepted. rewrite image_of_completed. unfold image_checks, completed. cbv zeta.
  destruct (default_version_fields bo) as (Eo & Eh & Ef & Ev & Ea & Em).
  destruct (default_firmware_fields (default_version bo)) as (Eo' & Eh' & Ev' & Ef' & Ea' & Em').
  rewrite when_exit_bind. destruct (negb (negb _ && negb _)); [|done].
  rewrite check_fatal_bind.
  replace (bool_decide (validateSupportedHypervisors _ = None))
    with (SliceContains SupportedHypervisors (Hypervisor bo))
    by (unfold validateSupportedHypervisors; by destruct (SliceContains _ _)).
  destruct (SliceContains SupportedHypervisors _); [|done].
  rewrite check_fatal_bind. destruct (bool_decide (validateOSHypervisorCombinations _ _ = None)); [|done].
  rewrite when_exit_bind.
  replace (negb (bool_decide (AnsibleVerbosity bo < 0)%Z || bool_decide (6 < AnsibleVerbosity bo)%Z))
    with (bool_decide (0 ≤ AnsibleVerbosity bo ≤ 6)%Z) by (repeat case_bool_decide; simpl; lia).
  destruct (bool_decide (0 ≤ _ ≤ 6)%Z); [|by rewrite andb_false_r].
  rewrite andb_true_r, when_exit_bind, Eo, Eh, Ev. cbv zeta.
  destruct (negb (_ && _ && _ && _ && _)); [|done].
  rewrite check_fatal_bind. destruct (bool_decide (validateOSVersion _ _ = None)); [|done].
  rewrite check_fatal_bind, Ef. destruct (bool_decide (validateFirmware _ _ _ _ = None)); [|done].
  rewrite Ea', Ea, Em', Em, Eo', Eo, Eh', Eh. simpl andb.
  by destruct (AirGapped bo), (ManifestTarball bo =s ""), (Os bo =s Ubuntu), (Hypervisor bo =s AMI).
Qed.

(** C11: the option checks of [ValidateInputs] accept exactly the images of the table
    [supported_images] (after the version and the firmware are defaulted), an Ansible
    verbosity from 0 to 6 and air-gapped builds of Ubuntu images other than AMIs that
    have a manifest tarball; what they accept is returned with the defaults filled in,
    and anything else ends the process. *)
Theorem validate_options_exact {W} (bo : BuildOptions) (w : W) :
  validate_options bo w = if accepted bo then (Ret (completed bo), w) else (Exit 1, w).
Proof. apply validate_options_eq. Qed.

(** ** What an accepted configuration promises to the build *)
Definition credentials_ok (rhel : RhelConfig) : Prop :=
  ServerHostname (rhel_Rhsm rhel) = "" → RhelUsername rhel ≠ "" ∧ RhelPassword rhel ≠ "".

Definition redhat_ok (rhel : RhelConfig) (isoUrl : string) : Prop :=
  credentials_ok rhel ∧ isoUrl ≠ "".

Definition iso_ok (iso : IsoConfig) : Prop :=
  IsoUrl iso ≠ "" → IsoChecksum iso ≠ "" ∧ IsoChecksumType iso ∈ ["sha256"; "sha512"].

Definition rhsm_ok (os : string) (c : RhsmConfig) : Prop :=
  ServerHostname c ≠ "" →
  os = RedHat ∧ ServerReleaseVersion c ≠ "" ∧ ActivationKey c ≠ "" ∧ OrgId c ≠ "".

Definition airgapped_ok (ag : AirGappedConfig) (extraRepos isoUrl : string) : Prop :=
  EksABuildToolingRepoUrl ag ≠ "" ∧ ImageBuilderRepoUrl ag ≠ "" ∧ extraRepos ≠ "" ∧
  PrivateServerEksDDomainUrl ag ≠ "" ∧ PrivateServerEksADomainUrl ag ≠ "" ∧ isoUrl ≠ "".

Definition groups_ok (bo : BuildOptions) (rhel : RhelConfig) (iso : IsoConfig)
    (extraRepos : string) (ag : AirGappedConfig) : Prop :=
  (Os bo = RedHat → redhat_ok rhel (IsoUrl iso)) ∧ iso_ok iso ∧ rhsm_ok (Os bo) (rhel_Rhsm rhel) ∧
  (AirGapped bo = true → airgapped_ok ag extraRepos (IsoUrl iso)).

Ltac check_cases := repeat (case_streq; try naive_solver).

Lemma validateRedhat_ok rhel iso : validateRedhat rhel iso = None ↔ redhat_ok rhel iso.
Proof. unfold validateRedhat, redhat_ok, credentials_ok. check_cases. Qed.

Lemma validateCustomIso_ok c t :
  validateCustomIso c t = None ↔ c ≠ "" ∧ t ∈ ["sha256"; "sha512"].
Proof. unfold validateCustomIso. rewrite !elem_of_cons, elem_of_nil. check_cases. Qed.

Lemma validateRHSM_ok os c : validateRHSM os c = None ↔ rhsm_ok os c.
Proof. unfold validateRHSM, rhsm_ok. check_cases. Qed.

Lemma validateAirGapped_ok ag r i : validateAirGapped ag r i = None ↔ airgapped_ok ag r i.
Proof. unfold validateAirGapped, airgapped_ok. check_cases. Qed.

Lemma when_check_seq {W B} b e (m : go W B) w w' u :
  (when b (check e) ≫= λ _, m) w = (Ret u, w') ↔ (b = true → e = None) ∧ m w = (Ret u, w').
Proof. destruct b, e; cbv; naive_solver. Qed.

Lemma check_seq {W B} e (m : go W B) w w' u :
  (check e ≫= λ _, m) w = (Ret u, w') ↔ e = None ∧ m w = (Ret u, w').
Proof. destruct e; cbv; naive_solver. Qed.

Lemma when_check_ret {W} b e (w w' : W) u :
  when b (check e) w = (Ret u, w') ↔ (b = true → e = None) ∧ w = w'.
Proof. destruct b, e, u; cbv; naive_solver. Qed.

Lemma when_exit_ret {W} b (w w' : W) u : when b (exit 1) w = (Ret u, w') ↔ b = false ∧ w = w'.
Proof. destruct b, u; cbv; naive_solver. Qed.

(** The checks of a configuration pass exactly when it keeps these promises. *)
Lemma check_groups_ok {W} bo rhel iso er ag (w w' : W) u :
  check_groups bo rhel iso er ag w = (Ret u, w') ↔ groups_ok bo rhel iso er ag ∧ w = w'.
Proof.
  unfold check_groups, groups_ok, iso_ok.
  rewrite !when_check_seq, check_seq, when_check_ret, validateRedhat_ok, validateCustomIso_ok,
    validateRHSM_ok, validateAirGapped_ok, negb_true_iff, streq_true, streq_false. tauto.
Qed.

(** The options as the command starts with them: no configuration is loaded. *)
Definition no_config (bo : BuildOptions) : Prop :=
  bo_Vsphere bo = None ∧ bo_Baremetal bo = None ∧ bo_Nutanix bo = None ∧ bo_Cloudstack bo = None ∧
  bo_AMI bo = None ∧ bo_Files bo = None.

(** What [BuildImage] finds in the options of each hypervisor. *)
Definition config_ready (bo : BuildOptions) : Prop :=
  (Hypervisor bo = VSphere → ∃ c, bo_Vsphere bo = Some c ∧
     groups_ok bo (vs_Rhel c) (vs_Iso c) (ExtraRepos (vs_Packages c)) (vs_AirGapped c)) ∧
  (Hypervisor bo = Baremetal →
     bo_Baremetal bo = None ∧ Os bo = Ubuntu ∨
     ∃ c, bo_Baremetal bo = Some c ∧
       groups_ok bo (bm_Rhel c) (bm_Iso c) (ExtraRepos (bm_Packages c)) (bm_AirGapped c)) ∧
  (Hypervisor bo = CloudStack → ∃ c, bo_Cloudstack bo = Some c ∧
     groups_ok bo (cs_Rhel c) (cs_Iso c) (ExtraRepos (cs_Packages c)) (cs_AirGapped c)) ∧
  (Hypervisor bo = Nutanix → ∃ c, bo_Nutanix bo = Some c ∧
     NutanixUserName c ≠ "" ∧ NutanixPassword c ≠ "" ∧
     (Os bo = RedHat → credentials_ok (nx_Rhel c)) ∧
     (AirGapped bo = true → airgapped_ok (nx_AirGapped c) (ExtraRepos (nx_Packages c)) (ImageName c))).

Ltac other_hypervisor := let H := fresh in intros H; discriminate H.

Section ready.
Context {W : Type}.
Implicit Types (bo : BuildOptions) (w : W).

(** The options other than the configurations. *)
Definition same_options bo bo' : Prop :=
  Os bo' = Os bo ∧ OsVersion bo' = OsVersion bo ∧ Hypervisor bo' = Hypervisor bo ∧
  AirGapped bo' = AirGapped bo ∧ Firmware bo' = Firmware bo.

Lemma unmarshal_ret {A} (r : option A) w a w' : unmarshal r w = (Ret a, w') → r = Some a ∧ w' = w.
Proof. destruct r; cbv; naive_solver. Qed.

Lemma load_hypervisor_ready config bo w bo' w' : load_hypervisor config bo w = (Ret bo', w') →
  same_options bo bo' ∧ config_ready bo'.
Proof.
  unfold load_hypervisor, load_vsphere, load_baremetal, load_nutanix, load_cloudstack, load_ami.
  unfold config_ready.
  destruct (Hypervisor bo =s VSphere) eqn:E1; [|destruct (Hypervisor bo =s Baremetal) eqn:E2;
    [|destruct (Hypervisor bo =s Nutanix) eqn:E3; [|destruct (Hypervisor bo =s CloudStack) eqn:E4;
      [|destruct (Hypervisor bo =s AMI) eqn:E5]]]]; intros H; go_inv H.
  - apply unmarshal_ret in Hm as [Hm ->]. apply deref_ret in Hm0 as [-> <-].
    apply check_groups_ok in Hm1 as [Hg ->].
    apply streq_true in E1. split; [done|]. simpl. rewrite E1.
    repeat apply conj; try other_hypervisor. intros _. eexists. split; [done|exact Hg].
  - apply unmarshal_ret in Hm as [Hm ->]. apply deref_ret in Hm0 as [-> <-].
    apply check_groups_ok in Hm1 as [Hg ->].
    apply streq_true in E2. split; [done|]. simpl. rewrite E2.
    repeat apply conj; try other_hypervisor. intros _. right. eexists. split; [done|exact Hg].
  - apply unmarshal_ret in Hm as [Hm ->]. apply deref_ret in Hm0 as [-> <-].
    apply when_check_ret in Hm1 as [Hr ->].
    apply when_check_ret in Hm3 as [Ha ->]. apply streq_true in E3.
    rewrite streq_true, validateRedhat_ok in Hr. rewrite validateAirGapped_ok in Ha.
    rewrite when_exit_ret, orb_false_iff, !streq_false in Hm2. destruct Hm2 as [[Hu Hp] ->].
    split; [done|]. simpl. rewrite E3. repeat apply conj; try other_hypervisor. intros _.
    eexists. split; [done|]. split; [done|]. split; [done|]. split; [|done]. intros Ho. by apply Hr.
  - apply unmarshal_ret in Hm as [Hm ->]. apply deref_ret in Hm0 as [-> <-].
    apply check_groups_ok in Hm1 as [Hg ->].
    apply streq_true in E4. split; [done|]. simpl. rewrite E4.
    repeat apply conj; try other_hypervisor. intros _. eexists. split; [done|exact Hg].
  - apply streq_true in E5. split; [done|]. simpl. rewrite E5.
    repeat apply conj; other_hypervisor.
  - split; [done|]. apply streq_false in E1, E2, E3, E4. tauto.
Qed.
End ready.

Section validated.
Context `{HH : !Host}.

Lemma validate_options_ret {W} bo (w : W) bo' w' : validate_options bo w = (Ret bo', w') →
  accepted bo = true ∧ bo' = completed bo ∧ w' = w.
Proof. rewrite validate_options_eq. destruct (accepted bo); naive_solver. Qed.

Lemma load_config_ready path bo w bo' w' : no_config bo → Os bo ∈ [Ubuntu; RedHat] →
  load_config path bo w = (Ret bo', w') → same_options bo bo' ∧ config_ready bo'.
Proof.
  intros (Hvs & Hbm & Hnx & Hcs & _) Hos. unfold load_config. destruct (path =s "").
  - destruct ((_ || _) || _) eqn:E; intros H; [done|]. apply mret_ret in H as [<- <-].
    split; [done|]. rewrite !orb_false_iff, andb_false_iff, !streq_false in E.
    destruct E as [[[E1 E2] E3] E4]. unfold config_ready.
    repeat apply conj; try done. intros Hb. left. split; [done|].
    destruct E2 as [E2|E2]; [done|]. rewrite !elem_of_cons, elem_of_nil in Hos. tauto.
  - intros H. go_inv H. by apply load_hypervisor_ready in H.
Qed.

Lemma load_files_ready fl h bo w h' bo' w' : load_files fl h bo w = (Ret (h', bo'), w') →
  same_options bo bo' ∧ (config_ready bo → config_ready bo').
Proof.
  unfold load_files. destruct (negb _); intros H.
  - do 2 (apply bind_ret_inv in H as (? & ? & _ & H)). apply mret_ret in H as [[= <- <-] _]. done.
  - apply mret_ret in H as [[= <- <-] _]. done.
Qed.

Lemma no_config_completed bo : no_config bo → no_config (completed bo).
Proof.
  assert (∀ b, no_config b → no_config (default_firmware b)) as Hf
    by (intros b Hb; unfold default_firmware; repeat case_match; exact Hb).
  intros H. apply Hf. unfold default_version.
  destruct ((Os bo =s Ubuntu) && (OsVersion bo =s "")); case_match; exact H.
Qed.

Lemma supported_lower : Forall (λ r, ToLower r.1.1.1 = r.1.1.1 ∧ ToLower r.1.2 = r.1.2 ∧
  r.1.1.1 ∈ [Ubuntu; RedHat] ∧ r.1.1.2 ≠ "") supported_images.
Proof. apply (bool_decide_eq_true_1 _). vm_compute. reflexivity. Qed.

(** C5: when [ValidateInputs] returns, the image is a supported one, the operating
    system, the hypervisor and the firmware are those of the completed options, the
    version has lost its dots, and the configuration of the hypervisor is loaded and
    keeps every promise of [config_ready]: only an Ubuntu bare-metal build (and an AMI
    build) may go on without a configuration. *)
Theorem validated_inputs fl h bo w h' bo' w' : no_config bo →
  ValidateInputs fl h bo w = (Ret (h', bo'), w') →
  image_of (completed bo) ∈ supported_images ∧
  (Os bo', OsVersion bo', Hypervisor bo', Firmware bo') =
    (Os bo, ReplaceAll (OsVersion (completed bo)) "." "", Hypervisor bo, Firmware (completed bo)) ∧
  config_ready bo'.
Proof.
  intros Hno H. unfold ValidateInputs in H. go_inv H.
  apply validate_options_ret in Hm as (Hacc & -> & ->).
  unfold accepted in Hacc. rewrite !andb_true_iff, !bool_decide_eq_true in Hacc.
  destruct Hacc as [[Himg _] _].
  destruct (proj1 (Forall_forall _ _) supported_lower _ Himg) as (Hlo & Hlh & Hos & Hv).
  cbn [image_of fst snd] in Hlo, Hlh, Hos, Hv.
  set (bn := normalize_names (completed bo)) in *.
  assert (Os bn = Os (completed bo) ∧ Hypervisor bn = Hypervisor (completed bo) ∧
    OsVersion bn = ReplaceAll (OsVersion (completed bo)) "." "" ∧
    Firmware bn = Firmware (completed bo) ∧ no_config bn) as (Eo & Eh & Ev & Ef & Hnn).
  { unfold bn, normalize_names. cbn [OsVersion set_os_hypervisor]. apply streq_false in Hv. rewrite Hv.
    cbn [negb Os OsVersion Hypervisor Firmware set_version set_os_hypervisor].
    rewrite Hlo, Hlh. do 4 (split; [done|]). exact (no_config_completed bo Hno). }
  apply load_config_ready in Hm0 as [(So & Sv & Sh & _ & Sf) Hready]; [|done|by rewrite Eo].
  destruct (default_version_fields bo) as (Fo & Fh & _).
  destruct (default_firmware_fields (default_version bo)) as (Fo' & Fh' & _).
  split; [done|].
  apply load_files_ready in H as [(So' & Sv' & Sh' & _ & Sf') Hready']. split; [|by apply Hready'].
  rewrite So', Sv', Sh', Sf', So, Sv, Sh, Sf, Eo, Eh, Ev, Ef. unfold completed. by rewrite Fo', Fh', Fo, Fh.
Qed.
End validated.

(** Bare metal on Ubuntu, with no configuration file. *)
Definition ubuntu_raw (air_gapped : bool) : BuildOptions :=
  mkBuildOptions Ubuntu "" "" Baremetal None None None None None None "1-27" false air_gapped
    "/tmp/eks-a-manifests.tar" "" 0 "".

Lemma validated_inputs_witness :
  ∃ bo', image_of (completed (ubuntu_raw true)) ∈ supported_images ∧
  (Os bo', OsVersion bo', Hypervisor bo', Firmware bo') =
    (Ubuntu, ReplaceAll (OsVersion (completed (ubuntu_raw true))) "." "", Baremetal,
     Firmware (completed (ubuntu_raw true))) ∧
  config_ready bo'.
Proof.
  eexists. eapply (validated_inputs (HH := plain_host) (mkFlags "" "" "" "" "" "") initial_arrays
    (ubuntu_raw true) empty_world); [repeat split|vm_compute; reflexivity].
Defined.
