(* ===== verification/IBUtils.v ===== *)
(** * image-builder: helpers of the builder

    [builder/utils.go]: the build-tooling repository, the release and bundle manifests,
    downloads, the proxy of the subscription manager and tarballs. The YAML parsers and
    the manifest types of eks-anywhere and eks-distro are other repositories: the types
    here have the fields the code reads, and the parsers are the class [Yaml]. The
    layout of a tar archive is the class [Tar], with what [archive/tar] documents. *)
From S2P Require Import Prelude GoStrings World GoJson GoUrl IBTypes.
From stdpp Require Import base tactics strings list gmap sorting.
From Stdlib Require Import Ascii.

Local Open Scope string_scope.
Local Open Scope list_scope.

(** ** Manifests *)
Record EksARelease := mkEksARelease { r_Version : string; BundleManifestUrl : string }.
Record Release := mkRelease { LatestVersion : string; Releases : list EksARelease }.

Record EksDBundle := mkEksDBundle {
  GitCommit : string; EksDReleaseUrl : string;
  Containerd_URI : string; Crictl_URI : string; Etcdadm_URI : string }.
Record VersionsBundle := mkVersionsBundle { KubeVersion : string; EksD : EksDBundle }.
Record Bundles := mkBundles { VersionsBundles : list VersionsBundle }.

Record EksDRelease := mkEksDRelease { Branch : string; Number : string; d_KubeVersion : string }.
Record EksDReleases := mkEksDReleases { d_Releases : list EksDRelease }.

Record Asset := mkAsset { a_Name : string; Archive : option string (* its URI *) }.
Record Component := mkComponent { c_Name : string; GitTag : string; Assets : list Asset }.
Record EksDManifest := mkEksDManifest { Components : list Component }.

Class Yaml := {
  yaml_release : string → option Release;
  yaml_bundles : string → option Bundles;
  yaml_eksd_releases : string → option EksDReleases;
  yaml_eksd_manifest : string → option EksDManifest;
  yaml_file_vars : string → list AdditionalFile → string;  (* [yaml.Marshal] *)
}.

(** An archive: names, modes and contents; [tar_decode] also says how reading ends,
    with [None] for a damaged archive. *)
Record tar_entry := mkEntry { te_name : string; te_mode : Z; te_content : string }.

Class Tar := {
  tar_encode : list tar_entry → string;
  tar_decode : string → list tar_entry * option string;
}.

(** What [archive/tar] promises of an archive it wrote. *)
Class TarLaws `{!Tar} : Prop := {
  tar_decode_encode : ∀ es, tar_decode (tar_encode es) = (es, None);
}.

(** The order in which Go visits a map is unspecified; it visits every entry once. *)
Class MapOrder := { range_map : World → gmap string string → list (string * string) }.
Class MapOrderLaws `{!MapOrder} : Prop := {
  range_map_perm : ∀ w m, range_map w m ≡ₚ map_to_list m;
}.

(** Package variables: two are set by the linker, [codebuild] is read from the
    environment when the program starts. *)
Record BuildVars := mkBuildVars {
  eksaVersion : string; eksaReleaseManifest : string; codebuild : string }.

Section utils.
Context `{HH : !Host} `{HY : !Yaml} `{HT : !Tar} `{HM : !MapOrder} (bv : BuildVars).

(** ** Commands *)
Definition execCommandWithStreamOutput (env argv : list string) : prog unit :=
  r ← exec_env env argv;
  match r.1 with
  | None => mret tt
  | Some err => fail ("failed to run command: " +:+ err)
  end.

Definition execCommand (argv : list string) : prog string :=
  r ← exec argv;
  match r.1 with
  | None => mret (TrimSpace r.2)
  | Some err => fail ("failed to run command: " +:+ err)
  end.

Definition executeMakeBuildCommand (buildCommand : string) (envVars : list string) : prog unit :=
  execCommandWithStreamOutput envVars ["bash"; "-c"; buildCommand].

Definition cleanup (buildToolingDir : string) : prog unit :=
  if codebuild bv =s "true" then mret tt else fatal_on_err (RemoveAll buildToolingDir).

(** ** Paths *)
Definition getBuildToolingPath (cwd : string) : prog string :=
  if codebuild bv =s "true" then Getenv codebuildSourceDirectoryEnvVar
  else mret (PathJoin [cwd; "eks-anywhere-build-tooling"]).

Definition getRepoRoot : prog string :=
  cwd ← wrap "error retrieving current working directory" Getwd;
  buildToolingPath ← getBuildToolingPath cwd;
  execCommand ["git"; "-C"; buildToolingPath; "rev-parse"; "--show-toplevel"].

Definition getManifestRoot : prog string :=
  cwd ← wrap "error retrieving current working directory" Getwd;
  mret (PathJoin [cwd; manifestsDirName]).

(** ** The build-tooling repository *)
Definition getBuildToolingRepoUrl (bo : BuildOptions) : prog string :=
  if AirGapped bo then
    if Hypervisor bo =s VSphere then
      c ← deref (bo_Vsphere bo); mret (EksABuildToolingRepoUrl (vs_AirGapped c))
    else if Hypervisor bo =s Baremetal then
      c ← deref (bo_Baremetal bo); mret (EksABuildToolingRepoUrl (bm_AirGapped c))
    else if Hypervisor bo =s Nutanix then
      c ← deref (bo_Nutanix bo); mret (EksABuildToolingRepoUrl (nx_AirGapped c))
    else if Hypervisor bo =s CloudStack then
      c ← deref (bo_Cloudstack bo); mret (EksABuildToolingRepoUrl (cs_AirGapped c))
    else mret buildToolingRepoUrl
  else mret buildToolingRepoUrl.

Definition cloneRepo (cloneUrl destination : string) : prog unit :=
  execCommandWithStreamOutput [] ["bash"; "-c"; "git clone " +:+ cloneUrl +:+ " " +:+ destination].

Definition checkoutRepo (gitRoot commit : string) : prog unit :=
  execCommandWithStreamOutput [] ["bash"; "-c"; "git -C " +:+ gitRoot +:+ " checkout " +:+ commit].

Definition GetSupportedReleaseBranches : prog (list string) :=
  buildToolingPath ← fatal_on_err getRepoRoot;
  data ← recover (ReadFile (PathJoin [buildToolingPath; supportedReleaseBranchesFileName]))
           (λ _, mret "");
  mret (Split data nl).

Definition getEksDReleaseBranchesWithNumber : prog (gmap string string) :=
  buildToolingPath ← fatal_on_err getRepoRoot;
  data ← recover (ReadFile (PathJoin [buildToolingPath; eksDLatestReleasesFileName])) (λ _, mret "");
  match yaml_eksd_releases data with
  | None => fail "unmarshalling EKSD_LATEST_RELEASES file"
  | Some d => mret (foldl (λ m r, <[Branch r := Number r]> m) ∅ (d_Releases d))
  end.

(** ** Downloads: the status of the answer is not looked at *)
Definition downloadFile (path url : string) : prog unit :=
  resp ← HttpGet url;
  let dirs := Dir path in
  st ← Stat dirs;
  _ ← match st with StatNotExist => ignore_err (MkdirAll dirs) | _ => mret tt end;
  _ ← Create path;
  WriteFile path resp.2 438.

Definition readFileFromURL (url : string) : prog string :=
  resp ← wrap ("failed reading file from URL [" +:+ url +:+ "]") (HttpGet url);
  mret resp.2.

(** ** Manifest URLs and the bundle of a release *)
Definition getEksAReleasesManifestURL (airgapped : bool) : prog string :=
  dev ← Getenv eksaUseDevReleaseEnvVar;
  if negb (dev =s "true") then
    if negb (eksaReleaseManifest bv =s "") then mret (eksaReleaseManifest bv)
    else if airgapped then
      recover (manifestRoot ← getManifestRoot;
               mret ("file://" +:+ manifestRoot +:+ "/" +:+ eksAnywhereManifestFileName))
        (λ _, mret "")
    else mret prodEksaReleaseManifestURL
  else
    branch ← LookupEnv branchNameEnvVar;
    let branchName := default mainBranch branch in
    if negb (branchName =s mainBranch) then mret (devBranchEksaReleaseManifestURL branchName)
    else mret devEksaReleaseManifestURL.

Definition getAirGapCmdEnvVars (cloneUrl eksAVersion eksDReleaseBranch : string) : prog (list string) :=
  manifestRoot ← getManifestRoot;
  let manifestRoot := "file://" +:+ manifestRoot in
  let eksABundlesFilePath := PathJoin [manifestRoot; eksAnywhereBundlesFileName eksAVersion] in
  let eksDManifestFilePath := PathJoin [manifestRoot; eksDistroManifestFileName eksDReleaseBranch] in
  mret [eksABundlesURLEnvVar +:+ "=" +:+ eksABundlesFilePath;
        eksDManifestURLEnvVar +:+ "=" +:+ eksDManifestFilePath;
        cloneUrlEnvVar +:+ "=" +:+ cloneUrl].

(** Which EKS-A version is asked for. *)
Definition requested_version (dev : string) (bo : BuildOptions) (releases : Release) : string :=
  if dev =s "true" then LatestVersion releases
  else if negb (EKSAReleaseVersion bo =s "") then EKSAReleaseVersion bo
  else if negb (eksaVersion bv =s "") then eksaVersion bv
  else LatestVersion releases.

(** The first release that satisfies a condition. *)
Fixpoint first_release (f : EksARelease → bool) (l : list EksARelease) : option EksARelease :=
  match l with
  | [] => None
  | r :: l => if f r then Some r else first_release f l
  end.

(** An exact match, else a release whose version contains the one asked for. *)
Definition find_release (version : string) (l : list EksARelease) : option EksARelease :=
  match first_release (λ r, r_Version r =s version) l with
  | Some r => Some r
  | None => first_release (λ r, Contains (r_Version r) version) l
  end.

Definition getBundle (bo : BuildOptions) : prog (Bundles * string) :=
  manifestDirPath ← getManifestRoot;
  eksAReleasesManifestURL ← getEksAReleasesManifestURL (AirGapped bo);
  releasesManifestContents ←
    (if negb (ManifestTarball bo =s "")
     then ReadFile (PathJoin [manifestDirPath; eksAnywhereManifestFileName])
     else readFileFromURL eksAReleasesManifestURL);
  match yaml_release releasesManifestContents with
  | None => fail ("failed to unmarshal release manifest from [" +:+ eksAReleasesManifestURL +:+ "]")
  | Some releases =>
      dev ← Getenv eksaUseDevReleaseEnvVar;
      let eksAReleaseVersion := requested_version dev bo releases in
      match find_release eksAReleaseVersion (Releases releases) with
      | None => fail ("version " +:+ eksAReleaseVersion +:+ " is not a valid EKS-A release")
      | Some r =>
          bundleManifestContents ←
            (if ManifestTarball bo =s "" then readFileFromURL (BundleManifestUrl r)
             else ReadFile (PathJoin [manifestDirPath; eksAnywhereBundlesFileName eksAReleaseVersion]));
          match yaml_bundles bundleManifestContents with
          | None => fail ("failed to unmarshal bundles manifest from [" +:+ BundleManifestUrl r +:+ "]")
          | Some bundles => mret (bundles, eksAReleaseVersion)
          end
      end
  end.

Definition getGitCommitFromBundle (bo : BuildOptions) : prog (string * string) :=
  b ← getBundle bo;
  first ← index (VersionsBundles b.1) 0;
  mret (GitCommit (EksD first), b.2).

Definition prepBuildToolingRepo (buildToolingRepoPath : string) (bo : BuildOptions)
    : prog (Bundles * string) :=
  _ ← when (Force bo) (cleanup buildToolingRepoPath);
  b ← wrap "Error getting git commit from bundle" (getBundle bo);
  first ← index (VersionsBundles b.1) 0;
  let gitCommitFromBundle := GitCommit (EksD first) in
  _ ← when (negb (codebuild bv =s "true")) (
        repoUrl ← getBuildToolingRepoUrl bo;
        _ ← wrap "Error cloning build tooling repo" (cloneRepo repoUrl buildToolingRepoPath);
        wrap ("Error checking out build tooling repo at commit " +:+ gitCommitFromBundle)
          (checkoutRepo buildToolingRepoPath gitCommitFromBundle));
  mret b.

(** ** Tarballs *)

(** The paths [filepath.Walk] visits, in lexical order. *)
Definition walk_paths (fs : gmap string node) (path : string) : list string :=
  merge_sort str_le (filter (λ p, under path p = true) (map_to_list fs).*1).

(** The walk writes the header of each file, which keeps its base name only, and then
    its contents; it ends at the first file that cannot be opened. The flag says that
    contents announced by a header are missing. *)
Fixpoint walk_files (paths : list string) (acc : list tar_entry) : prog (list tar_entry * bool) :=
  match paths with
  | [] => mret (acc, false)
  | p :: paths =>
      w ← get;
      match w_fs w !! p with
      | Some (File c m) =>
          r ← recover (c ← ReadFile p; mret (Some c)) (λ _, mret None);
          match r with
          | Some c => walk_files paths (acc ++ [mkEntry (Base p) m c])
          | None => mret (acc ++ [mkEntry (Base p) m ""], negb (c =s ""))
          end
      | _ => walk_files paths acc
      end
  end.

(** The walk's own error is dropped; closing an archive with missing contents panics. *)
Definition createTarball (fileName path : string) : prog unit :=
  _ ← recover (Create fileName) panic;
  w ← get;
  r ← walk_files (walk_paths (w_fs w) path) [];
  if r.2 : bool then panic "archive/tar: missed writing bytes"
  else recover (WriteFile fileName (tar_encode r.1) 438) panic.

Definition replaceStringInFile (filePath oldString newString : string) : prog unit :=
  fileContents ← ReadFile filePath;
  let replacedString := ReplaceAll fileContents oldString newString in
  _ ← Remove filePath;
  WriteFile filePath replacedString 493.
End utils.

(** ** The proxy of the subscription manager *)
Definition parseUrl (endpoint : string) : option (string * string) :=
  u ← Parse endpoint; SplitHostPort (UrlHost u).

Definition setRhsmProxy (proxy : ProxyConfig) (rhsm : RhsmConfig) : option RhsmConfig :=
  if negb (NoProxy proxy =s "") && SliceContains (Split (NoProxy proxy) ",") (ServerHostname rhsm)
  then Some rhsm
  else if negb (HttpProxy proxy =s "") then
    hp ← parseUrl (HttpProxy proxy);
    Some (mkRhsm hp.1 hp.2 (ServerHostname rhsm) (ServerReleaseVersion rhsm) (ActivationKey rhsm)
            (OrgId rhsm))
  else Some rhsm.

(** ** Which release a version selects *)
Lemma first_release_Some f l r : first_release f l = Some r ↔
  ∃ l1 l2, l = l1 ++ r :: l2 ∧ f r = true ∧ Forall (λ x, f x = false) l1.
Proof.
  induction l as [|x l IH]; simpl.
  - split; [done|]. intros ([|] & ? & ? & ?); done.
  - destruct (f x) eqn:E.
    + split; [intros [= ->]; by exists [], l|].
      intros ([|y l1] & l2 & Hl & Hr & HF); simplify_eq/=; [done|].
      apply Forall_cons in HF as [HF _]. congruence.
    + rewrite IH. split.
      * intros (l1 & l2 & -> & Hr & HF). exists (x :: l1), l2. by rewrite Forall_cons.
      * intros ([|y l1] & l2 & Hl & Hr & HF); simplify_eq/=; [congruence|].
        apply Forall_cons in HF as [_ HF]. eauto.
Qed.

Lemma first_release_None f l : first_release f l = None ↔ Forall (λ x, f x = false) l.
Proof.
  induction l as [|x l IH]; simpl; [by split|]. rewrite Forall_cons, <-IH.
  destruct (f x); naive_solver.
Qed.

(** A release whose version has the given text in it, anywhere. *)
Definition mentions (version : string) (r : EksARelease) : Prop :=
  ∃ before after, r_Version r = before +:+ version +:+ after.

(** C29: the release [getBundle] takes for a version is the first one with exactly that
    version; when there is none, the first one whose version has it somewhere in it (not
    only at its start, as the comment in the code says); and there is an error only
    when no release mentions it. *)
Theorem find_release_spec version l :
  match find_release version l with
  | Some r => ∃ l1 l2, l = l1 ++ r :: l2 ∧
      (r_Version r = version ∧ Forall (λ x, r_Version x ≠ version) l1 ∨
       Forall (λ x, r_Version x ≠ version) l ∧ mentions version r ∧ Forall (λ x, ¬ mentions version x) l1)
  | None => Forall (λ x, ¬ mentions version x) l
  end.
Proof.
  assert (∀ k, Forall (λ x, Contains (r_Version x) version = false) k →
    Forall (λ x, ¬ mentions version x) k) as Hm.
  { intros k Hk. eapply Forall_impl; [exact Hk|]. intros x Hx Hz%Contains_spec. congruence. }
  assert (∀ k, Forall (λ x, (r_Version x =s version) = false) k →
    Forall (λ x, r_Version x ≠ version) k) as He.
  { intros k Hk. eapply Forall_impl; [exact Hk|]. intros x. apply streq_false. }
  unfold find_release. destruct (first_release (λ r, r_Version r =s version) l) as [r|] eqn:E1.
  - apply first_release_Some in E1 as (l1 & l2 & -> & Hr%streq_true & HF). exists l1, l2. eauto.
  - apply first_release_None in E1.
    destruct (first_release (λ r, Contains (r_Version r) version) l) as [r|] eqn:E2.
    + apply first_release_Some in E2 as (l1 & l2 & -> & Hr%Contains_spec & HF). exists l1, l2.
      split; [done|]. right. split; [by apply He|]. split; [done|by apply Hm].
    + apply first_release_None in E2. auto.
Qed.

(** The development release of the code's comment, and one that a prefix match would
    not take. *)
Example find_release_ex :
  let rs := [mkEksARelease "v0.0.0-dev+build.7423" "u1"; mkEksARelease "v0.15.0" "u2";
             mkEksARelease "v0.15" "u3"] in
  (BundleManifestUrl <$> find_release "v0.15" rs, BundleManifestUrl <$> find_release "v0.0.0-dev" rs,
   BundleManifestUrl <$> find_release "build.7423" rs, BundleManifestUrl <$> find_release "" rs)
  = (Some "u3", Some "u1", Some "u1", Some "u1").
Proof. vm_compute. reflexivity. Qed.

(** ** The subscription manager's proxy *)

Lemma parseUrl_address scheme user host port tail :
  plain_address scheme user tail → all_of unreserved host = true → all_of is_digit port = true →
  parseUrl (proxy_address scheme user (host +:+ ":" +:+ port) tail) = Some (host, port) ∧
  parseUrl (proxy_address scheme user host tail) = None.
Proof.
  intros Ha Hh Hp.
  assert (all_of hostport_byte host = true) as Hh'.
  { revert Hh. apply all_of_impl, class_impl. vm_compute. reflexivity. }
  assert (all_of hostport_byte (host +:+ ":" +:+ port) = true) as Hall.
  { rewrite !all_of_app, Hh'. cbn [andb all_of]. revert Hp. apply all_of_impl, class_impl. vm_compute. reflexivity. }
  assert (cut_last ":" host = None) as Hn by (by apply cut_last_none, (lacks_of unreserved)).
  unfold parseUrl. split.
  - pose proof (Parse_address scheme user (host +:+ ":" +:+ port) tail Ha Hall) as H.
    rewrite cut_last_some in H by (by apply (lacks_of is_digit)). specialize (H Hp).
    destruct (Parse _) as [u|]; [|done]. injection H as H. cbn [mbind option_bind]. rewrite H.
    by apply SplitHostPort_plain.
  - pose proof (Parse_address scheme user host tail Ha Hh') as H. rewrite Hn in H. specialize (H I).
    destruct (Parse _) as [u|]; [|done]. injection H as H. cbn [mbind option_bind]. rewrite H.
    unfold SplitHostPort. by rewrite Hn.
Qed.

(** When the satellite is reached without the proxy. *)
Definition no_proxy_for (proxy : ProxyConfig) (rhsm : RhsmConfig) : bool :=
  bool_decide (NoProxy proxy ≠ "" ∧ ServerHostname rhsm ∈ Split (NoProxy proxy) ",").

(** C32: [setRhsmProxy] changes nothing but the proxy of the subscription manager. It leaves
    the configuration alone when the satellite's host name is an entry of [no_proxy] or no
    HTTP proxy is given. Otherwise it stores the host and the port of an HTTP proxy
    [scheme://host:port], with or without a user and a final slash, and fails for such a
    proxy without a port. *)
Theorem setRhsmProxy_spec proxy rhsm :
  (no_proxy_for proxy rhsm = true ∨ HttpProxy proxy = "" → setRhsmProxy proxy rhsm = Some rhsm) ∧
  (no_proxy_for proxy rhsm = false → ∀ scheme user host port tail,
    plain_address scheme user tail → all_of unreserved host = true → all_of is_digit port = true →
    (HttpProxy proxy = proxy_address scheme user (host +:+ ":" +:+ port) tail →
     setRhsmProxy proxy rhsm =
       Some (mkRhsm host port (ServerHostname rhsm) (ServerReleaseVersion rhsm) (ActivationKey rhsm) (OrgId rhsm))) ∧
    (HttpProxy proxy = proxy_address scheme user host tail → setRhsmProxy proxy rhsm = None)).
Proof.
  assert (negb (NoProxy proxy =s "") && SliceContains (Split (NoProxy proxy) ",") (ServerHostname rhsm) =
    no_proxy_for proxy rhsm) as E.
  { symmetry. apply eq_bool_prop_intro. unfold no_proxy_for.
    by rewrite bool_decide_spec, Is_true_true, andb_true_iff, negb_true_iff, streq_false, SliceContains_spec. }
  unfold setRhsmProxy. rewrite E. split.
  - intros [->| ->]; [done|]. by destruct (no_proxy_for proxy rhsm).
  - intros -> scheme user host port tail Ha Hh Hp.
    destruct (parseUrl_address scheme user host port tail Ha Hh Hp) as [H1 H2].
    assert (∀ h, (proxy_address scheme user h tail =s "") = false) as Hne.
    { intros h. destruct Ha as [Hs _]. by destruct scheme. }
    split; intros ->; rewrite Hne; cbn [negb]; [by rewrite H1|by rewrite H2].
Qed.

Lemma setRhsmProxy_spec_witness :
  let proxy := mkProxy "http://corp:3128/" "" "a,satellite" in
  let rhsm name := mkRhsm "" "" name "8" "key" "org" in
  setRhsmProxy proxy (rhsm "satellite") = Some (rhsm "satellite") ∧
  setRhsmProxy proxy (rhsm "other") = Some (mkRhsm "corp" "3128" "other" "8" "key" "org").
Proof.
  intros proxy rhsm. split.
  - apply (setRhsmProxy_spec proxy (rhsm "satellite")). left. vm_compute. reflexivity.
  - apply (proj2 (setRhsmProxy_spec proxy (rhsm "other")) eq_refl "http" None "corp" "3128" "/");
      [split_and!; [done|done|right; left|done]|reflexivity..].
Defined.

(** ** File URLs of an air-gapped build *)

(** [filepath.Join] on a file URL takes two of its slashes away. *)
Lemma PathJoin_file_url cs n : Forall plain cs → cs ≠ [] → plain n →
  PathJoin ["file://" +:+ rooted cs; n] = "file:" +:+ rooted (cs ++ [n]).
Proof.
  intros Hc Hne Hn. cbn [PathJoin]. change ("file://" +:+ rooted cs =s "") with false. cbv iota.
  cbn [StrJoin]. unfold Clean.
  change (("file://" +:+ rooted cs) +:+ "/" +:+ n =s "") with false. cbv iota zeta.
  change (HasPrefix (("file://" +:+ rooted cs) +:+ "/" +:+ n) "/") with false. cbv iota.
  assert (("file://" +:+ rooted cs) +:+ "/" +:+ n =
    "file:" +:+ String "/"%char ("" +:+ String "/"%char ("" +:+ String "/"%char (StrJoin (cs ++ [n]) "/")))) as ->.
  { rewrite sapp_assoc, <-rooted_snoc by done. done. }
  rewrite !Split_char_app by done. cbn [foldl].
  change (clean_step false (clean_step false (clean_step false [] "file:") "") "") with ["file:"].
  rewrite clean_steps_join; [|by apply Forall_app; split; [|constructor]|by destruct cs].
  rewrite rev_app_distr, rev_involutive. simpl rev. cbn [app].
  rewrite Join_cons_ne by (by destruct cs).
  destruct (_ =s "") eqn:E; [by apply streq_true in E|done].
Qed.

Lemma getManifestRoot_eq `{!Host} d w : host_cwd = Some d →
  getManifestRoot w = (Ret (PathJoin [d; manifestsDirName]), w).
Proof. intros Hd. unfold getManifestRoot, Getwd. by rewrite Hd. Qed.

(** C33: in an air-gapped build the manifests are handed to the build as [file:/dir/...],
    with one slash: the code puts [file://] before the directory and then joins with
    [filepath.Join], which takes two of the three slashes away. (The release manifest's
    URL is put together with [Sprintf] and keeps them.) *)
Theorem airgap_manifest_urls `{!Host} dir clone version branch w :
  Forall plain dir → host_cwd = Some (rooted dir) →
  plain (eksAnywhereBundlesFileName version) → plain (eksDistroManifestFileName branch) →
  let at_root n := rooted (dir ++ [manifestsDirName; n]) in
  getAirGapCmdEnvVars clone version branch w =
    (Ret [eksABundlesURLEnvVar +:+ "=file:" +:+ at_root (eksAnywhereBundlesFileName version);
          eksDManifestURLEnvVar +:+ "=file:" +:+ at_root (eksDistroManifestFileName branch);
          cloneUrlEnvVar +:+ "=" +:+ clone], w).
Proof.
  intros Hd Hcwd Hv Hb at_root. unfold getAirGapCmdEnvVars, mbind, go_mbind, go_bind.
  rewrite (getManifestRoot_eq _ _ Hcwd).
  assert (plain manifestsDirName) as Hm by (apply (bool_decide_eq_true_1 _); vm_compute; reflexivity).
  rewrite PathJoin_rooted1 by done. cbv zeta.
  assert (Forall plain (dir ++ [manifestsDirName])) by (apply Forall_app; split; [done|by constructor]).
  rewrite !PathJoin_file_url by (done || by destruct dir).
  unfold at_root. by rewrite <-!app_assoc.
Qed.

Lemma airgap_manifest_urls_witness :
  getAirGapCmdEnvVars (HH := plain_host) "c" "v0.18.0" "1-27" empty_world =
    (Ret [eksABundlesURLEnvVar +:+ "=file:" +:+ rooted ["work"; manifestsDirName; "eks-a-bundles-v0.18.0.yaml"];
          eksDManifestURLEnvVar +:+ "=file:" +:+ rooted ["work"; manifestsDirName; "eks-d-1-27.yaml"];
          cloneUrlEnvVar +:+ "=" +:+ "c"], empty_world).
Proof.
  apply (@airgap_manifest_urls plain_host ["work"]);
    [|reflexivity|..]; apply (bool_decide_eq_true_1 _); vm_compute; reflexivity.
Defined.

(** ** Replacing a text in a file *)
Section replace.
Context `{HH : !Host}.

Lemma replaceStringInFile_ret p old new w w' : replaceStringInFile p old new w = (Ret tt, w') →
  ∃ c m, w_fs w !! p = Some (File c m) ∧
    w_fs w' = <[p := File (ReplaceAll c old new) 493]> (w_fs w).
Proof.
  unfold replaceStringInFile. intros H. go_inv H. destruct a0.
  apply ReadFile_ret in Hm as [[m Hp] ->]. apply Remove_ret in Hm0 as [_ Hfs]. simpl in Hfs.
  exists a, m. split; [done|]. apply WriteFile_new in H; [|by rewrite Hfs, lookup_delete_eq].
  by rewrite H, Hfs, insert_delete_eq.
Qed.

(** C34: [replaceStringInFile] changes the named file and no other. When it returns, the
    file holds its old contents with the text replaced. When it fails, the files are as they
    were; or, because the file is removed before it is written again, it is gone, or holds
    only the first bytes of the new contents. *)
Theorem replaceStringInFile_outcomes p old new w o w' : replaceStringInFile p old new w = (o, w') →
  match o with
  | Ret _ => ∃ c m, w_fs w !! p = Some (File c m) ∧
      w_fs w' = <[p := File (ReplaceAll c old new) 493]> (w_fs w)
  | Err _ => w_fs w' = w_fs w ∨
      ∃ c m, w_fs w !! p = Some (File c m) ∧
        (w_fs w' = delete p (w_fs w) ∨
         ∃ n, w_fs w' = <[p := File (String.substring 0 n (ReplaceAll c old new)) 493]> (w_fs w))
  | Panic _ | Exit _ => False
  end.
Proof.
  intros H. destruct o as [[]| | |]; [by apply replaceStringInFile_ret in H|..];
    unfold replaceStringInFile, ReadFile, Remove, WriteFile, store, attempt, mbind, go_mbind, go_bind in H;
    repeat (case_match; simplify_eq/=); try (rewrite lookup_delete_eq in *; done); auto; right;
    eexists _, _; (split; [done|]); eauto.
  right. eexists. by rewrite insert_delete_eq.
Qed.
End replace.

(** A machine on which a file can be removed, and four bytes written. *)
Definition full_disk : Host := {|
  host_exec w _ _ := mkCmdResult None "" (w_fs w);
  host_torn _ _ := Some 4; host_fault _ e := match e with EWrite _ _ _ => Some "no space left on device" | _ => None end;
  host_get _ _ := inr (200%Z, "");
  host_cwd := Some "/work";
  host_hostname := None;
  host_tick w _ := w_fs w;
  host_clock _ := 0%Z |}.

Lemma replaceStringInFile_outcomes_witness :
  let w := mkWorld {[ "/m/eks-d-1-27.yaml" := File "uri: https://x" 420 ]} ∅ [] in
  let r := replaceStringInFile (HH := full_disk) "/m/eks-d-1-27.yaml" "https://x" "http://y" w in
  r.1 = Err "no space left on device" ∧
  (w_fs r.2 = w_fs w ∨
   ∃ c m, w_fs w !! "/m/eks-d-1-27.yaml" = Some (File c m) ∧
     (w_fs r.2 = delete "/m/eks-d-1-27.yaml" (w_fs w) ∨
      ∃ n, w_fs r.2 = <["/m/eks-d-1-27.yaml" :=
             File (String.substring 0 n (ReplaceAll c "https://x" "http://y")) 493]> (w_fs w))) ∧
  w_fs r.2 !! "/m/eks-d-1-27.yaml" = Some (File "uri:" 493).
Proof.
  cbv zeta. split; [vm_compute; reflexivity|]. split; [|vm_compute; reflexivity].
  refine (replaceStringInFile_outcomes (HH := full_disk) "/m/eks-d-1-27.yaml" "https://x" "http://y"
    _ (Err "no space left on device") _ _). vm_compute. reflexivity.
Defined.
