(* ===== verification/IBManifests.v ===== *)
(** * image-builder: manifests for air-gapped builds

    [builder/manifests.go]: downloading every EKS-D and EKS-A manifest into a tarball,
    and unpacking such a tarball with the public domains replaced by private ones. *)
From S2P Require Import Prelude GoStrings World IBTypes IBUtils.
From stdpp Require Import base tactics strings list gmap sorting.

Local Open Scope string_scope.
Local Open Scope list_scope.

Section manifests.
Context `{HH : !Host} `{HY : !Yaml} `{HT : !Tar} `{HM : !MapOrder} (bv : BuildVars).

Definition eksd_manifest_url (branch number : string) : string :=
  "https://" +:+ eksDistroProdDomain +:+ "/kubernetes-" +:+ branch +:+ "/kubernetes-" +:+ branch
  +:+ "-eks-" +:+ number +:+ ".yaml".

Definition downloadEKSDManifests (outputPath : string) : prog unit :=
  branches ← getEksDReleaseBranchesWithNumber bv;
  _ ← MkdirAll outputPath;
  w ← get;
  forM (range_map w branches) (λ bn,
    downloadFile (PathJoin [outputPath; eksDistroManifestFileName bn.1]) (eksd_manifest_url bn.1 bn.2)).

Definition downloadEKSAManifests (outputPath : string) : prog unit :=
  releaseManifestUrl ← getEksAReleasesManifestURL bv false;
  _ ← MkdirAll outputPath;
  let releaseManifestPath := PathJoin [outputPath; eksAnywhereManifestFileName] in
  _ ← downloadFile releaseManifestPath releaseManifestUrl;
  releaseManifestData ← ReadFile releaseManifestPath;
  match yaml_release releaseManifestData with
  | None => fail "error unmarshaling release manifest"
  | Some releases =>
      forM (Releases releases) (λ r,
        downloadFile (PathJoin [outputPath; eksAnywhereBundlesFileName (r_Version r)])
          (BundleManifestUrl r))
  end.

Definition DownloadManifests (b : BuildOptions) : prog unit :=
  cwd ← wrap "Error retrieving current working directory" Getwd;
  buildToolingRepoPath ← getBuildToolingPath bv cwd;
  _ ← prepBuildToolingRepo bv buildToolingRepoPath b;
  let manifestsPath := PathJoin [cwd; "manifests"] in
  _ ← downloadEKSDManifests manifestsPath;
  _ ← downloadEKSAManifests manifestsPath;
  _ ← createTarball manifestsTarballName manifestsPath;
  _ ← RemoveAll manifestsPath;
  cleanup bv buildToolingRepoPath.

(** ** Unpacking *)
Definition extract_entry (path : string) (e : tar_entry) : prog unit :=
  let outFile := PathJoin [path; te_name e] in
  _ ← Create outFile;
  _ ← WriteFile outFile (te_content e) 438;
  ignore_err (Chmod outFile (te_mode e)).

Definition extractTarball (tarball path : string) : prog unit :=
  data ← ReadFile tarball;
  _ ← RemoveAll path;
  _ ← MkdirAll path;
  let '(es, err) := tar_decode data in
  _ ← forM es (extract_entry path);
  match err with None => mret tt | Some e => fail e end.

Definition eksd_pattern : string := ReplaceAll (eksDistroManifestFileName "%s") "%s" "*".
Definition eksa_pattern : string := ReplaceAll (eksAnywhereBundlesFileName "%s") "%s" "*".

Definition rewrite_manifest (manifestDir eksD eksA : string) (file : string * bool) : prog unit :=
  if negb file.2 then
    let absFilePath := PathJoin [manifestDir; file.1] in
    _ ← when (Match eksd_pattern file.1)
          (replaceStringInFile absFilePath ("https://" +:+ eksDistroProdDomain) eksD);
    when (Match eksa_pattern file.1)
      (replaceStringInFile absFilePath ("https://" +:+ eksAnywhereAssetsProdDomain) eksA)
  else mret tt.

Definition extractAndPrepManifestTarball (tarballFile privateEksDServerDomain privateEksAServerDomain : string)
    : prog unit :=
  manifestDir ← recover getManifestRoot (λ _, fail "Error retrieving manifest root");
  _ ← wrap "Error extracting tarball" (extractTarball tarballFile manifestDir);
  files ← ReadDir manifestDir;
  forM files (rewrite_manifest manifestDir privateEksDServerDomain privateEksAServerDomain).
End manifests.

(** ** What the unpacked directory holds *)
Section prepared.
Context `{HH : !Host} `{HT : !Tar}.

Definition clean_path (p : string) : Prop := ∃ cs, Forall plain cs ∧ p = rooted cs.

(** The names below [root] are clean paths. *)
Definition clean_under (root : string) (fs : gmap string node) : Prop :=
  ∀ p n, fs !! p = Some n → under root p = true → clean_path p.

Lemma clean_under_insert root fs p n : clean_under root fs → clean_path p →
  clean_under root (<[p := n]> fs).
Proof.
  intros Hc Hp q m. destruct (decide (p = q)) as [<-|Hne]; [done|].
  rewrite lookup_insert_ne by done. apply Hc.
Qed.

Lemma PathJoin_clean cs name : Forall plain cs → clean_path (PathJoin [rooted cs; name]).
Proof.
  intros Hc. cbn [PathJoin]. change (rooted cs =s "") with false. cbv iota. cbn [StrJoin].
  unfold rooted. rewrite sapp_assoc. destruct (Clean_is_rooted (StrJoin cs "/" +:+ "/" +:+ name)) as (ds & Hd & ->).
  by exists ds.
Qed.

Lemma extract_entry_clean cs e w w' : Forall plain cs → clean_under (rooted cs) (w_fs w) →
  extract_entry (rooted cs) e w = (Ret tt, w') → clean_under (rooted cs) (w_fs w').
Proof.
  intros Hcs Hc H. unfold extract_entry in H. go_inv H.
  pose proof (PathJoin_clean cs (te_name e) Hcs) as Hp. destruct a, a0.
  apply Create_ret in Hm as [m1 E1]. apply WriteFile_ret in Hm0 as ([m2 E2] & _).
  apply ignore_err_ret in H as [o H]. apply Chmod_fs in H as [E3|(c & m3 & _ & E3)]; rewrite E3, E2, E1;
    repeat (apply clean_under_insert; [|done]); done.
Qed.

Lemma extractTarball_clean tarball cs w w' : Forall plain cs →
  extractTarball tarball (rooted cs) w = (Ret tt, w') → clean_under (rooted cs) (w_fs w').
Proof.
  intros Hcs H. unfold extractTarball in H. go_inv H. destruct a0, a1.
  apply RemoveAll_ret in Hm0. apply MkdirAll_ret in Hm1. rewrite Clean_rooted in Hm1 by done.
  assert (clean_under (rooted cs) (w_fs w2)) as Hc.
  { rewrite Hm1, Hm0. clear Hm1. pose proof (MkdirAll_prefixes cs Hcs) as Hpre.
    assert (clean_under (rooted cs) (filter (λ kv, under (rooted cs) kv.1 = false) (w_fs w0))) as Hf.
    { intros p n [_ Hp]%map_lookup_filter_Some Hu. simpl in Hp. congruence. }
    revert Hf. generalize (filter (λ kv, under (rooted cs) kv.1 = false) (w_fs w0)).
    induction Hpre as [|q qs Hq Hpre IH]; intros fs Hf; [done|]. simpl. apply IH.
    destruct (fs !! q); [done|]. by apply clean_under_insert. }
  destruct (tar_decode a) as [es err]. go_inv H. destruct a0.
  assert (clean_under (rooted cs) (w_fs w3)) as Hc3.
  { revert Hm2. apply (forM_ind (λ _ w, clean_under (rooted cs) (w_fs w))); [done|].
    intros. by eapply extract_entry_clean. }
  destruct err; [done|]. by apply mret_ret in H as [_ <-].
Qed.

(** The node at [p] after the domains have been replaced. *)
Definition new_content (eksD eksA name c : string) : string :=
  let c := if Match eksd_pattern name
           then ReplaceAll c ("https://" +:+ eksDistroProdDomain) eksD else c in
  if Match eksa_pattern name
  then ReplaceAll c ("https://" +:+ eksAnywhereAssetsProdDomain) eksA else c.

Definition is_manifest (name : string) : bool := Match eksd_pattern name || Match eksa_pattern name.

Definition prepared (eksD eksA name : string) (n : node) : node :=
  match n with
  | File c m => if is_manifest name then File (new_content eksD eksA name c) 493 else n
  | DirNode => DirNode
  end.

Lemma when_replace_ret (b : bool) p old new w w' u : when b (replaceStringInFile p old new) w = (Ret u, w') →
  w_fs w' = alter (λ n, match n with
    | File c m => if b then File (ReplaceAll c old new) 493 else n
    | DirNode => n end) p (w_fs w) ∧
  (b = true → ∃ c m, w_fs w !! p = Some (File c m)).
Proof.
  destruct b, u; intros H; simpl in H.
  - apply replaceStringInFile_ret in H as (c & m & Hp & ->). split; [|by eauto].
    apply map_eq. intros q. destruct (decide (p = q)) as [<-|Hne].
    + by rewrite lookup_insert_eq, lookup_alter_eq, Hp.
    + by rewrite lookup_insert_ne, lookup_alter_ne.
  - apply mret_ret in H as [_ <-]. split; [|done]. symmetry.
    apply map_eq. intros q. destruct (decide (p = q)) as [<-|Hne].
    + rewrite lookup_alter_eq. by destruct (w_fs w !! p) as [[]|].
    + by rewrite lookup_alter_ne.
Qed.

Lemma rewrite_manifest_ret cs eksD eksA name w w' : Forall plain cs → plain name →
  rewrite_manifest (rooted cs) eksD eksA (name, false) w = (Ret tt, w') →
  w_fs w' = alter (prepared eksD eksA name) (rooted (cs ++ [name])) (w_fs w).
Proof.
  intros Hcs Hn H. unfold rewrite_manifest in H. cbn [fst snd negb] in H.
  rewrite PathJoin_rooted1 in H by done. go_inv H. set (p := rooted (cs ++ [name])) in *.
  apply when_replace_ret in Hm as [E1 _], H as [E2 _]. rewrite E2, E1.
  apply map_eq. intros q. destruct (decide (p = q)) as [<-|Hne]; [|by rewrite !lookup_alter_ne].
  rewrite !lookup_alter_eq. destruct (w_fs w !! p) as [[c m|]|]; [|done..].
  cbn [fmap option_fmap option_map prepared].
  unfold is_manifest, new_content. by destruct (Match eksd_pattern name), (Match eksa_pattern name).
Qed.
(** The loop over the directory: each file once. *)
Lemma rewrite_manifests_ret cs eksD eksA es w w' : Forall plain cs → NoDup es.*1 →
  (∀ e, e ∈ es → plain e.1) →
  forM es (rewrite_manifest (rooted cs) eksD eksA) w = (Ret tt, w') →
  (∀ name n, (name, false) ∈ es → w_fs w !! rooted (cs ++ [name]) = Some n →
     w_fs w' !! rooted (cs ++ [name]) = Some (prepared eksD eksA name n)) ∧
  (∀ p, (∀ name, (name, false) ∈ es → p ≠ rooted (cs ++ [name])) → w_fs w' !! p = w_fs w !! p).
Proof.
  intros Hcs Hnd Hpl. apply (forM_ind (λ seen w2,
    (∀ name n, (name, false) ∈ seen → w_fs w !! rooted (cs ++ [name]) = Some n →
       w_fs w2 !! rooted (cs ++ [name]) = Some (prepared eksD eksA name n)) ∧
    (∀ p, (∀ name, (name, false) ∈ seen → p ≠ rooted (cs ++ [name])) → w_fs w2 !! p = w_fs w !! p))).
  { split; [intros name n Hin; by apply elem_of_nil in Hin|done]. }
  intros seen [x b] rest w1 w2 Hl [I1 I2] H.
  assert (plain x) as Hx by (apply (Hpl (x, b)); subst es; set_solver).
  assert (∀ name, plain name → rooted (cs ++ [name]) = rooted (cs ++ [x]) → name = x) as Hinj.
  { intros name Hn E. apply rooted_inj in E;
      [by apply app_inj_tail in E as [_ E]|by apply Forall_app; split; [|constructor]..]. }
  assert (x ∉ seen.*1) as Hnew.
  { rewrite Hl, fmap_app, fmap_cons in Hnd. apply NoDup_app in Hnd as (_ & Hnd & _).
    intros Hin. apply (Hnd _ Hin). by left. }
  destruct b.
  - unfold rewrite_manifest in H. simpl in H. apply mret_ret in H as [_ <-].
    split; [intros name n [Hin|[=]%list_elem_of_singleton]%elem_of_app; by apply I1|].
    intros p Hp. apply I2. intros name Hin. apply Hp, elem_of_app. by left.
  - apply rewrite_manifest_ret in H; [|done..]. split.
    + intros name n [Hin|[= ->]%list_elem_of_singleton]%elem_of_app Hw.
      * rewrite H, lookup_alter_ne; [by apply I1|]. intros E. destruct Hnew.
        rewrite <-(Hinj name); [|by apply (Hpl (name, false)); subst es; set_solver|done].
        by apply (list_elem_of_fmap_2 fst _ (name, false)).
      * rewrite H, lookup_alter_eq, I2, Hw; [done|]. intros name Hin E. destruct Hnew.
        rewrite <-(Hinj name); [|by apply (Hpl (name, false)); subst es; set_solver|done].
        by apply (list_elem_of_fmap_2 fst _ (name, false)).
    + intros p Hp. rewrite H, lookup_alter_ne.
      * apply I2. intros name Hin. apply Hp, elem_of_app. by left.
      * intros <-. apply (Hp x); [|done]. apply elem_of_app. right. by apply list_elem_of_singleton.
Qed.
End prepared.

(** A name in a directory of clean paths is a plain element. *)
Lemma clean_name root name : Forall plain root → root ≠ [] → Contains name "/" = false →
  clean_path (rooted (root ++ [name])) → plain name.
Proof.
  intros Hroot Hne Hs (ds & Hds & E). apply sapp_inj_l in E.
  apply (f_equal (λ s, Split s "/")) in E. cbv beta in E.
  rewrite Split_char_Join in E; [|by destruct root|].
  2: { apply Forall_app. split; [by apply plain_no_slash|by constructor]. }
  destruct (decide (ds = [])) as [->|Hd].
  - destruct root as [|x [|]]; [done|..]; discriminate E.
  - rewrite Split_char_Join in E by (done || by apply plain_no_slash). rewrite <-E in Hds.
    apply Forall_app in Hds as [_ Hn]. by apply Forall_cons in Hn as [Hn _].
Qed.

(** C16: an air-gapped build's manifest directory. When [extractAndPrepManifestTarball]
    returns, the file system is the one after the tarball was unpacked, except that every
    EKS-D manifest and every EKS-A bundles manifest of the directory has the public domain
    replaced (exactly once) by the private one; no other file is touched. *)
Theorem prepared_manifests `{HH : !Host} `{HT : !Tar} cs tarball eksD eksA w w' :
  Forall plain cs → host_cwd = Some (rooted cs) →
  extractAndPrepManifestTarball tarball eksD eksA w = (Ret tt, w') →
  let root := cs ++ [manifestsDirName] in
  ∃ w1, extractTarball tarball (rooted root) w = (Ret tt, w1) ∧
    (∀ name n, plain name → w_fs w1 !! rooted (root ++ [name]) = Some n →
       w_fs w' !! rooted (root ++ [name]) = Some (prepared eksD eksA name n)) ∧
    (∀ p, (∀ name, plain name → p ≠ rooted (root ++ [name])) → w_fs w' !! p = w_fs w1 !! p).
Proof.
  intros Hcs Hcwd H root. unfold extractAndPrepManifestTarball in H.
  assert (plain manifestsDirName) as Hm by (apply (bool_decide_eq_true_1 _); vm_compute; reflexivity).
  assert (Forall plain root) as Hroot by (apply Forall_app; split; [done|by constructor]).
  apply bind_ret_inv in H as (d & w0 & Hd & H). unfold recover in Hd.
  rewrite (getManifestRoot_eq _ _ Hcwd), PathJoin_rooted1 in Hd by done. fold root in Hd.
  injection Hd as <- <-. apply bind_ret_inv in H as ([] & w1 & Hx & H). apply wrap_ret in Hx.
  apply bind_ret_inv in H as (es & w2 & Hr & H). exists w1. split; [done|].
  apply extractTarball_clean in Hx as Hclean; [|done].
  apply ReadDir_ret in Hr as [-> Hfs]. rewrite Clean_rooted in * by done. rewrite <-Hfs in *. clear Hfs Hx w1.
  assert (root ≠ []) as Hne by (by destruct cs).
  assert (∀ e, e ∈ entries (w_fs w2) (rooted root) → plain e.1) as Hpl.
  { intros [name b] (n & Hn & _ & Hs & _)%elem_of_entries. rewrite <-rooted_snoc in Hn by done.
    apply (clean_name root); [done..|]. apply (Hclean _ _ Hn). rewrite rooted_snoc by done.
    unfold under. apply orb_true_iff. right. apply HasPrefix_spec. exists name. by rewrite sapp_assoc. }
  apply rewrite_manifests_ret in H as [H1 H2]; [|done|apply entries_NoDup|done].
  split.
  - intros name n Hn Hw. destruct n as [c m|].
    + apply H1; [|done]. apply elem_of_entries. rewrite <-rooted_snoc by done.
      destruct Hn as (? & _ & _ & ?). eauto.
    + simpl. rewrite H2; [done|]. intros name' (n' & Hn' & Hnn & Hs & Hb)%elem_of_entries E.
      rewrite <-rooted_snoc, <-E, Hw in Hn' by done. simplify_eq.
  - intros p Hp. apply H2. intros name Hin. apply Hp. by apply (Hpl (name, false)).
Qed.

(** A tarball with one EKS-D manifest. *)
Definition sample_tar : Tar := {|
  tar_encode _ := "";
  tar_decode _ := ([mkEntry "eks-d-1-27.yaml" 420 "uri: https://distro.eks.amazonaws.com/a"], None) |}.

Lemma prepared_manifests_witness :
  let w := mkWorld {[ "/m.tar" := File "" 420 ]} ∅ [] in
  let root := ["work"; manifestsDirName] in
  ∃ w', extractAndPrepManifestTarball (HH := plain_host) (HT := sample_tar) "/m.tar" "http://d" "http://a" w
          = (Ret tt, w') ∧
  ∃ w1, extractTarball (HH := plain_host) (HT := sample_tar) "/m.tar" (rooted root) w = (Ret tt, w1) ∧
    (∀ name n, plain name → w_fs w1 !! rooted (root ++ [name]) = Some n →
       w_fs w' !! rooted (root ++ [name]) = Some (prepared "http://d" "http://a" name n)) ∧
    (∀ p, (∀ name, plain name → p ≠ rooted (root ++ [name])) → w_fs w' !! p = w_fs w1 !! p).
Proof.
  intros w root. eexists. split; [vm_compute; reflexivity|].
  apply (prepared_manifests (HH := plain_host) (HT := sample_tar) ["work"] "/m.tar" "http://d" "http://a" w);
    [apply (bool_decide_eq_true_1 _); vm_compute; reflexivity|reflexivity|vm_compute; reflexivity].
Defined.
