(* ===== verification/IBArtifacts.v ===== *)
(** * image-builder: artifacts for air-gapped builds

    [builder/artifacts.go]: the containerd, crictl, etcdadm and Kubernetes artifacts of
    one release channel, stored under the path they have on the public server. *)
From S2P Require Import Prelude GoStrings World GoUrl IBTypes IBUtils.
From stdpp Require Import base tactics strings list gmap sorting.

Local Open Scope string_scope.
Local Open Scope list_scope.

Definition getArtifactFilePathFromUrl (artifactUrl : string) : option string :=
  u ← Parse artifactUrl; Some (TrimPrefix (UrlPath u) "/").

Definition eksDKubeArtifacts : list string :=
  ["kube-apiserver.tar"; "kube-scheduler.tar"; "kube-controller-manager.tar"; "kube-proxy.tar";
   "pause.tar"; "coredns.tar"; "etcd.tar"; "kubeadm"; "kubelet"; "kubectl"].

Definition empty_bundle : VersionsBundle := mkVersionsBundle "" (mkEksDBundle "" "" "" "" "").

Fixpoint bundle_of (kubeVersion : string) (l : list VersionsBundle) : VersionsBundle :=
  match l with
  | [] => empty_bundle
  | b :: l => if KubeVersion b =s kubeVersion then b else bundle_of kubeVersion l
  end.

Section artifacts.
Context `{HH : !Host} `{HY : !Yaml} `{HT : !Tar} `{HM : !MapOrder} (bv : BuildVars).

Definition downloadArtifact (outputPath artifactUrl : string) : prog unit :=
  match getArtifactFilePathFromUrl artifactUrl with
  | None => fail "failed to get artifacts path from url"
  | Some artifactsPath => downloadFile (PathJoin [outputPath; artifactsPath]) artifactUrl
  end.

Definition downloadEKSAArtifacts (outputPath kubeVersion : string) (bundles : Bundles)
    : prog VersionsBundle :=
  let versionBundle := bundle_of kubeVersion (VersionsBundles bundles) in
  let eksDBundle := EksD versionBundle in
  let artifactsUrl : gmap string string :=
    {[ "containerd" := Containerd_URI eksDBundle; "crictl" := Crictl_URI eksDBundle;
       "etcdadm" := Etcdadm_URI eksDBundle ]} in
  w ← get;
  _ ← forM (range_map w artifactsUrl) (λ au, downloadArtifact outputPath au.2);
  mret versionBundle.

(** One component of the EKS-D manifest: the base URL seen so far is threaded. *)
Definition scan_assets {A} (name : string) (assets : list Asset) (s : A)
    (found : A → string → prog A) : prog A :=
  foldM assets s (λ s asset,
    if a_Name asset =s name then uri ← deref (Archive asset); found s uri else mret s).

Definition scan_component (outputPath arch eksDBaseUrl : string) (component : Component) : prog string :=
  eksDBaseUrl ←
    (if c_Name component =s "kubernetes" then
       scan_assets ("bin/linux/" +:+ arch +:+ "/kube-apiserver.tar") (Assets component) eksDBaseUrl
         (λ _ uri, mret (ReplaceAll uri "/kube-apiserver.tar" ""))
     else mret eksDBaseUrl);
  _ ← (if (c_Name component =s "etcd") || (c_Name component =s "cni-plugins") then
         scan_assets (c_Name component +:+ "-linux-" +:+ arch +:+ "-" +:+ GitTag component +:+ ".tar.gz")
           (Assets component) tt (λ _ uri, downloadArtifact outputPath uri)
       else mret tt);
  mret eksDBaseUrl.

Definition downloadEKSDArtifacts (b : BuildOptions) (outputPath manifestUrl : string) : prog unit :=
  manifestData ← wrap "failed to read manifest file from url" (readFileFromURL manifestUrl);
  match yaml_eksd_manifest manifestData with
  | None => fail "error unmarshaling eks-d manifest"
  | Some releases =>
      eksDBaseUrl ← foldM (Components releases) "" (scan_component outputPath (Arch b));
      forM eksDKubeArtifacts (λ artifact,
        match JoinPath eksDBaseUrl artifact with
        | None => fail ("failed to construct url for artifact " +:+ artifact)
        | Some artifactUrl => downloadArtifact outputPath artifactUrl
        end)
  end.

Definition DownloadArtifacts (b : BuildOptions) : prog unit :=
  let b := if Arch b =s "" then set_arch amd64 b else b in
  cwd ← wrap "Error retrieving current working directory" Getwd;
  buildToolingRepoPath ← getBuildToolingPath bv cwd;
  bd ← prepBuildToolingRepo bv buildToolingRepoPath b;
  supportedReleaseBranches ← GetSupportedReleaseBranches bv;
  _ ← when (negb (SliceContains supportedReleaseBranches (ReleaseChannel b)))
        (_ ← cleanup bv buildToolingRepoPath; exit 1);
  let kubeVersion := ReplaceAll (ReleaseChannel b) "-" "." in
  let eksaArtifactsPath := PathJoin [cwd; eksAnywhereArtifactsDirName] in
  let eksdArtifactsPath := PathJoin [cwd; eksDistroArtifactsDirName] in
  _ ← when (Force b) (_ ← cleanup bv eksaArtifactsPath; cleanup bv eksdArtifactsPath);
  versionBundle ← wrap "failed to download eks-a artifacts"
    (downloadEKSAArtifacts eksaArtifactsPath kubeVersion bd.1);
  _ ← wrap "failed to download eks-d artifacts"
    (downloadEKSDArtifacts b eksdArtifactsPath (EksDReleaseUrl (EksD versionBundle)));
  cleanup bv buildToolingRepoPath.
End artifacts.

(** ** What is fetched *)
Section fetched.
Context `{HH : !Host} `{HM : !MapOrder} `{HL : !MapOrderLaws}.

Lemma downloadFile_ret path url w u w' : downloadFile path url w = (Ret u, w') →
  obs as_get w' = obs as_get w ++ [url] ∧
  ∃ status body m, host_get w url = inr (status, body) ∧ w_fs w' !! path = Some (File body m).
Proof.
  unfold downloadFile. intros H. go_inv H. destruct u, a2, a1.
  apply HttpGet_ret in Hm as [-> Hg]. quiet_of as_get Hm0.
  assert (obs as_get w2 = obs as_get w1) as E1 by (destruct a0; quiet_of as_get Hm1; done).
  clear Hm1. pose proof H as Hw. quiet_of as_get Hm2. quiet_of as_get H.
  apply WriteFile_ret in Hw as ([m Hfs] & _).
  split; [by rewrite H, Hm2, E1, Hm0, obs_log|].
  destruct a as [status body]. exists status, body, m. split; [done|]. simpl in Hfs.
  by rewrite Hfs, lookup_insert_eq.
Qed.

Lemma downloadArtifact_ret out url w u w' : downloadArtifact out url w = (Ret u, w') →
  obs as_get w' = obs as_get w ++ [url].
Proof.
  unfold downloadArtifact. destruct (getArtifactFilePathFromUrl url); [|done].
  intros H. by apply downloadFile_ret in H as [H _].
Qed.

Lemma bundle_of_spec v l :
  (∃ l1 b l2, l = l1 ++ b :: l2 ∧ bundle_of v l = b ∧ KubeVersion b = v ∧
     Forall (λ x, KubeVersion x ≠ v) l1) ∨
  Forall (λ x, KubeVersion x ≠ v) l ∧ bundle_of v l = empty_bundle.
Proof.
  induction l as [|x l IH]; simpl; [by right|].
  destruct (KubeVersion x =s v) eqn:E.
  - apply streq_true in E. left. by exists [], x, l.
  - apply streq_false in E. destruct IH as [(l1 & b & l2 & -> & Hb & Hv & HF)|[HF Hb]].
    + left. exists (x :: l1), b, l2. by repeat constructor.
    + right. by repeat constructor.
Qed.

Lemma three_urls (a b c : string) :
  (map_to_list ({[ "containerd" := a; "crictl" := b; "etcdadm" := c ]} : gmap string string)).*2 ≡ₚ [a; b; c].
Proof.
  rewrite !map_to_list_insert; try by (rewrite ?lookup_insert_ne, ?lookup_singleton_ne).
Qed.
End fetched.

(** An artifact without an address: [http.Get] refuses it before anything is made. *)
Lemma downloadArtifact_empty `{HH : !Host} out w :
  downloadArtifact out "" w = (Err "unsupported protocol scheme", log (EGet "") w).
Proof.
  unfold downloadArtifact. change (getArtifactFilePathFromUrl "") with (Some ""). unfold downloadFile.
  apply bind_err. by apply HttpGet_refused.
Qed.

(** C30: the EKS-A artifacts of a Kubernetes version are those of its first bundle: when
    [downloadEKSAArtifacts] returns, this bundle is the result and its three URLs were
    fetched, each once and in whatever order Go visits the map. For a version that no bundle
    has the code goes on with an empty bundle: it asks for the empty URL and ends with the
    error of that, so nothing is downloaded and no file is touched. *)
Theorem eksa_artifacts_fetched `{HH : !Host} `{HL : !MapOrderLaws (H := HM)} out v bundles w :
  (∀ vb w', downloadEKSAArtifacts out v bundles w = (Ret vb, w') →
    (∃ l1 l2, VersionsBundles bundles = l1 ++ vb :: l2 ∧ KubeVersion vb = v ∧ Forall (λ x, KubeVersion x ≠ v) l1) ∧
    ∃ urls, urls ≡ₚ [Containerd_URI (EksD vb); Crictl_URI (EksD vb); Etcdadm_URI (EksD vb)] ∧
      obs as_get w' = obs as_get w ++ urls) ∧
  (Forall (λ x, KubeVersion x ≠ v) (VersionsBundles bundles) →
    downloadEKSAArtifacts out v bundles w = (Err "unsupported protocol scheme", log (EGet "") w)).
Proof.
  assert (Forall (λ x, KubeVersion x ≠ v) (VersionsBundles bundles) →
    downloadEKSAArtifacts out v bundles w = (Err "unsupported protocol scheme", log (EGet "") w)) as Hnone.
  { intros HF. unfold downloadEKSAArtifacts. rewrite (bind_step _ _ _ w w) by done.
    destruct (bundle_of_spec v (VersionsBundles bundles)) as [(l1 & b & l2 & E & _ & Hv & _)|[_ ->]].
    { rewrite E, Forall_app, Forall_cons in HF. naive_solver. }
    set (m := {[ "containerd" := _; _ := _; _ := _ ]} : gmap string string).
    pose proof (range_map_perm w m) as Hp.
    assert (Forall (λ au, au.2 = "") (range_map w m)) as Hall.
    { rewrite Hp. apply (bool_decide_eq_true_1 _). vm_compute. reflexivity. }
    destruct (range_map w m) as [|au rest].
    { apply Permutation_length in Hp. vm_compute in Hp. discriminate Hp. }
    apply Forall_cons in Hall as [Hau _]. apply bind_err. cbn [forM]. apply bind_err. rewrite Hau.
    apply downloadArtifact_empty. }
  split; [|done]. intros vb w' H.
  assert (∃ l1 l2, VersionsBundles bundles = l1 ++ vb :: l2 ∧ KubeVersion vb = v ∧ Forall (λ x, KubeVersion x ≠ v) l1) as Hfound.
  { destruct (bundle_of_spec v (VersionsBundles bundles)) as [(l1 & b & l2 & E & Hb & Hv & HF)|[HF _]];
      [|rewrite (Hnone HF) in H; done].
    unfold downloadEKSAArtifacts in H. apply bind_ret_inv in H as (w0 & w1 & _ & H).
    apply bind_ret_inv in H as ([] & w2 & _ & H). apply mret_ret in H as [<- _]. rewrite Hb. by exists l1, l2. }
  split; [done|]. clear Hfound Hnone. unfold downloadEKSAArtifacts in H.
  apply bind_ret_inv in H as (w0 & w1 & Hg & H). injection Hg as <- <-.
  apply bind_ret_inv in H as ([] & w1 & Hf & H). apply mret_ret in H as [<- <-].
  set (m := {[ "containerd" := _; _ := _; _ := _ ]} : gmap string string) in Hf.
  exists (range_map w m).*2. split.
  - rewrite (fmap_Permutation snd _ _ (range_map_perm w m)). apply three_urls.
  - apply (forM_ind (λ seen w2, obs as_get w2 = obs as_get w ++ seen.*2)) in Hf; [done|by rewrite app_nil_r|].
    intros seen x rest w2 w3 _ Hw2 Hx. apply downloadArtifact_ret in Hx.
    by rewrite Hx, Hw2, fmap_app, app_assoc.
Qed.

Definition sample_order : MapOrder := {| range_map _ m := map_to_list m |}.
Definition sample_order_laws : MapOrderLaws (H := sample_order).
Proof. by split. Qed.

Definition sample_bundle : VersionsBundle :=
  mkVersionsBundle "1.27" (mkEksDBundle "abc" "" "https://x/a/containerd.tar" "https://x/b/crictl.tar" "https://x/c").

Lemma eksa_artifacts_fetched_witness :
  let bundles := mkBundles [empty_bundle; sample_bundle] in
  let download v := downloadEKSAArtifacts (HH := plain_host) (HM := sample_order) "/out" v bundles empty_world in
  (∃ w', download "1.27" = (Ret sample_bundle, w') ∧
   (∃ l1 l2, [empty_bundle; sample_bundle] = l1 ++ sample_bundle :: l2 ∧ KubeVersion sample_bundle = "1.27" ∧
      Forall (λ x, KubeVersion x ≠ "1.27") l1) ∧
   ∃ urls, urls ≡ₚ ["https://x/a/containerd.tar"; "https://x/b/crictl.tar"; "https://x/c"] ∧
    obs as_get w' = obs as_get empty_world ++ urls) ∧
  download "1.28" = (Err "unsupported protocol scheme", log (EGet "") empty_world).
Proof.
  intros bundles download. split.
  - unfold download. eexists. split; [apply run_eq; vm_compute; reflexivity|].
    apply (proj1 (eksa_artifacts_fetched (HH := plain_host) (HL := sample_order_laws) "/out" "1.27" bundles empty_world)).
    apply run_eq. vm_compute. reflexivity.
  - apply (proj2 (eksa_artifacts_fetched (HH := plain_host) (HL := sample_order_laws) "/out" "1.28" bundles empty_world)).
    apply (bool_decide_eq_true_1 _). vm_compute. reflexivity.
Defined.
