(* ===== verification/IBBuild.v ===== *)
(** * image-builder: BuildImage

    [builder/builder.go]. [BuildImage] is one function of the source; its steps are the
    definitions below, in the order in which it takes them: the preparation, the
    environment of the build, the additional files, one definition per hypervisor, and
    the move of the image. Errors end the process ([log.Fatalf]). *)
From S2P Require Import Prelude GoStrings World GoJson IBTypes IBFiles IBConfig IBValidate IBUtils IBManifests.
From stdpp Require Import base tactics strings list gmap sorting.

Local Open Scope string_scope.
Local Open Scope list_scope.

#[export] Instance FilesAnsibleConfig_struct : Struct FilesAnsibleConfig := {
  st_fields := [("ansible_extra_vars", false); ("custom_role", false); ("custom_role_names", false)];
  st_get c := [AnsibleExtraVars c; CustomRole c; CustomRoleNames c];
  st_make l := mkFilesAnsible (fld l 0) (fld l 1) (fld l 2) }.

(** [fmt.Sprintf("%s=%s", name, value)] *)
Definition env_var (name value : string) : string := name +:+ "=" +:+ value.

(** [json.Marshal] of a pointer. *)
Definition Marshal_ptr {A} `{!Struct A} (p : option A) : string :=
  match p with Some a => Marshal a | None => "null" end.

(** What a hypervisor's build leaves to be moved: the image's destination and the
    pattern it is found with; an empty destination means nothing is moved. *)
Record output := mkOutput { outputArtifactPath : string; outputImageGlobPattern : string }.

(** A configuration with the groups the RHSM proxy needs. *)
Definition with_rhsm (rhel : RhelConfig) (rhsm : RhsmConfig) : RhelConfig :=
  mkRhel (RhelUsername rhel) (RhelPassword rhel) rhsm.

Section build.
Context `{HH : !Host} `{HY : !Yaml} `{HT : !Tar} `{HM : !MapOrder} (bv : BuildVars).

(** ** Preparation *)
Definition private_domains (b : BuildOptions) : prog (string * string) :=
  let domains ag := (PrivateServerEksDDomainUrl ag, PrivateServerEksADomainUrl ag) in
  if Hypervisor b =s VSphere then c ← deref (bo_Vsphere b); mret (domains (vs_AirGapped c))
  else if Hypervisor b =s Baremetal then c ← deref (bo_Baremetal b); mret (domains (bm_AirGapped c))
  else if Hypervisor b =s CloudStack then c ← deref (bo_Cloudstack b); mret (domains (cs_AirGapped c))
  else if Hypervisor b =s Nutanix then c ← deref (bo_Nutanix b); mret (domains (nx_AirGapped c))
  else mret ("", "").

Definition prepare_airgapped (b : BuildOptions) : prog unit :=
  when (AirGapped b) (
    d ← private_domains b;
    fatal_on_err (extractAndPrepManifestTarball (ManifestTarball b) d.1 d.2)).

Definition check_release_channel (buildToolingRepoPath : string) (b : BuildOptions) : prog unit :=
  supportedReleaseBranches ← GetSupportedReleaseBranches bv;
  when (negb (SliceContains supportedReleaseBranches (ReleaseChannel b)))
    (_ ← cleanup bv buildToolingRepoPath; exit 1).

Definition base_env (detectedEksaVersion : string) (b : BuildOptions) : prog (list string) :=
  eksAReleaseManifestUrl ← fatal_on_err (getEksAReleasesManifestURL bv (AirGapped b));
  let commandEnvVars :=
    [env_var releaseBranchEnvVar (ReleaseChannel b);
     env_var eksAReleaseVersionEnvVar detectedEksaVersion;
     env_var eksAReleaseManifestURLEnvVar eksAReleaseManifestUrl] in
  if negb (bool_decide (AnsibleVerbosity b = 0%Z)) then
    if bool_decide (AnsibleVerbosity b < 0)%Z then panic "strings: negative Repeat count"
    else mret (commandEnvVars ++
           [env_var eksaAnsibleVerbosityEnvVar ("-" +:+ Repeat "v" (Z.to_nat (AnsibleVerbosity b)))])
  else mret commandEnvVars.

(** ** Additional files *)
Definition write_additional_files (project : string) (b : BuildOptions) (h : arrays)
    : prog (list string * arrays) :=
  match bo_Files b with
  | None => mret ([], h)
  | Some fc =>
      let additionalFilesList := PathJoin [project; packerAdditionalFilesList] in
      let additionalFilesCustomRole := PathJoin [project; ansibleAdditionalFilesCustomRole] in
      let ansible := mkFilesAnsible ("@" +:+ additionalFilesList) (CustomRole (fc_Ansible fc))
                       additionalFilesCustomRole in
      let additionalFilesConfigFile := PathJoin [project; packerAdditionalFilesConfigFile] in
      _ ← fatal_on_err (WriteFile additionalFilesConfigFile (Marshal ansible) 420);
      let slice := AdditionalFilesList (fc_FileVars fc) in
      let h := match bo_AMI b with Some _ => rewrite_sources project slice h | None => h end in
      _ ← fatal_on_err (WriteFile additionalFilesList
            (yaml_file_vars (AdditionalFiles (fc_FileVars fc)) (read_slice h slice)) 420);
      mret ([env_var packerAdditionalFilesConfigFileEnvVar additionalFilesConfigFile], h)
  end.

(** ** The hypervisors *)
Definition airgap_env (b : BuildOptions) (repoUrl detectedEksaVersion : string) : prog (list string) :=
  if AirGapped b then fatal_on_err (getAirGapCmdEnvVars repoUrl detectedEksaVersion (ReleaseChannel b))
  else mret [].

(** [if b.Os == RedHat && config.HttpProxy != "" { setRhsmProxy(...) }] *)
Definition rhsm_proxy (b : BuildOptions) (proxy : ProxyConfig) (rhel : RhelConfig) : prog RhelConfig :=
  if (Os b =s RedHat) && negb (HttpProxy proxy =s "") then
    match setRhsmProxy proxy (rhel_Rhsm rhel) with
    | Some rhsm => mret (with_rhsm rhel rhsm)
    | None => exit 1
    end
  else mret rhel.

Definition rhel_env (rhel : RhelConfig) : list string :=
  [env_var rhelUsernameEnvVar (RhelUsername rhel); env_var rhelPasswordEnvVar (RhelPassword rhel);
   env_var rhsmActivationKeyEnvVar (ActivationKey (rhel_Rhsm rhel));
   env_var rhsmOrgIDEnvVar (OrgId (rhel_Rhsm rhel))].

Definition make_target (project target : string) : string := "make -C " +:+ project +:+ " " +:+ target.

Definition artifact (cwd : string) (b : BuildOptions) (ext : string) : string :=
  PathJoin [cwd; Os b +:+ "-" +:+ OsVersion b +:+ "-kube-" +:+ ReleaseChannel b +:+ ext].

Definition vsphere_rhel (c : VsphereConfig) (rhel : RhelConfig) : VsphereConfig :=
  mkVsphere (Cluster c) (ConvertToTemplate c) (CreateSnapshot c) (Datacenter c) (Datastore c)
    (Folder c) (InsecureConnection c) (LinkedClone c) (Network c) (ResourcePool c) (Template c)
    (VcenterServer c) (Username c) (Password c) (vs_Iso c) rhel (vs_Proxy c) (vs_Packages c)
    (vs_Overrides c) (vs_AirGapped c).

Definition build_vsphere (cwd project detectedEksaVersion : string) (env : list string) (b : BuildOptions)
    : prog output :=
  ag ← (if AirGapped b then
          c ← deref (bo_Vsphere b);
          airgap_env b (ImageBuilderRepoUrl (vs_AirGapped c)) detectedEksaVersion
        else mret []);
  config ← (if Os b =s RedHat then
              c ← deref (bo_Vsphere b);
              rhel ← rhsm_proxy b (vs_Proxy c) (vs_Rhel c);
              mret (Some (vsphere_rhel c rhel))
            else mret (bo_Vsphere b));
  _ ← fatal_on_err (WriteFile (PathJoin [project; packerVSphereConfigFile]) (Marshal_ptr config) 420);
  co ← (if Os b =s Ubuntu then
          mret (if Firmware b =s EFI
                then make_target project ("local-build-ova-ubuntu-" +:+ OsVersion b +:+ "-efi")
                else make_target project ("local-build-ova-ubuntu-" +:+ OsVersion b), [])
        else if Os b =s RedHat then
          c ← deref config;
          mret (make_target project ("local-build-ova-redhat-" +:+ OsVersion b), rhel_env (vs_Rhel c))
        else mret ("", []));
  _ ← fatal_on_err (executeMakeBuildCommand co.1 (env ++ ag ++ co.2));
  mret (mkOutput (artifact cwd b ".ova") "output/*.ova").

Definition build_baremetal (cwd project detectedEksaVersion : string) (env : list string) (b : BuildOptions)
    : prog output :=
  ag ← (if AirGapped b then
          c ← deref (bo_Baremetal b);
          airgap_env b (ImageBuilderRepoUrl (bm_AirGapped c)) detectedEksaVersion
        else mret []);
  config ← (if Os b =s RedHat then
              c ← deref (bo_Baremetal b);
              rhel ← rhsm_proxy b (bm_Proxy c) (bm_Rhel c);
              mret (Some (mkBaremetal (bm_Iso c) rhel (bm_Proxy c) (bm_Packages c) (bm_Overrides c)
                            (bm_AirGapped c)))
            else mret (bo_Baremetal b));
  let baremetalConfigFile := PathJoin [project; packerBaremetalConfigFile] in
  _ ← match config with
      | Some c => fatal_on_err (WriteFile baremetalConfigFile (Marshal c) 420)
      | None => mret tt
      end;
  co ← (if Os b =s Ubuntu then
          mret (make_target project ("local-build-raw-ubuntu-" +:+ OsVersion b), [])
        else if Os b =s RedHat then
          c ← deref config;
          mret (if Firmware b =s EFI
                then make_target project ("local-build-raw-redhat-" +:+ OsVersion b +:+ "-efi")
                else make_target project ("local-build-raw-redhat-" +:+ OsVersion b),
                rhel_env (bm_Rhel c))
        else mret ("", []));
  let varFiles := match config with
    | Some _ => [env_var packerTypeVarFilesEnvVar baremetalConfigFile] | None => [] end in
  _ ← fatal_on_err (executeMakeBuildCommand co.1 (env ++ ag ++ co.2 ++ varFiles));
  mret (mkOutput (artifact cwd b ".gz") "output/*.gz").

Definition nutanix_rhel (c : NutanixConfig) (rhel : RhelConfig) : NutanixConfig :=
  mkNutanix (ClusterName c) (ImageName c) (ImageUrl c) (ImageExport c) (SourceImageName c)
    (NutanixEndpoint c) (NutanixInsecure c) (NutanixPort c) (NutanixUserName c) (NutanixPassword c)
    (NutanixSubnetName c) rhel (nx_Proxy c) (nx_Packages c) (nx_Overrides c) (nx_AirGapped c).

Definition build_nutanix (cwd project detectedEksaVersion : string) (env : list string) (b : BuildOptions)
    : prog output :=
  config ← (if Os b =s RedHat then
              c ← deref (bo_Nutanix b);
              rhel ← rhsm_proxy b (nx_Proxy c) (nx_Rhel c);
              mret (Some (nutanix_rhel c rhel))
            else mret (bo_Nutanix b));
  ag ← (if AirGapped b then
          c ← deref config;
          airgap_env b (ImageBuilderRepoUrl (nx_AirGapped c)) detectedEksaVersion
        else mret []);
  let nutanixConfigFile := PathJoin [project; packerNutanixConfigFile] in
  _ ← fatal_on_err (WriteFile nutanixConfigFile (Marshal_ptr config) 420);
  co ← (if Os b =s Ubuntu then
          mret (make_target project ("local-build-nutanix-ubuntu-" +:+ OsVersion b), [])
        else if Os b =s RedHat then
          c ← deref config;
          mret (make_target project ("local-build-nutanix-redhat-" +:+ OsVersion b),
                [env_var rhelUsernameEnvVar (RhelUsername (nx_Rhel c));
                 env_var rhelPasswordEnvVar (RhelPassword (nx_Rhel c));
                 env_var rhelImageUrlNutanixEnvVar (ImageUrl c)])
        else mret ("", []));
  let varFiles := match config with
    | Some _ => [env_var packerTypeVarFilesEnvVar nutanixConfigFile] | None => [] end in
  _ ← fatal_on_err (executeMakeBuildCommand co.1 (env ++ ag ++ co.2 ++ varFiles));
  c ← deref config;
  if ImageExport c =s "true" then mret (mkOutput (artifact cwd b ".img") "*.img")
  else mret (mkOutput "" "").

Definition build_cloudstack (cwd project detectedEksaVersion : string) (env : list string) (b : BuildOptions)
    : prog output :=
  c ← deref (bo_Cloudstack b);
  ag ← airgap_env b (ImageBuilderRepoUrl (cs_AirGapped c)) detectedEksaVersion;
  rhel ← rhsm_proxy b (cs_Proxy c) (cs_Rhel c);
  let cloudstackConfigFile := PathJoin [project; packerCloudStackConfigFile] in
  let c := mkCloudstack "provider=cloudstack" (cs_Iso c) rhel (cs_Proxy c) (cs_Packages c)
    (cs_Overrides c) (cs_AirGapped c) in
  _ ← fatal_on_err (WriteFile cloudstackConfigFile (Marshal c) 420);
  let '(buildCommand, osEnv, glob) :=
    if Os b =s RedHat then
      (make_target project ("local-build-cloudstack-redhat-" +:+ OsVersion b), rhel_env rhel,
       "output/rhel-*/rhel-*")
    else ("", [], "") in
  _ ← fatal_on_err (executeMakeBuildCommand buildCommand
        (env ++ ag ++ osEnv ++ [env_var packerTypeVarFilesEnvVar cloudstackConfigFile]));
  mret (mkOutput (artifact cwd b ".qcow2") glob).

Definition build_ami (cwd project : string) (env : list string) (b : BuildOptions) : prog output :=
  let amiConfigFile := PathJoin [project; packerAMIConfigFile] in
  _ ← match bo_AMI b with
      | Some c =>
          let manifest := if ManifestOutput c =s DefaultAMIManifestOutput
                          then PathJoin [cwd; ManifestOutput c] else ManifestOutput c in
          let c := mkAMI (AMIFilterName c) (AMIFilterOwners c) (AMIRegions c) (AWSRegion c)
            (BuilderInstanceType c) manifest (RootDeviceName c) (SubnetID c) (VolumeSize c)
            (VolumeType c) (am_Proxy c) (am_Packages c) (am_Overrides c) in
          fatal_on_err (WriteFile amiConfigFile (Marshal c) 420)
      | None => mret tt
      end;
  _ ← fatal_on_err (executeMakeBuildCommand
        (make_target project ("local-build-ami-ubuntu-" +:+ OsVersion b)) env);
  mret (mkOutput "" "").

Definition build_hypervisor (cwd project detectedEksaVersion : string) (env : list string) (b : BuildOptions)
    : prog output :=
  if Hypervisor b =s VSphere then build_vsphere cwd project detectedEksaVersion env b
  else if Hypervisor b =s Baremetal then build_baremetal cwd project detectedEksaVersion env b
  else if Hypervisor b =s Nutanix then build_nutanix cwd project detectedEksaVersion env b
  else if Hypervisor b =s CloudStack then build_cloudstack cwd project detectedEksaVersion env b
  else if Hypervisor b =s AMI then build_ami cwd project env b
  else mret (mkOutput "" "").

(** ** The image *)
Definition move_output (upstream : string) (o : output) : prog unit :=
  when (negb (outputArtifactPath o =s "")) (
    outputImageGlob ← fatal_on_err (Glob (PathJoin [upstream; outputImageGlobPattern o]));
    image ← index outputImageGlob 0;
    fatal_on_err (Rename image (outputArtifactPath o))).

Definition BuildImage (b : BuildOptions) (h : arrays) : prog unit :=
  cwd ← fatal_on_err Getwd;
  _ ← prepare_airgapped b;
  buildToolingRepoPath ← getBuildToolingPath bv cwd;
  bd ← fatal_on_err (prepBuildToolingRepo bv buildToolingRepoPath b);
  _ ← check_release_channel buildToolingRepoPath b;
  let imageBuilderProjectPath := PathJoin [buildToolingRepoPath; imageBuilderProjectDirectory] in
  let upstream := PathJoin [imageBuilderProjectPath; imageBuilderCAPIDirectory] in
  env ← base_env bd.2 b;
  fh ← write_additional_files imageBuilderProjectPath b h;
  o ← build_hypervisor cwd imageBuilderProjectPath bd.2 (env ++ fh.1) b;
  _ ← move_output upstream o;
  cleanup bv buildToolingRepoPath.
End build.

(** ** The commands of a build *)
Section commands.
Context `{HH : !Host} `{HY : !Yaml} `{HT : !Tar} `{HM : !MapOrder} (bv : BuildVars).
Implicit Types (w : World) (b : BuildOptions).

(** The steps that run no command. *)
Lemma quiet_prepare_airgapped b : preserves (quiet as_exec) (prepare_airgapped b).
Proof.
  unfold prepare_airgapped, private_domains, extractAndPrepManifestTarball, getManifestRoot,
    extractTarball, extract_entry, rewrite_manifest, replaceStringInFile. quiet_solve.
Qed.

Lemma quiet_getBuildToolingPath cwd : preserves (quiet as_exec) (getBuildToolingPath bv cwd).
Proof. unfold getBuildToolingPath. quiet_solve. Qed.

Lemma quiet_cleanup dir : preserves (quiet as_exec) (cleanup bv dir).
Proof. unfold cleanup. quiet_solve. Qed.

Lemma quiet_manifest_url a : preserves (quiet as_exec) (getEksAReleasesManifestURL bv a).
Proof. unfold getEksAReleasesManifestURL, getManifestRoot. quiet_solve. Qed.
#[local] Hint Resolve quiet_prepare_airgapped quiet_getBuildToolingPath quiet_cleanup quiet_manifest_url : go.

Lemma quiet_getBundle b : preserves (quiet as_exec) (getBundle bv b).
Proof. unfold getBundle, readFileFromURL, getManifestRoot. quiet_solve. Qed.

Lemma quiet_base_env v b : preserves (quiet as_exec) (base_env bv v b).
Proof. unfold base_env. quiet_solve. Qed.

Lemma quiet_write_additional_files p b h : preserves (quiet as_exec) (write_additional_files p b h).
Proof. unfold write_additional_files. quiet_solve. Qed.

Lemma quiet_move_output u o : preserves (quiet as_exec) (move_output u o).
Proof. unfold move_output. quiet_solve. Qed.

Lemma quiet_airgap_env b r v : preserves (quiet as_exec) (airgap_env b r v).
Proof. unfold airgap_env, getAirGapCmdEnvVars, getManifestRoot. quiet_solve. Qed.

Lemma quiet_rhsm_proxy b p r : preserves (quiet as_exec) (rhsm_proxy b p r).
Proof. unfold rhsm_proxy. quiet_solve. Qed.

Lemma quiet_repo_url b : preserves (quiet as_exec) (getBuildToolingRepoUrl b).
Proof. unfold getBuildToolingRepoUrl. quiet_solve. Qed.
#[local] Hint Resolve quiet_getBundle quiet_base_env quiet_write_additional_files quiet_move_output
  quiet_airgap_env quiet_rhsm_proxy quiet_repo_url : go.

(** The steps that run commands. *)
Lemma stream_ret env argv w u w' : execCommandWithStreamOutput env argv w = (Ret u, w') →
  execs w' = execs w ++ [argv].
Proof.
  unfold execCommandWithStreamOutput. intros H. apply bind_ret_inv in H as (r & w1 & H & H2).
  apply exec_env_ret in H as (He & -> & _). simpl in H2. destruct (cr_err _); [done|].
  by apply mret_ret in H2 as [_ <-].
Qed.

Lemma execCommand_ret argv w out w' : execCommand argv w = (Ret out, w') → execs w' = execs w ++ [argv].
Proof.
  unfold execCommand. intros H. apply bind_ret_inv in H as (r & w1 & H & H2).
  apply exec_env_ret in H as (He & -> & _). simpl in H2. destruct (cr_err _); [done|].
  by apply mret_ret in H2 as [_ <-].
Qed.

Lemma make_ret c env w u w' : fatal_on_err (executeMakeBuildCommand c env) w = (Ret u, w') →
  execs w' = execs w ++ [["bash"; "-c"; c]].
Proof. intros H. apply fatal_on_err_ret in H. by apply stream_ret in H. Qed.

Definition clone_command (url path : string) : list string :=
  ["bash"; "-c"; "git clone " +:+ url +:+ " " +:+ path].
Definition checkout_command (path commit : string) : list string :=
  ["bash"; "-c"; "git -C " +:+ path +:+ " checkout " +:+ commit].
Definition toplevel_command (path : string) : list string :=
  ["git"; "-C"; path; "rev-parse"; "--show-toplevel"].

(** Where the build-tooling repository is: of a CodeBuild job the environment says it. *)
Definition tooling_path (env : gmap string string) (cwd : string) : string :=
  if codebuild bv =s "true" then default "" (env !! codebuildSourceDirectoryEnvVar)
  else PathJoin [cwd; "eks-anywhere-build-tooling"].

Lemma getBuildToolingPath_eq cwd w : getBuildToolingPath bv cwd w = (Ret (tooling_path (w_env w) cwd), w).
Proof. unfold getBuildToolingPath, tooling_path. by destruct (codebuild bv =s "true"). Qed.

(** What is done to find the bundles of the release, and what is found. *)
Definition find_bundles (path : string) b : prog (Bundles * string) :=
  _ ← prepare_airgapped b; _ ← when (Force b) (cleanup bv path); getBundle bv b.

Lemma env_prepare b : preserves same_env (prepare_airgapped b).
Proof.
  unfold prepare_airgapped, private_domains, extractAndPrepManifestTarball, getManifestRoot,
    extractTarball, extract_entry, rewrite_manifest, replaceStringInFile. quiet_solve.
Qed.

Lemma env_prep path b : preserves same_env (prepBuildToolingRepo bv path b).
Proof.
  unfold prepBuildToolingRepo, cleanup, getBundle, getManifestRoot, getEksAReleasesManifestURL, readFileFromURL,
    getBuildToolingRepoUrl, cloneRepo, checkoutRepo, execCommandWithStreamOutput, getManifestRoot. quiet_solve.
Qed.

Lemma getBuildToolingRepoUrl_ret b w url w' : getBuildToolingRepoUrl b w = (Ret url, w') → w' = w.
Proof.
  unfold getBuildToolingRepoUrl, deref. intros H. repeat case_match; go_inv H; try done.
  all: by repeat match goal with H : mret _ _ = _ |- _ => apply mret_ret in H as [_ <-] end.
Qed.

Lemma prep_ret path b w bd w' : prepBuildToolingRepo bv path b w = (Ret bd, w') →
  ∃ url first w1, (_ ← when (Force b) (cleanup bv path); getBundle bv b) w = (Ret bd, w1) ∧
  VersionsBundles bd.1 !! 0 = Some first ∧
  ((codebuild bv =s "true") = false → getBuildToolingRepoUrl b w1 = (Ret url, w1)) ∧
  execs w' = execs w ++ (if codebuild bv =s "true" then []
    else [clone_command url path; checkout_command path (GitCommit (EksD first))]).
Proof.
  unfold prepBuildToolingRepo. intros H. go_inv H. pose proof Hm as Hq. quiet_in Hq. pose proof Hm0 as Hq0. quiet_in Hq0.
  apply wrap_ret in Hm0. apply index_ret in Hm1 as [Hfirst <-]. destruct (codebuild bv =s "true").
  - apply mret_ret in Hm2 as [_ <-]. eexists "", _, _. rewrite app_nil_r. split; [by rewrite (bind_step _ _ _ _ _ Hm)|].
    split; [done|]. split; [done|congruence].
  - cbn [negb when] in Hm2. go_inv Hm2. pose proof Hm1 as Hurl. quiet_in Hm1.
    apply getBuildToolingRepoUrl_ret in Hurl as E. subst.
    apply wrap_ret, stream_ret in Hm3. apply stream_ret in Hm2.
    eexists _, _, _. split; [by rewrite (bind_step _ _ _ _ _ Hm)|]. split; [done|]. split; [done|].
    rewrite Hm2, Hm3, Hq0, Hq, <-app_assoc. done.
Qed.

Lemma getRepoRoot_ret w r w' : getRepoRoot bv w = (Ret r, w') →
  ∃ cwd, host_cwd = Some cwd ∧ execs w' = execs w ++ [toplevel_command (tooling_path (w_env w) cwd)].
Proof.
  unfold getRepoRoot. intros H. go_inv H. apply wrap_ret, getwd_ret in Hm as [Hcwd ->].
  rewrite getBuildToolingPath_eq in Hm0. injection Hm0 as <- <-.
  apply execCommand_ret in H. by eexists.
Qed.

Lemma check_channel_ret path b w u w' : check_release_channel bv path b w = (Ret u, w') →
  ∃ cwd, host_cwd = Some cwd ∧ execs w' = execs w ++ [toplevel_command (tooling_path (w_env w) cwd)].
Proof.
  unfold check_release_channel, GetSupportedReleaseBranches. intros H. go_inv H. go_inv Hm.
  apply fatal_on_err_ret, getRepoRoot_ret in Hm0 as (cwd & Hcwd & E). exists cwd. split; [done|]. rewrite <-E.
  quiet_in Hm1. quiet_in H. congruence.
Qed.

(** The kind of image a hypervisor takes, in the names of the make targets. *)
Definition image_kind (hypervisor : string) : string :=
  if hypervisor =s VSphere then "ova" else if hypervisor =s Baremetal then "raw" else hypervisor.

(** The target of the image builder's Makefile. *)
Definition make_goal b : string :=
  "local-build-" +:+ image_kind (Hypervisor b) +:+ "-" +:+ Os b +:+ "-" +:+ OsVersion b +:+
  (if (Firmware b =s EFI) && bool_decide ((Os b, Hypervisor b) ∈ [(Ubuntu, VSphere); (RedHat, Baremetal)])
   then "-efi" else "").

(** The operating systems each hypervisor supports. *)
Definition supported_pairs : list (string * string) :=
  [(Ubuntu, VSphere); (Ubuntu, Baremetal); (Ubuntu, Nutanix); (Ubuntu, AMI);
   (RedHat, VSphere); (RedHat, Baremetal); (RedHat, Nutanix); (RedHat, CloudStack)].

Lemma make_goal_plain b : (Os b, Hypervisor b) ∉ [(Ubuntu, VSphere); (RedHat, Baremetal)] →
  make_goal b = "local-build-" +:+ image_kind (Hypervisor b) +:+ "-" +:+ Os b +:+ "-" +:+ OsVersion b.
Proof. intros H. unfold make_goal. rewrite bool_decide_eq_false_2, andb_false_r, sapp_nil_r by done. done. Qed.

Lemma make_goal_efi b : (Os b, Hypervisor b) ∈ [(Ubuntu, VSphere); (RedHat, Baremetal)] →
  make_goal b = "local-build-" +:+ image_kind (Hypervisor b) +:+ "-" +:+ Os b +:+ "-" +:+ OsVersion b
    +:+ (if Firmware b =s EFI then "-efi" else "").
Proof. intros H. unfold make_goal. rewrite bool_decide_eq_true_2, andb_true_r by done. done. Qed.

Ltac os_cases Hos := rewrite !elem_of_cons, elem_of_nil in Hos; destruct Hos as [Hos|[Hos|[]]].

Lemma build_vsphere_ret cwd project v env b w o w' : Os b ∈ [Ubuntu; RedHat] → Hypervisor b = VSphere →
  build_vsphere cwd project v env b w = (Ret o, w') →
  execs w' = execs w ++ [["bash"; "-c"; make_target project (make_goal b)]].
Proof.
  intros Hos Hhv H. unfold build_vsphere in H. go_inv H. quiet_in Hm. quiet_in Hm0. quiet_in Hm1.
  apply make_ret in Hm3. rewrite Hm3. clear Hm3.
  assert (execs w3 = execs w2 ∧ a2.1 = make_target project (make_goal b)) as [-> ->]; [|congruence].
  os_cases Hos; rewrite Hos in Hm2.
  - apply mret_ret in Hm2 as [<- <-]. split; [done|]. simpl.
    rewrite make_goal_efi, Hos, Hhv by (rewrite Hos, Hhv; set_solver).
    destruct (Firmware b =s EFI); [done|]. by rewrite sapp_nil_r.
  - change (RedHat =s Ubuntu) with false in Hm2. change (RedHat =s RedHat) with true in Hm2.
    apply bind_ret_inv in Hm2 as (c & w4' & Hc & Hm2). apply deref_ret in Hc as [_ <-].
    apply mret_ret in Hm2 as [<- <-]. split; [done|]. simpl.
    by rewrite make_goal_plain, Hos, Hhv by (rewrite Hos, Hhv; apply (bool_decide_eq_true_1 _); reflexivity).
Qed.

Lemma build_baremetal_ret cwd project v env b w o w' : Os b ∈ [Ubuntu; RedHat] → Hypervisor b = Baremetal →
  build_baremetal cwd project v env b w = (Ret o, w') →
  execs w' = execs w ++ [["bash"; "-c"; make_target project (make_goal b)]].
Proof.
  intros Hos Hhv H. unfold build_baremetal in H. go_inv H. quiet_in Hm. quiet_in Hm0. quiet_in Hm1.
  apply make_ret in Hm3. rewrite Hm3. clear Hm3.
  assert (execs w3 = execs w2 ∧ a2.1 = make_target project (make_goal b)) as [-> ->]; [|congruence].
  os_cases Hos; rewrite Hos in Hm2.
  - apply mret_ret in Hm2 as [<- <-]. split; [done|]. simpl.
    by rewrite make_goal_plain, Hos, Hhv by (rewrite Hos, Hhv; apply (bool_decide_eq_true_1 _); reflexivity).
  - change (RedHat =s Ubuntu) with false in Hm2. change (RedHat =s RedHat) with true in Hm2.
    apply bind_ret_inv in Hm2 as (c & w4' & Hc & Hm2). apply deref_ret in Hc as [_ <-].
    apply mret_ret in Hm2 as [<- <-]. split; [done|]. simpl.
    rewrite make_goal_efi, Hos, Hhv by (rewrite Hos, Hhv; set_solver).
    destruct (Firmware b =s EFI); [done|]. by rewrite sapp_nil_r.
Qed.

Lemma build_nutanix_ret cwd project v env b w o w' : Os b ∈ [Ubuntu; RedHat] → Hypervisor b = Nutanix →
  build_nutanix cwd project v env b w = (Ret o, w') →
  execs w' = execs w ++ [["bash"; "-c"; make_target project (make_goal b)]].
Proof.
  intros Hos Hhv H. unfold build_nutanix in H. go_inv H. quiet_in Hm. quiet_in Hm0. quiet_in Hm1.
  apply make_ret in Hm3. apply deref_ret in Hm4 as [_ <-].
  assert (execs w' = execs w4) as -> by (destruct (_ =s "true"); by apply mret_ret in H as [_ <-]).
  rewrite Hm3. clear Hm3.
  assert (execs w3 = execs w2 ∧ a2.1 = make_target project (make_goal b)) as [-> ->]; [|congruence].
  os_cases Hos; rewrite Hos in Hm2.
  - apply mret_ret in Hm2 as [<- <-]. split; [done|]. simpl.
    by rewrite make_goal_plain, Hos, Hhv by (rewrite Hos, Hhv; apply (bool_decide_eq_true_1 _); reflexivity).
  - change (RedHat =s Ubuntu) with false in Hm2. change (RedHat =s RedHat) with true in Hm2.
    apply bind_ret_inv in Hm2 as (c & w4' & Hc & Hm2). apply deref_ret in Hc as [_ <-].
    apply mret_ret in Hm2 as [<- <-]. split; [done|]. simpl.
    by rewrite make_goal_plain, Hos, Hhv by (rewrite Hos, Hhv; apply (bool_decide_eq_true_1 _); reflexivity).
Qed.

Lemma build_cloudstack_ret cwd project v env b w o w' : Os b = RedHat → Hypervisor b = CloudStack →
  build_cloudstack cwd project v env b w = (Ret o, w') →
  execs w' = execs w ++ [["bash"; "-c"; make_target project (make_goal b)]].
Proof.
  intros Hos Hhv H. unfold build_cloudstack in H. rewrite Hos in H. go_inv H.
  apply deref_ret in Hm as [_ <-]. quiet_in Hm0. quiet_in Hm1. quiet_in Hm2.
  change (RedHat =s RedHat) with true in H. cbv iota beta zeta in H. go_inv H.
  apply make_ret in Hm. rewrite Hm, Hm2, Hm1, Hm0.
  by rewrite make_goal_plain, Hos, Hhv by (rewrite Hos, Hhv; apply (bool_decide_eq_true_1 _); reflexivity).
Qed.

Lemma build_ami_ret cwd project env b w o w' : Os b = Ubuntu → Hypervisor b = AMI →
  build_ami cwd project env b w = (Ret o, w') →
  execs w' = execs w ++ [["bash"; "-c"; make_target project (make_goal b)]].
Proof.
  intros Hos Hhv H. unfold build_ami in H. go_inv H. quiet_in Hm. apply make_ret in Hm0.
  rewrite Hm0, Hm. rewrite make_goal_plain, Hos, Hhv
    by (rewrite Hos, Hhv; apply (bool_decide_eq_true_1 _); reflexivity). done.
Qed.
Lemma supported_pairs_facts : Forall (λ p, p.1 ∈ [Ubuntu; RedHat] ∧ p.2 ∈ SupportedHypervisors ∧
  (p.2 = CloudStack → p.1 = RedHat) ∧ (p.2 = AMI → p.1 = Ubuntu)) supported_pairs.
Proof. apply (bool_decide_eq_true_1 _). vm_compute. reflexivity. Qed.

Lemma build_hypervisor_ret cwd project v env b w o w' : (Os b, Hypervisor b) ∈ supported_pairs →
  build_hypervisor cwd project v env b w = (Ret o, w') →
  execs w' = execs w ++ [["bash"; "-c"; make_target project (make_goal b)]].
Proof.
  intros Hp. unfold build_hypervisor.
  destruct (proj1 (Forall_forall _ _) supported_pairs_facts _ Hp) as (Hos & Hhv & Hcs & Hami).
  cbn [fst snd] in *.
  destruct (Hypervisor b =s VSphere) eqn:E1; [apply streq_true in E1; by apply build_vsphere_ret|].
  destruct (Hypervisor b =s Baremetal) eqn:E2; [apply streq_true in E2; by apply build_baremetal_ret|].
  destruct (Hypervisor b =s Nutanix) eqn:E3; [apply streq_true in E3; by apply build_nutanix_ret|].
  destruct (Hypervisor b =s CloudStack) eqn:E4; [apply streq_true in E4; apply build_cloudstack_ret; auto|].
  destruct (Hypervisor b =s AMI) eqn:E5; [apply streq_true in E5; apply build_ami_ret; auto|].
  apply streq_false in E1, E2, E3, E4, E5. unfold SupportedHypervisors in Hhv.
  rewrite !elem_of_cons, elem_of_nil in Hhv. tauto.
Qed.
End commands.

(** C1: the commands of a build. Let [bundles] be those that [getBundle] finds for the
    options when the preparations before it have been made from [w]. When [BuildImage]
    returns for a supported operating system and hypervisor, the commands it ran are, in this
    order and no others: the clone of the build-tooling repository, from the address of the
    options, into the directory under the working directory, and the checkout there of the
    commit named by the first of these bundles (neither of them in CodeBuild, where the
    environment says which directory it is), the query of the repository's root, and one
    [make] in the image builder's directory, whose target is [local-build-KIND-OS-VERSION],
    with [-efi] for the EFI builds of Ubuntu OVAs and Red Hat raw images. *)
Theorem build_commands `{HH : !Host} `{HY : !Yaml} `{HT : !Tar} bv b h w w' :
  (Os b, Hypervisor b) ∈ supported_pairs → BuildImage bv b h w = (Ret tt, w') →
  ∃ cwd url bundles version first w1,
    host_cwd = Some cwd ∧
    let repo := tooling_path bv (w_env w) cwd in
    find_bundles bv repo b w = (Ret (bundles, version), w1) ∧ VersionsBundles bundles !! 0 = Some first ∧
    ((codebuild bv =s "true") = false → getBuildToolingRepoUrl b w1 = (Ret url, w1)) ∧
    execs w' = execs w
      ++ (if codebuild bv =s "true" then []
          else [clone_command url repo; checkout_command repo (GitCommit (EksD first))])
      ++ [toplevel_command repo;
          ["bash"; "-c"; make_target (PathJoin [repo; imageBuilderProjectDirectory]) (make_goal b)]].
Proof.
  intros Hp H. unfold BuildImage in H. go_inv H.
  apply fatal_on_err_ret, getwd_ret in Hm as [Hcwd ->].
  pose proof (by_preserves _ _ _ _ _ (env_prepare b) Hm0) as V0. unfold same_env in V0.
  pose proof (quiet_execs _ _ _ _ (quiet_prepare_airgapped b) Hm0) as E0.
  rewrite getBuildToolingPath_eq in Hm1. injection Hm1 as <- <-.
  apply fatal_on_err_ret in Hm2. pose proof (by_preserves _ _ _ _ _ (env_prep bv _ b) Hm2) as V2. unfold same_env in V2.
  apply prep_ret in Hm2 as (url & first & w1' & Hb & Hf & Hu & E2).
  apply check_channel_ret in Hm3 as (cwd' & Hcwd' & E3). rewrite Hcwd in Hcwd'. injection Hcwd' as <-.
  apply (quiet_execs _ _ _ _ (quiet_base_env bv _ b)) in Hm4.
  apply (quiet_execs _ _ _ _ (quiet_write_additional_files _ b h)) in Hm5.
  apply build_hypervisor_ret in Hm6; [|done].
  apply (quiet_execs _ _ _ _ (quiet_move_output _ _)) in Hm7.
  apply (quiet_execs _ _ _ _ (quiet_cleanup bv _)) in H.
  rewrite V2, V0 in E3. rewrite V0 in *. cbv zeta.
  match goal with H : (_ ≫= _) _ = (Ret ?bd, _) |- _ => destruct bd as [bundles version] end.
  eexists _, url, bundles, version, first, w1'. split; [exact Hcwd|].
  split; [unfold find_bundles; by rewrite (bind_step _ _ _ _ _ Hm0)|]. split; [done|]. split; [done|].
  rewrite H, Hm7, Hm6, Hm5, Hm4, E3, E2, E0. by rewrite <-!app_assoc.
Qed.

(** Manifests with one release and one bundle. *)
Definition sample_yaml : Yaml := {|
  yaml_release _ := Some (mkRelease "v0.18.0" [mkEksARelease "v0.18.0" "https://bundles"]);
  yaml_bundles _ := Some (mkBundles [mkVersionsBundle "1.27" (mkEksDBundle "abc" "" "" "" "")]);
  yaml_eksd_releases _ := None;
  yaml_eksd_manifest _ := None;
  yaml_file_vars _ _ := "" |}.

Definition ami_build : BuildOptions :=
  mkBuildOptions Ubuntu "2004" "" AMI None None None None None None "1-27" false false "" BIOS 0 "".

Definition sample_world : World :=
  mkWorld {[ supportedReleaseBranchesFileName := File ("1-26" +:+ nl +:+ "1-27") 420 ]} ∅ [].

Lemma build_commands_witness :
  let repo := "/work/eks-anywhere-build-tooling" in
  ∃ w', BuildImage (HH := plain_host) (HY := sample_yaml) (HT := sample_tar) (mkBuildVars "" "" "")
          ami_build initial_arrays sample_world = (Ret tt, w') ∧
  execs w' = [clone_command buildToolingRepoUrl repo; checkout_command repo "abc"; toplevel_command repo;
    ["bash"; "-c"; make_target (repo +:+ "/projects/kubernetes-sigs/image-builder") (make_goal ami_build)]] ∧
  ∃ cwd url bundles version first w1,
    Some "/work" = Some cwd ∧
    let repo := tooling_path (mkBuildVars "" "" "") (w_env sample_world) cwd in
    find_bundles (HH := plain_host) (HY := sample_yaml) (HT := sample_tar) (mkBuildVars "" "" "") repo ami_build sample_world
      = (Ret (bundles, version), w1) ∧
    VersionsBundles bundles !! 0 = Some first ∧
    (false = false → getBuildToolingRepoUrl ami_build w1 = (Ret url, w1)) ∧
    execs w' = execs sample_world ++ [clone_command url repo; checkout_command repo (GitCommit (EksD first))]
      ++ [toplevel_command repo;
          ["bash"; "-c"; make_target (PathJoin [repo; imageBuilderProjectDirectory]) (make_goal ami_build)]].
Proof.
  intros repo. eexists. split; [apply run_eq; vm_compute; reflexivity|]. split; [vm_compute; reflexivity|].
  apply (build_commands (HH := plain_host) (HY := sample_yaml) (HT := sample_tar)
    (mkBuildVars "" "" "") ami_build initial_arrays sample_world);
    [apply (bool_decide_eq_true_1 _); vm_compute; reflexivity|apply run_eq; vm_compute; reflexivity].
Defined.

Section airgapped_raw.
Context `{HH : !Host} `{HY : !Yaml} `{HT : !Tar} (bv : BuildVars) (fl : Flags).

(** Without the flag no configuration is loaded for an Ubuntu bare-metal build. *)
Lemma load_raw_without_config bo w : Os bo = Ubuntu → Hypervisor bo = Baremetal →
  load_config "" bo w = (Ret bo, w).
Proof. intros Ho Hh. unfold load_config. by rewrite Ho, Hh. Qed.

Lemma raw_names bo : accepted bo = true → Os bo = Ubuntu → Hypervisor bo = Baremetal → no_config bo →
  let bn := normalize_names (completed bo) in
  Os bn = Ubuntu ∧ Hypervisor bn = Baremetal ∧ AirGapped bn = AirGapped bo ∧ bo_Baremetal bn = None ∧
  config_path fl (completed bo) = baremetalConfigFile fl.
Proof.
  intros Hacc Ho Hh Hno. destruct (default_version_fields bo) as (Fo & Fh & _ & _ & Fa & _).
  destruct (default_firmware_fields (default_version bo)) as (Fo' & Fh' & _ & _ & Fa' & _).
  destruct (no_config_completed bo Hno) as (_ & Hb & _). unfold completed in *.
  rewrite <-Fo', Fo, Ho in *. cbv zeta.
  assert (Os (default_firmware (default_version bo)) = Ubuntu) as Eo by congruence.
  assert (Hypervisor (default_firmware (default_version bo)) = Baremetal) as Eh by congruence.
  unfold normalize_names. rewrite Eo, Eh.
  unfold config_path. rewrite Eh. destruct (negb _); cbn; split_and!; (done || congruence).
Qed.

(** What [BuildImage] does with such options, whatever else they are. *)
Lemma raw_build_panics b h w dir : Hypervisor b = Baremetal → AirGapped b = true → bo_Baremetal b = None →
  host_cwd = Some dir → BuildImage bv b h w = (Panic "invalid memory address or nil pointer dereference", w).
Proof.
  intros Hh Ha Hb Hcwd. unfold BuildImage, fatal_on_err, Getwd. rewrite Hcwd. rewrite (bind_step _ _ _ dir w) by done.
  unfold prepare_airgapped, private_domains. rewrite Ha, Hh, Hb. reflexivity.
Qed.

Lemma load_files_raw h bo w h' bo' w' : load_files fl h bo w = (Ret (h', bo'), w') →
  Hypervisor bo' = Hypervisor bo ∧ AirGapped bo' = AirGapped bo ∧ bo_Baremetal bo' = bo_Baremetal bo.
Proof.
  unfold load_files. destruct (negb _); intros H.
  - do 2 (apply bind_ret_inv in H as (? & ? & _ & H)). apply mret_ret in H as [[= <- <-] _]. done.
  - apply mret_ret in H as [[= <- <-] _]. done.
Qed.
End airgapped_raw.

(** C37: an air-gapped build of an Ubuntu raw image without [--baremetal-config], whatever
    its other options are. [ValidateInputs] asks for the private servers' domains only of a
    configuration it loaded, so it accepts the options whenever the flags alone are
    acceptable (with an additional files configuration, whenever that loads too); and
    whenever it has accepted them, [BuildImage] dereferences the nil configuration before
    it has done anything. *)
Theorem airgapped_raw_panics `{HH : !Host} `{HY : !Yaml} `{HT : !Tar} bv fl bo h w dir :
  Os bo = Ubuntu → Hypervisor bo = Baremetal → AirGapped bo = true → no_config bo →
  baremetalConfigFile fl = "" → host_cwd = Some dir →
  (accepted bo = true → additionalFilesConfigFile fl = "" → ∃ bo', ValidateInputs fl h bo w = (Ret (h, bo'), w)) ∧
  (∀ h' bo' w', ValidateInputs fl h bo w = (Ret (h', bo'), w') →
     BuildImage bv bo' h' w' = (Panic "invalid memory address or nil pointer dereference", w')).
Proof.
  intros Ho Hh Ha Hno Hfl Hcwd. split.
  - intros Hacc Hf. destruct (raw_names fl bo Hacc Ho Hh Hno) as (No & Nh & _ & _ & Np).
    exists (normalize_names (completed bo)). unfold ValidateInputs.
    rewrite (bind_step _ _ _ (completed bo) w) by (by rewrite validate_options_eq, Hacc). cbv zeta. rewrite Np, Hfl.
    rewrite (bind_step _ _ _ _ _ (load_raw_without_config _ w No Nh)). unfold load_files. by rewrite Hf.
  - intros h' bo' w' H. unfold ValidateInputs in H. apply bind_ret_inv in H as (bc & w1 & Hv & H).
    apply validate_options_ret in Hv as (Hacc & -> & ->). cbv zeta in H.
    destruct (raw_names fl bo Hacc Ho Hh Hno) as (No & Nh & Na & Nb & Np). rewrite Np, Hfl in H.
    rewrite (bind_step _ _ _ _ _ (load_raw_without_config _ w No Nh)) in H.
    apply load_files_raw in H as (Eh & Ea & Eb). apply (raw_build_panics bv bo' h' w' dir); congruence.
Qed.

Lemma airgapped_raw_panics_witness :
  accepted (ubuntu_raw true) = true ∧
  (accepted (ubuntu_raw true) = true → "" = "" → ∃ bo', ValidateInputs (HH := plain_host) (mkFlags "" "" "" "" "" "")
     initial_arrays (ubuntu_raw true) empty_world = (Ret (initial_arrays, bo'), empty_world)) ∧
  (∀ h' bo' w', ValidateInputs (HH := plain_host) (mkFlags "" "" "" "" "" "") initial_arrays (ubuntu_raw true)
       empty_world = (Ret (h', bo'), w') →
     BuildImage (HH := plain_host) (HY := sample_yaml) (HT := sample_tar) (mkBuildVars "" "" "") bo' h' w'
     = (Panic "invalid memory address or nil pointer dereference", w')).
Proof.
  split; [vm_compute; reflexivity|].
  apply (airgapped_raw_panics (HH := plain_host) (HY := sample_yaml) (HT := sample_tar) (mkBuildVars "" "" "")
    (mkFlags "" "" "" "" "" "") (ubuntu_raw true) initial_arrays empty_world "/work"); try reflexivity.
  repeat split.
Defined.
