(* ===== verification/BRUtils.v ===== *)
(** * bottlerocket-bootstrap: user data, static pods and files

    [pkg/utils/{userdata,pods,utils,parsers}.go], [pkg/files], [pkg/executables] and the
    calls of [pkg/service/secretsmanager.go]. YAML and kubeconfig parsers, the Secrets
    Manager, the user database and the gzip format are [BRLib]: other libraries and
    services. *)
From S2P Require Import Prelude GoStrings Base64 World GoJson.
From stdpp Require Import base tactics strings list gmap sorting.
From Stdlib Require Import Ascii.

Local Open Scope string_scope.
Local Open Scope list_scope.

(** ** Data *)
Record WriteFileData := mkWriteFile {
  wf_Path : string; wf_Owner : string; wf_Permissions : string; wf_Content : string }.

Record UserData := mkUserData {
  UserDataType : string; WriteFiles : list WriteFileData; RunCmd : string }.

Record AWSSecretsManagerData := mkSecretsData {
  Provider : string; Prefix : string; Chunks : Z }.
Record AWSSecretsManagerUserData := mkSecretsUserData {
  s_UserDataType : string; UserDataSource : AWSSecretsManagerData }.

Record HTTPGetAction := mkHTTPGet {
  hg_Scheme : string; hg_Host : string; hg_Port : Z; hg_Path : string }.
(** A probe may be of another kind than HTTP: then [HTTPGet] is nil. *)
Record Probe := mkProbe { HTTPGet : option HTTPGetAction }.
Record Container := mkContainer { LivenessProbe : option Probe; ReadinessProbe : option Probe }.
Record Pod := mkPod { pod_Name : string; Containers : list Container }.

(** What systemd says of the units that changed: a deleted unit is sent as nil. *)
Record UnitStatus := mkUnit { ActiveState : string; SubState : string }.
Inductive systemd_message :=
| Units (changed : gmap string (option UnitStatus))
| UnitsError (e : string).

Class BRLib := {
  yaml_userdata : string → option UserData;
  yaml_secrets : string → option AWSSecretsManagerUserData;
  yaml_pod : string → option Pod;
  gunzip : string → option string;
  secrets_service : World → option string;            (* [None]: created *)
  get_secret : World → string → string + string;      (* [inl]: an error *)
  lookup_user : string → option (string * string);    (* uid and gid *)
  kubeconfig_servers : string → option (list string); (* the servers of the clusters *)
  systemd_dial : World → option string;               (* [None]: connected *)
  systemd_messages : World → list (Z * systemd_message);
  body_error : World → string → option string;        (* reading the body of an answer *)
  select_first : World → bool;                        (* which of two ready cases a select takes *)
  version_valid : string → bool;                      (* k8s.io/apimachinery's ParseGeneric accepts *)
  version_compare : string → string → option Z;       (* its Compare: -1, 0, 1, or an error *)
  yaml_map : string → option (list (string * json));  (* YAML into a map of interfaces *)
  ebs_walk_time : World → Z;                          (* how long reading the disk takes *)
}.

Section utils.
Context `{HH : !Host} `{HL : !BRLib}.

(** ** Commands: [executables.Execute] and plain [exec.Command] *)
Definition Execute (binary : string) (args : list string) : prog string :=
  r ← exec (binary :: args);
  match r.1 with
  | None => mret r.2
  | Some err => fail ("Error running command: " +:+ err)
  end.

Definition ApiclientBinary : string := "apiclient".
Definition BootstrapContainerName : string := "kubeadm-bootstrap".

Definition DisableBootstrapContainer : prog unit :=
  _ ← wrap "Error disabling bootstrap container"
        (run [ApiclientBinary; "set"; "host-containers." +:+ BootstrapContainerName +:+ ".enabled=false"]);
  mret tt.

(** ** pkg/files *)
Definition files_Write (path content : string) (permission : Z) : prog unit :=
  _ ← wrap "Error creating directory" (MkdirAll (Dir path));
  wrap ("Error writing file: " +:+ path) (WriteFile path content permission).

Definition CreateSymLink (from to : string) : prog unit :=
  _ ← wrap "error creating symlink" (run ["bash"; "-c"; "ln -sfn " +:+ from +:+ " " +:+ to]);
  mret tt.

(** Any error other than a missing file counts as existence. *)
Definition PathExists (path : string) : prog bool :=
  st ← Stat path;
  mret (match st with StatNotExist => false | _ => true end).

(** ** User data from the Secrets Manager *)
Definition secret_name (prefix : string) (i : nat) : string := prefix +:+ "-" +:+ Itoa (Z.of_nat i).

Definition GetSecretValue (name : string) : prog string :=
  w ← get;
  _ ← Call "secretsmanager.GetSecretValue" [name];
  match get_secret w name with
  | inl e => fail e
  | inr bin => mret bin
  end.

(** The result of the deletion is not looked at. *)
Definition DeleteSecret (name : string) : prog unit := Call "secretsmanager.DeleteSecret" [name].

Definition load_chunks (prefix : string) (chunks : Z) : prog string :=
  foldM (List.seq 0 (Z.to_nat chunks)) "" (λ acc i,
    secret ← GetSecretValue (secret_name prefix i);
    _ ← DeleteSecret (secret_name prefix i);
    mret (acc +:+ secret)).

Definition decode_user_data (compressed : string) : prog UserData :=
  match gunzip compressed with
  | None => fail "gzip: invalid data"
  | Some uncompressed =>
      match DecodeString uncompressed with
      | None => fail "illegal base64 data"
      | Some actual =>
          match yaml_userdata actual with
          | None => fail "Error unmarshalling user data"
          | Some u => mret u
          end
      end
  end.

Definition loadUserDataFromSecretsManager (d : AWSSecretsManagerUserData) : prog UserData :=
  compressed ← load_chunks (Prefix (UserDataSource d)) (Chunks (UserDataSource d));
  decode_user_data compressed.

Definition processAWSSecretsManagerUserData (data : string) : prog UserData :=
  match yaml_secrets data with
  | None => fail "Error unmarshalling user data"
  | Some d => recover (loadUserDataFromSecretsManager d) (λ _, exit 1)
  end.

Definition NewSecretsManagerService : prog unit :=
  w ← get;
  _ ← Call "imds.GetRegion" [];
  match secrets_service w with
  | None => mret tt
  | Some e => fail ("Unable to retrieve the region from the EC2 instance: " +:+ e)
  end.

Definition awsSecretsManager : string := "AWSSecretsManager".

Definition processUserData (data : string) : prog UserData :=
  match yaml_userdata data with
  | None => fail "Error unmarshalling user data"
  | Some userData =>
      if UserDataType userData =s awsSecretsManager then
        _ ← wrap "Error creating secrets manager service" NewSecretsManagerService;
        processAWSSecretsManagerUserData data
      else mret userData
  end.

Definition buildUserData (filePath : string) : prog UserData :=
  data ← wrap "Error reading user data file" (ReadFile filePath);
  processUserData data.

Definition ResolveBootstrapContainerUserData : prog UserData :=
  buildUserData "/.bottlerocket/bootstrap-containers/current/user-data".
Definition ResolveHostContainerUserData : prog UserData :=
  buildUserData "/.bottlerocket/host-containers/current/user-data".

(** ** The files of the user data *)

(** [fs.FileMode(perm)]: 32 bits. *)
Definition file_mode (perm : Z) : Z := (perm mod 2 ^ 32)%Z.

Definition permissions (file : WriteFileData) : option Z :=
  ParseInt (if wf_Permissions file =s "" then "0640" else wf_Permissions file) 8.

(** The part of the owner before the first colon. *)
Definition owner_name (file : WriteFileData) : string := hd "" (Split (wf_Owner file) ":").

(** [id, _ := strconv.Atoi(s)]: of a value outside 64 bits the nearest bound is left, of
    anything that is no number zero. *)
Definition numeric_id (s : string) : Z :=
  let '(neg, body) :=
    match s with
    | String "-" b => (true, b)
    | String "+" b => (false, b)
    | _ => (false, s)
    end in
  match digits_value 10 body 0 with
  | Some v => Z.max int64_min (Z.min int64_max (if (neg : bool) then (- v)%Z else v))
  | None => 0%Z
  end.

Example numeric_id_ex : (numeric_id "1000", numeric_id "-9223372036854775809", numeric_id "root", numeric_id "")
  = (1000, int64_min, 0, 0)%Z.
Proof. reflexivity. Qed.

Definition write_user_file (file : WriteFileData) : prog unit :=
  match permissions file with
  | None => fail "Error converting string to int for permissions"
  | Some perm =>
      _ ← wrap ("Error writing file: " +:+ wf_Path file)
            (files_Write (wf_Path file) (wf_Content file) (file_mode perm));
      match lookup_user (owner_name file) with
      | None => fail "Error getting user/group details "
      | Some (uid, gid) =>
          wrap "Error running chown to set owners/groups"
            (Chown (wf_Path file) (numeric_id uid) (numeric_id gid))
      end
  end.

Definition WriteUserDataFiles (userData : UserData) : prog unit :=
  forM (WriteFiles userData) write_user_file.

(** ** Static pods *)
Definition isPodFile (name : string) : bool := (Ext name =s ".yaml") || (Ext name =s ".manifest").

Definition base_file_name (name : string) : string := TrimSuffix name (Ext name).

Definition static_pod_command (baseFileName b64Manifest : string) : list string :=
  ["bash"; "-c"; "apiclient set " +:+ q ("kubernetes.static-pods." +:+ baseFileName +:+ ".manifest")
     +:+ "=" +:+ q b64Manifest +:+ " "
     +:+ q ("kubernetes.static-pods." +:+ baseFileName +:+ ".enabled") +:+ "=true"].

Definition UnmarshalPodDefinition (podDef : string) : prog Pod :=
  match yaml_pod podDef with
  | None => fail "Error getting unmarshalling pod spec into structs"
  | Some p => mret p
  end.

Definition enable_static_pod (path : string) (pods : list Pod) (f : string * bool) : prog (list Pod) :=
  if negb (isPodFile f.1) then mret pods
  else
    fileData ← wrap ("Error reading file " +:+ f.1) (ReadFile (PathJoin [path; f.1]));
    _ ← wrap "error running apiclient command for static pod"
          (run (static_pod_command (base_file_name f.1) (EncodeToString fileData)));
    podDef ← wrap "Error getting pod def from manifest" (UnmarshalPodDefinition fileData);
    mret (pods ++ [podDef]).

Definition EnableStaticPods (path : string) : prog (list Pod) :=
  files ← wrap "error reading from manifest path" (ReadDir path);
  foldM files [] (enable_static_pod path).

(** ** The API server of a kubeconfig *)

(** The error wrapped when there is not exactly one cluster is that of the reading before,
    which is nil. *)
Definition GetApiServerFromKubeConfig (path : string) : prog string :=
  kubeData ← wrap "Error getting kubeconfig parsed into raw config" (ReadFile path);
  match kubeconfig_servers kubeData with
  | None => fail "Error getting kubeconfig parsed into raw config"
  | Some servers =>
      let err := None in
      if negb (bool_decide (length servers = 1)) then
        returning "" (errors_Wrap err "More than one cluster found in control-plane init admin.conf")
      else mret (hd "" servers)
  end.
End utils.

(** ** What the steps leave in the trace *)
Definition get_call (prefix : string) (i : nat) : string * list string :=
  ("secretsmanager.GetSecretValue", [secret_name prefix i]).
Definition delete_call (prefix : string) (i : nat) : string * list string :=
  ("secretsmanager.DeleteSecret", [secret_name prefix i]).

Section chunks.
Context `{HL : !BRLib} (prefix : string) (part : nat → string).

Lemma GetSecretValue_eq name w : GetSecretValue name w =
  (match get_secret w name with inl e => Err e | inr bin => Ret bin end,
   log (ECall "secretsmanager.GetSecretValue" [name]) w).
Proof.
  unfold GetSecretValue. rewrite (bind_step _ _ _ w w) by done.
  erewrite bind_step by (unfold Call, modify; done). by destruct (get_secret w name).
Qed.

Definition load_chunk (acc : string) (i : nat) : prog string :=
  secret ← GetSecretValue (secret_name prefix i);
  _ ← DeleteSecret (secret_name prefix i);
  mret (acc +:+ secret).

(** The calls for the chunks [i .. i+k-1] when all of them could be fetched. *)
Definition fetched (i k : nat) : list (string * list string) :=
  flat_map (λ j, [get_call prefix j; delete_call prefix j]) (List.seq i k).

(** Chunks [i .. i+k-1] answer with their parts, each after the calls for those before. *)
Lemma load_chunks_ok i k rest acc w :
  (∀ d v, d < k → obs as_call v = obs as_call w ++ fetched i d →
     get_secret v (secret_name prefix (i + d)) = inr (part (i + d)))%nat →
  ∃ w1, obs as_call w1 = obs as_call w ++ fetched i k ∧
    foldM (List.seq i k ++ rest) acc load_chunk w =
    foldM rest (acc +:+ StrJoin (map part (List.seq i k)) "") load_chunk w1.
Proof.
  revert i acc w. induction k as [|k IH]; intros i acc w Hok.
  - exists w. unfold fetched. cbn [List.seq flat_map map StrJoin app]. by rewrite app_nil_r, sapp_nil_r.
  - cbn [List.seq app foldM].
    set (w2 := log (ECall "secretsmanager.DeleteSecret" [secret_name prefix i])
      (log (ECall "secretsmanager.GetSecretValue" [secret_name prefix i]) w)).
    assert (obs as_call w2 = obs as_call w ++ [get_call prefix i; delete_call prefix i]) as E2.
    { unfold w2. rewrite !obs_log. simpl. by rewrite <-!app_assoc. }
    destruct (IH (S i) (acc +:+ part i) w2) as (w1 & Hc & Hf).
    { intros d v Hd Hv. replace (S i + d)%nat with (i + S d)%nat by lia. apply Hok; [lia|].
      rewrite Hv, E2, <-app_assoc. done. }
    exists w1. split.
    + rewrite Hc, E2, <-app_assoc. done.
    + rewrite (bind_step _ _ _ (acc +:+ part i) w2).
      * rewrite Hf. f_equal. rewrite sapp_assoc. f_equal.
        destruct k; simpl; [by rewrite sapp_nil_r|done].
      * unfold load_chunk. erewrite bind_step; [|rewrite GetSecretValue_eq; specialize (Hok 0 w)%nat;
          rewrite Nat.add_0_r in Hok; rewrite Hok by (lia || apply symmetry, app_nil_r); reflexivity]. done.
Qed.

(** A chunk that cannot be fetched ends the loop. *)
Lemma load_chunk_err i l acc w e : get_secret w (secret_name prefix i) = inl e →
  foldM (i :: l) acc load_chunk w = (Err e, log (ECall "secretsmanager.GetSecretValue" [secret_name prefix i]) w).
Proof. intros He. cbn [foldM]. apply bind_err, bind_err. by rewrite GetSecretValue_eq, He. Qed.

(** A secret whose deletion was requested is refused. *)
Definition honours_deletions : Prop := ∀ v j, delete_call prefix j ∈ obs as_call v →
  ∃ e, get_secret v (secret_name prefix j) = inl e.
End chunks.

Lemma obs_grows {X} (f : event → option X) w v x : trace_grows w v → x ∈ obs f w → x ∈ obs f v.
Proof. intros [l Hl] Hx. unfold obs in *. rewrite Hl, omap_app. apply elem_of_app. by left. Qed.

(** C22: the chunks of a user data stored in the Secrets Manager are fetched in order, and
    each is deleted as soon as it has been fetched. Let each chunk before chunk [k] be
    there when it is asked for, which is before its deletion is requested. When these are
    all the chunks, their concatenation is what is decoded; when chunk [k] cannot be
    fetched, that error ends the run and no later chunk is asked for. In both cases, if the
    service no longer gives a secret whose deletion was requested, the node cannot be
    bootstrapped again from them: every later run fails at the first chunk. *)
Theorem secrets_chunks `{HL : !BRLib} prefix n part (k : nat) e w :
  (k ≤ n)%nat →
  (∀ j v, j < k → obs as_call v = obs as_call w ++ fetched prefix 0 j →
     get_secret v (secret_name prefix j) = inr (part j))%nat →
  (k < n → ∀ v, obs as_call v = obs as_call w ++ fetched prefix 0 k → get_secret v (secret_name prefix k) = inl e)%nat →
  ∃ w', load_chunks prefix (Z.of_nat n) w =
      ((if bool_decide (k = n) then Ret (StrJoin (map part (List.seq 0 n)) "") else Err e), w') ∧
    obs as_call w' = obs as_call w ++ fetched prefix 0 k ++ (if bool_decide (k = n) then [] else [get_call prefix k]) ∧
    (honours_deletions prefix → (0 < k)%nat → ∀ v, trace_grows w' v →
     ∃ e' v', load_chunks prefix (Z.of_nat n) v = (Err e', v') ∧ obs as_call v' = obs as_call v ++ [get_call prefix 0]).
Proof.
  intros Hk Hok Hbad.
  destruct (load_chunks_ok prefix part 0 k (List.seq k (n - k)) "" w) as (w1 & Hc & Hf);
    [intros d v Hd Hv; by apply Hok|].
  replace (List.seq 0 k ++ List.seq k (n - k)) with (List.seq 0 n) in Hf
    by (rewrite <-seq_app; f_equal; lia).
  unfold load_chunks. rewrite Nat2Z.id. change (λ acc i, _) with (load_chunk prefix). rewrite Hf.
  assert (∃ w', foldM (List.seq k (n - k)) ("" +:+ StrJoin (map part (List.seq 0 k)) "") (load_chunk prefix) w1 =
    ((if bool_decide (k = n) then Ret (StrJoin (map part (List.seq 0 n)) "") else Err e), w') ∧
    obs as_call w' = obs as_call w ++ fetched prefix 0 k ++ (if bool_decide (k = n) then [] else [get_call prefix k]))
    as (w' & Hw' & Hcalls).
  { case_bool_decide as E.
    - subst k. rewrite Nat.sub_diag. exists w1. by rewrite app_nil_r.
    - destruct (n - k)%nat as [|d] eqn:Ed; [lia|]. cbn [List.seq]. eexists.
      split; [apply load_chunk_err, Hbad; [lia|done]|]. rewrite obs_log, Hc. simpl. by rewrite <-app_assoc. }
  exists w'. split; [done|]. split; [done|]. intros Hdel Hk0 v Hv. destruct (Hdel v 0%nat) as [e' He'].
  { apply (obs_grows _ w' v); [done|]. rewrite Hcalls. apply elem_of_app. right. apply elem_of_app. left.
    unfold fetched. destruct k; [lia|]. simpl. right. left. }
  destruct n as [|n]; [lia|]. cbn [List.seq]. eexists e', _. split; [by apply load_chunk_err|].
  by rewrite obs_log.
Qed.

(** Three chunks, the last of which is missing, in a service that honours deletions. *)
Definition sample_brlib : BRLib := {|
  yaml_userdata s := Some (mkUserData "" [mkWriteFile "/etc/a" "root:admin" "" s] "WorkerJoin");
  yaml_secrets _ := None;
  yaml_pod s := Some (mkPod s []);
  gunzip s := Some s;
  secrets_service _ := None;
  get_secret w name :=
    if bool_decide (("secretsmanager.DeleteSecret", [name]) ∈ obs as_call w) then inl "InvalidRequestException"
    else if name =s "p-2" then inl "ResourceNotFoundException" else inr "QUJD";
  lookup_user _ := Some ("0", "0");
  kubeconfig_servers s := Some (if s =s "clusters: []" then [] else ["https://10.0.0.1:6443"]);
  systemd_dial _ := None;
  systemd_messages _ := [(1, Units {[ "multi-user.target" := Some (mkUnit "active" "active");
                                      "kubelet.service" := Some (mkUnit "active" "running") ]})]%Z;
  body_error _ _ := None;
  select_first _ := true;
  version_valid _ := true;
  version_compare _ _ := Some 0%Z;
  yaml_map s := Some [("etcd", JObj (if s =s "" then [("local", JObj [])] else [("external", JObj [])]));
    ("discovery", JObj [("bootstrapToken", JObj [("apiServerEndpoint", JStr "10.0.0.1:6443"); ("token", JStr "a.b")])])];
  ebs_walk_time _ := Z0 |}.

Lemma secrets_chunks_witness :
  honours_deletions (HL := sample_brlib) "p" ∧
  ∃ w', load_chunks (HL := sample_brlib) "p" 3 empty_world = (Err "ResourceNotFoundException", w') ∧
    obs as_call w' = fetched "p" 0 2 ++ [get_call "p" 2] ∧
    (honours_deletions (HL := sample_brlib) "p" → (0 < 2)%nat → ∀ v, trace_grows w' v →
     ∃ e' v', load_chunks (HL := sample_brlib) "p" 3 v = (Err e', v') ∧ obs as_call v' = obs as_call v ++ [get_call "p" 0]).
Proof.
  split.
  - intros v j Hj. exists "InvalidRequestException". unfold get_secret, sample_brlib.
    by rewrite bool_decide_eq_true_2.
  - refine (secrets_chunks (HL := sample_brlib) "p" 3 (λ _, "QUJD") 2 "ResourceNotFoundException"
      empty_world _ _ _).
    + lia.
    + intros [|[|j]] v Hj Hv; [| |lia]; unfold get_secret, sample_brlib; by rewrite Hv.
    + intros _ v Hv. unfold get_secret, sample_brlib. by rewrite Hv.
Defined.

(** What [PathExists] takes for the existence of a file. *)
Definition taken_to_exist `{!Host} (w : World) (file : string) : Prop :=
  is_Some (host_fault w (EStat file)) ∨ is_Some (w_fs w !! file).

Lemma PathExists_eq `{HH : !Host} file w : ∃ b, PathExists file w = (Ret b, log (EStat file) w) ∧
  (b = true → taken_to_exist w file).
Proof.
  unfold PathExists, Stat, mbind, go_mbind, go_bind, taken_to_exist. simpl.
  destruct (host_fault w (EStat file)); [by eexists; eauto|].
  destruct (w_fs w !! file); eexists; (split; [reflexivity|]); naive_solver.
Qed.

Lemma PathExists_missing `{HH : !Host} file w : host_fault w (EStat file) = None → w_fs w !! file = None →
  PathExists file w = (Ret false, log (EStat file) w).
Proof. intros Hf Hm. unfold PathExists, Stat, mbind, go_mbind, go_bind. simpl. by rewrite Hf, Hm. Qed.

(** ** The files of the user data *)

(** What writing one file does, in order. *)
Definition file_events `{!BRLib} (file : WriteFileData) (evs : list event) : Prop :=
  ∃ perm uid gid, permissions file = Some perm ∧ lookup_user (owner_name file) = Some (uid, gid) ∧
    evs = [EMkdirAll (Dir (wf_Path file)); EWrite (wf_Path file) (wf_Content file) (file_mode perm);
           EChown (wf_Path file) (numeric_id uid) (numeric_id gid)].

Lemma attempt_trace `{!Host} {A} e (k : prog A) w a w' : attempt e k w = (Ret a, w') →
  k (log e w) = (Ret a, w').
Proof. unfold attempt. by destruct (host_fault w e). Qed.

Lemma write_user_file_ret `{HH : !Host} `{HL : !BRLib} file w w' : write_user_file file w = (Ret tt, w') →
  ∃ evs, file_events file evs ∧ w_trace w' = w_trace w ++ evs.
Proof.
  unfold write_user_file, files_Write. destruct (permissions file) as [perm|] eqn:Hp; [|done].
  intros H. go_inv H. destruct (lookup_user (owner_name file)) as [[uid gid]|] eqn:Hu; [|done].
  go_inv H. go_inv Hm. destruct a0, a. apply wrap_ret in Hm0. apply attempt_trace in H, Hm0. apply WriteFile_ret in Hm as (_ & Hw & _).
  injection H as <-. injection Hm0 as <-. simpl in *. rewrite Hw. eexists. split; [by eexists perm, uid, gid|].
  by rewrite <-!app_assoc.
Qed.

(** C23: when [WriteUserDataFiles] returns, it has for every file of the user data, in
    order, made its directory, written its contents with its octal permissions (0640
    when none are given) and given it to the user before the colon of its owner and to
    that user's own group; nothing else was done. *)
Theorem user_files_written `{HH : !Host} `{HL : !BRLib} u w w' :
  WriteUserDataFiles u w = (Ret tt, w') →
  ∃ evs, Forall2 file_events (WriteFiles u) evs ∧ w_trace w' = w_trace w ++ concat evs.
Proof.
  unfold WriteUserDataFiles.
  apply (forM_ind (λ seen w2, ∃ evs, Forall2 file_events seen evs ∧ w_trace w2 = w_trace w ++ concat evs)).
  - exists []. by rewrite app_nil_r.
  - intros seen f rest w1 w2 _ (evs & HF & E) Hf. apply write_user_file_ret in Hf as (ev & Hev & E2).
    exists (evs ++ [ev]). split; [by apply Forall2_app; [|constructor]|].
    rewrite E2, E, concat_app. simpl. by rewrite app_nil_r, app_assoc.
Qed.

Lemma user_files_written_witness :
  let u := mkUserData "" [mkWriteFile "/etc/a" "root:admin" "0600" "x"; mkWriteFile "/b" "root" "" "y"] "" in
  ∃ w', WriteUserDataFiles (HH := plain_host) (HL := sample_brlib) u empty_world = (Ret tt, w') ∧
    ∃ evs, Forall2 (file_events (H := sample_brlib)) (WriteFiles u) evs ∧ w_trace w' = [] ++ concat evs.
Proof.
  eexists. split; [vm_compute; reflexivity|].
  apply (user_files_written (HH := plain_host) (HL := sample_brlib)
    (mkUserData "" [mkWriteFile "/etc/a" "root:admin" "0600" "x"; mkWriteFile "/b" "root" "" "y"] "")
    empty_world). vm_compute. reflexivity.
Defined.

(** ** Static pods *)
Section static_pods.
Context `{HH : !Host} `{HL : !BRLib} (path : string).

(** The commands that enable static pods leave the manifests alone. *)
Definition manifests_stable : Prop := ∀ w base data name,
  cr_fs (host_exec w (static_pod_command base data) []) !! PathJoin [path; name] = w_fs w !! PathJoin [path; name].

(** The manifest [data] of the file [name], and the pod it defines. *)
Definition manifest_in (fs : gmap string node) (name data : string) (pod : Pod) : Prop :=
  (∃ m, fs !! PathJoin [path; name] = Some (File data m)) ∧ yaml_pod data = Some pod.

Definition enable_command (nd : string * string) : list string :=
  static_pod_command (base_file_name nd.1) (EncodeToString nd.2).

Lemma enable_static_pod_ret f pods w pods' w' : enable_static_pod path pods f w = (Ret pods', w') →
  if isPodFile f.1 then
    ∃ data pod, manifest_in (w_fs w) f.1 data pod ∧ pods' = pods ++ [pod] ∧
      execs w' = execs w ++ [enable_command (f.1, data)]
  else pods' = pods ∧ w' = w.
Proof.
  unfold enable_static_pod. destruct (isPodFile f.1); simpl negb; cbv iota; intros H.
  - apply bind_ret_inv in H as (a & w1 & Hm & H). apply bind_ret_inv in H as (a0 & w2 & Hm0 & H).
    apply bind_ret_inv in H as (a1 & w4 & Hm1 & H). apply mret_ret in H as [<- <-].
    apply wrap_ret, ReadFile_ret in Hm as [Hfile ->]. apply wrap_ret, run_ret in Hm0 as (He & _).
    apply wrap_ret in Hm1. unfold UnmarshalPodDefinition in Hm1.
    destruct (yaml_pod a) as [pod|] eqn:Hpod; [|done]. apply mret_ret in Hm1 as [<- <-].
    exists a, pod. split; [done|]. split; [done|]. rewrite He. unfold execs. rewrite obs_log. simpl.
    by rewrite app_nil_r.
  - apply mret_ret in H as [<- <-]. done.
Qed.

Lemma enable_static_pod_stable f pods w pods' w' : manifests_stable →
  enable_static_pod path pods f w = (Ret pods', w') →
  ∀ name, w_fs w' !! PathJoin [path; name] = w_fs w !! PathJoin [path; name].
Proof.
  intros Hst. unfold enable_static_pod. destruct (isPodFile f.1); simpl negb; cbv iota; intros H.
  - apply bind_ret_inv in H as (a & w1 & Hm & H). apply bind_ret_inv in H as (a0 & w2 & Hm0 & H).
    apply bind_ret_inv in H as (a1 & w4 & Hm1 & H). apply mret_ret in H as [<- <-].
    apply wrap_ret, ReadFile_ret in Hm as [_ ->]. apply wrap_ret in Hm0.
    unfold run in Hm0. apply bind_ret_inv in Hm0 as (r & w3 & Hx & Hm0).
    apply exec_env_ret in Hx as (_ & -> & Hfs). simpl in Hm0. destruct (cr_err _); [done|].
    apply mret_ret in Hm0 as [_ <-]. apply wrap_ret in Hm1. unfold UnmarshalPodDefinition in Hm1.
    destruct (yaml_pod a) as [pod|]; [|done]. apply mret_ret in Hm1 as [_ <-].
    intros name. by rewrite Hfs, Hst.
  - by apply mret_ret in H as [_ <-].
Qed.

(** The pods enabled; nothing need be known of the commands for their names and number. *)
Lemma EnableStaticPods_ret w pods w' : EnableStaticPods path w = (Ret pods, w') →
  ∃ manifests, manifests.*1 = filter (λ name, isPodFile name = true) (entries (w_fs w) (Clean path)).*1 ∧
    execs w' = execs w ++ map enable_command manifests ∧
    (manifests_stable → Forall2 (λ nd pod, manifest_in (w_fs w) nd.1 nd.2 pod) manifests pods).
Proof.
  unfold EnableStaticPods. intros H. go_inv H. apply wrap_ret in Hm. pose proof Hm as Hq. quiet_in Hq.
  apply ReadDir_ret in Hm as [-> Hfs].
  apply (foldM_ind (λ seen pods2 w2,
    (manifests_stable → ∀ name, w_fs w2 !! PathJoin [path; name] = w_fs w !! PathJoin [path; name]) ∧
    ∃ manifests, manifests.*1 = filter (λ name, isPodFile name = true) seen.*1 ∧
      execs w2 = execs w ++ map enable_command manifests ∧
      (manifests_stable → Forall2 (λ nd pod, manifest_in (w_fs w) nd.1 nd.2 pod) manifests pods2))) in H.
  - by destruct H as [_ H].
  - split; [by intros; rewrite Hfs|]. exists []. by rewrite Hq, app_nil_r.
  - intros seen f pods1 w1 pods2 w2 (Hsame & manifests & Hn & He & HF) Hf.
    split; [intros Hst name; rewrite (enable_static_pod_stable _ _ _ _ _ Hst Hf); by apply Hsame|].
    apply enable_static_pod_ret in Hf.
    rewrite fmap_app, filter_app. cbn [fmap list_fmap]. destruct (isPodFile f.1) eqn:E.
    + destruct Hf as (data & pod & [[m Hd] Hy] & -> & He2). exists (manifests ++ [(f.1, data)]).
      rewrite fmap_app, Hn, filter_cons_True by done. split; [done|].
      split; [by rewrite He2, He, map_app, app_assoc|]. intros Hst. apply Forall2_app; [by apply HF|].
      constructor; [|done]. split; [|done]. exists m. by rewrite <-(Hsame Hst).
    + destruct Hf as [-> ->]. exists manifests. by rewrite filter_cons_False, filter_nil, app_nil_r by congruence.
Qed.

(** The manifests are files of the directory [path]. *)
Definition manifests_of (fs : gmap string node) (manifests : list (string * string)) : Prop :=
  Forall (λ nd, ∃ m, fs !! PathJoin [path; nd.1] = Some (File nd.2 m)) manifests.

Lemma manifests_of_in fs manifests pods :
  Forall2 (λ nd pod, manifest_in fs nd.1 nd.2 pod) manifests pods → manifests_of fs manifests.
Proof. induction 1 as [|nd pod l k [? _] _ IH]; constructor; done. Qed.
End static_pods.

(** C24: let the [apiclient] commands leave the manifests of the directory as they are.
    When [EnableStaticPods] returns, there is one [apiclient set] for every file of the
    directory with a pod file's extension, in the order of the names and no other
    command; the command carries the file's contents in base64, from which the host gets
    back exactly the manifest, and the pods returned are those of the manifests. *)
Theorem static_pods_enabled `{HH : !Host} `{HL : !BRLib} path w pods w' :
  manifests_stable path → EnableStaticPods path w = (Ret pods, w') →
  ∃ manifests,
    Forall2 (λ nd pod, manifest_in path (w_fs w) nd.1 nd.2 pod) manifests pods ∧
    manifests.*1 = filter (λ name, isPodFile name = true) (entries (w_fs w) (Clean path)).*1 ∧
    execs w' = execs w ++ map enable_command manifests ∧
    Forall (λ nd, DecodeString (EncodeToString nd.2) = Some nd.2) manifests.
Proof.
  intros Hst H. apply EnableStaticPods_ret in H as (manifests & Hn & He & HF). exists manifests.
  split; [by apply HF|]. do 2 (split; [done|]).
  apply Forall_forall. intros nd _. apply Base64.decode_encode.
Qed.

Lemma static_pods_enabled_witness :
  let w := mkWorld {[ "/m/etcd.manifest" := File "kind: Pod" 420; "/m/notes.txt" := File "" 420 ]} ∅ [] in
  ∃ pods w', EnableStaticPods (HH := plain_host) (HL := sample_brlib) "/m" w = (Ret pods, w') ∧
  ∃ manifests,
    Forall2 (λ nd pod, manifest_in (HL := sample_brlib) "/m" (w_fs w) nd.1 nd.2 pod) manifests pods ∧
    manifests.*1 = filter (λ name, isPodFile name = true) (entries (w_fs w) (Clean "/m")).*1 ∧
    execs w' = execs w ++ map enable_command manifests ∧
    Forall (λ nd, DecodeString (EncodeToString nd.2) = Some nd.2) manifests.
Proof.
  intros w. eexists _, _. split; [vm_compute; reflexivity|].
  apply (static_pods_enabled (HH := plain_host) (HL := sample_brlib) "/m" w);
    [intros ????; reflexivity|vm_compute; reflexivity].
Defined.
