(* ===== verification/BRWaiters.v ===== *)
(** * bottlerocket-bootstrap: waiting

    [pkg/utils/waiters.go]: waiting for a systemd unit, for an HTTP 200, for the probes of
    pods, and for the files a command is to write. Blocking, like sleeping, lets time
    pass ([Sleep]). [KillCmdAfterFilesGeneration] is given twice: as the steps of its two
    goroutines, and as the program its caller runs. *)
From S2P Require Import Prelude GoStrings World BRUtils.
From stdpp Require Import base tactics strings list gmap sorting relations.

Local Open Scope string_scope.
Local Open Scope list_scope.

Definition Second : Z := 1000000000.
Definition Minute : Z := (60 * Second)%Z.

Section waiters.
Context `{HH : !Host} `{HL : !BRLib}.

(** ** Systemd units *)
Definition unit_ready (service : string) (u : UnitStatus) : bool :=
  (ActiveState u =s "active") &&
  (if HasSuffix service ".service" then SubState u =s "running"
   else if HasSuffix service ".target" then SubState u =s "active"
   else false).

(** The loop over the messages. Each comes some time after the loop began to wait for it,
    and the timeout is that of each wait. After the last message systemd is silent. A message
    and a timeout that are ready at once, of which Go's select takes either, are resolved in
    favour of the message. *)
Fixpoint wait_unit (service : string) (timeout : Z) (messages : list (Z * systemd_message)) : prog unit :=
  match messages with
  | [] => _ ← Sleep timeout; fail "Timeout checking for kubelet status"
  | (gap, message) :: rest =>
      if bool_decide (timeout < gap)%Z then
        _ ← Sleep timeout; fail "Timeout checking for kubelet status"
      else
        _ ← Sleep gap;
        match message with
        | UnitsError e => fail ("Error while checking for kubelet status: " +:+ e)
        | Units unitStatus =>
            match unitStatus !! service with
            | None => wait_unit service timeout rest
            | Some status =>
                u ← deref status;
                if unit_ready service u then mret tt else wait_unit service timeout rest
            end
        end
  end.

Definition WaitForSystemdService (service : string) (timeout : Z) : prog unit :=
  w ← get;
  match systemd_dial w with
  | Some e => fail ("Error creating systemd dbus connection: " +:+ e)
  | None => wait_unit service timeout (systemd_messages w)
  end.

(** ** HTTP 200 *)

(** One try: the answer's status, or [None] when there is none. *)
Definition try_url (url : string) : prog (option Z) :=
  r ← recover (r ← HttpGet url; mret (Some r)) (λ _, mret None);
  match r with
  | None => mret None
  | Some (status, _) =>
      w ← get;
      match body_error w url with
      | Some e => fail ("Error reading body from response of http get call: " +:+ e)
      | None => mret (Some status)
      end
  end.

Definition is_200 (status : option Z) : bool := bool_decide (status = Some 200%Z).

Fixpoint wait_200 (fuel : nat) (url : string) (deadline : Z) : prog unit :=
  match fuel with
  | 0 => panic "out of fuel"
  | S fuel =>
      now ← Now;
      if bool_decide (deadline ≤ now)%Z then fail "Timeout occurred while waiting for 200 OK"
      else
        status ← try_url url;
        if is_200 status then mret tt
        else _ ← Sleep (10 * Second); wait_200 fuel url deadline
  end%nat.

(** The tries there is time for, and the one that finds the time has passed. *)
Definition tries (timeout : Z) : nat := Z.to_nat (timeout / (10 * Second)) + 2.

Definition WaitFor200 (url : string) (timeout : Z) : prog unit :=
  start ← Now;
  wait_200 (tries timeout) url (start + timeout).

(** ** Probes of pods *)
Definition probe_url (h : HTTPGetAction) : string :=
  (if hg_Scheme h =s "" then "http" else hg_Scheme h) +:+ "://" +:+ hg_Host h +:+ ":"
  +:+ Itoa (hg_Port h) +:+ hg_Path h.

Definition wait_container (c : Container) : prog unit :=
  match LivenessProbe c with
  | None => mret tt
  | Some probe =>
      handler ← deref (HTTPGet probe);
      wrap "Error waiting for 200 OK" (WaitFor200 (probe_url handler) (5 * Minute))
  end.

Definition waitForPodLiveness (podDefinition : Pod) : prog unit :=
  forM (Containers podDefinition) wait_container.

Definition WaitForPods (podDefinitions : list Pod) : prog unit :=
  forM podDefinitions (λ pod,
    wrap ("Error checking liveness probe for pod: " +:+ pod_Name pod) (waitForPodLiveness pod)).

(** ** The files of a command *)

(** An error other than a missing file counts as existence. *)
Definition files_exist (checkFiles : list string) : prog bool :=
  foldM checkFiles true (λ allFilesExist file, e ← PathExists file; mret (allFilesExist && e)).

(** The goroutine looks every two seconds until the timer of 40 seconds has fired; when
    both are ready the select takes either. *)
Fixpoint kill_after_files (fuel : nat) (cmd checkFiles : list string) (deadline : Z) : prog unit :=
  let timed_out :=
    _ ← Kill cmd; fail "Kubeadm join kubelet-start killed after timeout" in
  match fuel with
  | 0 => panic "out of fuel"
  | S fuel =>
      _ ← Sleep (2 * Second);
      now ← Now;
      if bool_decide (deadline ≤ now)%Z then timed_out
      else
        allFilesExist ← files_exist checkFiles;
        now ← Now;
        w ← get;
        if allFilesExist && (bool_decide (now < deadline)%Z || select_first w) then Kill cmd
        else if bool_decide (deadline ≤ now)%Z then timed_out
        else kill_after_files fuel cmd checkFiles deadline
  end%nat.

Definition KillCmdAfterFilesGeneration (cmd checkFiles : list string) : prog unit :=
  start ← Now;
  kill_after_files 21 cmd checkFiles (start + 40 * Second).
End waiters.

(** ** Waiting runs no command *)
Section quiet.
Context `{HH : !Host} `{HL : !BRLib} {X : Type} (f : event → option X).
Context (Hsleep : ∀ n, f (ESleep n) = None) (Hget : ∀ u, f (EGet u) = None).
#[local] Hint Resolve Hsleep Hget : go.

Lemma quiet_wait_unit service timeout ms : preserves (quiet f) (wait_unit service timeout ms).
Proof using Hsleep Hget.
  induction ms as [|[gap m] ms IH]; cbn [wait_unit]; [quiet_solve|].
  repeat first [apply IH|quiet_step].
Qed.

Lemma quiet_wait_200 fuel url deadline : preserves (quiet f) (wait_200 fuel url deadline).
Proof using Hsleep Hget.
  unfold wait_200, try_url. induction fuel as [|fuel IH]; repeat first [apply IH|quiet_step].
Qed.

Lemma quiet_WaitForSystemdService service timeout :
  preserves (quiet f) (WaitForSystemdService service timeout).
Proof using Hsleep Hget. unfold WaitForSystemdService. pose proof quiet_wait_unit. repeat first [apply quiet_wait_unit|quiet_step]. Qed.

Lemma quiet_WaitFor200 url timeout : preserves (quiet f) (WaitFor200 url timeout).
Proof using Hsleep Hget. unfold WaitFor200. repeat first [apply quiet_wait_200|quiet_step]. Qed.

Lemma quiet_WaitForPods pods : preserves (quiet f) (WaitForPods pods).
Proof using Hsleep Hget. unfold WaitForPods, waitForPodLiveness, wait_container. repeat first [apply quiet_WaitFor200|quiet_step]. Qed.

Context (Hstat : ∀ p, f (EStat p) = None) (Hkill : ∀ c, f (EKill c) = None).
#[local] Hint Resolve Hstat Hkill : go.

Lemma quiet_kill_after fuel cmd files deadline : preserves (quiet f) (kill_after_files fuel cmd files deadline).
Proof using All.
  assert (preserves (quiet f) (files_exist files)) as Hf
    by (unfold files_exist, PathExists; quiet_solve).
  unfold kill_after_files. induction fuel as [|fuel IH]; repeat first [apply IH|exact Hf|quiet_step].
Qed.

Lemma quiet_KillCmd cmd files : preserves (quiet f) (KillCmdAfterFilesGeneration cmd files).
Proof using All. unfold KillCmdAfterFilesGeneration. repeat first [apply quiet_kill_after|quiet_step]. Qed.
End quiet.
#[export] Hint Resolve quiet_WaitForSystemdService quiet_WaitFor200 quiet_WaitForPods quiet_KillCmd : go.

Section grows.
Context `{HH : !Host} `{HL : !BRLib}.

Lemma grows_wait_200 fuel url deadline : preserves trace_grows (wait_200 fuel url deadline).
Proof.
  unfold wait_200, try_url. induction fuel as [|fuel IH]; repeat first [apply IH|quiet_step].
Qed.

Lemma grows_WaitForPods pods : preserves trace_grows (WaitForPods pods).
Proof.
  unfold WaitForPods, waitForPodLiveness, wait_container, WaitFor200. repeat first [apply grows_wait_200|quiet_step].
Qed.
End grows.
#[export] Hint Resolve grows_WaitForPods : go.

(** ** Time *)
Section time.
Context `{HH : !Host} `{HC : !ClockLaws}.

Lemma Sleep_eq n w : ∃ w', Sleep n w = (Ret tt, w') ∧ (host_clock w + n ≤ host_clock w')%Z ∧
  w_trace w' = w_trace w ++ [ESleep n].
Proof. eexists. split; [reflexivity|]. split; [exact (clock_sleep w (host_tick w n) n)|done]. Qed.

Lemma clock_le {A} (m : prog A) w o w' : preserves trace_grows m → m w = (o, w') →
  (host_clock w ≤ host_clock w')%Z.
Proof using HC. intros Hp H. apply clock_grows. by apply (Hp w o). Qed.
End time.

(** [w1] is a moment of the run from [w] to [w']. *)
Definition during (w w1 w' : World) : Prop := trace_grows w w1 ∧ trace_grows w1 w'.

(** ** Systemd units *)

(** A message that leaves the loop waiting: in time, no error, the unit not ready. *)
Definition pending (service : string) (timeout : Z) (m : Z * systemd_message) : Prop :=
  (m.1 ≤ timeout)%Z ∧ ∃ changed, m.2 = Units changed ∧
    (changed !! service = None ∨
     ∃ u, changed !! service = Some (Some u) ∧ unit_ready service u = false).

(** The unit becomes ready after [waited]. *)
Definition ready_after (service : string) (timeout : Z) (messages : list (Z * systemd_message))
    (waited : Z) : Prop :=
  ∃ before gap changed u after, messages = before ++ (gap, Units changed) :: after ∧
    Forall (pending service timeout) before ∧ (gap ≤ timeout)%Z ∧
    changed !! service = Some (Some u) ∧ unit_ready service u = true ∧
    waited = foldr (λ m t, m.1 + t)%Z gap before.

Section systemd.
Context `{HH : !Host} `{HC : !ClockLaws} `{HL : !BRLib} (service : string) (timeout : Z).

Lemma wait_unit_ret messages w w' : wait_unit service timeout messages w = (Ret tt, w') →
  ∃ waited, ready_after service timeout messages waited ∧ (host_clock w + waited ≤ host_clock w')%Z.
Proof using HC.
  revert w. induction messages as [|[gap m] rest IH]; intros w H; simpl in H; [done|].
  case_bool_decide as Hgap; [done|]. destruct (Sleep_eq gap w) as (w1 & Hs & Ht & _).
  rewrite (bind_step _ _ _ _ _ Hs) in H. destruct m as [changed|e]; [|done].
  assert (∀ c, pending service timeout (gap, Units changed) → wait_unit service timeout rest w1 = (Ret c, w') →
    ∃ waited, ready_after service timeout ((gap, Units changed) :: rest) waited ∧
      (host_clock w + waited ≤ host_clock w')%Z) as Hrest.
  { intros [] Hp Hr. destruct (IH _ Hr) as (t & (before & g & ch & u & after & -> & Hb & Hg & Hc & Hu & ->) & Hle).
    eexists. split; [exists ((gap, Units changed) :: before), g, ch, u, after; split_and!; eauto; by constructor|].
    simpl. lia. }
  destruct (changed !! service) as [status|] eqn:Hc.
  - apply bind_ret_inv in H as (u & w2 & Hd & H). apply deref_ret in Hd as [-> <-].
    destruct (unit_ready service u) eqn:Hu.
    + apply mret_ret in H as [_ <-]. eexists.
      split; [exists [], gap, changed, u, rest; split_and!; [done|constructor|lia|done..]|]. simpl. lia.
    + apply (Hrest tt); [|done]. split; [simpl; lia|]. exists changed. eauto.
  - apply (Hrest tt); [|done]. split; [simpl; lia|]. exists changed. eauto.
Qed.

Lemma wait_unit_ready messages waited w : ready_after service timeout messages waited →
  ∃ w', wait_unit service timeout messages w = (Ret tt, w').
Proof using HC.
  intros (before & gap & changed & u & after & -> & Hb & Hg & Hc & Hu & _).
  revert w. induction Hb as [|[g m] before [Hin (ch & Hm & Hp)] Hb IH]; intros w; cbn [app wait_unit].
  - rewrite bool_decide_eq_false_2 by lia. destruct (Sleep_eq gap w) as (w1 & Hs & _). rewrite (bind_step _ _ _ _ _ Hs).
    rewrite Hc, (bind_step _ _ _ u w1), Hu by done. by eexists.
  - simpl in Hin, Hm. subst m. rewrite bool_decide_eq_false_2 by lia.
    destruct (Sleep_eq g w) as (w1 & Hs & _). rewrite (bind_step _ _ _ _ _ Hs).
    destruct Hp as [->|(u' & -> & Hu')]; [apply IH|].
    rewrite (bind_step _ _ _ u' w1), Hu' by done. apply IH.
Qed.
End systemd.

(** C19: [WaitForSystemdService] returns exactly when systemd can be reached and the unit
    becomes ready in a message that, like all before it, comes within the timeout of the
    previous one (a message that comes just when the timeout does counts, where Go would take
    either). The whole wait takes at least the sum of these times, which no multiple
    of the timeout bounds: the code makes a new timer for every message. *)
Theorem systemd_wait `{HH : !Host} `{HC : !ClockLaws} `{HL : !BRLib} service timeout w :
  ((∃ w', WaitForSystemdService service timeout w = (Ret tt, w')) ↔
   systemd_dial w = None ∧ ∃ waited, ready_after service timeout (systemd_messages w) waited) ∧
  (∀ w', WaitForSystemdService service timeout w = (Ret tt, w') →
   ∃ waited, ready_after service timeout (systemd_messages w) waited ∧
     (host_clock w + waited ≤ host_clock w')%Z) ∧
  (∀ u (n : nat), unit_ready service u = true →
   ∃ messages, ready_after service timeout messages (Z.of_nat (S n) * timeout)).
Proof.
  assert (∀ w', WaitForSystemdService service timeout w = (Ret tt, w') →
    systemd_dial w = None ∧ wait_unit service timeout (systemd_messages w) w = (Ret tt, w')) as Hinv.
  { unfold WaitForSystemdService. intros w'. rewrite (bind_step _ _ _ w w) by done.
    by destruct (systemd_dial w). }
  split_and!.
  - split.
    + intros (w' & H). apply Hinv in H as [Hd H]. apply wait_unit_ret in H as (t & Hr & _). eauto.
    + intros [Hd (t & Hr)]. unfold WaitForSystemdService. rewrite (bind_step _ _ _ w w), Hd by done.
      by eapply wait_unit_ready.
  - intros w' H. apply Hinv in H as [_ H]. by apply wait_unit_ret.
  - intros u n Hu. set (idle := (timeout, Units ∅)).
    exists (replicate n idle ++ [(timeout, Units {[ service := Some u ]})]).
    exists (replicate n idle), timeout, {[ service := Some u ]}, u, []. split_and!; [done| |lia| |done|].
    + apply Forall_replicate. split; [simpl; lia|]. exists ∅. split; [done|]. left. apply lookup_empty.
    + apply lookup_singleton_eq.
    + clear. induction n as [|n IH]; [simpl; lia|]. cbn [replicate foldr fst idle]. rewrite <-IH. lia.
Qed.

Lemma systemd_wait_witness :
  let w := empty_world in
  ((∃ w', WaitForSystemdService (HH := plain_host) (HL := sample_brlib) "kubelet.service" (30 * Second) w = (Ret tt, w')) ↔
   systemd_dial (BRLib := sample_brlib) w = None ∧
   ∃ waited, ready_after "kubelet.service" (30 * Second) (systemd_messages (BRLib := sample_brlib) w) waited) ∧
  (∃ w', WaitForSystemdService (HH := plain_host) (HL := sample_brlib) "kubelet.service" (30 * Second) w = (Ret tt, w')).
Proof.
  intros w. split.
  - exact (proj1 (systemd_wait (HH := plain_host) (HC := plain_host_clock) (HL := sample_brlib)
      "kubelet.service" (30 * Second) w)).
  - eexists. vm_compute. reflexivity.
Defined.

(** ** HTTP 200 *)
Section http.
Context `{HH : !Host} `{HC : !ClockLaws} `{HL : !BRLib} (url : string).

Lemma try_url_cases w : ∃ w1, obs as_get w1 = obs as_get w ++ [url] ∧ trace_grows w w1 ∧
  ((∃ status, try_url url w = (Ret status, w1) ∧
      (is_200 status = true → ∃ body, host_get w url = inr (200%Z, body))) ∨
   ∃ e, try_url url w = (Err ("Error reading body from response of http get call: " +:+ e), w1)).
Proof using HC.
  exists (log (EGet url) w). split; [by rewrite obs_log|]. split; [apply trace_grows_log|].
  unfold try_url, HttpGet, recover, mbind, go_mbind, go_bind, mret, go_mret, go_ret, get, fail.
  destruct (http_url url); cbn [negb]; [|left; exists None; by split].
  destruct (host_get w url) as [e|[st body]].
  - left. exists None. split; [done|]. done.
  - destruct (body_error _ url) as [e|]; [by right; eexists|]. left. exists (Some st). split; [done|].
    unfold is_200. intros [= ->]%bool_decide_eq_true. by eexists.
Qed.

(** How the wait ended after [n] tries. *)
Definition wait_ended (deadline : Z) (n : nat) (w : World) (o : outcome unit) (w' : World) : Prop :=
  obs as_get w' = obs as_get w ++ replicate n url ∧
  match o with
  | Ret _ => ∃ w1 body, during w w1 w' ∧ host_get w1 url = inr (200%Z, body)
  | Err e => (e = "Timeout occurred while waiting for 200 OK" ∧ (deadline ≤ host_clock w')%Z) ∨
             ∃ b, e = "Error reading body from response of http get call: " +:+ b
  | _ => False
  end.

Lemma wait_200_ends deadline fuel w :
  (deadline ≤ host_clock w + Z.of_nat fuel * (10 * Second))%Z →
  ∃ n o w', wait_200 (S fuel) url deadline w = (o, w') ∧ (n ≤ fuel)%nat ∧ wait_ended deadline n w o w'.
Proof using HC.
  revert w. induction fuel as [|fuel IH]; intros w Hd.
  - exists 0%nat. eexists _, w. cbn [wait_200]. rewrite (bind_step _ _ _ (host_clock w) w) by done.
    rewrite bool_decide_eq_true_2 by lia. split; [reflexivity|]. split; [lia|].
    split; [by rewrite app_nil_r|]. left. split; [done|lia].
  - cbn [wait_200]. rewrite (bind_step _ _ _ (host_clock w) w) by done. case_bool_decide as Hnow.
    { exists 0%nat. eexists _, w. split; [reflexivity|]. split; [lia|].
      split; [by rewrite app_nil_r|]. left. split; [done|lia]. }
    destruct (try_url_cases w) as (w1 & Hg & Hc & [(st & Ht & Hok)|(e & Ht)]).
    + rewrite (bind_step _ _ _ _ _ Ht). destruct (is_200 st).
      * exists 1%nat. eexists _, w1. split; [reflexivity|]. split; [lia|]. split; [done|].
        destruct Hok as [body Hb]; [done|]. exists w, body. by split.
      * destruct (Sleep_eq (10 * Second) w1) as (w2 & Hs & Hc2 & Htr). rewrite (bind_step _ _ _ _ _ Hs).
        destruct (IH w2) as (n & o & w' & He & Hn & Hgets & Ho).
        { apply clock_grows in Hc. unfold Second in *. lia. }
        exists (S n), o, w'. split; [exact He|]. split; [lia|]. split.
        -- rewrite Hgets. unfold obs in *. rewrite Htr, omap_app. simpl. rewrite app_nil_r, Hg.
           by rewrite <-app_assoc.
        -- destruct o as [[]| | |]; [|done..]. destruct Ho as (w3 & body & [H1 H2] & Hb).
           exists w3, body. split; [|done]. split; [|done]. etrans; [exact Hc|]. etrans; [|exact H1].
           unfold trace_grows. rewrite Htr. by apply prefix_app_r.
    + exists 1%nat. eexists _, w1. rewrite (bind_err _ _ _ _ _ Ht). split; [reflexivity|].
      split; [lia|]. split; [done|]. right. by eexists.
Qed.
End http.

Lemma WaitFor200_ends `{HH : !Host} `{HC : !ClockLaws} `{HL : !BRLib} url timeout w :
  ∃ n o w', WaitFor200 url timeout w = (o, w') ∧ (n ≤ Z.to_nat (timeout / (10 * Second)) + 1)%nat ∧
    wait_ended url (host_clock w + timeout) n w o w'.
Proof.
  unfold WaitFor200, tries. rewrite (bind_step _ _ _ (host_clock w) w) by done.
  replace (Z.to_nat (timeout / (10 * Second)) + 2)%nat with (S (Z.to_nat (timeout / (10 * Second)) + 1)) by lia.
  apply wait_200_ends. unfold Second.
  pose proof (Z.mul_succ_div_gt timeout (10 * 1000000000) ltac:(lia)).
  destruct (decide (0 ≤ timeout / (10 * 1000000000))%Z); lia.
Qed.

(** An address that [http.Get] refuses is waited for until the timeout. *)
Section refused.
Context `{HH : !Host} `{HC : !ClockLaws} `{HL : !BRLib} (url : string).

Lemma wait_200_refused fuel deadline w o w' : http_url url = false → wait_200 fuel url deadline w = (o, w') →
  o = Panic "out of fuel" ∨ o = Err "Timeout occurred while waiting for 200 OK".
Proof using.
  intros Hu. revert w. induction fuel as [|fuel IH]; intros w H; cbn [wait_200] in H; [injection H as <- _; by left|].
  rewrite (bind_step _ _ _ (host_clock w) w) in H by done. case_bool_decide; [injection H as <- _; by right|].
  assert (try_url url w = (Ret None, log (EGet url) w)) as Ht.
  { unfold try_url, recover, mbind, go_mbind, go_bind. by rewrite (HttpGet_refused _ _ Hu). }
  rewrite (bind_step _ _ _ _ _ Ht) in H. cbn in H. by apply IH in H.
Qed.

Lemma WaitFor200_refused timeout w : http_url url = false →
  ∃ w', WaitFor200 url timeout w = (Err "Timeout occurred while waiting for 200 OK", w') ∧
    (host_clock w + timeout ≤ host_clock w')%Z.
Proof using HC.
  intros Hu. destruct (WaitFor200_ends url timeout w) as (n & o & w' & H & _ & _ & Ho).
  exists w'. pose proof H as Hr. unfold WaitFor200 in Hr.
  rewrite (bind_step _ _ _ (host_clock w) w) in Hr by done.
  apply (wait_200_refused _ _ _ _ _ Hu) in Hr as [->| ->]; [done|]. split; [done|].
  by destruct Ho as [[_ ?]|[? ?]].
Qed.
End refused.

(** C17: [WaitFor200] always ends, after at most one try more than there are pauses of
    ten seconds in the timeout: with success only when the URL answered 200, otherwise
    with the timeout, once its time has passed, or with the failure to read an answer's
    body, which ends the wait at once. *)
Theorem wait_for_200 `{HH : !Host} `{HC : !ClockLaws} `{HL : !BRLib} url timeout w :
  ∃ n o w', WaitFor200 url timeout w = (o, w') ∧ (n ≤ Z.to_nat (timeout / (10 * Second)) + 1)%nat ∧
    wait_ended url (host_clock w + timeout) n w o w'.
Proof. apply WaitFor200_ends. Qed.

Lemma wait_for_200_witness :
  ∃ n o w', WaitFor200 (HH := plain_host) (HL := sample_brlib) "http://127.0.0.1:8080/healthz" Minute empty_world = (o, w') ∧
    (n ≤ 7)%nat ∧ wait_ended (HH := plain_host) "http://127.0.0.1:8080/healthz" (0 + Minute) n empty_world o w'.
Proof.
  apply (wait_for_200 (HH := plain_host) (HC := plain_host_clock) (HL := sample_brlib)).
Defined.

(** ** The files of a command *)
Definition as_kill (e : event) : option (list string) :=
  match e with EKill argv => Some argv | _ => None end.

(** The world after a look at each of the files. *)
Definition after_stats (files : list string) (w : World) : World :=
  mkWorld (w_fs w) (w_env w) (w_trace w ++ map EStat files).

Section kill.
Context `{HH : !Host} `{HC : !ClockLaws} `{HL : !BRLib}.

Abbreviation look := (λ all file, e ← PathExists file; mret (all && e)).

Lemma after_stats_nil w : after_stats [] w = w.
Proof using. destruct w as [fs env tr]. unfold after_stats. simpl. by rewrite app_nil_r. Qed.

Lemma after_stats_cons f files w : after_stats (f :: files) w = after_stats files (log (EStat f) w).
Proof using. unfold after_stats, log. simpl. by rewrite <-app_assoc. Qed.

Lemma after_stats_kills files w : obs as_kill (after_stats files w) = obs as_kill w.
Proof using.
  revert w. induction files as [|f files IH]; intros w; [by rewrite after_stats_nil|].
  rewrite after_stats_cons, IH, obs_log. simpl. by rewrite app_nil_r.
Qed.

Lemma files_exist_false files w b w1 : foldM files false look w = (Ret b, w1) → b = false.
Proof using.
  apply (foldM_ind (λ _ b _, b = false)); [done|]. intros _ f s1 w2 s2 w3 -> H.
  apply bind_ret_inv in H as (e & w4 & _ & H). by apply mret_ret in H as [<- _].
Qed.

Lemma files_exist_from files acc w : ∃ b,
  foldM files acc look w = (Ret b, after_stats files w) ∧
  (b = true → ∀ i f, files !! i = Some f → taken_to_exist (after_stats (take i files) w) f).
Proof using.
  revert acc w. induction files as [|f files IH]; intros acc w; cbn [foldM].
  - exists acc. rewrite after_stats_nil. split; [done|]. by intros _ [].
  - destruct (PathExists_eq f w) as (e & He & Hex).
    assert ((e ← PathExists f; mret (acc && e)) w = (Ret (acc && e), log (EStat f) w)) as Hs
      by (by rewrite (bind_step _ _ _ _ _ He)).
    rewrite (bind_step _ _ _ _ _ Hs). destruct (IH (acc && e) (log (EStat f) w)) as (b & Hf & Hall).
    rewrite after_stats_cons. exists b. split; [done|]. intros Hb.
    assert (e = true) as He'.
    { destruct e; [done|]. rewrite andb_false_r in Hf. apply files_exist_false in Hf. congruence. }
    intros [|i] g Hg; cbn [take].
    + injection Hg as <-. rewrite after_stats_nil. by apply Hex.
    + rewrite after_stats_cons. by apply Hall.
Qed.
End kill.

(** The run ends with one round over the files, right before the command is killed: the
    round finds every file, one after another, with no time passing in between. *)
Definition one_round `{HH : !Host} (cmd checkFiles : list string) (w w' : World) : Prop :=
  ∃ wr, trace_grows w wr ∧ w' = log (EKill cmd) (after_stats checkFiles wr) ∧
    ∀ i f, checkFiles !! i = Some f → taken_to_exist (after_stats (take i checkFiles) wr) f.

(** The command was killed, once, and either the files were there or time was up. *)
Definition kill_ended `{HH : !Host} (cmd checkFiles : list string) (deadline : Z) (w : World)
    (o : outcome unit) (w' : World) : Prop :=
  obs as_kill w' = obs as_kill w ++ [cmd] ∧ trace_grows w w' ∧
  match o with
  | Ret _ => one_round cmd checkFiles w w'
  | Err e => e = "Kubeadm join kubelet-start killed after timeout" ∧ (deadline ≤ host_clock w')%Z
  | _ => False
  end.

Section kill_ends.
Context `{HH : !Host} `{HC : !ClockLaws} `{HL : !BRLib} (cmd checkFiles : list string) (deadline : Z).

Lemma kill_ended_later w w1 o w' : obs as_kill w1 = obs as_kill w → trace_grows w w1 →
  kill_ended cmd checkFiles deadline w1 o w' → kill_ended cmd checkFiles deadline w o w'.
Proof using.
  intros Hk Hg (Hk' & Hg' & Ho). split; [by rewrite Hk', Hk|]. split; [by etrans|].
  destruct o as [[]| | |]; [|done..]. destruct Ho as (wr & Hr & Ho). exists wr. split; [by etrans|done].
Qed.

Lemma Kill_logged w : obs as_kill (log (EKill cmd) w) = obs as_kill w ++ [cmd] ∧ trace_grows w (log (EKill cmd) w).
Proof using. split; [by rewrite obs_log|apply trace_grows_log]. Qed.

Lemma timed_out_ended w : (deadline ≤ host_clock w)%Z →
  ∃ o w', (_ ← Kill cmd; fail "Kubeadm join kubelet-start killed after timeout") w = (o, w') ∧
    kill_ended cmd checkFiles deadline w o w'.
Proof using HC.
  intros Hd. eexists _, _. split; [reflexivity|]. destruct (Kill_logged w) as (Hk & Hg).
  split; [exact Hk|]. split; [exact Hg|]. split; [done|]. apply clock_grows in Hg. lia.
Qed.

Lemma kill_after_files_ends n w : (deadline ≤ host_clock w + Z.of_nat (S n) * (2 * Second))%Z →
  ∃ o w', kill_after_files (S n) cmd checkFiles deadline w = (o, w') ∧
    kill_ended cmd checkFiles deadline w o w'.
Proof using HC.
  revert w. induction n as [|n IH]; intros w Hd; cbn [kill_after_files];
    destruct (Sleep_eq (2 * Second) w) as (w1 & Hs & Hc & Htr); rewrite (bind_step _ _ _ _ _ Hs);
    rewrite (bind_step _ _ _ (host_clock w1) w1) by done;
    (assert (obs as_kill w1 = obs as_kill w) as Hk1
       by (unfold obs; rewrite Htr, omap_app; simpl; by rewrite app_nil_r));
    (assert (trace_grows w w1) as Hg1 by (unfold trace_grows; rewrite Htr; by apply prefix_app_r)).
  { rewrite bool_decide_eq_true_2 by lia.
    destruct (timed_out_ended w1 ltac:(lia)) as (o & w' & He & Ho). exists o, w'.
    split; [exact He|]. by eapply kill_ended_later. }
  case_bool_decide as Hnow.
  { destruct (timed_out_ended w1 Hnow) as (o & w' & He & Ho). exists o, w'.
    split; [exact He|]. by eapply kill_ended_later. }
  destruct (files_exist_from checkFiles true w1) as (b & Hf & Hall).
  set (w2 := after_stats checkFiles w1) in *.
  assert (obs as_kill w2 = obs as_kill w1) as Hk2 by apply after_stats_kills.
  assert (trace_grows w1 w2) as Hg2 by (unfold trace_grows; by apply prefix_app_r).
  rewrite (bind_step _ _ _ b w2) by exact Hf. rewrite (bind_step _ _ _ (host_clock w2) w2) by done.
  rewrite (bind_step _ _ _ w2 w2) by done.
  assert (∀ o w', kill_ended cmd checkFiles deadline w2 o w' → kill_ended cmd checkFiles deadline w o w') as Hlater.
  { intros o w' Ho. eapply kill_ended_later; [exact Hk1|exact Hg1|]. by eapply kill_ended_later. }
  destruct (b && _) eqn:E.
  - apply andb_true_iff in E as [-> _]. destruct (Kill_logged w2) as (Hk & Hg). eexists _, _.
    split; [reflexivity|]. split; [rewrite Hk; by rewrite Hk2, Hk1|]. split; [by repeat (etrans; [eassumption|])|].
    exists w1. split; [done|]. split; [done|]. by apply Hall.
  - clear E. case_bool_decide as Hnow2.
    + destruct (timed_out_ended w2 Hnow2) as (o & w' & He & Ho). exists o, w'. split; [exact He|]. by apply Hlater.
    + destruct (IH w2) as (o & w' & He & Ho); [apply clock_grows in Hg2; lia|].
      exists o, w'. split; [exact He|]. by apply Hlater.
Qed.
End kill_ends.

Lemma KillCmd_ends `{HH : !Host} `{HC : !ClockLaws} `{HL : !BRLib} cmd checkFiles w :
  ∃ o w', KillCmdAfterFilesGeneration cmd checkFiles w = (o, w') ∧
    kill_ended cmd checkFiles (host_clock w + 40 * Second) w o w'.
Proof.
  unfold KillCmdAfterFilesGeneration. rewrite (bind_step _ _ _ (host_clock w) w) by done.
  apply kill_after_files_ends. unfold Second. lia.
Qed.

(** C18: [KillCmdAfterFilesGeneration] always ends and kills the command exactly once:
    with success only at the end of a round of looks, right before the kill and with no
    pause in between, each of which took its file to exist; otherwise with the timeout, when
    the forty seconds have passed. *)
Theorem kill_cmd `{HH : !Host} `{HC : !ClockLaws} `{HL : !BRLib} cmd checkFiles w :
  ∃ o w', KillCmdAfterFilesGeneration cmd checkFiles w = (o, w') ∧
    kill_ended cmd checkFiles (host_clock w + 40 * Second) w o w'.
Proof. apply KillCmd_ends. Qed.

Lemma kill_cmd_witness :
  ∃ o w', KillCmdAfterFilesGeneration (HH := plain_host) (HL := sample_brlib) ["kubeadm"] ["/etc/kubernetes/pki/ca.crt"]
      empty_world = (o, w') ∧
    kill_ended (HH := plain_host) ["kubeadm"] ["/etc/kubernetes/pki/ca.crt"] (0 + 40 * Second) empty_world o w'.
Proof.
  apply (kill_cmd (HH := plain_host) (HC := plain_host_clock) (HL := sample_brlib)).
Defined.

(** ** The two goroutines *)
Module Goroutines.

(** Where the goroutine that looks for the files is, and where its caller is. *)
Inductive poller := Sleeping | Looking (rest : list string) (all_exist : bool) | Sending | Gone.
Inductive caller := Waiting | Returned (ok : bool).

Record state := mkState {
  poll : poller; call : caller;
  cancelled : bool;         (* [ctx] *)
  timer : bool;             (* [timeout] has fired *)
  kills : nat;              (* calls of [cmd.Process.Kill] *)
  seen : list string;       (* files of this round taken to exist *)
}.

Definition start : state := mkState Sleeping Waiting false false 0 [].

Section steps.
Context (checkFiles : list string).

(** [okChan] is unbuffered: sending waits for the caller. The caller's [defer cancel()]
    runs when it returns. *)
Inductive step : state → state → Prop :=
| Fire p c x k s : step (mkState p c x false k s) (mkState p c x true k s)
| WakeCancelled c t k s : step (mkState Sleeping c true t k s) (mkState Gone c true t k s)
| Wake c t k s : step (mkState Sleeping c false t k s) (mkState (Looking checkFiles true) c false t k [])
| Exists f rest all c x t k s :
    step (mkState (Looking (f :: rest) all) c x t k s) (mkState (Looking rest all) c x t k (s ++ [f]))
| Missing f rest all c x t k s :
    step (mkState (Looking (f :: rest) all) c x t k s) (mkState (Looking rest false) c x t k s)
| Again c x t k s : step (mkState (Looking [] false) c x t k s) (mkState Sleeping c x t k s)
| Found c x t k s : step (mkState (Looking [] true) c x t k s) (mkState Sending c x t k s)
| Rendezvous x t k s : step (mkState Sending Waiting x t k s) (mkState Gone (Returned true) true t (S k) s)
| TimedOut p x k s : step (mkState p Waiting x true k s) (mkState p (Returned false) true true (S k) s).

Definition reachable : state → Prop := rtc step start.

(** While every file so far exists, the files seen and those left are all of them. *)
Definition inv (st : state) : Prop :=
  match poll st with
  | Looking rest true => seen st ++ rest = checkFiles
  | Sending => seen st = checkFiles
  | _ => True
  end ∧
  match call st with
  | Waiting => kills st = 0%nat ∧ cancelled st = false ∧ poll st ≠ Gone
  | Returned ok => kills st = 1%nat ∧ cancelled st = true ∧
      (if ok then poll st = Gone ∧ seen st = checkFiles else timer st = true)
  end.

Lemma inv_step st st' : inv st → step st st' → inv st'.
Proof.
  intros [Hp Hc] Hs. destruct Hs; unfold inv in *; simpl in *;
    repeat match goal with
    | |- context [match ?x with Waiting => _ | Returned _ => _ end] => destruct x
    | |- context [match ?x with Sleeping => _ | _ => _ end] => destruct x
    | b : bool |- _ => destruct b
    end; naive_solver (rewrite <-?app_assoc; auto using app_nil_r).
Qed.

Lemma reachable_inv st : reachable st → inv st.
Proof.
  apply (rtc_ind_r inv).
  - split; simpl; by split_and?.
  - intros. by eapply inv_step.
Qed.

(** The poller that has everything it looked for but whose caller is gone. *)
Definition leaked (st : state) : Prop := poll st = Sending ∧ call st = Returned false.

Lemma leaked_stuck st st' : leaked st → rtc step st st' → leaked st'.
Proof.
  intros Hl. apply (rtc_ind_r leaked); [done|]. intros y z _ Hs [Hp Hc].
  destruct Hs; simpl in *; simplify_eq; done.
Qed.

Lemma leak_reachable : ∃ st, reachable st ∧ leaked st.
Proof.
  exists (mkState Sending (Returned false) true true 1 checkFiles). split; [|done].
  assert (∀ rest s, rtc step (mkState (Looking rest true) Waiting false false 0 s)
    (mkState (Looking [] true) Waiting false false 0 (s ++ rest))) as Hlook.
  { induction rest as [|f rest IH]; intros s; [rewrite app_nil_r; apply rtc_refl|].
    eapply rtc_l; [apply Exists|]. rewrite (cons_middle f s rest), app_assoc. apply IH. }
  eapply rtc_l; [apply Wake|]. etrans; [apply Hlook|].
  eapply rtc_l; [apply Fire|]. eapply rtc_l; [apply TimedOut|]. by apply rtc_once, Found.
Qed.
End steps.

(** C8: in every interleaving of the two goroutines of [KillCmdAfterFilesGeneration] the
    command is killed exactly when the caller returns, the caller returns success only
    when every file was taken to exist in one round, and as long as it waits it cannot
    wait for ever: the timer or the poller can make it return. But some interleaving, in
    which the timer wins while the poller is looking, leaves the poller sending to nobody,
    and from there it never ends. *)
Theorem kill_cmd_interleavings checkFiles :
  (∀ st, reachable checkFiles st →
     kills st = (if call st is Returned _ then 1%nat else 0%nat) ∧
     (call st = Returned true → seen st = checkFiles ∧ poll st = Gone) ∧
     (call st = Waiting → ∃ st1 st2 ok, step checkFiles st st1 ∧ rtc (step checkFiles) st1 st2 ∧
        call st2 = Returned ok)) ∧
  (∃ st, reachable checkFiles st ∧ leaked st ∧
     ∀ st', rtc (step checkFiles) st st' → poll st' ≠ Gone).
Proof.
  split.
  - intros st Hr. pose proof (reachable_inv _ _ Hr) as [Hp Hc].
    destruct st as [p [|ok] x [] k s]; simpl in *; split_and!; try naive_solver.
    + intros _. eexists _, _, false. split; [apply TimedOut|]. split; [apply rtc_refl|done].
    + intros _. eexists _, _, false. split; [apply Fire|]. split; [apply rtc_once, TimedOut|done].
  - destruct (leak_reachable checkFiles) as (st & Hr & Hl). exists st. split; [done|]. split; [done|].
    intros st' Hs. destruct (leaked_stuck _ _ _ Hl Hs) as [-> _]. done.
Qed.
End Goroutines.
