(* ===== verification/BREtcdadm.v ===== *)
(** * bottlerocket-bootstrap: etcdadm

    [pkg/etcdadm]: the command of the user data, its flags and phases, and the sequence of
    an init and of a join. *)
From S2P Require Import Prelude GoStrings Base64 World BRUtils BRWaiters.
From stdpp Require Import base tactics strings list gmap.
From Stdlib Require Import Ascii.

Local Open Scope string_scope.
Local Open Scope list_scope.

(** ** Constants *)
Definition CmdPrefix : string := "Etcdadm".
Definition rootfsEtcdBaseDir : string := "/.bottlerocket/rootfs/var/lib/etcd".
Definition etcdBaseDir : string := "/var/lib/etcd".
Definition certFolder : string := "/pki".
Definition dataFolder : string := "/data".
Definition podSpecDir : string := "./manifests".
Definition initCmd : string := "EtcdadmInit".
Definition joinCmd : string := "EtcdadmJoin".
Definition etcdadmBinary : string := "/opt/bin/etcdadm".

Definition dirs : list string :=
  [podSpecDir; rootfsEtcdBaseDir +:+ dataFolder; rootfsEtcdBaseDir +:+ certFolder].

Definition initPreKubeletPhases : list string := ["install"; "certificates"; "snapshot"; "configure"; "start"].
Definition initPostKubeletPhases : list string := ["health"].
Definition joinPreKubeletPhases : list string :=
  ["stop"; "certificates"; "membership"; "install"; "configure"; "start"].
Definition joinPostKubeletPhases : list string := ["health"].

(** ** The command of the user data *)
Inductive command :=
| initCommand (repository version cipherSuites : string)
| joinCommand (repository version cipherSuites endpoint : string).

Definition parseCmd {W} (bootstrapCmd : string) : go W command :=
  let words := Fields bootstrapCmd in
  match words with
  | [] => fail ("invalid bootstrap etcdadm command [" +:+ bootstrapCmd +:+ "]")
  | cmd :: args =>
      if cmd =s initCmd then
        match args with
        | [repository; version; cipherSuites] => mret (initCommand repository version cipherSuites)
        | _ => fail ("invalid bootstrap etcdadm init command [" +:+ bootstrapCmd +:+ "]")
        end
      else if cmd =s joinCmd then
        match args with
        | [repository; version; cipherSuites; endpoint] =>
            mret (joinCommand repository version cipherSuites endpoint)
        | _ => fail ("invalid bootstrap etcdadm join command [" +:+ bootstrapCmd +:+ "]")
        end
      else fail ("invalid etcdadm bootstrap command " +:+ bootstrapCmd)
  end.

(** ** Phases *)
Definition buildFlags (repository version cipherSuites : string) : list string :=
  ["-l"; "debug"; "--version"; version; "--init-system"; "kubelet"; "--image-repository"; repository;
   "--certs-dir"; etcdBaseDir +:+ certFolder; "--data-dir"; etcdBaseDir +:+ dataFolder;
   "--kubelet-pod-manifest-path"; podSpecDir; "--cipher-suites"; cipherSuites].

Definition buildPhaseCmd (command phase : string) (args : list string) : list string :=
  [command; "phase"; phase] ++ args.
Definition addFlags (e flags : list string) : list string := e ++ flags.

Definition phase_command (command : string) (flags args : list string) (phase : string) : list string :=
  etcdadmBinary :: addFlags (buildPhaseCmd command phase args) flags.

Section etcdadm.
Context `{HH : !Host} `{HL : !BRLib}.

Definition runPhases (command : string) (phases flags args : list string) : prog unit :=
  forM phases (λ phase,
    _ ← wrap ("error running etcdadm phase '" +:+ command +:+ " " +:+ phase +:+ "'")
          (run (phase_command command flags args phase));
    mret tt).

Definition start_static_pods : prog unit :=
  podDefinitions ← wrap "error enabling etcd static pods" (EnableStaticPods podSpecDir);
  wrap "error waiting for etcd static pods to be up" (WaitForPods podDefinitions).

Definition init_run (repository version cipherSuites : string) : prog unit :=
  let flags := buildFlags repository version cipherSuites in
  _ ← runPhases "init" initPreKubeletPhases flags [];
  _ ← start_static_pods;
  runPhases "init" initPostKubeletPhases flags [].

Definition join_run (repository version cipherSuites endpoint : string) : prog unit :=
  let flags := buildFlags repository version cipherSuites in
  _ ← runPhases "join" joinPreKubeletPhases flags [endpoint];
  _ ← start_static_pods;
  runPhases "join" joinPostKubeletPhases flags [endpoint].

Definition command_run (c : command) : prog unit :=
  match c with
  | initCommand r v cs => init_run r v cs
  | joinCommand r v cs e => join_run r v cs e
  end.

Definition InitializeDirectories : prog unit :=
  _ ← forM dirs (λ dir, wrap ("error creating etcdadm directory [" +:+ dir +:+ "]") (MkdirAll dir));
  wrap "failed init symlinks for etcdadm" (CreateSymLink rootfsEtcdBaseDir etcdBaseDir).

Definition RunCmd (userData : UserData) : prog unit :=
  cmd ← parseCmd (BRUtils.RunCmd userData);
  command_run cmd.
End etcdadm.

(** ** The words of a command *)
Definition words_of (c : command) : list string :=
  match c with
  | initCommand r v cs => [initCmd; r; v; cs]
  | joinCommand r v cs e => [joinCmd; r; v; cs; e]
  end.

(** A word: some bytes, none of them a space. *)
Definition word (s : string) : Prop :=
  s ≠ "" ∧ Forall (λ c, is_space c = false) (String.list_ascii_of_string s).

#[export] Instance word_dec s : Decision (word s).
Proof. unfold word. apply _. Defined.

Section fields.
#[local] Arguments String.append : simpl nomatch.

Lemma fields_from_word s rest cur : Forall (λ c, is_space c = false) (String.list_ascii_of_string s) →
  fields_from (s +:+ rest) cur = fields_from rest (rev_onto s cur).
Proof.
  revert cur. induction s as [|c s IH]; intros cur Hs; [done|].
  apply Forall_cons in Hs as [Hc Hs]. simpl. rewrite Hc. by apply IH.
Qed.

Lemma rev_onto_nonempty s cur : s ≠ "" → (rev_onto s cur =s "") = false.
Proof.
  intros Hs. apply streq_false. rewrite rev_onto_app. intros E.
  assert (String.length (rev_onto s "" +:+ cur) = 0%nat) as El by (by rewrite E).
  destruct s as [|c s]; [done|]. simpl in El. rewrite rev_onto_app in El.
  assert (∀ a b, String.length (a +:+ b) = (String.length a + String.length b)%nat) as Hlen.
  { induction a; intros; simpl; [done|]. by rewrite IHa. }
  rewrite !Hlen in El. simpl in El. lia.
Qed.

Lemma Fields_join ws : Forall word ws → Fields (StrJoin ws " ") = ws.
Proof.
  unfold Fields. induction ws as [|x ws IH]; intros H; [done|].
  apply Forall_cons in H as [[Hne Hx] H]. specialize (IH H).
  destruct ws as [|y ws].
  - cbn [StrJoin]. rewrite <-(sapp_nil_r x) at 1. rewrite fields_from_word by done. cbn [fields_from].
    rewrite rev_onto_nonempty by done. by apply f_equal2; [apply (srev_involutive x)|].
  - change (StrJoin (x :: y :: ws) " ") with (x +:+ String " "%char (StrJoin (y :: ws) " ")).
    rewrite fields_from_word by done. cbn [fields_from]. change (is_space " "%char) with true. cbv iota.
    rewrite rev_onto_nonempty by done. f_equal; [apply (srev_involutive x)|exact IH].
Qed.
End fields.

Section parse.
Context {W : Type} (w : W).

Lemma parseCmd_ret s c w' : parseCmd s w = (Ret c, w') ↔ Fields s = words_of c ∧ w' = w.
Proof.
  unfold parseCmd. destruct (Fields s) as [|x args]; [split; [done|]; intros [E _]; by destruct c|].
  destruct (x =s initCmd) eqn:Ei; [|destruct (x =s joinCmd) eqn:Ej].
  - apply streq_true in Ei as ->. destruct args as [|a1 [|a2 [|a3 [|]]]]; split;
      try (intros [E ->]; destruct c; simplify_eq/=; done); intros H; cbv in H; by simplify_eq.
  - apply streq_true in Ej as ->. apply streq_false in Ei.
    destruct args as [|a1 [|a2 [|a3 [|a4 [|]]]]]; split;
      try (intros [E ->]; destruct c; simplify_eq/=; done); intros H; cbv in H; by simplify_eq.
  - apply streq_false in Ei, Ej. split; [done|]. intros [E ->]. destruct c; simplify_eq/=.
Qed.

Lemma parseCmd_total s : ∃ o, parseCmd s w = (o, w) ∧ ((∃ c, o = Ret c) ∨ ∃ e, o = Err e).
Proof.
  unfold parseCmd. repeat case_match; eexists; (split; [reflexivity|]); eauto.
Qed.
End parse.

(** C21: [parseCmd] reads back every command written as its words, it accepts exactly the
    texts whose words are those of a command (so each has one command), and on any other
    text it returns an error and does nothing. *)
Theorem parse_command {W} (w : W) :
  (∀ c, Forall word (words_of c) → parseCmd (StrJoin (words_of c) " ") w = (Ret c, w)) ∧
  (∀ s c w', parseCmd s w = (Ret c, w') ↔ Fields s = words_of c ∧ w' = w) ∧
  (∀ s, (∀ c, Fields s ≠ words_of c) → ∃ e, parseCmd s w = (Err e, w)).
Proof.
  split_and!.
  - intros c Hc. apply parseCmd_ret. by rewrite Fields_join.
  - intros. apply parseCmd_ret.
  - intros s Hs. destruct (parseCmd_total w s) as (o & Ho & [[c ->]|[e ->]]); [|eauto].
    apply parseCmd_ret in Ho as [E _]. by destruct (Hs c).
Qed.

(** ** The sequence of commands *)
Definition as_etcdadm (e : event) : option (list string) :=
  match e with
  | EExec (binary :: args) _ => if binary =s etcdadmBinary then Some args else None
  | _ => None
  end.

(** The phases of a command, before and after the static pods are started. *)
Definition pre_phases (c : command) : list (list string) :=
  match c with
  | initCommand r v cs =>
      map (phase_command "init" (buildFlags r v cs) []) initPreKubeletPhases
  | joinCommand r v cs e =>
      map (phase_command "join" (buildFlags r v cs) [e]) joinPreKubeletPhases
  end.
Definition post_phases (c : command) : list (list string) :=
  match c with
  | initCommand r v cs =>
      map (phase_command "init" (buildFlags r v cs) []) initPostKubeletPhases
  | joinCommand r v cs e =>
      map (phase_command "join" (buildFlags r v cs) [e]) joinPostKubeletPhases
  end.

Section sequence.
Context `{HH : !Host} `{HL : !BRLib}.

Lemma emits_runPhases command phases flags args :
  emits as_etcdadm (runPhases command phases flags args)
    (flat_map (λ p, [tail (phase_command command flags args p)]) phases).
Proof.
  apply emits_forM. intros p. apply emits_before; [|intros; quiet_solve].
  apply emits_wrap. apply (emits_run as_etcdadm (phase_command command flags args p)).
Qed.

Lemma runPhases_commands command phases flags args w w' :
  runPhases command phases flags args w = (Ret tt, w') →
  commands (map (phase_command command flags args) phases) w = (Ret tt, w').
Proof. apply commands_wrap. Qed.

(** Starting the static pods runs [apiclient] only. *)
Lemma quiet_static_pods : preserves (quiet as_etcdadm) start_static_pods.
Proof.
  unfold start_static_pods, EnableStaticPods, enable_static_pod, UnmarshalPodDefinition. quiet_solve.
Qed.

Lemma static_pods_execs w w' : start_static_pods w = (Ret tt, w') →
  ∃ manifests, manifests.*1 = filter (λ name, isPodFile name = true) (entries (w_fs w) (Clean podSpecDir)).*1 ∧
    execs w' = execs w ++ map enable_command manifests ∧
    (manifests_stable podSpecDir → manifests_of podSpecDir (w_fs w) manifests).
Proof.
  unfold start_static_pods. intros H. apply bind_ret_inv in H as (pods & w1 & H & H2).
  apply wrap_ret, EnableStaticPods_ret in H as (manifests & Hn & He & HF). quiet_in H2.
  exists manifests. split; [done|]. split; [by rewrite H2, He|]. intros Hst. by eapply manifests_of_in, HF.
Qed.

Lemma stops_command_run c : stops_on_failure (command_run c).
Proof.
  unfold command_run, init_run, join_run, runPhases, start_static_pods, EnableStaticPods, enable_static_pod,
    UnmarshalPodDefinition. stops_solve.
Qed.
End sequence.

Lemma tail_phases (command : string) (flags args phases : list string) :
  flat_map (λ p, [tail (phase_command command flags args p)]) phases =
  map tail (map (phase_command command flags args) phases).
Proof. induction phases as [|p ps IH]; [done|]. cbn [flat_map map]. by rewrite IH. Qed.

Section run.
Context `{HH : !Host} `{HL : !BRLib}.

Lemma emits_command_run c : emits as_etcdadm (command_run c) (map tail (pre_phases c ++ post_phases c)).
Proof.
  rewrite map_app. destruct c as [r v cs|r v cs e]; cbn [command_run pre_phases post_phases];
    unfold init_run, join_run; cbv zeta; rewrite <-!tail_phases;
    (apply emits_bind; [apply emits_runPhases|]); intros _;
    (apply emits_after; [apply quiet_static_pods|]); intros _; apply emits_runPhases.
Qed.

Lemma command_run_execs c w w' : command_run c w = (Ret tt, w') →
  ∃ manifests w1, commands (pre_phases c) w = (Ret tt, w1) ∧
    manifests.*1 = filter (λ name, isPodFile name = true) (entries (w_fs w1) (Clean podSpecDir)).*1 ∧
    (manifests_stable podSpecDir → manifests_of podSpecDir (w_fs w1) manifests) ∧
    execs w' = execs w ++ pre_phases c ++ map enable_command manifests ++ post_phases c.
Proof.
  destruct c as [r v cs|r v cs e]; cbn [command_run pre_phases post_phases]; unfold init_run, join_run;
    cbv zeta; intros H; apply bind_ret_inv in H as ([] & w1 & H1 & H);
    apply bind_ret_inv in H as ([] & w2 & H2 & H3);
    apply runPhases_commands in H1; apply runPhases_commands, commands_execs in H3;
    apply static_pods_execs in H2 as (manifests & Hn & He & HF);
    exists manifests, w1; split_and!; [done|done|done| |done|done|done|];
    rewrite H3, He, (commands_execs _ _ _ H1), <-!app_assoc; done.
Qed.
End run.

(** C13: etcdadm's phases run in their order: whatever happens, the etcdadm commands that
    were run are the first of the phases of the command. A command that fails, be it a phase
    or the one that enables a static pod, is the last command of the run, and [RunCmd] then
    does not return. When it returns all phases were run, and between the phases before the
    kubelet, the last of which is "start", and those after it, the first of which is
    "health", every manifest that the first ones have left in the directory was enabled as a
    static pod, with its contents if enabling leaves the manifests alone. A command that
    cannot be parsed runs nothing. *)
Theorem etcdadm_sequence `{HH : !Host} `{HL : !BRLib} u :
  (∀ c, Fields (BRUtils.RunCmd u) = words_of c →
    emits as_etcdadm (RunCmd u) (map tail (pre_phases c ++ post_phases c)) ∧
    stops_on_failure (RunCmd u) ∧
    ∀ w w', RunCmd u w = (Ret tt, w') →
      ∃ manifests w1, commands (pre_phases c) w = (Ret tt, w1) ∧
        manifests.*1 = filter (λ name, isPodFile name = true) (entries (w_fs w1) (Clean podSpecDir)).*1 ∧
        (manifests_stable podSpecDir → manifests_of podSpecDir (w_fs w1) manifests) ∧
        execs w' = execs w ++ pre_phases c ++ map enable_command manifests ++ post_phases c) ∧
  ((∀ c, Fields (BRUtils.RunCmd u) ≠ words_of c) → ∀ w, ∃ e, RunCmd u w = (Err e, w)).
Proof.
  split.
  - intros c Hc.
    assert (∀ w, RunCmd u w = command_run c w) as Hrun.
    { intros w. unfold RunCmd. rewrite (bind_step _ _ w c w); [done|]. by apply parseCmd_ret. }
    split_and!; [intros w o w'; rewrite Hrun; apply emits_command_run| |].
    + intros w o w'. rewrite Hrun. apply stops_command_run.
    + intros w w'. rewrite Hrun. apply command_run_execs.
  - intros Hn w. destruct (parseCmd_total w (BRUtils.RunCmd u)) as (o & Ho & [[c ->]|[e ->]]).
    + apply parseCmd_ret in Ho as [E _]. by destruct (Hn c).
    + exists e. unfold RunCmd. by apply bind_err.
Qed.

(** A member that joins a cluster of one: the phases of the join, one static pod. *)
Definition join_user_data : UserData :=
  mkUserData "" [] "EtcdadmJoin public.ecr.aws/etcd v3.5 TLS_A https://10.0.0.1:2379".

Lemma etcdadm_sequence_witness :
  let w := mkWorld {[ "manifests/etcd.manifest" := File "kind: Pod" 420 ]} ∅ [] in
  let c := joinCommand "public.ecr.aws/etcd" "v3.5" "TLS_A" "https://10.0.0.1:2379" in
  ∃ w', RunCmd (HH := plain_host) (HL := sample_brlib) join_user_data w = (Ret tt, w') ∧
    ∃ manifests w1, commands (HH := plain_host) (pre_phases c) w = (Ret tt, w1) ∧
      manifests.*1 = filter (λ name, isPodFile name = true) (entries (w_fs w1) (Clean podSpecDir)).*1 ∧
      (manifests_stable (HH := plain_host) podSpecDir → manifests_of podSpecDir (w_fs w1) manifests) ∧
      execs w' = execs w ++ pre_phases c ++ map enable_command manifests ++ post_phases c.
Proof.
  intros w c. eexists. split; [vm_compute; reflexivity|].
  refine (proj2 (proj2 (proj1 (etcdadm_sequence (HH := plain_host) (HL := sample_brlib) join_user_data) c _)) w _ _);
    [vm_compute; reflexivity|vm_compute; reflexivity].
Defined.
