(* ===== verification/BRKubeadm.v ===== *)
(** * bottlerocket-bootstrap: kubeadm

    [pkg/kubeadm]: the init of a control plane, the join of a control plane and the join
    of a worker, and the helpers they share. The reading of the disk that [startEbsInit]
    leaves in the background changes nothing the programs look at: what the model keeps of
    it is when it ends. *)
From S2P Require Import Prelude GoStrings Base64 World GoJson BRUtils BRWaiters.
From stdpp Require Import base tactics strings list gmap.
From Stdlib Require Import Ascii.

Local Open Scope string_scope.
Local Open Scope list_scope.

(** ** Constants *)
Definition kubeadmFile : string := "/tmp/kubeadm.yaml".
Definition kubectl : string := "/opt/bin/kubectl".
Definition kubeadmBinary : string := "/opt/bin/kubeadm".
Definition kubeconfigPath : string := "/etc/kubernetes/admin.conf".
Definition kubeadmJoinFile : string := "/tmp/kubeadm-join-config.yaml".
Definition kubeletConfigFile : string := "/var/lib/kubelet/config.yaml".
Definition staticPodManifestsPath : string := "/etc/kubernetes/manifests".
Definition bottlerocketRootFSKubeadmPKIPath : string := "/.bottlerocket/rootfs/var/lib/kubeadm/pki".
Definition apiServerManifestPath : string := "/.bottlerocket/rootfs/etc/kubernetes/manifests/kube-apiserver".
Definition ebsInitMarker : string := "/tmp/run-ebs-init".
Definition kubernetesCACertFile : string := "/etc/kubernetes/pki/ca.crt".

Record KubeletTlsConfig := mkTls { KubeletServingCert : string; KubeletServingPrivateKey : string }.

(** ** Values in a map of interfaces: a failed type assertion panics. *)
Definition member (m : list (string * json)) (key : string) : json :=
  foldl (λ v kv, if kv.1 =s key then kv.2 else v) JNull m.

Definition as_map {W} (v : json) : go W (list (string * json)) :=
  match v with JObj m => mret m | _ => panic "interface conversion" end.
Definition as_string {W} (v : json) : go W string :=
  match v with JStr s => mret s | _ => panic "interface conversion" end.

(** ** The walk of [startEbsInit] *)
Inductive dir_entry_info := Directory (name : string) | Regular | OtherFile.
Inductive walk_action := SkipDir | Read | Nothing.

Definition walkDirFunc (dirEntry : option dir_entry_info) : walk_action :=
  match dirEntry with
  | None => SkipDir
  | Some (Directory name) => if (name =s "proc") || (name =s "sys") || (name =s "run") then SkipDir else Nothing
  | Some Regular => Read
  | Some OtherFile => Nothing
  end.

(** The time at which the timeout fires and the time at which the goroutine is done. *)
Record EbsInitControl := mkEbs { Timeout : Z; Finished : Z }.

Section kubeadm.
Context `{HH : !Host} `{HL : !BRLib}.

Definition getBootstrapToken : prog string :=
  token ← wrap "Error getting token"
    (run [kubeadmBinary; "token"; "list"; "-o"; "jsonpath=" +:+ q "{.token}"]);
  mret (ReplaceAll token (String quote "") "").

Definition getEncodedCA : prog string :=
  caFileData ← wrap "Error reading the ca data" (ReadFile kubernetesCACertFile);
  mret (EncodeToString caFileData).

Definition hostname_mark : string := "{{ ds.meta_data.hostname }}".

Definition setHostName (filepath : string) : prog unit :=
  hostname ← wrap "Error getting hostname" Hostname;
  fileData ← wrap "Error reading kubeadm file" (ReadFile filepath);
  wrap "Error writing file" (files_Write filepath (ReplaceAll fileData hostname_mark hostname) 416).

Definition getDNS (path : string) : prog string :=
  dns ← wrap "Error getting api server"
    (run [kubectl; "--kubeconfig"; path; "get"; "svc"; "kube-dns"; "-n"; "kube-system"; "-o";
          "jsonpath='{..clusterIP}'"]);
  mret (ReplaceAll dns "'" "").

Definition awk_command (path : string) : list string :=
  ["bash"; "-c"; "awk '/clusterDNS:/ { getline; print $2 }' " +:+ path].

Definition getDNSFromJoinConfig (path : string) : prog string :=
  _ ← ReadFile path;
  dns ← wrap "Error getting api server" (run (awk_command path));
  mret (TrimSuffix dns nl).

Definition unmarshalIntoMap (content : string) : prog (list (string * json)) :=
  match yaml_map (Trim content "'") with
  | None => fail "error unmarshalling into map of empty interface"
  | Some m => mret m
  end.

Definition getBootstrapFromJoinConfig (path : string) : prog (string * string) :=
  data ← wrap "Error reading kubeadm join config file" (ReadFile path);
  kubeadmJoinData ← wrap "failed unmarshalling yaml kubeadm join config to interfaces"
    (unmarshalIntoMap (TrimPrefix data "---"));
  discovery ← as_map (member kubeadmJoinData "discovery");
  bootstrapToken ← as_map (member discovery "bootstrapToken");
  serverEndpoint ← as_string (member bootstrapToken "apiServerEndpoint");
  token ← as_string (member bootstrapToken "token");
  mret ("https://" +:+ serverEndpoint, token).

(** The first container with a readiness probe decides. *)
Fixpoint first_readiness (l : list Container) : option Probe :=
  match l with
  | [] => None
  | c :: l => match ReadinessProbe c with Some p => Some p | None => first_readiness l end
  end.

Definition getLocalApiServerReadinessEndpoint : prog string :=
  data ← wrap "Error reading ApiServer manifest file" (ReadFile apiServerManifestPath);
  podDef ← wrap "Error parsing pod def from manifest" (UnmarshalPodDefinition data);
  match first_readiness (Containers podDef) with
  | None => fail "Cannot find readiness probe exists on pod definition"
  | Some probe =>
      h ← deref (HTTPGet probe);
      mret (hg_Scheme h +:+ "://" +:+ hg_Host h +:+ ":" +:+ Itoa (hg_Port h) +:+ hg_Path h)
  end.

Definition getClusterConfigurationFromCluster (kubeconfig : string) : prog string :=
  wrap "failed getting kubeadm-config configMap"
    (run [kubectl; "--kubeconfig"; kubeconfig; "-n"; "kube-system"; "get"; "cm"; "kubeadm-config"; "-o";
          "jsonpath='{..data.ClusterConfiguration}'"]).

Definition isExternalEtcd (clusterConfiguration : string) : prog bool :=
  config ← wrap "error unmarshalling ClusterConfiguration" (unmarshalIntoMap clusterConfiguration);
  etcd ← as_map (member config "etcd");
  mret (match member etcd "external" with JNull => false | _ => true end).

Definition isClusterWithExternalEtcd (kubeconfig : string) : prog bool :=
  clusterConfiguration ← getClusterConfigurationFromCluster kubeconfig;
  isExternalEtcd clusterConfiguration.

(** ** The optional reading of the disk *)
Definition startEbsInit : prog (option EbsInitControl) :=
  st ← Stat ebsInitMarker;
  match st with
  | StatOk _ =>
      now ← Now;
      w ← get;
      mret (Some (mkEbs (now + 2 * Minute) (now + ebs_walk_time w)))
  | _ => mret None
  end.

(** Waits for the timeout or the end of the reading, whichever is first. *)
Definition checkEbsInit (ctrl : EbsInitControl) : prog unit :=
  now ← Now;
  Sleep (Z.max 0 (Z.min (Timeout ctrl) (Finished ctrl) - now)).

Definition check_ebs (ctrl : option EbsInitControl) : prog unit :=
  match ctrl with None => mret tt | Some c => checkEbsInit c end.

(** ** The kubelet's certificate *)
Definition readAndEncodeFile (filePath : string) (reader : string → prog string) : prog string :=
  contents ← reader filePath;
  if contents =s "" then fail "empty contents" else mret (EncodeToString contents).

(** An error at either file means no configuration. *)
Definition readKubeletTlsConfig (reader : string → prog string) : prog (option KubeletTlsConfig) :=
  recover (
    cert ← readAndEncodeFile "/.bottlerocket/rootfs/var/lib/kubeadm/pki/kubelet-serving.crt" reader;
    key ← readAndEncodeFile "/.bottlerocket/rootfs/var/lib/kubeadm/pki/kubelet-serving.key" reader;
    mret (Some (mkTls cert key)))
  (λ _, mret None).

Definition tls_args (c : option KubeletTlsConfig) : list string :=
  match c with
  | None => []
  | Some c => ["settings.kubernetes.server-certificate=" +:+ KubeletServingCert c;
               "settings.kubernetes.server-key=" +:+ KubeletServingPrivateKey c]
  end.

Definition patchKubeVipManifest : prog unit :=
  let kubeVipManifest := PathJoin [staticPodManifestsPath; "kube-vip.yaml"] in
  contents ← wrap ("Error reading file " +:+ kubeVipManifest) (ReadFile kubeVipManifest);
  let updatedContents := ReplaceAll contents "path: /etc/kubernetes/admin.conf"
                           "path: /etc/kubernetes/super-admin.conf" in
  let updatedContents := ReplaceAll updatedContents "path: /var/lib/kubeadm/admin.conf"
                           "path: /var/lib/kubeadm/super-admin.conf" in
  wrap ("Error writing file " +:+ kubeVipManifest) (WriteFile kubeVipManifest updatedContents 420).

(** ** Waiting for the kubelet *)
Definition waitForKubelet : prog unit := WaitForSystemdService "kubelet.service" (90 * Second).

Definition waitForActiveKubelet : prog unit :=
  _ ← wrap "Error waiting for kubelet to come up" waitForKubelet;
  _ ← Sleep (20 * Second);
  wrap "Error waiting for kubelet to come up" waitForKubelet.

Definition join_files : list string :=
  ["/var/lib/kubelet/config.yaml"; "/var/lib/kubelet/kubeadm-flags.env"; "/var/lib/kubeadm/pki/ca.crt"].

Definition killCmdAfterJoinFilesGeneration (cmd : list string) : prog unit :=
  KillCmdAfterFilesGeneration cmd join_files.
End kubeadm.

(** ** The three sequences *)
Section sequences.
Context `{HH : !Host} `{HL : !BRLib} (LogVerbosity : string).

Definition kubeadm_command (args : list string) : list string := kubeadmBinary :: LogVerbosity :: args.

Definition run_kubeadm (args : list string) : prog unit :=
  _ ← wrap "Error running command" (run (kubeadm_command args)); mret tt.

Definition run_apiclient (args : list string) : prog unit :=
  _ ← wrap "Error running command" (run (ApiclientBinary :: args)); mret tt.

Definition fallback_endpoint : string := "https://localhost:6443/healthz".

(** The version kubeadm prints, and how it compares with [limit]. *)
Definition kubeadm_version : prog string :=
  out ← wrap "Error running command" (run [kubeadmBinary; "version"; "-o=short"]);
  let version := TrimSuffix out nl in
  if version_valid version then mret version else fail (out +:+ " is not a valid kubeadm version").

Definition compare_with (version limit : string) : prog Z :=
  match version_compare version limit with
  | Some c => mret c
  | None => fail ("Error comparing kubeadm version with v" +:+ limit)
  end.

(** Keys and manifests. *)
Definition init_phases : list (list string) :=
  [["init"; "phase"; "certs"; "all"; "--config"; kubeadmFile];
   ["init"; "phase"; "kubeconfig"; "all"; "--config"; kubeadmFile];
   ["init"; "phase"; "control-plane"; "all"; "--config"; kubeadmFile];
   ["init"; "phase"; "etcd"; "local"; "--config"; kubeadmFile]].

Definition migrate_static_pods : prog unit :=
  podDefinitions ← wrap "Error enabling static pods" (EnableStaticPods staticPodManifestsPath);
  wrap "Error waiting for static pods to be up" (WaitForPods podDefinitions).

(** The local server, then the advertised one. *)
Definition wait_api_server (apiServer : string) : prog unit :=
  localApiServerReadinessEndpoint ←
    recover getLocalApiServerReadinessEndpoint (λ _, mret fallback_endpoint);
  _ ← WaitFor200 localApiServerReadinessEndpoint (30 * Second);
  WaitFor200 (apiServer +:+ "/healthz") (30 * Second).

Definition init_settings (apiServer b64CA token : string) : list string :=
  ["set"; "kubernetes.api-server=" +:+ apiServer; "kubernetes.cluster-certificate=" +:+ b64CA;
   "kubernetes.bootstrap-token=" +:+ token; "kubernetes.authentication-mode=tls";
   "kubernetes.standalone-mode=false"].

Definition finish_init_args (k8s126Compare : Z) : list string :=
  ["init"; "--skip-phases";
   if bool_decide (k8s126Compare = -1)%Z
   then "preflight,kubelet-start,certs,kubeconfig,bootstrap-token,control-plane,etcd"
   else "preflight,kubelet-start,certs,kubeconfig,bootstrap-token,control-plane,etcd,show-join-command";
   "--config"; kubeadmFile].

Definition prepare_init : prog string :=
  kubeadmVersion ← kubeadm_version;
  k8s129Compare ← compare_with kubeadmVersion "1.29.0";
  _ ← when (negb (bool_decide (k8s129Compare = -1)%Z))
        (wrap "Error patching kube-vip manifest" patchKubeVipManifest);
  mret kubeadmVersion.

Definition configure_init (apiServer b64CA : string) : prog unit :=
  _ ← run_kubeadm ["init"; "phase"; "bootstrap-token"; "--config"; kubeadmFile];
  token ← wrap "Error getting token" getBootstrapToken;
  kubeletTlsConfig ← readKubeletTlsConfig ReadFile;
  run_apiclient (init_settings apiServer b64CA token ++ tls_args kubeletTlsConfig).

Definition finish_init (kubeadmVersion : string) : prog unit :=
  k8s126Compare ← compare_with kubeadmVersion "1.26.0";
  _ ← run_kubeadm (finish_init_args k8s126Compare);
  dns ← wrap "Error getting dns ip" (getDNS kubeconfigPath);
  run_apiclient ["set"; "kubernetes.cluster-dns-ip=" +:+ dns].

Definition controlPlaneInit : prog unit :=
  _ ← wrap "Error replacing hostname on kubeadm" (setHostName kubeadmFile);
  ebsInitControl ← startEbsInit;
  kubeadmVersion ← prepare_init;
  _ ← forM init_phases run_kubeadm;
  _ ← migrate_static_pods;
  apiServer ← wrap "Error getting api server" (GetApiServerFromKubeConfig kubeconfigPath);
  b64CA ← wrap "Error reading the ca data" getEncodedCA;
  _ ← wait_api_server apiServer;
  _ ← configure_init apiServer b64CA;
  _ ← wrap "Error waiting for kubelet to come up" waitForActiveKubelet;
  _ ← finish_init kubeadmVersion;
  check_ebs ebsInitControl.

(** ** Joins *)
Definition kubelet_start : list string :=
  kubeadm_command ["join"; "phase"; "kubelet-start"; "--config"; kubeadmJoinFile].
Definition etcd_join : list string :=
  kubeadm_command ["join"; "phase"; "control-plane-join"; "etcd"; "--config"; kubeadmJoinFile].

Definition start_kubelet : prog unit :=
  _ ← wrap "Error running command" (Start kubelet_start);
  wrap "Error waiting for worker join files" (killCmdAfterJoinFilesGeneration kubelet_start).

Definition joinLocalEtcd : prog unit :=
  _ ← wrap "Error running command" (Start etcd_join);
  wrap "Error waiting for etcd manifest files"
    (KillCmdAfterFilesGeneration etcd_join ["/etc/kubernetes/manifests/etcd.yaml"]).

Definition join_settings (apiServer b64CA dns token : string) : list string :=
  ["set"; "kubernetes.api-server=" +:+ apiServer; "kubernetes.cluster-certificate=" +:+ b64CA;
   "kubernetes.cluster-dns-ip=" +:+ dns; "kubernetes.bootstrap-token=" +:+ token;
   "kubernetes.authentication-mode=tls"; "kubernetes.standalone-mode=false"].

Definition prepare_join_args : list string :=
  ["join"; "phase"; "control-plane-prepare"; "all"; "--config"; kubeadmJoinFile].
Definition finish_join_args : list string :=
  ["join"; "--skip-phases"; "preflight,control-plane-prepare,kubelet-start,control-plane-join/etcd";
   "--config"; kubeadmJoinFile].

Definition configure_join : prog string :=
  dns ← wrap "Error getting api server" (getDNSFromJoinConfig kubeletConfigFile);
  at_ ← wrap "Error getting api server" (getBootstrapFromJoinConfig kubeadmJoinFile);
  b64CA ← wrap "Error reading the ca data" getEncodedCA;
  kubeletTlsConfig ← readKubeletTlsConfig ReadFile;
  _ ← run_apiclient (join_settings at_.1 b64CA dns at_.2 ++ tls_args kubeletTlsConfig);
  mret at_.1.

Definition controlPlaneJoin : prog unit :=
  _ ← wrap "Error replacing hostname on kubeadm" (setHostName kubeadmJoinFile);
  ebsInitControl ← startEbsInit;
  _ ← run_kubeadm prepare_join_args;
  _ ← start_kubelet;
  apiServer ← configure_join;
  _ ← wrap "Error waiting for kubelet to come up" waitForActiveKubelet;
  isEtcdExternal ← isClusterWithExternalEtcd kubeconfigPath;
  _ ← when (negb isEtcdExternal) joinLocalEtcd;
  _ ← migrate_static_pods;
  _ ← wait_api_server apiServer;
  _ ← run_kubeadm finish_join_args;
  check_ebs ebsInitControl.

Definition workerJoin : prog unit :=
  _ ← wrap "Error replacing hostname on kubeadm" (setHostName kubeadmJoinFile);
  _ ← start_kubelet;
  at_ ← wrap "Error getting api server and token from kubeadm join config"
    (getBootstrapFromJoinConfig kubeadmJoinFile);
  b64CA ← wrap "Error reading the ca data" getEncodedCA;
  dns ← wrap "Error getting dns from kubelet config" (getDNSFromJoinConfig kubeletConfigFile);
  _ ← run_apiclient (join_settings at_.1 b64CA dns at_.2);
  waitForActiveKubelet.

(** ** The bootstrapper *)
Definition InitializeDirectories : prog unit :=
  _ ← wrap "error creating directory" (MkdirAll bottlerocketRootFSKubeadmPKIPath);
  _ ← wrap "error running command" (run ["bash"; "-c"; "ln -sfn /.bottlerocket/rootfs/var/lib/kubeadm /var/lib"]);
  _ ← wrap "error running command"
        (run ["bash"; "-c"; "ln -sfn /.bottlerocket/rootfs/var/lib/kubeadm /etc/kubernetes"]);
  mret tt.

(** A command that is none of the three is not an error. *)
Definition RunCmd (userData : UserData) : prog unit :=
  let cmd := BRUtils.RunCmd userData in
  if cmd =s "ControlPlaneInit" then wrap "error initing controlplane" controlPlaneInit
  else if cmd =s "ControlPlaneJoin" then wrap "error joining controlplane" controlPlaneJoin
  else if cmd =s "WorkerJoin" then wrap "error joining as worker" workerJoin
  else mret tt.
End sequences.

(** ** What each step runs *)
Section steps.
Context `{HH : !Host} `{HL : !BRLib} (v : string).

Lemma run_kubeadm_execs args w w' : run_kubeadm v args w = (Ret tt, w') →
  execs w' = execs w ++ [kubeadm_command v args].
Proof.
  unfold run_kubeadm. intros H. apply bind_ret_inv in H as (u & w1 & H & H2).
  apply mret_ret in H2 as [_ <-]. by apply wrap_ret, run_ret in H as (H & _).
Qed.

Lemma run_apiclient_execs args w w' : run_apiclient args w = (Ret tt, w') →
  execs w' = execs w ++ [ApiclientBinary :: args].
Proof.
  unfold run_apiclient. intros H. apply bind_ret_inv in H as (u & w1 & H & H2).
  apply mret_ret in H2 as [_ <-]. by apply wrap_ret, run_ret in H as (H & _).
Qed.

Lemma init_phases_commands w w' : forM init_phases (run_kubeadm v) w = (Ret tt, w') →
  commands (map (kubeadm_command v) init_phases) w = (Ret tt, w').
Proof. apply (commands_wrap init_phases (kubeadm_command v) (λ _, "Error running command")). Qed.

Lemma stops_run_kubeadm args : stops_on_failure (run_kubeadm v args).
Proof. unfold run_kubeadm. stops_solve. Qed.

Lemma stops_run_apiclient args : stops_on_failure (run_apiclient args).
Proof. unfold run_apiclient. stops_solve. Qed.

Lemma stops_migrate : stops_on_failure migrate_static_pods.
Proof. unfold migrate_static_pods, EnableStaticPods, enable_static_pod, UnmarshalPodDefinition. stops_solve. Qed.

Lemma run_kubeadm_command args w w' : run_kubeadm v args w = (Ret tt, w') →
  commands [kubeadm_command v args] w = (Ret tt, w').
Proof. intros H. apply (commands_wrap [args] (kubeadm_command v) (λ _, "Error running command")). cbn [forM]. by rewrite (bind_step _ _ _ _ _ H). Qed.

Lemma migrate_execs w w' : migrate_static_pods w = (Ret tt, w') →
  ∃ manifests, manifests.*1 =
      filter (λ name, isPodFile name = true) (entries (w_fs w) (Clean staticPodManifestsPath)).*1 ∧
    (manifests_stable staticPodManifestsPath → manifests_of staticPodManifestsPath (w_fs w) manifests) ∧
    execs w' = execs w ++ map enable_command manifests.
Proof.
  unfold migrate_static_pods. intros H. apply bind_ret_inv in H as (pods & w1 & H & H2).
  apply wrap_ret, EnableStaticPods_ret in H as (manifests & Hn & He & HF). quiet_in H2.
  exists manifests. split; [done|]. split; [intros Hst; by eapply manifests_of_in, HF|]. by rewrite H2, He.
Qed.

(** The kubelet's certificate and key, when both are there. *)
Definition tls_of (fs : gmap string node) (t : KubeletTlsConfig) : Prop :=
  ∃ cert m key m', fs !! "/.bottlerocket/rootfs/var/lib/kubeadm/pki/kubelet-serving.crt" = Some (File cert m) ∧
    fs !! "/.bottlerocket/rootfs/var/lib/kubeadm/pki/kubelet-serving.key" = Some (File key m') ∧
    cert ≠ "" ∧ key ≠ "" ∧ t = mkTls (EncodeToString cert) (EncodeToString key).

Lemma readAndEncodeFile_ret p w s w' : readAndEncodeFile p ReadFile w = (Ret s, w') →
  ∃ c m, w_fs w !! p = Some (File c m) ∧ c ≠ "" ∧ s = EncodeToString c ∧ w_fs w' = w_fs w.
Proof.
  unfold readAndEncodeFile. intros H. apply bind_ret_inv in H as (c & w1 & H1 & H).
  apply ReadFile_ret in H1 as [[m Hm] ->]. destruct (c =s "") eqn:E; [done|]. apply streq_false in E.
  apply mret_ret in H as [<- <-]. by exists c, m.
Qed.

Lemma readKubeletTlsConfig_ret w t w' : readKubeletTlsConfig ReadFile w = (Ret (Some t), w') → tls_of (w_fs w) t.
Proof.
  unfold readKubeletTlsConfig, recover. intros H.
  lazymatch type of H with context [?m ≫= ?k] => destruct ((m ≫= k) w) as [[x|e|p|c] w1] eqn:E end; try done.
  injection H as -> ->. apply bind_ret_inv in E as (cert & w2 & H1 & E).
  apply readAndEncodeFile_ret in H1 as (c & m & Hc & Hne & -> & Hfs).
  apply bind_ret_inv in E as (key & w3 & H2 & E). apply readAndEncodeFile_ret in H2 as (k & m' & Hk & Hnk & -> & _).
  apply mret_ret in E as [[= <-] _]. rewrite Hfs in Hk. by exists c, m, k, m'.
Qed.

Lemma getEncodedCA_ret w b64 w' : getEncodedCA w = (Ret b64, w') →
  ∃ ca m, w_fs w !! kubernetesCACertFile = Some (File ca m) ∧ b64 = EncodeToString ca ∧
    w' = log (ERead kubernetesCACertFile) w.
Proof.
  unfold getEncodedCA. intros H. apply bind_ret_inv in H as (ca & w1 & H1 & H).
  apply wrap_ret, ReadFile_ret in H1 as [[m Hm] ->]. apply mret_ret in H as [<- <-]. by exists ca, m.
Qed.

Lemma GetApiServer_ret p w server w' : GetApiServerFromKubeConfig p w = (Ret server, w') →
  ∃ data m servers, w_fs w !! p = Some (File data m) ∧ kubeconfig_servers data = Some servers ∧
    server = (if bool_decide (length servers = 1) then hd "" servers else "") ∧ w' = log (ERead p) w.
Proof.
  unfold GetApiServerFromKubeConfig. intros H. apply bind_ret_inv in H as (data & w1 & H1 & H).
  apply wrap_ret, ReadFile_ret in H1 as [[m Hm] ->]. destruct (kubeconfig_servers data) as [servers|] eqn:E; [|done].
  cbv zeta in H. exists data, m, servers.
  destruct (bool_decide _); apply mret_ret in H as [<- <-]; done.
Qed.

Definition token_command : list string :=
  [kubeadmBinary; "token"; "list"; "-o"; "jsonpath=" +:+ q "{.token}"].
Definition version_command : list string := [kubeadmBinary; "version"; "-o=short"].
Definition dns_command (path : string) : list string :=
  [kubectl; "--kubeconfig"; path; "get"; "svc"; "kube-dns"; "-n"; "kube-system"; "-o"; "jsonpath='{..clusterIP}'"].
Definition cluster_config_command : list string :=
  [kubectl; "--kubeconfig"; kubeconfigPath; "-n"; "kube-system"; "get"; "cm"; "kubeadm-config"; "-o";
   "jsonpath='{..data.ClusterConfiguration}'"].

Lemma quiet_setHostName {X} (f : event → option X) p :
  (∀ p, f (ERead p) = None) → (∀ p c m, f (EWrite p c m) = None) → (∀ p, f (EMkdirAll p) = None) →
  preserves (quiet f) (setHostName p).
Proof. intros ???. unfold setHostName, files_Write. quiet_solve. Qed.

Lemma quiet_startEbsInit {X} (f : event → option X) :
  (∀ p, f (EStat p) = None) → preserves (quiet f) startEbsInit.
Proof. intros ?. unfold startEbsInit. quiet_solve. Qed.

Lemma quiet_check_ebs {X} (f : event → option X) c :
  (∀ n, f (ESleep n) = None) → preserves (quiet f) (check_ebs c).
Proof. intros ?. unfold check_ebs, checkEbsInit. quiet_solve. Qed.

Lemma quiet_readKubeletTlsConfig {X} (f : event → option X) :
  (∀ p, f (ERead p) = None) → preserves (quiet f) (readKubeletTlsConfig ReadFile).
Proof. intros ?. unfold readKubeletTlsConfig, readAndEncodeFile. quiet_solve. Qed.

Lemma quiet_active_kubelet {X} (f : event → option X) :
  (∀ n, f (ESleep n) = None) → (∀ u, f (EGet u) = None) → preserves (quiet f) waitForActiveKubelet.
Proof. intros ??. unfold waitForActiveKubelet, waitForKubelet. quiet_solve. Qed.

Lemma quiet_wait_api_server {X} (f : event → option X) s :
  (∀ n, f (ESleep n) = None) → (∀ u, f (EGet u) = None) → (∀ p, f (ERead p) = None) →
  preserves (quiet f) (wait_api_server s).
Proof.
  intros ???. unfold wait_api_server, getLocalApiServerReadinessEndpoint, UnmarshalPodDefinition. quiet_solve.
Qed.

Lemma quiet_GetApiServer {X} (f : event → option X) p :
  (∀ p, f (ERead p) = None) → preserves (quiet f) (GetApiServerFromKubeConfig p).
Proof. intros ?. unfold GetApiServerFromKubeConfig, returning. quiet_solve. Qed.

Lemma quiet_patch {X} (f : event → option X) :
  (∀ p, f (ERead p) = None) → (∀ p c m, f (EWrite p c m) = None) → preserves (quiet f) patchKubeVipManifest.
Proof. intros ??. unfold patchKubeVipManifest. cbv zeta. quiet_solve. Qed.

Lemma quiet_getEncodedCA {X} (f : event → option X) :
  (∀ p, f (ERead p) = None) → preserves (quiet f) getEncodedCA.
Proof. intros ?. unfold getEncodedCA. quiet_solve. Qed.

Lemma quiet_bootstrap {X} (f : event → option X) p :
  (∀ p, f (ERead p) = None) → preserves (quiet f) (getBootstrapFromJoinConfig p).
Proof. intros ?. unfold getBootstrapFromJoinConfig, unmarshalIntoMap, as_map, as_string. quiet_solve. Qed.
End steps.
#[export] Hint Resolve stops_run_kubeadm stops_run_apiclient stops_migrate : go.
#[export] Hint Resolve quiet_setHostName quiet_startEbsInit quiet_check_ebs quiet_readKubeletTlsConfig
  quiet_active_kubelet quiet_wait_api_server quiet_GetApiServer quiet_patch quiet_getEncodedCA
  quiet_bootstrap : go.

(** [pass H]: split the first statement off the sequence of [H]; it returned. *)
Ltac pass_as H a H1 :=
  let w := fresh "w" in
  apply bind_ret_inv in H as (a & w & H1 & H); try apply wrap_ret in H1;
  try match type of a with unit => destruct a end.
Ltac pass H H1 := let a := fresh "a" in pass_as H a H1.

Section init.
Context `{HH : !Host} `{HL : !BRLib} (v : string).

(** What an init reads and is told on its way. *)
Record init_data := mkInitData {
  i_manifests : list (string * string); i_server : string; i_ca : string; i_token : string;
  i_tls : option KubeletTlsConfig; i_version : string; i_compare : Z; i_dns : string }.

(** What an init does before the static pods; it gives the version of kubeadm. *)
Definition write_keys : prog string :=
  _ ← setHostName kubeadmFile;
  _ ← startEbsInit;
  version ← prepare_init;
  _ ← commands (map (kubeadm_command v) init_phases);
  mret version.

Definition keys_and_pods (d : init_data) : list (list string) :=
  version_command :: map (kubeadm_command v) init_phases ++ map enable_command (i_manifests d).

Definition bootstrap_token_command : list string :=
  kubeadm_command v ["init"; "phase"; "bootstrap-token"; "--config"; kubeadmFile].

Definition configuration (d : init_data) : list (list string) :=
  [bootstrap_token_command;
   token_command;
   ApiclientBinary :: init_settings (i_server d) (EncodeToString (i_ca d)) (i_token d) ++ tls_args (i_tls d);
   kubeadm_command v (finish_init_args (i_compare d));
   dns_command kubeconfigPath;
   [ApiclientBinary; "set"; "kubernetes.cluster-dns-ip=" +:+ i_dns d]].

Lemma prepare_init_ret w version w' : prepare_init w = (Ret version, w') →
  execs w' = execs w ++ [version_command].
Proof.
  unfold prepare_init, kubeadm_version. intros H. pass H Hv. pass Hv Ho. apply run_ret in Ho as (He & _).
  cbv zeta in Hv. destruct (version_valid _); [|done]. apply mret_ret in Hv as [<- <-].
  pass H Hc. unfold compare_with in Hc. quiet_in Hc.
  pass H Hw. quiet_in Hw. apply mret_ret in H as [_ <-]. by rewrite Hw, Hc, He.
Qed.

Lemma write_keys_execs w version w' : write_keys w = (Ret version, w') →
  execs w' = execs w ++ version_command :: map (kubeadm_command v) init_phases.
Proof.
  unfold write_keys. intros H. pass H H1. quiet_in H1. pass H H2. quiet_in H2. pass H H3. apply prepare_init_ret in H3.
  pass H H4. apply commands_execs in H4. apply mret_ret in H as [_ <-]. by rewrite H4, H3, H2, H1, <-app_assoc.
Qed.

(** The moment at which the address answered, and nothing run before it. *)
Lemma WaitFor200_ok url timeout w w' : WaitFor200 url timeout w = (Ret tt, w') →
  http_url url = true ∧ ∃ w1 body, during w w1 w' ∧ execs w1 = execs w ∧ host_get w1 url = inr (200%Z, body).
Proof.
  unfold WaitFor200. rewrite (bind_step _ _ _ (host_clock w) w) by done.
  generalize (tries timeout), (host_clock w + timeout)%Z. intros fuel deadline. revert w.
  induction fuel as [|fuel IH]; intros w H; cbn [wait_200] in H; [done|].
  rewrite (bind_step _ _ _ (host_clock w) w) in H by done. destruct (bool_decide _); [done|].
  pass H Ht. unfold try_url in Ht. grows_of Ht Hg0.
  destruct (is_200 a) eqn:E.
  - apply mret_ret in H as [_ <-]. unfold is_200 in E. apply bool_decide_eq_true in E as ->.
    unfold recover, HttpGet, mbind, go_mbind, go_bind in Ht.
    destruct (http_url url); [|done]. split; [done|]. exists w. cbn [negb] in Ht.
    destruct (host_get w url) as [e|[st body]]; [done|]. cbn in Ht. exists body. split; [by split|]. split; [done|].
    unfold fail, mret, go_mret, go_ret in Ht. destruct (body_error _ url); by simplify_eq.
  - quiet_in Ht. pass H Hs. grows_of Hs Hg1. quiet_in Hs. destruct (IH _ H) as (Hu & w2 & body & [G1 G2] & E2 & Hg). split; [done|]. exists w2, body.
    split; [split; [by etrans; [exact Hg0|etrans; [exact Hg1|exact G1]]|done]|]. by rewrite E2, Hs, Ht.
Qed.

(** The API server has answered at its advertised address. *)
Lemma wait_api_server_ret server w w' : wait_api_server server w = (Ret tt, w') →
  http_url (server +:+ "/healthz") = true ∧ execs w' = execs w ∧
  ∃ w1 body, during w w1 w' ∧ execs w1 = execs w ∧ host_get w1 (server +:+ "/healthz") = inr (200%Z, body).
Proof.
  intros H. pose proof H as Hq. quiet_in Hq. unfold wait_api_server in H. pass H Hl. pass H Hl2.
  unfold getLocalApiServerReadinessEndpoint, UnmarshalPodDefinition in Hl. grows_of Hl G0. quiet_in Hl.
  assert (trace_grows w w1 ∧ execs w1 = execs w) as [G E].
  { apply WaitFor200_ok in Hl2 as Hl3. destruct Hl3 as (_ & w2 & b & [G1 G2] & _). quiet_in Hl2.
    split; [by etrans; [exact G0|etrans; [exact G1|exact G2]]|]. by rewrite Hl2. }
  apply WaitFor200_ok in H as (Hu & w2 & body & [G1 G2] & E2 & Hg). split; [done|]. split; [done|].
  exists w2, body. split; [split; [by etrans|done]|]. by rewrite E2.
Qed.

Lemma configure_init_ret server b64 w w' : configure_init v server b64 w = (Ret tt, w') →
  ∃ tls w1, commands [bootstrap_token_command] w = (Ret tt, w1) ∧
    let r := host_exec w1 token_command [] in
    let token := ReplaceAll (cr_out r) (String quote "") "" in
    (∀ t, tls = Some t → tls_of (cr_fs r) t) ∧
    execs w' = execs w ++ [bootstrap_token_command; token_command;
      ApiclientBinary :: init_settings server b64 token ++ tls_args tls].
Proof.
  unfold configure_init. intros H. pass H H1. apply run_kubeadm_command in H1. pass H H2.
  unfold getBootstrapToken in H2. pass H2 Ht. apply run_ret in Ht as (Ht & Hout & _ & Hfs). fold token_command in Hout, Hfs. apply mret_ret in H2 as [<- <-].
  pass_as H tls H3. pose proof H3 as H3q. quiet_in H3q. apply run_apiclient_execs in H. exists tls. eexists. split; [exact H1|].
  apply commands_execs in H1. rewrite <-Hout, <-Hfs. split.
  - intros t ->. by apply readKubeletTlsConfig_ret in H3.
  - rewrite H, H3q, Ht, H1, <-!app_assoc. reflexivity.
Qed.

Lemma finish_init_ret version w w' : finish_init v version w = (Ret tt, w') →
  ∃ k w1, version_compare version "1.26.0" = Some k ∧
    commands [kubeadm_command v (finish_init_args k)] w = (Ret tt, w1) ∧
    let dns := ReplaceAll (cr_out (host_exec w1 (dns_command kubeconfigPath) [])) "'" "" in
    execs w' = execs w ++ [kubeadm_command v (finish_init_args k); dns_command kubeconfigPath;
     [ApiclientBinary; "set"; "kubernetes.cluster-dns-ip=" +:+ dns]].
Proof.
  unfold finish_init. intros H. pass H H1. unfold compare_with in H1.
  destruct (version_compare version "1.26.0") as [k|] eqn:Ek; [|done]. apply mret_ret in H1 as [<- <-].
  pass H H2. apply run_kubeadm_command in H2. pass H H3.
  unfold getDNS in H3. pass H3 Ht. apply run_ret in Ht as (Ht & Hout & _). fold (dns_command kubeconfigPath) in Hout. apply mret_ret in H3 as [<- <-].
  apply run_apiclient_execs in H. eexists _, _. split; [done|]. split; [exact H2|]. cbv zeta. rewrite <-Hout.
  apply commands_execs in H2. rewrite H, Ht, H2, <-!app_assoc. reflexivity.
Qed.

(** The manifests in [/etc/kubernetes/manifests] in the world [w], to be enabled. *)
Definition static_pods_in (w : World) (manifests : list (string * string)) : Prop :=
  manifests.*1 = filter (λ name, isPodFile name = true) (entries (w_fs w) (Clean staticPodManifestsPath)).*1 ∧
  (manifests_stable staticPodManifestsPath → manifests_of staticPodManifestsPath (w_fs w) manifests).

(** The server of the only cluster of the kubeconfig, and the certificate. *)
Definition server_and_ca (fs : gmap string node) (d : init_data) : Prop :=
  (∃ data m, fs !! kubeconfigPath = Some (File data m) ∧ kubeconfig_servers data = Some [i_server d]) ∧
  ∃ m, fs !! kubernetesCACertFile = Some (File (i_ca d) m).

(** The version, the manifests, the server and the certificate of an init from [w]: the
    keys are written in [w1], the static pods are up in [w2], and in [w3] the advertised
    address has answered. *)
Definition prepared (w w1 w2 w3 : World) (d : init_data) : Prop :=
  write_keys w = (Ret (i_version d), w1) ∧ static_pods_in w1 (i_manifests d) ∧
  migrate_static_pods w1 = (Ret tt, w2) ∧ server_and_ca (w_fs w2) d ∧
  wait_api_server (i_server d) (log (ERead kubernetesCACertFile) (log (ERead kubeconfigPath) w2)) = (Ret tt, w3) ∧
  (∃ wh body, during w2 wh w3 ∧ execs wh = execs w2 ∧ host_get wh (i_server d +:+ "/healthz") = inr (200%Z, body)).

(** The token, the kubelet's certificate, the DNS and the comparison: kubeadm and kubectl
    gave them after the commands before had run. *)
Definition answered (w3 : World) (d : init_data) : Prop :=
  let b64 := EncodeToString (i_ca d) in
  ∃ w4 w5 w6 w7, commands [bootstrap_token_command] w3 = (Ret tt, w4) ∧
    i_token d = ReplaceAll (cr_out (host_exec w4 token_command [])) (String quote "") "" ∧
    (∀ t, i_tls d = Some t → tls_of (cr_fs (host_exec w4 token_command [])) t) ∧
    configure_init v (i_server d) b64 w3 = (Ret tt, w5) ∧ waitForActiveKubelet w5 = (Ret tt, w6) ∧
    version_compare (i_version d) "1.26.0" = Some (i_compare d) ∧
    commands [kubeadm_command v (finish_init_args (i_compare d))] w6 = (Ret tt, w7) ∧
    i_dns d = ReplaceAll (cr_out (host_exec w7 (dns_command kubeconfigPath) [])) "'" "".

(** The server and the certificate that were read, and the answer of the server. *)
Lemma server_answers w2 server w3 b64 w4 w5 : GetApiServerFromKubeConfig kubeconfigPath w2 = (Ret server, w3) →
  getEncodedCA w3 = (Ret b64, w4) → wait_api_server server w4 = (Ret tt, w5) →
  ∃ ca, b64 = EncodeToString ca ∧ w4 = log (ERead kubernetesCACertFile) (log (ERead kubeconfigPath) w2) ∧
    (∃ data m, w_fs w2 !! kubeconfigPath = Some (File data m) ∧ kubeconfig_servers data = Some [server]) ∧
    (∃ m, w_fs w2 !! kubernetesCACertFile = Some (File ca m)) ∧ execs w5 = execs w2 ∧
    (∃ wh body, during w2 wh w5 ∧ execs wh = execs w2 ∧ host_get wh (server +:+ "/healthz") = inr (200%Z, body)).
Proof.
  intros H6 H7 H8. apply GetApiServer_ret in H6 as (data & m & servers & Hdata & Hs & Hserver & ->).
  apply getEncodedCA_ret in H7 as (ca & mc & Hca & -> & ->). apply wait_api_server_ret in H8 as (Hu & E8 & wh & body & [G1 G2] & Eh & Hget).
  assert (execs (log (ERead kubernetesCACertFile) (log (ERead kubeconfigPath) w2)) = execs w2) as E2.
  { unfold execs. rewrite !obs_log. simpl. by rewrite !app_nil_r. }
  exists ca. split_and!; [done|done| |by exists mc|by rewrite E8|].
  - exists data, m. split; [done|]. case_bool_decide as Hl.
    + destruct servers as [|x [|]]; try done. simpl in Hserver. by subst x.
    + subst server. by vm_compute in Hu.
  - exists wh, body. rewrite Eh. split; [|done]. split; [|done]. etrans; [|exact G1].
    etrans; apply trace_grows_log.
Qed.

Lemma controlPlaneInit_ret w w' : controlPlaneInit v w = (Ret tt, w') →
  ∃ d w1 w2 w3, prepared w w1 w2 w3 d ∧ answered w3 d ∧
    execs w1 = execs w ++ version_command :: map (kubeadm_command v) init_phases ∧
    execs w3 = execs w ++ keys_and_pods d ∧ execs w' = execs w3 ++ configuration d.
Proof.
  unfold controlPlaneInit. intros H. pass H H1. pass_as H ebs H2. pass_as H version H3. pass_as H u4 H4.
  apply init_phases_commands in H4.
  lazymatch type of H4 with _ = (_, ?w1) => assert (write_keys w = (Ret version, w1)) as Hkeys end.
  { unfold write_keys. by rewrite (bind_step _ _ _ _ _ H1), (bind_step _ _ _ _ _ H2), (bind_step _ _ _ _ _ H3),
      (bind_step _ _ _ _ _ H4). }
  clear H1 H2 H3 H4. apply write_keys_execs in Hkeys as Ekeys. pass_as H u5 H5.
  apply migrate_execs in H5 as Hm. destruct Hm as (manifests & Hn & Hc & E5).
  pass_as H server H6. pass_as H b64 H7. pass_as H u8 H8.
  destruct (server_answers _ _ _ _ _ _ H6 H7 H8) as (ca & -> & -> & Hsrv & Hca & E8 & Hget).
  pass_as H u9 H9. apply configure_init_ret in H9 as H9r. destruct H9r as (tls & wt & Hbt & Htls & E9). cbv zeta in E9.
  pass_as H u10 H10. pose proof H10 as H10q. quiet_in H10q.
  pass_as H u11 H11. apply finish_init_ret in H11 as (k & wf & Hk & Hfin & E11). cbv zeta in E11. quiet_in H.
  set (d := mkInitData manifests server ca (ReplaceAll (cr_out (host_exec wt token_command [])) (String quote "") "")
    tls version k (ReplaceAll (cr_out (host_exec wf (dns_command kubeconfigPath) [])) "'" "")).
  lazymatch type of Hkeys with _ = (_, ?w1) => lazymatch type of H5 with _ = (_, ?w2) =>
    lazymatch type of H8 with _ = (_, ?w3) => exists d, w1, w2, w3 end end end.
  split; [|split; [|split; [done|split]]].
  - unfold prepared. split_and!; done.
  - unfold answered. do 4 eexists. split_and!; [exact Hbt|done|exact Htls|exact H9|exact H10|exact Hk|exact Hfin|done].
  - rewrite E8, E5, Ekeys, <-!app_assoc. done.
  - rewrite H, E11, H10q, E9, <-!app_assoc. done.
Qed.

Lemma stops_controlPlaneInit : stops_on_failure (controlPlaneInit v).
Proof.
  unfold controlPlaneInit, prepare_init, kubeadm_version, compare_with, configure_init, getBootstrapToken,
    finish_init, compare_with, getDNS. stops_solve.
Qed.
End init.

(** ** Stages: the kubeadm command, and its phase *)
Definition as_stage (e : event) : option (list string) :=
  match e with
  | EExec (binary :: args) _ =>
      if binary =s kubeadmBinary then
        Some match args with
             | v :: a :: b :: c :: _ => if b =s "phase" then [a; c] else [v; a]
             | v :: a :: _ => [v; a]
             | _ => args
             end
      else None
  | _ => None
  end.

Section stages.
Context `{HH : !Host} `{HL : !BRLib} (v : string).

Definition init_stages : list (list string) :=
  [["version"; "-o=short"]; ["init"; "certs"]; ["init"; "kubeconfig"]; ["init"; "control-plane"];
   ["init"; "etcd"]; ["init"; "bootstrap-token"]; ["token"; "list"]; [v; "init"]].

Lemma emits_run_kubeadm args : emits as_stage (run_kubeadm v args) (option_list (as_stage (EExec (kubeadm_command v args) []))).
Proof.
  unfold run_kubeadm. apply emits_before; [|intros; quiet_solve]. apply emits_wrap, emits_run.
Qed.

Lemma quiet_migrate : preserves (quiet as_stage) migrate_static_pods.
Proof.
  unfold migrate_static_pods, EnableStaticPods, enable_static_pod, UnmarshalPodDefinition. quiet_solve.
Qed.

Lemma quiet_run_apiclient args : preserves (quiet as_stage) (run_apiclient args).
Proof. unfold run_apiclient. quiet_solve. Qed.
#[local] Hint Resolve quiet_migrate quiet_run_apiclient : go.

Lemma emits_prepare_init : emits as_stage prepare_init [["version"; "-o=short"]].
Proof.
  unfold prepare_init, kubeadm_version. apply emits_before.
  - apply emits_before; [|intros; cbv zeta; quiet_solve]. apply emits_wrap.
    apply (emits_run as_stage version_command).
  - intros version. unfold compare_with. quiet_solve.
Qed.

Lemma emits_configure_init server ca :
  emits as_stage (configure_init v server ca) [["init"; "bootstrap-token"]; ["token"; "list"]].
Proof.
  unfold configure_init.
  apply (emits_bind _ _ _ [["init"; "bootstrap-token"]] [["token"; "list"]]); [apply emits_run_kubeadm|].
  intros _. apply emits_before; [|intros; quiet_solve]. unfold getBootstrapToken.
  apply emits_wrap, emits_before; [|intros; quiet_solve]. apply emits_wrap, (emits_run as_stage token_command).
Qed.

Lemma emits_finish_init version : emits as_stage (finish_init v version) [[v; "init"]].
Proof.
  unfold finish_init, compare_with. apply emits_after; [quiet_solve|]. intros k.
  apply emits_before; [apply (emits_run_kubeadm (finish_init_args k))|].
  intros _. unfold getDNS. quiet_solve.
Qed.

Lemma emits_controlPlaneInit : emits as_stage (controlPlaneInit v) init_stages.
Proof.
  unfold controlPlaneInit.
  apply emits_after; [quiet_solve|intros _]. apply emits_after; [quiet_solve|intros ebs].
  apply (emits_bind _ _ _ [_] (tail init_stages)); [apply emits_prepare_init|intros version].
  apply (emits_bind _ _ _ (flat_map (λ args, option_list (as_stage (EExec (kubeadm_command v args) []))) init_phases)
    (drop 5 init_stages)); [apply emits_forM, emits_run_kubeadm|intros _].
  apply emits_after; [quiet_solve|intros _]. apply emits_after; [quiet_solve|intros server].
  apply emits_after; [quiet_solve|intros ca]. apply emits_after; [quiet_solve|intros _].
  apply (emits_bind _ _ _ [_; _] [_]); [apply emits_configure_init|intros _].
  apply emits_after; [quiet_solve|intros _].
  apply emits_before; [apply emits_finish_init|intros _; quiet_solve].
Qed.
End stages.

(** C3: an init of a control plane goes through kubeadm's stages in their order: whatever
    happens, the kubeadm commands that were run are the first of [init_stages]. A command
    that fails, of kubeadm, kubectl or apiclient, is the last one, and the init then does
    not return. When it returns, the commands are exactly the version, the four phases, one
    for each static pod that these phases left in the manifests, and the configuration of
    the node: the server of the kubeconfig's only cluster and the certificate in base64 as
    they were in the files once the static pods were up, the token and the DNS that kubeadm
    and kubectl gave at their turns. The configuration is only begun after the advertised
    API server has answered 200; the phase "show-join-command" is skipped unless the version
    is below 1.26. *)
Theorem control_plane_init `{HH : !Host} `{HL : !BRLib} v :
  emits as_stage (controlPlaneInit v) (init_stages v) ∧
  stops_on_failure (controlPlaneInit v) ∧
  ∀ w w', controlPlaneInit v w = (Ret tt, w') →
  ∃ d w1 w2 w3, prepared v w w1 w2 w3 d ∧ answered v w3 d ∧
    execs w1 = execs w ++ version_command :: map (kubeadm_command v) init_phases ∧
    execs w3 = execs w ++ keys_and_pods v d ∧ execs w' = execs w3 ++ configuration v d.
Proof.
  split; [apply emits_controlPlaneInit|]. split; [apply stops_controlPlaneInit|]. intros w w'.
  apply controlPlaneInit_ret.
Qed.

(** A control plane whose manifests are there already. *)
Definition control_plane_files : gmap string node :=
  {[ "/tmp/kubeadm.yaml" := File "name: {{ ds.meta_data.hostname }}" 420;
     "/etc/kubernetes/manifests/kube-vip.yaml" := File "path: /etc/kubernetes/admin.conf" 420;
     "/etc/kubernetes/manifests/etcd.yaml" := File "kind: Pod" 420;
     "/etc/kubernetes/admin.conf" := File "clusters" 420;
     "/etc/kubernetes/pki/ca.crt" := File "CA" 420 ]}.

Lemma control_plane_init_witness :
  let w := mkWorld control_plane_files ∅ [] in
  ∃ w', controlPlaneInit (HH := plain_host) (HL := sample_brlib) "-v9" w = (Ret tt, w') ∧
  ∃ d w1 w2 w3, prepared (HH := plain_host) (HL := sample_brlib) "-v9" w w1 w2 w3 d ∧
    answered (HH := plain_host) (HL := sample_brlib) "-v9" w3 d ∧
    execs w1 = execs w ++ version_command :: map (kubeadm_command "-v9") init_phases ∧
    execs w3 = execs w ++ keys_and_pods "-v9" d ∧ execs w' = execs w3 ++ configuration "-v9" d.
Proof.
  intros w. eexists. split; [apply run_eq; vm_compute; reflexivity|].
  apply (proj2 (proj2 (control_plane_init (HH := plain_host) (HL := sample_brlib) "-v9")) w).
  apply run_eq. vm_compute. reflexivity.
Defined.

(** ** Joins *)
Definition as_start (e : event) : option (list string) :=
  match e with EStart argv => Some argv | _ => None end.
Definition starts (w : World) : list (list string) := obs as_start w.
Definition kills (w : World) : list (list string) := obs as_kill w.

(** The values of a join configuration. *)
Definition json_map (v : json) : option (list (string * json)) :=
  match v with JObj m => Some m | _ => None end.
Definition json_string (v : json) : option string := match v with JStr s => Some s | _ => None end.

(** The endpoint and the token under [discovery.bootstrapToken]. *)
Definition bootstrap_values (config : list (string * json)) : option (string * string) :=
  discovery ← json_map (member config "discovery");
  bootstrapToken ← json_map (member discovery "bootstrapToken");
  endpoint ← json_string (member bootstrapToken "apiServerEndpoint");
  token ← json_string (member bootstrapToken "token");
  mret (endpoint, token).

Section joins.
Context `{HH : !Host} `{HC : !ClockLaws} `{HL : !BRLib} (v : string).

(** A command started is killed, and nothing else is run. *)
Lemma start_and_kill cmd files msg w w' :
  (_ ← wrap "Error running command" (Start cmd); wrap msg (KillCmdAfterFilesGeneration cmd files)) w = (Ret tt, w') →
  execs w' = execs w ∧ starts w' = starts w ++ [cmd] ∧ kills w' = kills w ++ [cmd].
Proof using HC.
  intros H. pass H H1. apply wrap_ret in H. apply attempt_trace in H1. apply mret_ret in H1 as [_ <-].
  pose proof H as Hq. quiet_in Hq. pose proof H as Hs. quiet_of as_start Hs.
  destruct (KillCmd_ends cmd files (log (EStart cmd) w)) as (o & w2 & E & Hk & _).
  rewrite E in H. injection H as -> ->.
  unfold execs, starts, kills in *. rewrite Hq, Hs, Hk, !obs_log. simpl. rewrite !app_nil_r.
  done.
Qed.

Lemma getDNSFromJoinConfig_ret p w dns w' : getDNSFromJoinConfig p w = (Ret dns, w') →
  let r := host_exec (log (ERead p) w) (awk_command p) [] in
  dns = TrimSuffix (cr_out r) nl ∧ w_fs w' = cr_fs r ∧
  execs w' = execs w ++ [awk_command p] ∧ starts w' = starts w ∧ kills w' = kills w.
Proof using.
  unfold getDNSFromJoinConfig. intros H.
  assert (starts w' = starts w ∧ kills w' = kills w) as [HS HK].
  { split; [pose proof H as Hq; quiet_of as_start Hq|pose proof H as Hq; quiet_of as_kill Hq]; done. }
  pass H H1. apply ReadFile_ret in H1 as [_ ->]. pass H H2. apply run_ret in H2 as (H2 & -> & _ & Hfs).
  apply mret_ret in H as [<- <-]. split_and!; [done|done| |done|done].
  rewrite H2. unfold execs. rewrite obs_log. simpl. by rewrite app_nil_r.
Qed.

(** What a join gives the node. *)
Record join_data := mkJoinData {
  j_server : string; j_ca : string; j_dns : string; j_token : string; j_tls : option KubeletTlsConfig }.

Definition join_configuration (d : join_data) : list string :=
  ApiclientBinary :: join_settings (j_server d) (EncodeToString (j_ca d)) (j_dns d) (j_token d) ++ tls_args (j_tls d).

(** The server and the token that the join configuration says, and the certificate. *)
Definition join_values (fs : gmap string node) (d : join_data) : Prop :=
  (∃ data m config endpoint, fs !! kubeadmJoinFile = Some (File data m) ∧
     yaml_map (Trim (TrimPrefix data "---") "'") = Some config ∧
     bootstrap_values config = Some (endpoint, j_token d) ∧ j_server d = "https://" +:+ endpoint) ∧
  ∃ m, fs !! kubernetesCACertFile = Some (File (j_ca d) m).

Lemma getBootstrap_ret p w at_ w' : getBootstrapFromJoinConfig p w = (Ret at_, w') →
  w' = log (ERead p) w ∧ ∃ data m config endpoint, w_fs w !! p = Some (File data m) ∧
    yaml_map (Trim (TrimPrefix data "---") "'") = Some config ∧
    bootstrap_values config = Some (endpoint, at_.2) ∧ at_.1 = "https://" +:+ endpoint.
Proof using.
  unfold getBootstrapFromJoinConfig, unmarshalIntoMap, as_map, as_string. intros H.
  pass_as H data H1. apply ReadFile_ret in H1 as [[m Hm] ->]. pass_as H config H2.
  destruct (yaml_map _) as [c|] eqn:Ec; [|done]. apply mret_ret in H2 as [<- <-].
  pass_as H discovery H3. destruct (member c "discovery") as [| | | | |x] eqn:E3; try done. apply mret_ret in H3 as [-> <-].
  pass_as H bt H4. destruct (member discovery "bootstrapToken") as [| | | | |x] eqn:E4; try done. apply mret_ret in H4 as [-> <-].
  pass_as H endpoint H5. destruct (member bt "apiServerEndpoint") eqn:E5; try done. apply mret_ret in H5 as [-> <-].
  pass_as H token H6. destruct (member bt "token") eqn:E6; try done. apply mret_ret in H6 as [-> <-].
  apply mret_ret in H as [<- <-]. split; [done|]. exists data, m, c, endpoint. split; [done|]. split; [done|].
  unfold bootstrap_values, json_map, json_string. rewrite E3. simpl. rewrite E4. simpl. rewrite E5. simpl. by rewrite E6.
Qed.

(** Whether etcd is external, from the text of the cluster configuration. *)
Lemma isExternalEtcd_ret text w b w' : isExternalEtcd text w = (Ret b, w') →
  w' = w ∧ ∃ config etcd, yaml_map (Trim text "'") = Some config ∧ json_map (member config "etcd") = Some etcd ∧
    (b = true ↔ member etcd "external" ≠ JNull).
Proof using.
  unfold isExternalEtcd, unmarshalIntoMap, as_map. intros H. pass_as H config H1.
  destruct (yaml_map _) as [c|] eqn:Ec; [|done]. apply mret_ret in H1 as [<- <-]. pass_as H etcd H2.
  destruct (member c "etcd") as [| | | | |x] eqn:E2; try done. apply mret_ret in H2 as [-> <-].
  apply mret_ret in H as [<- <-]. split; [done|]. exists c, etcd. rewrite E2. split; [done|]. split; [done|].
  by destruct (member etcd "external").
Qed.

Lemma run_apiclient_quiet {X} (f : event → option X) args :
  (∀ argv env, f (EExec argv env) = None) → preserves (quiet f) (run_apiclient args).
Proof using. intros ?. unfold run_apiclient. quiet_solve. Qed.

Lemma run_kubeadm_quiet {X} (f : event → option X) args :
  (∀ argv env, f (EExec argv env) = None) → preserves (quiet f) (run_kubeadm v args).
Proof using. intros ?. unfold run_kubeadm. quiet_solve. Qed.
#[local] Hint Resolve run_apiclient_quiet run_kubeadm_quiet : go.

Lemma configure_join_ret w server w' : configure_join w = (Ret server, w') →
  let r := host_exec (log (ERead kubeletConfigFile) w) (awk_command kubeletConfigFile) [] in
  ∃ d, server = j_server d ∧ join_values (cr_fs r) d ∧ j_dns d = TrimSuffix (cr_out r) nl ∧
    (∀ t, j_tls d = Some t → tls_of (cr_fs r) t) ∧
    execs w' = execs w ++ [awk_command kubeletConfigFile; join_configuration d] ∧
    starts w' = starts w ∧ kills w' = kills w.
Proof using.
  unfold configure_join. intros H.
  assert (starts w' = starts w ∧ kills w' = kills w) as [HS HK].
  { unfold getDNSFromJoinConfig in H. split; [pose proof H as Hq; quiet_of as_start Hq|pose proof H as Hq; quiet_of as_kill Hq]; done. }
  pass_as H dns H1. apply getDNSFromJoinConfig_ret in H1 as (Hdns & Hfs & H1 & _). set (r := host_exec _ _ _) in *.
  pass_as H at_ H2. pose proof H2 as H2q. quiet_in H2q. apply getBootstrap_ret in H2 as [-> Hat].
  pass_as H b64 H3. pose proof H3 as H3q. quiet_in H3q. apply getEncodedCA_ret in H3 as (ca & m & Hca & -> & ->).
  pass_as H tls H4. pose proof H4 as H4q. quiet_in H4q. pass H H5. apply run_apiclient_execs in H5. apply mret_ret in H as [<- <-].
  exists (mkJoinData at_.1 ca dns at_.2 tls). rewrite <-Hfs. split_and!; [done| |done| | |done|done].
  - split; [|by exists m]. destruct Hat as (data & md & config & endpoint & ?). by exists data, md, config, endpoint.
  - intros t Ht. cbn [j_tls] in Ht. subst tls. by apply readKubeletTlsConfig_ret in H4.
  - rewrite H5, H4q, H3q, H2q, H1, <-!app_assoc. done.
Qed.

Lemma migrate_quiet {X} (f : event → option X) :
  (∀ argv env, f (EExec argv env) = None) → (∀ p, f (ERead p) = None) → (∀ p, f (EReadDir p) = None) →
  (∀ u, f (EGet u) = None) → (∀ n, f (ESleep n) = None) → preserves (quiet f) migrate_static_pods.
Proof using.
  intros. unfold migrate_static_pods, EnableStaticPods, enable_static_pod, UnmarshalPodDefinition. quiet_solve.
Qed.
#[local] Hint Resolve migrate_quiet : go.

(** Both observations at once: [same H]: nothing started, nothing killed. *)
Ltac no_start H S K :=
  pose proof H as S; quiet_of as_start S; pose proof H as K; quiet_of as_kill K.

Definition external_etcd (b : bool) : list (list string) := if b then [] else [etcd_join v].

(** What a join does before it configures the node. *)
Definition start_join : prog unit :=
  _ ← setHostName kubeadmJoinFile;
  _ ← startEbsInit;
  _ ← commands [kubeadm_command v prepare_join_args];
  start_kubelet v.

Definition start_worker : prog unit :=
  _ ← setHostName kubeadmJoinFile; start_kubelet v.

(** [external] is what the cluster answers in the world [w]. *)
Definition cluster_says (w : World) (external : bool) : Prop :=
  ∃ config etcd, yaml_map (Trim (cr_out (host_exec w cluster_config_command [])) "'") = Some config ∧
    json_map (member config "etcd") = Some etcd ∧ (external = true ↔ member etcd "external" ≠ JNull).

(** A join of a control plane up to the static pods: the kubelet is started in [w1], the
    node configured and its kubelet active in [w2], and in [w3] etcd has been joined when it
    is local. *)
Definition joined (w w1 w2 w3 : World) (d : join_data) (external : bool) : Prop :=
  start_join w = (Ret tt, w1) ∧
  (let r := host_exec (log (ERead kubeletConfigFile) w1) (awk_command kubeletConfigFile) [] in
   join_values (cr_fs r) d ∧ j_dns d = TrimSuffix (cr_out r) nl ∧ ∀ t, j_tls d = Some t → tls_of (cr_fs r) t) ∧
  (_ ← configure_join; waitForActiveKubelet) w1 = (Ret tt, w2) ∧ cluster_says w2 external ∧
  (_ ← isClusterWithExternalEtcd kubeconfigPath; when (negb external) (joinLocalEtcd v)) w2 = (Ret tt, w3).

Lemma start_kubelet_ret w w' : start_kubelet v w = (Ret tt, w') →
  execs w' = execs w ∧ starts w' = starts w ++ [kubelet_start v] ∧ kills w' = kills w ++ [kubelet_start v].
Proof using HC. intros H. by apply start_and_kill in H. Qed.

Lemma start_join_ret w w' : start_join w = (Ret tt, w') →
  execs w' = execs w ++ [kubeadm_command v prepare_join_args] ∧
  starts w' = starts w ++ [kubelet_start v] ∧ kills w' = kills w ++ [kubelet_start v].
Proof using HC.
  unfold start_join. intros H. pass H H1. no_start H1 S1 K1. quiet_in H1. pass H H2. no_start H2 S2 K2. quiet_in H2.
  pass H H3. unfold commands in H3. no_start H3 S3 K3. apply commands_execs in H3.
  apply start_kubelet_ret in H as (H & S & K). unfold starts, kills in *.
  by rewrite H, H3, H2, H1, S, S3, S2, S1, K, K3, K2, K1.
Qed.

Lemma cluster_etcd_ret w external w' : isClusterWithExternalEtcd kubeconfigPath w = (Ret external, w') →
  cluster_says w external ∧ execs w' = execs w ++ [cluster_config_command] ∧ starts w' = starts w ∧ kills w' = kills w.
Proof using.
  unfold isClusterWithExternalEtcd, getClusterConfigurationFromCluster. intros H. pass_as H text H1.
  no_start H1 S1 K1. apply run_ret in H1 as (H1 & -> & _). apply isExternalEtcd_ret in H as [-> H]. done.
Qed.

Lemma join_etcd_ret external w w' : when (negb external) (joinLocalEtcd v) w = (Ret tt, w') →
  execs w' = execs w ∧ starts w' = starts w ++ external_etcd external ∧ kills w' = kills w ++ external_etcd external.
Proof using HC.
  destruct external; cbn [negb when external_etcd]; intros H.
  - apply mret_ret in H as [_ <-]. by rewrite !app_nil_r.
  - unfold joinLocalEtcd in H. by apply start_and_kill in H.
Qed.

Lemma controlPlaneJoin_ret w w' : controlPlaneJoin v w = (Ret tt, w') →
  ∃ d external manifests w1 w2 w3 wh body, joined w w1 w2 w3 d external ∧ static_pods_in w3 manifests ∧
    starts w' = starts w ++ kubelet_start v :: external_etcd external ∧
    kills w' = kills w ++ kubelet_start v :: external_etcd external ∧
    during w3 wh w' ∧ host_get wh (j_server d +:+ "/healthz") = inr (200%Z, body) ∧
    execs wh = execs w ++ [kubeadm_command v prepare_join_args; awk_command kubeletConfigFile;
      join_configuration d; cluster_config_command] ++ map enable_command manifests ∧
    execs w' = execs wh ++ [kubeadm_command v finish_join_args].
Proof using HC.
  unfold controlPlaneJoin. intros H. pass H H1. pass_as H ebs H2. pass_as H u3 H3. apply run_kubeadm_command in H3.
  pass_as H u4 H4.
  lazymatch type of H4 with _ = (_, ?w1) => assert (start_join w = (Ret tt, w1)) as Hstart end.
  { unfold start_join. by rewrite (bind_step _ _ _ _ _ H1), (bind_step _ _ _ _ _ H2), (bind_step _ _ _ _ _ H3). }
  clear H1 H2 H3 H4. apply start_join_ret in Hstart as Hs. destruct Hs as (E1 & S1 & K1).
  pass_as H server H5. apply configure_join_ret in H5 as Hd.
  destruct Hd as (d & -> & Hvals & Hdns & Htls & E5 & S5 & K5).
  pass_as H u6 H6. pose proof H6 as H6q. no_start H6q S6 K6. quiet_in H6q.
  pass_as H external H7. apply cluster_etcd_ret in H7 as Hc. destruct Hc as (Hext & E7 & S7 & K7).
  pass_as H u8 H8. apply join_etcd_ret in H8 as Hj. destruct Hj as (E8 & S8 & K8).
  apply bind_ret_inv in H as ([] & w9 & H9 & H). pose proof H9 as H9s. no_start H9s S9 K9.
  unfold migrate_static_pods, EnableStaticPods, enable_static_pod, UnmarshalPodDefinition in H9s. grows_of H9s G9.
  apply migrate_execs in H9 as (manifests & Hn & Hm & E9).
  pass H H10. pose proof H10 as H10q. no_start H10q S10 K10. apply wait_api_server_ret in H10 as (_ & E10 & wh & body & [G10 G10'] & Eh & Hget).
  pass H H11. pose proof H11 as H11g. no_start H11g S11 K11. unfold run_kubeadm in H11g. grows_of H11g G11.
  apply run_kubeadm_execs in H11. no_start H S12 K12. pose proof H as Hg. unfold check_ebs, checkEbsInit in Hg. grows_of Hg G12. quiet_in H.
  lazymatch type of Hstart with _ = (_, ?w1) => lazymatch type of H6 with _ = (_, ?w2) =>
    lazymatch type of H8 with _ = (_, ?w3) => exists d, external, manifests, w1, w2, w3, wh, body end end end.
  unfold starts, kills in *. split_and!; [|by split| | | |done| |].
  - split; [done|]. split; [done|]. split; [by rewrite (bind_step _ _ _ _ _ H5)|].
    split; [done|]. by rewrite (bind_step _ _ _ _ _ H7).
  - rewrite S12, S11, S10, S9, S8, S7, S6, S5, S1, <-!app_assoc. done.
  - rewrite K12, K11, K10, K9, K8, K7, K6, K5, K1, <-!app_assoc. done.
  - split; [by etrans; [exact G9|exact G10]|]. etrans; [exact G10'|]. by etrans; [exact G11|exact G12].
  - rewrite Eh, E9, E8, E7, H6q, E5, E1, <-!app_assoc. done.
  - rewrite H, H11, E10, Eh. done.
Qed.

Lemma workerJoin_ret w w' : workerJoin v w = (Ret tt, w') →
  ∃ d w1, start_worker w = (Ret tt, w1) ∧ join_values (w_fs w1) d ∧ j_tls d = None ∧
    (let w2 := log (ERead kubeletConfigFile) (log (ERead kubernetesCACertFile) (log (ERead kubeadmJoinFile) w1)) in
     j_dns d = TrimSuffix (cr_out (host_exec w2 (awk_command kubeletConfigFile) [])) nl) ∧
    starts w' = starts w ++ [kubelet_start v] ∧ kills w' = kills w ++ [kubelet_start v] ∧
    execs w' = execs w ++ [awk_command kubeletConfigFile; join_configuration d].
Proof using HC.
  unfold workerJoin. intros H. pass H H1. pass_as H u2 H2.
  lazymatch type of H2 with _ = (_, ?w1) => assert (start_worker w = (Ret tt, w1)) as Hstart end.
  { unfold start_worker. by rewrite (bind_step _ _ _ _ _ H1). }
  no_start H1 S1 K1. quiet_in H1. apply start_kubelet_ret in H2 as (E2 & S2 & K2).
  pass_as H at_ H3. pose proof H3 as H3q. no_start H3q S3 K3. quiet_in H3q. apply getBootstrap_ret in H3 as [-> Hat].
  pass_as H b64 H4. pose proof H4 as H4q. no_start H4q S4 K4. quiet_in H4q. apply getEncodedCA_ret in H4 as (ca & m & Hca & -> & ->).
  pass_as H dns H5. apply getDNSFromJoinConfig_ret in H5 as (Hdns & _ & E5 & S5 & K5).
  pass H H6. no_start H6 S6 K6. apply run_apiclient_execs in H6. no_start H S7 K7. quiet_in H.
  lazymatch type of Hstart with _ = (_, ?w1) => exists (mkJoinData at_.1 ca dns at_.2 None), w1 end.
  unfold starts, kills in *. split_and!; [done| |done|done| | |].
  - split; [|by exists m]. destruct Hat as (data & md & config & endpoint & ?). by exists data, md, config, endpoint.
  - rewrite S7, S6, S5, S4, S3, S2, S1. done.
  - rewrite K7, K6, K5, K4, K3, K2, K1. done.
  - rewrite H, H6, E5, H4q, H3q, E2, H1, <-!app_assoc. unfold join_configuration. by rewrite app_nil_r.
Qed.

Lemma stops_joins : stops_on_failure (controlPlaneJoin v) ∧ stops_on_failure (workerJoin v).
Proof using.
  split; unfold controlPlaneJoin, workerJoin, start_kubelet, configure_join, getDNSFromJoinConfig, joinLocalEtcd,
    isClusterWithExternalEtcd, getClusterConfigurationFromCluster, isExternalEtcd, unmarshalIntoMap, as_map, when; stops_solve.
Qed.
End joins.

(** C12: when a join returns, kubeadm's kubelet-start (and, exactly when the cluster says
    that etcd is local, its etcd phase) was started and killed once, nothing else was
    started, and the other commands are exactly these, in order: for a control plane the
    preparation, the configuration of the node, the question whether etcd is external, one
    for each static pod that is in the manifests once etcd has been joined and, after the
    API server has answered 200, the end of the join; for a worker the configuration only,
    without the kubelet's certificate. The node is configured with the server and the token
    under discovery.bootstrapToken of the join configuration, the certificate in base64 and
    the DNS that the kubelet's configuration gives, as they are once the kubelet was
    started. A command that fails is the last one, and the join does not return. *)
Theorem joins `{HH : !Host} `{HC : !ClockLaws} `{HL : !BRLib} v w w' :
  (controlPlaneJoin v w = (Ret tt, w') →
   ∃ d external manifests w1 w2 w3 wh body, joined v w w1 w2 w3 d external ∧ static_pods_in w3 manifests ∧
    starts w' = starts w ++ kubelet_start v :: external_etcd v external ∧
    kills w' = kills w ++ kubelet_start v :: external_etcd v external ∧
    during w3 wh w' ∧ host_get wh (j_server d +:+ "/healthz") = inr (200%Z, body) ∧
    execs wh = execs w ++ [kubeadm_command v prepare_join_args; awk_command kubeletConfigFile;
      join_configuration d; cluster_config_command] ++ map enable_command manifests ∧
    execs w' = execs wh ++ [kubeadm_command v finish_join_args]) ∧
  (workerJoin v w = (Ret tt, w') →
   ∃ d w1, start_worker v w = (Ret tt, w1) ∧ join_values (w_fs w1) d ∧ j_tls d = None ∧
    (let w2 := log (ERead kubeletConfigFile) (log (ERead kubernetesCACertFile) (log (ERead kubeadmJoinFile) w1)) in
     j_dns d = TrimSuffix (cr_out (host_exec w2 (awk_command kubeletConfigFile) [])) nl) ∧
    starts w' = starts w ++ [kubelet_start v] ∧ kills w' = kills w ++ [kubelet_start v] ∧
    execs w' = execs w ++ [awk_command kubeletConfigFile; join_configuration d]) ∧
  stops_on_failure (controlPlaneJoin v) ∧ stops_on_failure (workerJoin v).
Proof. split; [apply controlPlaneJoin_ret|]. split; [apply workerJoin_ret|apply stops_joins]. Qed.

Definition worker_files : gmap string node :=
  {[ "/tmp/kubeadm-join-config.yaml" := File "name: {{ ds.meta_data.hostname }}" 420;
     "/var/lib/kubelet/config.yaml" := File "clusterDNS:" 420;
     "/var/lib/kubelet/kubeadm-flags.env" := File "" 420;
     "/var/lib/kubeadm/pki/ca.crt" := File "CA" 420;
     "/etc/kubernetes/pki/ca.crt" := File "CA" 420 ]}.

(** The same for a control plane, with the static pods of a local etcd. *)
Definition join_files_there : gmap string node :=
  <["/etc/kubernetes/manifests/etcd.yaml" := File "kind: Pod" 420]> worker_files.

Lemma joins_witness :
  (let w := mkWorld join_files_there ∅ [] in
   ∃ w', controlPlaneJoin (HH := plain_host) (HL := sample_brlib) "-v9" w = (Ret tt, w') ∧
   ∃ d external manifests w1 w2 w3 wh body,
    joined (HH := plain_host) (HL := sample_brlib) "-v9" w w1 w2 w3 d external ∧
    static_pods_in (HH := plain_host) w3 manifests ∧
    starts w' = starts w ++ kubelet_start "-v9" :: external_etcd "-v9" external ∧
    kills w' = kills w ++ kubelet_start "-v9" :: external_etcd "-v9" external ∧
    during w3 wh w' ∧ host_get (Host := plain_host) wh (j_server d +:+ "/healthz") = inr (200%Z, body) ∧
    execs wh = execs w ++ [kubeadm_command "-v9" prepare_join_args; awk_command kubeletConfigFile;
      join_configuration d; cluster_config_command] ++ map enable_command manifests ∧
    execs w' = execs wh ++ [kubeadm_command "-v9" finish_join_args]) ∧
  (let w := mkWorld worker_files ∅ [] in
   ∃ w', workerJoin (HH := plain_host) (HL := sample_brlib) "-v9" w = (Ret tt, w') ∧
   ∃ d w1, start_worker (HH := plain_host) (HL := sample_brlib) "-v9" w = (Ret tt, w1) ∧
    join_values (HL := sample_brlib) (w_fs w1) d ∧ j_tls d = None ∧
    (let w2 := log (ERead kubeletConfigFile) (log (ERead kubernetesCACertFile) (log (ERead kubeadmJoinFile) w1)) in
     j_dns d = TrimSuffix (cr_out (host_exec (Host := plain_host) w2 (awk_command kubeletConfigFile) [])) nl) ∧
    starts w' = starts w ++ [kubelet_start "-v9"] ∧ kills w' = kills w ++ [kubelet_start "-v9"] ∧
    execs w' = execs w ++ [awk_command kubeletConfigFile; join_configuration d]).
Proof.
  split; intros w; eexists; (split; [apply run_eq; vm_compute; reflexivity|]).
  - apply (proj1 (joins (HH := plain_host) (HC := plain_host_clock) (HL := sample_brlib) "-v9" w _)).
    apply run_eq. vm_compute. reflexivity.
  - apply (proj1 (proj2 (joins (HH := plain_host) (HC := plain_host_clock) (HL := sample_brlib) "-v9" w _))).
    apply run_eq. vm_compute. reflexivity.
Defined.

(** ** The values of a join configuration *)
(** C39: of a join configuration that can be read and parsed, the code takes the server
    (with https) and the token under discovery.bootstrapToken; when one of them, or a map
    on the way, is missing or of another kind, the type assertion panics: this is never
    reported as an error. In the same way the etcd of a cluster is external exactly when
    it has an "external" that is not null, and a cluster configuration without etcd
    panics. *)
Theorem configuration_values `{HH : !Host} `{HL : !BRLib} path data mode config w :
  w_fs w !! path = Some (File data mode) → host_fault w (ERead path) = None →
  yaml_map (Trim (TrimPrefix data "---") "'") = Some config →
  (∃ o, getBootstrapFromJoinConfig path w = (o, log (ERead path) w) ∧
    match bootstrap_values config with
    | Some (endpoint, token) => o = Ret ("https://" +:+ endpoint, token)
    | None => ∃ e, o = Panic e
    end) ∧
  (∀ text w, yaml_map (Trim text "'") = Some config →
    match json_map (member config "etcd") with
    | Some etcd => ∃ b, isExternalEtcd text w = (Ret b, w) ∧ (b = true ↔ member etcd "external" ≠ JNull)
    | None => ∃ e, isExternalEtcd text w = (Panic e, w)
    end).
Proof.
  intros Hf Hh Hy. split.
  - unfold getBootstrapFromJoinConfig, bootstrap_values, unmarshalIntoMap, as_map, as_string, json_map, json_string.
    rewrite (bind_step _ _ _ data (log (ERead path) w)).
    2: { unfold wrap, recover, ReadFile, attempt. rewrite Hh. simpl. by rewrite Hf. }
    rewrite (bind_step _ _ _ config (log (ERead path) w)).
    2: { unfold wrap, recover. by rewrite Hy. }
    destruct (member config "discovery") as [| | | | |discovery]; try (eexists; split; [done|]; by eexists).
    rewrite bind_ret_l. simpl.
    destruct (member discovery "bootstrapToken") as [| | | | |t]; try (eexists; split; [done|]; by eexists).
    rewrite bind_ret_l. simpl.
    destruct (member t "apiServerEndpoint"); try (eexists; split; [done|]; by eexists). rewrite bind_ret_l. simpl.
    destruct (member t "token"); try (eexists; split; [done|]; by eexists).
  - intros text w2 Ht. unfold isExternalEtcd, unmarshalIntoMap, as_map, json_map.
    rewrite (bind_step _ _ _ config w2) by (unfold wrap, recover; by rewrite Ht).
    destruct (member config "etcd") as [| | | | |etcd]; try by eexists.
    rewrite bind_ret_l. destruct (member etcd "external"); eexists; done.
Qed.

(** A join configuration with a token of another kind. *)
Definition file_token_brlib : BRLib := {|
  yaml_map _ := Some [("discovery", JObj [("file", JObj [])])];
  yaml_userdata := yaml_userdata (BRLib := sample_brlib); yaml_secrets := yaml_secrets (BRLib := sample_brlib);
  yaml_pod := yaml_pod (BRLib := sample_brlib); gunzip := gunzip (BRLib := sample_brlib);
  secrets_service := secrets_service (BRLib := sample_brlib); get_secret := get_secret (BRLib := sample_brlib);
  lookup_user := lookup_user (BRLib := sample_brlib);
  kubeconfig_servers := kubeconfig_servers (BRLib := sample_brlib);
  systemd_dial := systemd_dial (BRLib := sample_brlib);
  systemd_messages := systemd_messages (BRLib := sample_brlib);
  body_error := body_error (BRLib := sample_brlib); select_first := select_first (BRLib := sample_brlib);
  version_valid := version_valid (BRLib := sample_brlib);
  version_compare := version_compare (BRLib := sample_brlib); ebs_walk_time := ebs_walk_time (BRLib := sample_brlib) |}.

Lemma configuration_values_witness :
  let w := mkWorld {[ "/tmp/kubeadm-join-config.yaml" := File "---" 420 ]} ∅ [] in
  ∃ o, getBootstrapFromJoinConfig (HH := plain_host) (HL := file_token_brlib) kubeadmJoinFile w
    = (o, log (ERead kubeadmJoinFile) w) ∧ ∃ e, o = Panic e.
Proof.
  intros w.
  refine (proj1 (configuration_values (HH := plain_host) (HL := file_token_brlib) kubeadmJoinFile "---" 420
    [("discovery", JObj [("file", JObj [])])] w _ _ _)); [vm_compute; reflexivity|reflexivity|reflexivity].
Defined.

(** ** A kubeconfig without a cluster *)

(** The wait for the local API server. *)
Definition wait_local `{HH : !Host} `{HL : !BRLib} : prog unit :=
  endpoint ← recover getLocalApiServerReadinessEndpoint (λ _, mret fallback_endpoint);
  WaitFor200 endpoint (30 * Second).

Section without_cluster.
Context `{HH : !Host} `{HC : !ClockLaws} `{HL : !BRLib} (v : string).

(** An init whose first part is done goes on with its second part. *)
Lemma controlPlaneInit_from w version w1 w2 o w' : write_keys v w = (Ret version, w1) →
  migrate_static_pods w1 = (Ret tt, w2) → controlPlaneInit v w = (o, w') →
  ∃ rest : string → string → prog unit,
    (apiServer ← wrap "Error getting api server" (GetApiServerFromKubeConfig kubeconfigPath);
     b64CA ← wrap "Error reading the ca data" getEncodedCA;
     _ ← wait_api_server apiServer; rest apiServer b64CA) w2 = (o, w').
Proof using.
  unfold write_keys, controlPlaneInit. intros Hk Hm H. pass Hk H1. pass_as Hk ebs H2. pass_as Hk ver H3. pass Hk H4.
  apply mret_ret in Hk as [-> <-]. apply (wrap_commands _ _ (λ _, "Error running command")) in H4.
  rewrite (bind_step _ _ _ _ _ (wrap_ok _ _ _ _ _ H1)), (bind_step _ _ _ _ _ H2), (bind_step _ _ _ _ _ H3),
    (bind_step _ _ _ _ _ (H4 : forM init_phases (run_kubeadm v) _ = _)), (bind_step _ _ _ _ _ Hm) in H.
  by eexists (λ a b, _).
Qed.

Lemma wait_without_server w o w' : wait_api_server "" w = (o, w') →
  (∀ a, o ≠ Ret a) ∧ execs w' = execs w ∧
  (∀ w1, wait_local w = (Ret tt, w1) →
     o = Err "Timeout occurred while waiting for 200 OK" ∧ (host_clock w1 + 30 * Second ≤ host_clock w')%Z).
Proof using HC.
  intros H. pose proof H as Hq. quiet_in Hq.
  assert (∀ w1, wait_local w = (Ret tt, w1) →
     o = Err "Timeout occurred while waiting for 200 OK" ∧ (host_clock w1 + 30 * Second ≤ host_clock w')%Z) as Hlocal.
  { intros w1 Hw. unfold wait_local in Hw. unfold wait_api_server in H. pass Hw H1.
    rewrite (bind_step _ _ _ _ _ H1), (bind_step _ _ _ _ _ Hw) in H.
    destruct (WaitFor200_refused ("" +:+ "/healthz") (30 * Second) w1) as (w3 & E & Hc); [reflexivity|].
    rewrite E in H. by injection H as <- <-. }
  split_and!; [|done|done]. intros [] ->. unfold wait_api_server in H. pass H H1. pass H H2.
  destruct (Hlocal w1) as [? _]; [|done]. unfold wait_local. by rewrite (bind_step _ _ _ _ _ H1).
Qed.
End without_cluster.

(** C40: what becomes of an init whose kubeconfig does not have exactly one cluster when the
    static pods are up. The error that the code means to report is lost, because what it
    wraps is nil: the server is empty, and the node waits for the address "/healthz", which
    no server can answer. So the init never returns and runs no further command, and when
    the files can be read and the local API server answers it ends, after at least the
    thirty seconds of that wait, in the timeout. *)
Theorem kubeconfig_without_cluster `{HH : !Host} `{HC : !ClockLaws} `{HL : !BRLib} v w version w1 w2 data m servers o w' :
  write_keys v w = (Ret version, w1) → migrate_static_pods w1 = (Ret tt, w2) →
  w_fs w2 !! kubeconfigPath = Some (File data m) → kubeconfig_servers data = Some servers → length servers ≠ 1 →
  controlPlaneInit v w = (o, w') →
  (∀ a, o ≠ Ret a) ∧ execs w' = execs w2 ∧
  (∀ b64 w3 w4, host_fault w2 (ERead kubeconfigPath) = None →
     getEncodedCA (log (ERead kubeconfigPath) w2) = (Ret b64, w3) → wait_local w3 = (Ret tt, w4) →
     o = Err "Timeout occurred while waiting for 200 OK" ∧ (host_clock w2 + 30 * Second ≤ host_clock w')%Z).
Proof.
  intros Hk Hm Hdata Hs Hl H. destruct (controlPlaneInit_from _ _ _ _ _ _ _ Hk Hm H) as [rest Hr]. clear H.
  assert (∀ server w3, wrap "Error getting api server" (GetApiServerFromKubeConfig kubeconfigPath) w2 = (Ret server, w3) →
    server = "" ∧ w3 = log (ERead kubeconfigPath) w2) as Hserver.
  { intros server w3 Hx%wrap_ret. apply GetApiServer_ret in Hx as (d & m' & l & Hd & Hl' & -> & ->). simplify_eq.
    by rewrite bool_decide_eq_false_2. }
  assert (host_fault w2 (ERead kubeconfigPath) = None → GetApiServerFromKubeConfig kubeconfigPath w2
    = (Ret "", log (ERead kubeconfigPath) w2)) as Hread.
  { intros Hh. unfold GetApiServerFromKubeConfig. rewrite (bind_step _ _ _ data (log (ERead kubeconfigPath) w2)).
    - by rewrite Hs, bool_decide_eq_false_2.
    - unfold wrap, recover, ReadFile, attempt. rewrite Hh. simpl. by rewrite Hdata. }
  apply bind_any in Hr as [(server & w3 & Hx & Hr)|(o1 & Hx & Ho1 & Ho)].
  2:{ split; [naive_solver|]. pose proof Hx as Hq. quiet_in Hq. split; [done|]. intros b64 w3 w4 Hh _ _.
      rewrite (wrap_ok _ _ _ _ _ (Hread Hh)) in Hx. injection Hx as <- _. naive_solver. }
  apply Hserver in Hx as [-> ->].
  assert (execs (log (ERead kubeconfigPath) w2) = execs w2) as E2 by (unfold execs; rewrite obs_log; apply app_nil_r).
  apply bind_any in Hr as [(b & w3 & Hx & Hr)|(o1 & Hx & Ho1 & Ho)].
  2:{ split; [naive_solver|]. pose proof Hx as Hq. quiet_in Hq. split; [by rewrite Hq|]. intros b64 w3 w4 Hh Hca _.
      rewrite (wrap_ok _ _ _ _ _ Hca) in Hx. injection Hx as <- _. naive_solver. }
  pose proof Hx as E3. quiet_in E3. apply wrap_ret in Hx. apply getEncodedCA_ret in Hx as Hca.
  destruct Hca as (ca & mca & _ & _ & ->).
  pose proof Hr as Hall.
  apply bind_any in Hr as [(u & w5 & Hw & Hr)|(o1 & Hw & Ho1 & Ho)]; pose proof Hw as Hw0;
    apply wait_without_server in Hw as (Hno & E4 & Hlocal); [by destruct (Hno u)|].
  split; [naive_solver|]. split; [by rewrite E4, E3|]. intros b64 w3 w4 Hh Hca Hwl. rewrite Hca in Hx. injection Hx as <- ->.
  destruct (Hlocal w4 Hwl) as [-> Hc]. rewrite (bind_err _ _ _ _ _ Hw0) in Hall. injection Hall as <-. split; [done|].
  assert (host_clock w2 ≤ host_clock w4)%Z; [|lia]. apply clock_grows. unfold wait_local in Hwl.
  pass_as Hwl endpoint H1. unfold getLocalApiServerReadinessEndpoint, UnmarshalPodDefinition in H1. grows_of H1 G1.
  apply WaitFor200_ok in Hwl as (_ & wh & body & [G2 G3] & _).
  etrans; [|etrans; [exact G1|etrans; [exact G2|exact G3]]]. etrans; apply trace_grows_log.
Qed.

(** Static pods that are up, and no cluster. *)
Lemma kubeconfig_without_cluster_witness :
  let w := mkWorld (<["/etc/kubernetes/admin.conf" := File "clusters: []" 420]> control_plane_files) ∅ [] in
  ∃ version w1 w2 o w', write_keys (HH := plain_host) (HL := sample_brlib) "-v9" w = (Ret version, w1) ∧
    migrate_static_pods (HH := plain_host) (HL := sample_brlib) w1 = (Ret tt, w2) ∧
    controlPlaneInit (HH := plain_host) (HL := sample_brlib) "-v9" w = (o, w') ∧
    (∀ a, o ≠ Ret a) ∧ execs w' = execs w2 ∧
    (∀ b64 w3 w4, host_fault (Host := plain_host) w2 (ERead kubeconfigPath) = None →
       getEncodedCA (HH := plain_host) (log (ERead kubeconfigPath) w2) = (Ret b64, w3) →
       wait_local (HH := plain_host) (HL := sample_brlib) w3 = (Ret tt, w4) →
       o = Err "Timeout occurred while waiting for 200 OK" ∧
       (host_clock (Host := plain_host) w2 + 30 * Second ≤ host_clock (Host := plain_host) w')%Z).
Proof.
  intros w. do 5 eexists. split; [apply run_eq; vm_compute; reflexivity|]. split; [apply run_eq; vm_compute; reflexivity|].
  split; [apply run_eq; vm_compute; reflexivity|].
  eapply (kubeconfig_without_cluster (HH := plain_host) (HC := plain_host_clock) (HL := sample_brlib) "-v9" w _ _ _
    "clusters: []" 420 []);
    [apply run_eq; vm_compute; reflexivity|apply run_eq; vm_compute; reflexivity|vm_compute; reflexivity|
     reflexivity|simpl; lia|apply run_eq; vm_compute; reflexivity].
Defined.
