(* ===== verification/BRSnow.v ===== *)
(** * bottlerocket-bootstrap: the Snow provider

    [pkg/providers/snow] and the parts of [pkg/executables] it uses. The links and routes
    of the machine and the YAML of the network file are [SnowLib]; the template
    [config/net.toml] is given as the function it denotes. *)
From S2P Require Import Prelude GoStrings World GoJson BRUtils.
From stdpp Require Import base tactics strings list gmap sorting.
From Stdlib Require Import Ascii.

#[local] Arguments String.append : simpl nomatch.
Local Open Scope string_scope.
Local Open Scope list_scope.

(** ** Data *)
Record StaticIP := mkStatic { Address : string; Gateway : string; Primary : bool }.
Record Network := mkNetwork { DeviceIP : string; DniCount : Z; Static : list StaticIP }.
Record NetworkMapping := mkMapping { DNI : string; n_StaticIP : option StaticIP }.

Record Kernel := mkKernel { Sysctl : gmap string string }.
Record Kubernetes := mkKubernetes { AllowedUnsafeSysctls : list string }.
Record APISetting := mkSetting { s_Kernel : option Kernel; s_Kubernetes : option Kubernetes }.

Class SnowLib := {
  yaml_network : string → option Network;
  link_list : World → string + list string;                       (* the names of the links *)
  route_list : World → string + list (option string * string);    (* destination and gateway *)
}.

(** ** Constants *)
Definition rootfs : string := "/.bottlerocket/rootfs".
Definition metadataServiceIP : string := "169.254.169.254".
Definition networkFilePath : string := "/tmp/network.yaml".
Definition netConfigPath : string := PathJoin [rootfs; "/var/lib/netdog/net.toml"].
Definition currentIPPath : string := PathJoin [rootfs; "/var/lib/netdog/current_ip"].
Definition bootstrapContainerPath : string := "/.bottlerocket/bootstrap-containers/current".
Definition rebootedPath : string := PathJoin [bootstrapContainerPath; "rebooted"].
Definition nodeIPConfiguredPath : string := PathJoin [bootstrapContainerPath; "nodeip.configured"].
Definition partitionCreatedPath : string := PathJoin [bootstrapContainerPath; "partition.created"].
Definition device : string := PathJoin [rootfs; "/dev/vda"].
Definition containerdDir : string := PathJoin [rootfs; "/var/lib/containerd"].

(** ** [config/net.toml] *)
Definition render_static (n : NetworkMapping) (s : StaticIP) : string :=
  (if Primary s then nl +:+ "[" +:+ DNI n +:+ "]" +:+ nl +:+ "primary = true" else "")
  +:+ nl +:+ "[" +:+ DNI n +:+ ".static4]"
  +:+ nl +:+ "addresses = [" +:+ q (Address s) +:+ "]"
  +:+ nl +:+ "[[" +:+ DNI n +:+ ".route]]"
  +:+ nl +:+ "to = " +:+ q "default"
  +:+ nl +:+ "via = " +:+ q (Gateway s).

Definition render_mapping (i : nat) (n : NetworkMapping) : string :=
  match n_StaticIP n with
  | Some s => render_static n s
  | None =>
      nl +:+ "[" +:+ DNI n +:+ "]" +:+ nl +:+ "dhcp4 = true"
      +:+ (if bool_decide (i = 0)%nat then nl +:+ "primary = true" else "")
  end.

Fixpoint render_mappings (i : nat) (l : list NetworkMapping) : string :=
  match l with
  | [] => ""
  | n :: l => render_mapping i n +:+ render_mappings (S i) l
  end.

Definition GenerateNetworkTemplate (network : list NetworkMapping)
    (instanceIP defaultGateway metadataIP : string) : string :=
  "version = 2" +:+ render_mappings 0 network
  +:+ nl +:+ "[eth0.static4]"
  +:+ nl +:+ "addresses = [" +:+ q (instanceIP +:+ "/25") +:+ "]"
  +:+ nl +:+ "[[eth0.route]]"
  +:+ nl +:+ "to = " +:+ q (metadataIP +:+ "/32")
  +:+ nl +:+ "from = " +:+ q instanceIP
  +:+ nl +:+ "via = " +:+ q defaultGateway +:+ nl.

(** The two cases of [network_test.go], line by line. *)
Example template_static :
  Split (GenerateNetworkTemplate
    [mkMapping "dni0" (Some (mkStatic "address0" "gateway0" true));
     mkMapping "dni1" (Some (mkStatic "address1" "gateway1" false))]
    "instanceip" "defaultgateway" "metaserverip") nl =
  ["version = 2"; "[dni0]"; "primary = true"; "[dni0.static4]"; "addresses = [" +:+ q "address0" +:+ "]";
   "[[dni0.route]]"; "to = " +:+ q "default"; "via = " +:+ q "gateway0";
   "[dni1.static4]"; "addresses = [" +:+ q "address1" +:+ "]"; "[[dni1.route]]"; "to = " +:+ q "default";
   "via = " +:+ q "gateway1"; "[eth0.static4]"; "addresses = [" +:+ q "instanceip/25" +:+ "]";
   "[[eth0.route]]"; "to = " +:+ q "metaserverip/32"; "from = " +:+ q "instanceip";
   "via = " +:+ q "defaultgateway"; ""].
Proof. vm_compute. reflexivity. Qed.

Example template_dhcp :
  Split (GenerateNetworkTemplate [mkMapping "dni0" None; mkMapping "dni1" None] "i" "d" "m") nl =
  ["version = 2"; "[dni0]"; "dhcp4 = true"; "primary = true"; "[dni1]"; "dhcp4 = true";
   "[eth0.static4]"; "addresses = [" +:+ q "i/25" +:+ "]"; "[[eth0.route]]"; "to = " +:+ q "m/32";
   "from = " +:+ q "i"; "via = " +:+ q "d"; ""].
Proof. vm_compute. reflexivity. Qed.

(** ** [pkg/executables/apiclient.go] and [filesystem.go] *)

(** [json.Marshal] sorts the keys of a map; a nil pointer and an empty map or list are
    left out. *)
Definition kv_le (a b : string * string) : Prop := str_le a.1 b.1.
#[export] Instance kv_le_dec : RelDecision kv_le.
Proof. intros a b. apply str_le_dec. Defined.

Definition sorted_members (m : gmap string string) : list (string * json) :=
  map (λ kv, (kv.1, JStr kv.2)) (merge_sort kv_le (map_to_list m)).

Definition kernel_json (k : Kernel) : json :=
  JObj (if decide (Sysctl k = ∅) then [] else [("sysctl", JObj (sorted_members (Sysctl k)))]).
Definition kubernetes_json (k : Kubernetes) : json :=
  JObj (match AllowedUnsafeSysctls k with [] => [] | l => [("allowed-unsafe-sysctls", JArr (map JStr l))] end).
Definition setting_json (s : APISetting) : json :=
  JObj (match s_Kernel s with Some k => [("kernel", kernel_json k)] | None => [] end ++
        match s_Kubernetes s with Some k => [("kubernetes", kubernetes_json k)] | None => [] end).

(** [%q]: the escapes of control bytes, the quote and the backslash; other bytes are
    printable text. *)
Definition quote_byte (c : ascii) : string :=
  let n := nat_of_ascii c in
  if bool_decide (n = 34 ∨ n = 92) then String backslash (String c "")
  else if bool_decide (n = 7) then String backslash "a"
  else if bool_decide (n = 8) then String backslash "b"
  else if bool_decide (n = 12) then String backslash "f"
  else if bool_decide (n = 10) then String backslash "n"
  else if bool_decide (n = 13) then String backslash "r"
  else if bool_decide (n = 9) then String backslash "t"
  else if bool_decide (n = 11) then String backslash "v"
  else if bool_decide (n < 32 ∨ n = 127)%nat then
    let m := N_of_ascii c in
    String backslash ("x" +:+ String (hex_digit (m / 16)) (String (hex_digit (m mod 16)) ""))
  else String c "".

Fixpoint quote_body (s : string) : string :=
  match s with
  | EmptyString => ""
  | String c s => quote_byte c +:+ quote_body s
  end.

Definition mountBinary : string := "mount".
Definition mkfsExt4Binary : string := "mkfs.ext4".

Section executables.
Context `{HH : !Host}.

Definition apiclient (args : list string) : prog unit := _ ← Execute ApiclientBinary args; mret tt.

Definition SetKubernetesCloudProvider (cloudProvider : string) : prog unit :=
  apiclient ["set"; "kubernetes.cloud-provider=" +:+ q (quote_body cloudProvider)].
Definition SetKubernetesNodeIP (ip : string) : prog unit := apiclient ["set"; "kubernetes.node-ip=" +:+ ip].
Definition SetKubernetesProviderID (id : string) : prog unit :=
  apiclient ["set"; "kubernetes.provider-id=" +:+ id].
Definition Set_ (setting : APISetting) : prog unit := apiclient ["set"; "--json"; print (setting_json setting)].
Definition Reboot : prog unit := apiclient ["reboot"].

Definition MountVolume (device dir : string) : prog unit := _ ← Execute mountBinary [device; dir]; mret tt.
Definition Partition (device : string) : prog unit := _ ← Execute mkfsExt4Binary [device]; mret tt.
End executables.

(** ** The tasks *)
Section snow.
Context `{HH : !Host} `{HL : !BRLib} `{HS : !SnowLib}.

Definition httpGet (url : string) : prog string :=
  r ← wrap ("error sending http GET request to " +:+ url) (HttpGet url);
  if bool_decide (r.1 = 200)%Z then mret r.2
  else fail ("requesting " +:+ url +:+ " returns status code " +:+ Itoa r.1).

Definition metadata_url (key : string) : string :=
  "http://" +:+ metadataServiceIP +:+ "/latest/meta-data/" +:+ key.

Definition instanceID : prog string :=
  wrap "error requesting instance id through http" (httpGet (metadata_url "instance-id")).
Definition instanceIP : prog string :=
  wrap "error requesting instance ip through http" (httpGet (metadata_url "local-ipv4")).

(** The first line of the file, if it has one. *)
Fixpoint until_newline (s : string) : string :=
  match s with
  | EmptyString => ""
  | String c s => if bool_decide (c = ascii_of_nat 10) then "" else String c (until_newline s)
  end.
Definition first_line (s : string) : string := TrimSuffix (until_newline s) (String (ascii_of_nat 13) "").

Definition currentIP : prog string := c ← ReadFile currentIPPath; mret (first_line c).

Definition defaultGateway : prog string :=
  w ← get;
  match route_list w with
  | inl e => fail ("error getting the route list: " +:+ e)
  | inr routes =>
      match list_find (λ r : option string * string, r.1 = None) routes with
      | Some (_, r) => mret r.2
      | None => fail "default gateway not found"
      end
  end.

Definition dniList : prog (list string) :=
  w ← get;
  match link_list w with
  | inl e => fail ("error getting the device list of links: " +:+ e)
  | inr devices => mret (filter (λ name, name ≠ "lo" ∧ name ≠ "eth0") devices)
  end.

Definition parseNetworkFile : prog (option Network) :=
  userData ← wrap "error resolving user data" ResolveBootstrapContainerUserData;
  match list_find (λ f, wf_Path f = networkFilePath) (WriteFiles userData) with
  | None => mret None
  | Some (_, file) =>
      match yaml_network (wf_Content file) with
      | None => fail "error unmarshalling network file content"
      | Some n => mret (Some n)
      end
  end.

Definition deviceIP : prog string :=
  network ← wrap "error parsing network file" parseNetworkFile;
  n ← deref network;
  mret (DeviceIP n).

(** The loop of [networkMapping]: [&network.Static[i]] panics out of range. *)
Fixpoint map_dnis (static : list StaticIP) (i : nat) (dnis : list string) : prog (list NetworkMapping) :=
  match dnis with
  | [] => mret []
  | dni :: dnis =>
      s ← (if bool_decide (static = []) then mret None else s ← index static i; mret (Some s));
      rest ← map_dnis static (S i) dnis;
      mret (mkMapping dni s :: rest)
  end.
#[local] Instance Static_eq_dec : EqDecision StaticIP.
Proof. solve_decision. Defined.

(** [errors.Wrap] of a nil error is nil: where the code means to report that the links
    do not match the network file it returns no mapping and no error. *)
Definition networkMapping : prog (list NetworkMapping) :=
  dnis ← wrap "error getting DNI list" dniList;
  network ← wrap "error parsing network file" parseNetworkFile;
  n ← deref network;
  if negb (bool_decide (Z.of_nat (length dnis) = DniCount n)) then mret []
  else if bool_decide (0 < length (Static n))%nat && bool_decide (Z.of_nat (length (Static n)) < DniCount n)%Z
  then mret []
  else map_dnis (Static n) 0 dnis.

Definition configureDNI : prog unit :=
  exists_ ← PathExists netConfigPath;
  if (exists_ : bool) then mret tt
  else
    ip ← wrap "error getting local instance ip" instanceIP;
    gateway ← wrap "error getting default gateway" defaultGateway;
    network ← wrap "error generating network mapping" networkMapping;
    wrap ("error writing network configuration to " +:+ netConfigPath)
      (files_Write netConfigPath (GenerateNetworkTemplate network ip gateway metadataServiceIP) 416).

(** The errors are made and dropped. *)
Definition setProviderID : prog unit :=
  id ← recover instanceID (λ _, mret "");
  ip ← recover deviceIP (λ _, mret "");
  SetKubernetesProviderID ("aws-snow:///" +:+ ip +:+ "/" +:+ id).

Definition setCloudProvider : prog unit := SetKubernetesCloudProvider "".

Definition setNodeIP : prog unit :=
  rebooted ← PathExists rebootedPath;
  configured ← (if (rebooted : bool) then PathExists nodeIPConfiguredPath else mret true);
  if (configured : bool) then mret tt
  else
    ip ← wrap "Error getting current ip address" currentIP;
    _ ← SetKubernetesNodeIP ip;
    wrap ("Error writing " +:+ nodeIPConfiguredPath +:+ " file") (Create nodeIPConfiguredPath).

Definition configureKubernetesSettings : prog unit :=
  _ ← wrap "Error setting K8s cloud provider" setCloudProvider;
  _ ← wrap "Error setting K8s provider id" setProviderID;
  wrap "Error setting K8s node ip" setNodeIP.

Definition kernel_setting : APISetting :=
  mkSetting
    (Some (mkKernel (list_to_map [("net.core.rmem_max", "8388608"); ("net.core.wmem_max", "8388608");
                                  ("kernel.core_pattern", "/var/corefile/core.%e.%p.%h.%t")])))
    (Some (mkKubernetes ["net.ipv4.tcp_mtu_probing"])).

Definition configureKernelSettings : prog unit := Set_ kernel_setting.

Definition createPartition : prog unit :=
  created ← PathExists partitionCreatedPath;
  if (created : bool) then mret tt
  else
    _ ← Partition device;
    wrap "error writing partition created file" (Create partitionCreatedPath).

Definition mountContainerd : prog unit :=
  _ ← wrap "error creating directory" (MkdirAll containerdDir);
  MountVolume device containerdDir.

Definition mountContainerdVolume : prog unit :=
  _ ← wrap "error creating partition" createPartition;
  wrap "error mounting containerd directory" mountContainerd.

Definition rebootInstanceIfNeeded : prog unit :=
  rebooted ← PathExists rebootedPath;
  if (rebooted : bool) then mret tt
  else
    _ ← wrap "Error writing rebooted file" (Create rebootedPath);
    Reboot.

(** Ends the process, with 1 at the first error. *)
Definition Bootstrap : prog unit :=
  _ ← fatal_on_err configureKubernetesSettings;
  _ ← fatal_on_err configureKernelSettings;
  _ ← fatal_on_err configureDNI;
  _ ← fatal_on_err mountContainerdVolume;
  _ ← fatal_on_err rebootInstanceIfNeeded;
  exit 0.
End snow.

(** [TestAPISet]'s expected text. *)
Example kernel_setting_json : print (setting_json kernel_setting) =
  "{" +:+ q "kernel" +:+ ":{" +:+ q "sysctl" +:+ ":{" +:+ q "kernel.core_pattern" +:+ ":"
  +:+ q "/var/corefile/core.%e.%p.%h.%t" +:+ "," +:+ q "net.core.rmem_max" +:+ ":" +:+ q "8388608" +:+ ","
  +:+ q "net.core.wmem_max" +:+ ":" +:+ q "8388608" +:+ "}}," +:+ q "kubernetes" +:+ ":{"
  +:+ q "allowed-unsafe-sysctls" +:+ ":[" +:+ q "net.ipv4.tcp_mtu_probing" +:+ "]}}".
Proof. vm_compute. reflexivity. Qed.

(** ** The network mapping *)
Definition dnis (devices : list string) : list string :=
  filter (λ name, name ≠ "lo" ∧ name ≠ "eth0") devices.

(** The links and the network file go together: as many links as the file counts, and
    static addresses for none of them or for all. *)
Definition matching (devices : list string) (n : Network) : Prop :=
  Z.of_nat (length (dnis devices)) = DniCount n ∧
  (Static n = [] ∨ length (dnis devices) ≤ length (Static n))%nat.

Section mapping.
Context `{HH : !Host} `{HL : !BRLib} `{HS : !SnowLib}.

Lemma map_dnis_eq static i l w : (static = [] ∨ i + length l ≤ length static)%nat →
  ∃ m, map_dnis static i l w = (Ret m, w) ∧ map DNI m = l ∧
    ∀ k n, m !! k = Some n → n_StaticIP n = if bool_decide (static = []) then None else static !! (i + k)%nat.
Proof.
  revert i. induction l as [|d l IH]; intros i Hi; cbn [map_dnis].
  - exists []. split_and!; [done..|]. intros k n. by rewrite lookup_nil.
  - destruct (IH (S i)) as (m & Hm & Hd & Hs); [simpl in Hi; destruct Hi; [by left|right; lia]|].
    destruct (bool_decide (static = [])) eqn:E.
    + rewrite (bind_step _ _ _ None w), (bind_step _ _ _ m w) by done. eexists. split; [done|].
      split; [simpl; by rewrite Hd|]. intros [|k] n; [by intros [= <-]|]. intros Hk. by apply (Hs k).
    + apply bool_decide_eq_false in E. destruct Hi as [?|Hi]; [done|]. simpl in Hi.
      destruct (lookup_lt_is_Some_2 static i ltac:(lia)) as [s Hsi].
      rewrite (bind_step _ _ _ (Some s) w), (bind_step _ _ _ m w); [|done|unfold index; by rewrite Hsi].
      eexists. split; [done|]. split; [simpl; by rewrite Hd|].
      intros [|k] n; [intros [= <-]; by rewrite Nat.add_0_r|]. intros Hk.
      rewrite (Hs k n Hk). f_equal. lia.
Qed.

Lemma networkMapping_eq devices n w w' : link_list w = inr devices → parseNetworkFile w = (Ret (Some n), w') →
  networkMapping w = (if negb (bool_decide (Z.of_nat (length (dnis devices)) = DniCount n)) then mret []
    else if bool_decide (0 < length (Static n))%nat && bool_decide (Z.of_nat (length (Static n)) < DniCount n)%Z
    then mret [] else map_dnis (Static n) 0 (dnis devices)) w'.
Proof.
  intros Hl Hp. unfold networkMapping. rewrite (bind_step _ _ w (dnis devices) w).
  2: { unfold wrap, recover, dniList. rewrite (bind_step _ _ w w w), Hl by done. done. }
  rewrite (bind_step _ _ w (Some n) w'); [|unfold wrap, recover; by rewrite Hp].
  by rewrite (bind_step _ _ w' n w').
Qed.
End mapping.

(** C31: the mapping of the links never goes out of range. When links and network file
    match there is one entry for each link other than lo and eth0, in order, with the
    static address of its position. When they do not match the code means to report it,
    but it wraps a nil error: the mapping is empty and there is no error. Without a
    network file in the user data the code dereferences nil. *)
Theorem network_mapping `{HH : !Host} `{HL : !BRLib} `{HS : !SnowLib} devices w p w' :
  link_list w = inr devices → parseNetworkFile w = (Ret p, w') →
  match p with
  | None => ∃ e, networkMapping w = (Panic e, w')
  | Some n =>
      (matching devices n → ∃ m, networkMapping w = (Ret m, w') ∧ map DNI m = dnis devices ∧
        ∀ k x, m !! k = Some x → n_StaticIP x = if bool_decide (Static n = []) then None else Static n !! k) ∧
      (¬ matching devices n → networkMapping w = (Ret [], w'))
  end.
Proof.
  intros Hl Hp. destruct p as [n|].
  - pose proof (networkMapping_eq devices n w w' Hl Hp) as E. split; intros Hm.
    + destruct Hm as [Hc Hs]. rewrite bool_decide_eq_true_2 in E by done. cbn [negb] in E.
      assert (bool_decide (0 < length (Static n))%nat &&
        bool_decide (Z.of_nat (length (Static n)) < DniCount n)%Z = false) as E2.
      { apply andb_false_iff. rewrite !bool_decide_eq_false. destruct Hs as [->|]; simpl; lia. }
      rewrite E2 in E. rewrite E. by apply map_dnis_eq.
    + rewrite E. case_bool_decide as Hc; [|done]. cbn [negb]. destruct (_ && _) eqn:E2; [done|].
      exfalso. apply Hm. split; [done|]. apply andb_false_iff in E2. rewrite !bool_decide_eq_false in E2.
      destruct (Static n); [by left|right]. simpl in *. lia.
  - unfold networkMapping. rewrite (bind_step _ _ w (dnis devices) w).
    2: { unfold wrap, recover, dniList. rewrite (bind_step _ _ w w w), Hl by done. done. }
    rewrite (bind_step _ _ w None w'); [|unfold wrap, recover; by rewrite Hp]. by eexists.
Qed.

Definition sample_snow : SnowLib := {|
  yaml_network _ := Some (mkNetwork "10.0.0.5" 2 []);
  link_list _ := inr ["lo"; "eth0"; "eth1"];
  route_list _ := inr [(None, "10.0.0.1")] |}.

(** One link where the file counts two. *)
Definition snow_brlib : BRLib := {|
  yaml_userdata s := Some (mkUserData "" [mkWriteFile networkFilePath "root" "" s] "");
  yaml_secrets := yaml_secrets (BRLib := sample_brlib); yaml_pod := yaml_pod (BRLib := sample_brlib);
  gunzip := gunzip (BRLib := sample_brlib); secrets_service := secrets_service (BRLib := sample_brlib);
  get_secret := get_secret (BRLib := sample_brlib); lookup_user := lookup_user (BRLib := sample_brlib);
  kubeconfig_servers := kubeconfig_servers (BRLib := sample_brlib);
  systemd_dial := systemd_dial (BRLib := sample_brlib);
  systemd_messages := systemd_messages (BRLib := sample_brlib);
  body_error := body_error (BRLib := sample_brlib); select_first := select_first (BRLib := sample_brlib);
  version_valid := version_valid (BRLib := sample_brlib);
  version_compare := version_compare (BRLib := sample_brlib);
  yaml_map := yaml_map (BRLib := sample_brlib); ebs_walk_time := ebs_walk_time (BRLib := sample_brlib) |}.

Definition snow_world : World :=
  mkWorld {[ "/.bottlerocket/bootstrap-containers/current/user-data" := File "dniCount: 2" 420 ]} ∅ [].

Lemma network_mapping_witness :
  ∃ w', networkMapping (HH := plain_host) (HL := snow_brlib) (HS := sample_snow) snow_world = (Ret [], w').
Proof.
  eexists.
  refine (proj2 (network_mapping (HH := plain_host) (HL := snow_brlib) (HS := sample_snow) ["lo"; "eth0"; "eth1"]
    snow_world (Some (mkNetwork "10.0.0.5" 2 [])) _ _ _) _).
  - reflexivity.
  - vm_compute. reflexivity.
  - intros [H _]. vm_compute in H. discriminate H.
Defined.

(** ** What is done once over all boots

    A task is marked as done by a file. [once f p] relates the worlds before and after a
    run that does what [f] observes at most once, not at all if the mark [p] is there, and
    leaves the mark if it did it. *)
Section once.
Context {X : Type} (f : event → option X) (p : string).

Definition once (w w' : World) : Prop :=
  (is_Some (w_fs w !! p) → obs f w' = obs f w ∧ is_Some (w_fs w' !! p)) ∧
  (obs f w' = obs f w ∨ (∃ x, obs f w' = obs f w ++ [x]) ∧ is_Some (w_fs w' !! p)).

#[export] Instance once_preorder : PreOrder once.
Proof.
  split.
  - intros w. split; [done|by left].
  - intros w1 w2 w3 [H1 H2] [H3 H4]. split.
    + intros [E1 M1]%H1. apply H3 in M1 as [E3 M3]. by rewrite E3, E1.
    + destruct H2 as [E|[[x E] M]].
      * rewrite <-E. destruct H4 as [E4|[[y E4] M4]]; [left; done|right; eauto].
      * apply H3 in M as [E3 M3]. right. rewrite E3. eauto.
Qed.

Lemma once_idle w w' : obs f w' = obs f w → (is_Some (w_fs w !! p) → is_Some (w_fs w' !! p)) → once w w'.
Proof. intros E M. split; auto. Qed.

Lemma once_log e w : f e = None → once w (log e w).
Proof. intros E. apply once_idle; [|done]. by rewrite obs_log, E, app_nil_r. Qed.

Lemma once_log_insert e w path n : f e = None → once w (set_fs (<[path := n]> (w_fs w)) (log e w)).
Proof.
  intros E. apply once_idle; [by rewrite obs_set_fs, obs_log, E, app_nil_r|].
  intros M. cbn. destruct (decide (path = p)) as [->|]; [rewrite lookup_insert_eq; eauto|by rewrite lookup_insert_ne].
Qed.

(** The mark is kept by the commands. *)
Definition kept `{!Host} : Prop :=
  ∀ w argv env, is_Some (w_fs w !! p) → is_Some (cr_fs (host_exec w argv env) !! p).

Context `{HH : !Host} (Hkept : kept).

Lemma once_attempt {A} e (k : prog A) : f e = None → preserves once k → preserves once (attempt e k).
Proof using.
  intros He Hk w o w'. unfold attempt. destruct (host_fault w e); intros H; simplify_eq; [by apply once_log|].
  etrans; [by apply once_log|]. by eapply Hk.
Qed.

Lemma once_store path c m : preserves once (store path c m).
Proof using.
  intros w o w'. unfold store.
  assert (∀ n, once w (set_fs (<[path := n]> (w_fs w)) w)) as Hi.
  { intros n. apply once_idle; [done|]. intros M. cbn.
    destruct (decide (path = p)) as [->|]; [rewrite lookup_insert_eq; eauto|by rewrite lookup_insert_ne]. }
  destruct (w_fs w !! path) as [[]|]; intros H; simplify_eq; done.
Qed.

Lemma once_WriteFile path c m : (∀ p c m, f (EWrite p c m) = None) → preserves once (WriteFile path c m).
Proof using.
  intros He w o w' H. etrans; [by apply once_log|]. unfold WriteFile in H.
  destruct (host_fault w _); [destruct (host_torn w _) as [n|]|].
  - injection H as _ <-. destruct (store _ _ _ _) as [o1 w1] eqn:E. by eapply once_store.
  - by injection H as _ <-.
  - by eapply once_store.
Qed.

Lemma once_Create path : (∀ p, f (ECreate p) = None) → preserves once (Create path).
Proof using. intros He. apply once_attempt; [done|apply once_store]. Qed.

Lemma once_MkdirAll path : (∀ p, f (EMkdirAll p) = None) → preserves once (MkdirAll path).
Proof using.
  intros He. apply once_attempt; [done|]. intros w o w' [= <- <-]. apply once_idle; [done|]. cbn.
  generalize (prefixes_of "" (Split (Clean path) "/")). intros l. generalize (w_fs w).
  induction l as [|x l IH]; intros fs M; cbn; [done|]. apply IH. destruct (fs !! x); [done|].
  destruct (decide (x = p)) as [->|]; [rewrite lookup_insert_eq; eauto|by rewrite lookup_insert_ne].
Qed.

Lemma once_ReadFile path : (∀ p, f (ERead p) = None) → preserves once (ReadFile path).
Proof using.
  intros He. apply once_attempt; [done|]. intros w o w'. destruct (w_fs w !! path) as [[]|]; intros; by simplify_eq.
Qed.

Lemma once_HttpGet u : (∀ u, f (EGet u) = None) → preserves once (HttpGet u).
Proof using.
  intros He w o w'. unfold HttpGet. destruct (http_url u), (host_get w u); intros; simplify_eq/=; by apply once_log.
Qed.

Lemma once_PathExists path : (∀ p, f (EStat p) = None) → preserves once (PathExists path).
Proof using.
  intros He w o w' H. destruct (PathExists_eq path w) as (b & E & _). rewrite E in H. simplify_eq. by apply once_log.
Qed.

Lemma once_Call api args : (∀ a l, f (ECall a l) = None) → preserves once (Call api args).
Proof using. intros He w o w' [= <- <-]. by apply once_log. Qed.

Lemma once_exec argv : (f (EExec argv []) = None) → preserves once (exec argv).
Proof using Hkept.
  intros He w o w' [= <- <-]. apply once_idle; [by rewrite obs_set_fs, obs_log, He, app_nil_r|].
  apply Hkept.
Qed.

Lemma once_Execute binary args : f (EExec (binary :: args) []) = None → preserves once (Execute binary args).
Proof using Hkept.
  intros He. apply preserves_bind; [apply _|by apply once_exec|]. intros [[e|] out]; cbn.
  - apply preserves_fail; apply _.
  - apply preserves_ret; apply _.
Qed.
End once.
#[export] Hint Resolve once_WriteFile once_Create once_MkdirAll once_ReadFile once_HttpGet once_PathExists
  once_Call once_exec once_Execute : go.

(** A task behind its mark: what matters is what it does when the mark is missing. *)
Lemma once_guard {X} (f : event → option X) p `{HH : !Host} (body : prog unit) :
  (∀ p, f (EStat p) = None) →
  (∀ w o w', w_fs w !! p = None → body w = (o, w') →
    obs f w' = obs f w ∨ (∃ x, obs f w' = obs f w ++ [x]) ∧ is_Some (w_fs w' !! p)) →
  preserves (once f p) (done_ ← PathExists p; if (done_ : bool) then mret tt else body).
Proof.
  intros Hf Hb w o w'. unfold PathExists, Stat, mbind, go_mbind, go_bind. cbn.
  assert (once f p w (log (EStat p) w)) as Hl by (by apply once_log).
  destruct (host_fault w (EStat p)); [by intros [= <- <-]|]. destruct (w_fs w !! p) eqn:E; cbn; [by intros [= <- <-]|].
  intros H. apply Hb in H; [|done]. rewrite obs_log, Hf, app_nil_r in H. split; [by intros [? ?]; congruence|done].
Qed.

Definition is_exec (argv : list string) (e : event) : option (list string) :=
  match e with EExec a _ => if bool_decide (a = argv) then Some a else None | _ => None end.
Definition is_node_ip (e : event) : option (list string) :=
  match e with
  | EExec [b; c; s] _ => if HasPrefix s "kubernetes.node-ip=" then Some [b; c; s] else None
  | _ => None
  end.
Definition is_reboot : event → option (list string) := is_exec [ApiclientBinary; "reboot"].
Definition is_mkfs : event → option (list string) := is_exec [mkfsExt4Binary; device].

Section boots.
Context `{HH : !Host} `{HL : !BRLib} `{HS : !SnowLib}.

(** What may happen between two boots: anything that keeps the marks. *)
Definition interlude (w w' : World) : Prop :=
  w_trace w' = w_trace w ∧
  Forall (λ p, is_Some (w_fs w !! p) → is_Some (w_fs w' !! p))
    [rebootedPath; partitionCreatedPath; nodeIPConfiguredPath].

Inductive boots : World → World → Prop :=
| BootsNone w : boots w w
| Boot w o w1 w2 w3 : Bootstrap w = (o, w1) → interlude w1 w2 → boots w2 w3 → boots w w3.

Definition marks_kept : Prop :=
  kept rebootedPath ∧ kept partitionCreatedPath ∧ kept nodeIPConfiguredPath.

(** Nothing fails, and no command makes a directory where a mark is to be made. *)
Definition no_failures : Prop :=
  (∀ w e, host_fault w e = None) ∧ (∀ w argv env, cr_err (host_exec w argv env) = None) ∧
  (∀ w argv env p, p ∈ [partitionCreatedPath; nodeIPConfiguredPath] →
    cr_fs (host_exec w argv env) !! p = Some DirNode → w_fs w !! p = Some DirNode).

Lemma boots_once {X} (f : event → option X) p w w' :
  p ∈ [rebootedPath; partitionCreatedPath; nodeIPConfiguredPath] →
  preserves (once f p) Bootstrap → boots w w' → once f p w w'.
Proof using.
  intros Hp Hb. induction 1 as [w|w o w1 w2 w3 H [Ht Hi] _ IH]; [done|].
  etrans; [by eapply Hb|]. etrans; [|exact IH]. apply once_idle; [unfold obs; by rewrite Ht|].
  rewrite Forall_forall in Hi. by apply Hi.
Qed.

(** The tasks other than the observed one do nothing [f] observes. *)
Lemma once_settings {X} (f : event → option X) p : kept p →
  (∀ p, f (ERead p) = None) → (∀ u, f (EGet u) = None) → (∀ a l, f (ECall a l) = None) →
  (∀ s, f (EExec [ApiclientBinary; "set"; "kubernetes.cloud-provider=" +:+ s] []) = None) →
  (∀ s, f (EExec [ApiclientBinary; "set"; "kubernetes.provider-id=" +:+ s] []) = None) →
  (∀ s, f (EExec [ApiclientBinary; "set"; "--json"; s] []) = None) →
  preserves (once f p) setCloudProvider ∧ preserves (once f p) setProviderID ∧
  preserves (once f p) configureKernelSettings.
Proof using.
  intros Hk Hr Hg Hc He1 He2 He3. split_and!.
  - unfold setCloudProvider, SetKubernetesCloudProvider, apiclient. quiet_solve.
  - unfold setProviderID, instanceID, deviceIP, httpGet, parseNetworkFile, ResolveBootstrapContainerUserData,
      buildUserData, processUserData, processAWSSecretsManagerUserData, loadUserDataFromSecretsManager,
      load_chunks, decode_user_data, GetSecretValue, DeleteSecret, NewSecretsManagerService,
      SetKubernetesProviderID, apiclient. quiet_solve.
  - unfold configureKernelSettings, Set_, apiclient. quiet_solve.
Qed.

Lemma once_dni {X} (f : event → option X) p :
  (∀ p, f (EStat p) = None) → (∀ p, f (ERead p) = None) → (∀ u, f (EGet u) = None) →
  (∀ a l, f (ECall a l) = None) → (∀ p, f (EMkdirAll p) = None) → (∀ p c m, f (EWrite p c m) = None) →
  preserves (once f p) configureDNI.
Proof using.
  intros. assert (∀ static i l, preserves (once f p) (map_dnis static i l)) as Hmap.
  { intros static i l. revert i. induction l as [|d l IH]; intros i; cbn [map_dnis]; [quiet_solve|].
    repeat first [apply IH|quiet_step]. }
  unfold configureDNI, instanceIP, httpGet, defaultGateway, networkMapping, dniList, parseNetworkFile,
    ResolveBootstrapContainerUserData, buildUserData, processUserData, processAWSSecretsManagerUserData,
    loadUserDataFromSecretsManager, load_chunks, decode_user_data, GetSecretValue, DeleteSecret,
    NewSecretsManagerService, files_Write. repeat first [apply Hmap|quiet_step].
Qed.

Lemma once_mount {X} (f : event → option X) p : kept p → (∀ p, f (EMkdirAll p) = None) →
  f (EExec [mountBinary; device; containerdDir] []) = None → preserves (once f p) mountContainerd.
Proof using. intros. unfold mountContainerd, MountVolume. quiet_solve. Qed.

Lemma once_node_ip {X} (f : event → option X) p : kept p →
  (∀ p, f (EStat p) = None) → (∀ p, f (ERead p) = None) → (∀ p, f (ECreate p) = None) →
  (∀ ip, f (EExec [ApiclientBinary; "set"; "kubernetes.node-ip=" +:+ ip] []) = None) →
  preserves (once f p) setNodeIP.
Proof using. intros. unfold setNodeIP, currentIP, SetKubernetesNodeIP, apiclient. quiet_solve. Qed.

Lemma once_partition {X} (f : event → option X) p : kept p →
  (∀ p, f (EStat p) = None) → (∀ p, f (ECreate p) = None) → f (EExec [mkfsExt4Binary; device] []) = None →
  preserves (once f p) createPartition.
Proof using. intros. unfold createPartition, Partition. quiet_solve. Qed.

Lemma once_reboot {X} (f : event → option X) p : kept p →
  (∀ p, f (EStat p) = None) → (∀ p, f (ECreate p) = None) → f (EExec [ApiclientBinary; "reboot"] []) = None →
  preserves (once f p) rebootInstanceIfNeeded.
Proof using. intros. unfold rebootInstanceIfNeeded, Reboot, apiclient. quiet_solve. Qed.

(** The boot, given each of its tasks. *)
Lemma once_bootstrap {X} (f : event → option X) p :
  preserves (once f p) setCloudProvider → preserves (once f p) setProviderID → preserves (once f p) setNodeIP →
  preserves (once f p) configureKernelSettings → preserves (once f p) configureDNI →
  preserves (once f p) createPartition → preserves (once f p) mountContainerd →
  preserves (once f p) rebootInstanceIfNeeded → preserves (once f p) Bootstrap.
Proof using.
  intros. unfold Bootstrap, configureKubernetesSettings, mountContainerdVolume.
  repeat first [assumption|quiet_step].
Qed.

Lemma Create_marks path w u w' : Create path w = (Ret u, w') → is_Some (w_fs w' !! path) ∧ w_trace w' = w_trace w ++ [ECreate path].
Proof using.
  unfold Create, attempt. destruct (host_fault w _); [done|]. destruct u. intros H.
  apply store_ret in H as (m & -> & _). cbn. by rewrite lookup_insert_eq.
Qed.

Lemma Execute_any binary args w : ∃ o, Execute binary args w =
  (o, set_fs (cr_fs (host_exec w (binary :: args) [])) (log (EExec (binary :: args) []) w)).
Proof using.
  unfold Execute, exec, exec_env, mbind, go_mbind, go_bind. cbn. destruct (cr_err _); by eexists.
Qed.

Lemma boot_reboots : marks_kept → preserves (once is_reboot rebootedPath) Bootstrap.
Proof using.
  intros (Hk & _). destruct (once_settings is_reboot rebootedPath) as (H1 & H2 & H3); try done.
  apply once_bootstrap; [done|done|by apply once_node_ip|done|by apply once_dni|by apply once_partition|
    by apply once_mount|].
  apply once_guard; [done|]. intros w o w' Hno H. apply bind_cases in H as [(u & w1 & Hc & H)|(o1 & Hc & Hne)].
  - apply wrap_ret, Create_marks in Hc as [Hm Ht]. right.
    destruct (Execute_any ApiclientBinary ["reboot"] w1) as (o1 & He).
    assert (w' = set_fs (cr_fs (host_exec w1 [ApiclientBinary; "reboot"] []))
      (log (EExec [ApiclientBinary; "reboot"] []) w1)) as ->.
    { unfold Reboot, apiclient, mbind, go_mbind, go_bind in H. rewrite He in H.
      destruct o1; cbv in H; by simplify_eq. }
    split; [|by apply Hk]. eexists. rewrite obs_set_fs, obs_log. unfold obs. rewrite Ht, omap_app. cbn.
    rewrite app_nil_r. reflexivity.
  - left. unfold wrap, recover, Create, attempt, store in Hc. destruct (host_fault w _).
    + injection Hc as _ <-. by rewrite obs_log, app_nil_r.
    + cbn [log w_fs] in Hc. rewrite Hno in Hc. injection Hc as <- _. by destruct (Hne tt).
Qed.

Lemma Execute_ok binary args w : no_failures →
  ∃ out, Execute binary args w = (Ret out, set_fs (cr_fs (host_exec w (binary :: args) [])) (log (EExec (binary :: args) []) w)).
Proof using.
  intros (_ & He & _). unfold Execute, exec, exec_env, mbind, go_mbind, go_bind. cbn. rewrite He. by eexists.
Qed.

Lemma Create_ok path w : no_failures → w_fs w !! path ≠ Some DirNode → ∃ w', Create path w = (Ret tt, w') ∧ is_Some (w_fs w' !! path) ∧
  w_trace w' = w_trace w ++ [ECreate path].
Proof using.
  intros [Hf _] Hd. unfold Create, attempt, store. rewrite Hf. cbn [log w_fs].
  destruct (w_fs w !! path) as [[c m|]|]; [|done|]; eexists; (split; [reflexivity|]); cbn; by rewrite lookup_insert_eq.
Qed.

(** A command behind a mark that is made after it. *)
Lemma once_then_mark {X} (f : event → option X) msg path binary args w o w' : no_failures →
  f (ECreate path) = None → path ∈ [partitionCreatedPath; nodeIPConfiguredPath] → w_fs w !! path = None →
  (_ ← (_ ← Execute binary args; mret tt); wrap msg (Create path)) w = (o, w') →
  ∃ l, obs f w' = obs f w ++ l ∧ l = option_list (f (EExec (binary :: args) [])) ∧ is_Some (w_fs w' !! path).
Proof using.
  intros Hn Hf Hp Hno. destruct (Execute_ok binary args w Hn) as [out He].
  set (w1 := set_fs _ _) in He.
  assert (w_fs w1 !! path ≠ Some DirNode) as Hd.
  { intros Hd. apply (proj2 (proj2 Hn)) in Hd; [|done]. by rewrite Hno in Hd. }
  destruct (Create_ok path w1 Hn Hd) as (w2 & Hc & Hm & Ht).
  rewrite (bind_step _ _ _ tt w1) by (by rewrite (bind_step _ _ _ _ _ He)).
  unfold wrap, recover. rewrite Hc. intros [= <- <-]. eexists. split; [|split; [reflexivity|done]].
  unfold obs. rewrite Ht, omap_app. cbn. rewrite Hf, app_nil_r, omap_app. cbn. by destruct (f _).
Qed.

Lemma boot_partitions : marks_kept → no_failures → preserves (once is_mkfs partitionCreatedPath) Bootstrap.
Proof using.
  intros (_ & Hk & _) Hn. destruct (once_settings is_mkfs partitionCreatedPath) as (H1 & H2 & H3); try done.
  apply once_bootstrap; [done|done|by apply once_node_ip|done|by apply once_dni| |by apply once_mount|by apply once_reboot].
  apply once_guard; [done|]. intros w o w' Hno H.
  apply (once_then_mark is_mkfs) in H as (l & E & -> & M); [|done|done|left|done].
  right. split; [rewrite E; by eexists|done].
Qed.

Lemma boot_node_ips : marks_kept → no_failures → preserves (once is_node_ip nodeIPConfiguredPath) Bootstrap.
Proof using.
  intros (_ & _ & Hk) Hn. destruct (once_settings is_node_ip nodeIPConfiguredPath) as (H1 & H2 & H3); try done.
  apply once_bootstrap; [done|done| |done|by apply once_dni|by apply once_partition|by apply once_mount|by apply once_reboot].
  unfold setNodeIP. apply preserves_bind; [apply _|by apply once_PathExists|]. intros [|]; cbn.
  2: { intros w o w' [= <- <-]. done. }
  apply once_guard; [done|]. intros w o w' Hno H. apply bind_cases in H as [(ip & w1 & Hip & H)|(o1 & Hip & _)].
  - assert (w_fs w1 = w_fs w) as Hw1.
    { pose proof Hip as Hfs. unfold currentIP in Hfs. same_fs_of Hfs. exact Hfs. }
    rewrite <-Hw1 in Hno.
    apply (once_then_mark is_node_ip) in H as (l & E & -> & M); [|done|done|right; left|exact Hno].
    unfold currentIP in Hip. apply wrap_ret in Hip. quiet_of is_node_ip Hip. right. split; [|done].
    rewrite E, Hip. eexists. reflexivity.
  - left. unfold currentIP in Hip. by quiet_of is_node_ip Hip.
Qed.
End boots.

(** C4: over any number of boots, each a run of [Bootstrap] to its end, with success or with
    an error wherever it may come, and with anything happening between them that keeps the
    marks, the instance is rebooted at most once: the mark is made
    before the reboot. The volume is formatted at most once and the node IP set at most
    once if nothing fails; their marks are made after the command, so a mark that cannot
    be made lets the next boot do it again. The node IP is not set before the reboot. *)
Theorem snow_boots `{HH : !Host} `{HL : !BRLib} `{HS : !SnowLib} w w' : marks_kept → boots w w' →
  (obs is_reboot w' = obs is_reboot w ∨ ∃ x, obs is_reboot w' = obs is_reboot w ++ [x]) ∧
  (no_failures →
    (obs is_mkfs w' = obs is_mkfs w ∨ ∃ x, obs is_mkfs w' = obs is_mkfs w ++ [x]) ∧
    (obs is_node_ip w' = obs is_node_ip w ∨ ∃ x, obs is_node_ip w' = obs is_node_ip w ++ [x])) ∧
  (host_fault w (EStat rebootedPath) = None → w_fs w !! rebootedPath = None →
    setNodeIP w = (Ret tt, log (EStat rebootedPath) w)).
Proof.
  intros Hk Hb. split_and!.
  - destruct (boots_once is_reboot rebootedPath w w') as [_ [|[]]]; [set_solver|by apply boot_reboots|done|by left|by right].
  - intros Hn. split.
    + destruct (boots_once is_mkfs partitionCreatedPath w w') as [_ [|[]]];
        [set_solver|by apply boot_partitions|done|by left|by right].
    + destruct (boots_once is_node_ip nodeIPConfiguredPath w w') as [_ [|[]]];
        [set_solver|by apply boot_node_ips|done|by left|by right].
  - intros Hf Hm. unfold setNodeIP. by rewrite (bind_step _ _ _ _ _ (PathExists_missing _ _ Hf Hm)).
Qed.

(** Two boots: the first reboots, the second sets the node IP. *)
Definition snow_start : World :=
  mkWorld {[ "/.bottlerocket/bootstrap-containers/current/user-data" := File "dniCount: 2" 420;
             "/.bottlerocket/rootfs/var/lib/netdog/current_ip" := File "10.0.0.7" 420 ]} ∅ [].

Lemma snow_boots_witness :
  ∃ w', boots (HH := plain_host) (HL := snow_brlib) (HS := sample_snow) snow_start w' ∧
    obs is_reboot w' = [[ApiclientBinary; "reboot"]] ∧
    obs is_node_ip w' = [[ApiclientBinary; "set"; "kubernetes.node-ip=10.0.0.7"]] ∧
    ((obs is_reboot w' = obs is_reboot snow_start ∨ ∃ x, obs is_reboot w' = obs is_reboot snow_start ++ [x])).
Proof.
  set (w1 := (Bootstrap (HH := plain_host) (HL := snow_brlib) (HS := sample_snow) snow_start).2).
  set (w2 := (Bootstrap (HH := plain_host) (HL := snow_brlib) (HS := sample_snow) w1).2).
  assert (boots (HH := plain_host) (HL := snow_brlib) (HS := sample_snow) snow_start w2) as Hb.
  { apply (Boot snow_start (Exit 0) w1 w1 w2); [vm_compute; reflexivity| |].
    - split; [reflexivity|]. apply Forall_forall. intros ? _ ?. assumption.
    - apply (Boot w1 (Exit 0) w2 w2 w2); [vm_compute; reflexivity| |apply BootsNone].
      split; [reflexivity|]. apply Forall_forall. intros ? _ ?. assumption. }
  exists w2. split; [exact Hb|]. split; [vm_compute; reflexivity|]. split; [vm_compute; reflexivity|].
  refine (proj1 (snow_boots (HH := plain_host) (HL := snow_brlib) (HS := sample_snow) snow_start w2 _ Hb)).
  split_and!; intros ????; assumption.
Defined.
