(* ===== verification/BRBootstrap.v ===== *)
(** * bottlerocket-bootstrap: the program

    [main.go] and [pkg/bootstrap.go]: the prerequisites, the lock, the choice of the
    bootstrapper and how the process ends. *)
From S2P Require Import Prelude GoStrings World BRUtils BRWaiters BREtcdadm BRKubeadm.
From stdpp Require Import base tactics strings list gmap.

Local Open Scope string_scope.
Local Open Scope list_scope.

(** ** The interface of a bootstrapper *)
Record bootstrapper := mkBootstrapper {
  InitializeDirectories : prog unit;
  RunCmd : prog unit;
}.

Section bootstrap.
Context `{HH : !Host} `{HL : !BRLib}.

Definition marker : string := "/.bottlerocket/host-containers/" +:+ BootstrapContainerName +:+ "/.ran".

(** When the marker exists the function only sleeps, for a tenth of a millisecond. *)
Definition acquireLock : prog unit :=
  st ← Stat marker;
  match st with
  | StatOk _ => _ ← ignore_err DisableBootstrapContainer; Sleep 100000
  | _ => ignore_err (Create marker)
  end.

Definition waitForPreReqs : prog unit :=
  _ ← wrap "Error waiting for multi-user.target" (WaitForSystemdService "multi-user.target" (5 * Minute));
  wrap "Error waiting for kubelet" (WaitForSystemdService "kubelet.service" (30 * Second)).

Definition buildBootstrapper (LogVerbosity : string) (userData : UserData) : bootstrapper :=
  if HasPrefix (BRUtils.RunCmd userData) CmdPrefix
  then mkBootstrapper BREtcdadm.InitializeDirectories (BREtcdadm.RunCmd userData)
  else mkBootstrapper BRKubeadm.InitializeDirectories (BRKubeadm.RunCmd LogVerbosity userData).

(** [fmt.Printf(...); os.Exit(1)] *)
Definition exit_on_err {A} (m : prog A) : prog A := fatal_on_err m.

Definition Bootstrap (LogVerbosity : string) : prog unit :=
  _ ← exit_on_err waitForPreReqs;
  _ ← acquireLock;
  userData ← exit_on_err ResolveHostContainerUserData;
  let b := buildBootstrapper LogVerbosity userData in
  _ ← exit_on_err (InitializeDirectories b);
  _ ← exit_on_err (WriteUserDataFiles userData);
  _ ← exit_on_err (RunCmd b);
  _ ← exit_on_err DisableBootstrapContainer;
  exit 0.

(** The flags are defined but never parsed: the verbosity is the default. *)
Definition main : prog unit := Bootstrap ("-v" +:+ "9").
End bootstrap.

(** ** How the process ends *)

(** The runtime errors of Go the program can end in. *)
Definition go_panics : list string :=
  ["invalid memory address or nil pointer dereference"; "interface conversion"; "index out of range"].

(** A program that ends the process only with status 1 or with one of these. *)
Definition fine {A} (o : outcome A) : Prop :=
  match o with Exit c => c = 1%Z | Panic p => p ∈ go_panics | _ => True end.
Definition tame {A} (m : prog A) : Prop := ∀ w, fine (m w).1.

Section tame.
Context {A B : Type}.

Lemma tame_ret (a : A) : tame (mret a).
Proof. by intros w. Qed.
Lemma tame_fail e : tame (A := A) (fail e).
Proof. by intros w. Qed.
Lemma tame_conversion : tame (A := A) (panic "interface conversion").
Proof. intros w. right. left. Qed.
Lemma tame_exit : tame (A := A) (exit 1).
Proof. by intros w. Qed.
Lemma tame_get : tame get.
Proof. by intros w. Qed.
Lemma tame_modify f : tame (modify f).
Proof. by intros w. Qed.

Lemma tame_bind (m : prog A) (k : A → prog B) : tame m → (∀ a, tame (k a)) → tame (m ≫= k).
Proof.
  intros Hm Hk w. specialize (Hm w). unfold mbind, go_mbind, go_bind.
  destruct (m w) as [[a|e|p|d] w1]; [apply Hk|done..].
Qed.

Lemma tame_recover (m : prog A) h : tame m → (∀ e, tame (h e)) → tame (recover m h).
Proof.
  intros Hm Hh w. specialize (Hm w). unfold recover. destruct (m w) as [[a|e|p|d] w1]; [done|apply Hh|done..].
Qed.

Lemma tame_wrap msg (m : prog A) : tame m → tame (wrap msg m).
Proof. intros Hm. apply tame_recover; [done|]. intros; apply tame_fail. Qed.

Lemma tame_deref (p : option A) : tame (deref p).
Proof. destruct p; [by intros w|]. intros w. left. Qed.

Lemma tame_forM (l : list A) body : (∀ x, tame (body x)) → tame (forM l body).
Proof. intros Hb. induction l as [|x l IH]; [by intros w|]. intros w. cbn [forM]. revert w. unfold tame in *.
  intros w. specialize (Hb x w). unfold mbind, go_mbind, go_bind. destruct (body x w) as [[a|e|p|d] w1]; [apply IH|done..].
Qed.

Lemma tame_foldM (l : list A) (s : B) body : (∀ s x, tame (body s x)) → tame (foldM l s body).
Proof.
  intros Hb. revert s. induction l as [|x l IH]; intros s w; [done|]. cbn [foldM].
  specialize (Hb s x w). unfold mbind, go_mbind, go_bind. destruct (body s x w) as [[a|e|p|d] w1]; [apply IH|done..].
Qed.

Context `{HH : !Host}.

Lemma tame_attempt e (k : prog A) : tame k → tame (attempt e k).
Proof. intros Hk w. unfold attempt. destruct (host_fault w e); [done|]. apply Hk. Qed.
End tame.

Section operations.
Context `{HH : !Host}.

Lemma tame_ReadFile p : tame (ReadFile p).
Proof. apply tame_attempt. intros w. by destruct (w_fs w !! p) as [[]|]. Qed.
Lemma tame_store p t m : tame (store p t m).
Proof. intros w. unfold store. by destruct (w_fs w !! p) as [[]|]. Qed.
Lemma tame_WriteFile p t m : tame (WriteFile p t m).
Proof.
  intros w. unfold WriteFile. destruct (host_fault w _); [by destruct (host_torn w _)|]. apply tame_store.
Qed.
Lemma tame_MkdirAll p : tame (MkdirAll p).
Proof. apply tame_attempt, tame_modify. Qed.
Lemma tame_ReadDir p : tame (ReadDir p).
Proof. by apply tame_attempt. Qed.
Lemma tame_Chown p u g : tame (Chown p u g).
Proof. by apply tame_attempt. Qed.
Lemma tame_Start p : tame (Start p).
Proof. by apply tame_attempt. Qed.
Lemma tame_Hostname : tame Hostname.
Proof. unfold Hostname. intros w. by destruct host_hostname. Qed.
Lemma tame_Stat p : tame (Stat p).
Proof. intros w. unfold Stat. destruct (host_fault w _); [done|]. by destruct (w_fs _ !! p). Qed.
Lemma tame_Now : tame Now.
Proof. by intros w. Qed.
Lemma tame_exec env argv : tame (exec_env env argv).
Proof. by intros w. Qed.
End operations.

Create HintDb exits.
#[export] Hint Resolve tame_ret tame_fail tame_conversion tame_exit tame_get tame_modify
  tame_deref tame_ReadFile tame_WriteFile tame_MkdirAll tame_ReadDir tame_Chown tame_Start
  tame_Hostname tame_Stat tame_Now tame_exec : exits.

(** [exits_solve] walks through a program. *)
Ltac exits_step :=
  match goal with
  | |- tame (_ ≫= _) => apply tame_bind; [|intros ?]
  | |- tame (if ?b then _ else _) => destruct b
  | |- tame (match ?x with _ => _ end) => destruct x
  | |- tame (recover _ _) => apply tame_recover; [|intros ?]
  | |- tame (wrap _ _) => apply tame_wrap
  | |- tame (when ?b _) => destruct b; cbn [when]
  | |- tame (forM _ _) => apply tame_forM; intros ?
  | |- tame (foldM _ _ _) => apply tame_foldM; intros ? ?
  | |- tame (let _ := _ in _) => cbv zeta
  | |- tame _ => solve [auto with exits]
  end.
Ltac exits_solve := repeat exits_step.

Section steps.
Context `{HH : !Host} `{HC : !ClockLaws} `{HL : !BRLib} (v : string).

Lemma tame_run argv : tame (run argv).
Proof. unfold run, exec. exits_solve. Qed.
#[local] Hint Resolve tame_run : exits.

Lemma tame_wait_unit service timeout ms : tame (wait_unit service timeout ms).
Proof.
  unfold Sleep. induction ms as [|[gap m] ms IH]; cbn [wait_unit]; unfold Sleep;
    repeat first [apply IH|exits_step].
Qed.

Lemma tame_WaitForSystemdService service timeout : tame (WaitForSystemdService service timeout).
Proof. unfold WaitForSystemdService. repeat first [apply tame_wait_unit|exits_step]. Qed.

Lemma tame_WaitFor200 url timeout : tame (WaitFor200 url timeout).
Proof using HC.
  intros w. destruct (WaitFor200_ends url timeout w) as (n & o & w' & -> & _ & _ & Ho). by destruct o.
Qed.

Lemma tame_WaitForPods pods : tame (WaitForPods pods).
Proof.
  unfold WaitForPods, waitForPodLiveness, wait_container. repeat first [apply tame_WaitFor200|exits_step].
Qed.

Lemma tame_KillCmd cmd files : tame (KillCmdAfterFilesGeneration cmd files).
Proof using HC.
  intros w. destruct (KillCmd_ends cmd files w) as (o & w' & -> & _ & _ & Ho). by destruct o.
Qed.

Lemma tame_EnableStaticPods path : tame (EnableStaticPods path).
Proof. unfold EnableStaticPods, enable_static_pod, UnmarshalPodDefinition. exits_solve. Qed.
#[local] Hint Resolve tame_WaitForSystemdService tame_WaitFor200 tame_WaitForPods tame_KillCmd
  tame_EnableStaticPods : exits.

Lemma tame_etcdadm u : tame (BREtcdadm.RunCmd u).
Proof.
  unfold BREtcdadm.RunCmd, parseCmd, command_run, init_run, join_run, start_static_pods, runPhases. exits_solve.
Qed.

Lemma tame_kubeadm u : tame (BRKubeadm.RunCmd v u).
Proof.
  unfold BRKubeadm.RunCmd, controlPlaneInit, controlPlaneJoin, workerJoin, prepare_init, kubeadm_version,
    compare_with, configure_init, finish_init, run_kubeadm, run_apiclient, migrate_static_pods, wait_api_server,
    getLocalApiServerReadinessEndpoint, UnmarshalPodDefinition, setHostName, files_Write, startEbsInit, check_ebs,
    checkEbsInit, Sleep, GetApiServerFromKubeConfig, returning, getEncodedCA, getBootstrapToken, readKubeletTlsConfig,
    readAndEncodeFile, getDNS, patchKubeVipManifest, waitForActiveKubelet, waitForKubelet, start_kubelet,
    killCmdAfterJoinFilesGeneration, configure_join, getDNSFromJoinConfig, getBootstrapFromJoinConfig,
    unmarshalIntoMap, as_map, as_string, isClusterWithExternalEtcd, getClusterConfigurationFromCluster,
    isExternalEtcd, joinLocalEtcd.
  exits_solve.
  all: unfold Sleep, compare_with, getEncodedCA, readKubeletTlsConfig, readAndEncodeFile, run_apiclient,
    unmarshalIntoMap, as_map; exits_solve.
Qed.

Lemma tame_user_data : tame ResolveHostContainerUserData.
Proof.
  unfold ResolveHostContainerUserData, buildUserData, processUserData, processAWSSecretsManagerUserData,
    loadUserDataFromSecretsManager, load_chunks, decode_user_data, GetSecretValue, DeleteSecret,
    NewSecretsManagerService, Call. exits_solve.
Qed.
End steps.

(** ** The process *)

(** The command that disables the container, among those that are run. *)
Definition disable_command : list string :=
  [ApiclientBinary; "set"; "host-containers." +:+ BootstrapContainerName +:+ ".enabled=false"].

Definition as_disable (e : event) : option unit :=
  match e with
  | EExec (binary :: args) _ =>
      if binary =s ApiclientBinary then
        match args with
        | set :: setting :: _ =>
            if setting =s "host-containers." +:+ BootstrapContainerName +:+ ".enabled=false" then Some tt else None
        | _ => None
        end
      else None
  | _ => None
  end.

Section process.
Context `{HH : !Host} `{HL : !BRLib} (v : string).

(** The steps before the container is disabled at the end, with their errors as results. *)
Definition work : prog unit :=
  _ ← waitForPreReqs;
  _ ← acquireLock;
  userData ← ResolveHostContainerUserData;
  _ ← InitializeDirectories (buildBootstrapper v userData);
  _ ← WriteUserDataFiles userData;
  RunCmd (buildBootstrapper v userData).

Lemma acquireLock_ret w : ∃ w', acquireLock w = (Ret tt, w') ∧
  (w_fs w !! marker = None ∨ is_Some (host_fault w (EStat marker)) → obs as_disable w' = obs as_disable w).
Proof.
  assert (∀ w, ∃ w', ignore_err (Create marker) w = (Ret tt, w') ∧ obs as_disable w' = obs as_disable w) as Hcreate.
  { intros w0. destruct (ignore_err (Create marker) w0) as [o w'] eqn:E. exists w'.
    split; [|by quiet_of as_disable E]. revert E. unfold ignore_err, recover, Create, attempt, store, mbind, go_mbind, go_bind.
    destruct (host_fault w0 _); [by intros [= <- <-]|]. destruct (w_fs (log _ w0) !! marker) as [[]|]; by intros [= <- <-]. }
  assert (obs as_disable (log (EStat marker) w) = obs as_disable w) as Hlog by (rewrite obs_log; apply app_nil_r).
  unfold acquireLock, Stat, mbind, go_mbind, go_bind. cbn. destruct (host_fault w (EStat marker)) as [e|].
  - destruct (Hcreate (log (EStat marker) w)) as (w' & E & H). exists w'. by rewrite H.
  - destruct (w_fs w !! marker) as [n|].
    + unfold ignore_err, recover, DisableBootstrapContainer, run, exec, exec_env, wrap, recover, mbind, go_mbind, go_bind.
      cbn. destruct (cr_err _); eexists; (split; [done|]); by intros [?|[? ?]].
    + destruct (Hcreate (log (EStat marker) w)) as (w' & E & H). exists w'. by rewrite H.
Qed.

(** What the steps run other than the lock never disables the container. *)
Lemma quiet_etcdadm u : preserves (quiet as_disable) (BREtcdadm.RunCmd u).
Proof.
  unfold BREtcdadm.RunCmd, parseCmd, command_run, init_run, join_run, start_static_pods, runPhases, EnableStaticPods,
    enable_static_pod, UnmarshalPodDefinition. quiet_solve.
Qed.

Lemma quiet_migrate_disable : preserves (quiet as_disable) migrate_static_pods.
Proof. unfold migrate_static_pods, EnableStaticPods, enable_static_pod, UnmarshalPodDefinition. quiet_solve. Qed.

Lemma quiet_run_kubeadm args : preserves (quiet as_disable) (run_kubeadm v args).
Proof. unfold run_kubeadm. quiet_solve. Qed.
#[local] Hint Resolve quiet_migrate_disable quiet_run_kubeadm : go.

Lemma quiet_init : preserves (quiet as_disable) (controlPlaneInit v).
Proof.
  unfold controlPlaneInit, prepare_init, kubeadm_version, compare_with, configure_init, getBootstrapToken,
    finish_init, getDNS, compare_with, run_apiclient. quiet_solve.
Qed.

Lemma quiet_joins : preserves (quiet as_disable) (controlPlaneJoin v) ∧ preserves (quiet as_disable) (workerJoin v).
Proof.
  split; unfold controlPlaneJoin, workerJoin, start_kubelet, killCmdAfterJoinFilesGeneration, configure_join,
    getDNSFromJoinConfig, joinLocalEtcd, isClusterWithExternalEtcd, getClusterConfigurationFromCluster, isExternalEtcd,
    unmarshalIntoMap, as_map, run_apiclient; quiet_solve.
Qed.

Lemma quiet_bootstrapper u : preserves (quiet as_disable) (InitializeDirectories (buildBootstrapper v u)) ∧
  preserves (quiet as_disable) (RunCmd (buildBootstrapper v u)).
Proof.
  pose proof quiet_etcdadm. pose proof quiet_init. destruct quiet_joins.
  unfold buildBootstrapper. destruct (HasPrefix _ _); cbn [InitializeDirectories RunCmd].
  - split; [|done]. unfold BREtcdadm.InitializeDirectories, CreateSymLink. quiet_solve.
  - split; [unfold BRKubeadm.InitializeDirectories; quiet_solve|]. unfold BRKubeadm.RunCmd. cbv zeta. quiet_solve.
Qed.

Lemma quiet_user_data : preserves (quiet as_disable) ResolveHostContainerUserData.
Proof.
  unfold ResolveHostContainerUserData, buildUserData, processUserData, processAWSSecretsManagerUserData,
    loadUserDataFromSecretsManager, load_chunks, decode_user_data, GetSecretValue, DeleteSecret,
    NewSecretsManagerService, Call. quiet_solve.
Qed.

Lemma work_disables w w1 o w2 : waitForPreReqs w = (Ret tt, w1) →
  w_fs w1 !! marker = None ∨ is_Some (host_fault w1 (EStat marker)) → work w = (o, w2) →
  obs as_disable w2 = obs as_disable w.
Proof.
  intros Hw Hm H. unfold work in H. rewrite (bind_step _ _ _ _ _ Hw) in H. unfold waitForPreReqs in Hw. quiet_of as_disable Hw.
  destruct (acquireLock_ret w1) as (wl & Hl & Hq). rewrite (bind_step _ _ _ _ _ Hl) in H. specialize (Hq Hm).
  rewrite <-Hw, <-Hq. revert H. apply (by_preserves (quiet as_disable)).
  apply preserves_bind; [apply _|apply quiet_user_data|]. intros u. destruct (quiet_bootstrapper u).
  unfold WriteUserDataFiles, write_user_file, files_Write. quiet_solve.
Qed.

Lemma tame_acquireLock : tame acquireLock.
Proof. intros w. by destruct (acquireLock_ret w) as (w' & -> & _). Qed.

Lemma tame_work `{HC : !ClockLaws} : tame work.
Proof.
  pose proof tame_acquireLock. pose proof tame_user_data. unfold work. apply tame_bind.
  { unfold waitForPreReqs. repeat first [apply tame_WaitForSystemdService|exits_step]. }
  intros _. apply tame_bind; [done|]. intros _. apply tame_bind; [done|]. intros u. apply tame_bind.
  { unfold buildBootstrapper. destruct (HasPrefix _ _); cbn [InitializeDirectories];
      unfold BREtcdadm.InitializeDirectories, BRKubeadm.InitializeDirectories, CreateSymLink;
      repeat first [apply tame_run|exits_step]. }
  intros _. apply tame_bind; [unfold WriteUserDataFiles, write_user_file, files_Write; exits_solve|]. intros _.
  unfold buildBootstrapper. destruct (HasPrefix _ _); [apply tame_etcdadm|by apply tame_kubeadm].
Qed.

(** The end of the process after the steps. *)
Definition finish (r : outcome unit * World) : outcome unit * World :=
  match r with
  | (Ret _, w) => (_ ← exit_on_err DisableBootstrapContainer; exit 0) w
  | (Err _, w) => (Exit 1, w)
  | r => r
  end.

(** One step after another, with its error as the status or as a result. *)
Lemma exit_on_err_bind {A} (m : prog A) (k k1 : A → prog unit) w :
  (∀ a w, k a w = finish (k1 a w)) → (exit_on_err m ≫= k) w = finish ((m ≫= k1) w).
Proof.
  intros Hk. unfold exit_on_err, fatal_on_err, recover, mbind, go_mbind, go_bind.
  destruct (m w) as [[a|e|p|c] w1]; [apply Hk|done..].
Qed.

Lemma exit_on_err_last (m : prog unit) w :
  (exit_on_err m ≫= λ _, _ ← exit_on_err DisableBootstrapContainer; exit 0) w = finish (m w).
Proof.
  rewrite (exit_on_err_bind _ _ mret) by done. f_equal. unfold mbind, go_mbind, go_bind. by destruct (m w) as [[] ?].
Qed.

Lemma Bootstrap_finish w : Bootstrap v w = finish (work w).
Proof.
  unfold Bootstrap, work. apply exit_on_err_bind. intros [] w1. destruct (acquireLock_ret w1) as (w2 & H2 & _).
  rewrite !(bind_step _ _ _ _ _ H2). cbv zeta. apply exit_on_err_bind. intros u w3. apply exit_on_err_bind. intros [] w4.
  apply exit_on_err_bind. intros [] w5. apply exit_on_err_last.
Qed.

Lemma disable_ends w : ∃ w', (_ ← exit_on_err DisableBootstrapContainer; exit 0) w =
    ((match cr_err (host_exec w disable_command []) with None => Exit 0 | Some _ => Exit 1 end : outcome unit), w') ∧
  execs w' = execs w ++ [disable_command].
Proof.
  unfold DisableBootstrapContainer, run, exec, exec_env, exit_on_err, fatal_on_err, wrap, recover, exit, mbind, go_mbind, go_bind.
  fold disable_command. cbn. destruct (cr_err (host_exec w disable_command [])); cbn; eexists; (split; [done|]);
    unfold execs; by rewrite obs_set_fs, obs_log.
Qed.
End process.


