(* ===== verification/VTTypes.v ===== *)
(** * version-tracker: data, constants and package slices

    [pkg/types/types.go], [pkg/constants/constants.go] and [pkg/util/slices/slices.go]: the
    projects of the upstream tracker file, the tables that say where a project's Go version
    comes from, the texts of pull requests and comments. [Sprintf1] is [fmt.Sprintf] with one
    string argument. *)
From S2P Require Import Prelude GoStrings.
From stdpp Require Import base tactics strings list.
From Stdlib Require Import Ascii.

Local Open Scope string_scope.
Local Open Scope list_scope.

(** ** pkg/types *)
Record DisplayOptions := mkDisplayOptions { d_ProjectName : string; PrintLatestVersion : bool }.
Record UpgradeOptions := mkUpgradeOptions { u_ProjectName : string; DryRun : bool }.

Record Version := mkVersion { Tag : string; Commit : string; GoVersion : string }.
Record Repo := mkRepo { r_Name : string; Versions : list Version }.
Record Project := mkProject { Org : string; Repos : list Repo }.
Abbreviation ProjectsList := (list Project).

Record ProjectVersionInfo := mkInfo {
  i_Org : string; i_Repo : string; CurrentVersion : string; LatestVersion : string }.

Record ReleaseTarball := mkTarball {
  AssetName : string; BinaryName : string; Extract : bool;
  OverrideAssetURL : string; TrimLeadingVersionPrefix : bool }.

Record GoVersionSourceOfTruth := mkSource { SourceOfTruthFile : string; GoVersionSearchString : string }.

Record ImageMetadata := mkImageMetadata { m_Tag : string; ImageDigest : string }.

(** [Dev] is a pointer. *)
Record EKSDistroRelease := mkEKSDistroRelease {
  Branch : string; KubeVersion : string; Number : Z; Dev : option bool }.
Record EKSDistroLatestReleases := mkEKSDistroLatestReleases {
  Releases : list EKSDistroRelease; Latest : string }.

#[export] Instance version_eq_dec : EqDecision Version.
Proof. solve_decision. Defined.
#[export] Instance repo_eq_dec : EqDecision Repo.
Proof. solve_decision. Defined.
#[export] Instance project_eq_dec : EqDecision Project.
Proof. solve_decision. Defined.
#[export] Instance eksd_release_eq_dec : EqDecision EKSDistroRelease.
Proof. solve_decision. Defined.

(** ** pkg/util/slices *)
Fixpoint slices_Contains (s : list string) (str : string) : bool :=
  match s with
  | [] => false
  | elem :: s => (elem =s str) || slices_Contains s str
  end.

Definition IsSubset (s1 s2 : list string) : bool :=
  if bool_decide (length s2 < length s1)%nat then false
  else forallb (slices_Contains s2) s1.

Lemma slices_Contains_spec s str : slices_Contains s str = true ↔ str ∈ s.
Proof.
  induction s as [|x s IH]; cbn [slices_Contains]; [split; [done|by intros ?%not_elem_of_nil]|].
  rewrite orb_true_iff, streq_true, IH, elem_of_cons. naive_solver.
Qed.

(** ** [fmt.Sprintf] with one string: the first verb takes it, the others are short of one *)
Definition Sprintf1 (format arg : string) : string :=
  match Split format "%s" with
  | a :: b :: rest => a +:+ arg +:+ StrJoin (b :: rest) "%!s(MISSING)"
  | [a] => a +:+ "%!(EXTRA string=" +:+ arg +:+ ")"
  | [] => ""
  end.

Example sprintf_ex : (Sprintf1 "a-%s.tar" "v1", Sprintf1 "a" "v1") = ("a-v1.tar", "a%!(EXTRA string=v1)").
Proof. vm_compute. reflexivity. Qed.

(** ** pkg/constants *)
Definition q1 : string := String (ascii_of_nat 34) "".
Definition BaseRepoOwnerEnvvar : string := "BASE_REPO_OWNER".
Definition HeadRepoOwnerEnvvar : string := "HEAD_REPO_OWNER".
Definition GitHubTokenEnvvar : string := "GITHUB_TOKEN".
Definition CommitAuthorNameEnvvar : string := "COMMIT_AUTHOR_NAME".
Definition CommitAuthorEmailEnvvar : string := "COMMIT_AUTHOR_EMAIL".
Definition DefaultCommitAuthorName : string := "EKS Distro PR Bot".
Definition DefaultCommitAuthorEmail : string := "aws-model-rocket-bots+eksdistroprbot@amazon.com".
Definition BuildToolingRepoName : string := "eks-anywhere-build-tooling".
Definition DefaultBaseRepoOwner : string := "aws".
Definition BuildToolingRepoURL : string := "https://github.com/%s/eks-anywhere-build-tooling".
Definition ReadmeFile : string := "README.md".
Definition ReadmeUpdateScriptFile : string := "build/lib/readme_check.sh".
Definition LicenseBoilerplateFile : string := "hack/boilerplate.yq.txt".
Definition EKSDistroLatestReleasesFile : string := "EKSD_LATEST_RELEASES".
Definition EKSDistroProdReleaseNumberFileFormat : string := "release/%s/production/RELEASE".
Definition KubernetesGitTagFileFormat : string := "projects/kubernetes/kubernetes/%s/GIT_TAG".
Definition SkippedProjectsFile : string := "SKIPPED_PROJECTS".
Definition UpstreamProjectsTrackerFile : string := "UPSTREAM_PROJECTS.yaml".
Definition SupportedReleaseBranchesFile : string := "release/SUPPORTED_RELEASE_BRANCHES".
Definition GitTagFile : string := "GIT_TAG".
Definition GoVersionFile : string := "GOLANG_VERSION".
Definition ChecksumsFile : string := "CHECKSUMS".
Definition AttributionsFilePattern : string := "*ATTRIBUTION.txt".
Definition PatchesDirectory : string := "patches".
Definition FailedPatchApplyMarker : string := "patch does not apply".
Definition FailedPatchApplyRegex : string := "Patch failed at .*".
Definition FailedPatchFilesRegex : string := "error: (.*): patch does not apply".
Definition BottlerocketReleasesFile : string := "BOTTLEROCKET_RELEASES".
Definition BottlerocketContainerMetadataFileFormat : string := "BOTTLEROCKET_%s_CONTAINER_METADATA".
Definition BottlerocketHostContainersTOMLFile : string := "sources/models/shared-defaults/public-host-containers.toml".
Definition CiliumImageRepository : string := "public.ecr.aws/isovalent/cilium".
Definition GithubPerPage : Z := 100.
Definition MainBranchName : string := "main".
Definition BaseRepoHeadRevision : string := "refs/remotes/origin/main".

(** The texts of pull requests, with the arguments of their [fmt.Sprintf]. *)
Definition EKSDistroUpgradePullRequestBody : string := "This PR bumps EKS Distro releases to the latest available release versions.

/hold
/area dependencies

By submitting this pull request, I confirm that you can use, modify, copy, and redistribute this contribution, under the terms of your choice.".

Definition DefaultUpgradePullRequestBody (org repo current latest : string) : string :=
  "This PR bumps " +:+ org +:+ "/" +:+ repo +:+ " to the latest Git revision.

[Compare changes](https://github.com/" +:+ org +:+ "/" +:+ repo +:+ "/compare/" +:+ current +:+ "..." +:+ latest +:+ ")
[Release notes](https://github.com/" +:+ org +:+ "/" +:+ repo +:+ "/releases/" +:+ latest +:+ ")

/hold
/area dependencies

By submitting this pull request, I confirm that you can use, modify, copy, and redistribute this contribution, under the terms of your choice.".

Definition BottlerocketUpgradePullRequestBody (current latest : string) : string :=
  "This PR bumps Bottlerocket releases to the latest Git revision.

[Compare changes](https://github.com/bottlerocket-os/bottlerocket/compare/" +:+ current +:+ "..." +:+ latest +:+ ")
[Release notes](https://github.com/bottlerocket-os/bottlerocket/releases/" +:+ latest +:+ ")

/hold
/area dependencies

By submitting this pull request, I confirm that you can use, modify, copy, and redistribute this contribution, under the terms of your choice.".

Definition CombinedPullRequestBody (current latest currentBR latestBR : string) : string :=
  "This PR bumps kubernetes-sigs/image-builder and Bottlerocket releases to the latest Git revision.

[Compare changes for image-builder](https://github.com/kubernetes-sigs/image-builder/compare/" +:+ current +:+ "..." +:+ latest +:+ ")
[Release notes for image-builder](https://github.com/kubernetes-sigs/image-builder/releases/" +:+ latest +:+ ")

[Compare changes for Bottlerocket](https://github.com/bottlerocket-os/bottlerocket/compare/" +:+ currentBR +:+ "..." +:+ latestBR +:+ ")
[Release notes for Bottlerocket](https://github.com/bottlerocket-os/bottlerocket/releases/" +:+ latestBR +:+ ")

/hold
/area dependencies

By submitting this pull request, I confirm that you can use, modify, copy, and redistribute this contribution, under the terms of your choice.".

Definition PatchesCommentBody (applied total : Z) (failedPatch failedFiles : string) : string :=
  "# This pull request is incomplete!
## Failed patch details
**Only " +:+ Itoa applied +:+ "/" +:+ Itoa total +:+ " patches were applied!**
" +:+ failedPatch +:+ "
The following files in the above patch did not apply successfully:
" +:+ failedFiles +:+ "

The project being upgraded in this pull request needs changes to patches that cannot be handled automatically. A developer will need to regenerate the patches locally and update the pull request. In addition to patches, the checksums and attribution file(s) corresponding to the project will need to be updated.".

(** The same text before any argument is put in. *)
Definition PatchesCommentFormat : string := "# This pull request is incomplete!
## Failed patch details
**Only %d/%d patches were applied!**
%s
The following files in the above patch did not apply successfully:
%s

The project being upgraded in this pull request needs changes to patches that cannot be handled automatically. A developer will need to regenerate the patches locally and update the pull request. In addition to patches, the checksums and attribution file(s) corresponding to the project will need to be updated.".

Definition ProjectReleaseAssets : list (string * ReleaseTarball) := [
  ("apache/cloudstack-cloudmonkey", mkTarball "cmk.linux.x86-64" "cmk.linux.x86-64" false "" false);
  ("aquasecurity/harbor-scanner-trivy", mkTarball "harbor-scanner-trivy_%s_Linux_x86_64.tar.gz" "scanner-trivy" true "" true);
  ("aquasecurity/trivy", mkTarball "trivy_%s_Linux-64bit.tar.gz" "trivy" true "" true);
  ("aws/rolesanywhere-credential-helper", mkTarball "aws_signing_helper" "aws_signing_helper" false "https://rolesanywhere.amazonaws.com/releases/%s/X86_64/Linux/aws_signing_helper" true);
  ("cert-manager/cert-manager", mkTarball "cmctl-linux-amd64.tar.gz" "cmctl" true "" false);
  ("containerd/containerd", mkTarball "containerd-%s-linux-amd64.tar.gz" "bin/containerd" true "" true);
  ("distribution/distribution", mkTarball "registry_%s_linux_amd64.tar.gz" "registry" true "" true);
  ("fluxcd/flux2", mkTarball "flux_%s_linux_amd64.tar.gz" "flux" true "" true);
  ("helm/helm", mkTarball "helm-%s-linux-amd64.tar.gz" "linux-amd64/helm" true "https://get.helm.sh/helm-%s-linux-amd64.tar.gz" false);
  ("kubernetes-sigs/cluster-api", mkTarball "clusterctl-linux-amd64" "clusterctl-linux-amd64" false "" false);
  ("kubernetes-sigs/cri-tools", mkTarball "crictl-%s-linux-amd64.tar.gz" "crictl" true "" false);
  ("kubernetes-sigs/kind", mkTarball "kind-linux-amd64" "kind-linux-amd64" false "" false);
  ("opencontainers/runc", mkTarball "runc.amd64" "runc.amd64" false "" false);
  ("prometheus/prometheus", mkTarball "prometheus-%s.linux-amd64.tar.gz" "prometheus-%s.linux-amd64/prometheus" true "" true);
  ("prometheus/node_exporter", mkTarball "node_exporter-%s.linux-amd64.tar.gz" "node_exporter-%s.linux-amd64/node_exporter" true "" true);
  ("rancher/local-path-provisioner", mkTarball "local-path-provisioner-amd64" "local-path-provisioner-amd64" false "" false);
  ("replicatedhq/troubleshoot", mkTarball "support-bundle_linux_amd64.tar.gz" "support-bundle" true "" false);
  ("vmware/govmomi", mkTarball "govc_Linux_x86_64.tar.gz" "govc" true "" false)].

Definition ProjectGoVersionSourceOfTruth : list (string * GoVersionSourceOfTruth) := [
  ("aws/etcdadm-bootstrap-provider", mkSource "go.mod" "go (1\.\d\d)");
  ("aws/etcdadm-controller", mkSource "go.mod" "go (1\.\d\d)");
  ("brancz/kube-rbac-proxy", mkSource ".github/workflows/build.yml" "go-version: '(1\.\d\d)\.\d+'");
  ("emissary-ingress/emissary", mkSource "go.mod" "go (1\.\d\d)");
  ("goharbor/harbor", mkSource "Makefile" "GOBUILDIMAGE=golang:(1\.\d\d)");
  ("fluxcd/helm-controller", mkSource "Dockerfile" "ARG GO_VERSION=(1\.\d\d)");
  ("fluxcd/kustomize-controller", mkSource "Dockerfile" "ARG GO_VERSION=(1\.\d\d)");
  ("fluxcd/notification-controller", mkSource "Dockerfile" "ARG GO_VERSION=(1\.\d\d)");
  ("fluxcd/source-controller", mkSource "Dockerfile" "ARG GO_VERSION=(1\.\d\d)");
  ("kube-vip/kube-vip", mkSource "Dockerfile" "golang:(1\.\d\d)");
  ("kubernetes-sigs/cluster-api-provider-cloudstack", mkSource "go.mod" "go (1\.\d\d)");
  ("kubernetes-sigs/cluster-api-provider-vsphere", mkSource "Makefile" "GO_VERSION \?= (1\.\d\d)\.\d+");
  ("kubernetes-sigs/etcdadm", mkSource "Makefile" "GO_IMAGE \?= golang:(1\.\d\d)");
  ("nutanix-cloud-native/cluster-api-provider-nutanix", mkSource "go.mod" "go (1\.\d\d)");
  ("metallb/metallb", mkSource "go.mod" "go (1\.\d\d)");
  ("tinkerbell/boots", mkSource "go.mod" "go (1\.\d\d)");
  ("tinkerbell/cluster-api-provider-tinkerbell", mkSource "Makefile" "GOLANG_VERSION := (1\.\d\d)");
  ("tinkerbell/hegel", mkSource ".github/workflows/ci.yaml" ("GO_VERSION: " +:+ q1 +:+ "(1\.\d\d)" +:+ q1 +:+ ""));
  ("tinkerbell/tink", mkSource ".github/workflows/ci.yaml" ("GO_VERSION: " +:+ q1 +:+ "(1\.\d\d)" +:+ q1 +:+ ""))].

Definition ProjectsWithUnconventionalUpgradeFlows : list string := ["cilium/cilium"; "kubernetes-sigs/image-builder"].

Definition BottlerocketImageFormats : list string := ["ami"; "ova"; "raw"].

Definition BottlerocketHostContainers : list string := ["admin"; "control"].

Definition CiliumImageDirectories : list string := ["cilium"; "operator-generic"; "cilium-chart"].

(** A lookup in one of the tables. *)
Fixpoint table_get {A} (l : list (string * A)) (key : string) : option A :=
  match l with
  | [] => None
  | (k, v) :: l => if k =s key then Some v else table_get l key
  end.
