(* ===== verification/VTUtil.v ===== *)
(** * version-tracker: commands, downloads, archives, Go versions, ECR Public

    Packages [util/command], [util/file], [util/tar], [util/version] and [ecrpublic]. The
    semantic versions of eks-anywhere are [Semver]; the YAML, TOML and tar.gz formats and the
    printing of a number with [%.0f] are [VTLib]. What is printed on the terminal is left
    out. *)
From S2P Require Import Prelude GoStrings GoJson GoRegexp World VTTypes.
From stdpp Require Import base tactics strings list.
From Stdlib Require Import Ascii.

Local Open Scope string_scope.
Local Open Scope list_scope.

Class Semver := {
  SemVersion : Type;
  semver_new : string → option SemVersion;
  GreaterThan : SemVersion → SemVersion → bool;
  SemEqual : SemVersion → SemVersion → bool;
}.

(** Versions are ordered. *)
Class SemverLaws `{!Semver} : Prop := {
  greater_trans : ∀ a b c, GreaterThan a b = true → GreaterThan b c = true → GreaterThan a c = true;
  greater_irrefl : ∀ a, GreaterThan a a = false;
  greater_not_equal : ∀ a b, GreaterThan a b = true → SemEqual a b = false;
}.

(** Versions [v<n>], enough for examples. *)
Definition sample_semver : Semver := {|
  SemVersion := Z;
  semver_new s := match cut_prefix "v" s with Some r => Atoi r | None => None end;
  GreaterThan a b := bool_decide (b < a)%Z;
  SemEqual a b := bool_decide (a = b) |}.

Lemma sample_semver_laws : @SemverLaws sample_semver.
Proof.
  split; simpl; intros *; rewrite ?bool_decide_eq_true, ?bool_decide_eq_false; lia.
Qed.

(** [untar] reads a tar.gz file: [None] if it is not one, otherwise the names and contents
    of its entries and whether its end was reached without an error. *)
Class VTLib := {
  untar : string → option (list (string * string) * bool);
  yaml_projects : string → option ProjectsList;
  print_projects : ProjectsList → string;
  yaml_eksd : string → option EKSDistroLatestReleases;
  print_eksd : EKSDistroLatestReleases → string;
  yaml_metadata : string → option ImageMetadata;
  print_metadata : ImageMetadata → string;
  yaml_object : string → option (list (string * json));
  print_object : list (string * json) → string;
  toml_value : string → option json;
  float_text : string → string;
}.

(** ** Values of type [interface{}] *)
Definition as_object {W} (v : json) : go W (list (string * json)) :=
  match v with JObj m => mret m | _ => panic "interface conversion" end.
Definition as_array {W} (v : json) : go W (list json) :=
  match v with JArr l => mret l | _ => panic "interface conversion" end.
Definition as_string {W} (v : json) : go W string :=
  match v with JStr s => mret s | _ => panic "interface conversion" end.
Definition as_number {W} (v : json) : go W string :=
  match v with JNum s => mret s | _ => panic "interface conversion" end.

(** [m[key]]: nil when the key is missing; the last of several members counts. *)
Definition member (m : list (string * json)) (key : string) : json :=
  default JNull (table_get (rev m) key).

(** [v.(map[string]interface{})[key]] *)
Definition field {W} (v : json) (key : string) : go W json :=
  m ← as_object v; mret (member m key).

Section utils.
Context `{HH : !Host} `{HL : !VTLib}.

(** ** util/command *)
Definition ExecCommand (argv : list string) : prog (option string * string) :=
  r ← exec argv;
  let commandOutputStr := TrimSpace r.2 in
  match r.1 with
  | Some err => mret (Some ("executing command " +:+ StrJoin argv " " +:+ ": " +:+ err), commandOutputStr)
  | None => mret (None, commandOutputStr)
  end.

(** The same, when an error ends the caller. *)
Definition command (argv : list string) : prog string :=
  r ← ExecCommand argv;
  match r.1 with Some err => fail err | None => mret r.2 end.

(** ** util/file *)
Definition Download (url filepath : string) : prog unit :=
  resp ← HttpGet url;
  _ ← Create filepath;
  WriteFile filepath resp.2 438.

Definition ReadURL (url : string) : prog string :=
  resp ← HttpGet url;
  mret resp.2.

(** ** util/tar *)
Definition extract_file (tarballDownloadPath name content : string) : prog unit :=
  _ ← when (Contains name "/")
        (wrap "creating parent directory for archive contents"
          (MkdirAll (PathJoin [tarballDownloadPath; Dir name])));
  let outFile := PathJoin [tarballDownloadPath; name] in
  _ ← wrap "creating file from archive" (Create outFile);
  wrap "copying file to output destination" (WriteFile outFile content 438).

Definition ExtractFileFromTarball (tarballDownloadPath gzipStream targetFile : string) : prog unit :=
  match untar gzipStream with
  | None => fail "gzip: invalid header"
  | Some (es, ended) =>
      _ ← forM es (λ e, when (e.1 =s targetFile) (extract_file tarballDownloadPath e.1 e.2));
      if (ended : bool) then mret tt else fail "advancing to next entry in archive"
  end.

(** ** util/version *)
Definition go_version_pattern (goBinaryLocation : string) : string :=
  "^" +:+ goBinaryLocation +:+ ": go(.*)\.\d+\n".

Definition GetGoVersion (goBinaryLocation : string) : prog string :=
  commandOutput ← wrap "running Go version command" (command ["go"; "version"; "-m"; goBinaryLocation]);
  pattern ← MustCompile (go_version_pattern goBinaryLocation);
  index (FindStringSubmatch pattern commandOutput) 1.

(** ** ecrpublic *)
Context `{HS : !Semver}.

Definition semver_of (msg s : string) : prog SemVersion :=
  match semver_new s with Some v => mret v | None => fail msg end.

(** The newest tag so far and its version. *)
Definition newest (acc : string * SemVersion) (tag : json) : prog (string * SemVersion) :=
  tag ← as_string tag;
  if negb (HasPrefix tag "v") then mret acc else
  tagSemver ← semver_of ("getting semver for Cilium tag [" +:+ tag +:+ "]") tag;
  mret (if GreaterThan tagSemver acc.2 then (tag, tagSemver) else acc).

Definition ecr_GetLatestRevision (imageRepository currentRevision : string) : prog (string * bool) :=
  currentRevisionSemver ← semver_of "getting semver for current version" currentRevision;
  listTagsOutput ← wrap "running Go version command"
    (command ["skopeo"; "list-tags"; "docker://" +:+ imageRepository]);
  match parse listTagsOutput with
  | None => fail "unmarshalling output of Skopeo list-tags command"
  | Some tagsList =>
      tags ← field tagsList "Tags";
      ciliumTags ← as_array tags;
      r ← foldM ciliumTags ("", currentRevisionSemver) newest;
      mret (if r.1 =s "" then ("", false) else (r.1, true))
  end.
End utils.

(** ** The newest tag of ECR Public *)
Section ecr.
Context `{HH : !Host} `{HL : !VTLib} `{HS : !Semver} `{HSL : !SemverLaws}.

(** A version tag of the list, which [newest] looks at. *)
Definition version_tag (tags : list string) (t : string) (v : SemVersion) : Prop :=
  t ∈ tags ∧ HasPrefix t "v" = true ∧ semver_new t = Some v.

Lemma newest_ret acc tag w acc' w' : newest acc tag w = (Ret acc', w') →
  ∃ t, tag = JStr t ∧ w' = w ∧
    (HasPrefix t "v" = false ∧ acc' = acc ∨
     ∃ v, version_tag [t] t v ∧ acc' = if GreaterThan v acc.2 then (t, v) else acc).
Proof.
  unfold newest, semver_of. intros H. destruct tag as [| | |t| |]; try done.
  cbn [as_string] in H. rewrite bind_ret_l in H. exists t. split; [done|].
  destruct (HasPrefix t "v") eqn:Hp; cbn [negb] in H.
  - destruct (semver_new t) as [v|] eqn:Hv; [|done]. rewrite bind_ret_l in H.
    apply mret_ret in H as [<- <-]. split; [done|]. right. exists v. split; [|done].
    split; [by left|done].
  - apply mret_ret in H as [<- <-]. split; [done|]. by left.
Qed.

(** The fold ends on a version no tag is greater than: the one it started from or a greater
    one. *)
Lemma newest_all l acc w acc' w' : foldM l acc newest w = (Ret acc', w') →
  ∃ tags, l = map JStr tags ∧ w' = w ∧
    (∀ t u, version_tag tags t u → GreaterThan u acc'.2 = false) ∧
    (acc' = acc ∨ version_tag tags acc'.1 acc'.2 ∧ GreaterThan acc'.2 acc.2 = true).
Proof using HSL.
  revert acc w. induction l as [|x l IH]; intros acc w H; cbn [foldM] in H.
  { apply mret_ret in H as [<- <-]. exists []. split; [done|]. split; [done|]. split; [|by left].
    by intros t u [?%not_elem_of_nil _]. }
  apply bind_ret_inv in H as (acc1 & w1 & Hx & H).
  apply newest_ret in Hx as (t & -> & -> & Hx).
  apply IH in H as (tags & -> & -> & Hmax & Hacc). exists (t :: tags).
  split; [done|]. split; [done|].
  assert (∀ u, GreaterThan u acc1.2 = false → GreaterThan u acc'.2 = false) as Hbelow.
  { intros u Hu. destruct Hacc as [->|[_ Hgt]]; [done|]. apply not_true_is_false. intros Hn.
    by rewrite (greater_trans _ _ _ Hn Hgt) in Hu. }
  assert (version_tag tags acc'.1 acc'.2 → version_tag (t :: tags) acc'.1 acc'.2) as Hmore.
  { intros (? & ? & ?). by split; [right|]. }
  destruct Hx as [[Hp ->]|(v & (_ & Hp & Hv) & Hacc1)].
  - split; [|naive_solver].
    intros t' u ([->|Hin]%elem_of_cons & Hp' & Hu); [by rewrite Hp in Hp'|]. by apply (Hmax t').
  - split.
    + intros t' u ([->|Hin]%elem_of_cons & Hp' & Hu); [|by apply (Hmax t')].
      rewrite Hv in Hu. injection Hu as <-. apply Hbelow. rewrite Hacc1.
      destruct (GreaterThan v acc.2) eqn:E; [apply greater_irrefl|done].
    + destruct (GreaterThan v acc.2) eqn:E; [|subst acc1; naive_solver].
      right. destruct Hacc as [->|[Ht Hgt]]; rewrite Hacc1 in *; cbn [fst snd] in *.
      * split; [|done]. by split; [left|].
      * split; [auto|]. by eapply greater_trans.
Qed.

(** C27: the tag chosen from ECR Public. When the tags are listed and an upgrade is found,
    the revision is one of the [v] tags, greater than the current version, and no [v] tag is
    greater than it; when none is found, no [v] tag is greater than the current version. *)
Theorem ecr_latest_is_newest image current w rev b w' v0 :
  semver_new current = Some v0 →
  ecr_GetLatestRevision image current w = (Ret (rev, b), w') →
  ∃ m tags, parse (TrimSpace (cr_out (host_exec w ["skopeo"; "list-tags"; "docker://" +:+ image] []))) = Some (JObj m) ∧
    member m "Tags" = JArr (map JStr tags) ∧
    if b then ∃ v, version_tag tags rev v ∧ GreaterThan v v0 = true ∧
                ∀ t u, version_tag tags t u → GreaterThan u v = false
    else rev = "" ∧ ∀ t u, version_tag tags t u → GreaterThan u v0 = false.
Proof using HSL.
  intros Hv0 H. unfold ecr_GetLatestRevision, semver_of in H. rewrite Hv0, bind_ret_l in H.
  apply bind_ret_inv in H as (out & w1 & Hx & H). apply wrap_ret in Hx.
  unfold command, ExecCommand in Hx. cbn beta iota in Hx.
  apply bind_ret_inv in Hx as (r & w2 & Hx & Hout).
  apply bind_ret_inv in Hx as (r0 & w3 & Hx & Hr). apply exec_env_ret in Hx as (_ & -> & _).
  cbn [fst snd] in Hr. destruct (cr_err _); apply mret_ret in Hr as [<- <-]; [done|].
  apply mret_ret in Hout as [<- <-].
  destruct (parse _) as [v|] eqn:Hparse; [|done].
  apply bind_ret_inv in H as (tags & w4 & Hx & H). unfold field in Hx.
  destruct v as [| | | | |m]; try done. cbn [as_object] in Hx. rewrite bind_ret_l in Hx. apply mret_ret in Hx as [<- <-].
  apply bind_ret_inv in H as (l & w5 & Hx & H).
  destruct (member m "Tags") as [| | | |l'|] eqn:Hm; try done. apply mret_ret in Hx as [-> <-].
  apply bind_ret_inv in H as (acc & w6 & Hx & H). apply newest_all in Hx as (tags & -> & -> & Hmax & Hacc).
  exists m, tags. split; [done|]. split; [done|].
  apply mret_ret in H as [H <-]. destruct acc as [t v]. cbn [fst snd] in *.
  destruct Hacc as [[= -> ->]|[Ht Hgt]]; [by injection H as <- <-|].
  destruct (t =s "") eqn:E; injection H as <- <-; [|by exists v].
  apply streq_true in E as ->. by destruct Ht as (_ & ? & _).
Qed.
End ecr.

(** Skopeo lists two versions and another tag. *)
Definition skopeo_host : Host := {|
  host_exec w _ _ := mkCmdResult None
    ("{" +:+ q "Tags" +:+ ":[" +:+ q "v3" +:+ "," +:+ q "latest" +:+ "," +:+ q "v5" +:+ "]}" +:+ nl) (w_fs w);
  host_torn _ _ := None; host_fault _ _ := None; host_get _ _ := inr (200%Z, ""); host_cwd := Some "/work";
  host_hostname := Some "node"; host_tick w _ := w_fs w; host_clock _ := 0%Z |}.

Lemma ecr_latest_is_newest_witness :
  ∃ w', ecr_GetLatestRevision (HH := skopeo_host) (HS := sample_semver) "cilium" "v4" empty_world =
    (Ret ("v5", true), w') ∧
  ∃ m tags, parse (TrimSpace (cr_out (@host_exec skopeo_host empty_world ["skopeo"; "list-tags"; "docker://cilium"] []))) = Some (JObj m) ∧
    member m "Tags" = JArr (map JStr tags) ∧
    ∃ v, version_tag (HS := sample_semver) tags "v5" v ∧ @GreaterThan sample_semver v 4%Z = true ∧
      ∀ t u, version_tag (HS := sample_semver) tags t u → @GreaterThan sample_semver u v = false.
Proof.
  eexists. split; [vm_compute; reflexivity|].
  eapply (ecr_latest_is_newest (HH := skopeo_host) (HS := sample_semver) (HSL := sample_semver_laws)
    "cilium" "v4" empty_world "v5" true _ 4%Z); [reflexivity|vm_compute; reflexivity].
Defined.
