(* ===== verification/VTGithub.v ===== *)
(** * version-tracker: pkg/github/github.go

    The GitHub API is [GitHub]: what the service answers to each call may depend on all that
    happened before. Every call is recorded in the trace. Fields that are pointers are
    options, read with [deref]. Pagination follows [resp.NextPage] for at most
    [gh_page_fuel] pages; [releases_listed] shows that this is enough when the service has
    so many. *)
From S2P Require Import Prelude GoStrings Base64 GoRegexp World VTTypes VTUtil.
From stdpp Require Import base tactics strings list sets.
From Stdlib Require Import Ascii.

Local Open Scope string_scope.
Local Open Scope list_scope.

Record RepositoryRelease := mkRelease { TagName : option string; Prerelease : option bool }.
Record RepositoryTag := mkTag { t_Name : option string; t_SHA : option string }.
Record ReleaseAsset := mkAsset { a_Name : option string; BrowserDownloadURL : option string }.
Record PullRequest := mkPullRequest {
  HTMLURL : option string; pr_Number : option Z; pr_Body : option string }.

(** An answer is an error or a value; a list comes with the number of the next page, the
    error of an edit with the pointer returned beside it. *)
Class GitHub := {
  gh_releases : World → string → string → Z → string + list RepositoryRelease * Z;
  gh_tags : World → string → string → Z → string + list RepositoryTag * Z;
  gh_commits : World → string → string → Z → string + list (option string) * Z;
  gh_commit_date : World → string → string → string → string + option Z;
  gh_contents : World → string → string → string → string → string + option string;
  gh_release_assets : World → string → string → string → string + list ReleaseAsset;
  gh_pulls : World → string → string → string → string → string + list PullRequest;
  gh_edit_pull : World → string → string → Z → string → string * option PullRequest + PullRequest;
  gh_create_pull : World → string → string → string → string → string → string → string + PullRequest;
  gh_comments : World → string → string → Z → string + list (option string);
  gh_create_comment : World → string → string → Z → string → string + unit;
  gh_page_fuel : nat;
}.

Definition api {A} (name : string) (args : list string) (answer : World → string + A) : prog A := λ w,
  let w' := log (ECall name args) w in
  match answer w with
  | inl e => (Err e, w')
  | inr a => (Ret a, w')
  end.

(** [for { ...; if resp.NextPage == 0 { break }; options.Page = resp.NextPage }] *)
Fixpoint pages {A} (list_page : Z → prog (list A * Z)) (add : list A → list A → prog (list A))
    (fuel : nat) (page : Z) (all : list A) : prog (list A) :=
  match fuel with
  | 0%nat => panic "out of fuel"
  | S fuel =>
      r ← list_page page;
      all ← add all r.1;
      if bool_decide (r.2 = 0%Z) then mret all else pages list_page add fuel r.2 all
  end.

Section github.
Context `{HH : !Host} `{HL : !VTLib} `{HS : !Semver} `{HG : !GitHub}.

Definition list_releases (org repo : string) (page : Z) : prog (list RepositoryRelease * Z) :=
  wrap "calling ListReleases API"
    (api "Repositories.ListReleases" [org; repo; Itoa page; Itoa GithubPerPage] (λ w, gh_releases w org repo page)).
Definition list_tags (org repo : string) (page : Z) : prog (list RepositoryTag * Z) :=
  wrap "calling ListTags API"
    (api "Repositories.ListTags" [org; repo; Itoa page; Itoa GithubPerPage] (λ w, gh_tags w org repo page)).
Definition list_commits (org repo : string) (page : Z) : prog (list (option string) * Z) :=
  wrap "calling ListCommits"
    (api "Repositories.ListCommits" [org; repo; Itoa page; Itoa GithubPerPage] (λ w, gh_commits w org repo page)).

Definition add_release (all : list RepositoryRelease) (release : RepositoryRelease)
    : prog (list RepositoryRelease) :=
  prerelease ← deref (Prerelease release);
  mret (if negb prerelease then all ++ [release] else all).

Definition getReleasesForRepo (org repo : string) : prog (list RepositoryRelease) :=
  pages (list_releases org repo) (λ all releases, foldM releases all add_release) gh_page_fuel 0 [].

Definition getTagsForRepo (org repo : string) : prog (list RepositoryTag) :=
  pages (list_tags org repo) (λ all tags, mret (all ++ tags)) gh_page_fuel 0 [].

Definition getCommitsForRepo (org repo : string) : prog (list (option string)) :=
  pages (list_commits org repo) (λ all commits, mret (all ++ commits)) gh_page_fuel 0 [].

Definition getCommitDateEpoch (org repo commitSHA : string) : prog Z :=
  date ← wrap "getting date for commit"
    (api "Repositories.GetCommit" [org; repo; commitSHA] (λ w, gh_commit_date w org repo commitSHA));
  deref date.

Definition GetFileContents (org repo filePath ref : string) : prog string :=
  contents ← wrap ("getting contents of file [" +:+ filePath +:+ "]")
    (api "Repositories.GetContents" [org; repo; filePath; ref] (λ w, gh_contents w org repo filePath ref));
  contents ← deref contents;
  match DecodeString contents with
  | None => fail ("decoding contents of file [" +:+ filePath +:+ "]")
  | Some contentsDecoded => mret contentsDecoded
  end.

Fixpoint getCommitForTag (allTags : list RepositoryTag) (searchTag : string) : prog string :=
  match allTags with
  | [] => mret ""
  | tag :: allTags =>
      name ← deref (t_Name tag);
      if searchTag =s name then deref (t_SHA tag) else getCommitForTag allTags searchTag
  end.

(** Whether an upgrade is needed, and whether the search is over. *)
Definition isUpgradeRequired (org repo latestRevision : string) (currentRevisionCommitEpoch : Z)
    (currentRevisionSemver : SemVersion) (allTags : list RepositoryTag) : prog (bool * bool) :=
  latestRevisionCommit ← getCommitForTag allTags latestRevision;
  if latestRevisionCommit =s "" then fail ("empty commit hash for latest revision: " +:+ latestRevision) else
  latestRevisionCommitEpoch ← wrap "getting epoch time corresponding to latest revision commit"
    (getCommitDateEpoch org repo latestRevisionCommit);
  latestRevisionSemver ← semver_of "getting semver for latest version" latestRevision;
  mret (if bool_decide (currentRevisionCommitEpoch < latestRevisionCommitEpoch)%Z
           && GreaterThan latestRevisionSemver currentRevisionSemver then (true, true)
        else if SemEqual latestRevisionSemver currentRevisionSemver then (false, true)
        else (false, false)).

(** The loop over the releases or tags, up to its [break]. *)
Fixpoint latest_of (org repo : string) (epoch : Z) (semver : SemVersion) (allTags : list RepositoryTag)
    (names : list (option string)) (latestRevision : string) : prog (string * bool) :=
  match names with
  | [] => mret (latestRevision, false)
  | name :: names =>
      latestRevision ← deref name;
      r ← wrap "determining if upgrade is required for project"
        (isUpgradeRequired org repo latestRevision epoch semver allTags);
      if (r.2 : bool) then mret (latestRevision, r.1)
      else latest_of org repo epoch semver allTags names latestRevision
  end.

Definition GetLatestRevision (org repo currentRevision : string) : prog (string * bool) :=
  allReleases ← wrap "getting all releases" (getReleasesForRepo org repo);
  allTags ← wrap "getting all tags" (getTagsForRepo org repo);
  currentRevisionCommit ← getCommitForTag allTags currentRevision;
  currentRevisionCommitEpoch ← wrap "getting epoch time corresponding to current revision commit"
    (getCommitDateEpoch org repo currentRevisionCommit);
  currentRevisionSemver ← semver_of "getting semver for current version" currentRevision;
  match allReleases with
  | _ :: _ => latest_of org repo currentRevisionCommitEpoch currentRevisionSemver allTags
                (map TagName allReleases) ""
  | [] =>
      match allTags with
      | _ :: _ => latest_of org repo currentRevisionCommitEpoch currentRevisionSemver allTags
                    (map t_Name allTags) ""
      | [] =>
          allCommits ← wrap "getting all commits" (getCommitsForRepo org repo);
          sha ← index allCommits 0;
          sha ← deref sha;
          mret (sha, true)
      end
  end.

(** ** GetGoVersionForLatestRevision *)

(** The name and the URL of the asset called [name]; both are empty without one. *)
Fixpoint find_asset (assets : list ReleaseAsset) (name : string) : prog (string * string) :=
  match assets with
  | [] => mret ("", "")
  | asset :: assets =>
      n ← deref (a_Name asset);
      if n =s name then url ← deref (BrowserDownloadURL asset); mret (n, url)
      else find_asset assets name
  end.

(** [if strings.Count(s, "%s") > 0 { s = fmt.Sprintf(s, v) }] *)
Definition fill (s v : string) : string :=
  if bool_decide (0 < Count s "%s")%nat then Sprintf1 s v else s.

Definition go_version_of_asset (asset : ReleaseTarball) (org repo latestRevision cwd : string) : prog string :=
  assets ← wrap "calling GetReleaseByTag"
    (api "Repositories.GetReleaseByTag" [org; repo; latestRevision] (λ w, gh_release_assets w org repo latestRevision));
  assetVersionReplacement ←
    (if TrimLeadingVersionPrefix asset then
       match latestRevision with
       | String _ rest => mret rest
       | EmptyString => panic "slice bounds out of range"
       end
     else mret latestRevision);
  let searchAssetName := fill (AssetName asset) assetVersionReplacement in
  tarball ← (if negb (OverrideAssetURL asset =s "")
             then mret (searchAssetName, fill (OverrideAssetURL asset) assetVersionReplacement)
             else find_asset assets searchAssetName);
  let tarballDownloadPath := PathJoin [cwd; "github-release-downloads"] in
  _ ← wrap "failed to create GitHub release downloads folder" (MkdirAll tarballDownloadPath);
  let tarballFilePath := PathJoin [tarballDownloadPath; tarball.1] in
  _ ← wrap "downloading release tarball" (Download tarball.2 tarballFilePath);
  let binaryName := fill (BinaryName asset) assetVersionReplacement in
  _ ← when (Extract asset) (
    tarballFile ← wrap "opening tarball filepath" (ReadFile tarballFilePath);
    wrap "extracting tarball file" (ExtractFileFromTarball tarballDownloadPath tarballFile binaryName));
  goVersion ← wrap "getting Go version embedded in binary"
    (GetGoVersion (PathJoin [tarballDownloadPath; binaryName]));
  _ ← wrap "removing tarball download path" (RemoveAll tarballDownloadPath);
  mret goVersion.

Definition go_version_of_file (source : GoVersionSourceOfTruth) (org repo latestRevision : string) : prog string :=
  workflowContents ← wrap "getting contents of file"
    (GetFileContents org repo (SourceOfTruthFile source) latestRevision);
  pattern ← MustCompile (GoVersionSearchString source);
  index (FindStringSubmatch pattern workflowContents) 1.

Definition GetGoVersionForLatestRevision (org repo latestRevision : string) : prog string :=
  cwd ← wrap "retrieving current working directory" Getwd;
  let projectFullName := org +:+ "/" +:+ repo in
  match table_get ProjectReleaseAssets projectFullName with
  | Some asset => go_version_of_asset asset org repo latestRevision cwd
  | None =>
      match table_get ProjectGoVersionSourceOfTruth projectFullName with
      | Some source => go_version_of_file source org repo latestRevision
      | None => mret ""
      end
  end.

(** ** CreatePullRequest *)

(** [comment.Body == github.String(text)] compares pointers: the bodies of the comments are
    at addresses of their own, and each [github.String] allocates the next address. *)
Definition body_addresses (comments : list (option string)) : list (option nat) :=
  imap (λ i body, match body with Some _ => Some i | None => None end) comments.

Fixpoint comment_exists (next : nat) (bodies : list (option nat)) (found : bool) : bool :=
  match bodies with
  | [] => found
  | body :: bodies => comment_exists (S next) bodies (if bool_decide (body = Some next) then true else found)
  end.

(** The error of an edit mentions [pullRequest.HTMLURL], of the pointer returned with it. *)
Definition edited (answer : string * option PullRequest + PullRequest) : prog PullRequest :=
  match answer with
  | inr pullRequest => mret pullRequest
  | inl (e, pullRequest) => _ ← deref pullRequest; fail ("editing existing pull request: " +:+ e)
  end.

(** The pull request that exists, edited, and whether it has the comment. *)
Definition edit_existing (pullRequest : PullRequest) (body baseRepoOwner : string)
    (addPatchWarningComment : bool) : prog (PullRequest * bool) :=
  _ ← deref (HTMLURL pullRequest);
  number ← deref (pr_Number pullRequest);
  pullRequest ← (api "PullRequests.Edit" [baseRepoOwner; BuildToolingRepoName; Itoa number; body]
    (λ w, inr (gh_edit_pull w baseRepoOwner BuildToolingRepoName number body)) ≫= edited);
  if addPatchWarningComment then
    number ← deref (pr_Number pullRequest);
    comments ← wrap "listing comments on pull request"
      (api "Issues.ListComments" [baseRepoOwner; BuildToolingRepoName; Itoa number]
        (λ w, gh_comments w baseRepoOwner BuildToolingRepoName number));
    mret (pullRequest, comment_exists (length comments) (body_addresses comments) false)
  else mret (pullRequest, false).

Definition create_new (title body baseRepoOwner baseBranch head : string) : prog PullRequest :=
  pullRequest ← wrap "creating pull request with updated versions"
    (api "PullRequests.Create" [baseRepoOwner; BuildToolingRepoName; title; head; baseBranch; body]
      (λ w, gh_create_pull w baseRepoOwner BuildToolingRepoName title head baseBranch body));
  _ ← deref (HTMLURL pullRequest);
  mret pullRequest.

(** The organization, the repository and the revisions only appear in log messages. *)
Definition CreatePullRequest (title body baseRepoOwner baseBranch headRepoOwner headBranch : string)
    (addPatchWarningComment : bool) (patchesWarningComment : string) : prog unit :=
  let head := headRepoOwner +:+ ":" +:+ headBranch in
  pullRequests ← wrap "listing pull requests"
    (api "PullRequests.List" [baseRepoOwner; BuildToolingRepoName; baseBranch; head]
      (λ w, gh_pulls w baseRepoOwner BuildToolingRepoName baseBranch head));
  r ← match pullRequests with
      | pullRequest :: _ => edit_existing pullRequest body baseRepoOwner addPatchWarningComment
      | [] => p ← create_new title body baseRepoOwner baseBranch head; mret (p, false)
      end;
  when (addPatchWarningComment && negb r.2) (
    number ← deref (pr_Number r.1);
    recover (api "Issues.CreateComment" [baseRepoOwner; BuildToolingRepoName; Itoa number; patchesWarningComment]
              (λ w, gh_create_comment w baseRepoOwner BuildToolingRepoName number patchesWarningComment))
      (λ e, url ← deref (HTMLURL r.1);
            fail ("commenting failed patch apply warning on pull request [" +:+ url +:+ "]: " +:+ e))).
End github.

(** No comment is ever found: the addresses are all different. *)
Lemma comment_exists_false bodies next : (∀ a, Some a ∈ bodies → a < next)%nat →
  comment_exists next bodies false = false.
Proof.
  revert next. induction bodies as [|b bodies IH]; intros next H; [done|]. cbn [comment_exists].
  rewrite bool_decide_eq_false_2; [apply IH; intros a Ha; specialize (H a ltac:(by right)); lia|].
  intros ->. specialize (H next ltac:(left)). lia.
Qed.

Lemma no_comment_found comments :
  comment_exists (length comments) (body_addresses comments) false = false.
Proof.
  apply comment_exists_false. intros a Ha. unfold body_addresses in Ha.
  apply elem_of_lookup_imap in Ha as (i & x & Hx & Hi). destruct x; [|done].
  injection Hx as ->. by apply lookup_lt_Some in Hi.
Qed.

(** ** A service that answers *)
Section service.
Context `{HH : !Host} `{HL : !VTLib} `{HS : !Semver} `{HG : !GitHub}.

(** The pages are numbered from 1; page 0 is the first one too, and the number of the page
    after the last one is 0. *)
Definition serves {A} (answer : World → Z → string + list A * Z) (ps : list (list A)) : Prop :=
  ps ≠ [] ∧ (length ps ≤ gh_page_fuel)%nat ∧
  ∀ w k xs, ps !! k = Some xs →
    let r := inr (xs, if bool_decide (S k = length ps) then 0%Z else Z.of_nat (k + 2)) in
    answer w (Z.of_nat (S k)) = r ∧ (k = 0%nat → answer w 0%Z = r).

Definition release_of (r : string * bool) : RepositoryRelease := mkRelease (Some r.1) (Some r.2).
Definition tag_of (t : string * string) : RepositoryTag := mkTag (Some t.1) (Some t.2).

(** What a repository of GitHub has: its releases with whether each is a prerelease and its
    tags with their commits, page by page, and the dates of its commits. *)
Record repository := mkRepository {
  rp_releases : list (list (string * bool));
  rp_tags : list (list (string * string));
  rp_date : string → option Z;
}.

Definition hosted (r : repository) (org repo : string) : Prop :=
  serves (λ w, gh_releases w org repo) (map (map release_of) (rp_releases r)) ∧
  serves (λ w, gh_tags w org repo) (map (map tag_of) (rp_tags r)) ∧
  ∀ w sha d, rp_date r sha = Some d → gh_commit_date w org repo sha = inr (Some d).

(** The pages requested of a list of [n] pages. *)
Definition requests (api org repo : string) (n : nat) : list (string * list string) :=
  map (λ page, (api, [org; repo; Itoa page; Itoa GithubPerPage])) (0%Z :: map Z.of_nat (List.seq 2 (n - 1))).

Lemma wrap_api_ok {A} msg name args (answer : World → string + A) w a : answer w = inr a →
  wrap msg (api name args answer) w = (Ret a, log (ECall name args) w).
Proof. intros H. unfold wrap, recover, api. by rewrite H. Qed.

Lemma preserves_api (R : World → World → Prop) `{!PreOrder R} {A} name args (answer : World → string + A) :
  (∀ w, R w (log (ECall name args) w)) → preserves R (api name args answer).
Proof. intros Hl w o w'. unfold api. destruct (answer w); intros; by simplify_eq. Qed.

Lemma obs_call name args w : obs as_call (log (ECall name args) w) = obs as_call w ++ [(name, args)].
Proof. by rewrite obs_log. Qed.

(** From the page [k] on, which is requested as [page]. *)
Lemma pages_from {A} (answer : World → Z → string + list A * Z) (g : list A → list A) ps msg name org repo
    (add : list A → list A → prog (list A)) rest k page fuel all w :
  serves answer ps →
  (∀ all xs w, xs ∈ ps → add all xs w = (Ret (all ++ g xs), w)) →
  drop k ps = rest → rest ≠ [] → (length rest ≤ fuel)%nat →
  page = Z.of_nat (S k) ∨ (k = 0%nat ∧ page = 0%Z) →
  ∃ w', pages (λ p, wrap msg (api name [org; repo; Itoa p; Itoa GithubPerPage] (λ w, answer w p)))
      add fuel page all w = (Ret (all ++ flat_map g rest), w') ∧
    obs as_call w' = obs as_call w ++ map (λ p, (name, [org; repo; Itoa p; Itoa GithubPerPage]))
      (page :: map Z.of_nat (List.seq (k + 2) (length rest - 1))).
Proof.
  intros (_ & _ & Hs) Hadd. revert k page fuel all w.
  induction rest as [|xs rest IH]; intros k page fuel all w Hd Hne Hf Hp; [done|].
  destruct fuel as [|fuel]; [simpl in Hf; lia|]. simpl in Hf.
  assert (ps !! k = Some xs) as Hk.
  { rewrite <-(Nat.add_0_r k), <-lookup_drop, Hd. done. }
  assert (length ps = k + S (length rest))%nat as Hl.
  { apply (f_equal length) in Hd. rewrite length_drop in Hd. apply lookup_lt_Some in Hk. simpl in Hd. lia. }
  destruct (Hs w k xs Hk) as [H1 H0].
  assert (answer w page = inr (xs, if bool_decide (S k = length ps) then 0%Z else Z.of_nat (k + 2))) as Ha.
  { destruct Hp as [->|[Hk0 ->]]; auto. }
  cbn [pages]. rewrite (bind_step _ _ _ _ _ (wrap_api_ok msg name _ (λ w, answer w page) w _ Ha)). cbn [fst snd].
  rewrite (bind_step _ _ _ _ _ (Hadd all xs _ ltac:(by eapply list_elem_of_lookup_2))).
  destruct rest as [|ys rest].
  - rewrite (bool_decide_eq_true_2 (S k = length ps)) by (simpl in Hl; lia).
    rewrite bool_decide_eq_true_2 by done. eexists. split; [cbn [flat_map]; by rewrite app_nil_r|]. by rewrite obs_call.
  - rewrite (bool_decide_eq_false_2 (S k = length ps)) by (simpl in Hl; lia).
    rewrite bool_decide_eq_false_2 by lia.
    destruct (IH (S k) (Z.of_nat (k + 2)) fuel (all ++ g xs) (log (ECall name [org; repo; Itoa page; Itoa GithubPerPage]) w))
      as (w' & Hw & Ho); [|done|simpl in *; lia|left; lia|].
    { rewrite <-Nat.add_1_r, <-drop_drop, Hd. done. }
    exists w'. split; [by rewrite Hw, <-app_assoc|]. rewrite Ho, obs_call, <-app_assoc. do 2 f_equal.
    cbn [length map Nat.sub List.seq]. rewrite Nat.sub_0_r. do 2 f_equal.
Qed.

Lemma foldM_add_release rs all w :
  foldM (map release_of rs) all add_release w =
  (Ret (all ++ map release_of (filter (λ r, r.2 = false) rs)), w).
Proof.
  revert all. induction rs as [|[n b] rs IH]; intros all; [by rewrite app_nil_r|].
  cbn [map foldM]. unfold add_release at 1. cbn [release_of Prerelease fst snd deref].
  rewrite (bind_step _ _ _ (if negb b then all ++ [release_of (n, b)] else all) w) by done.
  rewrite IH. rewrite filter_cons. destruct b; cbn [negb decide].
  - rewrite decide_False by done. done.
  - rewrite decide_True by done. by rewrite <-app_assoc.
Qed.

Lemma releases_listed_eq ps org repo w :
  serves (λ w, gh_releases w org repo) (map (map release_of) ps) →
  ∃ w', getReleasesForRepo org repo w =
      (Ret (map release_of (filter (λ r, r.2 = false) (concat ps))), w') ∧
    obs as_call w' = obs as_call w ++ requests "Repositories.ListReleases" org repo (length ps).
Proof.
  intros Hs. pose proof Hs as (Hne & Hf & _).
  unfold getReleasesForRepo, list_releases, requests.
  destruct (pages_from (λ w, gh_releases w org repo) (λ xs, filter (λ r, Prerelease r = Some false) xs)
    (map (map release_of) ps) "calling ListReleases API" "Repositories.ListReleases" org repo
    (λ all releases, foldM releases all add_release) (map (map release_of) ps) 0 0 gh_page_fuel [] w)
    as (w' & Hw & Ho); [done| |done..|by right|].
  - intros all xs w0 (rs & -> & _)%list_elem_of_fmap. rewrite foldM_add_release. do 3 f_equal.
    induction rs as [|[n b] rs IH]; [done|]. cbn [map]. rewrite !filter_cons.
    cbn [release_of Prerelease snd]. destruct b; [by rewrite !decide_False by done|].
    rewrite !decide_True by done. cbn [map]. by f_equal.
  - exists w'. rewrite length_map in Ho. split; [|exact Ho]. rewrite Hw. do 2 f_equal. clear.
    induction ps as [|rs ps IH]; [done|]. cbn [concat map flat_map app]. rewrite filter_app, map_app.
    f_equal; [|exact IH]. clear. induction rs as [|[n b] rs IH]; [done|]. cbn [map]. rewrite !filter_cons.
    cbn [release_of Prerelease snd]. destruct b; [by rewrite !decide_False by done|].
    rewrite !decide_True by done. cbn [map]. by f_equal.
Qed.

Lemma tags_listed ps org repo w :
  serves (λ w, gh_tags w org repo) (map (map tag_of) ps) →
  ∃ w', getTagsForRepo org repo w = (Ret (map tag_of (concat ps)), w') ∧
    obs as_call w' = obs as_call w ++ requests "Repositories.ListTags" org repo (length ps).
Proof.
  intros Hs. pose proof Hs as (Hne & Hf & _).
  unfold getTagsForRepo, list_tags, requests.
  destruct (pages_from (λ w, gh_tags w org repo) id
    (map (map tag_of) ps) "calling ListTags API" "Repositories.ListTags" org repo
    (λ all tags, mret (all ++ tags)) (map (map tag_of) ps) 0 0 gh_page_fuel [] w)
    as (w' & Hw & Ho); [done|done|done..|by right|].
  exists w'. rewrite length_map in Ho. split; [|exact Ho]. rewrite Hw. do 2 f_equal. clear.
  induction ps as [|rs ps IH]; [done|]. cbn [concat map flat_map app id]. rewrite map_app.
  f_equal. exact IH.
Qed.

Lemma getCommitForTag_eq tags name w :
  getCommitForTag (map tag_of tags) name w = (Ret (default "" (table_get tags name)), w).
Proof.
  induction tags as [|[n sha] tags IH]; [done|]. cbn [map getCommitForTag table_get tag_of t_Name t_SHA fst snd deref].
  rewrite (bind_step _ _ _ n w) by done. unfold streq. rewrite (bool_decide_ext (name = n) (n = name)) by naive_solver.
  destruct (bool_decide (n = name)); [done|exact IH].
Qed.

Lemma epoch_eq r org repo sha d w : hosted r org repo → rp_date r sha = Some d →
  ∃ w', getCommitDateEpoch org repo sha w = (Ret d, w') ∧
    obs as_call w' = obs as_call w ++ [("Repositories.GetCommit", [org; repo; sha])].
Proof.
  intros (_ & _ & Hd) Hsha. unfold getCommitDateEpoch.
  rewrite (bind_step _ _ _ _ _ (wrap_api_ok _ "Repositories.GetCommit" _ (λ w, gh_commit_date w org repo sha) w (Some d) (Hd _ _ _ Hsha))).
  eexists. split; [done|]. by rewrite obs_call.
Qed.

(** The date and the version of a revision, when its tag has a commit with a date. *)
Definition dated (r : repository) (name : string) (d : Z) (v : SemVersion) : Prop :=
  ∃ sha, table_get (concat (rp_tags r)) name = Some sha ∧ sha ≠ "" ∧ rp_date r sha = Some d ∧
    semver_new name = Some v.

(** What the revisions are chosen from. *)
Definition candidates (r : repository) : list string :=
  match filter (λ rel, rel.2 = false) (concat (rp_releases r)) with
  | [] => (concat (rp_tags r)).*1
  | rels => rels.*1
  end.

Definition newer_than (d0 : Z) (v0 : SemVersion) (d : Z) (v : SemVersion) : Prop :=
  (d0 < d)%Z ∧ GreaterThan v v0 = true.

Lemma isUpgradeRequired_eq r org repo name d v d0 v0 w : hosted r org repo → dated r name d v →
  ∃ w', isUpgradeRequired org repo name d0 v0 (map tag_of (concat (rp_tags r))) w =
    (Ret (if bool_decide (d0 < d)%Z && GreaterThan v v0 then (true, true)
          else if SemEqual v v0 then (false, true) else (false, false)), w').
Proof.
  intros Hr (sha & Hsha & Hne & Hd & Hv). unfold isUpgradeRequired.
  rewrite (bind_step _ _ _ _ _ (getCommitForTag_eq _ name w)), Hsha. change (default "" (Some sha)) with sha.
  apply streq_false in Hne. rewrite Hne.
  destruct (epoch_eq r org repo sha d w Hr Hd) as (w1 & He & _).
  rewrite (bind_step _ _ _ d w1) by (unfold wrap, recover; by rewrite He).
  unfold semver_of. rewrite Hv. eexists. by rewrite bind_ret_l.
Qed.

(** The loop stops at the first revision that is newer than, or the same as, the current one. *)
Lemma latest_of_eq r org repo d0 v0 names last w : hosted r org repo →
  (∀ name, name ∈ names → ∃ d v, dated r name d v) →
  ∃ rev b w', latest_of org repo d0 v0 (map tag_of (concat (rp_tags r))) (map Some names) last w = (Ret (rev, b), w') ∧
    ((rev = last ∧ names = [] ∧ b = false) ∨
     ∃ before after d v, names = before ++ rev :: after ∧ dated r rev d v ∧
      (∀ name d v, name ∈ before → dated r name d v → ¬ newer_than d0 v0 d v ∧ SemEqual v v0 = false) ∧
      (if b then newer_than d0 v0 d v
       else ¬ newer_than d0 v0 d v ∧ (SemEqual v v0 = true ∨ after = []))).
Proof.
  intros Hr. revert last w. induction names as [|name names IH]; intros last w Hnames.
  { exists last, false, w. split; [done|]. by left. }
  destruct (Hnames name ltac:(left)) as (d & v & Hd). cbn [map latest_of deref].
  rewrite (bind_step _ _ _ name w) by done.
  destruct (isUpgradeRequired_eq r org repo name d v d0 v0 w Hr Hd) as (w1 & Hu).
  rewrite (bind_step _ _ _ _ w1) by (unfold wrap, recover; by rewrite Hu). clear Hu.
  destruct (bool_decide (d0 < d)%Z && GreaterThan v v0) eqn:Hnew; cbn [fst snd].
  { apply andb_true_iff in Hnew as [Hlt%bool_decide_eq_true Hg].
    exists name, true, w1. split; [done|]. right. exists [], names, d, v. split; [done|].
    split; [done|]. split; [by intros ??? ?%not_elem_of_nil|]. by split. }
  assert (¬ newer_than d0 v0 d v) as Hold.
  { intros [Hlt Hg]. rewrite Hg, bool_decide_eq_true_2 in Hnew by done. done. }
  destruct (SemEqual v v0) eqn:Heq; cbn [fst snd].
  { exists name, false, w1. split; [done|]. right. exists [], names, d, v. split; [done|].
    split; [done|]. split; [by intros ??? ?%not_elem_of_nil|]. split; [done|]. by left. }
  destruct (IH name w1) as (rev & b & w' & Hw & H); [intros n Hn; apply Hnames; by right|].
  exists rev, b, w'. split; [exact Hw|]. right. destruct H as [(-> & -> & ->)|(bef & aft & d' & v' & -> & Hd' & Hbef & Hb)].
  - exists [], [], d, v. split; [done|]. split; [done|]. split; [by intros ??? ?%not_elem_of_nil|].
    split; [done|by right].
  - exists (name :: bef), aft, d', v'. split; [done|]. split; [done|]. split; [|done].
    intros n dn vn [->|Hn]%elem_of_cons Hdn; [|by eapply Hbef].
    destruct Hd as (sha & E1 & _ & E2 & E3), Hdn as (sha' & F1 & _ & F2 & F3).
    by simplify_eq.
Qed.
End service.
#[export] Hint Resolve preserves_api : go.

(** ** The properties *)
Section properties.
Context `{HH : !Host} `{HL : !VTLib} `{HS : !Semver} `{HG : !GitHub}.

(** C26: the releases of a repository are listed completely. When the service has the pages
    [ps], at most [gh_page_fuel] of them, [getReleasesForRepo] ends, it has requested each
    page once, and what it returns are all the releases that are not prereleases, in order. *)
Theorem releases_listed ps org repo w :
  serves (λ w, gh_releases w org repo) (map (map release_of) ps) →
  ∃ w', getReleasesForRepo org repo w =
      (Ret (map release_of (filter (λ r, r.2 = false) (concat ps))), w') ∧
    obs as_call w' = obs as_call w ++ requests "Repositories.ListReleases" org repo (length ps).
Proof. exact (releases_listed_eq ps org repo w). Qed.

(** C7: what [GetLatestRevision] chooses. When the repository is hosted, the current
    revision and every candidate (a release that is not a prerelease, or any tag when there
    is no such release) have a dated commit and a semantic version, the call succeeds with a
    candidate [rev]. Every candidate before it is neither newer than the current revision
    (in date and in version) nor the same version. An upgrade is needed exactly when [rev]
    is newer; otherwise [rev] is the same version as the current revision, or it is the last
    of the candidates. *)
Theorem latest_revision r org repo current d0 v0 w :
  hosted r org repo → candidates r ≠ [] → dated r current d0 v0 →
  (∀ name, name ∈ candidates r → ∃ d v, dated r name d v) →
  ∃ before rev after b d v w', GetLatestRevision org repo current w = (Ret (rev, b), w') ∧
    candidates r = before ++ rev :: after ∧ dated r rev d v ∧
    (∀ name d v, name ∈ before → dated r name d v → ¬ newer_than d0 v0 d v ∧ SemEqual v v0 = false) ∧
    (if b then newer_than d0 v0 d v else ¬ newer_than d0 v0 d v ∧ (SemEqual v v0 = true ∨ after = [])).
Proof.
  intros Hr Hne (sha & Hsha & _ & Hd0 & Hv0) Hc. pose proof Hr as (Hrel & Htag & _).
  unfold GetLatestRevision.
  destruct (releases_listed_eq _ _ _ w Hrel) as (w1 & H1 & _).
  rewrite (bind_step _ _ _ _ w1) by (unfold wrap, recover; by rewrite H1).
  destruct (tags_listed _ _ _ w1 Htag) as (w2 & H2 & _).
  rewrite (bind_step _ _ _ _ w2) by (unfold wrap, recover; by rewrite H2).
  rewrite (bind_step _ _ _ _ _ (getCommitForTag_eq _ current w2)), Hsha. change (default "" (Some sha)) with sha.
  destruct (epoch_eq r org repo sha d0 w2 Hr Hd0) as (w3 & H3 & _).
  rewrite (bind_step _ _ _ d0 w3) by (unfold wrap, recover; by rewrite H3).
  unfold semver_of. rewrite Hv0, bind_ret_l. clear H1 H2 H3.
  assert (∃ rev b w', latest_of org repo d0 v0 (map tag_of (concat (rp_tags r))) (map Some (candidates r)) "" w3
    = (Ret (rev, b), w') ∧ ∃ before after d v, candidates r = before ++ rev :: after ∧ dated r rev d v ∧
      (∀ name d v, name ∈ before → dated r name d v → ¬ newer_than d0 v0 d v ∧ SemEqual v v0 = false) ∧
      (if b then newer_than d0 v0 d v else ¬ newer_than d0 v0 d v ∧ (SemEqual v v0 = true ∨ after = [])))
    as (rev & b & w' & Hw & before & after & d & v & H).
  { destruct (latest_of_eq r org repo d0 v0 (candidates r) "" w3 Hr Hc) as (rev & b & w' & Hw & [(_ & ? & _)|H]); [done|].
    by exists rev, b, w'. }
  exists before, rev, after, b, d, v, w'. split; [|exact H]. rewrite <-Hw. unfold candidates in *.
  clear H Hw. destruct (filter _ (concat (rp_releases r))) as [|x rels].
  - destruct (concat (rp_tags r)) as [|t tags]; [done|]. cbn [map fmap list_fmap]. do 2 f_equal.
    by rewrite !map_map.
  - cbn [map fmap list_fmap]. do 2 f_equal. by rewrite !map_map.
Qed.

End properties.

(** ** A repository with two pages of releases and of tags *)
Definition page_of {A} (ps : list (list A)) (page : Z) : string + list A * Z :=
  let k := Z.to_nat (page - 1) in
  match ps !! k with
  | Some xs => inr (xs, if bool_decide (S k = length ps) then 0%Z else Z.of_nat (k + 2))
  | None => inr ([], 0%Z)
  end.

Definition sample_repository : repository := {|
  rp_releases := [[("v6", true); ("v2", false)]; [("v5", false); ("v4", false)]];
  rp_tags := [[("v6", "c6"); ("v5", "c5")]; [("v4", "c4"); ("v2", "c2")]];
  rp_date sha := match sha with String "c" n => Atoi n | _ => None end |}.

Definition hosting (r : repository) : GitHub := {|
  gh_releases _ _ _ := page_of (map (map release_of) (rp_releases r));
  gh_tags _ _ _ := page_of (map (map tag_of) (rp_tags r));
  gh_commits _ _ _ _ := inl "";
  gh_commit_date _ _ _ sha := inr (rp_date r sha);
  gh_contents _ _ _ _ _ := inl ""; gh_release_assets _ _ _ _ := inl ""; gh_pulls _ _ _ _ _ := inl "";
  gh_edit_pull _ _ _ _ _ := inl ("", None); gh_create_pull _ _ _ _ _ _ _ := inl ""; gh_comments _ _ _ _ := inl "";
  gh_create_comment _ _ _ _ _ := inl ""; gh_page_fuel := 10 |}.

Lemma page_of_serves r {A} (ps : list (list A)) : ps ≠ [] → (length ps ≤ 10)%nat →
  serves (HG := hosting r) (λ _, page_of ps) ps.
Proof.
  intros Hne Hl. split; [done|]. split; [done|]. intros _ k xs Hk. cbn zeta. unfold page_of.
  replace (Z.to_nat (Z.of_nat (S k) - 1)) with k by lia. rewrite Hk. split; [done|].
  intros ->. change (Z.to_nat (0 - 1)) with 0%nat. by rewrite Hk.
Qed.

Lemma sample_hosted org repo : hosted (HG := hosting sample_repository) sample_repository org repo.
Proof.
  split; [|split].
  - apply page_of_serves; [done|vm_compute; lia].
  - apply page_of_serves; [done|vm_compute; lia].
  - intros w sha d Hd. cbn [gh_commit_date hosting]. by rewrite Hd.
Qed.

Lemma releases_listed_witness :
  ∃ w', getReleasesForRepo (HG := hosting sample_repository) "o" "r" empty_world =
      (Ret (map release_of (filter (λ r, r.2 = false) (concat (rp_releases sample_repository)))), w') ∧
    obs as_call w' = obs as_call empty_world ++ requests "Repositories.ListReleases" "o" "r" 2.
Proof.
  apply (releases_listed (HG := hosting sample_repository) (rp_releases sample_repository) "o" "r" empty_world).
  apply page_of_serves; [done|vm_compute; lia].
Defined.

(** The tags [v2], [v4] and [v5], with the version as the date. *)
Lemma sample_dated n s : Itoa n = s → n ∈ [2; 4; 5]%Z →
  dated (HS := sample_semver) sample_repository ("v" +:+ s) n n.
Proof.
  intros <- [->|[->|[->|?%not_elem_of_nil]%elem_of_cons]%elem_of_cons]%elem_of_cons; [..|done];
    eexists; (split; [vm_compute; reflexivity|]); split; (done || split; vm_compute; reflexivity).
Qed.

Lemma latest_revision_witness :
  ∃ before rev after b d v w', GetLatestRevision (HS := sample_semver) (HG := hosting sample_repository)
      "o" "r" "v4" empty_world = (Ret (rev, b), w') ∧
    candidates sample_repository = before ++ rev :: after ∧ dated (HS := sample_semver) sample_repository rev d v ∧
    (∀ name d v, name ∈ before → dated (HS := sample_semver) sample_repository name d v →
      ¬ newer_than (HS := sample_semver) 4%Z (4%Z : @SemVersion sample_semver) d v ∧ @SemEqual sample_semver v 4%Z = false) ∧
    (if b then newer_than (HS := sample_semver) 4%Z (4%Z : @SemVersion sample_semver) d v
     else ¬ newer_than (HS := sample_semver) 4%Z (4%Z : @SemVersion sample_semver) d v ∧
       (@SemEqual sample_semver v 4%Z = true ∨ after = [])).
Proof.
  apply (latest_revision (HS := sample_semver) (HG := hosting sample_repository) sample_repository "o" "r" "v4" 4%Z 4%Z empty_world).
  - apply sample_hosted.
  - done.
  - apply (sample_dated 4%Z "4"); [reflexivity|set_solver].
  - intros name Hname.
    apply elem_of_cons in Hname as [->|[->|[->|?%not_elem_of_nil]%elem_of_cons]%elem_of_cons]; [..|done].
    + exists 2%Z, 2%Z. apply (sample_dated 2%Z "2"); [reflexivity|set_solver].
    + exists 5%Z, 5%Z. apply (sample_dated 5%Z "5"); [reflexivity|set_solver].
    + exists 4%Z, 4%Z. apply (sample_dated 4%Z "4"); [reflexivity|set_solver].
Defined.

(** Of [v2], [v5] and [v4], which come in this order, [v5] is chosen. *)
Example latest_of_sample : fst (GetLatestRevision (HS := sample_semver) (HG := hosting sample_repository)
  "o" "r" "v4" empty_world) = Ret ("v5", true).
Proof. vm_compute. reflexivity. Qed.
