(* ===== verification/VTForge.v ===== *)
(** * version-tracker: the pull requests of the base repository

    The abstract specification of [CreatePullRequest]. [Forge] is what GitHub promises: the
    pull requests of a repository are a list, which each call of the API reads or changes in
    the documented way when it succeeds. [pull_request_published] shows that
    [CreatePullRequest] refines [publish], one abstract step on this list, and what is left
    of the step when a call fails. *)
From S2P Require Import Prelude GoStrings World VTTypes VTUtil VTGithub.
From stdpp Require Import base tactics strings list pretty.

Local Open Scope string_scope.
Local Open Scope list_scope.

Record pull := mkPull {
  p_number : Z; p_title : string; p_head : string; p_base : string; p_body : string;
  p_comments : list string }.

#[export] Instance pull_eq_dec : EqDecision pull.
Proof. solve_decision. Defined.

Definition with_body (body : string) (p : pull) : pull :=
  mkPull (p_number p) (p_title p) (p_head p) (p_base p) body (p_comments p).
Definition with_comment (comment : string) (p : pull) : pull :=
  mkPull (p_number p) (p_title p) (p_head p) (p_base p) (p_body p) (p_comments p ++ [comment]).

(** A change to the pull requests numbered [n]. *)
Definition change (n : Z) (f : pull → pull) (ps : list pull) : list pull :=
  map (λ p, if bool_decide (p_number p = n) then f p else p) ps.

(** The pull requests from one branch to another. *)
Definition between (base head : string) (p : pull) : Prop := p_base p = base ∧ p_head p = head.
#[export] Instance between_dec base head p : Decision (between base head p).
Proof. apply _. Defined.

Class Forge `{!GitHub} := {
  forge : World → string → string → list pull;
  next_number : World → string → string → Z;
}.

(** What the service does to its pull requests. A call that it answers with an error changed
    nothing: so answers that are lost on the way are left out. *)
Class ForgeLaws `{!GitHub} `{!Forge} : Prop := {
  forge_list : ∀ w owner repo base head l, gh_pulls w owner repo base head = inr l →
    map pr_Number l = map (λ p, Some (p_number p)) (filter (between base head) (forge w owner repo));
  forge_create : ∀ w owner repo title head base body,
    forge (log (ECall "PullRequests.Create" [owner; repo; title; head; base; body]) w) owner repo =
      match gh_create_pull w owner repo title head base body with
      | inl _ => forge w owner repo
      | inr _ => forge w owner repo ++ [mkPull (next_number w owner repo) title head base body []]
      end;
  forge_create_number : ∀ w owner repo title head base body p,
    gh_create_pull w owner repo title head base body = inr p → pr_Number p = Some (next_number w owner repo);
  forge_next_fresh : ∀ w owner repo p, p ∈ forge w owner repo → p_number p ≠ next_number w owner repo;
  forge_edit : ∀ w owner repo n body,
    forge (log (ECall "PullRequests.Edit" [owner; repo; Itoa n; body]) w) owner repo =
      match gh_edit_pull w owner repo n body with
      | inl _ => forge w owner repo
      | inr _ => change n (with_body body) (forge w owner repo)
      end;
  forge_edit_number : ∀ w owner repo n body p,
    gh_edit_pull w owner repo n body = inr p → pr_Number p = Some n;
  forge_comment : ∀ w owner repo n comment,
    forge (log (ECall "Issues.CreateComment" [owner; repo; Itoa n; comment]) w) owner repo =
      match gh_create_comment w owner repo n comment with
      | inl _ => forge w owner repo
      | inr _ => change n (with_comment comment) (forge w owner repo)
      end;
  forge_read : ∀ w owner repo api args, api ∈ ["PullRequests.List"; "Issues.ListComments"] →
    forge (log (ECall api args) w) owner repo = forge w owner repo;
}.

(** The abstract step: the first pull request between the branches gets the body, or a new
    one is opened; then it gets the comments. *)
Definition publish (n : Z) (title body base head : string) (comments : list string) (ps : list pull) : list pull :=
  match filter (between base head) ps with
  | p :: _ => change (p_number p) (λ q, foldl (λ q c, with_comment c q) (with_body body q) comments) ps
  | [] => ps ++ [mkPull n title head base body comments]
  end.

Lemma change_change n f g ps : (∀ p, p_number (f p) = p_number p) →
  change n g (change n f ps) = change n (λ p, g (f p)) ps.
Proof.
  intros Hf. unfold change. rewrite map_map. apply map_ext. intros p.
  cbn beta. destruct (decide (p_number p = n)) as [E|E].
  - rewrite (bool_decide_eq_true_2 (p_number p = n)) by done.
    by rewrite (bool_decide_eq_true_2 (p_number (f p) = n)) by (by rewrite Hf).
  - rewrite (bool_decide_eq_false_2 (p_number p = n)) by done.
    by rewrite (bool_decide_eq_false_2 (p_number p = n)).
Qed.

Lemma change_other n f ps : (∀ p, p ∈ ps → p_number p ≠ n) → change n f ps = ps.
Proof.
  intros H. induction ps as [|p ps IH]; [done|]. cbn [change map].
  rewrite bool_decide_eq_false_2 by (apply H; left).
  f_equal. apply IH. intros q Hq. apply H. by right.
Qed.

Lemma change_last n f ps q : (∀ p, p ∈ ps → p_number p ≠ n) → p_number q = n →
  change n f (ps ++ [q]) = ps ++ [f q].
Proof.
  intros H <-. unfold change at 1. rewrite map_app. fold (change (p_number q) f ps).
  rewrite change_other by done. cbn [map]. by rewrite bool_decide_eq_true_2.
Qed.

Section published.
Context `{HG : !GitHub} `{HF : !Forge} `{HFL : !ForgeLaws}.

(** One call followed by the rest: either the call failed, or the rest ran from the world
    with the call logged. *)
Lemma bind_api {A B} msg name args (answer : World → string + A) (k : A → prog B) w o w' :
  (wrap msg (api name args answer) ≫= k) w = (o, w') →
  (w' = log (ECall name args) w ∧ (∀ b, o ≠ Ret b) ∧ ∃ e, answer w = inl e) ∨
  ∃ a, answer w = inr a ∧ k a (log (ECall name args) w) = (o, w').
Proof using.
  unfold wrap, recover, api, fail, mbind, go_mbind, go_bind.
  destruct (answer w) as [e|a]; intros H; [left|right; by exists a].
  simplify_eq. split; [done|]. split; [done|]. by exists e.
Qed.

Lemma bind_edit {B} name args (answer : World → string * option PullRequest + PullRequest)
    (k : PullRequest → prog B) w o w' :
  ((api name args (λ w, inr (answer w)) ≫= edited) ≫= k) w = (o, w') →
  (w' = log (ECall name args) w ∧ (∀ b, o ≠ Ret b) ∧ ∃ e, answer w = inl e) ∨
  ∃ a, answer w = inr a ∧ k a (log (ECall name args) w) = (o, w').
Proof using.
  unfold api, edited, deref, panic, fail, mbind, go_mbind, go_bind.
  destruct (answer w) as [[e p]|a]; intros H; [left|right; by exists a].
  destruct p; injection H as <- <-; (split_and!; [done|done|by eexists]).
Qed.

(** A pointer read before the rest. *)
Lemma bind_deref {A B} (p : option A) (k : A → prog B) w o w' :
  (deref p ≫= k) w = (o, w') →
  (w' = w ∧ ∀ b, o ≠ Ret b) ∨ ∃ a, p = Some a ∧ k a w = (o, w').
Proof using.
  destruct p as [a|]; [right; by exists a|]. left. unfold deref, panic, mbind, go_mbind, go_bind in H.
  by simplify_eq.
Qed.

Definition ours (owner : string) (w : World) : list pull := forge w owner BuildToolingRepoName.

Lemma read_ours owner api args w : api ∈ ["PullRequests.List"; "Issues.ListComments"] →
  ours owner (log (ECall api args) w) = ours owner w.
Proof using HFL. apply forge_read. Qed.

(** The last call: the comment, if there has to be one. *)
Lemma comment_step (c : bool) p n owner comment w o w' : pr_Number p = Some n →
  when c (number ← deref (pr_Number p);
    recover (api "Issues.CreateComment" [owner; BuildToolingRepoName; Itoa number; comment]
              (λ w, gh_create_comment w owner BuildToolingRepoName number comment))
      (λ e, url ← deref (HTMLURL p);
            fail ("commenting failed patch apply warning on pull request [" +:+ url +:+ "]: " +:+ e))) w = (o, w') →
  (ours owner w' = ours owner w ∧ (o = Ret tt → c = false)) ∨
  (ours owner w' = change n (with_comment comment) (ours owner w) ∧ c = true ∧ o = Ret tt).
Proof using HFL.
  intros Hn H. destruct c; cbn [when] in H; [|left; cbv in H; by simplify_eq].
  rewrite Hn, (bind_step _ _ w n w) in H by done.
  pose proof (forge_comment w owner BuildToolingRepoName n comment) as Hc. fold (ours owner) in Hc.
  unfold recover, api in H. destruct (gh_create_comment _ _ _ _ _) as [e|[]]; simplify_eq.
  - left. destruct (HTMLURL p); cbv [deref panic fail mbind go_mbind go_bind mret go_mret go_ret] in H;
      simplify_eq; split; done.
  - by right.
Qed.

(** An existing pull request: the edit, then perhaps a look at its comments. *)
Lemma edit_existing_cases p body owner (warn : bool) n w o w' : pr_Number p = Some n →
  edit_existing p body owner warn w = (o, w') →
  (ours owner w' = ours owner w ∨ ours owner w' = change n (with_body body) (ours owner w)) ∧
  (∀ r, o = Ret r → ours owner w' = change n (with_body body) (ours owner w) ∧
    pr_Number r.1 = Some n ∧ r.2 = false).
Proof using HFL.
  intros Hn H. unfold edit_existing in H.
  apply bind_deref in H as [[-> ?]|(url & _ & H)]; [naive_solver|].
  apply bind_deref in H as [[-> ?]|(n' & Hn' & H)]; [naive_solver|].
  rewrite Hn in Hn'. injection Hn' as <-.
  pose proof (forge_edit w owner BuildToolingRepoName n body) as He.
  change (forge ?v owner BuildToolingRepoName) with (ours owner v) in He.
  apply bind_edit in H as [(-> & ? & e & Hx)|(q & Hx & H)]; rewrite Hx in He; [naive_solver|].
  apply forge_edit_number in Hx.
  set (w1 := log _ w) in *.
  assert (∀ w2 r, ours owner w2 = ours owner w1 → r = (q, false) →
    (o, w') = (Ret r, w2) → (ours owner w' = ours owner w ∨ ours owner w' = change n (with_body body) (ours owner w)) ∧
    (∀ r, o = Ret r → ours owner w' = change n (with_body body) (ours owner w) ∧
      pr_Number r.1 = Some n ∧ r.2 = false)) as Hdone.
  { intros w2 r Hw2 -> [= -> ->]. rewrite Hw2, He. split; [by right|]. by intros r [= <-]. }
  destruct warn; [|by apply (Hdone w1 (q, false)); [done..|by rewrite <-H]].
  apply bind_deref in H as [[-> H]|(n' & Hn' & H)]; [rewrite He; split; [by right|by intros r ->; destruct (H r)]|].
  assert (∀ args, ours owner (log (ECall "Issues.ListComments" args) w1) = ours owner w1) as Hl.
  { intros args. apply read_ours. right. left. }
  apply bind_api in H as [(-> & H & _)|(cs & _ & H)]; [rewrite Hl, He; split; [by right|by intros r ->; destruct (H r)]|].
  eapply Hdone; [apply Hl| |by rewrite <-H]. by rewrite no_comment_found.
Qed.

(** A new pull request. *)
Lemma create_new_cases title body owner base head w o w' :
  create_new title body owner base head w = (o, w') →
  let n := next_number w owner BuildToolingRepoName in
  let opened := ours owner w ++ [mkPull n title head base body []] in
  (ours owner w' = ours owner w ∨ ours owner w' = opened) ∧
  (∀ p, o = Ret p → ours owner w' = opened ∧ pr_Number p = Some n).
Proof using HFL.
  intros H n opened. unfold create_new in H.
  pose proof (forge_create w owner BuildToolingRepoName title head base body) as He.
  change (forge ?v owner BuildToolingRepoName) with (ours owner v) in He.
  apply bind_api in H as [(-> & ? & e & Hx)|(q & Hx & H)]; rewrite Hx in He; [naive_solver|].
  apply forge_create_number in Hx.
  apply bind_deref in H as [[-> ?]|(url & _ & H)]; [naive_solver|].
  injection H as <- <-. split; [by right|]. by intros p [= <-].
Qed.

(** The step up to its comment; [m] is the number the comment goes to. *)
Lemma first_phase l title body owner base head (warn : bool) comment w o w' :
  let n := next_number w owner BuildToolingRepoName in
  let step cs := publish n title body base head cs (ours owner w) in
  map pr_Number l = map (λ p, Some (p_number p)) (filter (between base head) (ours owner w)) →
  match l with
  | p :: _ => edit_existing p body owner warn
  | [] => p ← create_new title body owner base head; mret (p, false)
  end w = (o, w') →
  (ours owner w' = ours owner w ∨ ours owner w' = step []) ∧
  (∀ r, o = Ret r → ours owner w' = step [] ∧ r.2 = false ∧
    ∃ m, pr_Number r.1 = Some m ∧ change m (with_comment comment) (ours owner w') = step [comment]).
Proof using HFL.
  intros n step Hl H. unfold step, publish.
  destruct l as [|p l], (filter (between base head) (ours owner w)) as [|q qs]; try done; cbn [foldl].
  - apply bind_any in H as [(p & w2 & Hp & H)|(o1 & Hp & Hne & Ho)]; apply create_new_cases in Hp as [Hw Hret].
    + injection H as <- <-. destruct (Hret p eq_refl) as [-> Hm]. split; [by right|]. intros r [= <-].
      split; [done|]. split; [done|]. exists n. split; [done|].
      by rewrite change_last by (done || intros r; apply forge_next_fresh).
    + split; [done|]. intros r ->. by destruct (Ho r).
  - injection Hl as Hp _. apply (edit_existing_cases _ _ _ _ _ _ _ _ Hp) in H as [Hw Hret].
    split; [done|]. intros r Hr. destruct (Hret r Hr) as (-> & Hm & Hr2). split; [done|]. split; [done|].
    exists (p_number q). split; [done|]. by rewrite change_change.
Qed.

(** C6: [CreatePullRequest] refines [publish]. When a call returns, the pull requests of
    the base repository are those of one abstract step: the first pull request from the head
    branch to the base branch has the new body, or else exactly one pull request with a fresh
    number was opened; and it has one more comment if the patches failed. When it does not
    return, the pull requests are unchanged, or those of the step without its comment. The
    service is assumed to have changed nothing when it answers a call with an error: a
    change whose answer is lost is outside this statement. *)
Theorem pull_request_published title body owner base headOwner headBranch warn comment w o w' :
  CreatePullRequest title body owner base headOwner headBranch warn comment w = (o, w') →
  let head := headOwner +:+ ":" +:+ headBranch in
  let step := λ n cs, publish n title body base head cs (ours owner w) in
  ∃ n, (∀ p, p ∈ ours owner w → p_number p ≠ n) ∧
    (o = Ret tt → ours owner w' = step n (if warn then [comment] else [])) ∧
    (o ≠ Ret tt → ours owner w' = ours owner w ∨ ours owner w' = step n []).
Proof using HFL.
  intros H head step. unfold CreatePullRequest in H. fold head in H.
  assert (∀ args, ours owner (log (ECall "PullRequests.List" args) w) = ours owner w) as Hl.
  { intros args. apply read_ours. left. }
  apply bind_api in H as [(-> & Ho & _)|(l & Hx & H)].
  { rewrite Hl. exists (next_number w owner BuildToolingRepoName).
    split; [intros p; apply forge_next_fresh|]. naive_solver. }
  apply forge_list in Hx. set (w1 := log _ w) in *.
  change (forge w owner BuildToolingRepoName) with (ours owner w) in Hx. unfold step. rewrite <-(Hl _ : ours owner w1 = _) in Hx |- *.
  exists (next_number w1 owner BuildToolingRepoName). split; [intros p; apply forge_next_fresh|].
  apply bind_any in H as [(r & w2 & Hr & H)|(o1 & Hr & _ & Ho)];
    apply (first_phase l title body owner base head warn comment) in Hr as [Hw Hret]; [|done| |done].
  - destruct (Hret r eq_refl) as (Hw2 & Hr2 & m & Hm & Hc). rewrite Hr2, andb_true_r in H.
    apply (comment_step _ _ m) in H as [[-> Hc']|(-> & -> & ->)]; [..|done].
    + rewrite Hw2. split; [|naive_solver]. intros Hret'. by rewrite Hc'.
    + by rewrite Hc.
  - split; [intros ->; by destruct (Ho tt)|]. done.
Qed.
End published.

(** ** A forge that works *)

(** The pull requests after the calls of a trace, all of which succeeded. *)
Definition forge_step (owner repo : string) (ps : list pull) (e : event) : list pull :=
  match e with
  | ECall api (o :: r :: args) =>
      if negb ((o =s owner) && (r =s repo)) then ps else
      if api =s "PullRequests.Create" then
        match args with
        | [title; head; base; body] => ps ++ [mkPull (Z.of_nat (S (length ps))) title head base body []]
        | _ => ps
        end
      else
        match args with
        | [n; text] =>
            map (λ p, if Itoa (p_number p) =s n then
                        if api =s "PullRequests.Edit" then with_body text p
                        else if api =s "Issues.CreateComment" then with_comment text p else p
                      else p) ps
        | _ => ps
        end
  | _ => ps
  end.

Definition sample_pulls (w : World) (owner repo : string) : list pull :=
  foldl (forge_step owner repo) [] (w_trace w).

Definition sample_number (w : World) (owner repo : string) : Z :=
  Z.of_nat (S (length (sample_pulls w owner repo))).

Definition sample_forge_github : GitHub := {|
  gh_releases _ _ _ _ := inl ""; gh_tags _ _ _ _ := inl ""; gh_commits _ _ _ _ := inl "";
  gh_commit_date _ _ _ _ := inl ""; gh_contents _ _ _ _ _ := inl ""; gh_release_assets _ _ _ _ := inl "";
  gh_pulls w owner repo base head := inr (map (λ p, mkPullRequest (Some "url") (Some (p_number p)) (Some (p_body p)))
    (filter (between base head) (sample_pulls w owner repo)));
  gh_edit_pull w owner repo n body := inr (mkPullRequest (Some "url") (Some n) (Some body));
  gh_create_pull w owner repo title head base body :=
    inr (mkPullRequest (Some "url") (Some (sample_number w owner repo)) (Some body));
  gh_comments _ _ _ _ := inr []; gh_create_comment _ _ _ _ _ := inr tt; gh_page_fuel := 0 |}.

Definition sample_forge : @Forge sample_forge_github :=
  @Build_Forge sample_forge_github sample_pulls sample_number.

Lemma sample_pulls_log e w owner repo :
  sample_pulls (log e w) owner repo = forge_step owner repo (sample_pulls w owner repo) e.
Proof. unfold sample_pulls, log. cbn [w_trace]. by rewrite foldl_snoc. Qed.

Lemma change_itoa n f ps :
  map (λ p, if Itoa (p_number p) =s Itoa n then f p else p) ps = change n f ps.
Proof.
  unfold change. apply map_ext. intros p. unfold streq. erewrite bool_decide_ext; [done|].
  split; [apply (inj pretty)|by intros ->].
Qed.

Lemma sample_pulls_numbers w owner repo :
  map p_number (sample_pulls w owner repo) = map Z.of_nat (List.seq 1 (length (sample_pulls w owner repo))).
Proof.
  unfold sample_pulls. induction (w_trace w) as [|e l IH] using rev_ind; [done|].
  rewrite foldl_snoc. set (ps := foldl _ _ l) in *. clearbody ps.
  assert (∀ (f : pull → pull), (∀ p, p_number (f p) = p_number p) →
    map p_number (map f ps) = map Z.of_nat (List.seq 1 (length (map f ps)))) as Hf.
  { intros f Hf. rewrite length_map, <-IH, map_map. by apply map_ext. }
  unfold forge_step. destruct e as [| | | | | | | | | | | | | | | | |api [|o [|r args]]]; try done.
  destruct (negb _); [done|]. destruct (api =s "PullRequests.Create").
  - destruct args as [|title [|head [|base [|body [|]]]]]; try done.
    rewrite length_app, map_app, IH. cbn [length]. by rewrite seq_app, map_app.
  - destruct args as [|n [|text [|]]]; try done. apply Hf. intros p. by repeat destruct (_ =s _).
Qed.

Lemma sample_forge_laws : @ForgeLaws sample_forge_github sample_forge.
Proof.
  split; cbn [forge sample_forge gh_pulls gh_edit_pull gh_create_pull gh_create_comment next_number sample_forge_github].
  - intros * [= <-]. by rewrite map_map.
  - intros. rewrite sample_pulls_log. cbn [forge_step]. by rewrite !streq_refl.
  - intros w owner repo title head base body p H. by injection H as <-.
  - intros w owner repo p Hp. unfold sample_number.
    apply (list_elem_of_fmap_2 p_number) in Hp.
    change (p_number <$> sample_pulls w owner repo) with (map p_number (sample_pulls w owner repo)) in Hp.
    rewrite sample_pulls_numbers in Hp. apply list_elem_of_fmap in Hp as (i & -> & Hi).
    apply list_elem_of_In, in_seq in Hi. lia.
  - intros. rewrite sample_pulls_log. cbn [forge_step]. rewrite !streq_refl. cbn [negb andb]. apply change_itoa.
  - intros w owner repo n body p H. by injection H as <-.
  - intros. rewrite sample_pulls_log. cbn [forge_step]. rewrite !streq_refl. cbn [negb andb]. apply change_itoa.
  - intros w owner repo api args Hapi. rewrite sample_pulls_log.
    destruct args as [|o [|r args]]; [done..|]. cbn [forge_step]. destruct (negb _); [done|].
    assert ((api =s "PullRequests.Create") = false ∧ (api =s "PullRequests.Edit") = false ∧
      (api =s "Issues.CreateComment") = false) as (-> & -> & ->).
    { by apply elem_of_cons in Hapi as [->|[->|?%not_elem_of_nil]%elem_of_cons]. }
    destruct args as [|n [|text [|]]]; try done. rewrite <-(map_id (sample_pulls w owner repo)) at 2.
    apply map_ext. intros p. by destruct (_ =s _).
Qed.

(** One pull request from the branch exists. *)
Definition forge_world : World :=
  log (ECall "PullRequests.Create" ["aws"; BuildToolingRepoName; "t"; "bot:update"; "main"; "old"]) empty_world.

Lemma pull_request_published_witness :
  ∃ w', CreatePullRequest (HG := sample_forge_github) "Bump" "new" "aws" "main" "bot" "update" true "failed" forge_world =
    (Ret tt, w') ∧
  ∃ n, (∀ p, p ∈ ours (HF := sample_forge) "aws" forge_world → p_number p ≠ n) ∧
    (Ret tt = Ret tt → ours (HF := sample_forge) "aws" w' = publish n "Bump" "new" "main" "bot:update" ["failed"]
      (ours (HF := sample_forge) "aws" forge_world)) ∧
    (Ret tt ≠ Ret tt → ours (HF := sample_forge) "aws" w' = ours (HF := sample_forge) "aws" forge_world ∨
      ours (HF := sample_forge) "aws" w' = publish n "Bump" "new" "main" "bot:update" [] (ours (HF := sample_forge) "aws" forge_world)).
Proof.
  eexists. split; [vm_compute; reflexivity|].
  eapply (pull_request_published (HF := sample_forge) (HFL := sample_forge_laws)
    "Bump" "new" "aws" "main" "bot" "update" true "failed" forge_world (Ret tt)).
  vm_compute; reflexivity.
Defined.

Example published_ex : ∀ w', CreatePullRequest (HG := sample_forge_github) "Bump" "new" "aws" "main" "bot" "update"
    true "failed" forge_world = (Ret tt, w') →
  ours (HF := sample_forge) "aws" w' = [mkPull 1 "t" "bot:update" "main" "new" ["failed"]].
Proof. intros w' [= <-]. vm_compute. reflexivity. Qed.
