(* ===== verification/VTGit.v ===== *)
(** * version-tracker: pkg/git/git.go

    The operations on the cloned repository. go-git is [Git]: each call may fail with one of
    the errors the code tells apart, and leaves the files of the machine in some state. A
    call is recorded in the trace with the repository's directory first. Progress output is
    left out. *)
From S2P Require Import Prelude GoStrings World VTTypes.
From stdpp Require Import base tactics strings list gmap.

Local Open Scope string_scope.
Local Open Scope list_scope.

Inductive git_error :=
| ErrRepositoryAlreadyExists
| ErrRemoteExists
| NoErrAlreadyUpToDate
| GitError (msg : string).

Class Git := {
  git_call : World → string → list string → option git_error * gmap string node;
  git_resolve : World → string → string → string + string;
}.

Section git.
Context `{HH : !Host} `{HGit : !Git}.

Definition git_op (op : string) (args : list string) : prog (option git_error) := λ w,
  let r := git_call w op args in
  (Ret r.1, set_fs r.2 (log (ECall ("git." +:+ op) args) w)).

(** The same, when every error ends the caller. *)
Definition git_do (msg op : string) (args : list string) : prog unit :=
  e ← git_op op args;
  match e with None => mret tt | Some _ => fail msg end.

Definition ResolveRevision (repo revision : string) : prog string := λ w,
  let w' := log (ECall "git.ResolveRevision" [repo; revision]) w in
  match git_resolve w repo revision with inl e => (Err e, w') | inr c => (Ret c, w') end.

(** The repository is known by its directory; what is returned is its HEAD commit. *)
Definition CloneRepo (cloneURL destination headRepoOwner : string) : prog string :=
  err ← git_op "PlainClone" [destination; cloneURL];
  _ ← match err with
      | None => mret tt
      | Some ErrRepositoryAlreadyExists =>
          git_do ("opening repo from " +:+ destination +:+ " directory") "PlainOpen" [destination]
      | Some _ => fail ("cloning repo " +:+ cloneURL +:+ " to " +:+ destination +:+ " directory")
      end;
  repoHeadCommit ← wrap "resolving revision to commit hash" (ResolveRevision destination BaseRepoHeadRevision);
  repoHeadCommitHash ← index (Split repoHeadCommit " ") 0;
  _ ← when (negb (headRepoOwner =s "")) (
    err ← git_op "CreateRemote" [destination; headRepoOwner;
      "https://github.com/" +:+ headRepoOwner +:+ "/" +:+ BuildToolingRepoName +:+ ".git"];
    match err with
    | None | Some ErrRemoteExists => mret tt
    | Some _ => fail ("creating remote " +:+ headRepoOwner)
    end);
  mret repoHeadCommitHash.

Definition Worktree (repo : string) : prog unit :=
  git_do "getting worktree" "Worktree" [repo].

Definition ResetToMain (repo baseRepoHeadCommit : string) : prog unit :=
  git_do ("resetting to origin HEAD commit " +:+ baseRepoHeadCommit) "Reset" [repo; baseRepoHeadCommit; "hard"].

Definition Checkout (repo branch : string) : prog unit :=
  git_do ("checking out branch [" +:+ branch +:+ "]") "Checkout" [repo; "refs/heads/" +:+ branch; "keep"; "create"].

Definition git_Add (repo : string) (paths : list string) : prog unit :=
  forM paths (λ path, git_do ("adding file [" +:+ path +:+ "] to the index") "Add" [repo; path]).

Definition env_or (name default_value : string) : prog string :=
  v ← LookupEnv name;
  mret (default default_value v).

Definition git_Commit (repo commitMessage : string) : prog unit :=
  commitAuthorName ← env_or CommitAuthorNameEnvvar DefaultCommitAuthorName;
  commitAuthorEmail ← env_or CommitAuthorEmailEnvvar DefaultCommitAuthorEmail;
  git_do "committing file(s) in the index" "Commit" [repo; commitMessage; commitAuthorName; commitAuthorEmail].

(** The branch only appears in a log message: every reference is pushed. *)
Definition Push (repo headRepoOwner githubToken : string) : prog unit :=
  err ← git_op "Push" [repo; headRepoOwner; "+refs/*:refs/*"; headRepoOwner; githubToken; "force"];
  match err with
  | None | Some NoErrAlreadyUpToDate => mret tt
  | Some _ => fail ("pushing changes to remote " +:+ headRepoOwner)
  end.

(** ** What the operations leave in the trace *)
Definition as_git (e : event) : option (string * list string) :=
  match e with
  | ECall api args => if HasPrefix api "git." then Some (api, args) else None
  | _ => None
  end.

Lemma git_op_ret op args w r w' : git_op op args w = (Ret r, w') →
  w' = set_fs (git_call w op args).2 (log (ECall ("git." +:+ op) args) w) ∧ r = (git_call w op args).1.
Proof. intros [= <- <-]. done. Qed.

Lemma preserves_git_op (R : World → World → Prop) `{!PreOrder R} op args :
  (∀ w, R w (log (ECall ("git." +:+ op) args) w)) → (∀ fs w, R w (set_fs fs w)) → preserves R (git_op op args).
Proof. intros Hl Hf w o w' [= <- <-]. etrans; [apply Hl|apply Hf]. Qed.

Lemma preserves_git_do (R : World → World → Prop) `{!PreOrder R} msg op args :
  (∀ w, R w (log (ECall ("git." +:+ op) args) w)) → (∀ fs w, R w (set_fs fs w)) → preserves R (git_do msg op args).
Proof.
  intros Hl Hf. apply preserves_bind; [done|by apply preserves_git_op|]. intros [e|]; auto with go.
Qed.

Lemma preserves_resolve (R : World → World → Prop) `{!PreOrder R} repo rev :
  (∀ w, R w (log (ECall "git.ResolveRevision" [repo; rev]) w)) → preserves R (ResolveRevision repo rev).
Proof. intros Hl w o w'. unfold ResolveRevision. destruct (git_resolve w repo rev); intros; by simplify_eq. Qed.

Lemma emits_git_op {X} (f : event → option X) op args :
  emits f (git_op op args) (option_list (f (ECall ("git." +:+ op) args))).
Proof. intros w o w' [= <- <-]. eexists. split; [done|]. by rewrite obs_set_fs, obs_log. Qed.

Lemma emits_git_do {X} (f : event → option X) msg op args :
  emits f (git_do msg op args) (option_list (f (ECall ("git." +:+ op) args))).
Proof.
  apply emits_before; [apply emits_git_op|]. intros [e|]; auto with go typeclass_instances.
Qed.

Lemma emits_Add repo paths :
  emits as_git (git_Add repo paths) (map (λ p, ("git.Add", [repo; p])) paths).
Proof.
  assert (map (λ p, ("git.Add", [repo; p])) paths = flat_map (λ p, [("git.Add", [repo; p])]) paths) as ->.
  { induction paths; [done|]. cbn [map flat_map app]. by f_equal. }
  apply emits_forM. intros p. apply (emits_git_do as_git _ "Add").
Qed.
End git.
#[export] Hint Resolve preserves_git_op preserves_git_do preserves_resolve : go.
