(* ===== verification/VTEksd.v ===== *)
(** * version-tracker: the EKS Distro releases file

    [updateEKSDistroReleasesFile] and its helpers in [pkg/commands/upgrade/upgrade.go]: the
    number and Kubernetes version of each supported release branch are read from the
    eks-distro repository and stored in [EKSD_LATEST_RELEASES] when they changed. *)
From S2P Require Import Prelude GoStrings Base64 World VTTypes VTUtil VTGithub.
From stdpp Require Import base tactics strings list gmap.

Local Open Scope string_scope.
Local Open Scope list_scope.

Section eksd.
Context `{HH : !Host} `{HL : !VTLib} `{HG : !GitHub}.

Definition getSupportedReleaseBranches (buildToolingRepoPath : string) : prog (list string) :=
  contents ← wrap "reading supported release branches file"
    (ReadFile (PathJoin [buildToolingRepoPath; SupportedReleaseBranchesFile]));
  mret (Split (TrimRight contents nl) nl).

Definition getLatestEKSDistroRelease (branch : string) : prog (Z * string) :=
  releaseNumber ← wrap "getting contents of EKS Distro prod release number file"
    (GetFileContents "aws" "eks-distro" (Sprintf1 EKSDistroProdReleaseNumberFileFormat branch) MainBranchName);
  kubeVersion ← wrap "getting contents of Kubernetes Git tag file"
    (GetFileContents "aws" "eks-distro" (Sprintf1 KubernetesGitTagFileFormat branch) MainBranchName);
  match Atoi (TrimRight releaseNumber nl) with
  | None => fail "converting release number to integer"
  | Some releaseNumberInt => mret (releaseNumberInt, TrimRight kubeVersion nl)
  end.

(** [yaml.Unmarshal] into the struct of the file: a number that is no Go [int] is an error. *)
Definition is_int (z : Z) : bool := bool_decide (int64_min ≤ z ≤ int64_max)%Z.

Definition unmarshal_eksd (contents : string) : option EKSDistroLatestReleases :=
  match yaml_eksd contents with
  | Some rels => if forallb (λ r, is_int (Number r)) (Releases rels) then Some rels else None
  | None => None
  end.

(** One round of the loop over the releases: [acc] are the releases already looked at and
    whether one of them was updated. *)
Definition refresh_release (supportedReleaseBranches : list string)
    (acc : list EKSDistroRelease * bool) (r : EKSDistroRelease) : prog (list EKSDistroRelease * bool) :=
  if slices_Contains supportedReleaseBranches (Branch r) then
    latest ← wrap ("getting latest EKS Distro release for " +:+ Branch r +:+ " branch")
      (getLatestEKSDistroRelease (Branch r));
    if negb (bool_decide (Number r = latest.1)) || negb (KubeVersion r =s latest.2)
    then mret (acc.1 ++ [mkEKSDistroRelease (Branch r) latest.2 latest.1 (Dev r)], true)
    else mret (acc.1 ++ [r], acc.2)
  else mret (acc.1 ++ [r], acc.2).

Definition updateEKSDistroReleasesFile (buildToolingRepoPath : string) : prog bool :=
  let eksDistroReleasesFilepath := PathJoin [buildToolingRepoPath; EKSDistroLatestReleasesFile] in
  contents ← wrap "reading EKS Distro latest releases file" (ReadFile eksDistroReleasesFilepath);
  match unmarshal_eksd contents with
  | None => fail "unmarshalling EKS Distro latest releases file"
  | Some eksDistroLatestReleases =>
      supportedReleaseBranches ← wrap "getting supported EKS Distro release branches"
        (getSupportedReleaseBranches buildToolingRepoPath);
      r ← foldM (Releases eksDistroLatestReleases) ([], false) (refresh_release supportedReleaseBranches);
      _ ← when r.2 (wrap "writing EKS Distro latest releases file"
        (WriteFile eksDistroReleasesFilepath
          (print_eksd (mkEKSDistroLatestReleases r.1 (Latest eksDistroLatestReleases))) 420));
      mret r.2
  end.

(** ** What is published *)

(** The texts of the two files of a branch, as the service answers at any time. *)
Definition published (branch releaseText kubeText : string) : Prop :=
  ∀ w, (∃ t, gh_contents w "aws" "eks-distro" (Sprintf1 EKSDistroProdReleaseNumberFileFormat branch) "main" = inr (Some t) ∧
          DecodeString t = Some releaseText) ∧
       (∃ t, gh_contents w "aws" "eks-distro" (Sprintf1 KubernetesGitTagFileFormat branch) "main" = inr (Some t) ∧
          DecodeString t = Some kubeText).

Lemma GetFileContents_eq org repo path ref t s w : gh_contents w org repo path ref = inr (Some t) →
  DecodeString t = Some s →
  GetFileContents org repo path ref w = (Ret s, log (ECall "Repositories.GetContents" [org; repo; path; ref]) w).
Proof using.
  intros Ht Hs. unfold GetFileContents.
  rewrite (bind_step _ _ _ _ _ (wrap_api_ok _ "Repositories.GetContents" _ (λ w, gh_contents w org repo path ref) w _ Ht)).
  rewrite (bind_step _ _ _ t _) by done. by rewrite Hs.
Qed.

Lemma latest_release_ret branch releaseText kubeText w n kube w' : published branch releaseText kubeText →
  getLatestEKSDistroRelease branch w = (Ret (n, kube), w') →
  Atoi (TrimRight releaseText nl) = Some n ∧ kube = TrimRight kubeText nl.
Proof using.
  intros Hp H. unfold getLatestEKSDistroRelease in H.
  destruct (Hp w) as [(t1 & Ht1 & Hs1) _].
  rewrite (bind_step _ _ _ _ _ (wrap_ok _ _ _ _ _ (GetFileContents_eq _ _ _ _ _ _ _ Ht1 Hs1))) in H.
  set (w1 := log _ w) in H. destruct (Hp w1) as [_ (t2 & Ht2 & Hs2)].
  rewrite (bind_step _ _ _ _ _ (wrap_ok _ _ _ _ _ (GetFileContents_eq _ _ _ _ _ _ _ Ht2 Hs2))) in H.
  destruct (Atoi _) as [v|]; [|done]. by injection H as <- <- _.
Qed.

(** The release a branch should have: the published one when it is supported. *)
Definition latest_release (supported : list string) (texts : string → string * string) (r : EKSDistroRelease)
    : option EKSDistroRelease :=
  if bool_decide (Branch r ∈ supported) then
    n ← Atoi (TrimRight (texts (Branch r)).1 nl);
    Some (mkEKSDistroRelease (Branch r) (TrimRight (texts (Branch r)).2 nl) n (Dev r))
  else Some r.

Lemma refresh_release_ret supported texts acc r w acc' w' :
  (Branch r ∈ supported → published (Branch r) (texts (Branch r)).1 (texts (Branch r)).2) →
  refresh_release supported acc r w = (Ret acc', w') →
  ∃ r', latest_release supported texts r = Some r' ∧
    acc' = (acc.1 ++ [r'], acc.2 || bool_decide (r' ≠ r)).
Proof using.
  intros Hp H. unfold refresh_release in H. unfold latest_release.
  destruct (slices_Contains supported (Branch r)) eqn:Hs.
  - apply slices_Contains_spec in Hs. specialize (Hp Hs). rewrite bool_decide_eq_true_2 by done.
    apply bind_ret_inv in H as ([n kube] & w1 & Hx & H). apply wrap_ret in Hx.
    apply (latest_release_ret _ _ _ _ _ _ _ Hp) in Hx as [Hn ->]. rewrite Hn. cbn [mbind option_bind fst snd] in *.
    eexists. split; [done|]. destruct r as [b k m d]. cbn [Number KubeVersion Branch Dev] in *.
    destruct (decide (m = n)) as [->|Hne].
    + rewrite bool_decide_eq_true_2 in H by done. cbn [negb orb] in H.
      destruct (k =s _) eqn:Hk; cbn [negb] in H; injection H as <- _.
      * apply streq_true in Hk as ->. by rewrite bool_decide_eq_false_2, orb_false_r by naive_solver.
      * apply streq_false in Hk. rewrite bool_decide_eq_true_2 by congruence. by rewrite orb_true_r.
    + rewrite bool_decide_eq_false_2 in H by done. cbn [negb orb] in H. injection H as <- _.
      rewrite bool_decide_eq_true_2 by congruence. by rewrite orb_true_r.
  - rewrite bool_decide_eq_false_2 by (rewrite <-slices_Contains_spec, Hs; done). exists r. split; [done|].
    injection H as <- _. by rewrite bool_decide_eq_false_2, orb_false_r by naive_solver.
Qed.

Lemma refresh_releases_ret supported texts rels acc w acc' w' :
  Forall (λ r, Branch r ∈ supported → published (Branch r) (texts (Branch r)).1 (texts (Branch r)).2) rels →
  foldM rels acc (refresh_release supported) w = (Ret acc', w') →
  ∃ new, mapM (latest_release supported texts) rels = Some new ∧
    acc' = (acc.1 ++ new, acc.2 || bool_decide (new ≠ rels)).
Proof using.
  intros Hp. revert acc w. induction Hp as [|r rels Hr Hp IH]; intros acc w H; cbn [foldM] in H.
  - apply mret_ret in H as [<- _]. exists []. split; [done|].
    rewrite app_nil_r, bool_decide_eq_false_2, orb_false_r by naive_solver. by destruct acc.
  - apply bind_ret_inv in H as (acc1 & w1 & Hx & H).
    apply (refresh_release_ret _ texts) in Hx as (r' & Hr' & ->); [|done].
    apply IH in H as (new & Hnew & ->). exists (r' :: new). split.
    { cbn [mapM]. rewrite Hr'. cbn [mbind option_bind]. by rewrite Hnew. }
    cbn [fst snd]. rewrite <-app_assoc, <-orb_assoc. do 2 f_equal.
    rewrite <-bool_decide_or. apply bool_decide_ext.
    destruct (decide (r' = r)), (decide (new = rels)); naive_solver.
Qed.

Lemma refresh_same_fs supported acc r : preserves same_fs (refresh_release supported acc r).
Proof. unfold refresh_release, getLatestEKSDistroRelease, GetFileContents. quiet_solve. Qed.

Lemma ReadFile_content p w c w' content m : w_fs w !! p = Some (File content m) →
  ReadFile p w = (Ret c, w') → c = content ∧ w_fs w' = w_fs w.
Proof. intros Hp H. apply ReadFile_ret in H as [[m' Hm] ->]. by simplify_eq. Qed.

Lemma wrap_write_not_ret msg p c m w o w' : wrap msg (WriteFile p c m) w = (o, w') →
  (∀ b, o ≠ Ret b) → torn p c (w_fs w) (w_fs w').
Proof.
  unfold wrap, recover, fail. destruct (WriteFile p c m w) as [o1 w1] eqn:E. intros H Ho.
  destruct o1; simplify_eq; by apply WriteFile_not_ret in E as [_ ?].
Qed.

Lemma ParseInt_bounds s base n : ParseInt s base = Some n → (int64_min ≤ n ≤ int64_max)%Z.
Proof.
  unfold ParseInt. destruct (match s with EmptyString => _ | _ => _ end) as [neg body].
  destruct (body =s ""); [done|]. destruct (digits_value _ _ _) as [v|]; [|done].
  case_bool_decide; [|done]. by intros [= <-].
Qed.

Definition is_Int (r : EKSDistroRelease) : Prop := (int64_min ≤ Number r ≤ int64_max)%Z.

Lemma unmarshal_eksd_Some contents rels : unmarshal_eksd contents = Some rels →
  Forall is_Int (Releases rels).
Proof.
  unfold unmarshal_eksd. destruct (yaml_eksd contents) as [r|]; [|done].
  destruct (forallb _ _) eqn:E; intros [= <-]. rewrite forallb_forall in E.
  apply Forall_forall. intros x Hx%list_elem_of_In. apply E in Hx. by apply bool_decide_eq_true in Hx.
Qed.

Lemma latest_bounds supported texts rels new : Forall is_Int rels →
  mapM (latest_release supported texts) rels = Some new → Forall is_Int new.
Proof.
  intros Hb H. apply mapM_Some_1 in H. induction H as [|r r' rels new Hr H IH]; [constructor|].
  apply Forall_cons in Hb as [Hr0 Hb]. constructor; [|by apply IH].
  unfold latest_release in Hr. case_bool_decide as Hs; [|by injection Hr as <-].
  apply bind_Some in Hr as (n & Hn & [= <-]). by eapply ParseInt_bounds.
Qed.

(** C14: what an update of the EKS Distro releases writes. Let every release of the file
    whose branch is supported have the texts published that the service answers. When the
    update returns, each supported release has the published Kubernetes version and number
    and every other release is as it was; the update says so exactly when one of them
    changed, and only then is the file written, with the tag of the latest release and the
    order kept; every number of the file, of supported branches or not, is a 64-bit integer.
    When it does not return (a number outside 64 bits is an error), the files are as they
    were, except that a write that failed half way may have left the first bytes of the new
    contents in the releases file. *)
Theorem eksd_releases_updated path w o w' contents m rels supportedText m' texts :
  let file := PathJoin [path; EKSDistroLatestReleasesFile] in
  w_fs w !! file = Some (File contents m) → unmarshal_eksd contents = Some rels →
  w_fs w !! PathJoin [path; SupportedReleaseBranchesFile] = Some (File supportedText m') →
  let supported := Split (TrimRight supportedText nl) nl in
  Forall (λ r, Branch r ∈ supported → published (Branch r) (texts (Branch r)).1 (texts (Branch r)).2) (Releases rels) →
  updateEKSDistroReleasesFile path w = (o, w') →
  let written new := print_eksd (mkEKSDistroLatestReleases new (Latest rels)) in
  (∀ b, o = Ret b → ∃ new, mapM (latest_release supported texts) (Releases rels) = Some new ∧
     b = bool_decide (new ≠ Releases rels) ∧
     w_fs w' = (if b then <[file := File (written new) m]> (w_fs w) else w_fs w) ∧
     Forall is_Int new) ∧
  ((∀ b, o ≠ Ret b) → w_fs w' = w_fs w ∨
     ∃ new, mapM (latest_release supported texts) (Releases rels) = Some new ∧ new ≠ Releases rels ∧
       torn file (written new) (w_fs w) (w_fs w')).
Proof using.
  intros file Hfile Hyaml Hsup supported Hpub H written. unfold updateEKSDistroReleasesFile in H. fold file in H.
  apply bind_any in H as [(c & w1 & Hx & H)|(o1 & Hx & Ho1 & Ho)];
    [|same_fs_of Hx; split; [naive_solver|by left]].
  apply wrap_ret in Hx. apply (ReadFile_content _ _ _ _ _ _ Hfile) in Hx as [-> Hw1]. rewrite Hyaml in H.
  apply bind_any in H as [(l & w2 & Hx & H)|(o1 & Hx & Ho1 & Ho)];
    [|unfold getSupportedReleaseBranches in Hx; same_fs_of Hx; split; [naive_solver|left; congruence]].
  apply wrap_ret in Hx. unfold getSupportedReleaseBranches in Hx.
  apply bind_ret_inv in Hx as (st & w3 & Hx & Hl). apply wrap_ret in Hx. rewrite <-Hw1 in Hsup.
  apply (ReadFile_content _ _ _ _ _ _ Hsup) in Hx as [-> Hw3]. apply mret_ret in Hl as [<- <-]. fold supported in H.
  apply bind_any in H as [([new b] & w4 & Hx & H)|(o1 & Hx & Ho1 & Ho)].
  2:{ pose proof (preserves_foldM same_fs _ _ _ (refresh_same_fs supported) _ _ _ Hx) as Hw4.
      split; [naive_solver|]. left. unfold same_fs in Hw4. congruence. }
  pose proof (preserves_foldM same_fs _ _ _ (refresh_same_fs supported) _ _ _ Hx) as Hw4. unfold same_fs in Hw4.
  apply (refresh_releases_ret _ texts) in Hx as (new' & Hnew & [= -> ->]); [|done]. cbn [fst snd orb app] in *.
  assert (w_fs w4 = w_fs w) as Hfs by congruence.
  pose proof (latest_bounds _ _ _ _ (unmarshal_eksd_Some _ _ Hyaml) Hnew) as Hb.
  case_bool_decide as Hc; cbn [when] in H.
  - apply bind_any in H as [([] & w5 & Hx & H)|(o1 & Hx & Ho1 & Ho)].
    + apply wrap_ret in Hx. injection H as <- <-. split; [|naive_solver]. intros b [= <-]. exists new'.
      split; [done|]. split; [by rewrite bool_decide_eq_true_2|]. split; [|done].
      rewrite <-Hfs. eapply WriteFile_keeps_mode; [|exact Hx]. by rewrite Hfs.
    + split; [naive_solver|]. intros _. right. exists new'. rewrite <-Hfs. do 2 (split; [done|]).
      by eapply wrap_write_not_ret.
  - injection H as <- <-. split; [|naive_solver]. intros b [= <-]. exists new'.
    split; [done|]. split; [symmetry; apply bool_decide_eq_false_2; naive_solver|]. done.
Qed.
End eksd.

(** ** One supported branch that is out of date, one that is not supported *)
Definition eksd_releases : list EKSDistroRelease :=
  [mkEKSDistroRelease "1-26" "v1.26.1" 3 None; mkEKSDistroRelease "1-27" "v1.27.1" 7 (Some true)].

Definition eksd_lib : VTLib := {|
  untar _ := None; yaml_projects _ := None; print_projects _ := "";
  yaml_eksd _ := Some (mkEKSDistroLatestReleases eksd_releases "1-27");
  print_eksd r := StrJoin (map (λ x, Branch x +:+ "=" +:+ KubeVersion x +:+ "/" +:+ Itoa (Number x)) (Releases r)) ",";
  yaml_metadata _ := None; print_metadata _ := ""; yaml_object _ := None; print_object _ := "";
  toml_value _ := None; float_text s := s |}.

Definition eksd_texts (branch : string) : string * string := ("12" +:+ nl, "v1.27.3" +:+ nl).

Definition eksd_github : GitHub := {|
  gh_releases _ _ _ _ := inl ""; gh_tags _ _ _ _ := inl ""; gh_commits _ _ _ _ := inl "";
  gh_commit_date _ _ _ _ := inl "";
  gh_contents _ _ _ path _ := inr (Some (EncodeToString
    (if HasPrefix path "release/" then (eksd_texts "").1 else (eksd_texts "").2)));
  gh_release_assets _ _ _ _ := inl ""; gh_pulls _ _ _ _ _ := inl "";
  gh_edit_pull _ _ _ _ _ := inl ("", None); gh_create_pull _ _ _ _ _ _ _ := inl ""; gh_comments _ _ _ _ := inl "";
  gh_create_comment _ _ _ _ _ := inl ""; gh_page_fuel := 0 |}.

Definition eksd_start : World :=
  mkWorld {[ "/bt/EKSD_LATEST_RELEASES" := File "old" 420;
             "/bt/release/SUPPORTED_RELEASE_BRANCHES" := File ("1-27" +:+ nl +:+ "1-28" +:+ nl) 420 ]} ∅ [].

Lemma eksd_published branch : branch ∈ ["1-26"; "1-27"] →
  published (HG := eksd_github) branch (eksd_texts branch).1 (eksd_texts branch).2.
Proof.
  intros Hb w. split.
  - exists (EncodeToString (eksd_texts "").1). split; [|apply Base64.decode_encode].
    by apply elem_of_cons in Hb as [->|[->|?%not_elem_of_nil]%elem_of_cons].
  - exists (EncodeToString (eksd_texts "").2). split; [|apply Base64.decode_encode].
    by apply elem_of_cons in Hb as [->|[->|?%not_elem_of_nil]%elem_of_cons].
Qed.

Lemma eksd_releases_updated_witness :
  ∃ w', updateEKSDistroReleasesFile (HH := plain_host) (HL := eksd_lib) (HG := eksd_github) "/bt" eksd_start = (Ret true, w') ∧
  ∃ new, mapM (latest_release (Split (TrimRight ("1-27" +:+ nl +:+ "1-28" +:+ nl) nl) nl) eksd_texts) eksd_releases = Some new ∧
    true = bool_decide (new ≠ eksd_releases) ∧
    w_fs w' = <["/bt/EKSD_LATEST_RELEASES" := File (@print_eksd eksd_lib (mkEKSDistroLatestReleases new "1-27")) 420]> (w_fs eksd_start) ∧
    Forall is_Int new.
Proof.
  eexists. split; [vm_compute; reflexivity|].
  eapply (eksd_releases_updated (HH := plain_host) (HL := eksd_lib) (HG := eksd_github) "/bt" eksd_start (Ret true) _ "old" 420
    (mkEKSDistroLatestReleases eksd_releases "1-27") ("1-27" +:+ nl +:+ "1-28" +:+ nl) 420 eksd_texts);
    [vm_compute; reflexivity|reflexivity|vm_compute; reflexivity| |vm_compute; reflexivity|reflexivity].
  constructor; [intros _; apply (eksd_published "1-26"); left|].
  constructor; [intros _; apply (eksd_published "1-27"); right; left|constructor].
Defined.
