(* ===== verification/VTProject.v ===== *)
(** * version-tracker: the files of one project

    The helpers of [pkg/commands/upgrade/upgrade.go] for a project that is upgraded: its
    version files, its entry of the upstream projects tracker file, its patches, checksums,
    README and the image digests of Cilium.

    The tracker file is loaded into a list of projects and the repository that was asked for
    shares the versions with this list: the struct is copied, its slice is not. So the
    target is a position of the list, and what is stored through the target is stored in the
    list. *)
From S2P Require Import Prelude GoStrings GoJson GoRegexp World VTTypes VTUtil.
From stdpp Require Import base tactics strings list gmap.
From Stdlib Require Import Ascii.

Local Open Scope string_scope.
Local Open Scope list_scope.

Section project.
Context `{HH : !Host} `{HL : !VTLib}.

(** ** Version files *)
Definition updateProjectVersionFile (buildToolingRepoPath filename projectName value : string) : prog string :=
  let fileRelativepath := PathJoin ["projects"; projectName; filename] in
  let fileAbsolutepath := PathJoin [buildToolingRepoPath; fileRelativepath] in
  st ← Stat fileAbsolutepath;
  mode ← match st with
         | StatOk (File _ m) => mret m
         | StatOk DirNode => mret 493%Z
         | StatNotExist | StatError _ =>
             fail ("unable to stat project " +:+ filename +:+ " file [" +:+ fileAbsolutepath +:+ "]")
         end;
  _ ← wrap ("writing project " +:+ filename +:+ " file [" +:+ fileAbsolutepath +:+ "]")
    (WriteFile fileAbsolutepath (value +:+ nl) mode);
  mret fileRelativepath.

(** ** The tracker file *)

(** The position of the last repository called [org/repository]. *)
Definition find_repo (repository : string) (i : nat) (repos : list Repo) (found : option (nat * nat))
    : option (nat * nat) :=
  foldl (λ found jr, if r_Name jr.2 =s repository then Some (i, jr.1) else found)
    found (imap pair repos).

Definition find_target (projects : ProjectsList) (org repository : string) : option (nat * nat) :=
  foldl (λ found ip, if Org ip.2 =s org then find_repo repository ip.1 (Repos ip.2) found else found)
    None (imap pair projects).

Definition loadUpstreamProjectsTrackerFile (path org repository : string)
    : prog (ProjectsList * option (nat * nat)) :=
  contents ← wrap "reading upstream projects tracker file" (ReadFile path);
  match yaml_projects contents with
  | None => fail "unmarshalling upstream projects tracker file"
  | Some projectsList => mret (projectsList, find_target projectsList org repository)
  end.

Definition repo_at (projects : ProjectsList) (target : nat * nat) : option Repo :=
  p ← projects !! target.1; Repos p !! target.2.

(** [targetRepo.Versions]: no versions when there is no such repository. *)
Definition target_versions (projects : ProjectsList) (target : option (nat * nat)) : list Version :=
  match target ≫= repo_at projects with Some r => Versions r | None => [] end.

Definition with_versions (f : list Version → list Version) (r : Repo) : Repo :=
  mkRepo (r_Name r) (f (Versions r)).
Definition with_repo (j : nat) (f : Repo → Repo) (p : Project) : Project :=
  mkProject (Org p) (alter f j (Repos p)).

(** [targetRepo.Versions[0].Tag = ...], through the shared slice. *)
Definition set_version (f : Version → Version) (projects : ProjectsList) (target : option (nat * nat))
    : prog ProjectsList :=
  match target, target_versions projects target with
  | Some (i, j), v :: vs => mret (alter (with_repo j (with_versions (λ _, f v :: vs))) i projects)
  | _, _ => panic "index out of range"
  end.

Definition set_tag (tag : string) (v : Version) : Version := mkVersion tag (Commit v) (GoVersion v).
Definition set_go_version (g : string) (v : Version) : Version := mkVersion (Tag v) (Commit v) g.

(** [bufio.ScanLines] within a [bufio.Scanner]: lines without their end, with or without a
    carriage return; a line that does not fit the buffer of 64 KiB ends the scan. *)
Definition carriage_return : string := String (ascii_of_nat 13) "".

Fixpoint until_too_long (lines : list string) : list string :=
  match lines with
  | [] => []
  | l :: lines => if bool_decide (Z.of_nat (String.length l) < 65536)%Z
                  then TrimSuffix l carriage_return :: until_too_long lines else []
  end.

Definition drop_last_empty (lines : list string) : list string :=
  match rev lines with "" :: rest => rev rest | _ => lines end.

Definition scan_lines (s : string) : list string := until_too_long (drop_last_empty (Split s nl)).

Definition comment_line (line : string) : string :=
  if line =s "" then line +:+ nl else "# " +:+ line +:+ nl.

Definition license_header (boilerplate : string) : string :=
  StrJoin (map comment_line (scan_lines (ReplaceAll boilerplate (String backslash q1) q1))) "" +:+ nl.

(** The target and the revisions it is called with are not used by the code. *)
Definition updateUpstreamProjectsTrackerFile (projectsList : ProjectsList)
    (buildToolingRepoPath upstreamProjectsTrackerFilePath : string) : prog unit :=
  boilerplate ← wrap "reading license boilerplate file"
    (ReadFile (PathJoin [buildToolingRepoPath; LicenseBoilerplateFile]));
  wrap "writing upstream projects tracker file"
    (WriteFile upstreamProjectsTrackerFilePath
      (license_header boilerplate +:+ print_projects projectsList) 420).

(** ** Patches *)

(** How many patches were applied, the message of the one that failed, and its files. *)
Definition applyPatchesToRepo (projectRootFilepath projectRepo latestVersion : string) (totalPatchCount : Z)
    : prog (Z * string * string) :=
  r ← ExecCommand ["bash"; "-c"; "make -C " +:+ projectRootFilepath +:+ " patch-repo"];
  let applyPatchesOutput := r.2 in
  patchApplySucceeded ←
    match r.1 with
    | None => mret true
    | Some _ => if Contains applyPatchesOutput FailedPatchApplyMarker then mret false
                else fail "running patch-repo Make command"
    end;
  if (patchApplySucceeded : bool) then mret (totalPatchCount, "", "") else
  gitDescribeRegex ← MustCompile (latestVersion +:+ "(-([0-9]+)-g.*)?");
  gitDescribeOutput ← wrap "running git describe command"
    (command ["git"; "-C"; PathJoin [projectRootFilepath; projectRepo]; "describe"; "--tag"]);
  let gitDescribeMatches := FindStringSubmatch gitDescribeRegex gitDescribeOutput in
  suffix ← index gitDescribeMatches 1;
  patchesApplied ←
    (if negb (suffix =s "") then
       count ← index gitDescribeMatches 2;
       match Atoi count with
       | None => fail "converting patch count to integer"
       | Some n => mret n
       end
     else mret 0%Z);
  failedPatchRegex ← MustCompile FailedPatchApplyRegex;
  failedPatchFileRegex ← MustCompile FailedPatchFilesRegex;
  failedFiles ← foldM (FindAllStringSubmatch failedPatchFileRegex applyPatchesOutput) [] (λ acc files,
    f ← index files 1; mret (acc ++ ["`" +:+ f +:+ "`"]));
  mret (patchesApplied, FindString failedPatchRegex applyPatchesOutput, StrJoin failedFiles ",").

(** ** Commands *)
Definition updateChecksumsAttributionFiles (projectRootFilepath : string) : prog unit :=
  _ ← wrap "running checksums-attribution Make command"
    (command ["bash"; "-c"; "make -C " +:+ projectRootFilepath +:+ " attribution-checksums"]);
  mret tt.

Definition updateProjectReadmeVersion (buildToolingRepoPath projectOrg projectRepo : string) : prog unit :=
  _ ← wrap "running README update command"
    (command ["bash"; "-c"; PathJoin [buildToolingRepoPath; ReadmeUpdateScriptFile] +:+ " " +:+
       buildToolingRepoPath +:+ " " +:+ projectOrg +:+ "/" +:+ projectRepo]);
  mret tt.

Definition updateCiliumImageDigestFiles (projectRootFilepath projectPath : string) : prog (list string) :=
  _ ← wrap "running update-digests Make command"
    (command ["bash"; "-c"; "make -C " +:+ projectRootFilepath +:+ " update-digests"]);
  mret (map (λ directory, PathJoin [projectPath; "images"; directory; "IMAGE_DIGEST"]) CiliumImageDirectories).
End project.

Example scan_lines_ex : scan_lines ("a" +:+ carriage_return +:+ nl +:+ nl +:+ "b") = ["a"; ""; "b"].
Proof. vm_compute. reflexivity. Qed.

Example license_ex : license_header ("Copyright" +:+ nl +:+ nl +:+ "x" +:+ nl) =
  "# Copyright" +:+ nl +:+ nl +:+ "# x" +:+ nl +:+ nl.
Proof. vm_compute. reflexivity. Qed.

(** ** Finding the repository *)
Section find.
Implicit Types (l : ProjectsList) (repos : list Repo).

Lemma find_repo_snoc name i repos r found : find_repo name i (repos ++ [r]) found =
  if r_Name r =s name then Some (i, length repos) else find_repo name i repos found.
Proof.
  unfold find_repo. rewrite imap_app, foldl_app. cbn [imap foldl fst snd]. unfold compose. cbn [fst snd].
  by rewrite Nat.add_0_r.
Qed.

Lemma find_target_snoc l p org name : find_target (l ++ [p]) org name =
  if Org p =s org then find_repo name (length l) (Repos p) (find_target l org name) else find_target l org name.
Proof.
  unfold find_target. rewrite imap_app, foldl_app. cbn [imap foldl fst snd]. unfold compose. cbn [fst snd].
  by rewrite Nat.add_0_r.
Qed.

Lemma find_repo_spec name i repos found i' j : find_repo name i repos found = Some (i', j) →
  (i' = i ∧ (∃ r, repos !! j = Some r ∧ r_Name r = name) ∧
    ∀ j' r', repos !! j' = Some r' → r_Name r' = name → (j' ≤ j)%nat) ∨
  (found = Some (i', j) ∧ ∀ j' r', repos !! j' = Some r' → r_Name r' ≠ name).
Proof.
  induction repos as [|r repos IH] using rev_ind; intros H; [by right|].
  rewrite find_repo_snoc in H. destruct (r_Name r =s name) eqn:E.
  - apply streq_true in E. injection H as <- <-. left. split; [done|]. split.
    + exists r. by rewrite list_lookup_middle.
    + intros j' r' Hj _. apply lookup_lt_Some in Hj. rewrite length_app in Hj. cbn [length] in Hj. lia.
  - apply streq_false in E. apply IH in H as [(-> & (r0 & Hr0 & Hn) & Hmax)|[-> Hno]].
    + left. split; [done|]. split; [exists r0; split; [by apply lookup_app_l_Some|done]|].
      intros j' r' [Hj|[_ [_ ->]%list_lookup_singleton_Some]]%lookup_app_Some Hn'; [by eapply Hmax|done].
    + right. split; [done|].
      intros j' r' [Hj|[_ [_ ->]%list_lookup_singleton_Some]]%lookup_app_Some; [by eapply Hno|done].
Qed.

(** It is the last repository with this name in a project of this organization. *)
Definition last_named l (org name : string) (i j : nat) : Prop :=
  (∃ p r, l !! i = Some p ∧ Repos p !! j = Some r ∧ Org p = org ∧ r_Name r = name) ∧
  ∀ i' j' p' r', l !! i' = Some p' → Repos p' !! j' = Some r' → Org p' = org → r_Name r' = name →
    (i' < i)%nat ∨ i' = i ∧ (j' ≤ j)%nat.

Lemma last_named_snoc l p org name i j : last_named l org name i j →
  (∀ j' r', Repos p !! j' = Some r' → Org p = org → r_Name r' ≠ name) → last_named (l ++ [p]) org name i j.
Proof.
  intros [(p0 & r0 & Hp & ?) Hmax] Hno. split.
  - exists p0, r0. split; [by apply lookup_app_l_Some|done].
  - intros i' j' p' r' [Hi|[_ [_ <-]%list_lookup_singleton_Some]]%lookup_app_Some Hj Ho Hn; [by eapply Hmax|].
    by destruct (Hno j' r').
Qed.

Lemma find_target_spec l org name i j : find_target l org name = Some (i, j) → last_named l org name i j.
Proof.
  revert i j. induction l as [|p l IH] using rev_ind; intros i j H; [done|]. rewrite find_target_snoc in H.
  destruct (Org p =s org) eqn:E.
  - apply streq_true in E. apply find_repo_spec in H as [(-> & (r & Hr & Hn) & Hmax)|[H Hno]].
    + split; [exists p, r; split; [by apply list_lookup_middle|done]|].
      intros i' j' p' r' Hi Hj _ Hn'. apply lookup_lt_Some in Hi as Hlt. rewrite length_app in Hlt. cbn [length] in Hlt.
      destruct (decide (i' = length l)) as [->|]; [|left; lia]. right. split; [done|].
      assert (p' = p) as -> by (apply (inj Some); etrans; [symmetry; exact Hi|by apply list_lookup_middle]).
      by eapply Hmax.
    + apply last_named_snoc; [by apply IH|]. intros j' r' Hj _. by eapply Hno.
  - apply streq_false in E. apply last_named_snoc; [by apply IH|]. intros ?? _ Ho. by destruct E.
Qed.

(** Only the names count. *)
Definition names l : list (string * list string) := map (λ p, (Org p, map r_Name (Repos p))) l.

Lemma find_repo_names name i repos repos' found : map r_Name repos = map r_Name repos' →
  find_repo name i repos found = find_repo name i repos' found.
Proof.
  revert repos'. induction repos as [|r repos IH] using rev_ind; intros repos' H.
  { by destruct repos'. }
  destruct repos' as [|r' repos' _] using rev_ind; [by rewrite map_app in H; destruct (map _ repos)|].
  rewrite !map_app in H. apply app_inj_2 in H as [H [= Hr]]; [|done].
  assert (length repos = length repos') as Hl by (apply (f_equal length) in H; by rewrite !length_map in H).
  by rewrite !find_repo_snoc, Hr, Hl, (IH _ H).
Qed.

Lemma find_target_names l l' org name : names l = names l' → find_target l org name = find_target l' org name.
Proof.
  revert l'. induction l as [|p l IH] using rev_ind; intros l' H.
  { by destruct l'. }
  unfold names in H. destruct l' as [|p' l' _] using rev_ind; [by rewrite map_app in H; destruct (map _ l)|].
  rewrite !map_app in H. apply app_inj_2 in H as [H [= Ho Hr]]; [|done].
  assert (length l = length l') as Hl by (apply (f_equal length) in H; by rewrite !length_map in H).
  rewrite !find_target_snoc, Ho, Hl, (IH _ H). by rewrite (find_repo_names _ _ _ _ _ Hr).
Qed.
End find.

(** ** The license header *)
Definition comment (line : string) : Prop := line = "" ∨ HasPrefix line "# " = true.

Lemma Split_nl_cons a b : Contains a nl = false → Split (a +:+ nl +:+ b) nl = a :: Split b nl.
Proof. apply (Split_char_app (ascii_of_nat 10)). Qed.

Lemma Contains_app_false a b : Contains (a +:+ b) nl = false → Contains a nl = false ∧ Contains b nl = false.
Proof.
  intros H. split; apply not_true_is_false; intros (x & y & ->)%Contains_spec; revert H;
    apply not_false_iff_true, Contains_spec.
  - exists x, (y +:+ b). by rewrite !sapp_assoc.
  - exists (a +:+ x), y. by rewrite sapp_assoc.
Qed.

Lemma TrimSuffix_no_nl l c : Contains l nl = false → Contains (TrimSuffix l c) nl = false.
Proof.
  intros H. destruct (TrimSuffix_spec l c) as [[-> _]|E]; [done|].
  rewrite E in H. by apply Contains_app_false in H as [? _].
Qed.

Lemma scan_lines_no_nl s : Forall (λ l, Contains l nl = false) (scan_lines s).
Proof.
  unfold scan_lines. pose proof (Split_pieces (ascii_of_nat 10) s) as H. change (String (ascii_of_nat 10) "") with nl in H.
  revert H. generalize (Split s nl). intros ls H.
  assert (Forall (λ l, Contains l nl = false) (drop_last_empty ls)) as Hd.
  { unfold drop_last_empty. destruct (rev ls) as [|[|] rest] eqn:E; [done| |done].
    apply (f_equal (@rev string)) in E. rewrite rev_involutive in E. cbn [rev] in E. rewrite E in H.
    by apply Forall_app in H as [H _]. }
  clear H. revert Hd. generalize (drop_last_empty ls). clear ls. intros ls H.
  induction H as [|l ls Hl H IH]; [constructor|]. cbn [until_too_long]. case_bool_decide; [|constructor].
  constructor; [by apply TrimSuffix_no_nl|done].
Qed.

Lemma StrJoin_cons_empty x l : StrJoin (x :: l) "" = x +:+ StrJoin l "".
Proof. destruct l; [by rewrite sapp_nil_r|done]. Qed.

(** Every line of the header is empty or a comment, whatever comes after the header. *)
Lemma license_header_comments boilerplate rest :
  ∃ lines, Forall comment lines ∧ Split (license_header boilerplate +:+ rest) nl = lines ++ Split rest nl.
Proof.
  unfold license_header. pose proof (scan_lines_no_nl (ReplaceAll boilerplate (String backslash q1) q1)) as H.
  revert H. generalize (scan_lines (ReplaceAll boilerplate (String backslash q1) q1)). intros ls H.
  induction H as [|l ls Hl H IH].
  { exists [""]. split; [by repeat constructor; left|]. exact (Split_nl_cons "" rest eq_refl). }
  destruct IH as (lines & Hc & Hs). cbn [map]. rewrite StrJoin_cons_empty. unfold comment_line at 1.
  destruct (l =s "") eqn:E.
  - apply streq_true in E as ->. exists ("" :: lines). split; [by constructor; [left|]|].
    rewrite !sapp_assoc, Split_nl_cons by done. cbn [app]. f_equal. by rewrite <-Hs, !sapp_assoc.
  - exists (("# " +:+ l) :: lines). split.
    + constructor; [|done]. right. apply HasPrefix_spec. by eexists.
    + rewrite !sapp_assoc, <-(sapp_assoc "# " l), Split_nl_cons.
      * cbn [app]. f_equal. by rewrite <-Hs, !sapp_assoc.
      * apply not_true_is_false. intros (x & y & Hxy)%Contains_spec.
        apply not_true_iff_false in Hl. apply Hl, Contains_spec.
        destruct x as [|c1 [|c2 x]]; cbn in Hxy; simplify_eq/=. by exists x, y.
Qed.

(** ** One version of the tracker file changed *)

(** The tracker with the first version of one repository changed. *)
Definition changed_at (f : Version → Version) (l : ProjectsList) (i j : nat) : ProjectsList :=
  alter (with_repo j (with_versions (λ vs, match vs with v :: vs => f v :: vs | [] => [] end))) i l.

Lemma alter_names (f : Version → Version) l i j : names (changed_at f l i j) = names l.
Proof.
  unfold names, changed_at. revert i. induction l as [|p l IH]; intros [|i]; [done..| |].
  - clear IH. cbn. f_equal. f_equal. revert j. induction (Repos p) as [|r rs IHr]; intros [|j]; [done..|].
    cbn. f_equal. apply IHr.
  - cbn. f_equal. apply IH.
Qed.

Lemma alter_is_insert {A} (f : A → A) (l : list A) i x : l !! i = Some x → alter f i l = <[i := f x]> l.
Proof.
  intros Hx. apply list_eq. intros k. destruct (decide (k = i)) as [->|Hne].
  - rewrite list_lookup_alter_eq, list_lookup_insert_eq by (by eapply lookup_lt_Some). by rewrite Hx.
  - by rewrite list_lookup_alter_ne, list_lookup_insert_ne by done.
Qed.

(** ** What the tracker file relies on of YAML *)
Definition printable (c : ascii) : bool := (32 <=? nat_of_ascii c)%nat && (nat_of_ascii c <=? 126)%nat.
Definition ascii_line (s : string) : bool := all_of printable s.
Definition ascii_text (s : string) : bool := all_of (λ c, printable c || bool_decide (c = ascii_of_nat 10)) s.

Definition ascii_version (v : Version) : bool := ascii_line (Tag v) && ascii_line (Commit v) && ascii_line (GoVersion v).
Definition ascii_repo (r : Repo) : bool := ascii_line (r_Name r) && forallb ascii_version (Versions r).
Definition ascii_project (p : Project) : bool := ascii_line (Org p) && forallb ascii_repo (Repos p).
Definition ascii_list (l : ProjectsList) : bool := forallb ascii_project l.

(** Of texts of printable ASCII: a comment or an empty line at the beginning of a document
    does not count, and what is printed of a list is such a text and reads back. *)
Class TrackerYaml `{HL : !VTLib} : Prop := {
  yaml_comment line rest : ascii_line line = true → ascii_text rest = true →
    yaml_projects ("# " +:+ line +:+ nl +:+ rest) = yaml_projects rest;
  yaml_blank rest : ascii_text rest = true → yaml_projects (nl +:+ rest) = yaml_projects rest;
  yaml_text l : ascii_list l = true → ascii_text (print_projects l) = true;
  yaml_read l : ascii_list l = true → yaml_projects (print_projects l) = Some l;
}.

Lemma ascii_line_text s : ascii_line s = true → ascii_text s = true.
Proof. apply all_of_impl. intros c Hc. by rewrite Hc. Qed.

Lemma ascii_text_app a b : ascii_text (a +:+ b) = ascii_text a && ascii_text b.
Proof. apply all_of_app. Qed.

Lemma scan_lines_ascii s : ascii_text s = true → Forall (λ l, ascii_line l = true) (scan_lines s).
Proof.
  intros H. unfold scan_lines.
  assert (Forall (λ l, ascii_line l = true) (Split s nl)) as Hl.
  { apply (all_of_Split _ _ nl) in H; [|done]. pose proof (Split_pieces (ascii_of_nat 10) s) as Hp.
    change (String (ascii_of_nat 10) "") with nl in Hp. apply Forall_forall. intros l Hin.
    rewrite Forall_forall in H, Hp. by eapply all_of_without; [apply Hp|apply H]. }
  revert Hl. generalize (Split s nl). intros ls Hl.
  assert (Forall (λ l, ascii_line l = true) (drop_last_empty ls)) as Hd.
  { unfold drop_last_empty. destruct (rev ls) as [|[|] rest] eqn:E; [done| |done].
    apply (f_equal (@rev string)) in E. rewrite rev_involutive in E. cbn [rev] in E. rewrite E in Hl.
    by apply Forall_app in Hl as [Hl _]. }
  clear Hl. revert Hd. generalize (drop_last_empty ls). clear ls. intros ls H'.
  induction H' as [|l ls Hl H' IH]; [constructor|]. cbn [until_too_long]. case_bool_decide; [|constructor].
  constructor; [by apply all_of_TrimSuffix|done].
Qed.

Section tracker.
Context `{HH : !Host} `{HL : !VTLib} `{HY : !TrackerYaml}.

(** The license does not count when the file is read. *)
Lemma comment_lines_text ls rest : Forall (λ l, ascii_line l = true) ls → ascii_text rest = true →
  ascii_text (StrJoin (map comment_line ls) "" +:+ rest) = true.
Proof using.
  intros Hl Hr. induction Hl as [|l ls Hl Hls IH]; [done|]. cbn [map]. rewrite StrJoin_cons_empty, sapp_assoc, ascii_text_app, IH.
  rewrite andb_true_r. unfold comment_line. destruct (l =s ""); rewrite !ascii_text_app, (ascii_line_text l Hl); done.
Qed.

Lemma comments_ignored ls rest : Forall (λ l, ascii_line l = true) ls → ascii_text rest = true →
  yaml_projects (StrJoin (map comment_line ls) "" +:+ rest) = yaml_projects rest.
Proof using HY.
  intros Hl Hr. induction Hl as [|l ls Hl Hls IH]; [done|]. cbn [map]. rewrite StrJoin_cons_empty. unfold comment_line at 1.
  destruct (l =s "") eqn:E.
  - apply streq_true in E as ->. rewrite !sapp_assoc. change ("" +:+ ?x) with x.
    rewrite yaml_blank by by apply comment_lines_text. done.
  - rewrite !sapp_assoc, yaml_comment by (done || by apply comment_lines_text). done.
Qed.

Lemma license_ignored boilerplate l : ascii_text boilerplate = true → ascii_list l = true →
  yaml_projects (license_header boilerplate +:+ print_projects l) = Some l.
Proof using HY.
  intros Hb Hl. unfold license_header. rewrite sapp_assoc, comments_ignored.
  - rewrite yaml_blank by by apply yaml_text. by apply yaml_read.
  - apply scan_lines_ascii. by apply all_of_ReplaceAll.
  - rewrite ascii_text_app. by rewrite yaml_text.
Qed.

Lemma set_version_ret f l target w l' w' : set_version f l target w = (Ret l', w') →
  ∃ i j p r v vs, target = Some (i, j) ∧ l !! i = Some p ∧ Repos p !! j = Some r ∧
    Versions r = v :: vs ∧ l' = changed_at f l i j ∧ w' = w.
Proof using.
  unfold set_version, target_versions. intros H. destruct target as [[i j]|]; [|done].
  cbn [mbind option_bind] in H. destruct (repo_at l (i, j)) as [r|] eqn:E; [|done].
  unfold repo_at in E. cbn [fst snd] in E. apply bind_Some in E as (p & Hp & Hr).
  destruct (Versions r) as [|v vs] eqn:Hv; [done|]. apply mret_ret in H as [<- <-].
  exists i, j, p, r, v, vs. split_and!; try done. unfold changed_at.
  apply list_eq. intros k. destruct (decide (k = i)) as [->|Hne]; [|by rewrite !list_lookup_alter_ne by done].
  rewrite !list_lookup_alter_eq, Hp. cbn. f_equal. unfold with_repo. f_equal.
  apply list_eq. intros k. destruct (decide (k = j)) as [->|Hne]; [|by rewrite !list_lookup_alter_ne by done].
  rewrite !list_lookup_alter_eq, Hr. cbn. f_equal. unfold with_versions. by rewrite Hv.
Qed.

Lemma load_ret path org name w r w' :
  loadUpstreamProjectsTrackerFile path org name w = (Ret r, w') →
  ∃ c m, w_fs w !! path = Some (File c m) ∧ yaml_projects c = Some r.1 ∧ r.2 = find_target r.1 org name ∧ w_fs w' = w_fs w.
Proof using.
  unfold loadUpstreamProjectsTrackerFile. intros H. apply bind_ret_inv in H as (c & w1 & Hx & H).
  apply wrap_ret, ReadFile_ret in Hx as [[m Hp] ->]. destruct (yaml_projects c) as [l|] eqn:Hl; [|done].
  apply mret_ret in H as [<- <-]. by exists c, m.
Qed.

(** C9: an upgrade changes one version of the tracker file. When the tracker file is loaded
    for a repository, a change [f] is stored through the target and the file is written, then
    the change was made to the first version of the last repository with that name in a
    project of that organization and to nothing else; the file starts with the license as
    comments and no other file changed. Let the license and the strings of the list be
    printable ASCII: then loading the file again, with the license in it, gives exactly this
    list and the same target. *)
Theorem tracker_updated f path bt org name w l target w1 l' w2 w3 w4 w5 r w6 b mb :
  loadUpstreamProjectsTrackerFile path org name w = (Ret (l, target), w1) →
  set_version f l target w2 = (Ret l', w3) →
  w_fs w4 !! PathJoin [bt; LicenseBoilerplateFile] = Some (File b mb) →
  updateUpstreamProjectsTrackerFile l' bt path w4 = (Ret tt, w5) →
  loadUpstreamProjectsTrackerFile path org name w5 = (Ret r, w6) →
  ∃ i j, last_named l org name i j ∧ target = Some (i, j) ∧ l' = changed_at f l i j ∧
    (∀ p r, l !! i = Some p → Repos p !! j = Some r →
       ∃ v vs, Versions r = v :: vs ∧
         l' = <[i := mkProject org (<[j := mkRepo name (f v :: vs)]> (Repos p))]> l) ∧
    (∃ contents m lines, w_fs w5 = <[path := File contents m]> (w_fs w4) ∧ Forall comment lines ∧
       Split contents nl = lines ++ Split (print_projects l') nl) ∧
    (ascii_text b = true → ascii_list l' = true → r = (l', Some (i, j))).
Proof using HY.
  intros Hload Hset Hbp Hup Hreload.
  apply load_ret in Hload as (c & m & _ & _ & Ht & _). cbn [fst snd] in Ht.
  apply set_version_ret in Hset as (i & j & p & rr & v & vs & -> & Hp & Hr & Hv & -> & _).
  symmetry in Ht. pose proof (find_target_spec _ _ _ _ _ Ht) as Hlast. exists i, j.
  unfold updateUpstreamProjectsTrackerFile in Hup. apply bind_ret_inv in Hup as (b' & w7 & Hx & Hup).
  apply wrap_ret in Hx, Hup. apply ReadFile_ret in Hx as [[mb' Hb'] ->]. rewrite Hbp in Hb'. injection Hb' as <- <-.
  apply WriteFile_ret in Hup as ([m' Hfs] & _). cbn [log w_fs] in Hfs.
  destruct (license_header_comments b (print_projects (changed_at f l i j))) as (lines & Hc & Hs).
  split; [done|]. split; [done|]. split; [done|]. split; [|split].
  - intros p' r' Hp' Hr'. rewrite Hp in Hp'. injection Hp' as <-. rewrite Hr in Hr'. injection Hr' as <-.
    exists v, vs. split; [done|]. destruct Hlast as [(p' & r' & Hp' & Hr' & Ho & Hn) _].
    rewrite Hp in Hp'. injection Hp' as <-. rewrite Hr in Hr'. injection Hr' as <-.
    unfold changed_at. rewrite (alter_is_insert _ _ _ p) by done. unfold with_repo at 1. rewrite Ho.
    rewrite (alter_is_insert _ _ _ rr) by done. unfold with_versions. by rewrite Hv, Hn.
  - eexists _, m', lines. split; [exact Hfs|]. split; [done|exact Hs].
  - intros Hb Hl. destruct r as [l2 t2]. apply load_ret in Hreload as (c2 & m2 & Hc2 & Hy & Ht2 & _). cbn [fst snd] in *.
    rewrite Hfs, lookup_insert_eq in Hc2. injection Hc2 as <- <-.
    rewrite license_ignored in Hy by done. injection Hy as <-. f_equal. rewrite Ht2.
    rewrite (find_target_names _ l) by apply alter_names. done.
Qed.
End tracker.

(** ** A tracker file, one field a line *)
Section format.
#[local] Arguments String.append : simpl nomatch.

Definition version_lines (v : Version) : list string :=
  ["          - tag: " +:+ Tag v; "            commit: " +:+ Commit v; "            go_version: " +:+ GoVersion v].
Definition repo_lines (r : Repo) : list string := ("      - name: " +:+ r_Name r) :: flat_map version_lines (Versions r).
Definition project_lines (p : Project) : list string := ("  - org: " +:+ Org p) :: flat_map repo_lines (Repos p).
Definition tracker_lines (l : ProjectsList) : list string := "projects:" :: flat_map project_lines l.
Definition print_tracker (l : ProjectsList) : string := StrJoin (map (λ x, x +:+ nl) (tracker_lines l)) "".

(** The lines are read from the last to the first. *)
Record reading := mkReading {
  rd_commit : string; rd_go : string; rd_versions : list Version; rd_repos : list Repo; rd_projects : ProjectsList }.

Definition read_field (line : string) (s : reading) : option reading :=
  match cut_prefix "            go_version: " line with
  | Some g => Some (mkReading (rd_commit s) g (rd_versions s) (rd_repos s) (rd_projects s))
  | None =>
  match cut_prefix "            commit: " line with
  | Some c => Some (mkReading c (rd_go s) (rd_versions s) (rd_repos s) (rd_projects s))
  | None =>
  match cut_prefix "          - tag: " line with
  | Some t => Some (mkReading "" "" (mkVersion t (rd_commit s) (rd_go s) :: rd_versions s) (rd_repos s) (rd_projects s))
  | None =>
  match cut_prefix "      - name: " line with
  | Some n => Some (mkReading "" "" [] (mkRepo n (rd_versions s) :: rd_repos s) (rd_projects s))
  | None =>
  match cut_prefix "  - org: " line with
  | Some o => Some (mkReading "" "" [] [] (mkProject o (rd_repos s) :: rd_projects s))
  | None => None
  end end end end end.

Definition read_line (line : string) (s : option reading) : option reading :=
  if (line =s "") || HasPrefix line "#" || (line =s "projects:") then s
  else match s with Some s => read_field line s | None => None end.

Definition read_tracker (contents : string) : option ProjectsList :=
  rd_projects <$> foldr read_line (Some (mkReading "" "" [] [] [])) (Split contents nl).

Lemma read_versions vs vs0 rs ps :
  foldr read_line (Some (mkReading "" "" vs0 rs ps)) (flat_map version_lines vs) = Some (mkReading "" "" (vs ++ vs0) rs ps).
Proof. induction vs as [|[t c g] vs IH]; [done|]. cbn [flat_map app version_lines foldr]. by rewrite IH. Qed.

Lemma read_repos rs rs0 ps :
  foldr read_line (Some (mkReading "" "" [] rs0 ps)) (flat_map repo_lines rs) = Some (mkReading "" "" [] (rs ++ rs0) ps).
Proof.
  induction rs as [|[n vs] rs IH]; [done|]. cbn [flat_map]. rewrite foldr_app, IH. cbn [repo_lines foldr].
  by rewrite read_versions, app_nil_r.
Qed.

Lemma read_projects l : foldr read_line (Some (mkReading "" "" [] [] [])) (flat_map project_lines l)
  = Some (mkReading "" "" [] [] l).
Proof.
  induction l as [|[o rs] l IH]; [done|]. cbn [flat_map]. rewrite foldr_app, IH. cbn [project_lines foldr].
  by rewrite read_repos, app_nil_r.
Qed.

Lemma ascii_no_nl s : ascii_line s = true → Contains s nl = false.
Proof. apply all_of_no. done. Qed.

Lemma version_lines_ascii v : ascii_version v = true → Forall (λ x, ascii_line x = true) (version_lines v).
Proof.
  unfold ascii_version. rewrite !andb_true_iff. intros [[Ht Hc] Hg].
  repeat constructor; unfold ascii_line; by rewrite all_of_app, andb_true_iff.
Qed.

Lemma flat_map_ascii {A} (ok : A → bool) (lines : A → list string) (l : list A) :
  (∀ x, ok x = true → Forall (λ x, ascii_line x = true) (lines x)) → forallb ok l = true →
  Forall (λ x, ascii_line x = true) (flat_map lines l).
Proof.
  intros Hok. induction l as [|x l IH]; [done|]. cbn [forallb flat_map]. rewrite andb_true_iff. intros [Hx Hl].
  apply Forall_app. auto.
Qed.

Lemma tracker_lines_ascii l : ascii_list l = true → Forall (λ x, ascii_line x = true) (tracker_lines l).
Proof.
  intros H. constructor; [done|]. revert H. apply flat_map_ascii. intros p. unfold ascii_project. rewrite andb_true_iff.
  intros [Ho Hr]. constructor; [unfold ascii_line; by rewrite all_of_app, andb_true_iff|]. revert Hr. apply flat_map_ascii.
  intros r. unfold ascii_repo. rewrite andb_true_iff. intros [Hn Hv].
  constructor; [unfold ascii_line; by rewrite all_of_app, andb_true_iff|]. revert Hv. apply flat_map_ascii, version_lines_ascii.
Qed.

Lemma Split_lines ls : Forall (λ x, ascii_line x = true) ls → Split (StrJoin (map (λ x, x +:+ nl) ls) "") nl = ls ++ [""].
Proof.
  induction 1 as [|x ls Hx Hl IH]; [done|]. cbn [map]. rewrite StrJoin_cons_empty, sapp_assoc, Split_nl_cons by by apply ascii_no_nl.
  by rewrite IH.
Qed.
End format.

Definition tracker_lib : VTLib := {|
  untar _ := None; yaml_projects := read_tracker; print_projects := print_tracker;
  yaml_eksd _ := None; print_eksd _ := "";
  yaml_metadata _ := None; print_metadata _ := ""; yaml_object _ := None; print_object _ := "";
  toml_value _ := None; float_text s := s |}.

Lemma tracker_lib_yaml : TrackerYaml (HL := tracker_lib).
Proof.
  split; cbn [yaml_projects print_projects tracker_lib]; unfold read_tracker.
  - intros line rest Hl _. rewrite <-(sapp_assoc "# "), Split_nl_cons; [done|]. apply ascii_no_nl. unfold ascii_line.
    by rewrite all_of_app, andb_true_iff.
  - intros rest _. change (nl +:+ rest) with ("" +:+ nl +:+ rest). by rewrite (Split_nl_cons "" rest eq_refl).
  - intros l Hl%tracker_lines_ascii. unfold print_tracker. apply all_of_Join; [|done]. apply Forall_map.
    eapply Forall_impl; [exact Hl|]. intros x Hx. rewrite all_of_app, andb_true_iff. split; [by apply ascii_line_text|done].
  - intros l Hl%tracker_lines_ascii. unfold print_tracker. rewrite Split_lines by done. rewrite foldr_app.
    unfold tracker_lines. cbn [foldr]. by rewrite read_projects.
Qed.

(** ** A tracker file with two repositories *)
Definition tracker_old : ProjectsList :=
  [mkProject "fluxcd" [mkRepo "flux2" [mkVersion "v1" "" "1.20"]; mkRepo "helm" [mkVersion "v7" "" "N/A"]]].
Definition tracker_new : ProjectsList := changed_at (set_tag "v2") tracker_old 0 0.
Definition boilerplate : string := "Copyright" +:+ nl +:+ nl +:+ "Licensed".

Definition tracker_start : World :=
  mkWorld {[ "/bt/UPSTREAM_PROJECTS.yaml" := File (license_header boilerplate +:+ print_tracker tracker_old) 420;
             "/bt/hack/boilerplate.yq.txt" := File boilerplate 420 ]} ∅ [].

Definition tracker_path : string := "/bt/UPSTREAM_PROJECTS.yaml".
Definition tracker_loaded : World :=
  (loadUpstreamProjectsTrackerFile (HH := plain_host) (HL := tracker_lib) tracker_path "fluxcd" "flux2" tracker_start).2.
Definition tracker_written : World :=
  (updateUpstreamProjectsTrackerFile (HH := plain_host) (HL := tracker_lib) tracker_new "/bt" tracker_path tracker_loaded).2.
Definition tracker_reloaded : World :=
  (loadUpstreamProjectsTrackerFile (HH := plain_host) (HL := tracker_lib) tracker_path "fluxcd" "flux2" tracker_written).2.

Lemma tracker_updated_witness :
  ascii_text boilerplate = true ∧ ascii_list tracker_new = true ∧
  ∃ i j, last_named tracker_old "fluxcd" "flux2" i j ∧ Some (0, 0)%nat = Some (i, j) ∧
    tracker_new = changed_at (set_tag "v2") tracker_old i j ∧
    (∀ p r, tracker_old !! i = Some p → Repos p !! j = Some r →
       ∃ v vs, Versions r = v :: vs ∧
         tracker_new = <[i := mkProject "fluxcd" (<[j := mkRepo "flux2" (set_tag "v2" v :: vs)]> (Repos p))]> tracker_old) ∧
    (∃ contents m lines, w_fs tracker_written = <[tracker_path := File contents m]> (w_fs tracker_loaded) ∧
       Forall comment lines ∧
       Split contents nl = lines ++ Split (@print_projects tracker_lib tracker_new) nl) ∧
    (ascii_text boilerplate = true → ascii_list tracker_new = true →
     (tracker_new, Some (0, 0)%nat) = (tracker_new, Some (i, j))).
Proof.
  split; [reflexivity|]. split; [reflexivity|].
  apply (tracker_updated (HH := plain_host) (HL := tracker_lib) (HY := tracker_lib_yaml) (set_tag "v2") tracker_path
    "/bt" "fluxcd" "flux2" tracker_start tracker_old (Some (0, 0)%nat) tracker_loaded tracker_new tracker_loaded
    tracker_loaded tracker_loaded tracker_written (tracker_new, Some (0, 0)%nat) tracker_reloaded boilerplate 420);
    vm_compute; reflexivity.
Defined.
