(* ===== verification/VTBottlerocket.v ===== *)
(** * version-tracker: the Bottlerocket files of image-builder

    [updateBottlerocketVersionFiles] and its helpers in [pkg/commands/upgrade/upgrade.go].
    The releases file is a map of channels to maps; the order in which Go ranges over a map
    is a parameter. [changed_releases] is what [updateBottlerocketReleasesFile] does to the
    map. *)
From S2P Require Import Prelude GoStrings GoJson World VTTypes VTUtil VTGithub.
From stdpp Require Import base tactics strings list gmap.

Local Open Scope string_scope.
Local Open Scope list_scope.

Class RangeOrder := { range_keys : World → list string → list string }.
Class RangeOrderLaws `{!RangeOrder} : Prop := {
  range_keys_perm : ∀ w l, range_keys w l ≡ₚ l;
}.

Abbreviation object := (list (string * json)).

(** The keys of a map, and a map with one of its keys set. *)
Definition keys (m : object) : list string := remove_dups m.*1.
Definition set_member (m : object) (key : string) (v : json) : object :=
  filter (λ kv, kv.1 ≠ key) m ++ [(key, v)].

Definition is_nil (v : json) : bool := match v with JNull => true | _ => false end.

Section bottlerocket.
Context `{HH : !Host} `{HL : !VTLib} `{HS : !Semver} `{HG : !GitHub} `{HR : !RangeOrder}.

Definition ranged (m : object) : prog (list string) := λ w, (Ret (range_keys w (keys m)), w).

Definition version_key (format : string) : string := format +:+ "-release-version".

(** ** The current version *)
Fixpoint first_format (inner : object) (formats : list string) (current : string) : prog string :=
  match formats with
  | [] => mret current
  | format :: formats =>
      let v := member inner (version_key format) in
      if negb (is_nil v) then as_string v else first_format inner formats current
  end.

Fixpoint first_version (m : object) (channels : list string) (current : string) : prog string :=
  match channels with
  | [] => mret current
  | channel :: channels =>
      inner ← as_object (member m channel);
      current ← first_format inner BottlerocketImageFormats current;
      if negb (current =s "") then mret current else first_version m channels current
  end.

(** ** Whether an image exists *)
Definition image_target (format kubeVersion bottlerocketVersion : string) : string * string :=
  if format =s "ami" then
    ("aws", "bottlerocket-aws-k8s-" +:+ kubeVersion +:+ "-x86_64-" +:+ bottlerocketVersion +:+ ".img.lz4")
  else if format =s "ova" then
    ("vmware", "bottlerocket-vmware-k8s-" +:+ kubeVersion +:+ "-x86_64-" +:+ bottlerocketVersion +:+ ".ova")
  else if format =s "raw" then
    ("metal", "bottlerocket-metal-k8s-" +:+ kubeVersion +:+ "-x86_64-" +:+ bottlerocketVersion +:+ ".img.lz4")
  else ("", "").

Definition updates_url (variant kubeVersion file : string) : string :=
  "https://updates.bottlerocket.aws/2020-07-07/" +:+ variant +:+ "-k8s-" +:+ kubeVersion +:+ "/x86_64/" +:+ file.

Definition unmarshal_object (msg text : string) : prog json :=
  match parse text with None => fail msg | Some v => mret v end.

Definition verifyBRImageExists (channel format bottlerocketVersion : string) : prog bool :=
  let kubeVersion := ReplaceAll channel "-" "." in
  let '(variant, imageTarget) := image_target format kubeVersion bottlerocketVersion in
  timestampManifest ← wrap "reading Bottlerocket timestamp URL"
    (ReadURL (updates_url variant kubeVersion "timestamp.json"));
  timestampData ← unmarshal_object "unmarshalling Bottlerocket timestamp manifest" timestampManifest;
  signed ← field timestampData "signed";
  version ← field signed "version";
  version ← as_number version;
  targetsManifest ← wrap "reading Bottlerocket targets URL"
    (ReadURL (updates_url variant kubeVersion (float_text version +:+ ".targets.json")));
  targetsData ← unmarshal_object "unmarshalling Bottlerocket targets manifest" targetsManifest;
  signed ← field targetsData "signed";
  targets ← field signed "targets";
  targets ← as_object targets;
  mret (slices_Contains (keys targets) imageTarget).

(** ** The releases file *)
Definition update_format (channel latest : string) (m : object) (format : string) : prog object :=
  inner ← as_object (member m channel);
  if is_nil (member inner (version_key format)) then mret m else
  imageExists ← wrap ("checking if Bottlerocket " +:+ format +:+ " image exists for " +:+ channel +:+ " release branch")
    (verifyBRImageExists channel format latest);
  if (imageExists : bool)
  then mret (set_member m channel (JObj (set_member inner (version_key format) (JStr latest))))
  else mret m.

Definition update_channel (latest : string) (m : object) (channel : string) : prog object :=
  foldM BottlerocketImageFormats m (update_format channel latest).

Definition updateBottlerocketReleasesFile (bottlerocketReleaseMap : object)
    (bottlerocketReleasesFilePath latestBottlerocketVersion : string) : prog unit :=
  channels ← ranged bottlerocketReleaseMap;
  updated ← foldM channels bottlerocketReleaseMap (update_channel latestBottlerocketVersion);
  wrap "writing Bottlerocket releases file"
    (WriteFile bottlerocketReleasesFilePath (print_object updated) 420).

(** ** The metadata of the host containers *)
Definition metadata_file (container : string) : string :=
  Sprintf1 BottlerocketContainerMetadataFileFormat (ToUpper container).

Definition container_source (toml : json) (container : string) : prog string :=
  settings ← field toml "settings";
  containers ← field settings "host-containers";
  c ← field containers container;
  source ← field c "source";
  as_string source.

Definition update_container (toml : json) (projectRootFilepath projectPath : string)
    (updated : list string) (container : string) : prog (list string) :=
  let path := PathJoin [projectRootFilepath; metadata_file container] in
  contents ← wrap ("reading Bottlerocket " +:+ container +:+ " container metadata file") (ReadFile path);
  match yaml_metadata contents with
  | None => fail ("unmarshalling Bottlerocket " +:+ container +:+ " container metadata file")
  | Some metadata =>
      source ← container_source toml container;
      tag ← index (Split source ":") 1;
      if m_Tag metadata =s tag then mret updated else
      stdout ← wrap "running skopeo inspect command"
        (command ["skopeo"; "inspect"; "docker://" +:+ source; "--override-os"; "linux"; "--override-arch"; "amd64";
                  "--format"; "{{.Digest}}"]);
      _ ← wrap "writing Bottlerocket releases file" (WriteFile path (print_metadata (mkImageMetadata tag stdout)) 420);
      mret (updated ++ [PathJoin [projectPath; metadata_file container]])
  end.

Definition updateBottlerocketHostContainerMetadata (projectRootFilepath projectPath latestBottlerocketVersion : string)
    : prog (list string) :=
  contents ← wrap "getting contents of Bottlerocket host containers file"
    (GetFileContents "bottlerocket-os" "bottlerocket" BottlerocketHostContainersTOMLFile latestBottlerocketVersion);
  match toml_value contents with
  | None => fail "unmarshalling Bottlerocket host containers file"
  | Some toml => foldM BottlerocketHostContainers [] (update_container toml projectRootFilepath projectPath)
  end.

(** The current and the latest version, and the files that were updated. *)
Definition updateBottlerocketVersionFiles (projectRootFilepath projectPath : string)
    : prog (string * string * list string) :=
  let path := PathJoin [projectRootFilepath; BottlerocketReleasesFile] in
  contents ← wrap "reading Bottlerocket releases file" (ReadFile path);
  match yaml_object contents with
  | None => fail "unmarshalling Bottlerocket releases file"
  | Some releaseMap =>
      channels ← ranged releaseMap;
      current ← first_version releaseMap channels "";
      r ← wrap "getting latest Bottlerocket version from GitHub"
        (GetLatestRevision "bottlerocket-os" "bottlerocket" current);
      let '(latest, needsUpgrade) := r in
      if (needsUpgrade : bool) then
        _ ← wrap "updating Bottlerocket releases file" (updateBottlerocketReleasesFile releaseMap path latest);
        hostContainerFiles ← wrap "updating Bottlerocket host containers metadata files"
          (updateBottlerocketHostContainerMetadata projectRootFilepath projectPath latest);
        mret (current, latest, PathJoin [projectPath; BottlerocketReleasesFile] :: hostContainerFiles)
      else mret (current, latest, [])
  end.
End bottlerocket.

(** ** What the releases file becomes *)

(** What the map says of a key of a channel, and whether it says anything. *)
Definition entry (m : object) (channel key : string) : option json :=
  match member m channel with JObj inner => Some (member inner key) | _ => None end.
Definition present (m : object) (channel key : string) : bool :=
  match entry m channel key with Some v => negb (is_nil v) | None => false end.

(** [m'] is [m] with the latest version at the entries of [P] that were there. *)
Definition updated_at (latest : string) (P : string → string → bool) (m m' : object) : Prop :=
  ∀ channel key, entry m' channel key =
    if P channel key && present m channel key then Some (JStr latest) else entry m channel key.

Lemma table_get_app {A} (l1 l2 : list (string * A)) k :
  table_get (l1 ++ l2) k = match table_get l1 k with Some v => Some v | None => table_get l2 k end.
Proof.
  induction l1 as [|[k' v] l1 IH]; [done|]. cbn [app table_get]. destruct (k' =s k); [done|exact IH].
Qed.

Lemma table_get_filter {A} (l : list (string * A)) k k' :
  table_get (filter (λ kv, kv.1 ≠ k) l) k' = if k' =s k then None else table_get l k'.
Proof.
  induction l as [|[x v] l IH]; [by destruct (k' =s k)|]. rewrite filter_cons. cbn [fst].
  destruct (decide (x ≠ k)) as [Hne|Heq]; cbn [table_get]; rewrite IH.
  - destruct (x =s k') eqn:E; [|done]. apply streq_true in E as <-. apply streq_false in Hne. by rewrite Hne.
  - apply dec_stable in Heq as ->. destruct (k' =s k) eqn:E; [done|].
    destruct (k =s k') eqn:E'; [|done]. apply streq_true in E' as ->. by rewrite streq_refl in E.
Qed.

Lemma rev_filter {A} (P : A → Prop) `{!∀ x, Decision (P x)} (l : list A) : rev (filter P l) = filter P (rev l).
Proof.
  induction l as [|x l IH]; [done|]. rewrite filter_cons. cbn [rev]. rewrite filter_app, <-IH, filter_cons, filter_nil.
  destruct (decide (P x)); [done|by rewrite app_nil_r].
Qed.

Lemma member_set m k v k' : member (set_member m k v) k' = if k' =s k then v else member m k'.
Proof.
  unfold member, set_member. rewrite rev_app_distr, table_get_app. cbn [rev app table_get].
  destruct (k =s k') eqn:E; [apply streq_true in E as ->; by rewrite streq_refl|].
  rewrite rev_filter, table_get_filter. apply streq_false in E.
  assert ((k' =s k) = false) as -> by (by apply streq_false). done.
Qed.

Lemma entry_set m channel inner key v c k : member m channel = JObj inner →
  entry (set_member m channel (JObj (set_member inner key v))) c k =
    if (c =s channel) && (k =s key) then Some v else entry m c k.
Proof.
  intros Hm. unfold entry. rewrite member_set. destruct (c =s channel) eqn:E; [|done].
  apply streq_true in E as ->. rewrite Hm, member_set. cbn [andb]. by destruct (k =s key).
Qed.

Lemma updated_none latest m : updated_at latest (λ _ _, false) m m.
Proof. done. Qed.

Lemma present_updated latest P m m' c k : updated_at latest P m m' → present m' c k = present m c k.
Proof.
  intros H. unfold present at 1. rewrite H. destruct (P c k && present m c k) eqn:E; [|done].
  by apply andb_true_iff in E as [_ ->].
Qed.

Lemma updated_compose latest P1 P2 m m1 m2 : updated_at latest P1 m m1 → updated_at latest P2 m1 m2 →
  updated_at latest (λ c k, P1 c k || P2 c k) m m2.
Proof.
  intros H1 H2 c k.
  rewrite H2, (present_updated _ _ _ _ c k H1), H1. destruct (P1 c k), (P2 c k), (present m c k); done.
Qed.

Lemma updated_ext latest P1 P2 m m' : (∀ c k, P1 c k = P2 c k) → updated_at latest P1 m m' → updated_at latest P2 m m'.
Proof. intros HP H c k. by rewrite <-HP, H. Qed.

Section releases.
Context `{HH : !Host} `{HL : !VTLib} `{HR : !RangeOrder}.

(** [v.(map[string]interface{})[key]] when it is a map. *)
Definition obj_field (key : string) (v : json) : option json :=
  match v with JObj m => Some (member m key) | _ => None end.

(** At any time the URL answers with a JSON document in which [get] finds [r]. *)
Definition answers (url : string) (get : json → option json) (r : json) : Prop :=
  ∀ w, ∃ status text v, host_get w url = inr (status, text) ∧ parse text = Some v ∧ get v = Some r.

(** What the update server has for a variant of a Kubernetes version: the timestamp with the
    number of the list of targets, and this list. *)
Definition targets_served (variant kubeVersion : string) (targets : object) : Prop :=
  ∃ version,
    answers (updates_url variant kubeVersion "timestamp.json")
      (λ v, obj_field "signed" v ≫= obj_field "version") (JNum version) ∧
    answers (updates_url variant kubeVersion (float_text version +:+ ".targets.json"))
      (λ v, obj_field "signed" v ≫= obj_field "targets") (JObj targets).

(** The image of a format exists for a channel. *)
Definition image_exists (targets : string → string → object) (latest channel format : string) : bool :=
  let kubeVersion := ReplaceAll channel "-" "." in
  bool_decide ((image_target format kubeVersion latest).2 ∈ (targets channel format).*1).

(** It has what it takes to look for the image of every version in the file. *)
Definition all_served (m : object) (targets : string → string → object) (latest : string) : Prop :=
  ∀ channel format, format ∈ BottlerocketImageFormats → present m channel (version_key format) = true →
    targets_served (image_target format (ReplaceAll channel "-" ".") latest).1 (ReplaceAll channel "-" ".")
      (targets channel format).

Lemma field_eq v key r w : obj_field key v = Some r → field (W := World) v key w = (Ret r, w).
Proof using. unfold field, obj_field. destruct v; try done. by intros [= <-]. Qed.

Lemma updates_url_http variant kubeVersion file : http_url (updates_url variant kubeVersion file) = true.
Proof using. reflexivity. Qed.

(** Two fields of the document a URL answers with, one in the other. *)
Lemma fetch_eq {A} url f1 f2 r msg1 msg2 (k : json → prog A) w :
  http_url url = true → answers url (λ v, obj_field f1 v ≫= obj_field f2) r →
  (text ← wrap msg1 (ReadURL url); v ← unmarshal_object msg2 text; s ← field v f1; x ← field s f2; k x) w =
  k r (log (EGet url) w).
Proof using.
  intros Hu Ha. destruct (Ha w) as (status & text & v & Hget & Hp & (s & Hs & Hr)%bind_Some).
  rewrite (bind_step _ _ _ text (log (EGet url) w)).
  2:{ apply wrap_ok. unfold ReadURL, HttpGet, mbind, go_mbind, go_bind. by rewrite Hu, Hget. }
  unfold unmarshal_object. rewrite Hp, bind_ret_l.
  rewrite (bind_step _ _ _ s (log (EGet url) w)) by (by apply field_eq).
  by rewrite (bind_step _ _ _ r (log (EGet url) w)) by (by apply field_eq).
Qed.

Lemma verify_eq targets latest channel format w :
  targets_served (image_target format (ReplaceAll channel "-" ".") latest).1 (ReplaceAll channel "-" ".") (targets channel format) →
  ∃ w', verifyBRImageExists channel format latest w = (Ret (image_exists targets latest channel format), w') ∧
    w_fs w' = w_fs w.
Proof using.
  intros (version & Ht & Hl).
  unfold verifyBRImageExists, image_exists.
  set (kube := ReplaceAll channel "-" ".") in *. destruct (image_target format kube latest) as [variant target].
  cbn [fst snd] in *. rewrite (fetch_eq _ "signed" "version" _ _ _ _ w (updates_url_http _ _ _) Ht). cbn [as_number]. rewrite bind_ret_l.
  rewrite (fetch_eq _ "signed" "targets" _ _ _ _ _ (updates_url_http _ _ _) Hl). cbn [as_object]. rewrite bind_ret_l.
  assert (slices_Contains (keys (targets channel format)) target = bool_decide (target ∈ (targets channel format).*1)) as ->.
  { apply eq_true_iff_eq. rewrite slices_Contains_spec, bool_decide_eq_true. unfold keys. by rewrite elem_of_remove_dups. }
  eexists. split; [reflexivity|done].
Qed.

Lemma all_served_updated latest P m m' targets : updated_at latest P m m' →
  all_served m targets latest → all_served m' targets latest.
Proof using. intros Hu Hs channel format Hf Hp. rewrite (present_updated _ _ _ _ _ _ Hu) in Hp. by apply Hs. Qed.

Definition is_object (m : object) (channel : string) : Prop := ∃ inner, member m channel = JObj inner.

Lemma is_object_entry m channel k : is_object m channel ↔ entry m channel k ≠ None.
Proof using.
  unfold is_object, entry. destruct (member m channel); split; try naive_solver; intros [? ?]; done.
Qed.

Lemma updated_objects latest P m m' channel : updated_at latest P m m' → is_object m channel → is_object m' channel.
Proof using.
  intros Hu Ho. apply (is_object_entry _ _ ""). rewrite Hu. destruct (_ && _); [done|]. by apply is_object_entry.
Qed.

Definition at_format (targets : string → string → object) (latest channel format c k : string) : bool :=
  (c =s channel) && (k =s version_key format) && image_exists targets latest channel format.

Lemma update_format_eq targets latest channel m format w : all_served m targets latest →
  format ∈ BottlerocketImageFormats → is_object m channel →
  ∃ m' w', update_format channel latest m format w = (Ret m', w') ∧ w_fs w' = w_fs w ∧
    updated_at latest (at_format targets latest channel format) m m'.
Proof using.
  intros Hs Hf [inner Hm]. unfold update_format. rewrite Hm. cbn [as_object]. rewrite bind_ret_l.
  assert (present m channel (version_key format) = negb (is_nil (member inner (version_key format)))) as Hp.
  { unfold present, entry. by rewrite Hm. }
  destruct (is_nil (member inner (version_key format))); cbn [negb] in Hp.
  { exists m, w. split; [done|]. split; [done|]. intros c k. unfold at_format.
    destruct (c =s channel) eqn:Ec; [|done]. destruct (k =s version_key format) eqn:Ek; [|done].
    apply streq_true in Ec as ->. apply streq_true in Ek as ->. by rewrite Hp, andb_false_r. }
  destruct (verify_eq targets latest channel format w (Hs channel format Hf Hp)) as (w1 & Hv & Hfs).
  rewrite (bind_step _ _ _ _ w1 (wrap_ok _ _ _ _ _ Hv)).
  destruct (image_exists targets latest channel format) eqn:Hi.
  - eexists _, w1. split; [done|]. split; [done|]. intros c k. rewrite (entry_set _ _ _ _ _ _ _ Hm).
    unfold at_format. rewrite Hi, andb_true_r.
    destruct (c =s channel) eqn:Ec; [|done]. destruct (k =s version_key format) eqn:Ek; [|done].
    apply streq_true in Ec as ->. apply streq_true in Ek as ->. by rewrite Hp.
  - exists m, w1. split; [done|]. split; [done|]. intros c k. unfold at_format. by rewrite Hi, andb_false_r.
Qed.

Lemma update_formats_eq targets latest channel formats m w : all_served m targets latest →
  (∀ f, f ∈ formats → f ∈ BottlerocketImageFormats) → is_object m channel →
  ∃ m' w', foldM formats m (update_format channel latest) w = (Ret m', w') ∧ w_fs w' = w_fs w ∧
    updated_at latest (λ c k, existsb (λ f, at_format targets latest channel f c k) formats) m m'.
Proof using.
  revert m w. induction formats as [|f formats IH]; intros m w Hs Hf Ho; [by exists m, w|].
  destruct (update_format_eq targets latest channel m f w Hs ltac:(apply Hf; left) Ho) as (m1 & w1 & H1 & E1 & U1).
  destruct (IH m1 w1) as (m2 & w2 & H2 & E2 & U2);
    [by eapply all_served_updated|intros g Hg; apply Hf; by right|by eapply updated_objects|].
  exists m2, w2. cbn [foldM]. rewrite (bind_step _ _ _ _ _ H1). split; [done|]. split; [congruence|].
  by eapply updated_compose.
Qed.

Lemma update_channels_eq targets latest channels m w : all_served m targets latest →
  (∀ c, c ∈ channels → is_object m c) →
  ∃ m' w', foldM channels m (update_channel latest) w = (Ret m', w') ∧ w_fs w' = w_fs w ∧
    updated_at latest (λ c k, existsb (λ channel,
      existsb (λ f, at_format targets latest channel f c k) BottlerocketImageFormats) channels) m m'.
Proof using.
  revert m w. induction channels as [|channel channels IH]; intros m w Hs Ho; [by exists m, w|].
  destruct (update_formats_eq targets latest channel BottlerocketImageFormats m w Hs ltac:(done) ltac:(apply Ho; left))
    as (m1 & w1 & H1 & E1 & U1).
  destruct (IH m1 w1) as (m2 & w2 & H2 & E2 & U2); [by eapply all_served_updated|..].
  { intros c Hc. eapply updated_objects; [exact U1|]. apply Ho. by right. }
  exists m2, w2. cbn [foldM]. unfold update_channel at 1. rewrite (bind_step _ _ _ _ _ H1). split; [done|].
  split; [congruence|]. by eapply updated_compose.
Qed.

Lemma present_key m c k : present m c k = true → c ∈ keys m.
Proof using.
  unfold present, entry, member. intros H. apply elem_of_remove_dups.
  destruct (table_get (rev m) c) as [v|] eqn:E; [|done]. clear H.
  assert (c ∈ (rev m).*1) as Hc.
  { induction (rev m) as [|[x u] l IH]; [done|]. cbn [table_get fmap list_fmap fst] in *.
    destruct (x =s c) eqn:Ex; [apply streq_true in Ex as ->; left|right; by apply IH]. }
  revert Hc. change ((rev m).*1) with (map fst (rev m)). rewrite map_rev.
  rewrite <-!list_elem_of_In || rewrite !list_elem_of_In. by rewrite <-in_rev.
Qed.

(** C15: the Bottlerocket releases file. Let every channel of the file be a map and let the
    update server answer, whenever it is asked, with the lists of targets [targets] for the
    versions the file has. Then [updateBottlerocketReleasesFile],
    in whatever order Go visits the channels, writes the file with a map in which the release
    version of a format in a channel is the latest version exactly when the file had a
    version there and the image is among the targets, and every other entry is as it was.
    Nothing else is written. *)
Theorem bottlerocket_releases_updated `{HRL : !RangeOrderLaws} targets latest m path w :
  all_served m targets latest → (∀ c, c ∈ keys m → is_object m c) →
  ∃ m' w1, w_fs w1 = w_fs w ∧
    updateBottlerocketReleasesFile m path latest w =
      wrap "writing Bottlerocket releases file" (WriteFile path (print_object m') 420) w1 ∧
    ∀ channel key, entry m' channel key =
      if present m channel key && existsb (λ format,
           (key =s version_key format) && image_exists targets latest channel format) BottlerocketImageFormats
      then Some (JStr latest) else entry m channel key.
Proof.
  intros Hs Ho. set (channels := range_keys w (keys m)).
  assert (∀ c, c ∈ channels ↔ c ∈ keys m) as Hc by (intros c; unfold channels; by rewrite range_keys_perm).
  destruct (update_channels_eq targets latest channels m w Hs) as (m' & w1 & H1 & E1 & U1).
  { intros c Hin. by apply Ho, Hc. }
  exists m', w1. split; [done|]. unfold updateBottlerocketReleasesFile.
  rewrite (bind_step _ _ _ channels w) by done. rewrite (bind_step _ _ _ _ _ H1). split; [done|].
  intros c k. rewrite U1, andb_comm. destruct (present m c k) eqn:Hp; [|done]. cbn [andb].
  apply present_key, Hc in Hp.
  erewrite (eq_true_iff_eq (existsb _ channels)); [done|]. rewrite !existsb_exists. split.
  - intros (channel & _ & (f & Hf & Hx)%existsb_exists). exists f. split; [done|]. unfold at_format in Hx.
    apply andb_true_iff in Hx as [[Hcc%streq_true Hk]%andb_true_iff Hi]. subst c. by rewrite Hk.
  - intros (f & Hf & [Hk Hi]%andb_true_iff). exists c. split; [by apply list_elem_of_In|].
    apply existsb_exists. exists f. split; [done|]. unfold at_format. by rewrite streq_refl, Hk.
Qed.
End releases.

(** ** An AMI that exists and an OVA that does not *)
Definition br_targets : object := [("bottlerocket-aws-k8s-1.27-x86_64-v2.img.lz4", JNull)].

Definition br_timestamp : string := "{" +:+ q "signed" +:+ ":{" +:+ q "version" +:+ ":7}}".
Definition br_manifest : string := print (JObj [("signed", JObj [("targets", JObj br_targets)])]).

Definition br_host : Host := {|
  host_exec w _ _ := mkCmdResult None "" (w_fs w);
  host_torn _ _ := None; host_fault _ _ := None;
  host_get _ url := inr (200%Z, if HasSuffix url "timestamp.json" then br_timestamp else br_manifest);
  host_cwd := Some "/work"; host_hostname := Some "node"; host_tick w _ := w_fs w; host_clock _ := 0%Z |}.

Definition br_order : RangeOrder := {| range_keys _ l := rev l |}.
Lemma br_order_laws : @RangeOrderLaws br_order.
Proof. split. intros w l. cbn. by rewrite <-Permutation_rev. Qed.

Definition br_lib : VTLib := {|
  untar _ := None; yaml_projects _ := None; print_projects _ := ""; yaml_eksd _ := None; print_eksd _ := "";
  yaml_metadata _ := None; print_metadata _ := ""; yaml_object _ := None; print_object m := print (JObj m);
  toml_value _ := None; float_text s := s |}.

Lemma br_timestamp_url v k : HasSuffix (updates_url v k "timestamp.json") "timestamp.json" = true.
Proof.
  apply HasSuffix_spec. unfold updates_url.
  exists ("https://updates.bottlerocket.aws/2020-07-07/" +:+ v +:+ "-k8s-" +:+ k +:+ "/x86_64/").
  by rewrite !sapp_assoc.
Qed.

Lemma br_targets_url v k : HasSuffix (updates_url v k "7.targets.json") "timestamp.json" = false.
Proof. unfold HasSuffix, updates_url. rewrite !srev_app, !sapp_assoc. reflexivity. Qed.

Definition br_releases : object :=
  [("1-27", JObj [("ami-release-version", JStr "v1"); ("ova-release-version", JStr "v1")])].

Lemma br_served : all_served (HH := br_host) (HL := br_lib) br_releases (λ _ _, br_targets) "v2".
Proof.
  intros channel format _ _. exists "7". cbn [float_text br_lib]. split; intros w.
  - eexists _, _, _. cbn [host_get br_host]. rewrite br_timestamp_url. split; [done|].
    split; vm_compute; reflexivity.
  - eexists _, _, _. cbn [host_get br_host].
    change ("7" +:+ ".targets.json") with "7.targets.json". rewrite br_targets_url. split; [done|].
    split; vm_compute; reflexivity.
Qed.

Lemma bottlerocket_releases_updated_witness :
  ∃ m' w1, w_fs w1 = w_fs empty_world ∧
    updateBottlerocketReleasesFile (HH := br_host) (HL := br_lib) (HR := br_order) br_releases "/r" "v2" empty_world =
      wrap "writing Bottlerocket releases file" (WriteFile (HH := br_host) "/r" (@print_object br_lib m') 420) w1 ∧
    ∀ channel key, entry m' channel key =
      if present br_releases channel key && existsb (λ format,
           (key =s version_key format) && image_exists (λ _ _, br_targets) "v2" channel format) BottlerocketImageFormats
      then Some (JStr "v2") else entry br_releases channel key.
Proof.
  apply (bottlerocket_releases_updated (HH := br_host) (HL := br_lib) (HR := br_order) (HRL := br_order_laws)
    (λ _ _, br_targets) "v2" br_releases "/r" empty_world br_served).
  intros c Hc. assert (c = "1-27") as ->.
  { apply elem_of_remove_dups in Hc. cbn in Hc. by apply elem_of_cons in Hc as [|?%not_elem_of_nil]. }
  eexists. reflexivity.
Defined.

Example br_releases_ex : w_fs (updateBottlerocketReleasesFile (HH := br_host) (HL := br_lib) (HR := br_order) br_releases
    "/r" "v2" empty_world).2 !! "/r" = Some (File (print (JObj [("1-27", JObj [("ova-release-version", JStr "v1");
      ("ami-release-version", JStr "v2")])])) 420).
Proof. vm_compute. reflexivity. Qed.
