(* ===== verification/VTUpgrade.v ===== *)
(** * version-tracker: the upgrade command

    [Run] of [pkg/commands/upgrade/upgrade.go]: what is checked before anything is changed,
    the upgrade of the EKS Distro releases or of one project, and the publication of the
    files that were updated (index, commit, push, pull request). The variables [Run] assigns
    on its way to the publication are the record [upgrade]. *)
From S2P Require Import Prelude GoStrings World VTTypes VTUtil VTGithub VTGit VTEksd VTProject VTBottlerocket.
From stdpp Require Import base tactics strings list gmap.

Local Open Scope string_scope.
Local Open Scope list_scope.

(** [updatedFiles], [headBranchName], [commitMessage], [pullRequestBody],
    [addPatchWarningComment], [patchesWarningComment] *)
Record upgrade := mkUpgrade {
  up_files : list string; up_head : string; up_message : string; up_body : string;
  up_warn : bool; up_comment : string }.

Definition add_files (files : list string) (u : upgrade) : upgrade :=
  mkUpgrade (up_files u ++ files) (up_head u) (up_message u) (up_body u) (up_warn u) (up_comment u).
Definition warn_patches (comment : string) (u : upgrade) : upgrade :=
  mkUpgrade (up_files u) (up_head u) (up_message u) (up_body u) true comment.
Definition rebranch (head message body : string) (u : upgrade) : upgrade :=
  mkUpgrade (up_files u) head message body (up_warn u) (up_comment u).

(** [filepath.Rel] of absolute paths. *)
Fixpoint strip_common (a b : list string) : list string * list string :=
  match a, b with
  | x :: a', y :: b' => if x =s y then strip_common a' b' else (a, b)
  | _, _ => (a, b)
  end.

Definition Rel (basepath targpath : string) : option string :=
  let base := Clean basepath in
  let targ := Clean targpath in
  if base =s targ then Some "." else
  let '(b, t) := strip_common (Split base "/") (Split targ "/") in
  if slices_Contains (take 1 b) ".." then None
  else Some (StrJoin (map (λ _, "..") b ++ t) "/").

Example rel_ex : (Rel "/w/bt" "/w/bt/projects/a", Rel "/w/bt" "/w/x", Rel "/w" "/w") =
  (Some "projects/a", Some "../x", Some ".").
Proof. vm_compute. reflexivity. Qed.

Definition isEKSDistroUpgrade (projectName : string) : bool := projectName =s "aws/eks-distro".

Section upgrade.
Context `{HH : !Host} `{HL : !VTLib} `{HS : !Semver} `{HG : !GitHub} `{HGit : !Git} `{HR : !RangeOrder}.

Definition require_env (name : string) : prog string :=
  v ← LookupEnv name;
  match v with Some v => mret v | None => fail (name +:+ " environment variable is not set") end.

Definition new_branch (repo head headCommit : string) : prog unit :=
  _ ← wrap ("checking out worktree at branch " +:+ head) (Checkout repo head);
  wrap "resetting new branch to [origin/main] HEAD" (ResetToMain repo headCommit).

(** ** EKS Distro *)
Definition eksd_upgrade (repo headCommit : string) : prog upgrade :=
  let u := mkUpgrade [] "update-eks-d-latest-releases" "Bump EKS-D releases to latest"
             EKSDistroUpgradePullRequestBody false PatchesCommentFormat in
  _ ← new_branch repo (up_head u) headCommit;
  isUpdated ← wrap "updating EKS Distro releases file" (updateEKSDistroReleasesFile repo);
  mret (if (isUpdated : bool) then add_files [EKSDistroLatestReleasesFile] u else u).

(** ** One project *)
Definition go_minor (msg v : string) : prog Z :=
  minor ← index (Split v ".") 1;
  match Atoi minor with Some n => mret n | None => fail msg end.

(** The Go version of the latest revision: the tracker's list and the updated files. *)
Definition upgrade_go_version (repo projectName projectOrg projectRepo latestRevision currentGoVersion : string)
    (projectsList : ProjectsList) (target : option (nat * nat)) (u : upgrade) : prog (ProjectsList * upgrade) :=
  if negb (currentGoVersion =s "N/A") then
    latestGoVersion ← wrap "getting latest Go version for release"
      (GetGoVersionForLatestRevision projectOrg projectRepo latestRevision);
    currentGoMinorVersion ← go_minor "getting current Go minor version" currentGoVersion;
    latestGoMinorVersion ← go_minor "getting latest Go minor version" latestGoVersion;
    if bool_decide (currentGoMinorVersion < latestGoMinorVersion)%Z then
      projectsList ← set_version (set_go_version latestGoVersion) projectsList target;
      path ← wrap "updating project GOLANG_VERSION file"
        (updateProjectVersionFile repo GoVersionFile projectName latestGoVersion);
      mret (projectsList, add_files [path] u)
    else mret (projectsList, u)
  else
    projectsList ← set_version (set_go_version "N/A") projectsList target;
    mret (projectsList, u).

(** The patches, when the project has any: whether checksums can be updated, and the
    warning. *)
Definition upgrade_patches (projectRoot projectRepo latestRevision : string) (patches : option Z) (u : upgrade)
    : prog (bool * upgrade) :=
  match patches with
  | None => mret (true, u)
  | Some totalPatchCount =>
      r ← wrap "applying patches to repository"
        (applyPatchesToRepo projectRoot projectRepo latestRevision totalPatchCount);
      let '(applied, failedPatch, failedFiles) := r in
      mret (if bool_decide (applied = totalPatchCount) then (true, u)
            else (false, warn_patches (PatchesCommentBody applied totalPatchCount failedPatch failedFiles) u))
  end.

Definition upgrade_checksums (repo projectRoot projectPath : string) (u : upgrade) : prog upgrade :=
  st ← Stat (PathJoin [projectRoot; ChecksumsFile]);
  match st with
  | StatOk _ =>
      _ ← wrap "updating project checksums and attribution files" (updateChecksumsAttributionFiles projectRoot);
      attributions ← wrap "finding filenames matching attribution file pattern"
        (Glob (PathJoin [projectRoot; AttributionsFilePattern]));
      foldM attributions (add_files [PathJoin [projectPath; ChecksumsFile]] u) (λ u attributionFile,
        match Rel repo attributionFile with
        | None => fail "getting relative path for attribution file"
        | Some path => mret (add_files [path] u)
        end)
  | _ => mret u
  end.

(** [if needsUpgrade { ... }] *)
Definition upgrade_files (repo projectName projectOrg projectRepo latestRevision currentGoVersion : string)
    (patches : option Z) (u : upgrade) : prog upgrade :=
  let projectPath := PathJoin ["projects"; projectName] in
  let projectRoot := PathJoin [repo; projectPath] in
  let tracker := PathJoin [repo; UpstreamProjectsTrackerFile] in
  loaded ← wrap "reloading upstream projects tracker file"
    (loadUpstreamProjectsTrackerFile tracker projectOrg projectRepo);
  let '(projectsList, target) := loaded in
  projectsList ← set_version (set_tag latestRevision) projectsList target;
  gitTagPath ← wrap "updating project GIT_TAG file"
    (updateProjectVersionFile repo GitTagFile projectName latestRevision);
  r ← upgrade_go_version repo projectName projectOrg projectRepo latestRevision currentGoVersion
        projectsList target (add_files [gitTagPath] u);
  let '(projectsList, u) := r in
  _ ← wrap "updating upstream projects tracker file"
    (updateUpstreamProjectsTrackerFile projectsList repo tracker);
  let u := add_files [UpstreamProjectsTrackerFile] u in
  _ ← wrap "updating version in project README" (updateProjectReadmeVersion repo projectOrg projectRepo);
  let u := add_files [PathJoin [projectPath; ReadmeFile]] u in
  r ← upgrade_patches projectRoot projectRepo latestRevision patches u;
  let '(patched, u) := r in
  u ← (if (patched : bool) then upgrade_checksums repo projectRoot projectPath u else mret u);
  if projectName =s "cilium/cilium" then
    digests ← wrap "updating Cilium image digest files" (updateCiliumImageDigestFiles projectRoot projectPath);
    mret (add_files digests u)
  else mret u.

(** [if projectName == "kubernetes-sigs/image-builder" { ... }] *)
Definition upgrade_bottlerocket (repo projectName projectOrg projectRepo currentRevision latestRevision : string)
    (u : upgrade) : prog upgrade :=
  let projectPath := PathJoin ["projects"; projectName] in
  r ← wrap "updating Bottlerocket version and metadata files"
    (updateBottlerocketVersionFiles (PathJoin [repo; projectPath]) projectPath);
  let '(currentBR, latestBR, updatedBRFiles) := r in
  match updatedBRFiles with
  | [] => mret u
  | _ :: _ =>
      let alone := bool_decide (up_files u = []) in
      let u := add_files updatedBRFiles u in
      let u := if alone then
          rebranch "update-bottlerocket-releases" "Bump Bottlerocket versions to latest release"
            (BottlerocketUpgradePullRequestBody currentBR latestBR) u
        else
          rebranch ("update-" +:+ projectOrg +:+ "-" +:+ projectRepo +:+ "-and-bottlerocket")
            ("Bump " +:+ projectName +:+ " and Bottlerocket versions to latest release")
            (CombinedPullRequestBody currentRevision latestRevision currentBR latestBR) u in
      _ ← wrap ("checking out worktree at branch " +:+ up_head u) (Checkout repo (up_head u));
      mret u
  end.

(** The patches of a project: [None] without a patches directory. *)
Definition count_patches (projectRoot : string) : prog (option Z) :=
  st ← Stat (PathJoin [projectRoot; PatchesDirectory]);
  match st with
  | StatOk _ =>
      patchFiles ← wrap "reading patch directory" (ReadDir (PathJoin [projectRoot; PatchesDirectory]));
      mret (Some (Z.of_nat (length patchFiles)))
  | _ => mret None
  end.

Definition latest_project_revision (projectName projectOrg projectRepo currentRevision : string)
    : prog (string * bool) :=
  if projectName =s "cilium/cilium" then
    wrap "getting latest revision from ECR Public" (ecr_GetLatestRevision CiliumImageRepository currentRevision)
  else wrap "getting latest revision from GitHub" (GetLatestRevision projectOrg projectRepo currentRevision).

(** A project whose directory exists. *)
Definition existing_project_upgrade (repo headCommit projectName projectOrg projectRepo : string) : prog upgrade :=
  let projectRoot := PathJoin [repo; PathJoin ["projects"; projectName]] in
  patches ← count_patches projectRoot;
  loaded ← wrap "loading upstream projects tracker file"
    (loadUpstreamProjectsTrackerFile (PathJoin [repo; UpstreamProjectsTrackerFile]) projectOrg projectRepo);
  let versions := target_versions loaded.1 loaded.2 in
  if bool_decide (1 < length versions)%nat then fail "release-branched projects not supported at this time" else
  currentVersion ← index versions 0;
  if Tag currentVersion =s "" then fail "projects tracked with commit hashes not supported at this time" else
  let currentRevision := Tag currentVersion in
  latest ← latest_project_revision projectName projectOrg projectRepo currentRevision;
  let '(latestRevision, needsUpgrade) := latest in
  let u := mkUpgrade [] ("update-" +:+ projectOrg +:+ "-" +:+ projectRepo)
             ("Bump " +:+ projectName +:+ " to latest release")
             (DefaultUpgradePullRequestBody projectOrg projectRepo currentRevision latestRevision)
             false PatchesCommentFormat in
  if needsUpgrade || slices_Contains ProjectsWithUnconventionalUpgradeFlows projectName then
    _ ← new_branch repo (up_head u) headCommit;
    u ← (if (needsUpgrade : bool)
         then upgrade_files repo projectName projectOrg projectRepo latestRevision (GoVersion currentVersion) patches u
         else mret u);
    if projectName =s "kubernetes-sigs/image-builder"
    then upgrade_bottlerocket repo projectName projectOrg projectRepo currentRevision latestRevision u
    else mret u
  else mret u.

Definition project_upgrade (repo headCommit projectName projectOrg projectRepo : string) : prog upgrade :=
  st ← Stat (PathJoin [repo; PathJoin ["projects"; projectName]]);
  match st with
  | StatNotExist => fail ("invalid project name " +:+ projectName)
  | _ => existing_project_upgrade repo headCommit projectName projectOrg projectRepo
  end.

(** ** Publication *)
Definition publish_files (dryRun : bool) (repo projectName baseRepoOwner headRepoOwner githubToken : string)
    (u : upgrade) : prog unit :=
  match up_files u with
  | [] => mret tt
  | _ :: _ =>
      _ ← wrap "adding updated files to index" (git_Add repo (up_files u));
      _ ← wrap ("committing updated project version files for [" +:+ projectName +:+ "] project")
        (git_Commit repo (up_message u));
      if dryRun then mret tt else
      _ ← wrap ("pushing updated project version files for [" +:+ projectName +:+ "] project")
        (Push repo headRepoOwner githubToken);
      wrap ("creating pull request to " +:+ BuildToolingRepoName +:+ " repository")
        (CreatePullRequest (up_message u) (up_body u) baseRepoOwner MainBranchName headRepoOwner (up_head u)
          (up_warn u) (up_comment u))
  end.

Definition Run (opts : UpgradeOptions) : prog unit :=
  let projectName := u_ProjectName opts in
  projectOrg ← index (Split projectName "/") 0;
  projectRepo ← index (Split projectName "/") 1;
  baseRepoOwner ← require_env BaseRepoOwnerEnvvar;
  headRepoOwner ← require_env HeadRepoOwnerEnvvar;
  githubToken ← require_env GitHubTokenEnvvar;
  cwd ← wrap "retrieving current working directory" Getwd;
  contents ← wrap "reading skipped projects file" (ReadFile (PathJoin [cwd; SkippedProjectsFile]));
  if slices_Contains (Split contents nl) projectName then mret tt else
  let repo := PathJoin [cwd; BuildToolingRepoName] in
  headCommit ← wrap "cloning build-tooling repo"
    (CloneRepo (Sprintf1 BuildToolingRepoURL baseRepoOwner) repo headRepoOwner);
  _ ← wrap "getting repo's current worktree" (Worktree repo);
  u ← (if isEKSDistroUpgrade projectName then eksd_upgrade repo headCommit
       else project_upgrade repo headCommit projectName projectOrg projectRepo);
  publish_files (DryRun opts) repo projectName baseRepoOwner headRepoOwner githubToken u.
End upgrade.
