(* ===== verification/VTRun.v ===== *)
(** * version-tracker: what the upgrade command publishes

    Properties of [Run] of VTUpgrade.v: the order of commit, push and pull request in every
    run, what a dry run leaves out, which projects are touched at all, and the panic of a
    project that no table knows. *)
From S2P Require Import Prelude GoStrings GoRegexp World VTTypes VTUtil VTGithub VTForge VTGit VTEksd VTProject VTBottlerocket VTUpgrade.
From stdpp Require Import base tactics strings list gmap.
From Stdlib Require Import Ascii.

Local Open Scope string_scope.
Local Open Scope list_scope.

(** The calls that publish, by name. *)
Definition publishing_calls : list string :=
  ["git.Commit"; "git.Push"; "PullRequests.List"; "PullRequests.Create"; "PullRequests.Edit";
   "Issues.ListComments"; "Issues.CreateComment"].

Definition as_publishing (e : event) : option string :=
  match e with
  | ECall api _ => if slices_Contains publishing_calls api then Some api else None
  | _ => None
  end.

(** The changes: writes, and the operations of git. *)
Definition as_change (e : event) : option event :=
  match e with
  | EWrite _ _ _ | ECreate _ | EMkdirAll _ | ERemove _ | ERemoveAll _ | ERename _ _ | EChown _ _ _ | EChmod _ _ => Some e
  | ECall api _ => if HasPrefix api "git." then Some e else None
  | _ => None
  end.

(** ** Looking for the latest revision

    For any observer that sees neither the commands, nor the files read, nor the queries of
    repositories. *)
Section looking.
Context `{HH : !Host} `{HL : !VTLib} `{HS : !Semver} `{HG : !GitHub}.
Context {X : Type} (f : event → option X).
Context (Hquery : ∀ api args, HasPrefix api "Repositories." = true → f (ECall api args) = None)
  (Hexec : ∀ argv env, f (EExec argv env) = None).

Abbreviation unseen m := (preserves (quiet f) m).

Lemma unseen_api {A} name args (answer : World → string + A) : HasPrefix name "Repositories." = true →
  unseen (api name args answer).
Proof using Hquery. intros Hn. apply preserves_api; [apply _|]. intros w. by apply quiet_log, Hquery. Qed.
Lemma unseen_ExecCommand argv : unseen (ExecCommand argv).
Proof using Hexec.
  unfold ExecCommand. apply preserves_bind; [apply _| |intros r; quiet_solve].
  apply preserves_exec; auto with go typeclass_instances.
Qed.
Lemma unseen_command argv : unseen (command argv).
Proof using Hexec.
  unfold command. apply preserves_bind; [apply _|apply unseen_ExecCommand|intros r; quiet_solve].
Qed.
Lemma unseen_pages {A} (list_page : Z → prog (list A * Z)) add fuel page all :
  (∀ p, unseen (list_page p)) → (∀ a b, unseen (add a b)) → unseen (pages list_page add fuel page all).
Proof using.
  intros Hl Ha. revert page all. induction fuel as [|fuel IH]; intros page all; cbn [pages].
  - quiet_solve.
  - repeat first [apply IH|apply Hl|apply Ha|quiet_step].
Qed.
Lemma unseen_commit_for_tag tags name : unseen (getCommitForTag tags name).
Proof using. induction tags as [|t tags IH]; cbn [getCommitForTag]; repeat first [apply IH|quiet_step]. Qed.
Lemma unseen_semver_of msg s : unseen (semver_of msg s).
Proof using. unfold semver_of. quiet_solve. Qed.
Lemma unseen_epoch org repo sha : unseen (getCommitDateEpoch org repo sha).
Proof using Hquery. unfold getCommitDateEpoch. repeat first [by apply unseen_api|quiet_step]. Qed.
Lemma unseen_latest_of org repo epoch sem tags names latest : unseen (latest_of org repo epoch sem tags names latest).
Proof using Hquery.
  revert latest. induction names as [|n names IH]; intros latest; cbn [latest_of]; unfold isUpgradeRequired;
    repeat first [apply IH|apply unseen_commit_for_tag|apply unseen_epoch|apply unseen_semver_of|quiet_step].
Qed.
Lemma unseen_GetLatestRevision org repo current : unseen (GetLatestRevision org repo current).
Proof using Hquery.
  unfold GetLatestRevision, getReleasesForRepo, getTagsForRepo, getCommitsForRepo, list_releases, list_tags,
    list_commits, add_release.
  repeat first [apply unseen_pages; intros|apply unseen_latest_of|apply unseen_commit_for_tag|apply unseen_epoch
    |apply unseen_semver_of|by apply unseen_api|quiet_step].
Qed.
Lemma unseen_ecr image current : unseen (ecr_GetLatestRevision image current).
Proof using Hexec.
  unfold ecr_GetLatestRevision, field, as_object, as_array, newest, as_string.
  repeat first [apply unseen_command|apply unseen_semver_of|quiet_step].
Qed.
Lemma unseen_latest name org repo current : unseen (latest_project_revision name org repo current).
Proof using Hquery Hexec.
  unfold latest_project_revision. repeat first [apply unseen_ecr|apply unseen_GetLatestRevision|quiet_step].
Qed.
End looking.

Lemma queries_not_publishing api args : HasPrefix api "Repositories." = true → as_publishing (ECall api args) = None.
Proof.
  intros Hp. cbn [as_publishing]. destruct (slices_Contains publishing_calls api) eqn:E; [|done].
  apply slices_Contains_spec in E. unfold publishing_calls in E.
  repeat (apply elem_of_cons in E as [->|E]; [done|]). by apply not_elem_of_nil in E.
Qed.

Lemma queries_no_change api args : HasPrefix api "Repositories." = true → as_change (ECall api args) = None.
Proof. intros [r ->]%HasPrefix_spec. done. Qed.

Section quiet.
Context `{HH : !Host} `{HL : !VTLib} `{HS : !Semver} `{HG : !GitHub} `{HGit : !Git} `{HR : !RangeOrder}.

Abbreviation idle m := (preserves (quiet as_publishing) m).

Lemma idle_MustCompile p : idle (MustCompile p).
Proof. unfold MustCompile. quiet_solve. Qed.
Lemma idle_command argv : idle (command argv).
Proof. by apply unseen_command. Qed.
Lemma idle_ExecCommand argv : idle (ExecCommand argv).
Proof. by apply unseen_ExecCommand. Qed.
Lemma idle_GetLatestRevision org repo current : idle (GetLatestRevision org repo current).
Proof. apply unseen_GetLatestRevision, queries_not_publishing. Qed.
Lemma idle_latest name org repo current : idle (latest_project_revision name org repo current).
Proof. by apply unseen_latest; [apply queries_not_publishing|]. Qed.
Lemma idle_GetFileContents org repo path ref : idle (GetFileContents org repo path ref).
Proof. unfold GetFileContents. quiet_solve. Qed.
Lemma idle_find_asset assets name : idle (find_asset assets name).
Proof. induction assets as [|a assets IH]; cbn [find_asset]; repeat first [apply IH|quiet_step]. Qed.
Lemma idle_go_version org repo latest : idle (GetGoVersionForLatestRevision org repo latest).
Proof.
  unfold GetGoVersionForLatestRevision, go_version_of_asset, go_version_of_file, Download, ExtractFileFromTarball,
    extract_file, GetGoVersion.
  repeat first [apply idle_command|apply idle_MustCompile|apply idle_GetFileContents|apply idle_find_asset|quiet_step].
Qed.
Lemma idle_clone url dest owner : idle (CloneRepo url dest owner).
Proof. unfold CloneRepo. quiet_solve. Qed.

(** ** The parts of the upgrade before the publication *)
Lemma idle_eksd_file repo : idle (updateEKSDistroReleasesFile repo).
Proof.
  unfold updateEKSDistroReleasesFile, getSupportedReleaseBranches, refresh_release, getLatestEKSDistroRelease.
  repeat first [apply idle_GetFileContents|quiet_step].
Qed.
Lemma idle_load path org name : idle (loadUpstreamProjectsTrackerFile path org name).
Proof. unfold loadUpstreamProjectsTrackerFile. quiet_solve. Qed.
Lemma idle_set_version f l target : idle (set_version f l target).
Proof. unfold set_version. quiet_solve. Qed.
Lemma idle_version_file repo file name value : idle (updateProjectVersionFile repo file name value).
Proof. unfold updateProjectVersionFile. quiet_solve. Qed.
Lemma idle_tracker l repo path : idle (updateUpstreamProjectsTrackerFile l repo path).
Proof. unfold updateUpstreamProjectsTrackerFile. quiet_solve. Qed.
Lemma idle_patches root repo latest total : idle (applyPatchesToRepo root repo latest total).
Proof.
  unfold applyPatchesToRepo. repeat first [apply idle_ExecCommand|apply idle_command|apply idle_MustCompile|quiet_step].
Qed.
Lemma idle_bottlerocket root path : idle (updateBottlerocketVersionFiles root path).
Proof.
  assert (∀ m, idle (ranged m)) as Hr by (intros m w o w' [= <- <-]; done).
  assert (∀ m formats c, idle (first_format m formats c)) as Hf.
  { intros m formats. induction formats as [|f formats IH]; intros c; cbn [first_format]; unfold as_string;
      repeat first [apply IH|quiet_step]. }
  assert (∀ m channels c, idle (first_version m channels c)) as Hv.
  { intros m channels. induction channels as [|x channels IH]; intros c; cbn [first_version]; unfold as_object;
      repeat first [apply IH|apply Hf|quiet_step]. }
  assert (∀ c f v, idle (verifyBRImageExists c f v)) as Hi.
  { intros c f v. unfold verifyBRImageExists. destruct (image_target _ _ _).
    unfold ReadURL, unmarshal_object, field, as_object, as_number. quiet_solve. }
  unfold updateBottlerocketVersionFiles, updateBottlerocketReleasesFile, update_channel, update_format,
    updateBottlerocketHostContainerMetadata, update_container, container_source, field, as_object, as_string.
  repeat first [apply Hr|apply Hv|apply Hi|apply idle_GetLatestRevision|apply idle_GetFileContents|apply idle_command|quiet_step].
Qed.
Lemma idle_new_branch repo head commit : idle (new_branch repo head commit).
Proof. unfold new_branch, Checkout, ResetToMain. quiet_solve. Qed.
Lemma idle_eksd repo commit : idle (eksd_upgrade repo commit).
Proof. unfold eksd_upgrade. repeat first [apply idle_new_branch|apply idle_eksd_file|quiet_step]. Qed.
Lemma idle_upgrade_go repo name org r latest current l t u : idle (upgrade_go_version repo name org r latest current l t u).
Proof.
  unfold upgrade_go_version, go_minor.
  repeat first [apply idle_go_version|apply idle_set_version|apply idle_version_file|quiet_step].
Qed.
Lemma idle_upgrade_files repo name org r latest current patches u :
  idle (upgrade_files repo name org r latest current patches u).
Proof.
  unfold upgrade_files, updateProjectReadmeVersion, upgrade_patches, upgrade_checksums, updateChecksumsAttributionFiles,
    updateCiliumImageDigestFiles.
  repeat first [apply idle_load|apply idle_set_version|apply idle_version_file|apply idle_upgrade_go|apply idle_tracker
    |apply idle_command|apply idle_patches|quiet_step].
Qed.
Lemma idle_project repo commit name org r : idle (project_upgrade repo commit name org r).
Proof.
  unfold project_upgrade, existing_project_upgrade, count_patches, upgrade_bottlerocket, Checkout.
  repeat first [apply idle_load|apply idle_latest|apply idle_new_branch|apply idle_upgrade_files|apply idle_bottlerocket
    |quiet_step].
Qed.
End quiet.

(** ** Sequences of publishing calls

    [traces m P Q]: a run of [m] makes the calls of the beginning of a sequence of [P], all of
    them if it returns, and then what it returns satisfies [Q]. *)
Definition traces {A} (m : prog A) (P : list string → Prop) (Q : A → Prop) : Prop :=
  ∀ w o w', m w = (o, w') → ∃ full k, P full ∧ k `prefix_of` full ∧
    obs as_publishing w' = obs as_publishing w ++ k ∧ ∀ a, o = Ret a → k = full ∧ Q a.

Definition anything {A} : A → Prop := λ _, True.

Lemma traces_bind {A B} (m : prog A) (k : A → prog B) P1 Q1 P2 Q2 (P : list string → Prop) :
  traces m P1 Q1 → (∀ a, Q1 a → traces (k a) P2 Q2) → (∃ l, P2 l) →
  (∀ l1 l2, P1 l1 → P2 l2 → P (l1 ++ l2)) → traces (m ≫= k) P Q2.
Proof.
  intros Hm Hk [l0 Hl0] HP w o w' [(a & w1 & H1 & H2)|(o1 & H1 & Hn & Ho)]%bind_any;
    apply Hm in H1 as (full & k1 & HP1 & Hpre & Hobs & Hret).
  - destruct (Hret a eq_refl) as [-> HQ]. apply (Hk a HQ) in H2 as (full2 & k2 & HP2 & Hpre2 & Hobs2 & Hret2).
    exists (full ++ full2), (full ++ k2). split; [by apply HP|]. split; [by apply prefix_app|].
    split; [by rewrite Hobs2, Hobs, app_assoc|]. intros b Hb. destruct (Hret2 b Hb) as [-> ?]. done.
  - exists (full ++ l0), k1. split; [by apply HP|]. split; [by apply prefix_app_r|]. split; [done|].
    intros b Hb. by destruct (Ho b).
Qed.

Lemma traces_weaken {A} (m : prog A) (P P' : list string → Prop) (Q Q' : A → Prop) :
  traces m P Q → (∀ l, P l → P' l) → (∀ a, Q a → Q' a) → traces m P' Q'.
Proof.
  intros Hm HP HQ w o w' H. apply Hm in H as (full & k & ? & ? & ? & Hret). exists full, k.
  split; [by apply HP|]. split; [done|]. split; [done|]. intros a Ha. destruct (Hret a Ha). auto.
Qed.

Lemma traces_idle {A} (m : prog A) : preserves (quiet as_publishing) m → traces m (λ l, l = []) anything.
Proof.
  intros Hm w o w' H. exists [], []. split; [done|]. split; [done|]. rewrite app_nil_r. split; [by eapply Hm|done].
Qed.

(** What is not observed before or after. *)
Lemma traces_after {A B} (m : prog A) (k : A → prog B) P Q :
  preserves (quiet as_publishing) m → (∀ a, traces (k a) P Q) → (∃ l, P l) → traces (m ≫= k) P Q.
Proof.
  intros Hm Hk Hl. eapply (traces_bind m k (λ l, l = []) anything P Q); [by apply traces_idle|auto|done|].
  by intros l1 l2 ->.
Qed.

Lemma traces_ret {A} (a : A) (Q : A → Prop) : Q a → traces (mret a) (λ l, l = []) Q.
Proof.
  intros HQ w o w' [= <- <-]. exists [], []. split; [done|]. split; [done|]. rewrite app_nil_r.
  split; [done|]. by intros b [= <-].
Qed.

Lemma traces_wrap {A} msg (m : prog A) P Q : traces m P Q → traces (wrap msg m) P Q.
Proof.
  intros Hm w o w' H. unfold wrap, recover, fail in H.
  destruct (m w) as [o1 w1] eqn:E. apply Hm in E as (full & k & HP & Hpre & Hobs & Hret).
  destruct o1; simplify_eq; exists full, k; naive_solver.
Qed.

Lemma traces_api {A} name args (answer : World → string + A) : name ∈ publishing_calls →
  traces (api name args answer) (λ l, l = [name]) anything.
Proof.
  intros Hn w o w' H. exists [name], [name]. split; [done|]. split; [done|]. split; [|done].
  assert (w' = log (ECall name args) w) as -> by (unfold api in H; destruct (answer w); by simplify_eq).
  rewrite obs_log. cbn [as_publishing]. apply slices_Contains_spec in Hn. by rewrite Hn.
Qed.

Lemma traces_git_op `{!Host, !Git} op args : "git." +:+ op ∈ publishing_calls →
  traces (git_op op args) (λ l, l = ["git." +:+ op]) anything.
Proof.
  intros Hn w o w' [= <- <-]. eexists _, _. split; [reflexivity|]. split; [reflexivity|]. split; [|done].
  rewrite obs_set_fs, obs_log. cbn [as_publishing]. apply slices_Contains_spec in Hn. by rewrite Hn.
Qed.

Lemma traces_recover {A} (m : prog A) h P Q : traces m P Q → (∀ e, preserves (quiet as_publishing) (h e)) →
  (∀ e a w w', h e w ≠ (Ret a, w')) → traces (recover m h) P Q.
Proof.
  intros Hm Hh Hno w o w' H. unfold recover in H.
  destruct (m w) as [o1 w1] eqn:E. apply Hm in E as (full & k & HP & Hpre & Hobs & Hret).
  destruct o1 as [a|e|p|c]; [simplify_eq; exists full, k; naive_solver| |simplify_eq; exists full, k; naive_solver..].
  exists full, k. split; [done|]. split; [done|]. split; [|intros a ->; by destruct (Hno e a w1 w')].
  apply Hh in H. unfold quiet in H. by rewrite H.
Qed.

(** ** The pull request *)
Section publication.
Context `{HH : !Host} `{HL : !VTLib} `{HS : !Semver} `{HG : !GitHub} `{HGit : !Git} `{HR : !RangeOrder}.

(** The calls of a pull request that is created or edited, and commented. *)
Definition pr_calls (warn : bool) : list (list string) :=
  [["PullRequests.List"; "PullRequests.Create"] ++ (if warn then ["Issues.CreateComment"] else []);
   ["PullRequests.List"; "PullRequests.Edit"] ++ (if warn then ["Issues.ListComments"; "Issues.CreateComment"] else [])].

Lemma traces_edit_call args answer :
  traces (api "PullRequests.Edit" args answer ≫= edited) (λ l, l = ["PullRequests.Edit"]) anything.
Proof.
  eapply (traces_bind _ _ _ _ (λ l, l = []));
    [apply traces_api; set_solver|intros r _|by eexists|by intros l1 l2 -> ->].
  apply traces_idle. unfold edited. quiet_solve.
Qed.

Lemma traces_edit p body owner warn : traces (edit_existing p body owner warn)
  (λ l, l = "PullRequests.Edit" :: if warn then ["Issues.ListComments"] else []) (λ r, r.2 = false).
Proof.
  unfold edit_existing. apply traces_after; [quiet_solve|intros _|by eexists].
  apply traces_after; [quiet_solve|intros n|by eexists].
  eapply (traces_bind _ _ _ _ (λ l, l = if warn then ["Issues.ListComments"] else []));
    [apply traces_edit_call|intros q _|by eexists|by intros l1 l2 -> ->].
  destruct warn; [|by apply traces_ret].
  apply traces_after; [quiet_solve|intros n'|by eexists].
  eapply (traces_bind _ _ _ _ (λ l, l = []));
    [apply traces_wrap, traces_api; set_solver|intros cs _|by eexists|by intros l1 l2 -> ->].
  apply traces_ret. apply no_comment_found.
Qed.

Lemma traces_pr title body owner base headOwner head warn comment :
  traces (CreatePullRequest title body owner base headOwner head warn comment) (λ l, l ∈ pr_calls warn) anything.
Proof.
  unfold CreatePullRequest. set (last := if warn then ["Issues.CreateComment"] else []).
  eapply (traces_bind _ _ _ _ (λ l, "PullRequests.List" :: l ∈ pr_calls warn));
    [apply traces_wrap, traces_api; set_solver|intros prs _| |by intros l1 l2 ->].
  2: { eexists. left. }
  assert (∀ r : PullRequest * bool, r.2 = false → traces (when (warn && negb r.2) (
      number ← deref (pr_Number r.1);
      recover (api "Issues.CreateComment" [owner; BuildToolingRepoName; Itoa number; comment]
                (λ w, gh_create_comment w owner BuildToolingRepoName number comment))
        (λ e, url ← deref (HTMLURL r.1);
              fail ("commenting failed patch apply warning on pull request [" +:+ url +:+ "]: " +:+ e))))
      (λ l, l = last) anything) as Hlast.
  { intros r ->. rewrite andb_true_r. unfold last. destruct warn; cbn [when]; [|by apply traces_ret].
    apply traces_after; [quiet_solve|intros n|by eexists].
    eapply traces_recover; [apply traces_api; set_solver|intros e; quiet_solve|].
    intros e a w w'. destruct (HTMLURL r.1); by intros H. }
  destruct prs as [|p prs].
  - eapply (traces_bind _ _ (λ l, l = ["PullRequests.Create"]) (λ r, r.2 = false) (λ l, l = last) anything);
      [|exact Hlast|by eexists|].
    + unfold create_new. eapply (traces_bind _ _ (λ l, l = ["PullRequests.Create"]) anything (λ l, l = []));
        [|intros q _; by apply traces_ret|by eexists|by intros l1 l2 -> ->].
      eapply (traces_bind _ _ _ _ (λ l, l = []));
        [apply traces_wrap, traces_api; set_solver|intros q _|by eexists|by intros l1 l2 -> ->].
      apply traces_idle. quiet_solve.
    + intros l1 l2 -> ->. left.
  - eapply (traces_bind _ _ _ _ (λ l, l = last) anything); [apply traces_edit|exact Hlast|by eexists|].
    intros l1 l2 -> ->. right. unfold last. destruct warn; left.
Qed.

(** ** The order of a publication *)

(** The complete sequences of publishing calls of a run: none, when nothing was updated; the
    commit alone in a dry run; otherwise commit, push and pull request. *)
Definition publications (dryRun : bool) : list (list string) :=
  [] :: if dryRun then [["git.Commit"]]
        else map (λ pr, "git.Commit" :: "git.Push" :: pr) (pr_calls false ++ pr_calls true).

Lemma traces_publish dry repo name base head token u :
  traces (publish_files dry repo name base head token u) (λ l, l ∈ publications dry) anything.
Proof.
  unfold publish_files. destruct (up_files u) as [|f fs].
  { eapply traces_weaken; [by apply (traces_ret tt anything)|intros l ->; left|done]. }
  apply traces_after; [unfold git_Add; quiet_solve|intros _|eexists; left].
  assert (∀ op args, "git." +:+ op ∈ publishing_calls → ∀ e : option git_error → prog unit,
    (∀ r, preserves (quiet as_publishing) (e r)) → traces (r ← git_op op args; e r) (λ l, l = ["git." +:+ op]) anything) as Hop.
  { intros op args Hin e He. eapply (traces_bind _ _ _ _ (λ l, l = [])); [by apply traces_git_op| |by eexists|by intros l1 l2 -> ->].
    intros r _. apply traces_idle, He. }
  eapply (traces_bind _ _ (λ l, l = ["git.Commit"]) anything (λ l, "git.Commit" :: l ∈ publications dry)).
  - apply traces_wrap. unfold git_Commit, env_or.
    apply traces_after; [quiet_solve|intros n|by eexists]. apply traces_after; [quiet_solve|intros m|by eexists].
    apply (Hop "Commit"); [set_solver|]. intros [|]; quiet_solve.
  - intros _ _. destruct dry; [eapply traces_weaken; [by apply (traces_ret tt anything)|intros l ->; right; left|done]|].
    eapply (traces_bind _ _ (λ l, l = ["git.Push"]) anything (λ l, "git.Commit" :: "git.Push" :: l ∈ publications false)).
    + apply traces_wrap. unfold Push. apply (Hop "Push"); [set_solver|]. intros [[]|]; quiet_solve.
    + intros _ _. apply traces_wrap. eapply traces_weaken; [apply traces_pr| |done].
      intros l Hl. right. apply (list_elem_of_fmap_2 (λ pr, "git.Commit" :: "git.Push" :: pr)).
      apply elem_of_app. destruct (up_warn u); [by right|by left].
    + eexists. right. left.
    + by intros l1 l2 ->.
  - destruct dry; eexists; right; left.
  - by intros l1 l2 ->.
Qed.

(** C2: the order of publication. In every run of the upgrade command, however it ends, the
    publishing calls are the beginning of one of the complete sequences: one commit, then one
    push, then the calls of one pull request, which is created or edited; in a dry run
    nothing after the commit; or none at all, which is complete when nothing was updated. A
    run that returns has made a complete sequence. *)
Theorem publication_order opts w o w' : Run opts w = (o, w') →
  ∃ full k, full ∈ publications (DryRun opts) ∧ k `prefix_of` full ∧
    obs as_publishing w' = obs as_publishing w ++ k ∧ (o = Ret tt → k = full).
Proof.
  intros H. assert (traces (Run opts) (λ l, l ∈ publications (DryRun opts)) anything) as Ht.
  { unfold Run, require_env.
    do 7 (apply traces_after; [quiet_solve|intros ?|eexists; left]).
    destruct (slices_Contains _ _); [eapply traces_weaken; [by apply (traces_ret tt anything)|intros l ->; left|done]|].
    apply traces_after; [apply preserves_wrap; [apply _|apply idle_clone]|intros commit|eexists; left].
    apply traces_after; [unfold Worktree; quiet_solve|intros _|eexists; left].
    apply traces_after; [destruct (isEKSDistroUpgrade _); [apply idle_eksd|apply idle_project]|intros u|eexists; left].
    apply traces_publish. }
  apply Ht in H as (full & k & ? & ? & ? & Hret). exists full, k. split; [done|]. split; [done|]. split; [done|].
  intros Ho. by destruct (Hret tt Ho).
Qed.

(** C25: which projects are changed. If the upgrade of a project, after the clone and before
    the publication that [Run] makes around it, writes a file or does
    anything with git, then its directory exists (or its state is unknown), the tracker file
    lists the repository, the last entry with its name has exactly one version, which has a
    tag, and the latest revision found for this tag is an upgrade or the project is one of the
    two with an unconventional flow. *)
Theorem changed_projects repo commit name org r w o w' :
  project_upgrade repo commit name org r w = (o, w') → obs as_change w' ≠ obs as_change w →
  ∃ c m l i j rr v w1 latest needsUpgrade w2,
    (host_fault w (EStat (PathJoin [repo; PathJoin ["projects"; name]])) = None →
     is_Some (w_fs w !! PathJoin [repo; PathJoin ["projects"; name]])) ∧
    w_fs w !! PathJoin [repo; UpstreamProjectsTrackerFile] = Some (File c m) ∧ yaml_projects c = Some l ∧
    last_named l org r i j ∧ repo_at l (i, j) = Some rr ∧ Versions rr = [v] ∧ Tag v ≠ "" ∧
    latest_project_revision name org r (Tag v) w1 = (Ret (latest, needsUpgrade), w2) ∧
    (needsUpgrade = true ∨ name ∈ ProjectsWithUnconventionalUpgradeFlows).
Proof.
  intros H Hch. unfold project_upgrade in H. set (root := PathJoin [repo; PathJoin ["projects"; name]]) in *.
  set (tracker := PathJoin [repo; UpstreamProjectsTrackerFile]) in *.
  apply bind_any in H as [(st & w1 & Hst & H)|(o1 & Hx & _)]; [|by quiet_of as_change Hx].
  pose proof Hst as Hfs1. same_fs_of Hfs1. pose proof Hst as Hq1. quiet_of as_change Hq1.
  assert (host_fault w (EStat root) = None → st = StatNotExist ∨ is_Some (w_fs w !! root)) as Hroot.
  { intros Hf. unfold Stat in Hst. rewrite Hf in Hst. cbn [log w_fs] in Hst.
    destruct (w_fs w !! root); [right; by eexists|left; by injection Hst]. }
  assert (st ≠ StatNotExist ∧ existing_project_upgrade repo commit name org r w1 = (o, w')) as [Hst' H'].
  { destruct st; [done| |done]. exfalso. injection H as _ <-. by apply Hch. }
  clear H. unfold existing_project_upgrade in H'. fold root tracker in H'.
  apply bind_any in H' as [(patches & w2 & Hx & H)|(o1 & Hx & _)].
  2:{ exfalso. apply Hch. unfold count_patches in Hx. quiet_of as_change Hx. congruence. }
  unfold count_patches in Hx. pose proof Hx as Hfs2. same_fs_of Hfs2. quiet_of as_change Hx.
  apply bind_any in H as [([l target] & w3 & Hload & H)|(o1 & Hl & _)].
  2:{ exfalso. apply Hch. unfold loadUpstreamProjectsTrackerFile in Hl. quiet_of as_change Hl. congruence. }
  pose proof Hload as Hq3. unfold loadUpstreamProjectsTrackerFile in Hq3. quiet_of as_change Hq3.
  apply wrap_ret, load_ret in Hload as (c & m & Hc & Hy & Ht & _). cbn [fst snd] in *.
  assert (obs as_change w3 = obs as_change w) as Hq by congruence.
  case_bool_decide as Hlen; [exfalso; injection H as _ <-; by apply Hch|].
  destruct (target_versions l target) as [|v vs] eqn:Hv; [exfalso; injection H as _ <-; by apply Hch|].
  rewrite (bind_step _ _ _ v w3) in H by done.
  destruct (Tag v =s "") eqn:Htag; [exfalso; injection H as _ <-; by apply Hch|]. apply streq_false in Htag.
  apply bind_any in H as [([latest needs] & w4 & Hlat & H)|(o1 & Hl & _)].
  2:{ exfalso. apply Hch. apply (unseen_latest as_change queries_no_change) in Hl; [|done]. unfold quiet in Hl. congruence. }
  unfold target_versions in Hv. destruct target as [[i j]|]; [|done]. cbn [mbind option_bind] in Hv.
  destruct (repo_at l (i, j)) as [rr|] eqn:Hrr; [|done].
  exists c, m, l, i, j, rr, v, w3, latest, needs, w4. split.
  { intros Hf. by destruct (Hroot Hf). }
  split; [congruence|]. split; [done|]. split; [by apply find_target_spec|]. split; [done|].
  split; [destruct vs; [done|cbn [length] in Hlen; lia]|]. split; [done|]. split; [done|].
  destruct needs; [by left|]. right. cbn [orb] in H.
  destruct (slices_Contains _ _) eqn:E; [by apply slices_Contains_spec|]. exfalso. injection H as _ <-. apply Hch.
  apply (unseen_latest as_change queries_no_change) in Hlat; [|done]. unfold quiet in Hlat. congruence.
Qed.

(** A project in neither of the tables that say where a Go version comes from. *)
Definition without_go_source (project : string) : Prop :=
  table_get ProjectReleaseAssets project = None ∧ table_get ProjectGoVersionSourceOfTruth project = None.

(** Its Go version is found to be the empty string, which has no second component. *)
Lemma unknown_go_version_eq repo name org r latest major minor n l target u cwd w :
  without_go_source (org +:+ "/" +:+ r) → host_cwd = Some cwd →
  Contains major "." = false → Contains minor "." = false → Atoi minor = Some n →
  upgrade_go_version repo name org r latest (major +:+ "." +:+ minor) l target u w = (Panic "index out of range", w).
Proof using.
  intros [Ha Hs] Hcwd Hmaj Hmin Hn. unfold upgrade_go_version.
  assert ((major +:+ "." +:+ minor =s "N/A") = false) as ->.
  { apply streq_false. intros E. assert (Contains "N/A" "." = true) as Hc; [|done]. rewrite <-E.
    apply Contains_spec. by exists major, minor. }
  cbn [negb]. rewrite (bind_step _ _ _ "" w).
  2:{ apply wrap_ok. unfold GetGoVersionForLatestRevision. rewrite (bind_step _ _ _ cwd w).
      - by rewrite Ha, Hs.
      - apply wrap_ok. unfold Getwd. by rewrite Hcwd. }
  rewrite (bind_step _ _ _ n w).
  2:{ unfold go_minor. change ("." +:+ minor) with (String "."%char minor). rewrite Split_char_app, Split_absent by done.
      rewrite (bind_step _ _ _ minor w) by done. by rewrite Hn. }
  reflexivity.
Qed.

(** A version file is written, or the update is an error; of a file that is there, and on a
    machine where nothing fails, it is written. *)
Definition version_file (repo file name : string) : string := PathJoin [repo; PathJoin ["projects"; name; file]].

Lemma version_file_cases repo file name value w o w' :
  updateProjectVersionFile repo file name value w = (o, w') →
  (∃ e, o = Err e) ∧ torn (version_file repo file name) (value +:+ nl) (w_fs w) (w_fs w') ∨
  ∃ p m, o = Ret p ∧ w_fs w' = <[version_file repo file name := File (value +:+ nl) m]> (w_fs w).
Proof using.
  intros H. unfold updateProjectVersionFile in H. fold (version_file repo file name) in H.
  apply bind_any in H as [(st & w1 & Hst & H)|(o1 & Hx & Hno & _)].
  2:{ unfold Stat in Hx. destruct (host_fault w _); [|destruct (w_fs _ !! _)]; injection Hx as <- _; naive_solver. }
  same_fs_of Hst. rewrite <-Hst.
  assert (∀ (mode : Z), (_ ← wrap ("writing project " +:+ file +:+ " file [" +:+ version_file repo file name +:+ "]")
      (WriteFile (version_file repo file name) (value +:+ nl) mode);
      mret (PathJoin ["projects"; name; file])) w1 = (o, w') →
    (∃ e, o = Err e) ∧ torn (version_file repo file name) (value +:+ nl) (w_fs w1) (w_fs w') ∨
    ∃ p m, o = Ret p ∧ w_fs w' = <[version_file repo file name := File (value +:+ nl) m]> (w_fs w1)) as Hwrite.
  { intros mode Hw. unfold wrap, recover, fail, mbind, go_mbind, go_bind in Hw.
    destruct (WriteFile _ _ _ w1) as [[[]|e|p|c] w2] eqn:E; injection Hw as <- <-.
    - right. apply WriteFile_ret in E as [[m' Hfs] _]. by eexists _, m'.
    - left. apply WriteFile_not_ret in E as [_ E]; [|done]. by split; [eexists|].
    - apply WriteFile_not_ret in E as [[? ?] _]; done.
    - apply WriteFile_not_ret in E as [[? ?] _]; done. }
  destruct st as [[c m|]| |e].
  - rewrite bind_ret_l in H. by apply Hwrite in H.
  - rewrite bind_ret_l in H. by apply Hwrite in H.
  - injection H as <- <-. left. split; [by eexists|by left].
  - injection H as <- <-. left. split; [by eexists|by left].
Qed.

Lemma version_file_written repo file name value w c m : (∀ w e, host_fault w e = None) →
  w_fs w !! version_file repo file name = Some (File c m) →
  ∃ p w', updateProjectVersionFile repo file name value w = (Ret p, w').
Proof using.
  intros Hno Hf. unfold updateProjectVersionFile. fold (version_file repo file name).
  rewrite (bind_step _ _ _ (StatOk (File c m)) (log (EStat (version_file repo file name)) w)).
  2:{ unfold Stat. rewrite Hno. cbn [log w_fs]. by rewrite Hf. }
  rewrite bind_ret_l. unfold wrap, recover, WriteFile, store, mbind, go_mbind, go_bind. rewrite Hno. cbn [log w_fs].
  rewrite Hf. by eexists _, _.
Qed.

(** C38: a project that no table knows. Let the tracker file have a first version for it
    whose Go version is not [N/A] and has a numeric minor version. Then the upgrade of its
    files never returns. Either it ends with an error, and every file is as it was except that
    a failing write may have left a part of the revision in GIT_TAG; or the revision has been
    written to GIT_TAG, nothing else has, and the program panics. Where no call fails and
    GIT_TAG is a file, it is the panic. *)
Theorem unknown_go_version_panics repo name org r latest patches u cwd w o w' text mt l i j rr v vs major minor n :
  without_go_source (org +:+ "/" +:+ r) → host_cwd = Some cwd →
  w_fs w !! PathJoin [repo; UpstreamProjectsTrackerFile] = Some (File text mt) → yaml_projects text = Some l →
  find_target l org r = Some (i, j) → repo_at l (i, j) = Some rr → Versions rr = v :: vs →
  GoVersion v = major +:+ "." +:+ minor →
  Contains major "." = false → Contains minor "." = false → Atoi minor = Some n →
  upgrade_files repo name org r latest (GoVersion v) patches u w = (o, w') →
  let tag := version_file repo GitTagFile name in
  ((∃ e, o = Err e) ∧ torn tag (latest +:+ nl) (w_fs w) (w_fs w') ∨
   o = Panic "index out of range" ∧ ∃ m, w_fs w' = <[tag := File (latest +:+ nl) m]> (w_fs w)) ∧
  ((∀ w e, host_fault w e = None) → (∃ c m, w_fs w !! tag = Some (File c m)) → o = Panic "index out of range").
Proof using.
  intros Hu Hcwd Htr Hy Ht Hrr Hv Hgo Hmaj Hmin Hn H tag. rewrite Hgo in H. unfold upgrade_files in H.
  set (tracker := PathJoin [repo; UpstreamProjectsTrackerFile]) in *.
  assert (host_fault w (ERead tracker) = None →
    loadUpstreamProjectsTrackerFile tracker org r w = (Ret (l, Some (i, j)), log (ERead tracker) w)) as Hload.
  { intros Hh. unfold loadUpstreamProjectsTrackerFile. rewrite (bind_step _ _ _ text (log (ERead tracker) w)).
    - rewrite Hy. by rewrite Ht.
    - unfold wrap, recover, ReadFile, attempt. rewrite Hh. cbn [log w_fs]. by rewrite Htr. }
  destruct (host_fault w (ERead tracker)) as [e|] eqn:Hh.
  { assert (∃ e', loadUpstreamProjectsTrackerFile tracker org r w = (Err e', log (ERead tracker) w)) as [e' Hl].
    { eexists. unfold loadUpstreamProjectsTrackerFile. eapply bind_err, wrap_err. unfold ReadFile, attempt. by rewrite Hh. }
    rewrite (bind_err _ _ _ _ _ (wrap_err _ _ _ _ _ Hl)) in H. injection H as <- <-.
    split; [left; split; [by eexists|by left]|]. intros Hno. by rewrite Hno in Hh. }
  specialize (Hload eq_refl). rewrite (bind_step _ _ _ _ _ (wrap_ok _ _ _ _ _ Hload)) in H. cbv beta iota in H.
  set (w1 := log (ERead tracker) w) in *.
  assert (∃ l2, set_version (set_tag latest) l (Some (i, j)) w1 = (Ret l2, w1)) as [l2 Hset].
  { unfold set_version, target_versions. cbn [mbind option_bind]. rewrite Hrr, Hv. by eexists. }
  rewrite (bind_step _ _ _ _ _ Hset) in H.
  destruct (updateProjectVersionFile repo GitTagFile name latest w1) as [o2 w2] eqn:E.
  apply version_file_cases in E as Hcases. destruct Hcases as [[[e ->] Htorn]|(p & m & -> & Hm)].
  - rewrite (bind_err _ _ _ _ _ (wrap_err _ _ _ _ _ E)) in H.
    injection H as <- <-. split; [left; split; [by eexists|done]|]. intros Hno (c & m & Hf).
    destruct (version_file_written repo GitTagFile name latest w1 c m Hno Hf) as (p & w3 & E2). congruence.
  - rewrite (bind_step _ _ _ _ _ (wrap_ok _ _ _ _ _ E)) in H.
    unfold mbind, go_mbind, go_bind in H. erewrite unknown_go_version_eq in H by done.
    injection H as <- <-. split; [|done]. right. split; [done|]. by exists m.
Qed.
End publication.

(** ** A project that is out of date *)
Definition helm_repository : repository := {|
  rp_releases := [[("v8", false); ("v7", false)]];
  rp_tags := [[("v8", "c8"); ("v7", "c7")]];
  rp_date sha := match sha with String "c" n => Atoi n | _ => None end |}.

Definition helm_github : GitHub := {|
  gh_releases := @gh_releases (hosting helm_repository); gh_tags := @gh_tags (hosting helm_repository);
  gh_commits := @gh_commits (hosting helm_repository); gh_commit_date := @gh_commit_date (hosting helm_repository);
  gh_contents := @gh_contents (hosting helm_repository);
  gh_release_assets := @gh_release_assets (hosting helm_repository);
  gh_pulls := @gh_pulls sample_forge_github; gh_edit_pull := @gh_edit_pull sample_forge_github;
  gh_create_pull := @gh_create_pull sample_forge_github; gh_comments := @gh_comments sample_forge_github;
  gh_create_comment := @gh_create_comment sample_forge_github; gh_page_fuel := 10 |}.

Definition quiet_git : Git := {|
  git_call w _ _ := (None, w_fs w);
  git_resolve _ _ _ := inr "0a1b2c" |}.

Definition helm_start : World := mkWorld
  {[ "/work/SKIPPED_PROJECTS" := File "torvalds/linux" 420;
     "/work/eks-anywhere-build-tooling/UPSTREAM_PROJECTS.yaml" := File (print_tracker tracker_old) 420;
     "/work/eks-anywhere-build-tooling/hack/boilerplate.yq.txt" := File "Copyright" 420;
     "/work/eks-anywhere-build-tooling/projects/fluxcd/helm" := DirNode;
     "/work/eks-anywhere-build-tooling/projects/fluxcd/helm/GIT_TAG" := File "v7" 420 ]}
  {[ "BASE_REPO_OWNER" := "aws"; "HEAD_REPO_OWNER" := "bot"; "GITHUB_TOKEN" := "secret" ]} [].

Definition run_helm (dryRun : bool) : outcome unit * World :=
  Run (HH := plain_host) (HL := tracker_lib) (HS := sample_semver) (HG := helm_github) (HGit := quiet_git)
    (HR := br_order) (mkUpgradeOptions "fluxcd/helm" dryRun) helm_start.

Lemma publication_order_witness :
  (run_helm false).1 = Ret tt ∧
  obs as_publishing (run_helm false).2 = ["git.Commit"; "git.Push"; "PullRequests.List"; "PullRequests.Create"] ∧
  obs as_publishing (run_helm true).2 = ["git.Commit"] ∧
  ∃ full k, full ∈ publications false ∧ k `prefix_of` full ∧
    obs as_publishing (run_helm false).2 = obs as_publishing helm_start ++ k ∧ (Ret tt = Ret tt → k = full).
Proof.
  split; [vm_compute; reflexivity|]. split; [vm_compute; reflexivity|]. split; [vm_compute; reflexivity|].
  apply (publication_order (HH := plain_host) (HL := tracker_lib) (HS := sample_semver) (HG := helm_github)
    (HGit := quiet_git) (HR := br_order) (mkUpgradeOptions "fluxcd/helm" false) helm_start (Ret tt) (run_helm false).2).
  vm_compute. reflexivity.
Defined.

Definition helm_repo : string := "/work/eks-anywhere-build-tooling".
Definition upgrade_helm : outcome upgrade * World :=
  project_upgrade (HH := plain_host) (HL := tracker_lib) (HS := sample_semver) (HG := helm_github) (HGit := quiet_git)
    (HR := br_order) helm_repo "0a1b2c" "fluxcd/helm" "fluxcd" "helm" helm_start.

Lemma changed_projects_witness :
  ∃ c m l i j rr v w1 latest needsUpgrade w2,
    ((None : option string) = None → is_Some (w_fs helm_start !! PathJoin [helm_repo; PathJoin ["projects"; "fluxcd/helm"]])) ∧
    w_fs helm_start !! PathJoin [helm_repo; UpstreamProjectsTrackerFile] = Some (File c m) ∧
    @yaml_projects tracker_lib c = Some l ∧
    last_named l "fluxcd" "helm" i j ∧ repo_at l (i, j) = Some rr ∧ Versions rr = [v] ∧ Tag v ≠ "" ∧
    latest_project_revision (HH := plain_host) (HS := sample_semver) (HG := helm_github)
      "fluxcd/helm" "fluxcd" "helm" (Tag v) w1 = (Ret (latest, needsUpgrade), w2) ∧
    (needsUpgrade = true ∨ "fluxcd/helm" ∈ ProjectsWithUnconventionalUpgradeFlows).
Proof.
  apply (changed_projects (HH := plain_host) (HL := tracker_lib) (HS := sample_semver) (HG := helm_github)
    (HGit := quiet_git) (HR := br_order) helm_repo "0a1b2c" "fluxcd/helm" "fluxcd" "helm" helm_start
    upgrade_helm.1 upgrade_helm.2).
  - apply surjective_pairing.
  - intros E. apply (f_equal (@length event)) in E. vm_compute in E. discriminate E.
Defined.

(** The project the tracker file of the repository has with Go 1.21 and no table knows. *)
Definition nutanix_lib : VTLib := {|
  untar _ := None;
  yaml_projects _ := Some [mkProject "nutanix-cloud-native"
    [mkRepo "cloud-provider-nutanix" [mkVersion "v0.3.2" "" "1.21"]]];
  print_projects _ := ""; yaml_eksd _ := None; print_eksd _ := "";
  yaml_metadata _ := None; print_metadata _ := ""; yaml_object _ := None; print_object _ := "";
  toml_value _ := None; float_text s := s |}.

Definition nutanix_tag : string := "/bt/projects/nutanix-cloud-native/cloud-provider-nutanix/GIT_TAG".
Definition nutanix_start : World :=
  mkWorld {[ "/bt/UPSTREAM_PROJECTS.yaml" := File "projects" 420; nutanix_tag := File "v0.3.2" 420 ]} ∅ [].

Definition upgrade_nutanix : outcome upgrade * World :=
  upgrade_files (HH := plain_host) (HL := nutanix_lib) (HG := eksd_github) "/bt"
    "nutanix-cloud-native/cloud-provider-nutanix" "nutanix-cloud-native" "cloud-provider-nutanix" "v0.3.3"
    ("1" +:+ "." +:+ "21") None (mkUpgrade [] "" "" "" false "") nutanix_start.

Lemma unknown_go_version_panics_witness :
  let tag := version_file "/bt" GitTagFile "nutanix-cloud-native/cloud-provider-nutanix" in
  tag = nutanix_tag ∧
  ((∃ e, upgrade_nutanix.1 = Err e) ∧ torn tag ("v0.3.3" +:+ nl) (w_fs nutanix_start) (w_fs upgrade_nutanix.2) ∨
   upgrade_nutanix.1 = Panic "index out of range" ∧
   ∃ m, w_fs upgrade_nutanix.2 = <[tag := File ("v0.3.3" +:+ nl) m]> (w_fs nutanix_start)) ∧
  ((∀ w e, host_fault (Host := plain_host) w e = None) → (∃ c m, w_fs nutanix_start !! tag = Some (File c m)) →
   upgrade_nutanix.1 = Panic "index out of range").
Proof.
  split; [vm_compute; reflexivity|].
  apply (unknown_go_version_panics (HH := plain_host) (HL := nutanix_lib) (HG := eksd_github) "/bt"
    "nutanix-cloud-native/cloud-provider-nutanix" "nutanix-cloud-native" "cloud-provider-nutanix" "v0.3.3"
    None (mkUpgrade [] "" "" "" false "") "/work" nutanix_start upgrade_nutanix.1 upgrade_nutanix.2 "projects" 420
    [mkProject "nutanix-cloud-native" [mkRepo "cloud-provider-nutanix" [mkVersion "v0.3.2" "" ("1" +:+ "." +:+ "21")]]]
    0 0 (mkRepo "cloud-provider-nutanix" [mkVersion "v0.3.2" "" ("1" +:+ "." +:+ "21")])
    (mkVersion "v0.3.2" "" ("1" +:+ "." +:+ "21")) [] "1" "21" 21%Z);
    [split; vm_compute; reflexivity|vm_compute; reflexivity..|apply surjective_pairing].
Defined.
