(* ===== verification/VTCommands.v ===== *)
(** * version-tracker: the display and list-projects commands

    [pkg/commands/display] and [pkg/commands/listprojects], and the exit status of the
    commands in [cmd]. The table package is another library: the rows given to it are calls
    in the trace, as is what is printed directly. *)
From S2P Require Import Prelude GoStrings World VTTypes VTUtil VTGithub VTGit VTBottlerocket VTUpgrade.
From stdpp Require Import base tactics strings list gmap.

Local Open Scope string_scope.
Local Open Scope list_scope.

Section commands.
Context `{HH : !Host} `{HL : !VTLib} `{HS : !Semver} `{HG : !GitHub} `{HGit : !Git} `{HR : !RangeOrder}.

Definition base_owner : prog string :=
  owner ← Getenv BaseRepoOwnerEnvvar;
  mret (if owner =s "" then DefaultBaseRepoOwner else owner).

Definition load_projects (repo : string) : prog ProjectsList :=
  contents ← wrap "reading upstream projects tracker file"
    (ReadFile (PathJoin [repo; UpstreamProjectsTrackerFile]));
  match yaml_projects contents with
  | None => fail "unmarshalling upstream projects tracker file"
  | Some projectsList => mret projectsList
  end.

(** ** display *)

(** The tag or else the commit of the last version. *)
Definition current_revision (repo : Repo) : prog string :=
  match last (Versions repo) with
  | None => panic "index out of range"
  | Some v => mret (if negb (Tag v =s "") then Tag v else Commit v)
  end.

(** The rows of one project; [true] when the latest version alone was printed and the command
    is over. *)
Fixpoint display_repos (opts : DisplayOptions) (org : string) (repos : list Repo)
    (rows : list ProjectVersionInfo) : prog (list ProjectVersionInfo * bool) :=
  match repos with
  | [] => mret (rows, false)
  | repo :: repos =>
      current ← current_revision repo;
      let fullRepoName := org +:+ "/" +:+ r_Name repo in
      if negb (d_ProjectName opts =s "") && negb (d_ProjectName opts =s fullRepoName)
      then display_repos opts org repos rows
      else
        latest ← wrap "getting latest revision from GitHub" (GetLatestRevision org (r_Name repo) current);
        if PrintLatestVersion opts then
          _ ← Call "fmt.Println" [latest.1];
          mret (rows, true)
        else display_repos opts org repos (rows ++ [mkInfo org (r_Name repo) current latest.1])
  end.

Fixpoint display_projects (opts : DisplayOptions) (projects : ProjectsList) (rows : list ProjectVersionInfo)
    : prog (list ProjectVersionInfo * bool) :=
  match projects with
  | [] => mret (rows, false)
  | project :: projects =>
      r ← display_repos opts (Org project) (Repos project) rows;
      if (r.2 : bool) then mret r else display_projects opts projects r.1
  end.

Definition add_row (cells : list string) : prog unit := Call "table.AddRow" cells.

Definition display_Run (opts : DisplayOptions) : prog unit :=
  _ ← require_env "GITHUB_TOKEN";
  cwd ← wrap "retrieving current working directory" Getwd;
  baseRepoOwner ← base_owner;
  let repo := PathJoin [cwd; BuildToolingRepoName] in
  _ ← wrap "cloning build-tooling repo" (CloneRepo (Sprintf1 BuildToolingRepoURL baseRepoOwner) repo "");
  _ ← when (negb (d_ProjectName opts =s "")) (
    st ← Stat (PathJoin [repo; "projects"; d_ProjectName opts]);
    match st with
    | StatNotExist => fail ("invalid project name " +:+ d_ProjectName opts)
    | _ => mret tt
    end);
  projects ← load_projects repo;
  r ← display_projects opts projects [];
  if (r.2 : bool) then mret tt else
  _ ← Call "table.New" (map ToUpper ["Organization"; "Repository"; "Current Version"; "Latest Version"]);
  _ ← forM r.1 (λ i, add_row [i_Org i; i_Repo i; CurrentVersion i; LatestVersion i]);
  Call "table.Print" [].

(** ** list-projects *)

(** One project: its row, and the longest names so far. *)
Definition list_project (acc : list ProjectVersionInfo * (nat * nat)) (project : Project)
    : list ProjectVersionInfo * (nat * nat) :=
  let '(rows, (maxOrg, maxRepo)) := acc in
  let repoList := map r_Name (Repos project) in
  let padding := Repeat nl (length repoList / 2) in
  let org := if bool_decide (2 < length repoList)%nat then padding +:+ Org project +:+ padding else Org project in
  (rows ++ [mkInfo org (StrJoin repoList nl) "" ""],
   (Nat.max maxOrg (String.length (Org project)), foldl Nat.max maxRepo (map String.length repoList))).

Definition listprojects_Run : prog unit :=
  cwd ← wrap "retrieving current working directory" Getwd;
  baseRepoOwner ← base_owner;
  let repo := PathJoin [cwd; BuildToolingRepoName] in
  _ ← wrap "cloning build-tooling repo" (CloneRepo (Sprintf1 BuildToolingRepoURL baseRepoOwner) repo "");
  projects ← load_projects repo;
  let '(rows, (maxOrg, maxRepo)) := foldl list_project ([], (0, 0)%nat) projects in
  _ ← Call "table.New" (map ToUpper ["Organization"; "Repository"]);
  let separator := add_row [Repeat "-" maxOrg; Repeat "-" maxRepo] in
  _ ← separator;
  _ ← forM rows (λ i, _ ← add_row [i_Org i; i_Repo i]; separator);
  Call "table.Print" [].

(** ** cmd: [log.Fatalf] on an error *)
Definition displayCmd (opts : DisplayOptions) : prog unit := fatal_on_err (display_Run opts).
Definition listProjectsCmd : prog unit := fatal_on_err listprojects_Run.
Definition upgradeCmd (opts : UpgradeOptions) : prog unit := fatal_on_err (Run opts).
End commands.

Example list_project_ex : foldl list_project ([], (0, 0)%nat)
    [mkProject "aws" [mkRepo "a" []; mkRepo "bb" []]; mkProject "x" [mkRepo "c" []; mkRepo "d" []; mkRepo "e" []; mkRepo "f" []]] =
  ([mkInfo "aws" ("a" +:+ nl +:+ "bb") "" ""; mkInfo (nl +:+ nl +:+ "x" +:+ nl +:+ nl) (StrJoin ["c"; "d"; "e"; "f"] nl) "" ""],
   (3, 2)%nat).
Proof. vm_compute. reflexivity. Qed.
